(* ===== verification/_CoqProject ===== *)
-Q . S2P
Prelude.v
Memory.v
Hw.v
VfsTypes.v
Path.v
Vfs.v
FdTable.v
BTree.v
TmpFs.v
Pmm.v
Vmm.v
VmmFacts.v
Heap.v
KernelMap.v
VmmDemo.v
Elf.v
ElfFacts.v
Block.v
Ata.v
AtaFacts.v
AtaDemo.v
Apic.v
Board.v
ApicFacts.v
ApicDemo.v
PartTable.v
FatCodec.v
Fat32.v
FatImage.v
FatNames.v
FatVolume.v
FatChain.v
FatDir.v
FatOps.v
FatSim.v
FatOnAta.v
DiskDemo.v
Keyboard.v
Task.v
Sched.v
Spawn.v
Launched.v
Utf8.v
LiveFs.v
Interrupts.v
InterruptFacts.v
InterruptDemo.v
Syscall.v
SyscallFacts.v
System.v
SyscallEntry.v
UserEntry.v
Kmain.v
KmainFacts.v
KmainDemo.v
UserLib.v
Hello.v
Shell.v
ShellFacts.v
PsFacts.v
InputFacts.v
Terminal.v
FontData.v
Booted.v
