(* ===== verification/Prelude.v ===== *)
(** * Vyper: a verification library for the kernel, its user library and its shell

    Vyper is a hobby operating system for x86_64 in Rust: the kernel [vcore], the
    user library [vlib] and a shell.  This library models the whole of their logic
    and proves what the parts promise each other, from the boot to a command typed
    at the prompt.

    ** How the program fits together

    [kmain] of [main.rs] loads the processor's tables ([cpu/]), takes memory from the
    boot loader's map ([mem/pmm.rs]), maps the heap ([mem/heap.rs], [mem/vmm.rs]),
    programs the interrupt controllers ([cpu/apic.rs]), looks for a disk
    ([drivers/ata.rs]), mounts the file systems ([vfs/]), makes itself task 0 and
    starts the shell's ELF file ([elf.rs], [sched/]) as task 1.  From then on the timer
    interrupt calls [sched::schedule], which picks the next ready task and switches
    stacks; the keyboard interrupt feeds a ring buffer; programs enter through
    [syscall] ([cpu/syscall.rs]).  System calls reach files through a per-task
    descriptor table ([vfs/fd.rs]) and the mount table ([vfs/mod.rs]), which sends each
    path to a file system: FAT32 ([vfs/fat32.rs]) on a partition ([vfs/block/]) of the
    disk or tmpfs, devfs for raw devices, and the live views memfs and tasksfs.  The
    shell ([user/shell/]) reads lines and runs its commands through [vlib].

    ** Where each part is modelled

    Foundations:
    - [Prelude.v]: machine integers, byte strings, little-endian words, and the
      monad [M S E A] of fallible stateful code: [Ok], [Err], [Panic] (the panic
      handler halts the machine) and [Hang] (fuel of a loop exhausted, or a loop that
      waits for ever).  [stays] is total correctness with an invariant.
    - [Memory.v]: byte memory, [load] and [store].
    - [Hw.v]: ports and device registers as a class, [runs] (total correctness with a
      postcondition), bounded polling.

    Memory:
    - [Pmm.v] ([mem/pmm.rs]): the page bitmap, from the boot memory map on.
    - [Vmm.v], [VmmFacts.v] ([mem/vmm.rs]): address spaces over the page-table mapper of
      the [x86_64] crate ([Paging], its laws [PagingLaws]); who owns which frame.
    - [Heap.v], [KernelMap.v] ([mem/heap.rs]): the upper half ([UpperLaws]), the heap in
      it, and what every address space shares.
    - [Elf.v], [ElfFacts.v] ([elf.rs]): headers, the image of a file, loading.
    - [VmmDemo.v], [Launched.v]: a mapper with these laws, and the theorems run on it.

    Processor and devices:
    - [Interrupts.v], [InterruptFacts.v], [InterruptDemo.v] ([cpu/gdt.rs], [idt.rs],
      [interrupts.rs], [mod.rs]): descriptor tables ([Gdt], [GdtLaws]), gates, handlers.
    - [Apic.v], [ApicFacts.v], [ApicDemo.v] ([cpu/apic.rs]), on [Board.v]: the 8259s, the
      local and I/O APIC, the 8254 and the 8042 as software sees them, and the time
      that passes meanwhile ([BoardLaws]).
    - [Ata.v], [AtaFacts.v], [AtaDemo.v] ([drivers/ata.rs], [vfs/block/ata.rs]): the disk
      driver, and the drive: the commands it serves and the troubles in which it does
      not, or not as the driver reads its status ([AtaLaws], [Trouble]).
    - [SyscallEntry.v] ([cpu/syscall.rs], the [asm!] blocks of [vlib]): the entry stub, the
      set-up of the MSRs and the jump to user mode, instruction by instruction.
    - [Keyboard.v] ([drivers/keyboard.rs]): scan codes and the ring buffer.
    - [Terminal.v], [FontData.v] ([fb/], [font/]): pixels, glyphs, cursor, scrolling.

    Tasks:
    - [Task.v] ([sched/task.rs], [sched/switch.rs]): the task record, the initial
      stack frames, and the context switch over registers and memory.
    - [Sched.v] ([sched/mod.rs]): the run queue, [schedule], sleep, exit, spawn.
    - [Spawn.v]: [spawn_elf], on the scheduler and an address space at once.
    - [UserEntry.v]: the trampolines, from the switch into a program.

    Files:
    - [VfsTypes.v] ([vfs/types.rs]): open flags, errors, and the traits
      [Filesystem] and [FileHandle] as type classes, with the cursor arithmetic
      every in-memory handle shares.
    - [Path.v], [Vfs.v] ([vfs/mod.rs]), [FdTable.v] ([vfs/fd.rs]): paths, mount table,
      descriptors.
    - [BTree.v]: Rust's [BTreeMap] over strings as a sorted association list.
    - [TmpFs.v] ([vfs/tmpfs.rs]), [LiveFs.v] ([vfs/memfs.rs], [vfs/tasksfs.rs]).
    - [Block.v] ([vfs/block/mod.rs]): the trait [BlockDevice] as a class, its laws
      as a second class, partitions, devfs and device files; [PartTable.v]
      ([vfs/block/partition.rs]): MBR and GPT.
    - [FatCodec.v], [Fat32.v] ([vfs/fat32.rs]): on-disk formats, the table, chains,
      directories, path operations, handles.  [FatImage.v], [FatNames.v]: directories
      as sequences of items, what is stored for the name of a new entry.  [FatVolume.v],
      [FatChain.v], [FatDir.v], [FatOps.v]: the abstract volume (a table of 28-bit
      entries and the contents of clusters), and what the operations do to it, from
      the sector up to the path.
    - [FatSim.v], [FatOnAta.v], [DiskDemo.v]: the same code over two devices (a
      simulation), and so the theorems about files on the drive behind the ports.

    Programs:
    - [Utf8.v], [Syscall.v], [SyscallFacts.v] ([cpu/syscall.rs]): every system call over
      any file system; [System.v]: the file systems of this kernel together
      ([AnyFs], [AnyHandle]: its boxes) and [setup_fs].
    - [UserLib.v] ([vlib/]), [Hello.v] ([hello_world/]), [Shell.v] ([shell/]).
    - [ShellFacts.v], [PsFacts.v], [InputFacts.v], [Booted.v]: commands and the line
      editor, down to the kernel, and the theorems run on a booted system.
    - [Kmain.v], [KmainFacts.v], [KmainDemo.v] ([main.rs]): the boot.

    The definitions keep the source's names, with a prefix where two types have
    an operation of the same name ([Scheduler::new] is [Scheduler_new], the
    [open] of FAT32 is [fat_open]).  Locks and [Arc]s disappear: an operation that
    takes the lock of a structure is a step on the state of that structure.  A
    component works on its own state; [zoom] lifts it to the state of its caller.

    ** What the theorems show

    - Boot: from a machine as the boot loader leaves it, [kmain] reaches the idle loop
      with every component initialised and the shell ready to run ([KmainFacts.v]);
      [setup_fs] ends in the same mount table whatever the disk holds ([System.v]).
    - Memory: no run of [alloc] and [free] from boot hands out a page twice, a page of
      the bitmap, or memory that is not usable ([Pmm.v]); address spaces never share a
      frame ([VmmFacts.v]); the heap gets frames of its own and every address space the
      kernel's half ([KernelMap.v]); loading an ELF file makes exactly its image
      ([ElfFacts.v]).
    - Devices: [apic::init] ends with the hardware in the state the handlers
      rely on, the period of the timer being what it measured and that being the ten
      milliseconds if the 8254 counts as the code expects ([ApicFacts.v]), and the vectors
      it programs reach them ([InterruptFacts.v]).  The disk driver always comes back;
      driven through its ports a disk is an array of sectors until it goes astray (a
      status the driver misreads, a poll outlasted, a sector refused, a write failed),
      and one that does not answer is an error ([AtaFacts.v]; what the driver makes of
      two drives gone astray is run in [AtaDemo.v]).
    - Tasks: an invariant of every reachable state of the scheduler by rule induction,
      from which context switching is transparent, no ready task starves, whatever is
      spawned meanwhile, and the choice is round robin ([Sched.v]); a spawned program starts in user mode at its
      entry point in an address space of its own ([Spawn.v], [UserEntry.v]); a system
      call returns with the program's registers unchanged ([SyscallEntry.v]) and changes
      nothing of other tasks ([System.v]).
    - Files in memory: tmpfs refines an abstract tree of names; the mount table
      resolves the longest mounted prefix; tasksfs shows the tasks.
    - Disks: a partition touches only its own sectors; device files are byte arrays;
      GPT parsing is exact, for every entry size; FAT32 formats round trip.  On a well-formed volume, a
      written chain reads back, a freed chain is free, an allocated cluster is the
      lowest free one, and in each case every other chain of the volume is untouched
      ([FatChain.v]); [mkdir], [remove] and [rmdir] change the listing of the parent by
      exactly one entry, a lookup finds the directory [mkdir] made, exactly the
      [lost_name]s aside, and what a dropped handle held is what a later [open] reads
      ([FatOps.v]).  On the disk behind the ports all this holds as it does on an array
      of sectors, as long as the drive does not go astray ([FatOnAta.v]).
    - Input and output: the keyboard refines a bounded queue ([Keyboard.v]), the line
      editor a reference editor ([InputFacts.v]); text never leaves the framebuffer
      ([Terminal.v]); [ls], [ps], [cd] and [pwd] do what they say, through every
      layer ([ShellFacts.v], [PsFacts.v]).
    - Flaws of the code are theorems too: FAT32 [open] never creates a file
      and [mkdir] makes directories that no lookup finds, of names with a second dot or
      one at the end ([FatOps.v]), a file that shrinks leaks its clusters ([FatChain.v]), a
      malformed GPT or ELF file panics the kernel ([PartTable.v], [Launched.v]), the
      disk driver drops the top bits of a sector number ([AtaFacts.v]) and takes data
      from a busy drive ([AtaDemo.v]), the timer is calibrated against a counter that
      need not run ([ApicDemo.v]), a system call preempted by another loses its stack
      ([SyscallEntry.v]).

    ** Bounds and fuel

    Integers keep their width: [u8] to [u64] wrap as in a release build, and the
    theorems state the ranges in which nothing wraps ([geom_wf] for FAT32).  The
    walks along FAT chains follow links on the disk and need not end; they take
    fuel, and the theorems show that one turn more than the length of the chain
    is enough.  The unbounded polls of [apic.rs] take [PATIENCE]; more than the latency
    of the devices and the bytes waiting in the keyboard is enough.  The disk driver's
    polls are bounded in the code, by [POLLS].  The loops of programs (reading
    directories, lines and files) take fuel that the theorems bound by the data.
    All other loops are structural.  Lengths of byte vectors are taken to be
    below [2 ^ 63], as Rust guarantees.

    ** Parameters

    What is not in the repository is an argument or a class, its documented
    behaviour a second class that a concrete instance satisfies: the page-table
    mapper ([Paging]; [PagingLaws], [UpperLaws]; [VmmDemo.v]), ports and registers ([Hw];
    [AtaLaws], [BoardLaws]; [AtaDemo.v], [ApicDemo.v]), the descriptor table
    ([Gdt]; [GdtLaws]; [InterruptDemo.v]), block devices ([BlockDevice];
    [BlockDeviceLaws]; an in-memory disk), Unicode case mapping ([UnicodeCase]).
    The heap allocator's [init], the crate's check of the segment selectors, the text
    of a page-fault code, the contents of the shell's ELF file and the addresses of
    code and statics are arguments.

    ** Not modelled

    Concurrency inside the kernel: interrupts are taken between operations, not inside
    them, and spin locks are not modelled; what goes wrong there is noted beside
    the definitions it concerns.  The boot keeps the lines it prints as text, without
    colours; [Terminal.v] says what printing does.  User pointers are
    taken to be mapped.  The deallocation of address spaces is empty in the source.
    The build scripts and the template of a program are left out. *)
From Stdlib Require Import ZArith Lia String Ascii.
From stdpp Require Import base numbers option list.
Open Scope Z_scope.

(** ** Machine integers

    Release builds of the kernel compile Rust's [+ - *] on unsigned integers to
    wrap-around arithmetic; every operation that may leave its width is written
    with one of these. *)
Definition u8 (z : Z) : Z := z mod 2 ^ 8.
Definition u16 (z : Z) : Z := z mod 2 ^ 16.
Definition u32 (z : Z) : Z := z mod 2 ^ 32.
Definition u64 (z : Z) : Z := z mod 2 ^ 64.

(** [as isize] / [as i64] of a 64-bit word. *)
Definition i64 (z : Z) : Z :=
  let w := z mod 2 ^ 64 in if w <? 2 ^ 63 then w else w - 2 ^ 64.

Definition USIZE_MAX : Z := 2 ^ 64 - 1.

(** [usize::saturating_sub]. *)
Definition sat_sub (a b : Z) : Z := Z.max 0 (a - b).

Declare Scope vyper_scope.
Delimit Scope vyper_scope with vyper.
Notation "a +w32 b" := (u32 (a + b)%Z) (at level 50, left associativity) : vyper_scope.
Notation "a -w32 b" := (u32 (a - b)%Z) (at level 50, left associativity) : vyper_scope.
Notation "a *w32 b" := (u32 (a * b)%Z) (at level 40, left associativity) : vyper_scope.
Notation "a +w64 b" := (u64 (a + b)%Z) (at level 50, left associativity) : vyper_scope.
Notation "a -w64 b" := (u64 (a - b)%Z) (at level 50, left associativity) : vyper_scope.
Notation "a *w64 b" := (u64 (a * b)%Z) (at level 40, left associativity) : vyper_scope.
Open Scope vyper_scope.

Create HintDb vyper discriminated.
Create Rewrite HintDb mach.
Create Rewrite HintDb len.
Create Rewrite HintDb monad.

Lemma u8_range z : 0 <= u8 z < 256.
Proof. apply Z.mod_pos_bound. lia. Qed.
Lemma u16_range z : 0 <= u16 z < 65536.
Proof. apply Z.mod_pos_bound. lia. Qed.
Lemma u32_range z : 0 <= u32 z < 2 ^ 32.
Proof. apply Z.mod_pos_bound. lia. Qed.
Lemma u64_range z : 0 <= u64 z < 2 ^ 64.
Proof. apply Z.mod_pos_bound. lia. Qed.

Lemma u8_small z : 0 <= z < 256 -> u8 z = z.
Proof. apply Z.mod_small. Qed.
Lemma u16_small z : 0 <= z < 65536 -> u16 z = z.
Proof. apply Z.mod_small. Qed.
Lemma u32_small z : 0 <= z < 2 ^ 32 -> u32 z = z.
Proof. apply Z.mod_small. Qed.
Lemma u64_small z : 0 <= z < 2 ^ 64 -> u64 z = z.
Proof. apply Z.mod_small. Qed.

Lemma i64_small z : 0 <= z < 2 ^ 63 -> i64 z = z.
Proof.
  intros H. unfold i64. rewrite Z.mod_small by lia.
  destruct (Z.ltb_spec z (2 ^ 63)); lia.
Qed.

Lemma i64_range z : - 2 ^ 63 <= i64 z < 2 ^ 63.
Proof.
  unfold i64. pose proof (Z.mod_pos_bound z (2 ^ 64) ltac:(lia)).
  destruct (Z.ltb_spec (z mod 2 ^ 64) (2 ^ 63)); lia.
Qed.

#[export] Hint Resolve u8_range u16_range u32_range u64_range : vyper.
#[export] Hint Rewrite u8_small u16_small u32_small u64_small i64_small
  using lia : mach.

(** Case analysis on the boolean comparisons of the code. *)
Ltac zbool :=
  repeat match goal with
  | H : (_ <? _) = true |- _ => apply Z.ltb_lt in H
  | H : (_ <? _) = false |- _ => apply Z.ltb_ge in H
  | H : (_ <=? _) = true |- _ => apply Z.leb_le in H
  | H : (_ <=? _) = false |- _ => apply Z.leb_gt in H
  | H : (_ =? _) = true |- _ => apply Z.eqb_eq in H
  | H : (_ =? _) = false |- _ => apply Z.eqb_neq in H
  | H : (_ && _)%bool = true |- _ => apply andb_prop in H; destruct H
  | H : (_ || _)%bool = false |- _ => apply orb_false_elim in H; destruct H
  | H : negb _ = true |- _ => apply negb_true_iff in H
  | H : negb _ = false |- _ => apply negb_false_iff in H
  end.

(** A closed decidable goal. *)
Ltac by_decide := apply (bool_decide_unpack _); vm_compute; exact I.

Ltac case_bool :=
  match goal with
  | |- context [if ?b then _ else _] => destruct b eqn:?; zbool
  | H : context [if ?b then _ else _] |- _ => destruct b eqn:?; zbool
  end.

(** ** Bytes, strings and slices

    A [u8] buffer is a [list Z]; a Rust string is the list of its [char]s
    (code points).  [str_len] is [str::len], the length of the UTF-8 encoding. *)
Abbreviation bytes := (list Z).
Abbreviation rstr := (list Z).

(** String literals (ASCII). *)
Definition lit (s : string) : rstr :=
  map (fun a => Z.of_N (N_of_ascii a)) (list_ascii_of_string s).
Arguments lit s%_string.
Export String.StringSyntax.

Definition is_byte (b : Z) : Prop := 0 <= b < 256.
#[export] Instance is_byte_dec b : Decision (is_byte b).
Proof. unfold is_byte. apply _. Defined.

(** A [char]: a Unicode scalar value. *)
Definition is_char (c : Z) : Prop := 0 <= c < 0xD800 \/ 0xE000 <= c < 0x110000.

Definition char_len_utf8 (c : Z) : Z :=
  if c <? 0x80 then 1 else if c <? 0x800 then 2 else if c <? 0x10000 then 3 else 4.

Definition str_len (s : rstr) : Z := fold_right (fun c n => char_len_utf8 c + n) 0 s.

Definition zlen {A} (l : list A) : Z := Z.of_nat (length l).

(** [&l[a..b]] once the bounds are known to hold. *)
Definition slice {A} (l : list A) (a b : nat) : list A := take (b - a) (drop a l).

(** [l[off..off + src.len()].copy_from_slice(src)] once in range. *)
Definition splice {A} (l : list A) (off : nat) (src : list A) : list A :=
  take off l ++ src ++ drop (off + length src) l.

(** Byte [i] of a buffer whose length is known to exceed [i]. *)
Definition rd (l : bytes) (i : nat) : Z := nth i l 0.

(** [Vec::resize(n, x)]. *)
Definition vec_resize {A} (l : list A) (n : nat) (x : A) : list A :=
  take n l ++ replicate (n - length l) x.

Lemma length_slice {A} (l : list A) a b :
  (a <= b)%nat -> (b <= length l)%nat -> length (slice l a b) = (b - a)%nat.
Proof. intros. unfold slice. rewrite length_take, length_drop. lia. Qed.

Lemma length_splice {A} (l : list A) off src :
  (off + length src <= length l)%nat -> length (splice l off src) = length l.
Proof. intros. unfold splice. rewrite !length_app, length_take, length_drop. lia. Qed.

Lemma length_vec_resize {A} (l : list A) n x : length (vec_resize l n x) = n.
Proof. unfold vec_resize. rewrite length_app, length_take, length_replicate. lia. Qed.

(** Growing by [c] more elements appends the next [c], padded. *)
Lemma vec_resize_grow {A} (l : list A) k c x :
  (k <= length l)%nat ->
  vec_resize l (k + c) x = take k l ++ vec_resize (slice l k (Nat.min (k + c) (length l))) c x.
Proof.
  intros Hk. unfold vec_resize, slice. rewrite <- take_take_drop, <- app_assoc. f_equal.
  rewrite take_take, length_take, length_drop. f_equal; [|f_equal; lia].
  destruct (Nat.le_gt_cases (k + c) (length l)); [f_equal; lia|].
  rewrite !take_ge; rewrite ?length_drop; try lia. done.
Qed.

Lemma splice_lookup_in {A} (l : list A) off src i :
  (off <= i < off + length src)%nat -> (off + length src <= length l)%nat ->
  splice l off src !! i = src !! (i - off)%nat.
Proof.
  intros. unfold splice. rewrite lookup_app_r; rewrite length_take_le by lia; [|lia].
  rewrite lookup_app_l by lia. done.
Qed.

Lemma splice_lookup_out {A} (l : list A) off src i :
  (i < off \/ off + length src <= i)%nat -> (off + length src <= length l)%nat ->
  splice l off src !! i = l !! i.
Proof.
  intros [H|H] Hl; unfold splice.
  - rewrite lookup_app_l by (rewrite length_take_le; lia). by rewrite lookup_take_lt.
  - rewrite lookup_app_r; rewrite length_take_le by lia; [|lia].
    rewrite lookup_app_r by lia. rewrite lookup_drop. f_equal. lia.
Qed.

Lemma slice_lookup {A} (l : list A) a b i : slice l a b !! i = if decide (i < b - a)%nat then l !! (a + i)%nat else None.
Proof. unfold slice. case_decide; [rewrite lookup_take_lt by lia; by rewrite lookup_drop|rewrite lookup_take_ge by lia; done]. Qed.

Lemma slice_splice_other {A} (l : list A) off src a b :
  (off + length src <= length l)%nat -> (b <= off \/ off + length src <= a)%nat ->
  slice (splice l off src) a b = slice l a b.
Proof.
  intros Hl Hd. apply list_eq. intros i. rewrite !slice_lookup. case_decide; [|done].
  apply splice_lookup_out; lia.
Qed.

Lemma slice_splice_same {A} (l : list A) off src :
  (off + length src <= length l)%nat ->
  slice (splice l off src) off (off + length src) = src.
Proof.
  intros H. unfold slice, splice.
  rewrite drop_app_ge; rewrite length_take_le by lia; [|lia].
  rewrite Nat.sub_diag, drop_0. rewrite take_app_le by lia.
  apply take_ge. lia.
Qed.

#[export] Hint Rewrite @length_app @length_take @length_drop @length_replicate
  @length_map @length_fmap @length_vec_resize @length_insert : len.

(** ** Little-endian integers: [from_le_bytes] and [to_le_bytes] *)
Fixpoint from_le (l : bytes) : Z :=
  match l with
  | [] => 0
  | b :: l' => b + 256 * from_le l'
  end.

Fixpoint to_le (n : nat) (v : Z) : bytes :=
  match n with
  | O => []
  | S n' => v mod 256 :: to_le n' (v / 256)
  end.

Lemma length_to_le n v : length (to_le n v) = n.
Proof. revert v. induction n; intros; simpl; auto. Qed.

Lemma to_le_bytes n v : Forall is_byte (to_le n v).
Proof.
  revert v. induction n; intros; constructor; auto.
  apply Z.mod_pos_bound. lia.
Qed.

Lemma from_le_range l : Forall is_byte l -> 0 <= from_le l < 256 ^ zlen l.
Proof.
  unfold zlen. induction 1 as [|b l Hb Hl IH]; [simpl; lia|].
  cbn [from_le length]. rewrite Nat2Z.inj_succ, Z.pow_succ_r by lia.
  unfold is_byte in Hb. lia.
Qed.

Lemma from_to_le n v : 0 <= v < 256 ^ Z.of_nat n -> from_le (to_le n v) = v.
Proof.
  revert v. induction n as [|n IH]; intros v H; [simpl in *; lia|].
  cbn [to_le from_le]. rewrite Nat2Z.inj_succ, Z.pow_succ_r in H by lia.
  rewrite IH by (split; [apply Z.div_pos; lia | apply Z.div_lt_upper_bound; lia]).
  pose proof (Z.div_mod v 256 ltac:(lia)). lia.
Qed.

Lemma to_from_le l : Forall is_byte l -> to_le (length l) (from_le l) = l.
Proof.
  induction 1 as [|b l Hb Hl IH]; [done|].
  cbn [length to_le from_le]. unfold is_byte in Hb.
  rewrite (Z.mul_comm 256), Z.mod_add, Z.div_add by lia.
  rewrite Z.mod_small, Z.div_small by lia. by rewrite Z.add_0_l, IH.
Qed.

(** The [n]-byte little-endian word at [off]. *)
Definition le_at (n : nat) (b : bytes) (off : nat) : Z := from_le (slice b off (off + n)).

Lemma le_at_range n b off : Forall is_byte b -> (off + n <= length b)%nat -> 0 <= le_at n b off < 256 ^ Z.of_nat n.
Proof.
  intros Hb Hl. unfold le_at. pose proof (from_le_range (slice b off (off + n))) as Hr.
  unfold zlen in Hr. rewrite length_slice in Hr by lia. replace (off + n - off)%nat with n in Hr by lia.
  apply Hr. unfold slice. by apply Forall_take, Forall_drop.
Qed.

#[export] Hint Resolve length_to_le to_le_bytes : vyper.
#[export] Hint Rewrite length_to_le : len.

(** ** Fallible, stateful code

    [outcome E A] is what a Rust call of type [Result<A, E>] can do: return
    [Ok]/[Err], panic (the panic handler halts the kernel), or run out of the
    fuel given to a [while] loop.  [M S E A] threads the state [S] through;
    the state reached before an error is kept, as in the code.  [x ← m; k] is
    the [?] operator. *)
Inductive outcome (E A : Type) : Type :=
| Ok (a : A)
| Err (e : E)
| Panic
| Hang.
Arguments Ok {E A} a.
Arguments Err {E A} e.
Arguments Panic {E A}.
Arguments Hang {E A}.

Definition M (S E A : Type) : Type := S -> outcome E A * S.

#[export] Instance M_ret {S E} : MRet (M S E) := fun A a s => (Ok a, s).
#[export] Instance M_bind {S E} : MBind (M S E) := fun A B k m s =>
  match m s with
  | (Ok a, s') => k a s'
  | (Err e, s') => (Err e, s')
  | (Panic, s') => (Panic, s')
  | (Hang, s') => (Hang, s')
  end.

#[export] Instance outcome_ret {E} : MRet (outcome E) := fun A a => Ok a.
#[export] Instance outcome_bind {E} : MBind (outcome E) := fun A B k m =>
  match m with Ok a => k a | Err e => Err e | Panic => Panic | Hang => Hang end.

Section monad.
Context {S E : Type}.

Definition fail {A} (e : E) : M S E A := fun s => (Err e, s).
Definition panic {A} : M S E A := fun s => (Panic, s).
Definition hang {A} : M S E A := fun s => (Hang, s).
Definition get : M S E S := fun s => (Ok s, s).
Definition put (s : S) : M S E unit := fun _ => (Ok tt, s).
Definition lift {A} (o : outcome E A) : M S E A := fun s => (o, s).

(** [Option::ok_or(e)?]. *)
Definition ok_or {A} (e : E) (o : option A) : M S E A :=
  match o with Some a => mret a | None => fail e end.

(** [Option::unwrap], indexing, and the other checks that panic. *)
Definition unwrap {A} (o : option A) : M S E A :=
  match o with Some a => mret a | None => panic end.

Definition assert_or_panic (b : bool) : M S E unit :=
  if b then mret tt else panic.

(** [for x in l { body }]. *)
Fixpoint for_each {X} (l : list X) (body : X -> M S E unit) : M S E unit :=
  match l with
  | [] => mret tt
  | x :: l' => body x ;; for_each l' body
  end.

(** [for x in l { acc = body(acc, x)? }]. *)
Fixpoint for_acc {X A} (l : list X) (a : A) (body : A -> X -> M S E A) : M S E A :=
  match l with
  | [] => mret a
  | x :: l' => a' ← body a x; for_acc l' a' body
  end.

(** [for x in l { if let Some(r) = body(x)? { return r } }]. *)
Fixpoint for_find {X R} (l : list X) (body : X -> M S E (option R)) : M S E (option R) :=
  match l with
  | [] => mret None
  | x :: l' => r ← body x; match r with Some v => mret (Some v) | None => for_find l' body end
  end.

(** [loop { .. }] with fuel: [inl] goes round again, [inr] leaves. *)
Fixpoint loop {A B} (fuel : nat) (body : A -> M S E (A + B)) (a : A) : M S E B :=
  match fuel with
  | O => hang
  | Datatypes.S fuel' =>
      r ← body a; match r with inl a' => loop fuel' body a' | inr b => mret b end
  end.
End monad.

(** [Result::map_err]. *)
Definition map_err {S E E' A} (f : E -> E') (m : M S E A) : M S E' A := fun s =>
  match m s with
  | (Ok a, s') => (Ok a, s')
  | (Err e, s') => (Err (f e), s')
  | (Panic, s') => (Panic, s')
  | (Hang, s') => (Hang, s')
  end.

(** [match m { Ok(a) => Some(a), Err(_) => None }]. *)
Definition catch {S E E' A} (m : M S E A) : M S E' (option A) := fun s =>
  match m s with
  | (Ok a, s') => (Ok (Some a), s')
  | (Err _, s') => (Ok None, s')
  | (Panic, s') => (Panic, s')
  | (Hang, s') => (Hang, s')
  end.

(** [Result::unwrap_or]. *)
Definition unwrap_or {S E E' A} (d : A) (m : M S E A) : M S E' A :=
  o ← catch m; mret (default d o).

(** Run a computation on a part of the state. *)
Definition zoom {S T E A} (get : S -> T) (set : T -> S -> S) (m : M T E A) : M S E A :=
  fun s => let (o, t) := m (get s) in (o, set t s).

Definition is_ok {E A} (o : outcome E A) : bool :=
  match o with Ok _ => true | _ => false end.

Section monad_lemmas.
Context {S E : Type}.

Lemma bind_ok {A B} (m : M S E A) (k : A -> M S E B) s a s' :
  m s = (Ok a, s') -> (m ≫= k) s = k a s'.
Proof. intros H. unfold mbind, M_bind. by rewrite H. Qed.

Lemma bind_err {A B} (m : M S E A) (k : A -> M S E B) s e s' :
  m s = (Err e, s') -> (m ≫= k) s = (Err e, s').
Proof. intros H. unfold mbind, M_bind. by rewrite H. Qed.

Lemma bind_panic {A B} (m : M S E A) (k : A -> M S E B) s s' :
  m s = (Panic, s') -> (m ≫= k) s = (Panic, s').
Proof. intros H. unfold mbind, M_bind. by rewrite H. Qed.

Lemma bind_ok_inv {A B} (m : M S E A) (k : A -> M S E B) s b s' :
  (m ≫= k) s = (Ok b, s') -> exists a s1, m s = (Ok a, s1) /\ k a s1 = (Ok b, s').
Proof.
  unfold mbind, M_bind. destruct (m s) as [[a|e| |] s1] eqn:Hm; intros; try done. eauto.
Qed.

Lemma ret_inv {A} (a b : A) (s s' : S) :
  (mret a : M S E A) s = (Ok b, s') -> a = b /\ s = s'.
Proof. by intros [= -> ->]. Qed.

Lemma bind_assoc {A B C} (m : M S E A) (k : A -> M S E B) (h : B -> M S E C) s :
  ((m ≫= k) ≫= h) s = (m ≫= (fun a => k a ≫= h)) s.
Proof. unfold mbind, M_bind. by destruct (m s) as [[] ?]. Qed.

(** Two steps that succeed together, at the head of a longer run. *)
Lemma bind_then_ok {A B C} (m : M S E A) (k : A -> M S E B) (h : B -> M S E C) s b s' :
  (m ≫= k) s = (Ok b, s') -> (m ≫= (fun a => k a ≫= h)) s = h b s'.
Proof. intros Hm. rewrite <- bind_assoc. by apply bind_ok. Qed.

Lemma bind_ret {A B} (a : A) (k : A -> M S E B) s : (mret a ≫= k) s = k a s.
Proof. done. Qed.
Lemma bind_get {B} (k : S -> M S E B) s : (get ≫= k) s = k s s.
Proof. done. Qed.
Lemma bind_put {B} (t : S) (k : unit -> M S E B) s : (put t ≫= k) s = k tt t.
Proof. done. Qed.
Lemma bind_fail {A B} e (k : A -> M S E B) s : (fail e ≫= k) s = (Err e, s).
Proof. done. Qed.
Lemma bind_lift_ok {A B} (a : A) (k : A -> M S E B) s : (lift (Ok a) ≫= k) s = k a s.
Proof. done. Qed.
Lemma bind_ok_or_some {A B} e (a : A) (k : A -> M S E B) s : (ok_or e (Some a) ≫= k) s = k a s.
Proof. done. Qed.
Lemma bind_ok_or_none {A B} e (k : A -> M S E B) s : (ok_or e None ≫= k) s = (Err e, s).
Proof. done. Qed.
Lemma bind_unwrap_some {A B} (a : A) (k : A -> M S E B) s : (unwrap (Some a) ≫= k) s = k a s.
Proof. done. Qed.
Lemma bind_unwrap_none {A B} (k : A -> M S E B) s : (unwrap None ≫= k) s = (Panic, s).
Proof. done. Qed.
Lemma bind_panic_head {A B} (k : A -> M S E B) s : (panic ≫= k) s = (Panic, s).
Proof. done. Qed.

(** A computation that leaves the state as it found it, whatever it returns. *)
Definition pure_on (s : S) {A} (m : M S E A) : Prop := (m s).2 = s.

Lemma pure_bind {A B} (m : M S E A) (k : A -> M S E B) s :
  pure_on s m -> (forall a, pure_on s (k a)) -> pure_on s (m ≫= k).
Proof.
  unfold pure_on, mbind, M_bind. destruct (m s) as [[a|e| |] s1]; simpl;
    intros -> Hk; auto.
Qed.
Lemma pure_ret {A} (a : A) s : pure_on s (mret a : M S E A).
Proof. done. Qed.
Lemma pure_fail {A} e s : pure_on s (fail e : M S E A).
Proof. done. Qed.
Lemma pure_panic {A} s : pure_on s (panic : M S E A).
Proof. done. Qed.
Lemma pure_hang {A} s : pure_on s (hang : M S E A).
Proof. done. Qed.
Lemma pure_get s : pure_on s (get : M S E S).
Proof. done. Qed.
Lemma pure_ok_or {A} e (o : option A) s : pure_on s (ok_or e o : M S E A).
Proof. by destruct o. Qed.
Lemma pure_unwrap {A} (o : option A) s : pure_on s (unwrap o : M S E A).
Proof. by destruct o. Qed.
Lemma pure_assert b s : pure_on s (assert_or_panic b : M S E unit).
Proof. by destruct b. Qed.
Lemma pure_loop {A B} fuel (body : A -> M S E (A + B)) a s :
  (forall a, pure_on s (body a)) -> pure_on s (loop fuel body a).
Proof.
  intros Hb. revert a. induction fuel as [|f IH]; intros a; [done|].
  apply pure_bind; [done|]. intros [a'|b]; [apply IH|done].
Qed.
Lemma pure_for_each {X} (l : list X) (body : X -> M S E unit) s :
  (forall x, pure_on s (body x)) -> pure_on s (for_each l body).
Proof. intros Hb. induction l; [done|]. by apply pure_bind. Qed.
Lemma pure_for_acc {X A} (l : list X) (a : A) (body : A -> X -> M S E A) s :
  (forall a x, pure_on s (body a x)) -> pure_on s (for_acc l a body).
Proof. intros Hb. revert a. induction l; intros; [done|]. by apply pure_bind. Qed.
Lemma pure_for_find {X R} (l : list X) (body : X -> M S E (option R)) s :
  (forall x, pure_on s (body x)) -> pure_on s (for_find l body).
Proof.
  intros Hb. induction l; [done|]. apply pure_bind; [done|]. by intros [v|].
Qed.
End monad_lemmas.

Lemma map_err_ok {S E E' A} (f : E -> E') (m : M S E A) s a s' :
  m s = (Ok a, s') -> map_err f m s = (Ok a, s').
Proof. unfold map_err. by intros ->. Qed.

Lemma map_err_err {S E E' A} (f : E -> E') (m : M S E A) s e s' :
  m s = (Err e, s') -> map_err f m s = (Err (f e), s').
Proof. unfold map_err. by intros ->. Qed.

Lemma pure_map_err {S E E' A} (f : E -> E') (m : M S E A) s :
  pure_on s m -> pure_on s (map_err f m).
Proof. unfold pure_on, map_err. by destruct (m s) as [[] ?]. Qed.

#[export] Hint Resolve pure_bind pure_ret pure_fail pure_panic pure_hang pure_get
  pure_ok_or pure_unwrap pure_assert pure_loop pure_for_each pure_for_acc pure_for_find
  pure_map_err : vyper.

(** Evaluate the administrative binds at the head of a run. *)
(** Computations that move the state along a preorder. *)
Definition keeps {S E A} (R : relation S) (m : M S E A) : Prop := forall s, R s (m s).2.

Section keeps.
Context {S E : Type} (R : relation S) `{!PreOrder R}.

Lemma keeps_bind {A B} (m : M S E A) (k : A -> M S E B) :
  keeps R m -> (forall a, keeps R (k a)) -> keeps R (m ≫= k).
Proof.
  intros Hm Hk s. unfold mbind, M_bind. specialize (Hm s).
  destruct (m s) as [[a|e| |] s1]; simpl in *; try done. etrans; [exact Hm|apply Hk].
Qed.
Lemma keeps_ret {A} (a : A) : keeps R (mret a : M S E A).
Proof. by intros s. Qed.
Lemma keeps_fail {A} e : keeps R (fail e : M S E A).
Proof. by intros s. Qed.
Lemma keeps_panic {A} : keeps R (panic : M S E A).
Proof. by intros s. Qed.
Lemma keeps_hang {A} : keeps R (hang : M S E A).
Proof. by intros s. Qed.
Lemma keeps_get : keeps R (get : M S E S).
Proof. by intros s. Qed.
Lemma keeps_loop {A B} fuel (body : A -> M S E (A + B)) a :
  (forall a, keeps R (body a)) -> keeps R (loop fuel body a).
Proof.
  intros Hb. revert a. induction fuel as [|f IH]; intros a; [apply keeps_hang|].
  apply keeps_bind; [done|]. intros [a'|b]; [apply IH|apply keeps_ret].
Qed.
Lemma keeps_for_each {X} (l : list X) (body : X -> M S E unit) :
  (forall x, keeps R (body x)) -> keeps R (for_each l body).
Proof. intros Hb. induction l; [apply keeps_ret|]. by apply keeps_bind. Qed.
Lemma keeps_map_err {E' A} (f : E -> E') (m : M S E A) : keeps R m -> keeps R (map_err f m).
Proof. intros Hm s. specialize (Hm s). unfold map_err. by destruct (m s) as [[] ?]. Qed.
Lemma keeps_catch {E' A} (m : M S E A) : keeps R m -> keeps R (catch m : M S E' (option A)).
Proof. intros Hm s. specialize (Hm s). unfold catch. by destruct (m s) as [[] ?]. Qed.
End keeps.

Lemma keeps_unwrap_or {S E E' A} (R : relation S) `{!PreOrder R} d (m : M S E A) :
  keeps R m -> keeps R (unwrap_or d m : M S E' A).
Proof. intros Hm. unfold unwrap_or. apply keeps_bind; [done|by apply keeps_catch|intros; by apply keeps_ret]. Qed.

Lemma keeps_zoom {S T E A} (R : relation S) (Q : relation T) (gt : S -> T) (st : T -> S -> S) (m : M T E A) :
  (forall s t, Q (gt s) t -> R s (st t s)) -> keeps Q m -> keeps R (zoom gt st m).
Proof.
  intros HR Hm s. specialize (Hm (gt s)). unfold zoom. destruct (m (gt s)) as [o t]. by apply HR.
Qed.

#[export] Hint Resolve keeps_bind keeps_ret keeps_fail keeps_panic keeps_hang keeps_get keeps_loop
  keeps_for_each keeps_map_err keeps_catch keeps_unwrap_or : vyper.

#[export] Hint Rewrite @bind_ret @bind_get @bind_put @bind_fail @bind_lift_ok
  @bind_ok_or_some @bind_ok_or_none @bind_unwrap_some @bind_unwrap_none
  @bind_panic_head : monad.
Ltac mred := repeat (autorewrite with monad; cbn beta iota).

(** Take a successful run apart, one bind at a time. *)
Ltac minv H :=
  repeat match type of H with
  | (mbind _ _) _ = (Ok _, _) =>
      let a := fresh "a" in let s := fresh "s" in let H1 := fresh "Hr" in
      apply bind_ok_inv in H as (a & s & H1 & H)
  | (mret _) _ = (Ok _, _) => apply ret_inv in H as [? ?]; subst
  | fail _ _ = (Ok _, _) => discriminate H
  | panic _ = (Ok _, _) => discriminate H
  | hang _ = (Ok _, _) => discriminate H
  end.

Lemma char_len_utf8_pos c : 1 <= char_len_utf8 c <= 4.
Proof. unfold char_len_utf8. repeat case_bool; lia. Qed.

Lemma str_len_app a b : str_len (a ++ b) = str_len a + str_len b.
Proof. induction a as [|c a IH]; simpl; [done|]. lia. Qed.

Lemma str_len_nonneg s : 0 <= str_len s.
Proof. induction s as [|c s IH]; simpl; [done|]. pose proof (char_len_utf8_pos c). lia. Qed.

Lemma str_len_pos s : s ≠ [] -> 0 < str_len s.
Proof.
  destruct s as [|c s]; [done|]. intros _. simpl.
  pose proof (char_len_utf8_pos c). pose proof (str_len_nonneg s). lia.
Qed.

(** [filter] only looks at the elements of the list. *)
Lemma filter_ext_elem {A} (P Q : A -> Prop)
    `{!forall x, Decision (P x), !forall x, Decision (Q x)} (l : list A) :
  (forall x : A, x ∈ l -> P x <-> Q x) -> filter P l = filter Q l.
Proof.
  induction l as [|x l IH]; intros Hiff; [done|]. rewrite !filter_cons.
  rewrite IH by (intros y Hy; apply Hiff; by right).
  pose proof (Hiff x ltac:(left)) as Hx.
  destruct (decide (P x)) as [HP|HP], (decide (Q x)) as [HQ|HQ]; tauto || done.
Qed.

Lemma for_each_app {St E X} (l1 l2 : list X) (body : X -> M St E unit) s :
  for_each (l1 ++ l2) body s = (for_each l1 body ;; for_each l2 body) s.
Proof.
  revert s. induction l1 as [|x l1 IH]; intros s; [done|]. cbn [app for_each].
  rewrite bind_assoc. unfold mbind, M_bind at 1 2. by destruct (body x s) as [[] s1]; auto.
Qed.

Lemma for_each_fmap {St E X Y} (g : X -> Y) (l : list X) (body : Y -> M St E unit) s :
  for_each (map g l) body s = for_each l (fun x => body (g x)) s.
Proof.
  revert s. induction l as [|x l IH]; intros s; [done|]. cbn [map for_each].
  unfold mbind, M_bind. destruct (body (g x) s) as [[] s']; auto.
Qed.

Lemma for_each_flat {St E X Y} (g : X -> list Y) (l : list X) (body : Y -> M St E unit) s :
  for_each (flat_map g l) body s = for_each l (fun x => for_each (g x) body) s.
Proof.
  revert s. induction l as [|x l IH]; intros s; [done|]. cbn [flat_map for_each].
  rewrite for_each_app. unfold mbind, M_bind. destruct (for_each (g x) body s) as [[] s']; auto.
Qed.

Lemma for_each_ext {St E X} (l : list X) (f g : X -> M St E unit) s :
  (forall x s, x ∈ l -> f x s = g x s) -> for_each l f s = for_each l g s.
Proof.
  revert s. induction l as [|x l IH]; intros s H; [done|]. cbn [for_each].
  unfold mbind, M_bind. rewrite (H x s) by left. destruct (g x s) as [[] s']; try done.
  apply IH. intros y t Hy. apply H. by right.
Qed.

(** [m] returns without error from every state of [I], and stays in [I]. *)
Definition stays {St E A} (I : St -> Prop) (m : M St E A) : Prop :=
  forall s, I s -> exists a s', m s = (Ok a, s') /\ I s'.

Lemma stays_ret {St E A} (I : St -> Prop) (a : A) : stays I (mret a : M St E A).
Proof. intros s Hs. by exists a, s. Qed.
Lemma stays_bind {St E A B} (I : St -> Prop) (m : M St E A) (k : A -> M St E B) :
  stays I m -> (forall a, stays I (k a)) -> stays I (m ≫= k).
Proof.
  intros Hm Hk s Hs. destruct (Hm s Hs) as (a & s' & H & Hs').
  rewrite (bind_ok _ _ _ _ _ H). by apply Hk.
Qed.
(** After [get], the continuation knows the state it read satisfies [I]. *)
Lemma stays_get {St E B} (I : St -> Prop) (k : St -> M St E B) :
  (forall s, I s -> exists b s', k s s = (Ok b, s') /\ I s') -> stays I (get ≫= k).
Proof. intros H s Hs. rewrite bind_get. by apply H. Qed.
Lemma stays_put {St E} (I : St -> Prop) (t : St) : I t -> stays I (put t : M St E unit).
Proof. intros H s Hs. by exists tt, t. Qed.
Lemma stays_for_each {St E X} (I : St -> Prop) (l : list X) (body : X -> M St E unit) :
  (forall x, x ∈ l -> stays I (body x)) -> stays I (for_each l body).
Proof.
  induction l as [|x l IH]; intros H; [apply stays_ret|]. cbn [for_each].
  apply stays_bind; [apply H; left|]. intros _. apply IH. intros y Hy. apply H. by right.
Qed.

Lemma delete_middle {X} (pre post : list X) x : delete (length pre) (pre ++ x :: post) = pre ++ post.
Proof. induction pre as [|y pre IH]; [done|]. simpl. by rewrite IH. Qed.

Lemma alter_middle {X} f (pre post : list X) x :
  alter f (length pre) (pre ++ x :: post) = pre ++ f x :: post.
Proof. induction pre as [|y pre IH]; [done|]. simpl. by f_equal/=. Qed.
