(* ===== verification/Memory.v ===== *)
(** * Memory: bytes by address

    The memory the kernel reaches through raw pointers: that of a program
    ([syscall.rs]) and the physical one ([vmm.rs]). *)
From Stdlib Require Import ZArith Lia.
From stdpp Require Import base numbers option list.
From S2P Require Import Prelude.

Definition UMem : Type := Z -> Z.

(** [from_raw_parts(ptr, len)]. *)
Definition load (m : UMem) (ptr len : Z) : bytes := (fun i => m (ptr + i)) <$> seqZ 0 len.

(** Stores from [ptr] on. *)
Definition store (m : UMem) (ptr : Z) (bs : bytes) : UMem := fun a =>
  if (ptr <=? a) && (a <? ptr + zlen bs) then rd bs (Z.to_nat (a - ptr)) else m a.

(** ** Memory *)
Lemma length_load m p n : length (load m p n) = Z.to_nat n.
Proof. unfold load. by rewrite length_fmap, length_seqZ. Qed.

Lemma zlen_load m p n : 0 <= n -> zlen (load m p n) = n.
Proof. intros Hn. unfold zlen. rewrite length_load. lia. Qed.

Lemma load_lookup m p n i : (i < Z.to_nat n)%nat -> load m p n !! i = Some (m (p + Z.of_nat i)).
Proof. intros Hi. unfold load. rewrite list_lookup_fmap, lookup_seqZ_lt by lia. simpl. do 2 f_equal. Qed.

Lemma load_ext m m' p n : (forall a, p <= a < p + n -> m a = m' a) -> load m p n = load m' p n.
Proof.
  intros He. apply list_eq_same_length with (n := Z.to_nat n); rewrite ?length_load; [done..|].
  intros i x y Hi Hx Hy. rewrite load_lookup in Hx, Hy by done. rewrite He in Hx by lia. congruence.
Qed.

Lemma take_load m p n k : 0 <= k <= n -> take (Z.to_nat k) (load m p n) = load m p k.
Proof.
  intros Hk. apply list_eq_same_length with (n := Z.to_nat k); rewrite ?length_take, ?length_load; [lia..|].
  intros i x y Hi Hx Hy. rewrite lookup_take_lt in Hx by done.
  rewrite load_lookup in Hx, Hy by lia. congruence.
Qed.

Lemma store_out m p bs a : a < p \/ p + zlen bs <= a -> store m p bs a = m a.
Proof.
  intros Ha. unfold store. destruct (Z.leb_spec p a), (Z.ltb_spec a (p + zlen bs)); try done. lia.
Qed.

Lemma store_in m p bs i x : bs !! i = Some x -> store m p bs (p + Z.of_nat i) = x.
Proof.
  intros Hi. pose proof (lookup_lt_Some _ _ _ Hi) as Hlt. unfold store, zlen.
  destruct (Z.leb_spec p (p + Z.of_nat i)); [|lia].
  destruct (Z.ltb_spec (p + Z.of_nat i) (p + Z.of_nat (length bs))); [|lia]. cbn [andb]. unfold rd.
  replace (Z.to_nat (p + Z.of_nat i - p)) with i by lia. by apply nth_lookup_Some.
Qed.

Lemma load_store m p bs : load (store m p bs) p (zlen bs) = bs.
Proof.
  apply list_eq_same_length with (n := length bs); rewrite ?length_load; [done|unfold zlen; lia|].
  intros i x y Hi Hx Hy. rewrite load_lookup in Hx by (unfold zlen; lia).
  rewrite (store_in _ _ _ _ _ Hy) in Hx. congruence.
Qed.

Lemma store_app m p a b x : store (store m p a) (p + zlen a) b x = store m p (a ++ b) x.
Proof.
  unfold store, zlen. rewrite length_app.
  destruct (Z.leb_spec (p + Z.of_nat (length a)) x), (Z.ltb_spec x (p + Z.of_nat (length a) + Z.of_nat (length b))),
    (Z.leb_spec p x), (Z.ltb_spec x (p + Z.of_nat (length a + length b)%nat)),
    (Z.ltb_spec x (p + Z.of_nat (length a))); cbn [andb]; try lia; try done; unfold rd.
  - rewrite app_nth2 by lia. f_equal. lia.
  - rewrite app_nth1 by lia. done.
Qed.

Lemma store_ext m m' p bs x : m x = m' x -> store m p bs x = store m' p bs x.
Proof. unfold store. by intros ->. Qed.
