(* ===== verification/Hw.v ===== *)
(** * Hw: ports and device registers

    What drivers do through [x86_64]'s [Port] and through volatile pointers.  A
    machine is any state that answers the accesses ([Hw]); [runs] is a run that
    succeeds, with a postcondition. *)
From Stdlib Require Import ZArith Lia.
From stdpp Require Import base numbers option list.
From S2P Require Import Prelude.

Class Hw (S : Type) := {
  port_in (width port : Z) : S -> Z * S;
  port_out (width port value : Z) : S -> S;
  mmio_read (addr : Z) : S -> Z * S;      (* [read_volatile] of a [u32] *)
  mmio_write (addr value : Z) : S -> S
}.

Section io.
Context {S E : Type} `{Hw S}.

(** [Port::<u8>::read], and the others. *)
Definition inb (port : Z) : M S E Z := fun s => let (v, s') := port_in 8 port s in (Ok v, s').
Definition inw (port : Z) : M S E Z := fun s => let (v, s') := port_in 16 port s in (Ok v, s').
Definition outb (port value : Z) : M S E unit := fun s => (Ok tt, port_out 8 port value s).
Definition outw (port value : Z) : M S E unit := fun s => (Ok tt, port_out 16 port value s).
Definition read_volatile (addr : Z) : M S E Z := fun s => let (v, s') := mmio_read addr s in (Ok v, s').
Definition write_volatile (addr value : Z) : M S E unit := fun s => (Ok tt, mmio_write addr value s).

(** [while cond(port.read()) {}] polls at most [fuel] times. *)
Definition wait_while (fuel : nat) (port : Z) (cond : Z -> bool) : M S E unit :=
  loop fuel (fun _ : unit => v ← inb port; mret (if cond v then inl tt else inr tt)) tt.
End io.

(** ** Runs that succeed *)

(** [m] returns from [s], with a result and a state in [Q]. *)
Definition runs {S E A} (m : M S E A) (s : S) (Q : A -> S -> Prop) : Prop := exists a s', m s = (Ok a, s') /\ Q a s'.

Section runs.
Context {S E : Type}.

Lemma runs_ret {A} (a : A) (s : S) (Q : A -> S -> Prop) : Q a s -> runs (mret a : M S E A) s Q.
Proof. intros Hq. by exists a, s. Qed.

Lemma runs_get {A} (k : S -> M S E A) (s : S) (Q : A -> S -> Prop) : runs (k s) s Q -> runs (get ≫= k) s Q.
Proof. done. Qed.

Lemma runs_put {A} (k : unit -> M S E A) (s s' : S) (Q : A -> S -> Prop) : runs (k tt) s' Q -> runs (put s' ≫= k) s Q.
Proof. done. Qed.

Lemma runs_bind {A B} (m : M S E A) (k : A -> M S E B) s (Q : A -> S -> Prop) (R : B -> S -> Prop) :
  runs m s Q -> (forall a s', Q a s' -> runs (k a) s' R) -> runs (m ≫= k) s R.
Proof.
  intros (a & s1 & Hm & Hq) Hk. destruct (Hk a s1 Hq) as (b & s2 & Hk2 & Hr). exists b, s2. split; [|exact Hr].
  by rewrite (bind_ok _ _ _ _ _ Hm).
Qed.

Lemma runs_weaken {A} (m : M S E A) s (Q R : A -> S -> Prop) : runs m s Q -> (forall a s', Q a s' -> R a s') -> runs m s R.
Proof. intros (a & s' & Hm & Hq) HR. exists a, s'. auto. Qed.

(** A loop whose [variant] decreases each time it goes round. *)
Lemma runs_loop {A B} (I : A -> S -> Prop) (variant : A -> S -> nat) (body : A -> M S E (A + B)) (Q : B -> S -> Prop) :
  (forall a s, I a s -> runs (body a) s (fun r s' =>
     match r with inl a' => I a' s' /\ (variant a' s' < variant a s)%nat | inr b => Q b s' end)) ->
  forall fuel a s, I a s -> (variant a s < fuel)%nat -> runs (loop fuel body a) s Q.
Proof.
  intros Hb. induction fuel as [|fuel IH]; intros a s Ha Hv; [lia|]. cbn [loop]. eapply runs_bind; [by apply Hb|].
  intros [a'|b] s' Hr; [destruct Hr as [Hi Hlt]; apply IH; [done|lia]|by apply runs_ret].
Qed.

Context `{Hw S}.

Lemma runs_outb p v s (Q : unit -> S -> Prop) : Q tt (port_out 8 p v s) -> runs (outb p v : M S E unit) s Q.
Proof. intros Hq. by exists tt, (port_out 8 p v s). Qed.

Lemma runs_inb p s (Q : Z -> S -> Prop) : (let (v, s') := port_in 8 p s in Q v s') -> runs (inb p : M S E Z) s Q.
Proof. intros Hq. unfold runs, inb. destruct (port_in 8 p s) as [v s']. by exists v, s'. Qed.

Lemma runs_write_volatile p v s (Q : unit -> S -> Prop) : Q tt (mmio_write p v s) -> runs (write_volatile p v : M S E unit) s Q.
Proof. intros Hq. by exists tt, (mmio_write p v s). Qed.

Lemma runs_read_volatile p s (Q : Z -> S -> Prop) : (let (v, s') := mmio_read p s in Q v s') -> runs (read_volatile p : M S E Z) s Q.
Proof. intros Hq. unfold runs, read_volatile. destruct (mmio_read p s) as [v s']. by exists v, s'. Qed.

(** Polling ends when the device's answers run out of reasons to go on. *)
Lemma runs_wait_while (I Q : S -> Prop) (variant : S -> nat) p cond :
  (forall s, I s -> let (v, s') := port_in 8 p s in if (cond v : bool) then I s' /\ (variant s' < variant s)%nat else Q s') ->
  forall fuel s, I s -> (variant s < fuel)%nat -> runs (wait_while fuel p cond : M S E unit) s (fun _ => Q).
Proof.
  intros Hp fuel s Hi Hv. unfold wait_while.
  apply (runs_loop (fun _ => I) (fun _ => variant) _ (fun _ => Q)); [|done|done]. intros _ s1 Hi1. eapply runs_bind.
  - apply (runs_inb _ _ (fun v s' => if cond v then I s' /\ (variant s' < variant s1)%nat else Q s')). exact (Hp s1 Hi1).
  - intros v s' Hr. apply runs_ret. cbn beta in Hr. by destruct (cond v).
Qed.
End runs.
