(* ===== verification/VfsTypes.v ===== *)
(** * VfsTypes: the vocabulary of the virtual file system

    [vcore/src/vfs/types.rs]: open flags as the 32-bit word they are, error
    codes, metadata, and the two trait interfaces of the VFS layer
    ([Filesystem] and [FileHandle]) as type classes over a world [W] of file
    system contents, a type [F] of mounted file systems and a type [H] of
    handles.  The cursor arithmetic ([read], [seek]) that every in-memory
    handle repeats is [cursor_read] and [cursor_seek]. *)
From Stdlib Require Import ZArith Lia.
From stdpp Require Import base numbers option list.
From S2P Require Import Prelude.

Inductive FileType := File | Directory | Device.
#[export] Instance FileType_eq_dec : EqDecision FileType.
Proof. solve_decision. Defined.

Record Metadata := { md_file_type : FileType; md_size : Z }.

Record DirEntry := { de_name : rstr; de_file_type : FileType }.

Inductive SeekFrom :=
| Start (n : Z)      (* usize *)
| Current (n : Z)    (* isize *)
| End_ (n : Z).      (* isize *)

Inductive VfsError :=
| NotFound | AlreadyExists | NotADirectory | IsADirectory | NotEmpty | InvalidPath
| PermissionDenied | NoSpace | InvalidFd | NotSupported | IoError.
#[export] Instance VfsError_eq_dec : EqDecision VfsError.
Proof. solve_decision. Defined.

(** ** Open flags *)
Module OpenFlags.
Record t := mk { bits : Z }.

Definition O_RDONLY := mk 0.
Definition O_WRONLY := mk 1.
Definition O_RDWR := mk 2.
Definition O_CREAT := mk 64.          (* 0o100 *)
Definition O_EXCL := mk 128.          (* 0o200 *)
Definition O_TRUNC := mk 512.         (* 0o1000 *)
Definition O_APPEND := mk 1024.       (* 0o2000 *)
Definition O_DIRECTORY := mk 65536.   (* 0o200000 *)

Definition empty := mk 0.
Definition from_bits (b : Z) := mk b.

Definition contains (self other : t) : bool :=
  if bits other =? 0 then Z.land (bits self) 3 =? 0
  else Z.land (bits self) (bits other) =? bits other.

Definition union (self other : t) : t := mk (Z.lor (bits self) (bits other)).

(** [|] and [|=]. *)
Definition bitor (self rhs : t) : t := mk (Z.lor (bits self) (bits rhs)).
Definition bitor_assign (rhs : t) : M t Empty_set unit := self ← get; put (mk (Z.lor (bits self) (bits rhs))).

Definition access_mode (self : t) : Z := Z.land (bits self) 3.

Definition is_readable (self : t) : bool :=
  let mode := Z.land (bits self) 3 in (mode =? 0) || (mode =? 2).

Definition is_writable (self : t) : bool :=
  let mode := Z.land (bits self) 3 in (mode =? 1) || (mode =? 2).

Definition READ := O_RDONLY.
Definition WRITE := mk (Z.lor (Z.lor 1 64) 512).
Definition READ_WRITE := O_RDWR.
Definition APPEND := mk (Z.lor (Z.lor 1 64) 1024).
End OpenFlags.

(** ** Trait interfaces *)
Class Filesystem (W F H : Type) := {
  fs_open : F -> rstr -> OpenFlags.t -> M W VfsError H;
  fs_mkdir : F -> rstr -> M W VfsError unit;
  fs_remove : F -> rstr -> M W VfsError unit;
  fs_rmdir : F -> rstr -> M W VfsError unit;
  fs_readdir : F -> rstr -> M W VfsError (list DirEntry);
  fs_metadata : F -> rstr -> M W VfsError Metadata
}.

(** A method takes [&mut self] together with the world behind the handle's raw
    pointer; [read] returns the count and the caller's buffer. *)
Class FileHandle (W H : Type) := {
  fh_read : bytes -> M (H * W) VfsError (Z * bytes);
  fh_write : bytes -> M (H * W) VfsError Z;
  fh_seek : SeekFrom -> M (H * W) VfsError Z;
  fh_metadata : M (H * W) VfsError Metadata
}.

(** [Filesystem::exists], the trait's default method. *)
Definition fs_exists {W F H} `{Filesystem W F H} (f : F) (path : rstr) : M W VfsError bool :=
  fun w => let (o, w') := fs_metadata f path w in
  match o with
  | Ok _ => (Ok true, w')
  | Err _ => (Ok false, w')
  | Panic => (Panic, w')
  | Hang => (Hang, w')
  end.

(** ** Cursors over an in-memory file *)

(** The body of [FileHandle::read]: copy [data[pos..pos + to_read]] into the
    front of [buf].  The slice panics when [pos > data.len()].  Result: the
    count, the caller's buffer, the new position. *)
Definition cursor_read (data : bytes) (position : Z) (buf : bytes)
    : outcome VfsError (Z * bytes * Z) :=
  let available := sat_sub (zlen data) position in
  let to_read := Z.min (zlen buf) available in
  if position +w64 to_read <=? zlen data then
    if position <=? position +w64 to_read then
      let p := Z.to_nat position in
      Ok (to_read, splice buf 0 (slice data p (p + Z.to_nat to_read)), position +w64 to_read)
    else Panic
  else Panic.

(** The body of [FileHandle::seek] for a file of [len] bytes. *)
Definition cursor_seek (len position : Z) (pos : SeekFrom) : outcome VfsError Z :=
  let new_pos := match pos with
    | Start n => i64 n
    | Current n => i64 (i64 position + n)
    | End_ n => i64 (i64 len + n)
    end in
  if new_pos <? 0 then Err InvalidPath else Ok (u64 new_pos).

Lemma cursor_read_inside data position buf :
  0 <= position <= zlen data -> zlen data < 2 ^ 63 ->
  exists n, n = Z.min (zlen buf) (zlen data - position) /\
    cursor_read data position buf =
      Ok (n, splice buf 0 (slice data (Z.to_nat position) (Z.to_nat (position + n))), position + n).
Proof.
  intros Hp Hl. eexists; split; [reflexivity|].
  assert (0 <= zlen buf) by (unfold zlen; lia).
  unfold cursor_read, sat_sub. rewrite Z.max_r by lia.
  rewrite u64_small by lia.
  destruct (Z.leb_spec (position + Z.min (zlen buf) (zlen data - position)) (zlen data)); [|lia].
  destruct (Z.leb_spec position (position + Z.min (zlen buf) (zlen data - position))); [|lia].
  rewrite <- Z2Nat.inj_add by lia. done.
Qed.

(** Reading with the cursor past the end is an out-of-range slice. *)
Lemma cursor_read_past_end data position buf :
  zlen data < position < 2 ^ 64 -> cursor_read data position buf = Panic.
Proof.
  intros Hp. assert (0 <= zlen buf /\ 0 <= zlen data) as [Hb Hd] by (unfold zlen; lia).
  unfold cursor_read, sat_sub. rewrite Z.max_l by lia. rewrite Z.min_r by lia.
  rewrite Z.add_0_r, u64_small by lia.
  destruct (Z.leb_spec position (zlen data)); [lia|done].
Qed.

Lemma cursor_seek_range len position pos p :
  cursor_seek len position pos = Ok p -> 0 <= p < 2 ^ 63.
Proof.
  unfold cursor_seek. set (np := match pos with Start _ => _ | _ => _ end).
  assert (- 2 ^ 63 <= np < 2 ^ 63) by (subst np; destruct pos; apply i64_range).
  destruct (Z.ltb_spec np 0); [done|]. intros [= <-]. rewrite u64_small by lia. lia.
Qed.
