(* ===== verification/Path.v ===== *)
(** * Path: path strings

    [vcore/src/vfs/mod.rs] ([normalize_path], [resolve_path]) and the
    component splitter [path_parts] that tmpfs, tasksfs and fat32 share.  Paths
    are lists of code points; ['/'], ['.'] are [slash], [dot]. *)
From Stdlib Require Import ZArith Lia.
From stdpp Require Import base numbers option list sets.
From S2P Require Import Prelude.

Definition slash : Z := 47.
Definition dot : Z := 46.

(** [str::split('/')]: always at least one (possibly empty) piece. *)
Fixpoint split_slash (s : rstr) : list rstr :=
  match s with
  | [] => [[]]
  | c :: s' =>
      if c =? slash then [] :: split_slash s'
      else match split_slash s' with
           | p :: ps => (c :: p) :: ps
           | [] => [[c]]
           end
  end.

(** [path.split('/').filter(|s| !s.is_empty()).collect()]. *)
Definition path_parts (path : rstr) : list rstr :=
  filter (fun p => p ≠ []) (split_slash path).

(** One round of the loop in [normalize_path]; [Vec::pop] of an empty vector
    leaves it empty. *)
Definition normalize_step (parts : list rstr) (part : rstr) : list rstr :=
  if decide (part = []) then parts
  else if decide (part = [dot]) then parts
  else if decide (part = [dot; dot]) then removelast parts
  else parts ++ [part].

(** [for part in parts { result.push('/'); result.push_str(part) }]. *)
Definition render (parts : list rstr) : rstr :=
  foldl (fun result part => result ++ [slash] ++ part) [] parts.

Definition normalize_path (path : rstr) : rstr :=
  let parts := foldl normalize_step [] (split_slash path) in
  if decide (parts = []) then [slash] else render parts.

Definition ends_with_slash (s : rstr) : bool :=
  match last s with Some c => c =? slash | None => false end.

Definition resolve_path (path cwd : rstr) : rstr :=
  match path with
  | c :: _ =>
      if c =? slash then normalize_path path
      else normalize_path ((if ends_with_slash cwd then cwd else cwd ++ [slash]) ++ path)
  | [] => normalize_path ((if ends_with_slash cwd then cwd else cwd ++ [slash]) ++ path)
  end.

(** ** Canonical paths *)

(** A path component that normalisation keeps. *)
Definition good_name (p : rstr) : Prop :=
  p ≠ [] /\ p ≠ [dot] /\ p ≠ [dot; dot] /\ slash ∉ p.

#[export] Instance good_name_dec p : Decision (good_name p).
Proof. unfold good_name. apply _. Defined.

(** The absolute path with the given components. *)
Definition path_of (parts : list rstr) : rstr :=
  if decide (parts = []) then [slash] else render parts.

Definition canonical (p : rstr) : Prop :=
  exists parts, Forall good_name parts /\ p = path_of parts.

Lemma foldl_render_app acc parts :
  foldl (fun result part => result ++ [slash] ++ part) acc parts = acc ++ render parts.
Proof.
  unfold render. revert acc. induction parts as [|p ps IH]; intros acc; cbn [foldl].
  - by rewrite app_nil_r.
  - rewrite IH, (IH ([] ++ [slash] ++ p)). by rewrite <- app_assoc.
Qed.

Lemma render_cons p ps : render (p :: ps) = slash :: p ++ render ps.
Proof. unfold render at 1. cbn [foldl]. by rewrite foldl_render_app. Qed.

Lemma render_app ps qs : render (ps ++ qs) = render ps ++ render qs.
Proof. unfold render at 1. by rewrite foldl_app, foldl_render_app. Qed.

Lemma split_slash_cons_slash s : split_slash (slash :: s) = [] :: split_slash s.
Proof. done. Qed.

Lemma split_slash_nonempty s : split_slash s ≠ [].
Proof. destruct s as [|c s]; simpl; [done|]. case_bool; [done|]. by destruct (split_slash s). Qed.

Lemma split_slash_no_slash s : Forall (fun p => slash ∉ p) (split_slash s).
Proof.
  induction s as [|c s IH]; simpl.
  - constructor; [set_solver|done].
  - case_bool; [constructor; [set_solver|done]|].
    destruct (split_slash s) as [|p ps]; [constructor; [set_solver|done]|].
    apply Forall_cons in IH as [Hp Hps]. constructor; [|done]. rewrite not_elem_of_cons. split; [lia|done].
Qed.

Lemma split_slash_name p : slash ∉ p -> split_slash p = [p].
Proof.
  induction p as [|c p IH]; simpl; [done|]. rewrite not_elem_of_cons. intros [Hc Hp].
  destruct (Z.eqb_spec c slash); [congruence|]. by rewrite IH.
Qed.

Lemma split_slash_app p s :
  slash ∉ p -> split_slash (p ++ slash :: s) = p :: split_slash s.
Proof.
  induction p as [|c p IH]; simpl; [done|]. rewrite not_elem_of_cons. intros [Hc Hp].
  destruct (Z.eqb_spec c slash); [congruence|]. by rewrite IH.
Qed.

Lemma split_slash_app_slash a s :
  split_slash (a ++ slash :: s) = split_slash a ++ split_slash s.
Proof.
  induction a as [|c a IH]; [done|]. simpl. rewrite IH. case_bool; [done|].
  destruct (split_slash a) eqn:Ha; [by destruct (split_slash_nonempty a)|done].
Qed.

Lemma split_slash_render parts :
  Forall good_name parts -> split_slash (render parts) = [] :: parts.
Proof.
  induction 1 as [|p ps Hp Hps IH]; [done|].
  rewrite render_cons. simpl. f_equal.
  destruct Hp as (_ & _ & _ & Hs). destruct Hps as [|q qs Hq Hqs].
  - rewrite app_nil_r. by apply split_slash_name.
  - rewrite render_cons in IH |- *. rewrite split_slash_app by done.
    simpl in IH. injection IH as ->. done.
Qed.

Lemma normalize_step_good parts part :
  slash ∉ part -> Forall good_name parts -> Forall good_name (normalize_step parts part).
Proof.
  intros Hs Hg. unfold normalize_step. repeat case_decide; auto.
  - clear -Hg. induction Hg as [|p ps Hp Hps IH]; simpl; [constructor|].
    destruct ps; constructor; auto.
  - apply Forall_app; split; [done|]. constructor; [|done]. by repeat split.
Qed.

Lemma normalize_parts_good l acc :
  Forall (fun p => slash ∉ p) l -> Forall good_name acc ->
  Forall good_name (foldl normalize_step acc l).
Proof.
  intros Hl. revert acc. induction Hl; intros acc Ha; simpl; [done|].
  auto using normalize_step_good.
Qed.

Lemma normalize_step_app acc part :
  good_name part -> normalize_step acc part = acc ++ [part].
Proof.
  intros (H1 & H2 & H3 & _). unfold normalize_step.
  by rewrite !decide_False by done.
Qed.

Lemma normalize_parts_id parts acc :
  Forall good_name parts -> foldl normalize_step acc parts = acc ++ parts.
Proof.
  intros H. revert acc. induction H as [|p ps Hp Hps IH]; intros acc; simpl.
  - by rewrite app_nil_r.
  - rewrite normalize_step_app, IH by done. by rewrite <- app_assoc.
Qed.

Lemma split_slash_path_of parts :
  Forall good_name parts ->
  foldl normalize_step [] (split_slash (path_of parts)) = parts.
Proof.
  intros H. unfold path_of. case_decide as Hn; [by subst|].
  rewrite split_slash_render by done. simpl. by rewrite normalize_parts_id.
Qed.

Lemma path_parts_path_of parts :
  Forall good_name parts -> path_parts (path_of parts) = parts.
Proof.
  intros H. unfold path_parts, path_of. case_decide as Hn; [by subst|].
  rewrite split_slash_render by done. rewrite filter_cons_False by (intros H'; by apply H').
  clear Hn. induction H as [|p ps Hp Hps IH]; [done|].
  rewrite filter_cons_True by (by destruct Hp). by rewrite IH.
Qed.

Lemma normalize_path_of_parts path :
  exists parts, Forall good_name parts /\ normalize_path path = path_of parts /\
    parts = foldl normalize_step [] (split_slash path).
Proof.
  exists (foldl normalize_step [] (split_slash path)). split_and!; [|done|done].
  apply normalize_parts_good; [apply split_slash_no_slash|constructor].
Qed.

Lemma normalize_path_canonical path : canonical (normalize_path path).
Proof. destruct (normalize_path_of_parts path) as (ps & ? & ? & _). by exists ps. Qed.

Lemma normalize_canonical_id p : canonical p -> normalize_path p = p.
Proof.
  intros (ps & Hps & ->). unfold normalize_path. by rewrite split_slash_path_of.
Qed.

#[export] Hint Resolve normalize_path_canonical : vyper.

Lemma last_app_slash (a : rstr) : ends_with_slash (a ++ [slash]) = true.
Proof. unfold ends_with_slash. rewrite last_snoc. done. Qed.

Lemma ends_with_slash_inv (a : rstr) :
  ends_with_slash a = true -> exists b, a = b ++ [slash].
Proof.
  unfold ends_with_slash. destruct (last a) as [c|] eqn:Hl; [|done].
  intros Hc. zbool. subst. apply last_Some in Hl. done.
Qed.

Lemma split_slash_snoc_slash a : split_slash (a ++ [slash]) = split_slash a ++ [[]].
Proof. apply (split_slash_app_slash a []). Qed.

(** The working directory followed by a separator splits into the directory's
    pieces and then those of the relative path. *)
Lemma normalize_join_pieces path cwd :
  foldl normalize_step []
    (split_slash ((if ends_with_slash cwd then cwd else cwd ++ [slash]) ++ path)) =
  foldl normalize_step (foldl normalize_step [] (split_slash cwd)) (split_slash path).
Proof.
  destruct (ends_with_slash cwd) eqn:He.
  - apply ends_with_slash_inv in He as [b ->]. rewrite <- app_assoc. simpl.
    by rewrite split_slash_app_slash, split_slash_snoc_slash, !foldl_app.
  - rewrite <- app_assoc. simpl. by rewrite split_slash_app_slash, foldl_app.
Qed.

Lemma render_inj ps qs :
  Forall good_name ps -> Forall good_name qs -> render ps = render qs -> ps = qs.
Proof.
  intros Hp Hq H. apply (f_equal split_slash) in H.
  rewrite !split_slash_render in H by done. by injection H.
Qed.

Lemma render_nil_inv ps : render ps = [] -> ps = [].
Proof. destruct ps; [done|]. by rewrite render_cons. Qed.

Lemma render_not_root ps : Forall good_name ps -> render ps ≠ [slash].
Proof.
  destruct 1 as [|p ps Hp Hps]; [done|]. rewrite render_cons. intros [= H].
  apply app_nil in H as [H _]. by destruct Hp.
Qed.

Lemma path_of_inj ps qs :
  Forall good_name ps -> Forall good_name qs -> path_of ps = path_of qs -> ps = qs.
Proof.
  intros Hp Hq H. rewrite <- (path_parts_path_of ps), <- (path_parts_path_of qs) by done.
  by rewrite H.
Qed.

Lemma path_of_root_iff ps : Forall good_name ps -> path_of ps = [slash] <-> ps = [].
Proof.
  intros Hp. split; [|by intros ->]. intros H.
  apply (path_of_inj ps []); [done|done|]. by rewrite H.
Qed.

(** What is left of a canonical path after the text of another one, when it is
    empty or starts with a separator, is a list of whole components. *)
Lemma render_strip mp ps rest :
  Forall good_name mp -> Forall good_name ps ->
  render ps = render mp ++ rest -> (rest = [] \/ head rest = Some slash) ->
  exists qs, ps = mp ++ qs /\ rest = render qs.
Proof.
  intros Hm Hp Heq Hrest.
  assert (exists qs, ps = mp ++ qs) as [qs ->].
  { pose proof (f_equal split_slash Heq) as Hs. rewrite split_slash_render in Hs by done.
    destruct rest as [|c r].
    - rewrite app_nil_r, split_slash_render in Hs by done. injection Hs as ->.
      exists []. by rewrite app_nil_r.
    - destruct Hrest as [?|[= ->]]; [done|].
      rewrite split_slash_app_slash, split_slash_render in Hs by done.
      injection Hs as ->. by exists (split_slash r). }
  exists qs. split; [done|]. rewrite render_app in Heq. by apply app_inv_head in Heq.
Qed.

Lemma render_head ps : ps ≠ [] -> head (render ps) = Some slash.
Proof. destruct ps; [done|]. by rewrite render_cons. Qed.

Lemma path_of_cons ps : ps ≠ [] -> path_of ps = render ps.
Proof. intros. unfold path_of. by rewrite decide_False. Qed.

(** More components, longer text. *)
Lemma path_of_prefix_len mp ps :
  Forall good_name ps -> mp `prefix_of` ps -> mp ≠ ps ->
  str_len (path_of mp) < str_len (path_of ps).
Proof.
  intros Hp [qs ->] Hne.
  assert (qs ≠ []) as Hq by (intros ->; by rewrite app_nil_r in Hne).
  apply Forall_app in Hp as [Hm Hp].
  rewrite (path_of_cons (mp ++ qs)) by (by destruct mp).
  rewrite render_app, str_len_app. destruct mp as [|m mp].
  - unfold path_of. rewrite decide_True by done. destruct Hp as [|q qs Hq' Hqs]; [done|].
    rewrite render_cons. cbn [render foldl str_len fold_right].
    change (fold_right (fun c n => char_len_utf8 c + n) 0 (q ++ render qs))
      with (str_len (q ++ render qs)).
    rewrite str_len_app. pose proof (str_len_pos q (proj1 Hq')).
    pose proof (str_len_nonneg (render qs)). lia.
  - rewrite path_of_cons by done.
    assert (0 < str_len (render qs)); [|lia].
    apply str_len_pos. intros Hn. by apply render_nil_inv in Hn.
Qed.

Lemma canonical_iff p :
  canonical p <-> Forall good_name (path_parts p) /\ path_of (path_parts p) = p.
Proof.
  split; [|intros [H1 H2]; by exists (path_parts p)].
  intros (ps & Hps & ->). by rewrite path_parts_path_of.
Qed.

#[export] Instance canonical_dec p : Decision (canonical p).
Proof.
  refine (cast_if (decide (Forall good_name (path_parts p) /\ path_of (path_parts p) = p)));
    by rewrite canonical_iff.
Defined.

(** ** Properties *)

(** path normalisation returns a canonical absolute path - it starts at the
    root and has no empty, ["."] or [".."] component, so [".."] never climbs
    above the root - and it leaves every canonical path as it is, hence is
    idempotent. *)
Theorem normalize_path_spec path :
  canonical (normalize_path path) /\
  normalize_path (normalize_path path) = normalize_path path /\
  (forall parts, Forall good_name parts -> normalize_path (path_of parts) = path_of parts).
Proof.
  split_and!.
  - apply normalize_path_canonical.
  - apply normalize_canonical_id, normalize_path_canonical.
  - intros parts Hp. apply normalize_canonical_id. by exists parts.
Qed.

(** resolving a path against a canonical working directory walks its pieces
    from the working directory's components (from the root when the path is
    absolute) and yields the canonical path of the result. *)
Theorem resolve_path_spec path cwd_parts :
  Forall good_name cwd_parts ->
  resolve_path path (path_of cwd_parts) =
    path_of (foldl normalize_step
      (if decide (head path = Some slash) then [] else cwd_parts) (split_slash path)).
Proof.
  intros Hc.
  assert (Hrel : normalize_path
    ((if ends_with_slash (path_of cwd_parts) then path_of cwd_parts
      else path_of cwd_parts ++ [slash]) ++ path) =
    path_of (foldl normalize_step cwd_parts (split_slash path))).
  { unfold normalize_path. by rewrite normalize_join_pieces, split_slash_path_of. }
  unfold resolve_path. destruct path as [|c path]; simpl head.
  - rewrite decide_False by done. apply Hrel.
  - destruct (Z.eqb_spec c slash) as [->|Hne].
    + by rewrite decide_True.
    + rewrite decide_False by (by intros [= ?]). apply Hrel.
Qed.

Lemma resolve_path_spec_witness :
  resolve_path (lit "../b/./c") (path_of [lit "home"; lit "a"]) = lit "/home/b/c".
Proof.
  rewrite (resolve_path_spec (lit "../b/./c") [lit "home"; lit "a"]).
  - reflexivity.
  - apply (bool_decide_unpack _). reflexivity.
Defined.
