(* ===== verification/Vfs.v ===== *)
(** * Vfs: the mount table

    [vcore/src/vfs/mod.rs]: [Vfs::mount], [unmount], [resolve] and the
    operations that delegate to the file system found, over the [Filesystem]
    interface.  [F] is the [Box<dyn Filesystem>] of a mount. *)
From Stdlib Require Import ZArith Lia Permutation.
From Stdlib Require Import Sorted.
From stdpp Require Import base numbers option list sets sorting.
From S2P Require Import Prelude VfsTypes Path.

Section vfs.
Context {W F H : Type} `{!Filesystem W F H}.

Record Mount := mkMount { m_path : rstr; m_fs : F }.
Record Vfs := mkVfs { mounts : list Mount }.

Definition Vfs_new : Vfs := mkVfs [].

(** [slice::sort_by] is stable; with the comparison [b.len().cmp(&a.len())]
    an element goes in front of the first one that is not longer. *)
Fixpoint insert_by_len (m : Mount) (l : list Mount) : list Mount :=
  match l with
  | [] => [m]
  | y :: l' =>
      if str_len (m_path y) <=? str_len (m_path m) then m :: y :: l'
      else y :: insert_by_len m l'
  end.

Definition sort_by_len (l : list Mount) : list Mount := foldr insert_by_len [] l.

Definition vfs_mount (path : rstr) (fs : F) : M Vfs VfsError unit :=
  let path := normalize_path path in
  v ← get;
  if existsb (fun m => bool_decide (m_path m = path)) (mounts v) then fail AlreadyExists
  else put (mkVfs (sort_by_len (mounts v ++ [mkMount path fs]))).

Definition vfs_unmount (path : rstr) : M Vfs VfsError unit :=
  let path := normalize_path path in
  v ← get;
  idx ← ok_or NotFound (fst <$> list_find (fun m => m_path m = path) (mounts v));
  put (mkVfs (take idx (mounts v) ++ drop (S idx) (mounts v))).

(** [str::starts_with]: what is left of [s] after [prefix]. *)
Fixpoint strip_prefix (prefix s : rstr) : option rstr :=
  match prefix, s with
  | [], _ => Some s
  | p :: prefix', c :: s' => if p =? c then strip_prefix prefix' s' else None
  | _ :: _, [] => None
  end.

Definition starts_with_slash (s : rstr) : bool :=
  match s with c :: _ => c =? slash | [] => false end.

(** The loop of [Vfs::resolve] over the mounts. *)
Fixpoint resolve_in (path : rstr) (ms : list Mount) : outcome VfsError (F * rstr) :=
  match ms with
  | [] => Err NotFound
  | mount :: ms' =>
      if decide (m_path mount = [slash]) then Ok (m_fs mount, path)
      else if decide (path = m_path mount) then Ok (m_fs mount, [slash])
      else match strip_prefix (m_path mount) path with
           | Some rest =>
               if decide (rest = [] \/ rest = [slash]) then Ok (m_fs mount, [slash])
               else if starts_with_slash rest then Ok (m_fs mount, rest)
               else resolve_in path ms'
           | None => resolve_in path ms'
           end
  end.

Definition vfs_resolve (v : Vfs) (path : rstr) : outcome VfsError (F * rstr) :=
  resolve_in (normalize_path path) (mounts v).

Definition vfs_open (v : Vfs) (path : rstr) (flags : OpenFlags.t) : M W VfsError H :=
  '(fs, relative) ← lift (vfs_resolve v path); fs_open fs relative flags.
Definition vfs_mkdir (v : Vfs) (path : rstr) : M W VfsError unit :=
  '(fs, relative) ← lift (vfs_resolve v path); fs_mkdir fs relative.
Definition vfs_remove (v : Vfs) (path : rstr) : M W VfsError unit :=
  '(fs, relative) ← lift (vfs_resolve v path); fs_remove fs relative.
Definition vfs_rmdir (v : Vfs) (path : rstr) : M W VfsError unit :=
  '(fs, relative) ← lift (vfs_resolve v path); fs_rmdir fs relative.
Definition vfs_readdir (v : Vfs) (path : rstr) : M W VfsError (list DirEntry) :=
  '(fs, relative) ← lift (vfs_resolve v path); fs_readdir fs relative.
Definition vfs_metadata (v : Vfs) (path : rstr) : M W VfsError Metadata :=
  '(fs, relative) ← lift (vfs_resolve v path); fs_metadata fs relative.

Definition vfs_exists (v : Vfs) (path : rstr) : M W VfsError bool := fun w =>
  let (o, w') := vfs_metadata v path w in
  match o with
  | Ok _ => (Ok true, w') | Err _ => (Ok false, w')
  | Panic => (Panic, w') | Hang => (Hang, w')
  end.

(** ** The invariant of the mount table *)

(** Longest path first. *)
Definition longer (a b : Mount) : Prop := str_len (m_path b) <= str_len (m_path a).

Record vfs_wf (v : Vfs) : Prop := {
  wf_canonical : Forall (fun m => canonical (m_path m)) (mounts v);
  wf_nodup : NoDup (m_path <$> mounts v);
  wf_sorted : StronglySorted longer (mounts v)
}.

#[local] Instance longer_trans : Transitive longer.
Proof. unfold longer. intros a b c. lia. Qed.

Lemma insert_by_len_perm m l : insert_by_len m l ≡ₚ m :: l.
Proof.
  induction l as [|y l IH]; simpl; [done|]. case_bool; [done|].
  rewrite IH. apply Permutation_swap.
Qed.

Lemma sort_by_len_perm l : sort_by_len l ≡ₚ l.
Proof. induction l as [|m l IH]; simpl; [done|]. by rewrite insert_by_len_perm, IH. Qed.

Lemma insert_by_len_sorted m l :
  StronglySorted longer l -> StronglySorted longer (insert_by_len m l).
Proof.
  induction 1 as [|y l Hl IH Hy]; simpl; [repeat constructor|].
  case_bool.
  - constructor; [by constructor|]. constructor; [done|].
    eapply Forall_impl; [exact Hy|]. intros z Hz. by trans y.
  - constructor; [done|]. rewrite insert_by_len_perm. constructor; [|done].
    unfold longer. lia.
Qed.

Lemma sort_by_len_sorted l : StronglySorted longer (sort_by_len l).
Proof. induction l; simpl; [constructor|]. by apply insert_by_len_sorted. Qed.

Lemma vfs_new_wf : vfs_wf Vfs_new.
Proof. split; simpl; constructor. Qed.

Lemma strip_prefix_Some pre s rest : strip_prefix pre s = Some rest <-> s = pre ++ rest.
Proof.
  revert s. induction pre as [|p pre IH]; intros s; simpl.
  - split; congruence.
  - destruct s as [|c s]; [by split|]. destruct (Z.eqb_spec p c) as [->|Hne].
    + rewrite IH. split; congruence.
    + split; congruence.
Qed.

Lemma existsb_mounted p l :
  existsb (fun m => bool_decide (m_path m = p)) l = true <-> p ∈ (m_path <$> l).
Proof.
  rewrite existsb_exists, list_elem_of_fmap. split.
  - intros (m & Hin & Hm%bool_decide_eq_true). exists m. by rewrite list_elem_of_In.
  - intros (m & -> & Hin). exists m. rewrite <- list_elem_of_In. by rewrite bool_decide_eq_true.
Qed.
End vfs.
Arguments Mount : clear implicits.
Arguments Vfs : clear implicits.

Section vfs_props.
Context {W F H : Type} `{!Filesystem W F H}.

Lemma resolve_in_cons mp fs ms ps :
  Forall good_name mp -> Forall good_name ps ->
  resolve_in (path_of ps) (mkMount (path_of mp) fs :: ms) =
    if decide (mp `prefix_of` ps) then Ok (fs, path_of (drop (length mp) ps) : rstr)
    else resolve_in (F:=F) (path_of ps) ms.
Proof.
  intros Hm Hp. cbn [resolve_in m_path m_fs].
  destruct (decide (path_of mp = [slash])) as [Hr|Hr].
  { apply path_of_root_iff in Hr; [|done]. subst mp.
    rewrite decide_True by apply prefix_nil. by rewrite drop_0. }
  assert (mp ≠ []) as Hne by (intros ->; by apply Hr).
  case_decide as He.
  { apply path_of_inj in He; [|done..]. subst mp. rewrite decide_True by done.
    by rewrite drop_all. }
  destruct (decide (mp `prefix_of` ps)) as [[qs ->]|Hpre].
  - assert (qs ≠ []) as Hq by (intros ->; by rewrite app_nil_r in He).
    apply Forall_app in Hp as [_ Hq'].
    rewrite drop_app_length, !path_of_cons by (try done; by destruct mp).
    rewrite render_app, (proj2 (strip_prefix_Some _ _ (render qs)) eq_refl).
    rewrite decide_False by
      (intros [Hx|Hx]; [by apply render_nil_inv in Hx|by apply render_not_root in Hx]).
    pose proof (render_head qs Hq) as Hh. destruct (render qs) as [|c r]; [done|].
    injection Hh as ->. done.
  - destruct (strip_prefix (path_of mp) (path_of ps)) as [rest|] eqn:Hs; [|done].
    apply strip_prefix_Some in Hs. rewrite (path_of_cons mp) in Hs by done.
    assert (ps ≠ []) as Hps.
    { intros ->. destruct Hm as [|p mp [Hpn _] Hm]; [done|]. rewrite render_cons in Hs.
      injection Hs as Hs. symmetry in Hs. apply app_nil in Hs as [Hs _].
      by apply app_nil in Hs as [Hs _]. }
    rewrite path_of_cons in Hs by done.
    assert (~ (rest = [] \/ head rest = Some slash)) as Hno.
    { intros Hx. destruct (render_strip mp ps rest) as (qs & -> & _); [done..|].
      apply Hpre. by exists qs. }
    rewrite decide_False by (intros [->| ->]; apply Hno; auto).
    destruct rest as [|c r]; [by destruct Hno; left|]. simpl.
    destruct (Z.eqb_spec c slash) as [->|]; [by destruct Hno; right|done].
Qed.

(** The mounts in the order of the table, by components. *)
Definition table (v : Vfs F) (l : list (list rstr * F)) : Prop :=
  Forall (fun x => Forall good_name x.1) l /\
  mounts v = (fun x => mkMount (path_of x.1) x.2) <$> l.

Lemma wf_table v : vfs_wf v -> exists l, table v l.
Proof.
  intros [Hc _ _]. unfold table. induction Hc as [|[p fs] ms (mp & Hmp & Hp) Hms IH].
  - exists []. by split.
  - destruct IH as (l & Hl & ->). exists ((mp, fs) :: l). simpl in *. subst p.
    split; [by constructor|done].
Qed.

Lemma resolve_table v l ps :
  table v l -> Forall good_name ps ->
  resolve_in (path_of ps) (mounts v) =
    match list_find (fun x : list rstr * F => x.1 `prefix_of` ps) l with
    | Some (_, (mp, fs)) => Ok (fs, path_of (drop (length mp) ps))
    | None => Err NotFound
    end.
Proof.
  intros [Hl ->] Hp. induction Hl as [|[mp fs] l Hmp Hl IH]; [done|].
  rewrite fmap_cons, resolve_in_cons by done. cbn [list_find fst].
  destruct (decide (mp `prefix_of` ps)) as [Hd|Hd]; [done|].
  rewrite IH. by destruct (list_find _ l) as [[? [? ?]]|].
Qed.

Lemma sorted_lookup (ms : list (Mount F)) i j mi mj :
  StronglySorted longer ms -> ms !! i = Some mi -> ms !! j = Some mj -> (i < j)%nat ->
  str_len (m_path mj) <= str_len (m_path mi).
Proof.
  intros Hs. revert i j. induction Hs as [|m ms Hms IH Hm]; intros i j Hi Hj Hij; [done|].
  destruct j as [|j]; [lia|]. destruct i as [|i]; simpl in *.
  - injection Hi as <-. rewrite Forall_lookup in Hm. by eapply Hm.
  - eapply (IH i j); eauto. lia.
Qed.

(** What [resolve] promises for a path with components [ps]: the mount whose
    path is the longest component-wise prefix, and the rest of the path. *)
Definition resolved_longest (v : Vfs F) (ps : list rstr) (o : outcome VfsError (F * rstr)) : Prop :=
  match o with
  | Ok (fs, rel) => exists mp,
      mkMount (path_of mp) fs ∈ mounts v /\ Forall good_name mp /\
      mp `prefix_of` ps /\ rel = path_of (drop (length mp) ps) /\
      (forall mp' fs', mkMount (path_of mp') fs' ∈ mounts v -> Forall good_name mp' ->
         mp' `prefix_of` ps -> mp' `prefix_of` mp)
  | Err e => e = NotFound /\
      (forall mp' fs', mkMount (path_of mp') fs' ∈ mounts v -> Forall good_name mp' ->
         ~ mp' `prefix_of` ps)
  | Panic | Hang => False
  end.

Lemma resolve_longest (v : Vfs F) path ps :
  vfs_wf v -> Forall good_name ps -> normalize_path path = path_of ps ->
  resolved_longest v ps (vfs_resolve v path).
Proof.
  intros Hwf Hps Hn. destruct (wf_table v Hwf) as (l & Htab).
  unfold vfs_resolve. rewrite Hn, (resolve_table v l ps) by done.
  pose proof Htab as [Hg Hms].
  assert (Hin : forall mp' fs', mkMount (path_of mp') fs' ∈ mounts v -> Forall good_name mp' ->
    exists i, l !! i = Some (mp', fs')).
  { intros mp' fs' Hin Hg'. rewrite Hms in Hin.
    apply list_elem_of_fmap in Hin as ([mp'' fs''] & [= Hpp ->] & Hin).
    pose proof Hin as Hin'. rewrite Forall_forall in Hg. apply Hg in Hin'.
    apply path_of_inj in Hpp; [|done..]. simpl in *. subst.
    by apply list_elem_of_lookup in Hin. }
  destruct (list_find _ l) as [[i [mp fs]]|] eqn:Hf.
  - apply list_find_Some in Hf as (Hi & Hpre & Hfirst). simpl in *.
    assert (Forall good_name mp) as Hmp by (by rewrite Forall_lookup in Hg; apply (Hg _ _ Hi)).
    exists mp. split_and!; [|done|done|done|].
    + rewrite Hms. apply list_elem_of_fmap. exists (mp, fs). split; [done|].
      apply list_elem_of_lookup. eauto.
    + intros mp' fs' Hm' Hg' Hpre'. destruct (Hin mp' fs' Hm' Hg') as [j Hj].
      destruct (prefix_weak_total mp mp' ps Hpre Hpre') as [Hle|Hle]; [|done].
      destruct (decide (mp = mp')) as [->|Hne]; [done|]. exfalso.
      pose proof (path_of_prefix_len mp mp' Hg' Hle Hne) as Hlen.
      destruct (decide (j < i)%nat) as [Hji|Hji]; [by apply (Hfirst j _ Hj)|].
      assert (j ≠ i) by (intros ->; congruence).
      pose proof (sorted_lookup (mounts v) i j (mkMount (path_of mp) fs)
        (mkMount (path_of mp') fs') (wf_sorted v Hwf)) as Hs.
      rewrite Hms, !list_lookup_fmap, Hi, Hj in Hs. simpl in Hs.
      specialize (Hs eq_refl eq_refl ltac:(lia)). lia.
  - split; [done|]. intros mp' fs' Hm' Hg' Hpre'.
    destruct (Hin mp' fs' Hm' Hg') as [j Hj]. apply list_find_None in Hf.
    rewrite Forall_lookup in Hf. by apply (Hf _ _ Hj).
Qed.

Lemma mounted_same_fs (v : Vfs F) p fs fs' :
  NoDup (m_path <$> mounts v) ->
  mkMount p fs ∈ mounts v -> mkMount p fs' ∈ mounts v -> fs = fs'.
Proof.
  intros Hnd (i & Hi)%list_elem_of_lookup (j & Hj)%list_elem_of_lookup.
  assert (i = j) as ->; [|congruence].
  eapply (NoDup_lookup _ _ _ p Hnd); by rewrite list_lookup_fmap, ?Hi, ?Hj.
Qed.

Lemma remove_at_perm (l : list (Mount F)) i m :
  l !! i = Some m -> l ≡ₚ m :: take i l ++ drop (S i) l.
Proof.
  intros Hi. rewrite <- (take_drop_middle l i m Hi) at 1. by rewrite Permutation_middle.
Qed.

(** C29: [Vfs::resolve] finds the mount whose path is the longest
    component-wise prefix of the normalised path, and hands the file system
    the remaining components as an absolute path; it fails with [NotFound]
    exactly when no mount point covers the path. *)
Theorem vfs_resolve_longest (v : Vfs F) path ps :
  vfs_wf v -> Forall good_name ps -> normalize_path path = path_of ps ->
  resolved_longest v ps (vfs_resolve v path).
Proof. apply resolve_longest. Qed.

(** [Vfs::mount] keeps the table canonical, duplicate-free and sorted; it
    refuses a path already mounted and otherwise adds exactly one entry, after
    which the mount path itself resolves to the root of the new file system. *)
Theorem vfs_mount_spec (v : Vfs F) path fs :
  vfs_wf v ->
  match vfs_mount path fs v with
  | (Ok _, v') => (normalize_path path ∉ m_path <$> mounts v) /\ vfs_wf v' /\
      (mounts v' ≡ₚ mkMount (normalize_path path) fs :: mounts v) /\
      vfs_resolve v' path = Ok (fs, [slash] : rstr)
  | (Err e, v') => e = AlreadyExists /\ v' = v /\ normalize_path path ∈ (m_path <$> mounts v)
  | _ => False
  end.
Proof.
  intros Hwf. destruct (normalize_path_of_parts path) as (ps & Hps & Hn & _).
  unfold vfs_mount. rewrite Hn. mred.
  match goal with |- context [existsb ?f (mounts v)] => destruct (existsb f (mounts v)) eqn:He end; cbn [fail put].
  { by apply existsb_mounted in He. }
  assert (path_of ps ∉ (m_path <$> mounts v)) as Hnew
    by (intros Hin; apply existsb_mounted in Hin; congruence).
  set (v' := mkVfs _).
  assert (mounts v' ≡ₚ mkMount (path_of ps) fs :: mounts v) as Hperm.
  { simpl. rewrite sort_by_len_perm. by rewrite Permutation_app_comm. }
  assert (vfs_wf v') as Hwf'.
  { split.
    - rewrite Hperm. constructor; [by exists ps|apply (wf_canonical v Hwf)].
    - rewrite Hperm. simpl. constructor; [done|apply (wf_nodup v Hwf)].
    - apply sort_by_len_sorted. }
  split_and!; [done..|].
  assert (mkMount (path_of ps) fs ∈ mounts v') as Hin by (rewrite Hperm; left).
  pose proof (resolve_longest v' path ps Hwf' Hps Hn) as Hr.
  destruct (vfs_resolve v' path) as [[fs' rel]|e| |]; [|by destruct (proj2 Hr ps fs)|done..].
  destruct Hr as (mp & Hm & Hg & Hpre & -> & Hlong).
  assert (mp = ps) as ->.
  { apply (anti_symm prefix); [done|]. by apply (Hlong ps fs). }
  rewrite drop_all. by rewrite (mounted_same_fs v' (path_of ps) fs fs' (wf_nodup v' Hwf')).
Qed.

(** [Vfs::unmount] removes exactly the entry of that path and keeps the
    invariant; it reports [NotFound] and changes nothing otherwise. *)
Theorem vfs_unmount_spec (v : Vfs F) path :
  vfs_wf v ->
  match vfs_unmount path v with
  | (Ok _, v') => vfs_wf v' /\ (exists fs, mounts v ≡ₚ mkMount (normalize_path path) fs :: mounts v') /\
      normalize_path path ∉ (m_path <$> mounts v')
  | (Err e, v') => e = NotFound /\ v' = v /\ normalize_path path ∉ (m_path <$> mounts v)
  | _ => False
  end.
Proof.
  intros [Hc Hnd Hs]. unfold vfs_unmount. mred.
  destruct (list_find _ (mounts v)) as [[i m]|] eqn:Hf; cbn; mred; cbn [put].
  - apply list_find_Some in Hf as (Hi & Hm & _). destruct m as [p fs]. simpl in Hm. subst p.
    pose proof (remove_at_perm (mounts v) i _ Hi) as Hperm.
    assert (NoDup (m_path <$> (mkMount (normalize_path path) fs :: take i (mounts v) ++ drop (S i) (mounts v)))) as Hnd'
      by (by rewrite <- Hperm).
    apply NoDup_cons in Hnd' as [Hnin Hnd'].
    split_and!; [split; simpl|by exists fs|done].
    + rewrite Hperm in Hc. by inversion Hc.
    + done.
    + rewrite <- (take_drop_middle _ _ _ Hi) in Hs.
      apply StronglySorted_app in Hs as (H1 & H2 & H3).
      apply StronglySorted_app. inversion H3; subst. split_and!; auto.
      intros x y Hx Hy. apply H1; [done|]. by right.
  - split_and!; [done..|]. intros Hin. apply list_elem_of_fmap in Hin as (m & Hp & Hin).
    apply list_find_None in Hf. rewrite Forall_forall in Hf. by apply (Hf m Hin).
Qed.
End vfs_props.

(** ** Witnesses: the table that [setup_fs] builds, with file systems named by numbers *)
Definition boot_mounts : Vfs nat :=
  (((vfs_mount (lit "/") 0%nat ;;
     vfs_mount (lit "/live/tasks") 1%nat ;;
    vfs_mount (lit "/live/mem") 2%nat ;; vfs_mount (lit "/dev") 3%nat) : M (Vfs nat) VfsError unit) Vfs_new).2.

Lemma boot_mounts_wf : vfs_wf boot_mounts.
Proof.
  split.
  - apply (bool_decide_unpack _). vm_compute. done.
  - apply (bool_decide_unpack _). vm_compute. done.
  - repeat constructor; unfold longer; vm_compute; done.
Qed.

Lemma vfs_resolve_longest_witness :
  vfs_resolve boot_mounts (lit "/live/tasks/../tasks/3/status") = Ok (1%nat, lit "/3/status") /\
  resolved_longest boot_mounts [lit "live"; lit "tasks"; lit "3"; lit "status"]
    (vfs_resolve boot_mounts (lit "/live/tasks/../tasks/3/status")).
Proof.
  split; [reflexivity|].
  apply (vfs_resolve_longest boot_mounts); [apply boot_mounts_wf| |reflexivity].
  apply (bool_decide_unpack _). reflexivity.
Defined.

Lemma vfs_mount_spec_witness :
  match vfs_mount (lit "/mnt/") 7%nat boot_mounts with
  | (Ok _, v') => vfs_resolve v' (lit "/mnt/") = Ok (7%nat, [slash])
  | _ => False
  end.
Proof.
  pose proof (vfs_mount_spec boot_mounts (lit "/mnt/") 7%nat boot_mounts_wf) as H.
  vm_compute in H |- *. tauto.
Defined.

Lemma vfs_unmount_spec_witness :
  match vfs_unmount (lit "/dev") boot_mounts with
  | (Ok _, v') => vfs_wf v'
  | _ => False
  end.
Proof.
  pose proof (vfs_unmount_spec boot_mounts (lit "/dev") boot_mounts_wf) as H.
  destruct (vfs_unmount (lit "/dev") boot_mounts) as [[u|e| |] v'] eqn:Hu.
  - apply H.
  - discriminate Hu.
  - exact H.
  - exact H.
Defined.
