(* ===== verification/FdTable.v ===== *)
(** * FdTable: per-task file descriptors

    [vcore/src/vfs/fd.rs]: an array of [MAX_FDS] optional descriptors.  The
    handle type [H] is [Box<dyn FileHandle>]. *)
From Stdlib Require Import ZArith Lia.
From stdpp Require Import base numbers option list sets.
From S2P Require Import Prelude VfsTypes.

Definition MAX_FDS : nat := 64.

Section fd_table.
Context {H : Type}.

Inductive FdKind :=
| FdFile (handle : H)
| FdDirectory (path : rstr) (entries : list DirEntry) (position : Z)
| Stdin
| Stdout
| Stderr.

Record FdTable := mkFdTable { fds : list (option FdKind) }.

Definition FdTable_new : FdTable :=
  mkFdTable (<[2%nat := Some Stderr]> (<[1%nat := Some Stdout]>
    (<[0%nat := Some Stdin]> (replicate MAX_FDS None)))).

(** First free slot, lowest index first. *)
Definition fd_alloc (kind : FdKind) : M FdTable VfsError Z :=
  t ← get;
  match list_find (fun o : option FdKind => o = None) (fds t) with
  | Some (i, _) => put (mkFdTable (<[i := Some kind]> (fds t))) ;; mret (Z.of_nat i)
  | None => fail NoSpace
  end.

Definition fd_get (t : FdTable) (fd : Z) : outcome VfsError FdKind :=
  if Z.of_nat MAX_FDS <=? fd then Err InvalidFd
  else match fds t !! Z.to_nat fd with
       | Some (Some k) => Ok k
       | Some None => Err InvalidFd
       | None => Panic
       end.

(** [get_mut(fd)?] followed by the use [m] the caller makes of the reference, which
    may also change what [S] stands for. *)
Definition fd_get_mut {S A} (fd : Z) (m : M (FdKind * S) VfsError A) : M (FdTable * S) VfsError A :=
  fun '(t, s) =>
    match fd_get t fd with
    | Ok k => let '(o, (k', s')) := m (k, s) in (o, (mkFdTable (<[Z.to_nat fd := Some k']> (fds t)), s'))
    | Err e => (Err e, (t, s))
    | Panic => (Panic, (t, s))
    | Hang => (Hang, (t, s))
    end.

Definition fd_close (fd : Z) : M FdTable VfsError unit :=
  t ← get;
  if Z.of_nat MAX_FDS <=? fd then fail InvalidFd
  else if fd <? 3 then fail PermissionDenied
  else match fds t !! Z.to_nat fd with
       | Some (Some _) => put (mkFdTable (<[Z.to_nat fd := None]> (fds t)))
       | Some None => fail InvalidFd
       | None => panic
       end.

(** 64 slots, the first three permanently the standard streams. *)
Definition fd_wf (t : FdTable) : Prop :=
  length (fds t) = MAX_FDS /\
  exists rest, fds t = Some Stdin :: Some Stdout :: Some Stderr :: rest.

Definition fd_free (t : FdTable) (i : nat) : Prop := fds t !! i = Some None.

Lemma fd_new_wf : fd_wf FdTable_new.
Proof. split; [done|]. eexists. reflexivity. Qed.

Lemma fd_insert_wf t i o :
  fd_wf t -> (3 <= i)%nat -> fd_wf (mkFdTable (<[i := o]> (fds t))).
Proof.
  intros [Hlen [rest Hr]] Hi. split; simpl; [by rewrite length_insert|].
  rewrite Hr. destruct i as [|[|[|i]]]; [lia..|]. simpl. by eexists.
Qed.

(** Allocation takes the lowest free descriptor (never a standard stream),
    installs the kind there, touches nothing else, keeps the table well
    formed, and fails with [NoSpace] exactly when all 64 are in use. *)
Theorem fd_alloc_spec t kind :
  fd_wf t ->
  match fd_alloc kind t with
  | (Ok fd, t') => 3 <= fd < 64 /\ fd_free t (Z.to_nat fd) /\
      (forall j, (j < Z.to_nat fd)%nat -> ~ fd_free t j) /\
      fd_wf t' /\ fd_get t' fd = Ok kind /\
      (forall fd', fd' ≠ fd -> 0 <= fd' -> fd_get t' fd' = fd_get t fd')
  | (Err e, t') => e = NoSpace /\ t' = t /\ forall j, ~ fd_free t j
  | _ => False
  end.
Proof.
  intros Hwf. pose proof Hwf as [Hlen [rest Hr]]. unfold fd_alloc, fd_free. mred.
  destruct (list_find _ (fds t)) as [[i o]|] eqn:Hf.
  - apply list_find_Some in Hf as (Hi & -> & Hfirst). mred. cbn.
    assert (i < 64)%nat by (apply lookup_lt_Some in Hi; unfold MAX_FDS in Hlen; lia).
    assert (3 <= i)%nat.
    { rewrite Hr in Hi. destruct i as [|[|[|i]]]; simpl in Hi; [congruence..|lia]. }
    rewrite Nat2Z.id. split_and!; [lia..|done| |by apply fd_insert_wf| |].
    + intros j Hj Hn. by apply (Hfirst j _ Hn).
    + unfold fd_get. change (Z.of_nat MAX_FDS) with 64. simpl. destruct (Z.leb_spec 64 (Z.of_nat i)); [lia|].
      rewrite Nat2Z.id, list_lookup_insert_eq by (unfold MAX_FDS in Hlen; lia). done.
    + intros fd' Hne Hpos. unfold fd_get. change (Z.of_nat MAX_FDS) with 64. simpl.
      destruct (Z.leb_spec 64 fd'); [done|].
      by rewrite list_lookup_insert_ne by lia.
  - split_and!; [done..|]. intros j Hj. apply list_find_None in Hf.
    rewrite Forall_lookup in Hf. by apply (Hf j None).
Qed.

(** closing refuses out-of-range descriptors ([InvalidFd]), the standard
    streams ([PermissionDenied]) and unused slots; otherwise it frees exactly
    that slot, so a second close of it is [InvalidFd]. *)
Theorem fd_close_spec t fd :
  fd_wf t -> 0 <= fd ->
  match fd_close fd t with
  | (Ok _, t') => 3 <= fd < 64 /\ fd_wf t' /\ fd_free t' (Z.to_nat fd) /\
      (forall j, j ≠ Z.to_nat fd -> fds t' !! j = fds t !! j) /\
      fd_close fd t' = (Err InvalidFd, t')
  | (Err PermissionDenied, t') => fd < 3 /\ t' = t
  | (Err e, t') => e = InvalidFd /\ t' = t /\ (64 <= fd \/ fd_free t (Z.to_nat fd))
  | _ => False
  end.
Proof.
  intros Hwf Hpos. pose proof Hwf as [Hlen _]. unfold fd_close. mred.
  change (Z.of_nat MAX_FDS) with 64. unfold MAX_FDS in Hlen.
  destruct (Z.leb_spec 64 fd); [split_and!; [done..|by left]|].
  destruct (Z.ltb_spec fd 3); [done|].
  destruct (fds t !! Z.to_nat fd) as [[k|]|] eqn:Hk; cbn [put fail panic].
  - split_and!; [lia..|apply fd_insert_wf; [done|lia]| | |].
    + unfold fd_free. simpl. rewrite list_lookup_insert_eq by lia. done.
    + intros j Hj. simpl. by rewrite list_lookup_insert_ne.
    + unfold fd_close. mred. change (Z.of_nat MAX_FDS) with 64. simpl.
      destruct (Z.leb_spec 64 fd); [lia|]. destruct (Z.ltb_spec fd 3); [lia|].
      by rewrite list_lookup_insert_eq by lia.
  - split_and!; [done..|by right].
  - apply lookup_ge_None in Hk. lia.
Qed.
End fd_table.
Arguments FdKind : clear implicits.
Arguments FdTable : clear implicits.

(** ** Witnesses *)
Lemma fd_alloc_spec_witness :
  match fd_alloc (FdFile 7%nat) FdTable_new with
  | (Ok fd, t') => fd = 3 /\ fd_get t' 3 = Ok (FdFile 7%nat)
  | _ => False
  end.
Proof.
  pose proof (fd_alloc_spec FdTable_new (FdFile 7%nat) fd_new_wf) as Hs.
  vm_compute in Hs |- *. tauto.
Defined.

Lemma fd_close_spec_witness :
  let t := (fd_alloc (FdFile 7%nat) FdTable_new).2 in
  match fd_close 3 t with
  | (Ok _, t') => fd_free t' 3
  | _ => False
  end.
Proof.
  set (t := (fd_alloc _ _).2).
  assert (fd_wf t) as Hwf by (apply (fd_insert_wf FdTable_new 3); [apply fd_new_wf|lia]).
  pose proof (fd_close_spec t 3 Hwf ltac:(lia)) as Hs.
  vm_compute in Hs |- *. tauto.
Defined.
