(* ===== verification/BTree.v ===== *)
(** * BTree: ordered maps with string keys

    [alloc::collections::BTreeMap<String, V>] as tmpfs ([Node::Directory]) and
    devfs use it: the list of its entries in key order.  The order on strings is
    the lexicographic one, which is the same on UTF-8 bytes and on code points. *)
From Stdlib Require Import ZArith Lia.
From Stdlib Require Import Sorted.
From stdpp Require Import base numbers option list sets.
From S2P Require Import Prelude.

(** [Ord::cmp] on strings. *)
Fixpoint str_cmp (a b : rstr) : comparison :=
  match a, b with
  | [], [] => Eq
  | [], _ :: _ => Lt
  | _ :: _, [] => Gt
  | x :: a', y :: b' => match x ?= y with Eq => str_cmp a' b' | c => c end
  end.

Definition str_lt (a b : rstr) : Prop := str_cmp a b = Lt.

Lemma str_cmp_eq a b : str_cmp a b = Eq <-> a = b.
Proof.
  revert b. induction a as [|x a IH]; intros [|y b]; simpl; try done.
  destruct (Z.compare_spec x y) as [->|H|H].
  - rewrite IH. split; congruence.
  - split; [done|]. intros [= -> _]. lia.
  - split; [done|]. intros [= -> _]. lia.
Qed.

Lemma str_cmp_refl a : str_cmp a a = Eq.
Proof. by apply str_cmp_eq. Qed.

Lemma str_cmp_antisym a b : str_cmp b a = CompOpp (str_cmp a b).
Proof.
  revert b. induction a as [|x a IH]; intros [|y b]; simpl; try done.
  rewrite Z.compare_antisym. destruct (x ?= y); simpl; auto.
Qed.

#[export] Instance str_lt_trans : Transitive str_lt.
Proof.
  unfold str_lt. intros a. induction a as [|x a IH]; intros [|y b] [|z c]; simpl; try done.
  destruct (Z.compare_spec x y), (Z.compare_spec y z), (Z.compare_spec x z);
    subst; try done; try lia; eauto.
Qed.

#[export] Instance str_lt_irrefl : Irreflexive str_lt.
Proof. intros a. unfold complement, str_lt. by rewrite str_cmp_refl. Qed.

Section btree.
Context {V : Type}.
Implicit Types (m : list (rstr * V)) (k : rstr) (v : V).

Fixpoint bt_get k m : option V :=
  match m with
  | [] => None
  | (k', v') :: m' =>
      match str_cmp k k' with Lt => None | Eq => Some v' | Gt => bt_get k m' end
  end.

Definition bt_contains_key k m : bool := match bt_get k m with Some _ => true | None => false end.

Fixpoint bt_insert k v m : list (rstr * V) :=
  match m with
  | [] => [(k, v)]
  | (k', v') :: m' =>
      match str_cmp k k' with
      | Lt => (k, v) :: m
      | Eq => (k, v) :: m'
      | Gt => (k', v') :: bt_insert k v m'
      end
  end.

Fixpoint bt_remove k m : list (rstr * V) :=
  match m with
  | [] => []
  | (k', v') :: m' =>
      match str_cmp k k' with Lt => m | Eq => m' | Gt => (k', v') :: bt_remove k m' end
  end.

(** Keys strictly increasing. *)
Definition bt_sorted m : Prop := StronglySorted str_lt (m.*1).

Lemma bt_sorted_cons k v m :
  bt_sorted ((k, v) :: m) <-> bt_sorted m /\ Forall (str_lt k) (m.*1).
Proof.
  unfold bt_sorted. rewrite fmap_cons. simpl. split.
  - intros H. by inversion H.
  - intros [H1 H2]. by constructor.
Qed.

Lemma bt_get_above k m : Forall (str_lt k) (m.*1) -> bt_get k m = None.
Proof.
  destruct m as [|[k' v'] m]; [done|]. rewrite fmap_cons. intros [H _]%Forall_cons.
  simpl in *. unfold str_lt in H. by rewrite H.
Qed.

Lemma bt_get_insert k k' v m :
  bt_sorted m -> bt_get k' (bt_insert k v m) = if decide (k' = k) then Some v else bt_get k' m.
Proof.
  induction m as [|[k1 v1] m IH]; intros Hs; cbn [bt_insert bt_get].
  - destruct (str_cmp k' k) eqn:Hc; case_decide as Hk; subst; try done;
      try (apply str_cmp_eq in Hc; congruence); by rewrite str_cmp_refl in Hc.
  - apply bt_sorted_cons in Hs as [Hs Hlt]. specialize (IH Hs).
    destruct (str_cmp k k1) eqn:Hk; cbn [bt_get].
    + apply str_cmp_eq in Hk as <-. case_decide as He; [subst; by rewrite str_cmp_refl|].
      destruct (str_cmp k' k) eqn:Hc; try done. by apply str_cmp_eq in Hc.
    + case_decide as He; [subst; by rewrite str_cmp_refl|].
      destruct (str_cmp k' k) eqn:Hc; [by apply str_cmp_eq in Hc| |done].
      destruct (str_cmp k' k1) eqn:Hc1; try done.
      * apply str_cmp_eq in Hc1 as ->. rewrite str_cmp_antisym, Hk in Hc. done.
      * exfalso. assert (str_lt k1 k1) as Hx.
        { trans k'; [|by trans k]. unfold str_lt. by rewrite str_cmp_antisym, Hc1. }
        by apply (irreflexivity str_lt) in Hx.
    + case_decide as He.
      * subst. by rewrite Hk, IH.
      * destruct (str_cmp k' k1); try done.
Qed.

Lemma elem_of_bt_insert k v m x : x ∈ (bt_insert k v m).*1 -> x = k \/ x ∈ m.*1.
Proof.
  induction m as [|[k1 v1] m IH]; simpl; [set_solver|].
  destruct (str_cmp k k1); rewrite ?fmap_cons; simpl; set_solver.
Qed.

Lemma bt_insert_sorted k v m : bt_sorted m -> bt_sorted (bt_insert k v m).
Proof.
  induction m as [|[k1 v1] m IH]; intros Hs; cbn [bt_insert].
  - apply bt_sorted_cons. split; [done|constructor].
  - pose proof Hs as [Hs1 Hlt]%bt_sorted_cons. destruct (str_cmp k k1) eqn:Hk.
    + apply str_cmp_eq in Hk as <-. by apply bt_sorted_cons.
    + apply bt_sorted_cons. split; [done|]. rewrite fmap_cons. constructor; [done|].
      eapply Forall_impl; [exact Hlt|]. simpl. intros x Hx. by trans k1.
    + apply bt_sorted_cons. split; [by apply IH|]. apply Forall_forall. intros x Hx.
      apply elem_of_bt_insert in Hx as [->|Hx].
      * unfold str_lt. by rewrite str_cmp_antisym, Hk.
      * rewrite Forall_forall in Hlt. by apply Hlt.
Qed.

Lemma bt_get_remove k k' m :
  bt_sorted m -> bt_get k' (bt_remove k m) = if decide (k' = k) then None else bt_get k' m.
Proof.
  induction m as [|[k1 v1] m IH]; intros Hs; cbn [bt_remove bt_get]; [by case_decide|].
  apply bt_sorted_cons in Hs as [Hs Hlt]. specialize (IH Hs).
  destruct (str_cmp k k1) eqn:Hk.
  - apply str_cmp_eq in Hk as <-. case_decide as He; [subst; by apply bt_get_above|].
    destruct (str_cmp k' k) eqn:Hc; [by apply str_cmp_eq in Hc| |done].
    apply bt_get_above. eapply Forall_impl; [exact Hlt|]. intros x Hx. by trans k.
  - cbn [bt_get]. case_decide as He; [subst; by rewrite Hk|done].
  - cbn [bt_get]. case_decide as He; [subst; by rewrite Hk, IH|].
    destruct (str_cmp k' k1); try done.
Qed.

Lemma elem_of_bt_remove k m x : x ∈ bt_remove k m -> x ∈ m.
Proof.
  induction m as [|[k1 v1] m IH]; simpl; [done|]. destruct (str_cmp k k1); set_solver.
Qed.

Lemma bt_remove_sorted k m : bt_sorted m -> bt_sorted (bt_remove k m).
Proof.
  induction m as [|[k1 v1] m IH]; intros Hs; cbn [bt_remove]; [done|].
  pose proof Hs as [Hs1 Hlt]%bt_sorted_cons. destruct (str_cmp k k1); try done.
  apply bt_sorted_cons. split; [by apply IH|]. apply Forall_forall.
  intros x ([k2 v2] & -> & Hx)%list_elem_of_fmap. apply elem_of_bt_remove in Hx.
  rewrite Forall_forall in Hlt. apply Hlt. apply list_elem_of_fmap. by exists (k2, v2).
Qed.

Lemma bt_get_Some k v m : bt_sorted m -> bt_get k m = Some v <-> (k, v) ∈ m.
Proof.
  induction m as [|[k1 v1] m IH]; intros Hs; cbn [bt_get].
  - split; [done|]. by intros ?%elem_of_nil.
  - apply bt_sorted_cons in Hs as [Hs Hlt]. specialize (IH Hs). rewrite elem_of_cons.
    rewrite Forall_forall in Hlt.
    assert ((k, v) ∈ m -> str_lt k1 k) as Hin.
    { intros Hx. apply Hlt, list_elem_of_fmap. by exists (k, v). }
    destruct (str_cmp k k1) eqn:Hk.
    + apply str_cmp_eq in Hk as ->. split; [intros [= ->]; by left|].
      intros [[= ->]|Hx]; [done|]. by apply Hin, (irreflexivity str_lt) in Hx.
    + split; [done|]. intros [[= -> ->]|Hx]; [by rewrite str_cmp_refl in Hk|].
      apply Hin in Hx. exfalso. apply (irreflexivity str_lt k). by trans k1.
    + rewrite IH. split; [by right|]. intros [[= -> ->]|Hx]; [by rewrite str_cmp_refl in Hk|done].
Qed.

(** Writing back the value already there changes nothing. *)
Lemma bt_insert_same k v m : bt_get k m = Some v -> bt_insert k v m = m.
Proof.
  induction m as [|[k1 v1] m IH]; cbn [bt_get bt_insert]; [done|].
  destruct (str_cmp k k1) eqn:Hk; [|done|].
  - apply str_cmp_eq in Hk as ->. by intros [= ->].
  - intros H. by rewrite IH.
Qed.

Lemma bt_insert_forall (P : rstr * V -> Prop) k v m :
  P (k, v) -> Forall P m -> Forall P (bt_insert k v m).
Proof.
  intros Hp. induction 1 as [|[k1 v1] m H1 Hm IH]; cbn [bt_insert]; [by repeat constructor|].
  destruct (str_cmp k k1); by repeat constructor.
Qed.

Lemma bt_remove_forall (P : rstr * V -> Prop) k m : Forall P m -> Forall P (bt_remove k m).
Proof.
  induction 1 as [|[k1 v1] m H1 Hm IH]; cbn [bt_remove]; [done|].
  destruct (str_cmp k k1); try done; by repeat constructor.
Qed.
End btree.

#[export] Hint Resolve bt_insert_sorted bt_remove_sorted bt_insert_forall bt_remove_forall : vyper.
