(* ===== verification/TmpFs.v ===== *)
(** * TmpFs: the in-memory file system

    [vcore/src/vfs/tmpfs.rs].  The world is the tree behind [root: Mutex<Node>];
    a file handle keeps its own copy of the data and writes it back through its
    path.  A [&mut Node] obtained by walking a path is a state transformer run
    at that path ([with_node]). *)
From Stdlib Require Import ZArith Lia Sorted.
From stdpp Require Import base numbers option list sets.
From S2P Require Import Prelude VfsTypes Path BTree.

Inductive Node :=
| NodeFile (data : bytes)
| NodeDirectory (entries : list (rstr * Node)).

Definition as_dir (n : Node) : option (list (rstr * Node)) :=
  match n with NodeDirectory entries => Some entries | _ => None end.

Definition as_file (n : Node) : option bytes :=
  match n with NodeFile data => Some data | _ => None end.

Definition file_type (n : Node) : FileType :=
  match n with NodeFile _ => File | NodeDirectory _ => Directory end.

Definition node_size (n : Node) : Z :=
  match n with NodeFile data => zlen data | NodeDirectory entries => zlen entries end.

Definition TmpFs_new : Node := NodeDirectory [].

Abbreviation TM := (M Node VfsError).

(** ** Walking the tree *)
Fixpoint navigate (root : Node) (parts : list rstr) : outcome VfsError Node :=
  match parts with
  | [] => Ok root
  | part :: parts' =>
      match as_dir root with
      | None => Err NotADirectory
      | Some entries =>
          match bt_get part entries with
          | None => Err NotFound
          | Some child => navigate child parts'
          end
      end
  end.

(** [navigate_mut(root, parts)?] followed by the use [k] of the reference. *)
Fixpoint with_node {A} (parts : list rstr) (k : TM A) : TM A :=
  match parts with
  | [] => k
  | part :: parts' => fun root =>
      match root with
      | NodeFile _ => (Err NotADirectory, root)
      | NodeDirectory entries =>
          match bt_get part entries with
          | None => (Err NotFound, root)
          | Some child =>
              let (o, child') := with_node parts' k child in
              (o, NodeDirectory (bt_insert part child' entries))
          end
      end
  end.

(** [navigate_to_parent(root, parts)?], with the use [k] of the pair it returns. *)
Definition with_parent {A} (parts : list rstr) (k : rstr -> TM A) : TM A :=
  match last parts with
  | None => fail InvalidPath
  | Some name => with_node (removelast parts) (k name)
  end.

(** [parent.as_dir_mut().ok_or(NotADirectory)?] and the use of the map. *)
Definition with_dir {A} (k : list (rstr * Node) -> outcome VfsError A * list (rstr * Node)) : TM A :=
  fun node =>
    match node with
    | NodeDirectory entries => let (o, entries') := k entries in (o, NodeDirectory entries')
    | NodeFile _ => (Err NotADirectory, node)
    end.

Record TmpFileHandle := mkTmpHandle {
  th_data : bytes;
  th_position : Z;
  th_path : rstr;
  th_flags : OpenFlags.t
}.

(** ** [impl Filesystem for TmpFs] *)
Definition tmp_open (path : rstr) (flags : OpenFlags.t) : TM TmpFileHandle :=
  let parts := path_parts path in
  if decide (parts = []) then fail IsADirectory
  else
    root ← get;
    match navigate root parts with
    | Ok node =>
        match node with
        | NodeDirectory _ => fail IsADirectory
        | NodeFile data =>
            let data := if OpenFlags.contains flags OpenFlags.O_TRUNC then [] else data in
            let position := if OpenFlags.contains flags OpenFlags.O_APPEND then zlen data else 0 in
            mret (mkTmpHandle data position path flags)
        end
    | Err NotFound =>
        if OpenFlags.contains flags OpenFlags.O_CREAT then
          with_parent parts (fun name => with_dir (fun dir => (Ok tt, bt_insert name (NodeFile []) dir))) ;;
          mret (mkTmpHandle [] 0 path flags)
        else fail NotFound
    | Err e => fail e
    | Panic => panic
    | Hang => hang
    end.

Definition tmp_mkdir (path : rstr) : TM unit :=
  let parts := path_parts path in
  if decide (parts = []) then fail AlreadyExists
  else with_parent parts (fun name => with_dir (fun dir =>
    if bt_contains_key name dir then (Err AlreadyExists, dir)
    else (Ok tt, bt_insert name (NodeDirectory []) dir))).

Definition tmp_remove (path : rstr) : TM unit :=
  let parts := path_parts path in
  if decide (parts = []) then fail PermissionDenied
  else with_parent parts (fun name => with_dir (fun dir =>
    match bt_get name dir with
    | Some (NodeFile _) => (Ok tt, bt_remove name dir)
    | Some (NodeDirectory _) => (Err IsADirectory, dir)
    | None => (Err NotFound, dir)
    end)).

Definition tmp_rmdir (path : rstr) : TM unit :=
  let parts := path_parts path in
  if decide (parts = []) then fail PermissionDenied
  else with_parent parts (fun name => with_dir (fun dir =>
    match bt_get name dir with
    | Some (NodeDirectory []) => (Ok tt, bt_remove name dir)
    | Some (NodeDirectory _) => (Err NotEmpty, dir)
    | Some (NodeFile _) => (Err NotADirectory, dir)
    | None => (Err NotFound, dir)
    end)).

Definition tmp_readdir (path : rstr) : TM (list DirEntry) :=
  let parts := path_parts path in
  root ← get;
  node ← (if decide (parts = []) then mret root else lift (navigate root parts));
  dir ← ok_or NotADirectory (as_dir node);
  mret ((fun '(name, n) => {| de_name := name; de_file_type := file_type n |}) <$> dir).

Definition tmp_metadata (path : rstr) : TM Metadata :=
  let parts := path_parts path in
  root ← get;
  node ← (if decide (parts = []) then mret root else lift (navigate root parts));
  mret {| md_file_type := file_type node; md_size := node_size node |}.

#[export] Instance TmpFs_filesystem : Filesystem Node unit TmpFileHandle := {
  fs_open _ := tmp_open;
  fs_mkdir _ := tmp_mkdir;
  fs_remove _ := tmp_remove;
  fs_rmdir _ := tmp_rmdir;
  fs_readdir _ := tmp_readdir;
  fs_metadata _ := tmp_metadata
}.

(** ** [impl FileHandle for TmpFileHandle] *)
Abbreviation HM := (M (TmpFileHandle * Node) VfsError).

Definition set_position (h : TmpFileHandle) (p : Z) : TmpFileHandle :=
  mkTmpHandle (th_data h) p (th_path h) (th_flags h).

Definition tmp_read (buf : bytes) : HM (Z * bytes) :=
  '(h, root) ← get;
  if negb (OpenFlags.is_readable (th_flags h)) then fail PermissionDenied
  else
    '(n, buf', p) ← lift (cursor_read (th_data h) (th_position h) buf);
    put (set_position h p, root) ;;
    mret (n, buf').

(** The write-back: [if let Ok(node) = navigate_mut(..) { if let Some(file_data) =
    node.as_file_mut() { *file_data = data.clone() } }]. *)
Definition write_back (path : rstr) (data : bytes) (root : Node) : Node :=
  (with_node (path_parts path)
    (fun node => match node with
                 | NodeFile _ => (Ok tt, NodeFile data)
                 | NodeDirectory _ => (Ok tt, node)
                 end) root).2.

Definition tmp_write (buf : bytes) : HM Z :=
  '(h, root) ← get;
  if negb (OpenFlags.is_writable (th_flags h)) then fail PermissionDenied
  else
    let position :=
      if OpenFlags.contains (th_flags h) OpenFlags.O_APPEND then zlen (th_data h) else th_position h in
    let end_position := position +w64 zlen buf in
    (* [Vec::resize] panics beyond [isize::MAX] *)
    assert_or_panic (end_position <? 2 ^ 63) ;;
    let data := if zlen (th_data h) <? end_position
                then vec_resize (th_data h) (Z.to_nat end_position) 0 else th_data h in
    assert_or_panic ((position <=? end_position) && (end_position <=? zlen data)) ;;
    let data := splice data (Z.to_nat position) buf in
    put (mkTmpHandle data end_position (th_path h) (th_flags h), write_back (th_path h) data root) ;;
    mret (zlen buf).

Definition tmp_seek (pos : SeekFrom) : HM Z :=
  '(h, root) ← get;
  p ← lift (cursor_seek (zlen (th_data h)) (th_position h) pos);
  put (set_position h p, root) ;;
  mret p.

Definition tmp_handle_metadata : HM Metadata :=
  '(h, root) ← get;
  mret {| md_file_type := File; md_size := zlen (th_data h) |}.

#[export] Instance TmpFileHandle_handle : FileHandle Node TmpFileHandle := {
  fh_read := tmp_read;
  fh_write := tmp_write;
  fh_seek := tmp_seek;
  fh_metadata := tmp_handle_metadata
}.

(** ** Invariant and abstract view

    [node_wf]: every directory's entries are in key order.  [stat] forgets the
    tree: it maps the components of a path to what is there. *)
Inductive node_wf : Node -> Prop :=
| wf_file data : node_wf (NodeFile data)
| wf_dir entries :
    bt_sorted entries -> Forall (fun kv => node_wf kv.2) entries ->
    node_wf (NodeDirectory entries).

Inductive Kind := KFile (data : bytes) | KDir.

Definition kind_of (n : Node) : Kind :=
  match n with NodeFile data => KFile data | NodeDirectory _ => KDir end.

Definition kind_type (k : Kind) : FileType :=
  match k with KFile _ => File | KDir => Directory end.

Definition FsMap := list rstr -> option Kind.

Fixpoint tree_get (n : Node) (ps : list rstr) : option Node :=
  match ps with
  | [] => Some n
  | p :: ps' =>
      match n with
      | NodeFile _ => None
      | NodeDirectory entries => c ← bt_get p entries; tree_get c ps'
      end
  end.

Definition stat (n : Node) : FsMap := fun ps => kind_of <$> tree_get n ps.

(** The error, if any, of walking from [pre] down to [pre ++ ps]. *)
Fixpoint walk (m : FsMap) (pre ps : list rstr) : option VfsError :=
  match ps with
  | [] => None
  | p :: ps' =>
      match m pre with
      | Some KDir =>
          match m (pre ++ [p]) with
          | None => Some NotFound
          | Some _ => walk m (pre ++ [p]) ps'
          end
      | _ => Some NotADirectory
      end
  end.

Definition upd (m : FsMap) (ps : list rstr) (k : option Kind) : FsMap :=
  fun qs => if decide (qs = ps) then k else m qs.

(** [ps.strip_prefix(pre)]. *)
Fixpoint strip_parts (pre ps : list rstr) : option (list rstr) :=
  match pre, ps with
  | [], _ => Some ps
  | p :: pre', q :: ps' => if decide (p = q) then strip_parts pre' ps' else None
  | _ :: _, [] => None
  end.

Lemma strip_parts_Some pre ps rest : strip_parts pre ps = Some rest <-> ps = pre ++ rest.
Proof.
  revert ps. induction pre as [|p pre IH]; intros ps; simpl; [split; congruence|].
  destruct ps as [|q ps]; [done|]. case_decide; [rewrite IH|]; split; congruence.
Qed.

Lemma node_wf_child entries p c :
  node_wf (NodeDirectory entries) -> bt_get p entries = Some c -> node_wf c.
Proof.
  intros Hw Hg. inversion Hw as [|es Hs Hf]; subst.
  apply bt_get_Some in Hg; [|done]. rewrite Forall_forall in Hf.
  by apply (Hf (p, c)).
Qed.

Lemma node_wf_insert entries p c :
  node_wf (NodeDirectory entries) -> node_wf c -> node_wf (NodeDirectory (bt_insert p c entries)).
Proof. intros Hw Hc. inversion Hw; subst. constructor; auto with vyper. Qed.

Lemma node_wf_remove entries p :
  node_wf (NodeDirectory entries) -> node_wf (NodeDirectory (bt_remove p entries)).
Proof. intros Hw. inversion Hw; subst. constructor; auto with vyper. Qed.

Lemma node_wf_sorted entries : node_wf (NodeDirectory entries) -> bt_sorted entries.
Proof. by inversion 1. Qed.

#[export] Hint Resolve node_wf_insert node_wf_remove node_wf_sorted node_wf_child : vyper.
#[export] Hint Constructors node_wf : vyper.

Lemma tree_get_wf n ps c : node_wf n -> tree_get n ps = Some c -> node_wf c.
Proof.
  revert n. induction ps as [|p ps IH]; intros n Hw; simpl; [by intros [= <-]|].
  destruct n as [d|es]; [done|]. intros (c' & Hg & Ht)%bind_Some. eauto with vyper.
Qed.

Lemma stat_cons es p ps :
  stat (NodeDirectory es) (p :: ps) = c ← bt_get p es; stat c ps.
Proof. unfold stat. simpl. by destruct (bt_get p es). Qed.

Lemma tree_get_app n ps qs : tree_get n (ps ++ qs) = c ← tree_get n ps; tree_get c qs.
Proof.
  revert n. induction ps as [|p ps IH]; intros n; simpl; [done|].
  destruct n as [d|es]; [done|]. destruct (bt_get p es); simpl; auto.
Qed.

Lemma stat_app n ps qs c : tree_get n ps = Some c -> stat n (ps ++ qs) = stat c qs.
Proof. intros H. unfold stat. by rewrite tree_get_app, H. Qed.

(** Walking in a subtree is walking below its path. *)
Lemma walk_shift m m' pre pre' ps :
  (forall qs, m (pre ++ qs) = m' (pre' ++ qs)) -> walk m pre ps = walk m' pre' ps.
Proof.
  revert pre pre'. induction ps as [|p ps IH]; intros pre pre' H; simpl; [done|].
  pose proof (H []) as H0. rewrite !app_nil_r in H0. rewrite H0, (H [p]).
  destruct (m' pre') as [[]|]; try done. destruct (m' (pre' ++ [p])); [|done].
  apply IH. intros qs. by rewrite <- !app_assoc.
Qed.

Lemma walk_dir es p ps :
  walk (stat (NodeDirectory es)) [] (p :: ps) =
    match bt_get p es with None => Some NotFound | Some c => walk (stat c) [] ps end.
Proof.
  cbn [walk]. change (stat (NodeDirectory es) []) with (Some KDir). cbn iota beta.
  rewrite app_nil_l, stat_cons. destruct (bt_get p es) as [c|] eqn:Hg; [|done].
  change (mbind _ _) with (Some (kind_of c)). cbn iota beta.
  apply walk_shift. intros qs. rewrite app_nil_l. change ([p] ++ qs) with (p :: qs).
  by rewrite stat_cons, Hg.
Qed.

(** [navigate] returns the node, or the error of the walk. *)
Lemma navigate_cases n ps :
  (exists c, tree_get n ps = Some c /\ walk (stat n) [] ps = None /\ navigate n ps = Ok c)
  \/ (exists e, tree_get n ps = None /\ walk (stat n) [] ps = Some e /\ navigate n ps = Err e).
Proof.
  revert n. induction ps as [|p ps IH]; intros n; [left; eauto|].
  destruct n as [d|es]; [right; by exists NotADirectory|].
  rewrite walk_dir. simpl. destruct (bt_get p es) as [c|]; [apply IH|right; eauto].
Qed.

(** Running a transformer at a path: it fails with the error of the walk, or
    runs on the node there, and nothing outside that subtree changes. *)
Definition grafted (n : Node) (ps : list rstr) (c' n' : Node) : Prop :=
  (forall qs, stat n' qs = match strip_parts ps qs with Some rest => stat c' rest | None => stat n qs end)
  /\ (node_wf n -> node_wf c' -> node_wf n').

Lemma with_node_cases {A} n ps (k : TM A) :
  node_wf n ->
  (exists e, tree_get n ps = None /\ walk (stat n) [] ps = Some e /\ with_node ps k n = (Err e, n))
  \/ (exists c n', tree_get n ps = Some c /\ walk (stat n) [] ps = None
      /\ with_node ps k n = ((k c).1, n') /\ grafted n ps (k c).2 n'
      /\ ((k c).2 = c -> n' = n)).
Proof.
  revert n. induction ps as [|p ps IH]; intros n Hw.
  { right. exists n, (k n).2. simpl. destruct (k n) as [o c']. by repeat split. }
  destruct n as [d|es]; [left; by exists NotADirectory|].
  rewrite walk_dir. simpl. destruct (bt_get p es) as [c|] eqn:Hg; [|left; eauto].
  destruct (IH c ltac:(eauto with vyper)) as [(e & Ht & Hk & Hr)|(c1 & n' & Ht & Hk & Hr & (Hst & Hwf) & Hid)].
  - left. exists e. rewrite Hr, bt_insert_same by done. done.
  - right. exists c1, (NodeDirectory (bt_insert p n' es)). rewrite Hr.
    split_and!; try done.
    + split; [|intros; eauto with vyper]. intros [|q qs]; [done|]. cbn [strip_parts].
      rewrite !stat_cons, bt_get_insert by eauto with vyper.
      destruct (decide (p = q)) as [<-|Hn].
      * rewrite decide_True by done. simpl. rewrite Hst, Hg. by destruct (strip_parts ps qs).
      * by rewrite decide_False by congruence.
    + intros Hc. rewrite Hid, bt_insert_same by done. done.
Qed.

(** ** The contract of the file system, on the abstract view *)
Inductive FsOp :=
| OpOpen (path : rstr) (flags : OpenFlags.t)
| OpMkdir (path : rstr)
| OpRemove (path : rstr)
| OpRmdir (path : rstr)
| OpReaddir (path : rstr)
| OpMetadata (path : rstr).

Inductive FsRes :=
| ROpened (data : bytes) (position : Z)
| RUnit
| REntries (l : list DirEntry)
| RMetadata (md : Metadata).

Definition tmp_run (op : FsOp) : TM FsRes :=
  match op with
  | OpOpen path flags => h ← tmp_open path flags; mret (ROpened (th_data h) (th_position h))
  | OpMkdir path => tmp_mkdir path ;; mret RUnit
  | OpRemove path => tmp_remove path ;; mret RUnit
  | OpRmdir path => tmp_rmdir path ;; mret RUnit
  | OpReaddir path => l ← tmp_readdir path; mret (REntries l)
  | OpMetadata path => md ← tmp_metadata path; mret (RMetadata md)
  end.

(** What stops the walk to the directory that holds the last component. *)
Definition parent_err (m : FsMap) (ps : list rstr) : option VfsError :=
  match walk m [] (removelast ps) with
  | Some e => Some e
  | None => match m (removelast ps) with Some KDir => None | _ => Some NotADirectory end
  end.

(** [l] lists the children of [ps], each once, in name order. *)
Definition lists (m : FsMap) (ps : list rstr) (l : list DirEntry) : Prop :=
  StronglySorted str_lt (de_name <$> l)
  /\ (forall name ft, {| de_name := name; de_file_type := ft |} ∈ l <->
        kind_type <$> m (ps ++ [name]) = Some ft).

Definition same (m m' : FsMap) : Prop := forall qs, m' qs = m qs.

(** [o] and [m'] are what the operation must return and leave, from [m]. *)
Definition fs_spec (m : FsMap) (op : FsOp) (o : outcome VfsError FsRes) (m' : FsMap) : Prop :=
  match op with
  | OpOpen path flags =>
      let ps := path_parts path in
      match m ps with
      | Some KDir => o = Err IsADirectory /\ same m m'
      | Some (KFile d) =>
          let d' := if OpenFlags.contains flags OpenFlags.O_TRUNC then [] else d in
          let pos := if OpenFlags.contains flags OpenFlags.O_APPEND then zlen d' else 0 in
          o = Ok (ROpened d' pos) /\ same m m'
      | None =>
          if OpenFlags.contains flags OpenFlags.O_CREAT then
            match parent_err m ps with
            | Some e => o = Err e /\ same m m'
            | None => o = Ok (ROpened [] 0) /\ same (upd m ps (Some (KFile []))) m'
            end
          else (exists e, walk m [] ps = Some e /\ o = Err e) /\ same m m'
      end
  | OpMkdir path =>
      let ps := path_parts path in
      match m ps, parent_err m ps with
      | Some _, _ => o = Err AlreadyExists /\ same m m'
      | None, Some e => o = Err e /\ same m m'
      | None, None => o = Ok RUnit /\ same (upd m ps (Some KDir)) m'
      end
  | OpRemove path =>
      let ps := path_parts path in
      match m ps with
      | Some (KFile _) => o = Ok RUnit /\ same (upd m ps None) m'
      | Some KDir => o = Err (if decide (ps = []) then PermissionDenied else IsADirectory) /\ same m m'
      | None => (exists e, walk m [] ps = Some e /\ o = Err e) /\ same m m'
      end
  | OpRmdir path =>
      let ps := path_parts path in
      match m ps with
      | Some KDir =>
          if decide (ps = []) then o = Err PermissionDenied /\ same m m'
          else ((forall name, m (ps ++ [name]) = None) /\ o = Ok RUnit /\ same (upd m ps None) m')
               \/ ((exists name, m (ps ++ [name]) ≠ None) /\ o = Err NotEmpty /\ same m m')
      | Some (KFile _) => o = Err NotADirectory /\ same m m'
      | None => (exists e, walk m [] ps = Some e /\ o = Err e) /\ same m m'
      end
  | OpReaddir path =>
      let ps := path_parts path in
      same m m' /\
      match m ps with
      | Some KDir => exists l, lists m ps l /\ o = Ok (REntries l)
      | Some (KFile _) => o = Err NotADirectory
      | None => exists e, walk m [] ps = Some e /\ o = Err e
      end
  | OpMetadata path =>
      let ps := path_parts path in
      same m m' /\
      match m ps with
      | Some KDir => exists l, lists m ps l
          /\ o = Ok (RMetadata {| md_file_type := Directory; md_size := zlen l |})
      | Some (KFile d) => o = Ok (RMetadata {| md_file_type := File; md_size := zlen d |})
      | None => exists e, walk m [] ps = Some e /\ o = Err e
      end
  end.

(** *** Lemmas for the refinement *)
Definition leaf (n : Node) : Prop :=
  match n with NodeFile _ => True | NodeDirectory es => es = [] end.

Lemma leaf_stat n q qs : leaf n -> stat n (q :: qs) = None.
Proof. destruct n as [d|es]; [done|]. by intros ->. Qed.

Lemma removelast_app_last (ps : list rstr) x : last ps = Some x -> ps = removelast ps ++ [x].
Proof.
  intros H. destruct (exists_last (l := ps)) as (l & y & ->); [by intros ->|].
  rewrite last_snoc in H. injection H as ->. by rewrite removelast_last.
Qed.

Lemma walk_snoc m pre ps x :
  walk m pre (ps ++ [x]) =
    match walk m pre ps with
    | Some e => Some e
    | None => match m (pre ++ ps) with
              | Some KDir => match m (pre ++ ps ++ [x]) with Some _ => None | None => Some NotFound end
              | _ => Some NotADirectory
              end
    end.
Proof.
  revert pre. induction ps as [|p ps IH]; intros pre; simpl.
  - rewrite app_nil_r. by destruct (m pre) as [[]|], (m (pre ++ [x])).
  - destruct (m pre) as [[]|]; try done. destruct (m (pre ++ [p])); [|done].
    rewrite IH. by rewrite <- !app_assoc.
Qed.

(** The walk to a path fails in the parent, or at the last component. *)
Lemma walk_parent m ps x :
  last ps = Some x ->
  walk m [] ps = match parent_err m ps with
                 | Some e => Some e
                 | None => match m ps with Some _ => None | None => Some NotFound end
                 end.
Proof.
  intros Hl. unfold parent_err. pose proof (walk_snoc m [] (removelast ps) x) as H.
  simpl in H. rewrite <- (removelast_app_last _ _ Hl) in H. rewrite H.
  destruct (walk m [] (removelast ps)); [done|].
  by destruct (m (removelast ps)) as [[]|].
Qed.

Lemma stat_walk n ps :
  match stat n ps with
  | Some _ => walk (stat n) [] ps = None
  | None => exists e, walk (stat n) [] ps = Some e
  end.
Proof.
  unfold stat at 1. destruct (navigate_cases n ps) as [(c & -> & H & _)|(e & -> & H & _)]; simpl; eauto.
Qed.

Lemma graft_upd n par es es' x n' :
  tree_get n par = Some (NodeDirectory es) -> grafted n par (NodeDirectory es') n' ->
  (forall y, y ≠ x -> bt_get y es' = bt_get y es) ->
  (forall c, bt_get x es = Some c \/ bt_get x es' = Some c -> leaf c) ->
  same (upd (stat n) (par ++ [x]) (kind_of <$> bt_get x es')) (stat n').
Proof.
  intros Ht [Hst _] Hne Hleaf qs. unfold upd. rewrite Hst.
  destruct (strip_parts par qs) as [rest|] eqn:Hs.
  - apply strip_parts_Some in Hs as ->. rewrite (stat_app _ _ rest _ Ht).
    destruct rest as [|y rest]; [rewrite decide_False; [done|]|].
    { rewrite app_nil_r. intros H%(f_equal length). rewrite length_app in H. simpl in H. lia. }
    rewrite !stat_cons. destruct (decide (y = x)) as [->|Hy].
    + destruct rest as [|z rest].
      * rewrite decide_True by done. by destruct (bt_get x es').
      * rewrite decide_False by (intros H%app_inv_head; done).
        destruct (bt_get x es) eqn:H1, (bt_get x es') eqn:H2; simpl;
          rewrite ?leaf_stat by eauto; done.
    + rewrite decide_False by (intros H%app_inv_head; congruence). by rewrite Hne.
  - rewrite decide_False; [done|]. intros ->.
    assert (strip_parts par (par ++ [x]) = Some [x]) by by apply strip_parts_Some. congruence.
Qed.

Lemma with_parent_cases {A} root ps x (k : rstr -> _ -> outcome VfsError A * _) :
  node_wf root -> last ps = Some x ->
  (exists e, parent_err (stat root) ps = Some e
    /\ with_parent ps (fun name => with_dir (k name)) root = (Err e, root))
  \/ (exists es n', parent_err (stat root) ps = None
    /\ tree_get root (removelast ps) = Some (NodeDirectory es)
    /\ node_wf (NodeDirectory es)
    /\ stat root ps = kind_of <$> bt_get x es
    /\ with_parent ps (fun name => with_dir (k name)) root = ((k x es).1, n')
    /\ grafted root (removelast ps) (NodeDirectory (k x es).2) n'
    /\ ((k x es).2 = es -> n' = root)).
Proof.
  intros Hw Hl. unfold with_parent, parent_err. rewrite Hl.
  destruct (with_node_cases root (removelast ps) (with_dir (k x)) Hw)
    as [(e & Ht & Hk & Hr)|(c & n' & Ht & Hk & Hr & Hg & Hid)]; [left|]; rewrite Hk; [eauto|].
  assert (stat root (removelast ps) = Some (kind_of c)) as -> by (unfold stat; by rewrite Ht).
  rewrite Hr. destruct c as [d|es]; simpl in *.
  - left. exists NotADirectory. by rewrite Hid.
  - right. exists es, n'. destruct (k x es) as [o es'] eqn:Hke; simpl in *.
    split_and!; try done; [by eapply tree_get_wf| |intros ->; by apply Hid].
    rewrite (removelast_app_last _ _ Hl) at 1. rewrite (stat_app _ _ _ _ Ht), stat_cons.
    by destruct (bt_get x es).
Qed.

(** The two changes an operation makes to a directory. *)
Lemma parent_insert root ps x es n n' :
  node_wf (NodeDirectory es) -> node_wf root -> node_wf n -> leaf n -> last ps = Some x ->
  tree_get root (removelast ps) = Some (NodeDirectory es) -> bt_get x es = None ->
  grafted root (removelast ps) (NodeDirectory (bt_insert x n es)) n' ->
  same (upd (stat root) ps (Some (kind_of n))) (stat n') /\ node_wf n'.
Proof.
  intros Hes Hw Hn Hleaf Hl Ht Hx Hg. assert (Hs := node_wf_sorted _ Hes).
  split; [|apply Hg; auto with vyper].
  pose proof (graft_upd _ _ _ _ x _ Ht Hg) as H.
  rewrite <- (removelast_app_last _ _ Hl) in H. rewrite bt_get_insert in H by done.
  rewrite decide_True in H by done. apply H.
  - intros y Hy. rewrite bt_get_insert by done. by rewrite decide_False.
  - intros c [Hc|[= <-]]; [congruence|done].
Qed.

Lemma parent_remove root ps x es c n' :
  node_wf (NodeDirectory es) -> node_wf root -> leaf c -> last ps = Some x ->
  tree_get root (removelast ps) = Some (NodeDirectory es) -> bt_get x es = Some c ->
  grafted root (removelast ps) (NodeDirectory (bt_remove x es)) n' ->
  same (upd (stat root) ps None) (stat n') /\ node_wf n'.
Proof.
  intros Hes Hw Hleaf Hl Ht Hx Hg. assert (Hs := node_wf_sorted _ Hes).
  split; [|apply Hg; auto with vyper].
  pose proof (graft_upd _ _ _ _ x _ Ht Hg) as H.
  rewrite <- (removelast_app_last _ _ Hl) in H. rewrite bt_get_remove in H by done.
  rewrite decide_True in H by done. apply H.
  - intros y Hy. rewrite bt_get_remove by done. by rewrite decide_False.
  - intros c' [Hc|[=]]. congruence.
Qed.

Lemma last_nonempty {A} (ps : list A) : ps ≠ [] -> exists x, last ps = Some x.
Proof. intros H. destruct (last ps) eqn:Hl; [eauto|]. by apply last_None in Hl. Qed.

Lemma stat_root_dir root : node_wf root -> stat root [] = Some (kind_of root).
Proof. done. Qed.

Lemma same_refl m : same m m.
Proof. done. Qed.
#[export] Hint Resolve same_refl : vyper.

Lemma stat_tree n ps k : stat n ps = Some k -> exists c, tree_get n ps = Some c /\ kind_of c = k.
Proof. unfold stat. destruct (tree_get n ps); [|done]. intros [= <-]. eauto. Qed.

Lemma children_listed n ps es :
  node_wf (NodeDirectory es) -> tree_get n ps = Some (NodeDirectory es) ->
  lists (stat n) ps ((fun '(name, n) => {| de_name := name; de_file_type := file_type n |}) <$> es).
Proof.
  intros Hes Ht. assert (Hs := node_wf_sorted _ Hes). split.
  - unfold bt_sorted in Hs. rewrite <- list_fmap_compose.
    by erewrite list_fmap_ext; [exact Hs|intros ? [] ?].
  - intros name ft. rewrite (stat_app _ _ _ _ Ht), stat_cons.
    rewrite list_elem_of_fmap. split.
    + intros ([k c] & [= -> ->] & Hin). apply bt_get_Some in Hin as ->; [|done]. by destruct c.
    + destruct (bt_get name es) as [c|] eqn:Hg; [|done]. intros [= <-].
      exists (name, c). split; [by destruct c|]. by apply bt_get_Some.
Qed.

(** A directory node is empty exactly when its abstract view has no child. *)
Lemma no_children n ps es :
  node_wf (NodeDirectory es) -> tree_get n ps = Some (NodeDirectory es) ->
  es = [] /\ (forall name, stat n (ps ++ [name]) = None)
  \/ es ≠ [] /\ (exists name, stat n (ps ++ [name]) ≠ None).
Proof.
  intros Hes Ht. destruct es as [|[k c] es].
  - left. split; [done|]. intros name. by rewrite (stat_app _ _ _ _ Ht).
  - right. split; [done|]. exists k. rewrite (stat_app _ _ _ _ Ht), stat_cons.
    simpl. by rewrite str_cmp_refl.
Qed.

Record tmpfs_wf (root : Node) : Prop := {
  wf_nodes : node_wf root;
  wf_root : stat root [] = Some KDir
}.

Lemma tmpfs_new_wf : tmpfs_wf TmpFs_new.
Proof. split; [|done]. constructor; constructor. Qed.

Lemma wf_same root n' : tmpfs_wf root -> node_wf n' -> same (stat root) (stat n') -> tmpfs_wf n'.
Proof. intros [_ Hr] Hn Hs. split; [done|]. by rewrite Hs. Qed.

Lemma wf_upd root ps k n' :
  tmpfs_wf root -> ps ≠ [] -> node_wf n' -> same (upd (stat root) ps k) (stat n') -> tmpfs_wf n'.
Proof.
  intros [_ Hr] Hps Hn Hs. split; [done|]. rewrite Hs. unfold upd. by rewrite decide_False.
Qed.

Definition refined (root : Node) (op : FsOp) : Prop :=
  fs_spec (stat root) op (tmp_run op root).1 (stat (tmp_run op root).2)
  /\ tmpfs_wf (tmp_run op root).2.

Lemma bind_res {A B} (m : TM A) (f : A -> B) s o s' :
  m s = (o, s') -> (a ← m; mret (f a)) s = (match o with
    | Ok a => Ok (f a) | Err e => Err e | Panic => Panic | Hang => Hang end, s').
Proof. unfold mbind, M_bind. intros ->. by destruct o. Qed.

Lemma parent_blocked root ps x e :
  last ps = Some x -> parent_err (stat root) ps = Some e ->
  stat root ps = None /\ walk (stat root) [] ps = Some e.
Proof.
  intros Hl Hp. pose proof (stat_walk root ps) as Hk. rewrite (walk_parent _ _ _ Hl), Hp in *.
  by destruct (stat root ps).
Qed.

Lemma mkdir_refined root path : tmpfs_wf root -> refined root (OpMkdir path).
Proof.
  intros Hw. pose proof Hw as [Hn Hr]. unfold refined. cbn [tmp_run fs_spec]. unfold tmp_mkdir.
  destruct (decide (path_parts path = [])) as [Hps|Hps].
  { rewrite Hps, Hr. done. }
  destruct (last_nonempty _ Hps) as (x & Hl).
  destruct (with_parent_cases root _ x (fun name dir =>
    if bt_contains_key name dir then (Err AlreadyExists, dir)
    else (Ok tt, bt_insert name (NodeDirectory []) dir)) Hn Hl)
    as [(e & Hp & H)|(es & n' & Hp & Ht & Hes & Hst & H & Hg & Hid)];
    erewrite bind_res by exact H; rewrite Hp; cbn [fst snd].
  { by destruct (parent_blocked _ _ _ _ Hl Hp) as [-> _]. }
  unfold bt_contains_key in *. rewrite Hst.
  destruct (bt_get x es) as [c|] eqn:Hx; cbn [fst snd] in *.
  - by rewrite Hid.
  - destruct (parent_insert root (path_parts path) x es (NodeDirectory []) n' Hes Hn) as [Hs Hn']; auto.
    { constructor; constructor. } { done. }
    split; [done|]. by eapply wf_upd.
Qed.

Lemma missing_error root ps x :
  last ps = Some x -> stat root ps = None ->
  walk (stat root) [] ps = Some (default NotFound (parent_err (stat root) ps)).
Proof. intros Hl Hs. rewrite (walk_parent _ _ _ Hl), Hs. by destruct (parent_err _ _). Qed.

Lemma remove_refined root path : tmpfs_wf root -> refined root (OpRemove path).
Proof.
  intros Hw. pose proof Hw as [Hn Hr]. unfold refined. cbn [tmp_run fs_spec]. unfold tmp_remove.
  destruct (decide (path_parts path = [])) as [Hps|Hps].
  { rewrite Hps, Hr. done. }
  destruct (last_nonempty _ Hps) as (x & Hl).
  pose proof (missing_error root _ _ Hl) as Hmiss.
  destruct (with_parent_cases root _ x (fun name dir =>
    match bt_get name dir with
    | Some (NodeFile _) => (Ok tt, bt_remove name dir)
    | Some (NodeDirectory _) => (Err IsADirectory, dir)
    | None => (Err NotFound, dir)
    end) Hn Hl)
    as [(e & Hp & H)|(es & n' & Hp & Ht & Hes & Hst & H & Hg & Hid)];
    erewrite bind_res by exact H; cbn [fst snd]; rewrite Hp in Hmiss.
  { destruct (parent_blocked _ _ _ _ Hl Hp) as [-> Hk]. eauto with vyper. }
  destruct (bt_get x es) as [[d|ds]|] eqn:Hx; rewrite Hst; cbn [fst snd fmap option_fmap option_map kind_of] in *.
  - destruct (parent_remove root (path_parts path) x es (NodeFile d) n' Hes Hn) as [Hs Hn']; auto; [done|].
    split; [done|]. by eapply wf_upd.
  - by rewrite Hid.
  - rewrite Hid by done. split; [|done]. split; [|done]. eexists. split; [by apply Hmiss|done].
Qed.

Lemma rmdir_refined root path : tmpfs_wf root -> refined root (OpRmdir path).
Proof.
  intros Hw. pose proof Hw as [Hn Hr]. unfold refined. cbn [tmp_run fs_spec]. unfold tmp_rmdir.
  destruct (decide (path_parts path = [])) as [Hps|Hps].
  { rewrite Hps, Hr. done. }
  destruct (last_nonempty _ Hps) as (x & Hl).
  pose proof (missing_error root _ _ Hl) as Hmiss.
  destruct (with_parent_cases root _ x (fun name dir =>
    match bt_get name dir with
    | Some (NodeDirectory []) => (Ok tt, bt_remove name dir)
    | Some (NodeDirectory _) => (Err NotEmpty, dir)
    | Some (NodeFile _) => (Err NotADirectory, dir)
    | None => (Err NotFound, dir)
    end) Hn Hl)
    as [(e & Hp & H)|(es & n' & Hp & Ht & Hes & Hst & H & Hg & Hid)];
    erewrite bind_res by exact H; cbn [fst snd]; rewrite Hp in Hmiss.
  { destruct (parent_blocked _ _ _ _ Hl Hp) as [-> Hk]. eauto with vyper. }
  destruct (bt_get x es) as [[d|ds]|] eqn:Hx; rewrite Hst; cbn [fst snd fmap option_fmap option_map kind_of] in *.
  - by rewrite Hid.
  - assert (tree_get root (path_parts path) = Some (NodeDirectory ds)) as Htp.
    { rewrite (removelast_app_last _ _ Hl), tree_get_app, Ht. simpl. by rewrite Hx. }
    destruct (no_children root _ ds (tree_get_wf _ _ _ Hn Htp) Htp) as [[-> Hnc]|[Hds Hc]].
    + destruct (parent_remove root (path_parts path) x es (NodeDirectory []) n' Hes Hn) as [Hs Hn']; auto; [done|].
      split; [left; done|]. by eapply wf_upd.
    + destruct ds as [|e ds]; [done|]. rewrite Hid by done. split; [right|]; done.
  - rewrite Hid by done. split; [|done]. split; [|done]. eexists. split; [by apply Hmiss|done].
Qed.

(** Where the walk itself fails, so does the walk to the parent, with the same error. *)
Lemma blocked_parent m ps x e :
  last ps = Some x -> walk m [] ps = Some e -> e ≠ NotFound -> parent_err m ps = Some e.
Proof.
  intros Hl Hk He. rewrite (walk_parent _ _ _ Hl) in Hk.
  destruct (parent_err m ps); [done|]. destruct (m ps); congruence.
Qed.

Lemma create_refined root path flags x :
  tmpfs_wf root -> last (path_parts path) = Some x ->
  stat root (path_parts path) = None ->
  OpenFlags.contains flags OpenFlags.O_CREAT = true ->
  let r := (with_parent (path_parts path) (fun name => with_dir (fun dir => (Ok tt, bt_insert name (NodeFile []) dir))) ;;
            mret (mkTmpHandle [] 0 path flags)) root in
  let o := match r.1 with Ok h => Ok (ROpened (th_data h) (th_position h))
           | Err e => Err e | Panic => Panic | Hang => Hang end in
  fs_spec (stat root) (OpOpen path flags) o (stat r.2) /\ tmpfs_wf r.2.
Proof.
  intros Hw Hl Hst Hc. pose proof Hw as [Hn Hr]. cbn [fs_spec]. rewrite Hst, Hc.
  destruct (with_parent_cases root _ x (fun name dir => (Ok (E:=VfsError) tt, bt_insert name (NodeFile []) dir)) Hn Hl)
    as [(e & Hp & H)|(es & n' & Hp & Ht & Hes & Hst' & H & Hg & Hid)];
    rewrite (bind_res _ (fun _ => mkTmpHandle [] 0 path flags) _ _ _ H); rewrite Hp; cbn [fst snd]; [done|].
  rewrite Hst in Hst'. destruct (bt_get x es) eqn:Hx; [done|]. cbn [fst snd] in *.
  destruct (parent_insert root (path_parts path) x es (NodeFile []) n' Hes Hn) as [Hs Hn']; auto with vyper.
  { done. }
  split; [done|]. eapply wf_upd; [done| |done|done]. intros Hps. by rewrite Hps in Hl.
Qed.

Lemma open_refined root path flags : tmpfs_wf root -> refined root (OpOpen path flags).
Proof.
  intros Hw. pose proof Hw as [Hn Hr]. unfold refined. cbn [tmp_run].
  destruct (tmp_open path flags root) as [o r] eqn:Ho.
  rewrite (bind_res _ (fun h => ROpened (th_data h) (th_position h)) _ _ _ Ho). unfold tmp_open in Ho.
  destruct (decide (path_parts path = [])) as [Hps|Hps].
  { injection Ho as <- <-. cbn [fs_spec fst snd]. by rewrite Hps, Hr. }
  destruct (last_nonempty _ Hps) as (x & Hl). rewrite bind_get in Ho.
  destruct (navigate_cases root (path_parts path)) as [(c & Ht & Hk & Hv)|(e & Ht & Hk & Hv)]; rewrite Hv in Ho.
  - cbn [fs_spec]. unfold stat at 1. rewrite Ht. destruct c; injection Ho as <- <-; done.
  - assert (stat root (path_parts path) = None) as Hst by (unfold stat; by rewrite Ht).
    destruct (OpenFlags.contains flags OpenFlags.O_CREAT) eqn:Hc, (decide (e = NotFound)) as [->|He].
    + pose proof (create_refined root path flags x Hw Hl Hst Hc) as H. by rewrite Ho in H.
    + assert (fail e root = (o, r)) as [= <- <-] by by destruct e.
      cbn [fs_spec fst snd]. by rewrite Hst, Hc, (blocked_parent _ _ _ _ Hl Hk He).
    + injection Ho as <- <-. cbn [fs_spec fst snd]. rewrite Hst, Hc. eauto with vyper.
    + assert (fail e root = (o, r)) as [= <- <-] by by destruct e.
      cbn [fs_spec fst snd]. rewrite Hst, Hc. eauto with vyper.
Qed.

Lemma stat_some n ps c : tree_get n ps = Some c -> stat n ps = Some (kind_of c).
Proof. unfold stat. by intros ->. Qed.
Lemma stat_none n ps : tree_get n ps = None -> stat n ps = None.
Proof. unfold stat. by intros ->. Qed.

(** [readdir] and [metadata] find their node the same way, [parts] empty or not. *)
Lemma lookup_node root ps :
  (if decide (ps = []) then mret root else lift (navigate root ps)) root = (navigate root ps, root).
Proof. by destruct ps. Qed.

Lemma readdir_refined root path : tmpfs_wf root -> refined root (OpReaddir path).
Proof.
  intros Hw. pose proof Hw as [Hn Hr]. unfold refined. cbn [tmp_run].
  destruct (tmp_readdir path root) as [o r] eqn:Ho.
  rewrite (bind_res _ REntries _ _ _ Ho). unfold tmp_readdir in Ho. rewrite bind_get in Ho.
  pose proof (lookup_node root (path_parts path)) as Hlk. cbn [fs_spec].
  destruct (navigate_cases root (path_parts path)) as [(c & Ht & Hk & Hv)|(e & Ht & Hk & Hv)]; rewrite Hv in Hlk, Ho.
  - rewrite (bind_ok _ _ _ _ _ Hlk) in Ho. rewrite (stat_some _ _ _ Ht).
    destruct c as [d|es]; injection Ho as <- <-; [done|]. split; [|done]. split; [done|].
    eexists. split; [|done]. apply children_listed; [|done]. by eapply tree_get_wf.
  - rewrite (bind_err _ _ _ _ _ Hlk) in Ho. injection Ho as <- <-. rewrite (stat_none _ _ Ht).
    cbn [fst snd fmap option_fmap option_map]. eauto with vyper.
Qed.

Lemma metadata_refined root path : tmpfs_wf root -> refined root (OpMetadata path).
Proof.
  intros Hw. pose proof Hw as [Hn Hr]. unfold refined. cbn [tmp_run].
  destruct (tmp_metadata path root) as [o r] eqn:Ho.
  rewrite (bind_res _ RMetadata _ _ _ Ho). unfold tmp_metadata in Ho. rewrite bind_get in Ho.
  pose proof (lookup_node root (path_parts path)) as Hlk. cbn [fs_spec].
  destruct (navigate_cases root (path_parts path)) as [(c & Ht & Hk & Hv)|(e & Ht & Hk & Hv)]; rewrite Hv in Hlk, Ho.
  - rewrite (bind_ok _ _ _ _ _ Hlk) in Ho. rewrite (stat_some _ _ _ Ht).
    destruct c as [d|es]; injection Ho as <- <-; [done|]. split; [|done]. split; [done|].
    exists ((fun '(name, n) => {| de_name := name; de_file_type := file_type n |}) <$> es).
    split; [apply children_listed; [by eapply tree_get_wf|done]|].
    cbn [node_size file_type fst]. unfold zlen. by rewrite length_fmap.
  - rewrite (bind_err _ _ _ _ _ Hlk) in Ho. injection Ho as <- <-. rewrite (stat_none _ _ Ht).
    cbn [fst snd fmap option_fmap option_map]. eauto with vyper.
Qed.

(** C9: Every tmpfs operation implements the contract [fs_spec] on the abstract
    map from paths to files and directories, errors included, and keeps the tree
    well formed (directories in key order, a directory at the root): a mutation
    changes exactly the named path; a failed one changes nothing. *)
Theorem tmpfs_refines root op :
  tmpfs_wf root ->
  fs_spec (stat root) op (tmp_run op root).1 (stat (tmp_run op root).2)
  /\ tmpfs_wf (tmp_run op root).2.
Proof.
  intros Hw. change (refined root op). destruct op; auto using open_refined, mkdir_refined, remove_refined, rmdir_refined,
    readdir_refined, metadata_refined.
Qed.

(** ** Handles *)
Record handle_wf (h : TmpFileHandle) : Prop := {
  hwf_len : zlen (th_data h) < 2 ^ 63;
  hwf_pos : 0 <= th_position h < 2 ^ 63
}.

(** The contents after writing [buf] at [pos]: zeros fill the gap past the old end. *)
Definition overwritten (data : bytes) (pos : nat) (buf data' : bytes) : Prop :=
  length data' = Nat.max (length data) (pos + length buf)
  /\ forall i, (i < length data')%nat ->
       data' !! i = if decide (pos <= i < pos + length buf)%nat then buf !! (i - pos)%nat
                    else if decide (i < length data)%nat then data !! i else Some 0.

Lemma vec_resize_lookup {A} (l : list A) n x i :
  (i < n)%nat -> vec_resize l n x !! i = if decide (i < length l)%nat then l !! i else Some x.
Proof.
  intros Hi. unfold vec_resize. case_decide as Hl.
  - rewrite lookup_app_l by (rewrite length_take; lia). by apply lookup_take_lt.
  - rewrite lookup_app_r by (rewrite length_take; lia). rewrite length_take.
    apply lookup_replicate_2. lia.
Qed.

Lemma write_data_spec data pos buf :
  overwritten data pos buf
    (splice (if zlen data <? Z.of_nat pos + zlen buf
             then vec_resize data (Z.to_nat (Z.of_nat pos + zlen buf)) 0 else data) pos buf).
Proof.
  set (data1 := if _ <? _ then _ else _).
  assert (length data1 = Nat.max (length data) (pos + length buf)
    /\ forall i, (i < length data1)%nat ->
         data1 !! i = if decide (i < length data)%nat then data !! i else Some 0) as [Hl Hi].
  { subst data1. unfold zlen in *. case_bool.
    - rewrite length_vec_resize. split; [lia|]. intros i Hi. apply vec_resize_lookup. done.
    - split; [lia|]. intros i Hi. by rewrite decide_True. }
  unfold overwritten. rewrite length_splice by lia. split; [done|]. intros i Hlt.
  case_decide as Hin; [apply splice_lookup_in; lia|].
  rewrite splice_lookup_out by lia. by apply Hi.
Qed.

Lemma write_back_spec path data root :
  tmpfs_wf root ->
  tmpfs_wf (write_back path data root)
  /\ same (match stat root (path_parts path) with
            | Some (KFile _) => upd (stat root) (path_parts path) (Some (KFile data))
            | _ => stat root
            end) (stat (write_back path data root)).
Proof.
  intros Hw. pose proof Hw as [Hn Hr]. unfold write_back.
  destruct (with_node_cases (A:=unit) root (path_parts path) (fun node => match node with
                 | NodeFile _ => (Ok tt, NodeFile data)
                 | NodeDirectory _ => (Ok tt, node)
                 end) Hn) as [(e & Ht & Hk & H)|(c & n' & Ht & Hk & H & Hg & Hid)]; rewrite H; cbn [snd].
  { by rewrite (stat_none _ _ Ht). }
  rewrite (stat_some _ _ _ Ht). destruct c as [d|es]; cbn [kind_of snd] in *.
  - assert (same (upd (stat root) (path_parts path) (Some (KFile data))) (stat n')) as Hs.
    { intros qs. destruct Hg as [Hst _]. rewrite Hst. unfold upd.
      destruct (strip_parts (path_parts path) qs) as [rest|] eqn:Hp.
      - apply strip_parts_Some in Hp as ->. destruct rest as [|q rest].
        + by rewrite app_nil_r, decide_True.
        + rewrite decide_False; [|intros Hx%(f_equal length); rewrite length_app in Hx; simpl in Hx; lia].
          rewrite (stat_app _ _ _ _ Ht). by rewrite !leaf_stat.
      - rewrite decide_False; [done|]. intros ->.
        assert (strip_parts (path_parts path) (path_parts path) = Some []).
        { apply strip_parts_Some. by rewrite app_nil_r. } congruence. }
    split; [|done]. eapply wf_upd; [done| |apply Hg; auto with vyper|done].
    intros Hps. rewrite Hps in Ht. injection Ht as ->. done.
  - by rewrite Hid.
Qed.

Definition write_start (h : TmpFileHandle) : Z :=
  if OpenFlags.contains (th_flags h) OpenFlags.O_APPEND then zlen (th_data h) else th_position h.

Lemma write_cases h root buf :
  tmpfs_wf root -> handle_wf h -> zlen buf < 2 ^ 63 ->
  if negb (OpenFlags.is_writable (th_flags h)) then
    tmp_write buf (h, root) = (Err PermissionDenied, (h, root))
  else if 2 ^ 63 <=? write_start h + zlen buf then
    (tmp_write buf (h, root)).1 = Panic
  else exists data' root',
    tmp_write buf (h, root)
      = (Ok (zlen buf), (mkTmpHandle data' (write_start h + zlen buf) (th_path h) (th_flags h), root'))
    /\ overwritten (th_data h) (Z.to_nat (write_start h)) buf data'
    /\ tmpfs_wf root'
    /\ same (match stat root (path_parts (th_path h)) with
              | Some (KFile _) => upd (stat root) (path_parts (th_path h)) (Some (KFile data'))
              | _ => stat root
              end) (stat root').
Proof.
  intros Hw [Hlen Hpos] Hbuf. unfold tmp_write. rewrite bind_get. cbn beta iota.
  destruct (negb _); [done|]. fold (write_start h).
  assert (0 <= write_start h < 2 ^ 63) as Hs.
  { unfold write_start. case_bool; [unfold zlen in *; lia|done]. }
  assert (0 <= zlen buf) by (unfold zlen; lia).
  rewrite u64_small by lia.
  destruct (Z.leb_spec (2 ^ 63) (write_start h + zlen buf)).
  { destruct (Z.ltb_spec (write_start h + zlen buf) (2 ^ 63)); [lia|done]. }
  destruct (Z.ltb_spec (write_start h + zlen buf) (2 ^ 63)); [|lia].
  cbn [assert_or_panic]. rewrite bind_ret. pose proof (write_data_spec (th_data h) (Z.to_nat (write_start h)) buf) as Ho.
  rewrite Z2Nat.id in Ho by lia. set (data1 := if _ <? _ then _ else _) in *.
  assert (write_start h + zlen buf <= zlen data1) as Hd.
  { subst data1. unfold zlen in *. case_bool; [rewrite length_vec_resize|]; lia. }
  destruct (Z.leb_spec (write_start h) (write_start h + zlen buf)); [|lia].
  destruct (Z.leb_spec (write_start h + zlen buf) (zlen data1)); [|lia].
  cbn [andb assert_or_panic]. rewrite bind_ret, bind_put.
  destruct (write_back_spec (th_path h) (splice data1 (Z.to_nat (write_start h)) buf) root Hw) as [Hw' Hst].
  do 2 eexists. split; [reflexivity|]. done.
Qed.

(** [TmpFileHandle::write] is refused on a handle not open for writing;
    otherwise it panics exactly when the file would outgrow [isize::MAX], and else
    stores the whole buffer at the cursor (at the end under [O_APPEND]), fills a
    gap with zeros, advances the cursor, and replaces the contents of the file at
    the handle's path, if there is still one there, and nothing else. *)
Theorem tmp_write_spec h root buf :
  tmpfs_wf root -> handle_wf h -> zlen buf < 2 ^ 63 ->
  if negb (OpenFlags.is_writable (th_flags h)) then
    tmp_write buf (h, root) = (Err PermissionDenied, (h, root))
  else if 2 ^ 63 <=? write_start h + zlen buf then
    (tmp_write buf (h, root)).1 = Panic
  else exists data' root',
    tmp_write buf (h, root)
      = (Ok (zlen buf), (mkTmpHandle data' (write_start h + zlen buf) (th_path h) (th_flags h), root'))
    /\ overwritten (th_data h) (Z.to_nat (write_start h)) buf data'
    /\ tmpfs_wf root'
    /\ same (match stat root (path_parts (th_path h)) with
              | Some (KFile _) => upd (stat root) (path_parts (th_path h)) (Some (KFile data'))
              | _ => stat root
              end) (stat root').
Proof. apply write_cases. Qed.


Lemma tmp_open_stat root path flags h r :
  tmpfs_wf root -> tmp_open path flags root = (Ok h, r) ->
  tmpfs_wf r /\ th_path h = path /\ th_flags h = flags
  /\ (exists d, stat r (path_parts path) = Some (KFile d)
       /\ th_data h = if OpenFlags.contains flags OpenFlags.O_TRUNC then [] else d)
  /\ th_position h = (if OpenFlags.contains flags OpenFlags.O_APPEND then zlen (th_data h) else 0).
Proof.
  intros Hw Ho. destruct (open_refined root path flags Hw) as [Hs Hw'].
  unfold tmp_run in Hs, Hw'. rewrite (bind_res _ (fun h => ROpened (th_data h) (th_position h)) _ _ _ Ho) in Hs, Hw'.
  assert (th_path h = path /\ th_flags h = flags) as [-> ->].
  { unfold tmp_open in Ho. case_decide; [done|]. rewrite bind_get in Ho.
    destruct (navigate _ _) as [[]|[]| |]; try done; [by injection Ho as <- <-|].
    case_bool; [|done]. apply bind_ok_inv in Ho as (a & s1 & _ & [= <- <-]). done. }
  split; [done|]. cbn [fst snd fs_spec] in Hs, Hw'. do 2 (split; [done|]).
  destruct (stat root (path_parts path)) as [[d|]|] eqn:Hst.
  - destruct Hs as [[= -> ->] Hs]. split; [|done]. exists d. by rewrite Hs.
  - by destruct Hs.
  - destruct (OpenFlags.contains flags OpenFlags.O_CREAT); [|by destruct Hs as [(? & _ & ?) _]].
    destruct (parent_err _ _); [by destruct Hs|]. destruct Hs as [[= -> ->] Hs].
    split; [|by case_match]. exists []. rewrite Hs. unfold upd. rewrite decide_True by done.
    split; [done|]. by case_match.
Qed.

(** [open] for reading only finds a file that is there, and leaves the tree alone. *)
Lemma tmp_open_read root path d :
  tmpfs_wf root -> stat root (path_parts path) = Some (KFile d) ->
  tmp_open path OpenFlags.READ root = (Ok (mkTmpHandle d 0 path OpenFlags.READ), root).
Proof.
  intros [_ Hr] Hst. unfold tmp_open. case_decide as Hps; [rewrite Hps in Hst; congruence|].
  rewrite bind_get. destruct (navigate_cases root (path_parts path)) as [(c & Ht & _ & ->)|(e & Ht & _ & _)].
  - rewrite (stat_some _ _ _ Ht) in Hst. destruct c; [|done]. by injection Hst as ->.
  - by rewrite (stat_none _ _ Ht) in Hst.
Qed.

Lemma overwritten_empty buf data' : overwritten [] 0 buf data' -> data' = buf.
Proof.
  intros [Hl Hi]. simpl in Hl. apply list_eq_same_length with (length buf); [done|lia|].
  intros i x y Hlt Hx Hy. rewrite Hi in Hx by lia. rewrite decide_True in Hx by lia.
  rewrite Nat.sub_0_r in Hx. congruence.
Qed.

Lemma read_whole h root buf :
  OpenFlags.is_readable (th_flags h) = true -> th_position h = 0 ->
  zlen (th_data h) < 2 ^ 63 -> zlen (th_data h) <= zlen buf ->
  tmp_read buf (h, root)
    = (Ok (zlen (th_data h), th_data h ++ drop (length (th_data h)) buf),
       (set_position h (zlen (th_data h)), root)).
Proof.
  intros Hr Hp Hl Hb. unfold tmp_read. rewrite bind_get. cbn beta iota. rewrite Hr, Hp. cbn [negb].
  destruct (cursor_read_inside (th_data h) 0 buf) as (n & Hn & Hc); [unfold zlen; lia|done|].
  rewrite Hc, bind_lift_ok. rewrite Z.sub_0_r, Z.min_r in Hn by lia. subst n.
  rewrite bind_put. unfold splice, slice, zlen in *. rewrite Z.add_0_l, Nat2Z.id, Nat.sub_0_r.
  cbn [Z.to_nat take drop]. rewrite (take_ge (th_data h)) by lia. done.
Qed.

(** A whole-file rewrite is read back: after a successful
    [open(path, O_WRONLY|O_CREAT|O_TRUNC)] and [write(buf)], opening the path for
    reading succeeds and one read with a large enough buffer returns exactly
    [buf], whatever the file held before. *)
Theorem tmp_write_read_roundtrip root path h r1 buf rbuf :
  tmpfs_wf root -> zlen buf < 2 ^ 63 -> zlen buf <= zlen rbuf ->
  tmp_open path OpenFlags.WRITE root = (Ok h, r1) ->
  exists h' r2 h2,
    tmp_write buf (h, r1) = (Ok (zlen buf), (h', r2))
    /\ tmp_open path OpenFlags.READ r2 = (Ok h2, r2)
    /\ (tmp_read rbuf (h2, r2)).1 = Ok (zlen buf, buf ++ drop (length buf) rbuf).
Proof.
  intros Hw Hb Hrb Ho.
  destruct (tmp_open_stat _ _ _ _ _ Hw Ho) as (Hw1 & Hpath & Hfl & (d & Hst & Hd) & Hpos).
  change (OpenFlags.contains OpenFlags.WRITE OpenFlags.O_TRUNC) with true in Hd. cbn iota in Hd.
  change (OpenFlags.contains OpenFlags.WRITE OpenFlags.O_APPEND) with false in Hpos. cbn iota in Hpos.
  assert (write_start h = 0) as Hs0 by (unfold write_start; rewrite Hfl; exact Hpos).
  assert (handle_wf h) as Hh by (split; [rewrite Hd; done|lia]).
  pose proof (write_cases h r1 buf Hw1 Hh Hb) as Hwr. rewrite Hfl, Hs0, Hpath in Hwr.
  change (negb (OpenFlags.is_writable OpenFlags.WRITE)) with false in Hwr. cbn iota in Hwr.
  destruct (Z.leb_spec (2 ^ 63) (0 + zlen buf)); [lia|].
  destruct Hwr as (data' & r2 & Hwr & Hov & Hw2 & Hs2).
  rewrite Hd in Hov. apply overwritten_empty in Hov as ->.
  rewrite Hst in Hs2. assert (stat r2 (path_parts path) = Some (KFile buf)) as Hf.
  { rewrite Hs2. unfold upd. by rewrite decide_True. }
  do 3 eexists. split; [exact Hwr|]. split; [by apply tmp_open_read|].
  by rewrite read_whole.
Qed.

(** *** Witnesses: a small tree, built by running the operations *)
Definition demo_root : Node :=
  NodeDirectory [(lit "etc", NodeDirectory [(lit "motd", NodeFile (lit "hi"))]); (lit "tmp", NodeDirectory [])].

Lemma demo_root_wf : tmpfs_wf demo_root.
Proof.
  split; [|done]. assert (forall (l : list rstr), Forall (fun x => Forall (str_lt x) []) l -> True) by done.
  repeat constructor.
Qed.

Lemma tmpfs_refines_witness :
  fs_spec (stat demo_root) (OpRemove (lit "/etc/motd"))
    (tmp_run (OpRemove (lit "/etc/motd")) demo_root).1
    (stat (tmp_run (OpRemove (lit "/etc/motd")) demo_root).2)
  /\ (tmp_run (OpRemove (lit "/etc/motd")) demo_root).1 = Ok RUnit.
Proof.
  split; [|reflexivity]. exact (proj1 (tmpfs_refines demo_root (OpRemove (lit "/etc/motd")) demo_root_wf)).
Defined.

Lemma tmp_write_spec_witness :
  exists data' root',
    tmp_write [1; 2] (mkTmpHandle (lit "hi") 4 (lit "/etc/motd") OpenFlags.READ_WRITE, demo_root)
      = (Ok 2, (mkTmpHandle data' 6 (lit "/etc/motd") OpenFlags.READ_WRITE, root'))
    /\ overwritten (lit "hi") 4 [1; 2] data' /\ tmpfs_wf root'.
Proof.
  destruct (tmp_write_spec (mkTmpHandle (lit "hi") 4 (lit "/etc/motd") OpenFlags.READ_WRITE) demo_root [1; 2]
    demo_root_wf ltac:(split; [reflexivity|simpl; lia]) ltac:(reflexivity)) as (d & r & H & Ho & Hw & _).
  exists d, r. split; [exact H|]. split; [exact Ho|exact Hw].
Defined.

Lemma tmp_write_read_roundtrip_witness :
  exists h' r2 h2,
    tmp_write [7; 8] (mkTmpHandle [] 0 (lit "/tmp/x") OpenFlags.WRITE, (tmp_open (lit "/tmp/x") OpenFlags.WRITE demo_root).2)
      = (Ok 2, (h', r2))
    /\ tmp_open (lit "/tmp/x") OpenFlags.READ r2 = (Ok h2, r2)
    /\ (tmp_read [0; 0; 0] (h2, r2)).1 = Ok (2, [7; 8; 0]).
Proof.
  exact (tmp_write_read_roundtrip demo_root (lit "/tmp/x") _ _ [7; 8] [0; 0; 0]
    demo_root_wf ltac:(reflexivity) ltac:(discriminate) ltac:(reflexivity)).
Defined.
