(* ===== verification/Pmm.v ===== *)
(** * Pmm: the physical page allocator

    [vcore/src/mem/pmm.rs].  The bitmap the allocator reaches through its raw
    pointer is the list of its bytes; an access outside it is [Panic] (in the
    kernel: undefined behaviour), and the theorems show there is none.  A limine
    memory-map entry is a base, a length and whether its type is [USABLE]. *)
From Stdlib Require Import ZArith Lia.
From stdpp Require Import base numbers option list sets gmap.
From S2P Require Import Prelude.

Definition PAGE_SIZE : Z := 4096.

Record Entry := mkEntry { e_base : Z; e_length : Z; e_usable : bool }.

Record BitmapAllocator := mkAllocator {
  bitmap : bytes;
  bitmap_size : Z;
  total_pages : Z;
  usable_pages : Z;
  free_pages : Z
}.

Definition with_bitmap (a : BitmapAllocator) (bm : bytes) : BitmapAllocator :=
  mkAllocator bm (bitmap_size a) (total_pages a) (usable_pages a) (free_pages a).
Definition with_free (a : BitmapAllocator) (n : Z) : BitmapAllocator :=
  mkAllocator (bitmap a) (bitmap_size a) (total_pages a) (usable_pages a) n.

(** The allocator's methods cannot return an error. *)
Abbreviation PM := (M BitmapAllocator Empty_set).

Definition set_bit (bit : Z) : PM unit :=
  let byte_idx := Z.to_nat (bit / 8) in
  let bit_idx := bit mod 8 in
  a ← get;
  byte ← unwrap (bitmap a !! byte_idx);
  put (with_bitmap a (<[byte_idx := Z.lor byte (Z.shiftl 1 bit_idx)]> (bitmap a))).

Definition clear_bit (bit : Z) : PM unit :=
  let byte_idx := Z.to_nat (bit / 8) in
  let bit_idx := bit mod 8 in
  a ← get;
  byte ← unwrap (bitmap a !! byte_idx);
  put (with_bitmap a (<[byte_idx := Z.land byte (u8 (Z.lnot (Z.shiftl 1 bit_idx)))]> (bitmap a))).

Definition test_bit (bit : Z) : PM bool :=
  let byte_idx := Z.to_nat (bit / 8) in
  let bit_idx := bit mod 8 in
  a ← get;
  byte ← unwrap (bitmap a !! byte_idx);
  mret (negb (Z.land byte (Z.shiftl 1 bit_idx) =? 0)).

Definition add_free (d : Z) : PM unit := a ← get; put (with_free a (u64 (free_pages a + d))).

Definition alloc_page : PM (option Z) :=
  a ← get;
  for_find (seqZ 0 (total_pages a)) (fun i =>
    b ← test_bit i;
    if negb b then set_bit i ;; add_free (-1) ;; mret (Some (i *w64 PAGE_SIZE))
    else mret None).

Definition free_page (addr : Z) : PM unit :=
  let page := addr / PAGE_SIZE in
  a ← get;
  if page <? total_pages a then
    b ← test_bit page;
    if (b : bool) then clear_bit page ;; add_free 1 else mret tt
  else mret tt.

(** ** [init] *)
Definition highest_addr (memmap : list Entry) : Z :=
  foldl (fun highest e =>
    if highest <? e_base e +w64 e_length e then e_base e +w64 e_length e else highest) 0 memmap.

Definition find_bitmap_addr (memmap : list Entry) (size : Z) : option Z :=
  (fun x => e_base x.2) <$> list_find (fun e => e_usable e = true /\ size <= e_length e) memmap.

Definition entry_pages (e : Entry) : list Z :=
  let start_page := (e_base e +w64 (PAGE_SIZE - 1)) / PAGE_SIZE in
  let end_page := (e_base e +w64 e_length e) / PAGE_SIZE in
  seqZ start_page (end_page - start_page).

Definition release_entry (e : Entry) : PM unit :=
  if e_usable e then for_each (entry_pages e) (fun page => clear_bit page ;; add_free 1)
  else mret tt.

Definition bitmap_pages (bitmap_addr size : Z) : list Z :=
  let bitmap_start_page := bitmap_addr / PAGE_SIZE in
  let bitmap_end_page := (bitmap_addr +w64 size +w64 (PAGE_SIZE - 1)) / PAGE_SIZE in
  seqZ bitmap_start_page (bitmap_end_page - bitmap_start_page).

Definition reserve_page (page : Z) : PM unit :=
  b ← test_bit page;
  if negb b then set_bit page ;; add_free (-1) else mret tt.

Definition pmm_init (memmap : list Entry) : outcome Empty_set BitmapAllocator :=
  let total := (highest_addr memmap +w64 (PAGE_SIZE - 1)) / PAGE_SIZE in
  let size := (total +w64 7) / 8 in
  match find_bitmap_addr memmap size with
  | None => Panic (* expect("no space for PMM bitmap") *)
  | Some bitmap_addr =>
      let allocator := mkAllocator (replicate (Z.to_nat size) 255) size total 0 0 in
      ((for_each memmap release_entry ;;
        for_each (bitmap_pages bitmap_addr size) reserve_page ;;
        a ← get;
        mret (mkAllocator (bitmap a) (bitmap_size a) (total_pages a)
                (free_pages a) (free_pages a))) allocator).1
  end.

(** ** The static allocator *)
Definition pmm_alloc : M (option BitmapAllocator) Empty_set (option Z) := fun p =>
  match p with
  | None => (Ok None, None)
  | Some a => let (o, a') := alloc_page a in (o, Some a')
  end.

Definition pmm_free (addr : Z) : M (option BitmapAllocator) Empty_set unit := fun p =>
  match p with
  | None => (Ok tt, None)
  | Some a => let (o, a') := free_page addr a in (o, Some a')
  end.

Definition pmm_free_pages (p : option BitmapAllocator) : Z :=
  match p with Some a => free_pages a | None => 0 end.

Definition pmm_total_pages (p : option BitmapAllocator) : Z :=
  match p with Some a => usable_pages a | None => 0 end.

(** ** Bits *)

(** Is page [p] marked used? *)
Definition page_used (a : BitmapAllocator) (p : Z) : bool :=
  Z.testbit (nth (Z.to_nat (p / 8)) (bitmap a) 0) (p mod 8).

Definition page_free (a : BitmapAllocator) (p : Z) : bool := negb (page_used a p).

(** Pages below [n] that are free. *)
Definition count_free (a : BitmapAllocator) : Z :=
  zlen (filter (fun p => page_used a p = false) (seqZ 0 (total_pages a))).

Definition same_dims (a a' : BitmapAllocator) : Prop :=
  total_pages a' = total_pages a /\ bitmap_size a' = bitmap_size a.

Definition same_shape (a a' : BitmapAllocator) : Prop :=
  length (bitmap a') = length (bitmap a) /\ bitmap_size a' = bitmap_size a /\
  total_pages a' = total_pages a.

(** The allocator's invariant: the bitmap covers every page and [free_pages]
    counts the clear bits. *)
Record pmm_wf (a : BitmapAllocator) : Prop := {
  pw_len : zlen (bitmap a) = bitmap_size a;
  pw_total : 0 <= total_pages a /\ total_pages a <= 8 * bitmap_size a;
  pw_addr : total_pages a * PAGE_SIZE < 2 ^ 64;
  pw_count : free_pages a = count_free a
}.

Lemma testbit_shiftl_1 k j : 0 <= k -> 0 <= j -> Z.testbit (Z.shiftl 1 k) j = (j =? k).
Proof. intros. rewrite Z.shiftl_1_l, Z.pow2_bits_eqb by lia. by rewrite Z.eqb_sym. Qed.

Lemma land_shiftl_1 b k : 0 <= k -> (Z.land b (Z.shiftl 1 k) =? 0) = negb (Z.testbit b k).
Proof.
  intros Hk. destruct (Z.testbit b k) eqn:Hb; simpl.
  - apply Z.eqb_neq. intros H. apply (f_equal (fun z => Z.testbit z k)) in H.
    rewrite Z.land_spec, Z.bits_0, Hb, testbit_shiftl_1, Z.eqb_refl in H by lia. done.
  - apply Z.eqb_eq, Z.bits_inj'. intros j Hj.
    rewrite Z.land_spec, Z.bits_0, testbit_shiftl_1 by lia.
    destruct (Z.eqb_spec j k) as [->|]; [by rewrite Hb|by rewrite andb_false_r].
Qed.

Lemma page_index p q : 0 <= p -> 0 <= q -> p / 8 = q / 8 -> p mod 8 = q mod 8 -> p = q.
Proof. intros. rewrite (Z.div_mod p 8), (Z.div_mod q 8) by lia. congruence. Qed.

Lemma page_bound a p :
  zlen (bitmap a) = bitmap_size a -> 0 <= p < 8 * bitmap_size a ->
  exists b, bitmap a !! Z.to_nat (p / 8) = Some b /\ nth (Z.to_nat (p / 8)) (bitmap a) 0 = b.
Proof.
  unfold zlen. intros Hl Hp.
  assert (Z.to_nat (p / 8) < length (bitmap a))%nat.
  { assert (p / 8 < bitmap_size a) by (apply Z.div_lt_upper_bound; lia).
    assert (0 <= p / 8) by (apply Z.div_pos; lia). lia. }
  destruct (lookup_lt_is_Some_2 (bitmap a) (Z.to_nat (p / 8))) as [b Hb]; [done|].
  exists b. split; [done|]. by apply nth_lookup_Some.
Qed.

(** Changing byte [p / 8] so that only bit [p mod 8] may differ. *)
Lemma page_used_upd a p q b b' (v : bool) :
  0 <= p -> 0 <= q -> bitmap a !! Z.to_nat (p / 8) = Some b ->
  (forall j, 0 <= j < 8 -> Z.testbit b' j = if j =? p mod 8 then v else Z.testbit b j) ->
  page_used (with_bitmap a (<[Z.to_nat (p / 8) := b']> (bitmap a))) q =
    if q =? p then v else page_used a q.
Proof.
  intros Hp Hq Hb Hb'. unfold page_used. simpl. rewrite !nth_lookup.
  pose proof (Z.mod_pos_bound q 8 ltac:(lia)).
  pose proof (Z.div_pos p 8 Hp ltac:(lia)). pose proof (Z.div_pos q 8 Hq ltac:(lia)).
  destruct (decide (p / 8 = q / 8)) as [He|He].
  - rewrite <- He, list_lookup_insert_eq by (by eapply lookup_lt_Some). simpl.
    rewrite Hb' by lia. rewrite Hb. simpl.
    destruct (Z.eqb_spec q p) as [->|Hne]; [by rewrite Z.eqb_refl|].
    destruct (Z.eqb_spec (q mod 8) (p mod 8)) as [Hm|]; [|done].
    by destruct Hne; apply page_index.
  - rewrite list_lookup_insert_ne by lia.
    destruct (Z.eqb_spec q p) as [->|]; [done|done].
Qed.

Lemma set_bit_spec a p :
  zlen (bitmap a) = bitmap_size a -> 0 <= p < 8 * bitmap_size a ->
  exists a', set_bit p a = (Ok tt, a') /\ same_shape a a' /\ free_pages a' = free_pages a /\
    usable_pages a' = usable_pages a /\
    forall q, 0 <= q -> page_used a' q = if q =? p then true else page_used a q.
Proof.
  intros Hl Hp. destruct (page_bound a p Hl Hp) as (b & Hb & _).
  eexists. split; [unfold set_bit; mred; rewrite Hb; reflexivity|].
  split_and!; [split_and!; simpl; [apply length_insert|done..]|done..|].
  intros q Hq. apply page_used_upd with b; [lia..|done|]. intros j Hj.
  pose proof (Z.mod_pos_bound p 8 ltac:(lia)).
  rewrite Z.lor_spec, testbit_shiftl_1 by lia.
  destruct (Z.eqb_spec j (p mod 8)); [by rewrite orb_true_r|by rewrite orb_false_r].
Qed.

Lemma clear_bit_spec a p :
  zlen (bitmap a) = bitmap_size a -> 0 <= p < 8 * bitmap_size a ->
  exists a', clear_bit p a = (Ok tt, a') /\ same_shape a a' /\ free_pages a' = free_pages a /\
    usable_pages a' = usable_pages a /\
    forall q, 0 <= q -> page_used a' q = if q =? p then false else page_used a q.
Proof.
  intros Hl Hp. destruct (page_bound a p Hl Hp) as (b & Hb & _).
  eexists. split; [unfold clear_bit; mred; rewrite Hb; reflexivity|].
  split_and!; [split_and!; simpl; [apply length_insert|done..]|done..|].
  intros q Hq. apply page_used_upd with b; [lia..|done|]. intros j Hj.
  pose proof (Z.mod_pos_bound p 8 ltac:(lia)).
  unfold u8. rewrite Z.land_spec, Z.mod_pow2_bits_low, Z.lnot_spec, testbit_shiftl_1 by lia.
  destruct (Z.eqb_spec j (p mod 8)); simpl; [by rewrite andb_false_r|by rewrite andb_true_r].
Qed.

Lemma test_bit_spec a p :
  zlen (bitmap a) = bitmap_size a -> 0 <= p < 8 * bitmap_size a ->
  test_bit p a = (Ok (page_used a p), a).
Proof.
  intros Hl Hp. destruct (page_bound a p Hl Hp) as (b & Hb & Hn).
  unfold test_bit, page_used. mred. rewrite Hb, Hn. mred.
  pose proof (Z.mod_pos_bound p 8 ltac:(lia)). rewrite land_shiftl_1 by lia.
  by rewrite negb_involutive.
Qed.

(** ** Counting the free pages *)
Lemma count_flip (l : list Z) (f g : Z -> bool) p :
  NoDup l -> p ∈ l -> f p = true -> (forall q, q ∈ l -> g q = if q =? p then false else f q) ->
  length (filter (fun q => g q = false) l) = S (length (filter (fun q => f q = false) l)).
Proof.
  intros Hnd Hin Hf Hg. induction Hnd as [|x l Hx Hnd IH]; [by apply elem_of_nil in Hin|].
  rewrite !filter_cons. apply elem_of_cons in Hin as [<-|Hin].
  - assert (Heq : filter (fun q => g q = false) l = filter (fun q => f q = false) l).
    { apply filter_ext_elem. intros q Hq. rewrite Hg by (by right).
      destruct (Z.eqb_spec q p); [by subst|done]. }
    rewrite decide_True by (rewrite Hg, Z.eqb_refl by left; done).
    rewrite decide_False by congruence. simpl. by rewrite Heq.
  - assert (x ≠ p) by congruence.
    assert (g x = f x) as -> by (rewrite Hg by left; destruct (Z.eqb_spec x p); done).
    assert (forall q, q ∈ l -> g q = if q =? p then false else f q) by (intros; apply Hg; by right).
    case_decide; simpl; rewrite IH; auto.
Qed.

Lemma elem_of_pages n p : p ∈ seqZ 0 n <-> 0 <= p < n.
Proof. rewrite elem_of_seqZ. lia. Qed.

Lemma count_free_bounds a : 0 <= total_pages a -> 0 <= count_free a <= total_pages a.
Proof.
  intros H. unfold count_free, zlen.
  pose proof (length_filter (fun p => page_used a p = false) (seqZ 0 (total_pages a))).
  rewrite length_seqZ in *. lia.
Qed.

Lemma count_free_zero a p :
  count_free a = 0 -> 0 <= p < total_pages a -> page_used a p = true.
Proof.
  intros Hc Hp. destruct (page_used a p) eqn:Hu; [done|]. exfalso.
  assert (p ∈ filter (fun p => page_used a p = false) (seqZ 0 (total_pages a))) as Hin
    by (apply list_elem_of_filter; by rewrite elem_of_pages).
  unfold count_free, zlen in Hc. destruct (filter _ _); [by apply elem_of_nil in Hin|simpl in Hc; lia].
Qed.

(** Effect of turning one used page into a free one, and back. *)
Lemma count_release a a' p :
  total_pages a' = total_pages a -> 0 <= p < total_pages a -> page_used a p = true ->
  (forall q, 0 <= q -> page_used a' q = if q =? p then false else page_used a q) ->
  count_free a' = count_free a + 1.
Proof.
  intros Ht Hp Hu Hq. unfold count_free, zlen. rewrite Ht.
  rewrite (count_flip _ (page_used a) (page_used a') p); [lia|apply NoDup_seqZ|by apply elem_of_pages|done|].
  intros q Hin%elem_of_pages. apply Hq. lia.
Qed.

Lemma count_reserve a a' p :
  total_pages a' = total_pages a -> 0 <= p < total_pages a -> page_used a p = false ->
  (forall q, 0 <= q -> page_used a' q = if q =? p then true else page_used a q) ->
  count_free a' = count_free a - 1.
Proof.
  intros Ht Hp Hu Hq. rewrite (count_release a' a p); [lia|done|lia| |].
  - rewrite Hq, Z.eqb_refl by lia. done.
  - intros q Hq'. rewrite Hq by lia. destruct (Z.eqb_spec q p); [by subst|done].
Qed.

(** [clear_bit(p); free_pages += 1] on a used page, [set_bit(p); free_pages -= 1]
    on a free one. *)
Definition flips (a a' : BitmapAllocator) (p : Z) (v : bool) : Prop :=
  pmm_wf a' /\ same_dims a a' /\ usable_pages a' = usable_pages a /\
  free_pages a' = free_pages a + (if v then -1 else 1) /\
  forall q, 0 <= q -> page_used a' q = if q =? p then v else page_used a q.

Lemma add_free_spec d a : add_free d a = (Ok tt, with_free a (u64 (free_pages a + d))).
Proof. done. Qed.

Lemma release_spec a p :
  pmm_wf a -> 0 <= p < total_pages a -> page_used a p = true ->
  exists a', (clear_bit p ;; add_free 1) a = (Ok tt, a') /\ flips a a' p false.
Proof.
  intros [Hl [Ht0 Ht] Ha Hc] Hp Hu.
  destruct (clear_bit_spec a p Hl ltac:(lia)) as (a1 & Hr & (Hs1 & Hs2 & Hs3) & Hf & Hus & Hb).
  rewrite (bind_ok _ _ _ _ _ Hr), add_free_spec.
  assert (count_free a1 = count_free a + 1) as Hc' by (by apply (count_release a a1 p)).
  assert (count_free a1 <= total_pages a) by (rewrite <- Hs3; apply count_free_bounds; lia).
  unfold PAGE_SIZE in Ha. pose proof (count_free_bounds a Ht0).
  eexists. split; [reflexivity|]. unfold flips. simpl.
  rewrite u64_small by lia. split_and!; [|by split|done|lia|exact Hb].
  split; simpl; [unfold zlen in *; by rewrite Hs1, Hs2|by rewrite Hs2, Hs3|by rewrite Hs3|].
  change (count_free (with_free _ _)) with (count_free a1). lia.
Qed.

Lemma take_page_spec a p :
  pmm_wf a -> 0 <= p < total_pages a -> page_used a p = false ->
  exists a', (forall A (k : PM A), (set_bit p ;; add_free (-1) ;; k) a = k a') /\
    flips a a' p true.
Proof.
  intros [Hl [Ht0 Ht] Ha Hc] Hp Hu.
  destruct (set_bit_spec a p Hl ltac:(lia)) as (a1 & Hr & (Hs1 & Hs2 & Hs3) & Hf & Hus & Hb).
  assert (count_free a1 = count_free a - 1) as Hc' by (by apply (count_reserve a a1 p)).
  assert (0 <= count_free a1) by (apply count_free_bounds; lia).
  unfold PAGE_SIZE in Ha. pose proof (count_free_bounds a Ht0).
  exists (with_free a1 (free_pages a - 1)). split.
  { intros A k. rewrite (bind_ok _ _ _ _ _ Hr), (bind_ok _ _ _ _ _ (add_free_spec _ _)).
    rewrite u64_small, Hf by lia. done. }
  unfold flips. simpl. split_and!; [|by split|done|lia|exact Hb].
  split; simpl; [unfold zlen in *; by rewrite Hs1, Hs2|by rewrite Hs2, Hs3|by rewrite Hs3|].
  change (count_free (with_free _ _)) with (count_free a1). lia.
Qed.

(** ** Properties of the allocator *)

Lemma alloc_loop a l :
  pmm_wf a -> Forall (fun p => 0 <= p < total_pages a) l ->
  match list_find (fun p => page_used a p = false) l with
  | Some (i, p) => exists a', flips a a' p true /\
      for_find l (fun i =>
        b ← test_bit i;
        if negb b then set_bit i ;; add_free (-1) ;; mret (Some (i *w64 PAGE_SIZE))
        else mret None) a = (Ok (Some (p * PAGE_SIZE)), a')
  | None => for_find l (fun i =>
        b ← test_bit i;
        if negb b then set_bit i ;; add_free (-1) ;; mret (Some (i *w64 PAGE_SIZE))
        else mret None) a = (Ok None, a)
  end.
Proof.
  intros Hwf Hl. induction Hl as [|p l Hp Hl IH]; [done|].
  pose proof Hwf as [Hlen [Ht0 Ht] Ha Hc]. cbn [list_find for_find].
  rewrite bind_assoc, (bind_ok _ _ _ _ _ (test_bit_spec a p Hlen ltac:(lia))).
  destruct (page_used a p) eqn:Hu; simpl.
  - mred. destruct (list_find _ l) as [[i q]|]; simpl; exact IH.
  - destruct (take_page_spec a p Hwf Hp Hu) as (a' & Hrun & Hfl). exists a'. split; [done|].
    pose proof (Hrun _ (mret (Some (p *w64 PAGE_SIZE)))) as Hr'.
    unfold PAGE_SIZE in *. rewrite u64_small in Hr' |- * by lia.
    rewrite (bind_ok _ _ _ _ _ Hr'). done.
Qed.

Lemma alloc_cases a :
  pmm_wf a ->
  (exists p a', 0 <= p < total_pages a /\ page_used a p = false /\
     (forall q, 0 <= q < p -> page_used a q = true) /\ flips a a' p true /\
     alloc_page a = (Ok (Some (p * PAGE_SIZE)), a')) \/
  (alloc_page a = (Ok None, a) /\ forall p, 0 <= p < total_pages a -> page_used a p = true).
Proof.
  intros Hwf. pose proof (alloc_loop a (seqZ 0 (total_pages a)) Hwf) as Hl.
  unfold alloc_page. mred.
  destruct (list_find _ _) as [[i p]|] eqn:Hf.
  - left. destruct Hl as (a' & Hfl & Hrun).
    { apply Forall_forall. intros q Hq. by apply elem_of_pages. }
    apply list_find_Some in Hf as (Hi & Hu & Hfirst).
    apply lookup_seqZ in Hi as [-> Hi]. exists (0 + Z.of_nat i), a'.
    split_and!; [lia..|done| |done|done]. intros q Hq. destruct (page_used a q) eqn:Hu'; [done|].
    exfalso. apply (Hfirst (Z.to_nat q) q); [|lia|done]. apply lookup_seqZ. lia.
  - right. split.
    + apply Hl. apply Forall_forall. intros q Hq. by apply elem_of_pages.
    + intros p Hp. apply list_find_None in Hf. rewrite Forall_forall in Hf.
      apply not_false_is_true, Hf, elem_of_pages, Hp.
Qed.

Lemma free_cases a addr :
  pmm_wf a -> 0 <= addr ->
  let p := addr / PAGE_SIZE in
  (0 <= p < total_pages a /\ page_used a p = true /\
     exists a', free_page addr a = (Ok tt, a') /\ flips a a' p false) \/
  (free_page addr a = (Ok tt, a) /\ (total_pages a <= p \/ page_used a p = false)).
Proof.
  intros Hwf Hpos p. pose proof Hwf as [Hlen [Ht0 Ht] Ha Hc].
  assert (0 <= p) by (apply Z.div_pos; unfold PAGE_SIZE; lia).
  unfold free_page. fold p. mred. destruct (Z.ltb_spec p (total_pages a)); [|right; auto].
  rewrite (bind_ok _ _ _ _ _ (test_bit_spec a p Hlen ltac:(lia))).
  destruct (page_used a p) eqn:Hu; [left|right; auto].
  split_and!; [lia..|done|]. apply release_spec; auto.
Qed.

(** A physical page allocation returns the address of the lowest free page,
    marks exactly that page used and keeps [free_pages] exact; it returns [None]
    only when every page is in use, and then changes nothing. *)
Theorem alloc_page_spec a :
  pmm_wf a ->
  match alloc_page a with
  | (Ok (Some addr), a') => exists p, addr = p * PAGE_SIZE /\ 0 <= p < total_pages a /\
      page_used a p = false /\ (forall q, 0 <= q < p -> page_used a q = true) /\
      pmm_wf a' /\ free_pages a' = free_pages a - 1 /\
      (forall q, 0 <= q -> page_used a' q = if q =? p then true else page_used a q)
  | (Ok None, a') => a' = a /\ free_pages a = 0 /\
      forall p, 0 <= p < total_pages a -> page_used a p = true
  | _ => False
  end.
Proof.
  intros Hwf. destruct (alloc_cases a Hwf) as [(p & a' & Hp & Hu & Hlow & Hfl & ->)|[-> Hall]].
  - destruct Hfl as (Hwf' & Ht & _ & Hf & Hb). exists p. split_and!; try done; lia.
  - split_and!; [done| |done]. rewrite (pw_count a Hwf). unfold count_free, zlen.
    destruct (filter _ _) as [|q l] eqn:Hq; [done|].
    assert (q ∈ filter (fun p => page_used a p = false) (seqZ 0 (total_pages a))) as Hin
      by (rewrite Hq; left).
    apply list_elem_of_filter in Hin as [Hu Hin%elem_of_pages]. by rewrite Hall in Hu.
Qed.

(** freeing an address releases exactly its page when that page exists and is
    in use, and is otherwise without effect; in particular a double free changes
    nothing. *)
Theorem free_page_spec a addr :
  pmm_wf a -> 0 <= addr ->
  let p := addr / PAGE_SIZE in
  exists a', free_page addr a = (Ok tt, a') /\ pmm_wf a' /\
    (p < total_pages a -> page_used a' p = false) /\
    (forall q, 0 <= q -> q ≠ p -> page_used a' q = page_used a q) /\
    free_pages a' = free_pages a + (if (p <? total_pages a) && page_used a p then 1 else 0) /\
    free_page addr a' = (Ok tt, a').
Proof.
  intros Hwf Hpos. cbv zeta. pose proof (free_cases a addr Hwf Hpos) as Hc.
  pose proof (fun a' (H : pmm_wf a') => free_cases a' addr H Hpos) as Hc'.
  cbv zeta in Hc, Hc'. set (p := addr / PAGE_SIZE) in *.
  destruct Hc as [(Hp & Hu & a' & Hrun & Hfl)|[Hrun Hno]].
  - pose proof Hfl as (Hwf' & Ht & _ & Hf & Hb). exists a'.
    assert (page_used a' p = false) as Hu' by (rewrite Hb, Z.eqb_refl by lia; done).
    split_and!; try done.
    + intros q Hq Hne. rewrite Hb by lia. by destruct (Z.eqb_spec q p).
    + rewrite Hu. destruct (Z.ltb_spec p (total_pages a)); [simpl; lia|lia].
    + destruct (Hc' a' Hwf') as [(_ & Hu2 & _)|[Hr _]]; [congruence|done].
  - exists a. split_and!; try done.
    + intros Hp. destruct Hno; [lia|done].
    + destruct (Z.ltb_spec p (total_pages a)); [|simpl; lia].
      destruct Hno as [?| ->]; [lia|simpl; lia].
Qed.

(** ** Initialisation *)

(** What limine documents of the memory map: usable ranges do not overlap; and
    no range reaches the top of the 64-bit space. *)
Record memmap_ok (memmap : list Entry) : Prop := {
  mo_range : Forall (fun e => 0 <= e_base e /\ 0 <= e_length e /\ e_base e + e_length e < 2 ^ 62) memmap;
  mo_disjoint : forall i j e e', i ≠ j -> memmap !! i = Some e -> memmap !! j = Some e' ->
    e_usable e = true -> e_usable e' = true ->
    e_base e + e_length e <= e_base e' \/ e_base e' + e_length e' <= e_base e
}.

(** Page [p] lies entirely inside entry [e]. *)
Definition page_inside (e : Entry) (p : Z) : Prop :=
  e_base e <= p * PAGE_SIZE /\ (p + 1) * PAGE_SIZE <= e_base e + e_length e.

Lemma entry_pages_inside e p :
  0 <= e_base e -> 0 <= e_length e -> e_base e + e_length e < 2 ^ 62 ->
  p ∈ entry_pages e <-> page_inside e p.
Proof.
  intros. unfold entry_pages, page_inside, PAGE_SIZE. rewrite !u64_small by lia.
  rewrite elem_of_seqZ.
  pose proof (Z.div_mod (e_base e + (4096 - 1)) 4096 ltac:(lia)).
  pose proof (Z.mod_pos_bound (e_base e + (4096 - 1)) 4096 ltac:(lia)).
  pose proof (Z.div_mod (e_base e + e_length e) 4096 ltac:(lia)).
  pose proof (Z.mod_pos_bound (e_base e + e_length e) 4096 ltac:(lia)). lia.
Qed.

Lemma highest_addr_ge memmap e :
  Forall (fun e => 0 <= e_base e /\ 0 <= e_length e /\ e_base e + e_length e < 2 ^ 62) memmap ->
  0 <= highest_addr memmap < 2 ^ 62 /\
  (e ∈ memmap -> e_base e + e_length e <= highest_addr memmap).
Proof.
  intros Hr. unfold highest_addr. set (step := fun _ _ => _).
  assert (Hg : forall h0, 0 <= h0 < 2 ^ 62 ->
    h0 <= foldl step h0 memmap < 2 ^ 62 /\
    (e ∈ memmap -> e_base e + e_length e <= foldl step h0 memmap)).
  { induction Hr as [|x l (Hx1 & Hx2 & Hx3) Hl IH]; intros h0 Hh; cbn [foldl].
    - split; [lia|]. by intros Hin%elem_of_nil.
    - assert (h0 <= step h0 x < 2 ^ 62 /\ e_base x + e_length x <= step h0 x) as [? ?].
      { subst step. simpl. rewrite u64_small by lia. case_bool; lia. }
      destruct (IH (step h0 x) ltac:(lia)) as [IH1 IH2].
      split; [lia|]. intros [->|Hin]%elem_of_cons; [lia|auto]. }
  destruct (Hg 0 ltac:(lia)) as [? ?]. auto.
Qed.

Lemma release_pages_spec l a :
  pmm_wf a -> NoDup l -> (forall p, p ∈ l -> 0 <= p < total_pages a /\ page_used a p = true) ->
  exists a', for_each l (fun page => clear_bit page ;; add_free 1) a = (Ok tt, a') /\
    pmm_wf a' /\ same_dims a a' /\
    forall q, 0 <= q -> page_used a' q = true <-> page_used a q = true /\ q ∉ l.
Proof.
  intros Hwf Hnd. revert a Hwf. induction Hnd as [|p l Hp Hnd IH]; intros a Hwf Hl.
  - exists a. split_and!; try done. intros q Hq. split; [|tauto].
    intros Hu. split; [done|]. by intros Hin%elem_of_nil.
  - destruct (Hl p ltac:(left)) as [Hpr Hpu].
    destruct (release_spec a p Hwf Hpr Hpu) as (a1 & Hr & Hwf1 & [Ht1 Hz1] & Hus1 & Hf1 & Hb1).
    destruct (IH a1 Hwf1) as (a2 & Hrun & Hwf2 & [Ht2 Hz2] & Hb2).
    { intros q Hq. destruct (Hl q ltac:(by right)) as [Hqr Hqu]. rewrite Ht1. split; [done|].
      rewrite Hb1 by lia. destruct (Z.eqb_spec q p); [congruence|done]. }
    exists a2. cbn [for_each]. rewrite (bind_ok _ _ _ _ _ Hr). split_and!; [done|done|split; congruence|].
    intros q Hq. rewrite Hb2, Hb1, not_elem_of_cons by lia.
    destruct (Z.eqb_spec q p); [naive_solver|tauto].
Qed.

Lemma release_entry_spec a e :
  pmm_wf a -> 0 <= e_base e -> 0 <= e_length e -> e_base e + e_length e < 2 ^ 62 ->
  (e_usable e = true -> forall p, page_inside e p -> 0 <= p < total_pages a /\ page_used a p = true) ->
  exists a', release_entry e a = (Ok tt, a') /\ pmm_wf a' /\ same_dims a a' /\
    forall q, 0 <= q -> page_used a' q = true <->
      page_used a q = true /\ ~ (e_usable e = true /\ page_inside e q).
Proof.
  intros Hwf Hb0 Hl0 Hbl Hall. unfold release_entry. destruct (e_usable e) eqn:He.
  - destruct (release_pages_spec (entry_pages e) a Hwf) as (a' & Hr & Hwf' & Ht & Hb).
    { apply NoDup_seqZ. }
    { intros p Hp. apply Hall; [done|]. by apply entry_pages_inside. }
    exists a'. split_and!; try done. intros q Hq. rewrite Hb, entry_pages_inside by done. tauto.
  - exists a. split_and!; try done. intros q Hq. naive_solver.
Qed.

Lemma release_all_spec memmap a :
  memmap_ok memmap -> pmm_wf a ->
  (forall e p, e ∈ memmap -> e_usable e = true -> page_inside e p ->
     0 <= p < total_pages a /\ page_used a p = true) ->
  exists a', for_each memmap release_entry a = (Ok tt, a') /\ pmm_wf a' /\ same_dims a a' /\
    forall q, 0 <= q -> page_used a' q = true <->
      page_used a q = true /\ ~ exists e, e ∈ memmap /\ e_usable e = true /\ page_inside e q.
Proof.
  intros [Hr Hd]. revert a. induction Hr as [|e l (H1 & H2 & H3) Hr IH]; intros a Hwf Hall.
  - exists a. split_and!; try done. intros q Hq. split; [|tauto]. intros Hu. split; [done|].
    intros (e & Hin & _). by apply elem_of_nil in Hin.
  - destruct (release_entry_spec a e Hwf H1 H2 H3) as (a1 & Hr1 & Hwf1 & [Ht1 Hz1] & Hb1).
    { intros He p Hp. by apply (Hall e); [left|..]. }
    destruct (IH) with (a := a1) as (a2 & Hr2 & Hwf2 & [Ht2 Hz2] & Hb2); [| done | |].
    { intros i j x x' Hij Hi Hj. apply (Hd (S i) (S j)); auto. }
    { intros e' p Hin He' Hp. destruct (Hall e' p) as [Hp1 Hp2]; [by right|done..|].
      rewrite Ht1. split; [done|]. apply Hb1; [lia|]. split; [done|]. intros [He Hpe].
      apply list_elem_of_lookup in Hin as [j Hj].
      destruct (Hd 0%nat (S j) e e') as [Ho|Ho]; auto; unfold page_inside, PAGE_SIZE in *; lia. }
    exists a2. cbn [for_each]. rewrite (bind_ok _ _ _ _ _ Hr1).
    split_and!; [done|done|split; congruence|]. intros q Hq. rewrite Hb2, Hb1 by done.
    split.
    + intros [[Hu Hne] Hno]. split; [done|]. intros (e' & [->|Hin]%elem_of_cons & He' & Hp'); [tauto|].
      apply Hno. eauto.
    + intros [Hu Hno]. split; [split; [done|]|].
      * intros [He Hpe]. apply Hno. exists e. split; [left|done].
      * intros (e' & Hin & He'). apply Hno. exists e'. split; [by right|done].
Qed.

Lemma reserve_pages_spec l a :
  pmm_wf a -> (forall p, p ∈ l -> 0 <= p < total_pages a) ->
  exists a', for_each l reserve_page a = (Ok tt, a') /\ pmm_wf a' /\ same_dims a a' /\
    forall q, 0 <= q -> page_used a' q = true <-> page_used a q = true \/ q ∈ l.
Proof.
  revert a. induction l as [|p l IH]; intros a Hwf Hl.
  - exists a. split_and!; try done. intros q Hq. rewrite elem_of_nil. tauto.
  - assert (0 <= p < total_pages a) as Hp by (apply Hl; left).
    assert (exists a1, reserve_page p a = (Ok tt, a1) /\ pmm_wf a1 /\ same_dims a a1 /\
      forall q, 0 <= q -> page_used a1 q = true <-> page_used a q = true \/ q = p)
      as (a1 & Hr1 & Hwf1 & [Ht1 Hz1] & Hb1).
    { pose proof Hwf as [Hlen [Ht0 Ht] _ _]. unfold reserve_page.
      destruct (page_used a p) eqn:Hu.
      - exists a. split_and!; try done.
        + rewrite (bind_ok _ _ _ _ _ (test_bit_spec a p Hlen ltac:(lia))), Hu. done.
        + intros q Hq. split; [tauto|]. by intros [?| ->].
      - destruct (take_page_spec a p Hwf Hp Hu) as (a1 & Hrun & Hwf1 & Ht1 & _ & _ & Hb1).
        exists a1. split_and!; try done.
        + rewrite (bind_ok _ _ _ _ _ (test_bit_spec a p Hlen ltac:(lia))), Hu. simpl.
          exact (Hrun _ (mret tt)).
        + intros q Hq. rewrite Hb1 by lia. destruct (Z.eqb_spec q p); tauto. }
    destruct (IH a1 Hwf1) as (a2 & Hr2 & Hwf2 & [Ht2 Hz2] & Hb2).
    { intros q Hq. rewrite Ht1. apply Hl. by right. }
    exists a2. cbn [for_each]. rewrite (bind_ok _ _ _ _ _ Hr1). split_and!; [done|done|split; congruence|].
    intros q Hq. rewrite Hb2, Hb1, elem_of_cons by done. tauto.
Qed.

#[export] Instance page_inside_dec e p : Decision (page_inside e p).
Proof. unfold page_inside. apply _. Defined.

(** The pages that hold the bitmap itself. *)
Definition in_bitmap (bitmap_addr size p : Z) : Prop :=
  p * PAGE_SIZE < bitmap_addr + size /\ bitmap_addr < (p + 1) * PAGE_SIZE.

Lemma bitmap_pages_in addr size p :
  0 <= addr -> 0 < size -> addr + size < 2 ^ 62 ->
  p ∈ bitmap_pages addr size <-> in_bitmap addr size p.
Proof.
  intros. unfold bitmap_pages, in_bitmap, PAGE_SIZE. rewrite (u64_small (addr + size)), u64_small by lia.
  rewrite elem_of_seqZ.
  pose proof (Z.div_mod addr 4096 ltac:(lia)). pose proof (Z.mod_pos_bound addr 4096 ltac:(lia)).
  pose proof (Z.div_mod (addr + size + (4096 - 1)) 4096 ltac:(lia)).
  pose proof (Z.mod_pos_bound (addr + size + (4096 - 1)) 4096 ltac:(lia)).
  assert (addr / 4096 <= (addr + size + (4096 - 1)) / 4096) by (apply Z.div_le_mono; lia). lia.
Qed.

(** The allocator before any entry is released: every bit set. *)
Lemma all_used_wf total size :
  0 <= total -> size = (total + 7) / 8 -> total * PAGE_SIZE < 2 ^ 64 ->
  let a := mkAllocator (replicate (Z.to_nat size) 255) size total 0 0 in
  pmm_wf a /\ forall p, 0 <= p < total -> page_used a p = true.
Proof.
  intros Ht Hs Ha a.
  pose proof (Z.div_mod (total + 7) 8 ltac:(lia)). pose proof (Z.mod_pos_bound (total + 7) 8 ltac:(lia)).
  assert (Hall : forall p, 0 <= p < total -> page_used a p = true).
  { intros p Hp. unfold page_used. simpl. rewrite nth_lookup.
    pose proof (Z.div_pos p 8 ltac:(lia) ltac:(lia)).
    assert (p / 8 < size) by (apply Z.div_lt_upper_bound; lia).
    rewrite lookup_replicate_2 by lia. simpl. change 255 with (Z.ones 8).
    apply Z.ones_spec_low. apply Z.mod_pos_bound. lia. }
  split; [|done]. split; simpl; [unfold zlen; rewrite length_replicate; lia|lia|done|].
  unfold count_free, zlen. simpl. destruct (filter _ _) as [|q l] eqn:Hq; [done|].
  assert (q ∈ filter (fun p => page_used a p = false) (seqZ 0 total)) as Hin
    by (rewrite Hq; left).
  apply list_elem_of_filter in Hin as [Hu Hin%elem_of_pages]. by rewrite Hall in Hu.
Qed.

Definition bitmap_size_for (memmap : list Entry) : Z :=
  ((highest_addr memmap + (PAGE_SIZE - 1)) / PAGE_SIZE + 7) / 8.

(** The size computations of [init] stay in range. *)
Lemma init_sizes memmap :
  memmap_ok memmap ->
  let total := (highest_addr memmap + (PAGE_SIZE - 1)) / PAGE_SIZE in
  (highest_addr memmap +w64 (PAGE_SIZE - 1)) / PAGE_SIZE = total /\
  (total +w64 7) / 8 = bitmap_size_for memmap /\ 0 <= total /\
  total * PAGE_SIZE < 2 ^ 63 /\ highest_addr memmap <= total * PAGE_SIZE /\
  total <= 8 * bitmap_size_for memmap < total + 8.
Proof.
  intros [Hr _]. destruct (highest_addr_ge memmap (mkEntry 0 0 false) Hr) as [Hh _].
  unfold bitmap_size_for, PAGE_SIZE. cbv zeta.
  pose proof (Z.div_mod (highest_addr memmap + (4096 - 1)) 4096 ltac:(lia)).
  pose proof (Z.mod_pos_bound (highest_addr memmap + (4096 - 1)) 4096 ltac:(lia)).
  rewrite (u64_small (highest_addr memmap + (4096 - 1))) by lia.
  set (total := (highest_addr memmap + (4096 - 1)) / 4096) in *.
  rewrite (u64_small (total + 7)) by lia.
  pose proof (Z.div_mod (total + 7) 8 ltac:(lia)). pose proof (Z.mod_pos_bound (total + 7) 8 ltac:(lia)).
  split_and!; lia || done.
Qed.

(** The bitmap's pages exist: it sits inside a usable entry. *)
Lemma bitmap_pages_exist memmap e total size p :
  memmap_ok memmap -> e ∈ memmap -> 0 <= size <= e_length e ->
  highest_addr memmap <= total * PAGE_SIZE -> total <= 8 * size -> 
  p ∈ bitmap_pages (e_base e) size -> 0 <= p < total.
Proof.
  intros [Hr _] Hem Hsz Hht Hts Hp. destruct (highest_addr_ge memmap e Hr) as [Hh Hge].
  specialize (Hge Hem). rewrite Forall_forall in Hr. destruct (Hr e Hem) as (? & ? & ?).
  unfold PAGE_SIZE in *. destruct (decide (size = 0)) as [->|Hs0].
  - exfalso. unfold bitmap_pages, PAGE_SIZE in Hp. replace (e_base e) with 0 in Hp by lia.
    vm_compute in Hp. by apply elem_of_nil in Hp.
  - apply bitmap_pages_in in Hp; [|lia..]. unfold in_bitmap, PAGE_SIZE in Hp. lia.
Qed.

Lemma init_cases memmap :
  memmap_ok memmap ->
  match find_bitmap_addr memmap (bitmap_size_for memmap) with
  | None => pmm_init memmap = Panic
  | Some bitmap_addr => exists a, pmm_init memmap = Ok a /\ pmm_wf a /\
      usable_pages a = free_pages a /\
      total_pages a = (highest_addr memmap + (PAGE_SIZE - 1)) / PAGE_SIZE /\
      forall p, 0 <= p < total_pages a -> page_used a p = false <->
        (exists e, e ∈ memmap /\ e_usable e = true /\ page_inside e p) /\
        ~ p ∈ bitmap_pages bitmap_addr (bitmap_size_for memmap)
  end.
Proof.
  intros Hok. pose proof Hok as [Hr _].
  destruct (init_sizes memmap Hok) as (Ht & Hs & Ht0 & Hta & Hht & Hts).
  unfold pmm_init. rewrite Ht, Hs. set (total := (highest_addr memmap + (PAGE_SIZE - 1)) / PAGE_SIZE) in *.
  set (size := bitmap_size_for memmap) in *.
  destruct (find_bitmap_addr memmap size) as [addr|] eqn:Hf; [|done].
  unfold find_bitmap_addr in Hf. apply fmap_Some in Hf as ([i e] & Hf & ->). simpl.
  apply list_find_Some in Hf as (Hi & [Heu Hes] & _).
  assert (e ∈ memmap) as Hem by (apply list_elem_of_lookup; eauto).
  destruct (all_used_wf total size) as [Hwf0 Hall0]; [lia|reflexivity|unfold PAGE_SIZE in *; lia|].
  set (a0 := mkAllocator _ _ _ _ _) in *.
  destruct (release_all_spec memmap a0 Hok Hwf0) as (a1 & Hr1 & Hwf1 & [Ht1 Hz1] & Hb1).
  { intros x p Hx Hxu Hxp. destruct (highest_addr_ge memmap x Hr) as [_ Hge]. specialize (Hge Hx).
    rewrite Forall_forall in Hr. destruct (Hr x Hx) as (? & ? & ?).
    unfold page_inside, PAGE_SIZE in *. simpl. split; [|apply Hall0]; lia. }
  destruct (reserve_pages_spec (bitmap_pages (e_base e) size) a1 Hwf1)
    as (a2 & Hr2 & Hwf2 & [Ht2 Hz2] & Hb2).
  { rewrite Ht1. intros p Hp. apply (bitmap_pages_exist memmap e total size p); auto; lia. }
  rewrite (bind_ok _ _ _ _ _ Hr1), (bind_ok _ _ _ _ _ Hr2). mred. cbn [fst mret M_ret].
  eexists. split; [reflexivity|]. split_and!; [|done|simpl; by rewrite Ht2, Ht1|].
  { destruct Hwf2. by split. }
  intros p Hp. change (page_used _ p) with (page_used a2 p). simpl in Hp.
  rewrite <- not_true_iff_false, Hb2, Hb1 by lia.
  assert (page_used a0 p = true) by (apply Hall0; rewrite Ht2, Ht1 in Hp; simpl in Hp; lia).
  split; [|tauto]. intros Hno. split; [|tauto].
  destruct (decide (Exists (fun e => e_usable e = true /\ page_inside e p) memmap)) as [Hx|Hx].
  { apply Exists_exists in Hx. done. }
  exfalso. apply Hno. left. split; [done|]. intros Hex. apply Hx, Exists_exists. done.
Qed.

(** ** Runs of the allocator: clients free only what they own *)
Inductive pmm_reach (a0 : BitmapAllocator) : BitmapAllocator -> gset Z -> Prop :=
| reach_init : pmm_reach a0 a0 ∅
| reach_alloc a owned addr a' :
    pmm_reach a0 a owned -> alloc_page a = (Ok (Some addr), a') ->
    pmm_reach a0 a' ({[addr]} ∪ owned)
| reach_full a owned a' :
    pmm_reach a0 a owned -> alloc_page a = (Ok None, a') -> pmm_reach a0 a' owned
| reach_free a owned addr a' :
    pmm_reach a0 a owned -> addr ∈ owned -> free_page addr a = (Ok tt, a') ->
    pmm_reach a0 a' (owned ∖ {[addr]}).

Record pmm_inv (a0 a : BitmapAllocator) (owned : gset Z) : Prop := {
  pi_wf : pmm_wf a;
  pi_total : total_pages a = total_pages a0;
  pi_owned : forall addr, addr ∈ owned -> exists p, addr = p * PAGE_SIZE /\ 0 <= p < total_pages a0 /\
    page_used a0 p = false /\ page_used a p = true;
  pi_free : forall p, 0 <= p < total_pages a0 -> p * PAGE_SIZE ∉ owned -> page_used a p = page_used a0 p;
  pi_count : free_pages a + Z.of_nat (size owned) = free_pages a0
}.

Lemma pmm_inv_step_alloc a0 a owned p a' :
  pmm_inv a0 a owned -> 0 <= p < total_pages a -> page_used a p = false -> flips a a' p true ->
  (p * PAGE_SIZE ∉ owned) /\ pmm_inv a0 a' ({[p * PAGE_SIZE]} ∪ owned).
Proof.
  intros [Hwf Ht Ho Hfr Hc] Hp Hu (Hwf' & [Ht' _] & _ & Hf' & Hb').
  assert (p * PAGE_SIZE ∉ owned) as Hno.
  { intros Hin. destruct (Ho _ Hin) as (p' & Hpp & _ & _ & Hu').
    unfold PAGE_SIZE in Hpp. assert (p' = p) by lia. congruence. }
  split; [done|]. split.
  - done.
  - congruence.
  - intros addr [->%elem_of_singleton|Hin]%elem_of_union.
    + exists p. rewrite Hb', Z.eqb_refl by lia. rewrite <- (Hfr p) by (done || lia). split_and!; try done; lia.
    + destruct (Ho _ Hin) as (q & -> & Hq & Hq0 & Hqu). exists q. split_and!; try done; try lia.
      rewrite Hb' by lia. by case_bool.
  - intros q Hq Hnin. rewrite not_elem_of_union, not_elem_of_singleton in Hnin.
    rewrite Hb' by lia. destruct (Z.eqb_spec q p) as [->|]; [tauto|]. apply Hfr; [lia|tauto].
  - rewrite size_union, size_singleton by set_solver. lia.
Qed.

Lemma pmm_inv_step_free a0 a owned addr a' :
  pmm_inv a0 a owned -> addr ∈ owned -> free_page addr a = (Ok tt, a') ->
  pmm_inv a0 a' (owned ∖ {[addr]}).
Proof.
  intros [Hwf Ht Ho Hfr Hc] Hin Hrun. destruct (Ho _ Hin) as (p & -> & Hp & Hp0 & Hpu).
  assert (p * PAGE_SIZE / PAGE_SIZE = p) as Hdiv by (unfold PAGE_SIZE; by rewrite Z.div_mul by lia).
  destruct (free_cases a (p * PAGE_SIZE) Hwf) as [(_ & _ & a1 & Hr1 & Hfl)|[_ Hno]];
    rewrite ?Hdiv in *; [unfold PAGE_SIZE; lia| |destruct Hno; [lia|congruence]].
  rewrite Hrun in Hr1. injection Hr1 as <-.
  destruct Hfl as (Hwf' & [Ht' _] & _ & Hf' & Hb'). split.
  - done.
  - congruence.
  - intros addr [Hin' Hne%not_elem_of_singleton]%elem_of_difference.
    destruct (Ho _ Hin') as (q & -> & Hq & Hq0 & Hqu). exists q. split_and!; try done; try lia.
    rewrite Hb' by lia. destruct (Z.eqb_spec q p); [congruence|done].
  - intros q Hq Hnin. rewrite Hb' by lia. destruct (Z.eqb_spec q p) as [->|Hne]; [done|].
    apply Hfr; [lia|]. intros Hin'. apply Hnin. apply elem_of_difference. split; [done|].
    rewrite elem_of_singleton. unfold PAGE_SIZE. lia.
  - rewrite size_difference by set_solver. rewrite size_singleton.
    assert (size owned ≠ 0%nat) by (intros Hz%size_empty_inv; set_solver). lia.
Qed.

Lemma pmm_reach_inv a0 a owned : pmm_wf a0 -> pmm_reach a0 a owned -> pmm_inv a0 a owned.
Proof.
  intros Hwf0. induction 1 as [|a owned addr a' _ IH Hr|a owned a' _ IH Hr|a owned addr a' _ IH Hin Hr].
  - split; [done|done|set_solver|done|rewrite size_empty; lia].
  - destruct (alloc_cases a (pi_wf _ _ _ IH)) as [(p & a1 & Hp & Hu & _ & Hfl & Hrun)|[Hrun _]];
      [|congruence].
    rewrite Hr in Hrun. injection Hrun as -> ->. by apply pmm_inv_step_alloc with a.
  - destruct (alloc_cases a (pi_wf _ _ _ IH)) as [(p & a1 & _ & _ & _ & _ & Hrun)|[Hrun _]];
      [congruence|]. rewrite Hr in Hrun. by injection Hrun as ->.
  - by eapply pmm_inv_step_free.
Qed.

(** boot brings up a sound allocator.  On a memory map with disjoint usable
    ranges, [init] panics only when no usable range can hold the bitmap;
    otherwise a page is free exactly when it lies wholly inside a usable range
    and outside the bitmap's own pages, and the free counter is exact. *)
Theorem pmm_init_spec memmap :
  memmap_ok memmap ->
  match find_bitmap_addr memmap (bitmap_size_for memmap) with
  | None => pmm_init memmap = Panic
  | Some bitmap_addr => exists a, pmm_init memmap = Ok a /\ pmm_wf a /\
      usable_pages a = free_pages a /\
      total_pages a = (highest_addr memmap + (PAGE_SIZE - 1)) / PAGE_SIZE /\
      forall p, 0 <= p < total_pages a -> page_used a p = false <->
        (exists e, e ∈ memmap /\ e_usable e = true /\ page_inside e p) /\
        ~ p ∈ bitmap_pages bitmap_addr (bitmap_size_for memmap)
  end.
Proof. apply init_cases. Qed.

(** C1: in every run of allocations and frees from boot, the pages handed out
    are pairwise distinct, page-aligned, inside usable memory and never the
    bitmap's; free and owned pages always add up to the usable ones, and an
    allocation fails only when all usable pages are owned. *)
Theorem pmm_run_safe memmap a0 a owned :
  memmap_ok memmap -> pmm_init memmap = Ok a0 -> pmm_reach a0 a owned ->
  (forall addr, addr ∈ owned -> exists p e, addr = p * PAGE_SIZE /\ page_inside e p /\
     e ∈ memmap /\ e_usable e = true /\
     (forall b, find_bitmap_addr memmap (bitmap_size_for memmap) = Some b ->
        p ∉ bitmap_pages b (bitmap_size_for memmap))) /\
  free_pages a + Z.of_nat (size owned) = usable_pages a0 /\
  match alloc_page a with
  | (Ok (Some addr), a') => (addr ∉ owned) /\ pmm_reach a0 a' ({[addr]} ∪ owned)
  | (Ok None, a') => a' = a /\ Z.of_nat (size owned) = usable_pages a0
  | _ => False
  end.
Proof.
  intros Hok Hinit Hreach. pose proof (init_cases memmap Hok) as Hi.
  destruct (find_bitmap_addr memmap (bitmap_size_for memmap)) as [b|]; [|congruence].
  destruct Hi as (a0' & Hinit' & Hwf0 & Hus & _ & Hb). rewrite Hinit in Hinit'. injection Hinit' as <-.
  pose proof (pmm_reach_inv a0 a owned Hwf0 Hreach) as Hinv.
  pose proof Hinv as [Hwf Ht Ho Hfr Hc]. split_and!.
  - intros addr Hin. destruct (Ho _ Hin) as (p & -> & Hp & Hp0 & _).
    apply Hb in Hp0 as [(e & He & Heu & Hep) Hnb]; [|done].
    exists p, e. split_and!; try done. by intros b' [= <-].
  - lia.
  - destruct (alloc_cases a Hwf) as [(p & a' & Hp & Hu & _ & Hfl & Hrun)|[Hrun Hall]]; rewrite Hrun.
    + destruct (pmm_inv_step_alloc a0 a owned p a' Hinv Hp Hu Hfl) as [Hno _].
      split; [done|]. by eapply reach_alloc.
    + split; [done|]. rewrite <- Hus, <- Hc in *.
      destruct (decide (free_pages a = 0)) as [Hz|Hz]; [lia|]. exfalso.
      rewrite (pw_count a Hwf) in Hz. unfold count_free, zlen in Hz.
      destruct (filter _ _) as [|q l] eqn:Hq; [done|].
      assert (q ∈ filter (fun p => page_used a p = false) (seqZ 0 (total_pages a))) as Hin
        by (rewrite Hq; left).
      apply list_elem_of_filter in Hin as [Hqu Hin%elem_of_pages]. by rewrite Hall in Hqu.
Qed.

(** ** Witnesses: a 12-page machine with two usable ranges *)
Definition demo_map : list Entry :=
  [mkEntry 0 0x1000 false; mkEntry 0x1000 0x5000 true; mkEntry 0x9000 0x2800 true].

Definition demo_alloc : BitmapAllocator := mkAllocator [195; 249] 2 12 6 6.

Lemma demo_map_ok : memmap_ok demo_map.
Proof.
  split; [repeat constructor; simpl; lia|].
  intros i j e e' Hij Hi Hj He He'.
  destruct i as [|[|[|i]]], j as [|[|[|j]]]; simplify_eq/=; lia.
Qed.

Lemma demo_init : pmm_init demo_map = Ok demo_alloc.
Proof. vm_compute. reflexivity. Qed.

Lemma demo_wf : pmm_wf demo_alloc.
Proof. split; vm_compute; try done. Qed.

Lemma alloc_page_spec_witness :
  match alloc_page demo_alloc with
  | (Ok (Some addr), a') => addr = 0x2000 /\ pmm_wf a' /\ free_pages a' = 5
  | _ => False
  end.
Proof.
  pose proof (alloc_page_spec demo_alloc demo_wf) as H.
  destruct (alloc_page demo_alloc) as [[[addr|]|e| |] a'] eqn:He; try discriminate He.
  destruct H as (p & -> & _ & _ & _ & Hwf & Hf & _).
  split_and!; [|exact Hwf|exact Hf]. vm_compute in He. by injection He.
Defined.

Lemma free_page_spec_witness :
  exists a', free_page 0x2000 demo_alloc = (Ok tt, a') /\ free_page 0x2000 a' = (Ok tt, a').
Proof.
  destruct (free_page_spec demo_alloc 0x2000 demo_wf ltac:(lia)) as (a' & H1 & _ & _ & _ & _ & H2).
  eauto.
Defined.

Lemma pmm_init_spec_witness : exists a, pmm_init demo_map = Ok a /\ pmm_wf a /\ usable_pages a = 6.
Proof.
  pose proof (pmm_init_spec demo_map demo_map_ok) as H.
  change (find_bitmap_addr demo_map (bitmap_size_for demo_map)) with (Some 0x1000) in H.
  destruct H as (a & H1 & H2 & _). exists a. rewrite demo_init in H1. injection H1 as <-. done.
Defined.

Lemma pmm_run_safe_witness :
  exists a, pmm_reach demo_alloc a {[0x2000]} /\ free_pages a + 1 = 6 /\
  match alloc_page a with (Ok (Some addr), _) => addr ∉ ({[0x2000]} : gset Z) | _ => False end.
Proof.
  exists (alloc_page demo_alloc).2.
  assert (pmm_reach demo_alloc (alloc_page demo_alloc).2 {[0x2000]}) as Hr.
  { rewrite <- (union_empty_r_L {[0x2000]}). eapply reach_alloc; [apply reach_init|].
    vm_compute. reflexivity. }
  destruct (pmm_run_safe demo_map demo_alloc _ _ demo_map_ok demo_init Hr) as (_ & Hc & Ha).
  split_and!; [done|exact Hc|].
  destruct (alloc_page (alloc_page demo_alloc).2) as [[[addr|]|e| |] a'] eqn:He; try done;
    vm_compute in He; try discriminate He; tauto.
Defined.
