(* ===== verification/Vmm.v ===== *)
(** * Vmm: address spaces

    [vcore/src/mem/vmm.rs].  Page tables are built and walked by the [x86_64] crate
    (its [OffsetPageTable]): the class [Paging] is what the code calls of it, the
    class [PagingLaws] what its documentation promises.  Physical memory is the
    direct map at [HHDM_OFFSET], byte by byte. *)
From Stdlib Require Import ZArith Lia.
From stdpp Require Import base numbers option list.
From S2P Require Import Prelude Memory Pmm.

(** ** The [x86_64] crate *)
Class Paging := {
  (** Do [VirtAddr::new] and [PhysAddr::new] accept the address, or panic? *)
  VirtAddr_valid : Z -> bool;
  PhysAddr_valid : Z -> bool;
  PRESENT : Z;
  WRITABLE : Z;
  USER_ACCESSIBLE : Z;
  NO_EXECUTE : Z;
  (** [map_to] of the page at [virt] to the frame at [phys], in the tables at [root],
      taking the frames it needs for tables from [allocate]. *)
  map_to (hhdm root virt phys flags : Z) (allocate : M (option BitmapAllocator) Empty_set (option Z)) :
    M (UMem * option BitmapAllocator) unit unit;
  unmap (hhdm root virt : Z) : M UMem unit Z;
  translate_addr : UMem -> Z -> Z -> Z -> option Z    (* memory, offset, root, address *)
}.

(** What the kernel reports through [info!]; [Terminal.v] models the printing. *)
Inductive Message :=
| NewAddressSpace (pml4 kernel_pml4 : Z)
| SpawnedTask (pid : Z).

Record VmState := mkVm {
  ram : UMem;
  v_pmm : option BitmapAllocator;
  HHDM_OFFSET : option Z;
  KERNEL_PML4_PHYS : option Z;
  v_cr3 : Z;
  v_log : list Message
}.

Definition set_ram (m : UMem) (s : VmState) : VmState :=
  mkVm m (v_pmm s) (HHDM_OFFSET s) (KERNEL_PML4_PHYS s) (v_cr3 s) (v_log s).
Definition set_pmm (p : option BitmapAllocator) (s : VmState) : VmState :=
  mkVm (ram s) p (HHDM_OFFSET s) (KERNEL_PML4_PHYS s) (v_cr3 s) (v_log s).
Definition add_message (x : Message) (s : VmState) : VmState :=
  mkVm (ram s) (v_pmm s) (HHDM_OFFSET s) (KERNEL_PML4_PHYS s) (v_cr3 s) (v_log s ++ [x]).

(** [Page::containing_address(a)], [PhysFrame::containing_address(a)]: where they start. *)
Definition containing (a : Z) : Z := a - a mod PAGE_SIZE.

Record AddressSpace := mkAS { pml4_phys : Z }.

Section vmm.
Context {X : Paging}.
Abbreviation VM := (M VmState rstr).

(** [PmmFrameAllocator::allocate_frame]. *)
Definition allocate_frame : M (option BitmapAllocator) Empty_set (option Z) :=
  addr ← pmm_alloc;
  match addr with
  | None => mret None
  | Some addr => assert_or_panic (PhysAddr_valid addr) ;; mret (Some (containing addr))
  end.

Definition vmm_init (hhdm : Z) : VM unit :=
  s ← get; put (mkVm (ram s) (v_pmm s) (Some hhdm) (Some (containing (v_cr3 s))) (v_cr3 s) (v_log s)).

Definition info_message (x : Message) : VM unit := s ← get; put (add_message x s).

Definition hhdm : VM Z := s ← get; unwrap (HHDM_OFFSET s).

Definition VirtAddr_new (v : Z) : VM Z := assert_or_panic (VirtAddr_valid v) ;; mret v.
Definition PhysAddr_new (p : Z) : VM Z := assert_or_panic (PhysAddr_valid p) ;; mret p.

Definition phys_to_virt (phys : Z) : VM Z := h ← hhdm; VirtAddr_new (phys +w64 h).

(** Accesses through a pointer into the direct map. *)
Definition direct_write (ptr : Z) (bs : bytes) : VM unit :=
  h ← hhdm; s ← get; put (set_ram (store (ram s) (ptr -w64 h) bs) s).
Definition direct_read_u64 (ptr : Z) : VM Z :=
  h ← hhdm; s ← get; mret (from_le (load (ram s) (ptr -w64 h) 8)).

(** [get_page_table_at]: the table as a pointer, and the offset. *)
Definition get_page_table_at (pml4 : Z) : VM Z := _ ← phys_to_virt pml4; h ← hhdm; VirtAddr_new h.

Definition get_current_page_table : VM Z := s ← get; get_page_table_at (containing (v_cr3 s)).

Definition translate_in (root virt : Z) : VM (option Z) :=
  h ← get_page_table_at root; s ← get; mret (translate_addr (ram s) h root virt).

Definition virt_to_phys (virt : Z) : VM (option Z) :=
  h ← hhdm;
  if h <=? virt then p ← PhysAddr_new (virt - h); mret (Some p)
  else s ← get; translate_in (containing (v_cr3 s)) virt.

(** [mapper.map_to(..).map_err(|_| err)?]. *)
Definition map_in (root virt phys flags : Z) (err : rstr) : VM unit :=
  h ← get_page_table_at root;
  s ← get;
  match map_to h root (containing virt) (containing phys) flags allocate_frame (ram s, v_pmm s) with
  | (Ok _, (m, p)) => put (set_pmm p (set_ram m s))
  | (Err _, (m, p)) => put (set_pmm p (set_ram m s)) ;; fail err
  | (Panic, _) => panic
  | (Hang, _) => hang
  end.

(** A call of the page allocator. *)
Definition on_pmm {A} (m : M (option BitmapAllocator) Empty_set A) : VM A :=
  map_err (fun e : Empty_set => match e with end) (zoom v_pmm set_pmm m).

(** [map_page_alloc], over the [map_page] of the table. *)
Definition alloc_zeroed (oom : rstr) : VM Z :=
  addr ← on_pmm pmm_alloc;
  addr ← ok_or oom addr;
  phys ← PhysAddr_new addr;
  ptr ← phys_to_virt phys;
  direct_write ptr (replicate 4096 0) ;;
  mret phys.

(** *** In the current tables *)
Definition map_page (virt phys flags : Z) : VM unit :=
  s ← get; map_in (containing (v_cr3 s)) virt phys flags (lit "failed to map page").

Definition map_page_alloc (virt flags : Z) : VM Z :=
  phys ← alloc_zeroed (lit "out of memory"); map_page virt phys flags ;; mret phys.

Definition unmap_page (virt : Z) : VM Z :=
  h ← get_current_page_table;
  s ← get;
  match unmap h (containing (v_cr3 s)) (containing virt) (ram s) with
  | (Ok frame, m) => put (set_ram m s) ;; mret frame
  | (Err _, m) => put (set_ram m s) ;; fail (lit "failed to unmap page")
  | (Panic, _) => panic
  | (Hang, _) => hang
  end.

Definition is_mapped (virt : Z) : VM bool :=
  s ← get; r ← translate_in (containing (v_cr3 s)) virt; mret (bool_decide (is_Some r)).

(** *** [AddressSpace] *)
Definition AddressSpace_new : VM AddressSpace :=
  pml4 ← alloc_zeroed (lit "out of memory for PML4");
  s ← get;
  kernel ← ok_or (lit "kernel PML4 not initialized") (KERNEL_PML4_PHYS s);
  info_message (NewAddressSpace pml4 kernel) ;;
  kernel_pml4 ← phys_to_virt kernel;
  new_pml4 ← phys_to_virt pml4;
  for_each (seqZ 256 256) (fun i =>
    entry ← direct_read_u64 (kernel_pml4 + i * 8);
    direct_write (new_pml4 + i * 8) (to_le 8 entry)) ;;
  mret (mkAS pml4).

Definition cr3_value (a : AddressSpace) : Z := pml4_phys a.

Definition as_map_page (a : AddressSpace) (virt phys flags : Z) : VM unit :=
  map_in (pml4_phys a) virt phys flags (lit "failed to map page in address space").

Definition as_map_page_alloc (a : AddressSpace) (virt flags : Z) : VM Z :=
  phys ← alloc_zeroed (lit "out of memory"); as_map_page a virt phys flags ;; mret phys.

Definition as_is_mapped (a : AddressSpace) (virt : Z) : VM bool :=
  r ← translate_in (pml4_phys a) virt; mret (bool_decide (is_Some r)).

(** The loop of [write] and [zero]: the part of each page that is in the range gets
    [piece offset n]. *)
Definition page_step (a : AddressSpace) (virt len : Z) (piece : Z -> Z -> bytes) (offset : Z) : VM (Z + unit) :=
  if offset <? len then
    current_virt ← VirtAddr_new (virt +w64 offset);
    let page_offset := Z.land current_virt 0xFFF in
    let bytes_in_page := Z.min (4096 - page_offset) (len - offset) in
    r ← translate_in (pml4_phys a) current_virt;
    phys ← ok_or (lit "page not mapped") r;
    dest ← phys_to_virt phys;
    direct_write dest (piece offset bytes_in_page) ;;
    mret (inl (offset + bytes_in_page))
  else mret (inr tt).

Definition as_write (a : AddressSpace) (virt : Z) (data : bytes) : VM unit :=
  loop (S (length data))
    (page_step a virt (zlen data) (fun off n => slice data (Z.to_nat off) (Z.to_nat (off + n)))) 0.

Definition as_zero (a : AddressSpace) (virt len : Z) : VM unit :=
  loop (S (Z.to_nat len)) (page_step a virt len (fun _ n => replicate (Z.to_nat n) 0)) 0.
End vmm.
