(* ===== verification/VmmFacts.v ===== *)
(** * VmmFacts: what an address space holds

    The promises of the [x86_64] crate the kernel relies on ([PagingLaws]), and the
    operations of an address space as operations on the bytes it maps.  [spaces n st L]:
    each address space of [L], a root with the bytes it maps in the lower half, is in
    memory, what it uses is not free, what it owns nobody else uses, the tables of the
    kernel included, and [n] frames are free. *)
From Stdlib Require Import ZArith Lia.
From stdpp Require Import base numbers option list.
From S2P Require Import Prelude Memory Pmm Vmm.

(** ** Runs of the page allocator *)
Inductive allocs : BitmapAllocator -> list Z -> BitmapAllocator -> Prop :=
| allocs_nil a : allocs a [] a
| allocs_cons a f a1 l a2 : alloc_page a = (Ok (Some f), a1) -> allocs a1 l a2 -> allocs a (f :: l) a2.

(** The allocator will not hand out the frame at [f]. *)
Definition taken (a : BitmapAllocator) (f : Z) : Prop :=
  total_pages a <= f / PAGE_SIZE \/ page_used a (f / PAGE_SIZE) = true.

Lemma alloc_step a f a1 : pmm_wf a -> alloc_page a = (Ok (Some f), a1) ->
  pmm_wf a1 /\ total_pages a1 = total_pages a /\ free_pages a1 = free_pages a - 1
  /\ 0 <= f < total_pages a * PAGE_SIZE /\ f mod PAGE_SIZE = 0 /\ ~ taken a f /\ taken a1 f
  /\ forall g, 0 <= g -> taken a g -> taken a1 g.
Proof.
  intros Hwf Hr. destruct (alloc_cases a Hwf) as [(p & a' & Hp & Hu & _ & Hfl & Hrun)|[Hrun _]]; [|congruence].
  rewrite Hr in Hrun. injection Hrun as -> ->. destruct Hfl as (Hwf' & [Ht _] & _ & Hf & Hb). cbn in Hf.
  assert (p * PAGE_SIZE / PAGE_SIZE = p) as Hdiv by (unfold PAGE_SIZE; apply Z.div_mul; lia).
  split_and!; try done; unfold taken; rewrite ?Hdiv.
  - unfold PAGE_SIZE. lia.
  - unfold PAGE_SIZE. lia.
  - unfold PAGE_SIZE. apply Z.mod_mul. lia.
  - rewrite Hu. intros [|]; [lia|done].
  - right. rewrite Hb by lia. by rewrite Z.eqb_refl.
  - intros g Hg Hgt. assert (0 <= g / PAGE_SIZE) by (apply Z.div_pos; unfold PAGE_SIZE; lia).
    rewrite Ht, Hb by done. destruct Hgt as [|Hgt]; [by left|right]. rewrite Hgt. by destruct (_ =? _).
Qed.

Lemma allocs_spec a l a' : pmm_wf a -> allocs a l a' ->
  pmm_wf a' /\ total_pages a' = total_pages a /\ free_pages a' = free_pages a - zlen l
  /\ (forall g, 0 <= g -> taken a g -> taken a' g)
  /\ (forall f, f ∈ l -> 0 <= f < total_pages a * PAGE_SIZE /\ f mod PAGE_SIZE = 0 /\ ~ taken a f /\ taken a' f).
Proof.
  intros Hwf Ha. induction Ha as [a|a f a1 l a2 Hs Ha IH].
  - split_and!; try done; [unfold zlen; simpl; lia|]. intros f Hf. by apply elem_of_nil in Hf.
  - destruct (alloc_step a f a1 Hwf Hs) as (Hwf1 & Ht1 & Hf1 & Hr & Hm & Hn & Hk & Hmono).
    destruct (IH Hwf1) as (Hwf2 & Ht2 & Hf2 & Hmono2 & Hl). split_and!; try done.
    + congruence.
    + unfold zlen in *. cbn [length]. lia.
    + intros g Hg Hgt. by apply Hmono2, Hmono.
    + intros g [->|Hg]%elem_of_cons.
      * split_and!; try done; [lia..|]. apply Hmono2; [lia|done].
      * destruct (Hl g Hg) as (Hg0 & Hg1 & Hg2 & Hg3). rewrite Ht1 in Hg0. split_and!; try done; [lia..|].
        intros Hgt. apply Hg2, Hmono; [lia|done].
Qed.

Lemma pmm_has_page a : pmm_wf a -> 0 < free_pages a -> exists f a1, alloc_page a = (Ok (Some f), a1).
Proof.
  intros Hwf Hf. destruct (alloc_cases a Hwf) as [(p & a' & _ & _ & _ & _ & Hrun)|[_ Hall]]; [eauto|].
  exfalso. rewrite (pw_count a Hwf) in Hf. unfold count_free, zlen in Hf.
  destruct (filter _ _) as [|q l] eqn:Hq; [simpl in Hf; lia|].
  assert (q ∈ filter (fun p => page_used a p = false) (seqZ 0 (total_pages a))) as Hin by (rewrite Hq; left).
  apply list_elem_of_filter in Hin as [Hqu Hin%elem_of_pages]. by rewrite Hall in Hqu.
Qed.

(** ** What the crate promises *)

(** The lower half of the address space, where programs live. *)
Definition LOW : Z := 2 ^ 47.

(** The direct map covers the frames of the allocator, and the frame [root]. *)
Definition direct_ok `{Paging} (h : Z) (a : BitmapAllocator) (root : Z) : Prop :=
  VirtAddr_valid h = true /\ VirtAddr_valid (root +w64 h) = true
  /\ forall p, 0 <= p < total_pages a * PAGE_SIZE -> VirtAddr_valid (p +w64 h) = true.

Class PagingLaws `{X : Paging} := {
  (** The frame at the last argument holds a table reachable from the root. *)
  table : UMem -> Z -> Z -> Z -> Prop;
  (** .. through the entries of the lower half. *)
  lower_table : UMem -> Z -> Z -> Z -> Prop;
  PRESENT_flag : PRESENT ≠ 0;
  VirtAddr_low v : 0 <= v < LOW -> VirtAddr_valid v = true;
  PhysAddr_low p : 0 <= p < 2 ^ 52 -> PhysAddr_valid p = true;
  table_root m h root : table m h root root;
  lower_table_table m h root f : lower_table m h root f -> table m h root f;
  table_aligned m h root f : root mod PAGE_SIZE = 0 -> 0 <= root -> table m h root f -> f mod PAGE_SIZE = 0 /\ 0 <= f;
  translate_page m h root v : 0 <= v < LOW ->
    translate_addr m h root v = (fun f => f + v mod PAGE_SIZE) <$> translate_addr m h root (containing v);
  translate_aligned m h root v p :
    v mod PAGE_SIZE = 0 -> translate_addr m h root v = Some p -> p mod PAGE_SIZE = 0;
  (** A walk reads the tables only. *)
  translate_local m m' h root :
    (forall f x, table m h root f -> f <= x < f + PAGE_SIZE -> m' x = m x) ->
    (forall v, translate_addr m' h root v = translate_addr m h root v)
    /\ (forall f, table m' h root f <-> table m h root f)
    /\ (forall f, lower_table m' h root f <-> lower_table m h root f);
  (** A root without lower entries maps nothing there, and shares the tables of the
      root its upper entries come from. *)
  translate_fresh m h root kroot :
    load m root 2048 = replicate 2048 0 -> load m (root + 2048) 2048 = load m (kroot + 2048) 2048 ->
    (forall v, 0 <= v < LOW -> translate_addr m h root v = None)
    /\ (forall f, table m h root f -> f = root \/ table m h kroot f)
    /\ (forall f, lower_table m h root f -> f = root);
  (** [map_to] of an unmapped page, with the frames it may need at hand ("at most
      three frames are required"). *)
  map_to_ok m a h root virt phys fl :
    pmm_wf a -> total_pages a * PAGE_SIZE <= 2 ^ 52 -> direct_ok h a root -> root mod PAGE_SIZE = 0 -> 0 <= root ->
    0 <= virt < LOW -> virt mod PAGE_SIZE = 0 -> phys mod PAGE_SIZE = 0 -> Z.land fl PRESENT ≠ 0 ->
    translate_addr m h root virt = None -> (forall f, table m h root f -> taken a f) -> taken a phys ->
    ~ table m h root phys -> 3 <= free_pages a ->
    exists m' a' l, map_to h root virt phys fl allocate_frame (m, Some a) = (Ok tt, (m', Some a'))
      /\ allocs a l a' /\ (length l <= 3)%nat
      /\ (forall v, 0 <= v < LOW -> translate_addr m' h root v =
            if containing v =? virt then Some (phys + v mod PAGE_SIZE) else translate_addr m h root v)
      /\ (forall f, table m' h root f -> table m h root f \/ f ∈ l)
      /\ (forall f, lower_table m' h root f -> lower_table m h root f \/ f ∈ l)
      /\ (forall x, m' x = m x \/ exists f, (lower_table m h root f \/ f ∈ l) /\ f <= x < f + PAGE_SIZE)
}.

(** ** The bytes of an address space *)

(** A space: its root and the bytes it maps. *)
Abbreviation Space := (Z * (Z -> option Z))%type.

Section facts.
Context {X : Paging} {PL : PagingLaws}.
Abbreviation VM := (M VmState rstr).

Record as_ok (h : Z) (a : BitmapAllocator) (m : UMem) (root : Z) : Prop := {
  ao_wf : pmm_wf a;
  ao_small : total_pages a * PAGE_SIZE <= 2 ^ 52;
  ao_direct : direct_ok h a root;
  ao_root : root mod PAGE_SIZE = 0 /\ 0 <= root;
  ao_tables : forall f, table m h root f -> taken a f;
  ao_data : forall v p, 0 <= v < LOW -> translate_addr m h root v = Some p ->
    0 <= p < total_pages a * PAGE_SIZE /\ taken a (containing p) /\ ~ table m h root (containing p);
  ao_inj : forall v v' p p', 0 <= v < LOW -> 0 <= v' < LOW ->
    translate_addr m h root v = Some p -> translate_addr m h root v' = Some p' ->
    containing p = containing p' -> containing v = containing v'
}.

(** The tables of the kernel, which every new space shares. *)
Record kernel_ok (h : Z) (a : BitmapAllocator) (m : UMem) (k : Z) : Prop := {
  ko_wf : pmm_wf a;
  ko_small : total_pages a * PAGE_SIZE <= 2 ^ 52;
  ko_direct : direct_ok h a k;
  ko_root : k mod PAGE_SIZE = 0 /\ 0 <= k < 2 ^ 52;
  ko_tables : forall f, table m h k f -> taken a f;
  ko_bytes : forall x, k + 2048 <= x < k + 4096 -> is_byte (m x)
}.

(** The frames of a space: its data, with its own tables or with all of them. *)
Definition holds (m : UMem) (h root f : Z) : Prop :=
  exists v p, 0 <= v < LOW /\ translate_addr m h root v = Some p /\ containing p = f.
Definition owns (m : UMem) (h root f : Z) : Prop := lower_table m h root f \/ holds m h root f.
Definition uses (m : UMem) (h root f : Z) : Prop := table m h root f \/ holds m h root f.

Definition apart (m : UMem) (h r1 r2 : Z) : Prop := forall f, owns m h r1 f -> ~ uses m h r2 f.

Definition space_ok (h : Z) (a : BitmapAllocator) (m : UMem) (k : Z) (s : Space) : Prop :=
  as_ok h a m s.1 /\ (forall v, 0 <= v < LOW -> m <$> translate_addr m h s.1 v = s.2 v)
  /\ forall f, owns m h s.1 f -> ~ table m h k f.

Record spaces_ok (h : Z) (a : BitmapAllocator) (m : UMem) (k : Z) (L : list Space) : Prop := {
  ss_kernel : kernel_ok h a m k;
  ss_each : Forall (space_ok h a m k) L;
  ss_apart : forall i j s s', L !! i = Some s -> L !! j = Some s' -> i <> j -> apart m h s.1 s'.1
}.

Definition spaces (n : Z) (st : VmState) (L : list Space) : Prop :=
  exists a h k, v_pmm st = Some a /\ HHDM_OFFSET st = Some h /\ KERNEL_PML4_PHYS st = Some k /\ n <= free_pages a
    /\ spaces_ok h a (ram st) k L.

(** [V] with [bs] from [va] on. *)
Definition over (V : Z -> option Z) (va : Z) (bs : bytes) (v : Z) : option Z :=
  if (va <=? v) && (v <? va + zlen bs) then Some (rd bs (Z.to_nat (v - va))) else V v.

(** [V] with a page of zeros at [pg]. *)
Definition with_page (V : Z -> option Z) (pg v : Z) : option Z :=
  if containing v =? pg then Some 0 else V v.

Lemma containing_spec v : 0 <= v -> containing v mod PAGE_SIZE = 0 /\ 0 <= containing v <= v /\ v < containing v + PAGE_SIZE.
Proof.
  intros Hv. unfold containing, PAGE_SIZE. pose proof (Z.mod_pos_bound v 4096 ltac:(lia)).
  pose proof (Z.div_mod v 4096 ltac:(lia)). split; [|lia].
  replace (v - v mod 4096) with (v / 4096 * 4096) by lia. apply Z.mod_mul. lia.
Qed.

Lemma containing_aligned v : v mod PAGE_SIZE = 0 -> containing v = v.
Proof. unfold containing. lia. Qed.

Lemma containing_add f o : f mod PAGE_SIZE = 0 -> 0 <= o < PAGE_SIZE -> containing (f + o) = f /\ (f + o) mod PAGE_SIZE = o.
Proof.
  unfold containing, PAGE_SIZE. intros Hf Ho. pose proof (Z.div_mod f 4096 ltac:(lia)).
  assert ((f + o) mod 4096 = o) as -> by (rewrite Z.add_mod, Hf, Z.add_0_l, Z.mod_mod by lia; apply Z.mod_small; lia). lia.
Qed.

Lemma translate_offset m h root v p : 0 <= v < LOW -> translate_addr m h root v = Some p ->
  p mod PAGE_SIZE = v mod PAGE_SIZE
  /\ forall v', 0 <= v' < LOW -> containing v' = containing v ->
       translate_addr m h root v' = Some (containing p + v' mod PAGE_SIZE).
Proof.
  intros Hv Hp. rewrite translate_page in Hp by done.
  destruct (translate_addr m h root (containing v)) as [f|] eqn:Hf; [|done]. injection Hp as <-.
  pose proof (containing_spec v ltac:(lia)) as [Hcv _].
  pose proof (translate_aligned _ _ _ _ _ Hcv Hf) as Hfa.
  pose proof (Z.mod_pos_bound v PAGE_SIZE ltac:(unfold PAGE_SIZE; lia)) as Hm.
  destruct (containing_add f (v mod PAGE_SIZE) Hfa Hm) as [Hc Hmod]. split; [done|].
  intros v' Hv' Hcc. rewrite translate_page by done. rewrite Hcc, Hf, Hc. done.
Qed.

Lemma in_frame g x : g mod PAGE_SIZE = 0 -> g <= x < g + PAGE_SIZE -> containing x = g.
Proof. intros Hg Hx. destruct (containing_add g (x - g) Hg ltac:(lia)) as [Hc _]. by replace (g + (x - g)) with x in Hc by lia. Qed.

(** A change confined to the frames [r] owns and to free ones. *)
Record confined (h : Z) (a : BitmapAllocator) (m m' : UMem) (r : Z) : Prop := {
  cf_mem : forall x, m' x = m x \/ owns m h r (containing x) \/ ~ taken a (containing x);
  cf_owns : forall f, owns m' h r f -> owns m h r f \/ ~ taken a f;
  cf_uses : forall f, uses m' h r f -> uses m h r f \/ ~ taken a f
}.

(** *** Stores through the direct map *)
Lemma frames_apart f g : f mod PAGE_SIZE = 0 -> g mod PAGE_SIZE = 0 -> f <> g -> f + PAGE_SIZE <= g \/ g + PAGE_SIZE <= f.
Proof.
  unfold PAGE_SIZE. intros Hf Hg Hne. pose proof (Z.div_mod f 4096 ltac:(lia)). pose proof (Z.div_mod g 4096 ltac:(lia)).
  destruct (Z.lt_trichotomy (f / 4096) (g / 4096)) as [|[|]]; lia.
Qed.

(** Memory changed in one frame that is not a table: the translation is the same. *)
Lemma translate_frame m m' h root f :
  root mod PAGE_SIZE = 0 -> 0 <= root -> f mod PAGE_SIZE = 0 -> ~ table m h root f ->
  (forall x, x < f \/ f + PAGE_SIZE <= x -> m' x = m x) ->
  (forall v, translate_addr m' h root v = translate_addr m h root v) /\ (forall g, table m' h root g <-> table m h root g)
  /\ (forall g, lower_table m' h root g <-> lower_table m h root g).
Proof.
  intros Hr Hr0 Hf Hn Hm. apply translate_local. intros g x Hg Hx. apply Hm.
  destruct (table_aligned m h root g Hr Hr0 Hg) as [Hga _].
  destruct (frames_apart f g Hf Hga) as [|]; [by intros ->|lia..].
Qed.

Lemma as_ok_same h a m m' root :
  as_ok h a m root ->
  (forall v, translate_addr m' h root v = translate_addr m h root v) -> (forall g, table m' h root g <-> table m h root g) ->
  as_ok h a m' root.
Proof.
  intros [] Ht Hg. constructor; try done.
  - intros f. rewrite Hg. auto.
  - intros v p Hv. rewrite Ht, Hg. by apply ao_data0.
  - intros v v' p p' Hv Hv'. rewrite !Ht. by apply ao_inj0.
Qed.

Lemma data_frame h a m root v p : as_ok h a m root -> 0 <= v < LOW -> translate_addr m h root v = Some p ->
  0 <= p < 2 ^ 52 /\ containing p mod PAGE_SIZE = 0 /\ p = containing p + v mod PAGE_SIZE.
Proof.
  intros Hok Hv Hp. destruct (ao_data _ _ _ _ Hok v p Hv Hp) as (Hr & _ & _). pose proof (ao_small _ _ _ _ Hok).
  destruct (containing_spec p ltac:(lia)) as [Hc _]. split_and!; try done; [lia..|].
  rewrite <- (proj1 (translate_offset m h root v p Hv Hp)). unfold containing. lia.
Qed.

Lemma as_store h a m root v p bs :
  as_ok h a m root -> 0 <= v < LOW -> translate_addr m h root v = Some p -> v mod PAGE_SIZE + zlen bs <= PAGE_SIZE ->
  as_ok h a (store m p bs) root /\ confined h a m (store m p bs) root
  /\ forall v', 0 <= v' < LOW ->
       store m p bs <$> translate_addr (store m p bs) h root v' = over (fun v => m <$> translate_addr m h root v) v bs v'.
Proof.
  intros Hok Hv Hp Hfit. destruct (data_frame h a m root v p Hok Hv Hp) as (Hpr & Hfa & Hpe).
  destruct (ao_data _ _ _ _ Hok v p Hv Hp) as (_ & _ & Hnt). destruct (ao_root _ _ _ _ Hok) as [Hr Hr0].
  set (f := containing p) in *. pose proof (Z.mod_pos_bound v PAGE_SIZE ltac:(unfold PAGE_SIZE; lia)) as Hvm.
  destruct (translate_frame m (store m p bs) h root f Hr Hr0 Hfa Hnt) as (Htr & Htb & Hlt).
  { intros x Hx. apply store_out. lia. }
  split; [by eapply as_ok_same|]. split.
  { split; [|intros g; unfold owns, holds; setoid_rewrite Htr; rewrite Hlt; by left
            |intros g; unfold uses, holds; setoid_rewrite Htr; rewrite Htb; by left].
    intros x. destruct (decide (p <= x < p + zlen bs)); [right; left|left; apply store_out; lia].
    rewrite (in_frame f x) by (done || lia). right. by exists v, p. }
  intros v' Hv'. rewrite Htr. unfold over.
  destruct (containing_spec v ltac:(lia)) as (Hcv & Hc0 & Hc1). destruct (containing_spec v' ltac:(lia)) as (Hcv' & Hc0' & Hc1').
  pose proof (Z.mod_pos_bound v' PAGE_SIZE ltac:(unfold PAGE_SIZE; lia)).
  assert (v = containing v + v mod PAGE_SIZE) by (unfold containing; lia).
  assert (v' = containing v' + v' mod PAGE_SIZE) by (unfold containing; lia).
  destruct (decide (containing v' = containing v)) as [Hsame|Hdiff].
  - rewrite (proj2 (translate_offset m h root v p Hv Hp) v' Hv' Hsame). cbn. fold f.
    destruct (Z.leb_spec v v'), (Z.ltb_spec v' (v + zlen bs)); cbn [andb]; try (rewrite store_out; [done|lia]).
    unfold store. destruct (Z.leb_spec p (f + v' mod PAGE_SIZE)); [|lia].
    destruct (Z.ltb_spec (f + v' mod PAGE_SIZE) (p + zlen bs)); [|lia]. cbn [andb]. do 3 f_equal. lia.
  - assert (~ (v <= v' < v + zlen bs)) as Hout.
    { intros Hin. destruct (frames_apart (containing v) (containing v')) as [|]; [done|done|by intros E|lia..]. }
    destruct (Z.leb_spec v v'), (Z.ltb_spec v' (v + zlen bs)); cbn [andb]; try (exfalso; lia);
      destruct (translate_addr m h root v') as [p'|] eqn:Hp'; try done; cbn; f_equal;
      destruct (data_frame h a m root v' p' Hok Hv' Hp') as (_ & Hfa' & Hpe');
      (assert (containing p' <> f) as Hne by (intros He; apply Hdiff; by apply (ao_inj _ _ _ _ Hok v' v p' p)));
      (destruct (frames_apart f (containing p') Hfa Hfa') as [|]; [by intros E; apply Hne| |]); apply store_out; lia.
Qed.

(** *** Changes that leave a space alone *)
Definition pmm_step (a a' : BitmapAllocator) : Prop :=
  pmm_wf a' /\ total_pages a' = total_pages a /\ forall g, 0 <= g -> taken a g -> taken a' g.

Lemma pmm_step_refl a : pmm_wf a -> pmm_step a a.
Proof. intros H. unfold pmm_step. by split_and!. Qed.

Lemma direct_ok_step h a a' r : pmm_step a a' -> direct_ok h a r -> direct_ok h a' r.
Proof. intros (_ & Ht & _) (Hv & Hr & Hd). split_and!; [done..|]. by rewrite Ht. Qed.

Lemma uses_taken h a m r f : as_ok h a m r -> uses m h r f -> 0 <= f /\ taken a f.
Proof.
  intros [_ _ _ [Hr Hr0] Ht Hd _] [Hf|(v & p & Hv & Hp & <-)].
  - split; [apply (table_aligned m h r f Hr Hr0 Hf)|by apply Ht].
  - destruct (Hd v p Hv Hp) as (Hpr & Hk & _). split; [|done]. apply containing_spec. lia.
Qed.

Lemma owns_uses m h r f : owns m h r f -> uses m h r f.
Proof. intros [Hf|Hf]; [left; by apply lower_table_table|by right]. Qed.

(** A space whose frames keep their bytes. *)
Lemma space_kept h a a' m m' r : as_ok h a m r -> pmm_step a a' ->
  (forall x, uses m h r (containing x) -> m' x = m x) ->
  as_ok h a' m' r /\ (forall f, owns m' h r f <-> owns m h r f) /\ (forall f, uses m' h r f <-> uses m h r f)
  /\ forall v, 0 <= v < LOW -> m' <$> translate_addr m' h r v = m <$> translate_addr m h r v.
Proof.
  intros Hok Hst Hm. pose proof Hok as [Hwf Hsm Hd [Hr Hr0] Htab Hdata Hinj]. pose proof Hst as (Hwf' & Ht' & Hmono).
  destruct (translate_local m m' h r) as (Htr & Htb & Hlt).
  { intros f x Hf Hx. apply Hm. left. rewrite (in_frame f x); [done|apply (table_aligned m h r f Hr Hr0 Hf)|done]. }
  assert (forall f, holds m' h r f <-> holds m h r f) as Hh by (intros f; unfold holds; by setoid_rewrite Htr).
  split_and!.
  - apply as_ok_same with (m := m); try done. constructor; rewrite ?Ht'; try done; [by eapply direct_ok_step| |].
    + intros f Hf. destruct (uses_taken h a m r f Hok ltac:(by left)). by apply Hmono.
    + intros v p Hv Hp. destruct (Hdata v p Hv Hp) as (Hpr & Hk & Hn). split_and!; try done; [lia..|].
      apply Hmono; [|done]. apply containing_spec. lia.
  - intros f. unfold owns. by rewrite Hlt, Hh.
  - intros f. unfold uses. by rewrite Htb, Hh.
  - intros v Hv. rewrite Htr. destruct (translate_addr m h r v) as [p|] eqn:Hp; [|done]. cbn. f_equal.
    apply Hm. right. by exists v, p.
Qed.

Lemma kernel_kept h a a' m m' k : kernel_ok h a m k -> pmm_step a a' ->
  (forall x, table m h k (containing x) -> m' x = m x) ->
  kernel_ok h a' m' k /\ forall f, table m' h k f <-> table m h k f.
Proof.
  intros [Hwf Hsm Hd [Hk Hk0] Htab Hb] Hst Hm. pose proof Hst as (Hwf' & Ht' & Hmono).
  destruct (translate_local m m' h k) as (_ & Htb & _).
  { intros f x Hf Hx. apply Hm. rewrite (in_frame f x); [done|apply (table_aligned m h k f Hk ltac:(lia) Hf)|done]. }
  split; [|done]. constructor; rewrite ?Ht'; try done; [by eapply direct_ok_step| |].
  - intros f Hf%Htb. destruct (table_aligned m h k f Hk ltac:(lia) Hf). by apply Hmono, Htab.
  - intros x Hx. rewrite Hm; [by apply Hb|]. rewrite (in_frame k x); [apply table_root|done|unfold PAGE_SIZE; lia].
Qed.

Lemma spaces_cons h a m k s rest : spaces_ok h a m k (s :: rest) <->
  space_ok h a m k s /\ spaces_ok h a m k rest /\ forall s', s' ∈ rest -> apart m h s.1 s'.1 /\ apart m h s'.1 s.1.
Proof.
  split.
  - intros [Hk He Ha]. apply Forall_cons in He as [Hs He]. split_and!; [done| |].
    + constructor; [done..|]. intros i j s1 s2 Hi Hj Hne. by apply (Ha (S i) (S j)); [..|lia].
    + intros s' [i Hi]%list_elem_of_lookup. split; [by apply (Ha 0%nat (S i))|by apply (Ha (S i) 0%nat)].
  - intros (Hs & [Hk He Ha] & Hap). constructor; [done|by constructor|].
    intros [|i] [|j] s1 s2 Hi Hj Hne; simpl in *; simplify_eq; try done.
    + by apply Hap, list_elem_of_lookup_2 with j.
    + by apply Hap, list_elem_of_lookup_2 with i.
    + by apply (Ha i j); [..|lia].
Qed.

Lemma spaces_kept h a a' m m' k L : spaces_ok h a m k L -> pmm_step a a' ->
  (forall x s, s ∈ L -> uses m h s.1 (containing x) -> m' x = m x) ->
  (forall x, table m h k (containing x) -> m' x = m x) ->
  spaces_ok h a' m' k L /\ (forall f, table m' h k f <-> table m h k f)
  /\ forall s, s ∈ L -> (forall f, owns m' h s.1 f <-> owns m h s.1 f) /\ (forall f, uses m' h s.1 f <-> uses m h s.1 f).
Proof.
  intros Hok Hst Hm Hmk. pose proof (ss_kernel _ _ _ _ _ Hok) as Hk. destruct (kernel_kept h a a' m m' k Hk Hst Hmk) as [Hk' Htk].
  induction L as [|s L IH].
  { split_and!; [by constructor|done|]. intros s Hs. by apply elem_of_nil in Hs. }
  apply spaces_cons in Hok as ((Has & HV & Hnk) & Hok & Hap).
  destruct IH as (Hok' & _ & Hus); [done|intros x s' Hs'; apply Hm; by right|].
  destruct (space_kept h a a' m m' s.1 Has Hst) as (Has' & How & Hu & HV'); [intros x; apply Hm; by left|].
  split_and!; [|done|].
  - apply spaces_cons. split_and!; [|done|].
    + split_and!; [done| |].
      * intros v Hv. by rewrite HV', HV.
      * intros f Hf%How. rewrite Htk. by apply Hnk.
    + intros s' Hs'. destruct (Hap s' Hs') as [H1 H2], (Hus s' Hs') as [Ho' Hu'].
      split; intros f; [rewrite How, Hu'|rewrite Ho', Hu]; auto.
  - intros s' [->|Hs']%elem_of_cons; [done|by apply Hus].
Qed.

(** Writing to a frame nobody has. *)
Lemma spaces_fresh h a a' m m' k L f : spaces_ok h a m k L -> pmm_step a a' -> ~ taken a f ->
  (forall x, m' x = m x \/ containing x = f) ->
  spaces_ok h a' m' k L /\ (forall g, table m' h k g <-> table m h k g)
  /\ forall s, s ∈ L -> ~ uses m h s.1 f /\ (forall g, owns m' h s.1 g <-> owns m h s.1 g) /\ (forall g, uses m' h s.1 g <-> uses m h s.1 g).
Proof.
  intros Hok Hst Hf Hm.
  assert (forall s, s ∈ L -> ~ uses m h s.1 f) as Hn.
  { intros s Hs Hu. destruct (proj1 (Forall_forall _ _) (ss_each _ _ _ _ _ Hok) s Hs) as (Has & _).
    by apply Hf, (uses_taken _ _ _ _ _ Has Hu). }
  destruct (spaces_kept h a a' m m' k L Hok Hst) as (Hok' & Htk & Hus).
  - intros x s Hs Hu. destruct (Hm x) as [|E]; [done|]. rewrite E in Hu. by destruct (Hn s Hs).
  - intros x Hx. destruct (Hm x) as [|E]; [done|]. rewrite E in Hx. by destruct Hf; apply (ss_kernel _ _ _ _ _ Hok).
  - split_and!; [done..|]. intros s Hs. split; [by apply Hn|by apply Hus].
Qed.

Lemma spaces_update h a a' m m' k r V V' rest :
  spaces_ok h a m k ((r, V) :: rest) -> pmm_step a a' -> confined h a m m' r -> as_ok h a' m' r ->
  (forall v, 0 <= v < LOW -> m' <$> translate_addr m' h r v = V' v) ->
  spaces_ok h a' m' k ((r, V') :: rest).
Proof.
  intros ((Has & HV & Hnk) & Hok & Hap)%spaces_cons Hst [Hmem Hown Huse] Has' HV'. cbn [fst snd] in *.
  pose proof (ss_kernel _ _ _ _ _ Hok) as Hk.
  assert (forall s, s ∈ rest -> as_ok h a m s.1) as Hrest.
  { intros s Hs. pose proof (proj1 (Forall_forall _ _) (ss_each _ _ _ _ _ Hok) s Hs) as (? & _). done. }
  destruct (spaces_kept h a a' m m' k rest Hok Hst) as (Hok' & Htk & Hus).
  - intros x s Hs Hu. destruct (Hmem x) as [|[Ho|Ht]]; [done| |].
    + by destruct (proj1 (Hap s Hs) _ Ho).
    + by destruct Ht; eapply uses_taken; [apply Hrest|].
  - intros x Hx. destruct (Hmem x) as [|[Ho|Ht]]; [done|by destruct (Hnk _ Ho)|]. by destruct Ht; apply Hk.
  - apply spaces_cons. split_and!; [|done|].
    + split_and!; [done..|]. intros f Hf. rewrite Htk. intros Hft. destruct (Hown f Hf) as [Ho|Ht]; [by apply (Hnk f)|].
      by apply Ht, Hk.
    + intros s Hs. destruct (Hap s Hs) as [H1 H2], (Hus s Hs) as [Ho' Hu']. cbn [fst]. split; intros f Hf Hf'.
      * apply Hu' in Hf'. destruct (Hown f Hf) as [Ho|Ht]; [by apply (H1 f)|]. by destruct Ht; eapply uses_taken; [apply Hrest|].
      * apply Ho' in Hf. destruct (Huse f Hf') as [Ho|Ht]; [by apply (H2 f)|].
        by destruct Ht; eapply uses_taken; [apply Hrest|apply owns_uses].
Qed.

(** *** The operations, on the first of the spaces *)
Section first.
Context {rest : list Space}.
Abbreviation as_mem n st root V := (spaces n st ((root, V) :: rest)).

Lemma as_mem_here n st root V : as_mem n st root V ->
  exists a h k, v_pmm st = Some a /\ HHDM_OFFSET st = Some h /\ KERNEL_PML4_PHYS st = Some k /\ n <= free_pages a
    /\ spaces_ok h a (ram st) k ((root, V) :: rest) /\ as_ok h a (ram st) root
    /\ forall v, 0 <= v < LOW -> ram st <$> translate_addr (ram st) h root v = V v.
Proof.
  intros (a & h & k & Hp & Hh & Hk & Hn & Hok). exists a, h, k.
  by pose proof Hok as ((Has & HV & _) & _ & _)%spaces_cons.
Qed.

Lemma as_mem_ext n st root V V' : as_mem n st root V -> (forall v, 0 <= v < LOW -> V v = V' v) -> as_mem n st root V'.
Proof.
  intros (a & h & k & Hp & Hh & Hk & Hn & ((Has & HV & Hnk) & Hok)%spaces_cons) He. exists a, h, k. split_and!; try done.
  apply spaces_cons. split; [|done]. split_and!; [done| |done]. intros v Hv. cbn [fst snd] in *. by rewrite HV, He.
Qed.

Lemma spaces_le n n' st L : spaces n st L -> n' <= n -> spaces n' st L.
Proof. intros (a & h & k & Hp & Hh & Hk & Hn & H) Hle. exists a, h, k. split_and!; try done. lia. Qed.

Lemma phys_to_virt_run st h p : HHDM_OFFSET st = Some h -> VirtAddr_valid (p +w64 h) = true ->
  phys_to_virt p st = (Ok (p +w64 h), st).
Proof. intros Hh Hv. unfold phys_to_virt, hhdm, VirtAddr_new. rewrite bind_assoc, bind_get, Hh, bind_unwrap_some, Hv. done. Qed.

Lemma direct_ptr p h : 0 <= p < 2 ^ 64 -> (p +w64 h) -w64 h = p.
Proof.
  intros Hp. unfold u64. rewrite Zminus_mod_idemp_l. replace (p + h - h) with p by lia. by apply Z.mod_small.
Qed.

Lemma direct_write_run st h p bs : HHDM_OFFSET st = Some h -> 0 <= p < 2 ^ 64 ->
  direct_write (p +w64 h) bs st = (Ok tt, set_ram (store (ram st) p bs) st).
Proof. intros Hh Hp. unfold direct_write, hhdm. rewrite bind_assoc, bind_get, Hh, bind_unwrap_some, bind_get. by rewrite direct_ptr. Qed.

Lemma page_table_run st h root : HHDM_OFFSET st = Some h ->
  VirtAddr_valid h = true -> VirtAddr_valid (root +w64 h) = true -> get_page_table_at root st = (Ok h, st).
Proof.
  intros Hh Hv Hr. unfold get_page_table_at. rewrite (bind_ok _ _ _ _ _ (phys_to_virt_run st h root Hh Hr)).
  unfold hhdm, VirtAddr_new. rewrite bind_assoc, bind_get, Hh, bind_unwrap_some, Hv. done.
Qed.

Lemma translate_in_run st h a root v : HHDM_OFFSET st = Some h -> as_ok h a (ram st) root ->
  translate_in root v st = (Ok (translate_addr (ram st) h root v), st).
Proof.
  intros Hh Hok. destruct (ao_direct _ _ _ _ Hok) as (Hv & Hr & _). unfold translate_in.
  by rewrite (bind_ok _ _ _ _ _ (page_table_run st h root Hh Hv Hr)), bind_get.
Qed.

Lemma is_mapped_run n st root V v : as_mem n st root V -> 0 <= v < LOW ->
  as_is_mapped (mkAS root) v st = (Ok (bool_decide (is_Some (V v))), st).
Proof.
  intros (a & h & k & Hp & Hh & Hk & Hn & _ & Hok & HV)%as_mem_here Hv. unfold as_is_mapped. cbn [pml4_phys].
  rewrite (bind_ok _ _ _ _ _ (translate_in_run st h a root v Hh Hok)). unfold mret, M_ret. do 2 f_equal.
  apply bool_decide_ext. rewrite <- HV by done. by rewrite fmap_is_Some.
Qed.

(** Pages are mapped whole. *)
Lemma as_mem_page n st root V v : as_mem n st root V -> 0 <= v < LOW -> V v = None <-> V (containing v) = None.
Proof.
  intros (a & h & k & _ & _ & _ & _ & _ & _ & HV)%as_mem_here Hv. destruct (containing_spec v ltac:(lia)) as (_ & ? & _).
  rewrite <- !HV by lia. rewrite translate_page by done. by destruct (translate_addr (ram st) h root (containing v)).
Qed.

(** One page's part of a range that is mapped. *)
Lemma page_step_run n st root V virt len piece offset :
  as_mem n st root V -> 0 <= virt -> virt + len <= LOW -> 0 <= offset < len -> is_Some (V (virt + offset)) ->
  let k := Z.min (4096 - (virt + offset) mod PAGE_SIZE) (len - offset) in
  zlen (piece offset k) = k ->
  0 < k /\ exists st', page_step (mkAS root) virt len piece offset st = (Ok (inl (offset + k)), st')
    /\ as_mem n st' root (over V (virt + offset) (piece offset k)).
Proof.
  intros (a & h & kr & Hp & Hh & Hkr & Hn & Hsp & Hok & HV)%as_mem_here Hv0 Hlow Hoff [b Hb] k Hk. set (cv := virt + offset) in *.
  assert (0 <= cv < LOW) as Hcv by lia. pose proof (Z.mod_pos_bound cv PAGE_SIZE ltac:(unfold PAGE_SIZE; lia)) as Hm.
  assert (0 < k) as Hk0 by (unfold k, PAGE_SIZE in *; lia). split; [done|].
  rewrite <- HV in Hb by done. destruct (translate_addr (ram st) h root cv) as [p|] eqn:Ht; [|done].
  destruct (as_store h a (ram st) root cv p (piece offset k) Hok Hcv Ht) as (Hok' & Hcf & HV');
    [rewrite Hk; unfold k, PAGE_SIZE in *; lia|].
  destruct (data_frame h a (ram st) root cv p Hok Hcv Ht) as (Hpr & _ & _).
  destruct (ao_data _ _ _ _ Hok cv p Hcv Ht) as (Hpa & _ & _). destruct (ao_direct _ _ _ _ Hok) as (_ & _ & Hd).
  eexists. split.
  - unfold page_step. destruct (Z.ltb_spec offset len); [|lia]. unfold VirtAddr_new.
    rewrite (u64_small (virt + offset)) by (unfold LOW in *; lia). fold cv.
    rewrite VirtAddr_low by done. rewrite bind_assoc. cbn [assert_or_panic]. rewrite !bind_ret. cbv zeta.
    change 0xFFF with (Z.ones 12). rewrite Z.land_ones by lia. change (2 ^ 12) with PAGE_SIZE. fold k.
    cbn [pml4_phys]. rewrite (bind_ok _ _ _ _ _ (translate_in_run st h a root cv Hh Hok)), Ht, bind_ok_or_some.
    rewrite (bind_ok _ _ _ _ _ (phys_to_virt_run st h p Hh (Hd p Hpa))).
    rewrite (bind_ok _ _ _ _ _ (direct_write_run st h p _ Hh ltac:(lia))). done.
  - exists a, h, kr. cbn [set_ram v_pmm HHDM_OFFSET KERNEL_PML4_PHYS ram]. split_and!; try done.
    apply (spaces_update h a a (ram st) _ kr root V); [done|apply pmm_step_refl, Hok|done..|].
    intros v Hv. rewrite HV' by done. unfold over. destruct (_ && _); [done|by apply HV].
Qed.

Lemma over_app V va a b v : over (over V va a) (va + zlen a) b v = over V va (a ++ b) v.
Proof.
  unfold over, zlen. rewrite length_app.
  destruct (Z.leb_spec (va + Z.of_nat (length a)) v), (Z.ltb_spec v (va + Z.of_nat (length a) + Z.of_nat (length b))),
    (Z.leb_spec va v), (Z.ltb_spec v (va + Z.of_nat (length a + length b)%nat)),
    (Z.ltb_spec v (va + Z.of_nat (length a))); cbn [andb]; try lia; try done; unfold rd; f_equal.
  - rewrite app_nth2 by lia. f_equal. lia.
  - by rewrite app_nth1 by lia.
Qed.

Lemma over_nil V va v : over V va [] v = V v.
Proof.
  unfold over, zlen. cbn [length]. destruct (Z.leb_spec va v), (Z.ltb_spec v (va + Z.of_nat 0)); cbn [andb]; try done. lia.
Qed.

Lemma over_mapped V va bs v : is_Some (V v) -> is_Some (over V va bs v).
Proof. unfold over. destruct (_ && _); [by eexists|done]. Qed.

Lemma take_slice {A} (l : list A) (i j : nat) : (i <= j)%nat -> take j l = take i l ++ slice l i j.
Proof. intros H. unfold slice. rewrite take_take_drop. f_equal. lia. Qed.

(** The whole range, page by page, within the fuel. *)
Lemma page_loop_run n root V virt piece data :
  0 <= virt -> virt + zlen data <= LOW -> (forall v, virt <= v < virt + zlen data -> is_Some (V v)) ->
  (forall o k, 0 <= o -> 0 < k -> o + k <= zlen data -> piece o k = slice data (Z.to_nat o) (Z.to_nat (o + k))) ->
  forall fuel offset st, 0 <= offset <= zlen data -> (Z.to_nat (zlen data - offset) < fuel)%nat ->
  as_mem n st root (over V virt (take (Z.to_nat offset) data)) ->
  exists st', loop fuel (page_step (mkAS root) virt (zlen data) piece) offset st = (Ok tt, st')
    /\ as_mem n st' root (over V virt data).
Proof.
  intros Hv0 Hlow Hmap Hpiece. induction fuel as [|fuel IH]; intros offset st Ho Hf Has; [lia|]. cbn [loop].
  destruct (Z.lt_ge_cases offset (zlen data)) as [Hlt|Hge].
  - assert (Hk : forall k, 0 < k -> offset + k <= zlen data -> zlen (piece offset k) = k).
    { intros k Hk Hle. rewrite Hpiece by lia. unfold zlen in *. rewrite length_slice by lia. lia. }
    set (k := Z.min (4096 - (virt + offset) mod PAGE_SIZE) (zlen data - offset)).
    pose proof (Z.mod_pos_bound (virt + offset) PAGE_SIZE ltac:(unfold PAGE_SIZE; lia)).
    assert (0 < k /\ offset + k <= zlen data) as [Hk0 Hk1] by (unfold k, PAGE_SIZE in *; lia).
    destruct (page_step_run n st root _ virt (zlen data) piece offset Has Hv0 Hlow ltac:(lia)) as (_ & st1 & Hs & Has1);
      [apply over_mapped, Hmap; lia|by apply Hk|]. fold k in Hs, Has1.
    rewrite (bind_ok _ _ _ _ _ Hs). apply (IH (offset + k) st1); [lia|lia|].
    eapply as_mem_ext; [exact Has1|]. intros v _. rewrite (take_slice data (Z.to_nat offset) (Z.to_nat (offset + k))) by lia.
    rewrite <- Hpiece by lia. rewrite <- over_app. unfold zlen. rewrite length_take. unfold zlen in *.
    replace (virt + Z.of_nat (Nat.min (Z.to_nat offset) (length data))) with (virt + offset) by lia. done.
  - assert (page_step (mkAS root) virt (zlen data) piece offset st = (Ok (inr tt), st)) as Hs
      by (unfold page_step; destruct (Z.ltb_spec offset (zlen data)); [lia|done]).
    rewrite (bind_ok _ _ _ _ _ Hs). exists st. split; [done|]. rewrite take_ge in Has by (unfold zlen in *; lia). done.
Qed.

Lemma as_write_run n st root V virt data :
  as_mem n st root V -> 0 <= virt -> virt + zlen data <= LOW -> (forall v, virt <= v < virt + zlen data -> is_Some (V v)) ->
  exists st', as_write (mkAS root) virt data st = (Ok tt, st') /\ as_mem n st' root (over V virt data).
Proof.
  intros Has Hv Hlow Hmap. apply (page_loop_run n root V virt); try done; [unfold zlen; lia|unfold zlen; lia|].
  eapply as_mem_ext; [exact Has|]. intros v _. by rewrite over_nil.
Qed.

Lemma as_zero_run n st root V virt len :
  as_mem n st root V -> 0 <= virt -> 0 <= len -> virt + len <= LOW -> (forall v, virt <= v < virt + len -> is_Some (V v)) ->
  exists st', as_zero (mkAS root) virt len st = (Ok tt, st') /\ as_mem n st' root (over V virt (replicate (Z.to_nat len) 0)).
Proof.
  intros Has Hv Hl Hlow Hmap. assert (zlen (replicate (Z.to_nat len) (0 : Z)) = len) as Hz by (unfold zlen; rewrite length_replicate; lia).
  pose proof (page_loop_run n root V virt (fun _ n => replicate (Z.to_nat n) 0) (replicate (Z.to_nat len) 0)) as Hrun.
  rewrite Hz in Hrun. apply Hrun; clear Hrun; try done; [|lia|].
  - intros o k Ho Hk Hle. unfold slice. rewrite drop_replicate, take_replicate. f_equal. lia.
  - eapply as_mem_ext; [exact Has|]. intros v _. by rewrite over_nil.
Qed.

(** *** New pages *)
Lemma alloc_zeroed_run oom st a h f a1 :
  v_pmm st = Some a -> HHDM_OFFSET st = Some h -> alloc_page a = (Ok (Some f), a1) ->
  0 <= f < 2 ^ 52 -> VirtAddr_valid (f +w64 h) = true ->
  alloc_zeroed oom st = (Ok f, set_ram (store (ram st) f (replicate 4096 0)) (set_pmm (Some a1) st)).
Proof using PL.
  intros Hp Hh Ha Hf Hv. unfold alloc_zeroed.
  assert (on_pmm pmm_alloc st = (Ok (Some f), set_pmm (Some a1) st)) as Hpm.
  { unfold on_pmm, map_err, zoom, pmm_alloc. by rewrite Hp, Ha. }
  rewrite (bind_ok _ _ _ _ _ Hpm), bind_ok_or_some. unfold PhysAddr_new. rewrite PhysAddr_low by done.
  rewrite bind_assoc. cbn [assert_or_panic]. rewrite !bind_ret.
  rewrite (bind_ok _ _ _ _ _ (phys_to_virt_run (set_pmm (Some a1) st) h f Hh Hv)).
  by rewrite (bind_ok _ _ _ _ _ (direct_write_run (set_pmm (Some a1) st) h f _ Hh ltac:(lia))).
Qed.

Lemma zeros_at m f x : f <= x < f + PAGE_SIZE -> store m f (replicate 4096 0) x = 0.
Proof.
  intros Hx. unfold store, zlen. rewrite length_replicate. unfold PAGE_SIZE in Hx.
  destruct (Z.leb_spec f x); [|lia]. destruct (Z.ltb_spec x (f + Z.of_nat 4096)); [|lia]. cbn [andb]. unfold rd.
  rewrite nth_lookup. destruct (replicate 4096 (0 : Z) !! Z.to_nat (x - f)) eqn:E; [|done].
  by apply lookup_replicate in E as [-> _].
Qed.

Lemma zeros_out m f x : f mod PAGE_SIZE = 0 -> store m f (replicate 4096 0) x = m x \/ containing x = f.
Proof.
  intros Hf. destruct (decide (f <= x < f + PAGE_SIZE)) as [Hx|Hx]; [right; by apply in_frame|left].
  apply store_out. unfold zlen. rewrite length_replicate. unfold PAGE_SIZE in Hx. lia.
Qed.

(** Mapping a frame that is nobody's. *)
Lemma as_ok_mapped h a m root f virt m' a' l :
  as_ok h a m root -> f mod PAGE_SIZE = 0 -> 0 <= f < total_pages a * PAGE_SIZE -> taken a f -> ~ table m h root f ->
  (forall v p, 0 <= v < LOW -> translate_addr m h root v = Some p -> containing p <> f) ->
  virt mod PAGE_SIZE = 0 -> allocs a l a' ->
  (forall v, 0 <= v < LOW -> translate_addr m' h root v =
     if containing v =? virt then Some (f + v mod PAGE_SIZE) else translate_addr m h root v) ->
  (forall g, table m' h root g -> table m h root g \/ g ∈ l) ->
  as_ok h a' m' root /\ ~ table m' h root f
  /\ (forall v p, 0 <= v < LOW -> translate_addr m h root v = Some p -> ~ table m' h root (containing p)).
Proof.
  intros Hok Hfa Hfr Hft Hfn Hfd Hva Hal Htr Htab. pose proof Hok as [Hwf Hsm Hd [Hr Hr0] Htk Hdata Hinj].
  destruct (allocs_spec a l a' Hwf Hal) as (Hwf' & Ht' & _ & Hmono & Hl).
  assert (forall g, taken a g -> ~ table m h root g -> ~ table m' h root g) as Hnot.
  { intros g Hg Hn Hg'. destruct (Htab g Hg') as [|Hin]; [done|]. by destruct (Hl g Hin) as (_ & _ & ? & _). }
  assert (forall v p, 0 <= v < LOW -> translate_addr m h root v = Some p -> ~ table m' h root (containing p)) as Hold.
  { intros v p Hv Hp. destruct (Hdata v p Hv Hp) as (_ & Hk & Hn). by apply Hnot. }
  assert (forall v, f <= f + v mod PAGE_SIZE < f + PAGE_SIZE) as Hoff
    by (intros v; pose proof (Z.mod_pos_bound v PAGE_SIZE ltac:(unfold PAGE_SIZE; lia)); lia).
  split_and!; [|by apply Hnot|done]. constructor; try done; rewrite ?Ht'.
  - done.
  - destruct Hd as (? & ? & Hd). split_and!; try done. by rewrite Ht'.
  - intros g Hg. destruct (Htab g Hg) as [Hg'|Hin]; [|by apply Hl].
    destruct (table_aligned m h root g Hr Hr0 Hg'). apply Hmono; [done|by apply Htk].
  - intros v p Hv. rewrite Htr by done. destruct (Z.eqb_spec (containing v) virt).
    + intros [= <-]. rewrite (in_frame f) by done. specialize (Hoff v). split_and!; [lia| |by apply Hmono; [lia|]|by apply Hnot].
      assert (total_pages a * PAGE_SIZE - f >= PAGE_SIZE); [|lia].
      unfold PAGE_SIZE in *. pose proof (Z.div_mod f 4096 ltac:(lia)). nia.
    + intros Hp. destruct (Hdata v p Hv Hp) as (Hpr & Hk & Hn). split_and!; try done; [lia..| |by eapply Hold].
      destruct (containing_spec p ltac:(lia)) as (_ & ? & _). apply Hmono; [lia|done].
  - intros v v' p p' Hv Hv'. rewrite !Htr by done.
    destruct (Z.eqb_spec (containing v) virt) as [->|], (Z.eqb_spec (containing v') virt) as [->|]; [done| | |by apply Hinj].
    + intros [= <-] Hp' Hc. rewrite (in_frame f) in Hc by done. exfalso. by apply (Hfd v' p' Hv' Hp').
    + intros Hp [= <-] Hc. rewrite (in_frame f (f + _)) in Hc by done. exfalso. by apply (Hfd v p Hv Hp).
Qed.

(** The frame at [f] filled, then mapped with the tables that takes. *)
Lemma mapped_confined h a a1 a' m m1 m' root f virt l :
  as_ok h a m root -> ~ taken a f -> f mod PAGE_SIZE = 0 -> pmm_step a a1 -> allocs a1 l a' ->
  (forall x, m1 x = m x \/ containing x = f) ->
  (forall g, owns m1 h root g <-> owns m h root g) -> (forall g, uses m1 h root g <-> uses m h root g) ->
  (forall v, 0 <= v < LOW -> translate_addr m' h root v =
     if containing v =? virt then Some (f + v mod PAGE_SIZE) else translate_addr m1 h root v) ->
  (forall g, table m' h root g -> table m1 h root g \/ g ∈ l) ->
  (forall g, lower_table m' h root g -> lower_table m1 h root g \/ g ∈ l) ->
  (forall x, m' x = m1 x \/ exists g, (lower_table m1 h root g \/ g ∈ l) /\ g <= x < g + PAGE_SIZE) ->
  confined h a m m' root.
Proof.
  intros Hok Hf Hfa (Hwf1 & _ & Hmono) Hal Hm1 How Huse Htr Htab Hlow Hmem.
  destruct (allocs_spec a1 l a' Hwf1 Hal) as (_ & _ & _ & _ & Hl).
  assert (forall g, g ∈ l -> g mod PAGE_SIZE = 0 /\ ~ taken a g) as Hnew.
  { intros g Hg. destruct (Hl g Hg) as (? & ? & Hn & _). split; [done|]. intros Ht. apply Hn, Hmono; [lia|done]. }
  assert (forall g, holds m' h root g -> holds m1 h root g \/ g = f) as Hhold.
  { intros g (v & p & Hv & Hp & Hc). rewrite Htr in Hp by done. destruct (containing v =? virt); [right|left; by exists v, p].
    injection Hp as <-. rewrite <- Hc. apply in_frame; [done|].
    pose proof (Z.mod_pos_bound v PAGE_SIZE ltac:(unfold PAGE_SIZE; lia)). lia. }
  split.
  - intros x. destruct (Hmem x) as [->|(g & Hg & Hx)].
    + destruct (Hm1 x) as [|E]; [by left|]. right. right. by rewrite E.
    + right. destruct Hg as [Hg|Hg].
      * left. destruct (uses_taken h a m root g Hok) as [Hg0 _]; [by apply Huse, owns_uses; left|].
        rewrite (in_frame g x); [by apply How; left| |done].
        apply (table_aligned m1 h root g); [apply Hok..|by apply lower_table_table].
      * right. destruct (Hnew g Hg). by rewrite (in_frame g x).
  - intros g [Hg|Hg].
    + destruct (Hlow g Hg) as [Hg'|Hg']; [left; apply How; by left|right; by apply Hnew].
    + destruct (Hhold g Hg) as [Hg'| ->]; [left; apply How; by right|by right].
  - intros g [Hg|Hg].
    + destruct (Htab g Hg) as [Hg'|Hg']; [left; apply Huse; by left|right; by apply Hnew].
    + destruct (Hhold g Hg) as [Hg'| ->]; [left; apply Huse; by right|by right].
Qed.

(** The bytes mapped afterwards. *)
Lemma mapped_bytes h a m m' root f virt V (l : list Z) :
  as_ok h a m root -> f mod PAGE_SIZE = 0 -> (forall x, f <= x < f + PAGE_SIZE -> m x = 0) -> ~ table m h root f ->
  taken a f -> (forall g, g ∈ l -> g mod PAGE_SIZE = 0 /\ ~ taken a g) ->
  (forall v, 0 <= v < LOW -> m <$> translate_addr m h root v = V v) ->
  (forall v, 0 <= v < LOW -> translate_addr m' h root v =
     if containing v =? virt then Some (f + v mod PAGE_SIZE) else translate_addr m h root v) ->
  (forall x, m' x = m x \/ exists g, (lower_table m h root g \/ g ∈ l) /\ g <= x < g + PAGE_SIZE) ->
  forall v, 0 <= v < LOW -> m' <$> translate_addr m' h root v = with_page V virt v.
Proof.
  intros Hok Hfa Hz Hnt Hft Hl HV Htr Hmem v Hv. pose proof (ao_root _ _ _ _ Hok) as [Hr Hr0].
  pose proof (Z.mod_pos_bound v PAGE_SIZE ltac:(unfold PAGE_SIZE; lia)).
  assert (forall g x, g mod PAGE_SIZE = 0 -> g <= x < g + PAGE_SIZE -> ~ table m h root g -> taken a g -> m' x = m x) as Hsame.
  { intros g x Hga Hx Hng Hgt. destruct (Hmem x) as [|(g' & [Hg'|Hg'] & Hx')]; [done|exfalso..].
    - apply lower_table_table in Hg'. destruct (table_aligned m h root g' Hr Hr0 Hg') as [Hga' _].
      apply Hng. by rewrite <- (in_frame g x Hga Hx), (in_frame g' x Hga' Hx').
    - destruct (Hl g' Hg') as [Hga' Hn]. apply Hn. by rewrite <- (in_frame g' x Hga' Hx'), (in_frame g x Hga Hx). }
  rewrite Htr by done. unfold with_page. destruct (Z.eqb_spec (containing v) virt) as [He|He].
  - cbn. f_equal. rewrite (Hsame f) by (done || lia). apply Hz. lia.
  - rewrite <- HV by done. destruct (translate_addr m h root v) as [p|] eqn:Hp; [|done]. cbn. f_equal.
    destruct (data_frame h a m root v p Hok Hv Hp) as (Hpr & Hpa & Hpe). destruct (ao_data _ _ _ _ Hok v p Hv Hp) as (_ & Hk & Hn).
    apply (Hsame (containing p)); done || lia.
Qed.

Lemma as_map_page_alloc_run n st root V virt fl :
  as_mem n st root V -> 4 <= n -> 0 <= virt < LOW -> virt mod PAGE_SIZE = 0 -> V virt = None -> Z.land fl PRESENT ≠ 0 ->
  exists f st', as_map_page_alloc (mkAS root) virt fl st = (Ok f, st') /\ as_mem (n - 4) st' root (with_page V virt).
Proof.
  intros (a & h & k & Hp & Hh & Hk & Hn & Hsp & Hok & HV)%as_mem_here Hn4 Hv Hva HVn Hfl.
  pose proof Hok as [Hwf Hsm (Hdh & Hdr & Hdp) [Hr Hr0] _ _ _]. destruct (pmm_has_page a Hwf ltac:(lia)) as (f & a1 & Ha).
  destruct (alloc_step a f a1 Hwf Ha) as (Hwf1 & Ht1 & Hf1 & Hfr & Hfa & Hfn & Hft & Hmono).
  set (m1 := store (ram st) f (replicate 4096 0)). assert (pmm_step a a1) as Hst by done.
  destruct (spaces_fresh h a a1 (ram st) m1 k _ f Hsp Hst Hfn) as (Hsp1 & _ & Hus); [intros x; by apply zeros_out|].
  destruct (Hus (root, V) ltac:(by left)) as (Hnu & How & Huse). cbn [fst] in *.
  pose proof Hsp1 as ((Hok1 & HV1 & _) & _ & _)%spaces_cons. cbn [fst snd] in *.
  assert (~ table m1 h root f) as Hnt by (intros Ht; apply Hnu, Huse; by left).
  assert (translate_addr m1 h root virt = None) as Hnone.
  { specialize (HV1 virt Hv). rewrite HVn in HV1. by destruct (translate_addr m1 h root virt). }
  destruct (map_to_ok m1 a1 h root virt f fl) as (m' & a' & l & Hmap & Hal & Hll & Htr & Htab & Hlow & Hmem); try done; try apply Hok1; [lia|].
  destruct (allocs_spec a1 l a' Hwf1 Hal) as (Hwf' & Ht' & Hfree & Hmono' & Hl).
  exists f, (set_pmm (Some a') (set_ram m' (set_ram m1 (set_pmm (Some a1) st)))). split.
  - unfold as_map_page_alloc.
    rewrite (bind_ok _ _ _ _ _ (alloc_zeroed_run _ st a h f a1 Hp Hh Ha ltac:(lia) (Hdp f Hfr))). fold m1.
    unfold as_map_page, map_in. cbn [pml4_phys].
    rewrite bind_assoc, (bind_ok _ _ _ _ _ (page_table_run (set_ram m1 (set_pmm (Some a1) st)) h root Hh Hdh Hdr)).
    rewrite bind_assoc, bind_get. cbn [ram v_pmm set_ram set_pmm].
    rewrite (containing_aligned virt), (containing_aligned f) by done. rewrite Hmap. by rewrite bind_put.
  - exists a', h, k. cbn [ram v_pmm HHDM_OFFSET KERNEL_PML4_PHYS set_ram set_pmm]. split_and!; try done; [unfold zlen in *; lia|].
    apply (spaces_update h a a' (ram st) m' k root V); [done| | | |].
    + split_and!; [done|lia|]. intros g Hg Hgt. by apply Hmono', Hmono.
    + apply (mapped_confined h a a1 a' (ram st) m1 m' root f virt l); try done. intros x. by apply zeros_out.
    + apply (as_ok_mapped h a1 m1 root f virt m' a' l Hok1 Hfa ltac:(lia) Hft Hnt); try done.
      intros v p Hv' Hp' Hc. apply Hnu, Huse. right. by exists v, p.
    + apply (mapped_bytes h a1 m1 m' root f virt V l); try done; [intros x; apply zeros_at|].
      intros g Hg. destruct (Hl g Hg) as (_ & ? & ? & _). done.
Qed.
End first.

(** *** A new address space *)
Lemma direct_ptr_add p h o : 0 <= p + o < 2 ^ 64 -> ((p +w64 h) + o) -w64 h = p + o.
Proof.
  intros Hp. unfold u64. rewrite Zminus_mod, Zplus_mod_idemp_l, <- Zminus_mod.
  replace (p + h + o - h) with (p + o) by lia. by apply Z.mod_small.
Qed.

Lemma copy_entries h k f l st m0 :
  HHDM_OFFSET st = Some h -> 0 <= k < 2 ^ 52 -> 0 <= f < 2 ^ 52 -> (k + PAGE_SIZE <= f \/ f + PAGE_SIZE <= k) ->
  (forall x, k + 2048 <= x < k + 4096 -> is_byte (m0 x)) -> 256 <= l <= 512 ->
  (forall x, ram st x = if (f + 2048 <=? x) && (x <? f + l * 8) then m0 (x - f + k) else m0 x) ->
  exists st', for_each (seqZ l (512 - l)) (fun i =>
      entry ← direct_read_u64 ((k +w64 h) + i * 8);
      direct_write ((f +w64 h) + i * 8) (to_le 8 entry)) st = (Ok tt, st')
    /\ (exists m, st' = set_ram m st)
    /\ forall x, ram st' x = if (f + 2048 <=? x) && (x <? f + 4096) then m0 (x - f + k) else m0 x.
Proof.
  intros Hh Hk Hf Hd Hb Hl. remember (Z.to_nat (512 - l)) as n eqn:Hn. revert l st Hh Hl Hn.
  induction n as [|n IH]; intros l st Hh Hl Hn Hm.
  - assert (l = 512) as -> by lia. exists st. split; [done|]. split; [exists (ram st); by destruct st|exact Hm].
  - rewrite seqZ_cons by lia. cbn [for_each].
    assert (load (ram st) (k + l * 8) 8 = load m0 (k + l * 8) 8) as Hload.
    { apply load_ext. intros x Hx. rewrite Hm. unfold PAGE_SIZE in Hd.
      destruct (Z.leb_spec (f + 2048) x), (Z.ltb_spec x (f + l * 8)); cbn [andb]; try done. lia. }
    assert (direct_read_u64 ((k +w64 h) + l * 8) st = (Ok (from_le (load m0 (k + l * 8) 8)), st)) as Hr.
    { unfold direct_read_u64, hhdm. rewrite bind_assoc, bind_get, Hh, bind_unwrap_some, bind_get, direct_ptr_add by lia.
      by rewrite Hload. }
    assert (to_le 8 (from_le (load m0 (k + l * 8) 8)) = load m0 (k + l * 8) 8) as Hle.
    { rewrite <- (to_from_le (load m0 (k + l * 8) 8)) at 2; [by rewrite length_load|].
      apply Forall_forall. intros x [y [-> Hy%elem_of_seqZ]]%list_elem_of_fmap. apply Hb. lia. }
    set (st1 := set_ram (store (ram st) (f + l * 8) (load m0 (k + l * 8) 8)) st).
    assert (direct_write ((f +w64 h) + l * 8) (load m0 (k + l * 8) 8) st = (Ok tt, st1)) as Hw.
    { unfold direct_write, hhdm. rewrite bind_assoc, bind_get, Hh, bind_unwrap_some, bind_get, direct_ptr_add by lia. done. }
    rewrite (bind_ok _ _ _ tt st1) by (rewrite (bind_ok _ _ _ _ _ Hr), Hle; exact Hw).
    replace (Z.pred (512 - l)) with (512 - Z.succ l) by lia.
    destruct (IH (Z.succ l) st1 Hh ltac:(lia) ltac:(lia)) as (st' & He & (m & ->) & Hm').
    + intros x. cbn [st1 ram set_ram]. unfold store. rewrite zlen_load by lia.
      destruct (Z.leb_spec (f + l * 8) x), (Z.ltb_spec x (f + l * 8 + 8)); cbn [andb].
      * destruct (Z.leb_spec (f + 2048) x); [|lia]. destruct (Z.ltb_spec x (f + Z.succ l * 8)); [|lia]. cbn [andb].
        unfold rd. rewrite (nth_lookup_Some _ _ _ _ (load_lookup m0 (k + l * 8) 8 (Z.to_nat (x - (f + l * 8))) ltac:(lia))).
        f_equal. lia.
      * rewrite Hm. destruct (Z.leb_spec (f + 2048) x); cbn [andb]; [|done].
        destruct (Z.ltb_spec x (f + l * 8)), (Z.ltb_spec x (f + Z.succ l * 8)); try lia; done.
      * rewrite Hm. destruct (Z.leb_spec (f + 2048) x); cbn [andb]; [|done].
        destruct (Z.ltb_spec x (f + l * 8)), (Z.ltb_spec x (f + Z.succ l * 8)); try lia; done.
      * lia.
    + exists (set_ram m st1). split; [exact He|]. split; [by exists m|exact Hm'].
Qed.

Lemma load_const m p n b : (forall x, p <= x < p + n -> m x = b) -> 0 <= n -> load m p n = replicate (Z.to_nat n) b.
Proof.
  intros H Hn. apply list_eq_same_length with (n := Z.to_nat n); [apply length_replicate|apply length_load|].
  intros i x y Hi Hx Hy. rewrite load_lookup in Hx by done. apply lookup_replicate in Hy as [-> _].
  injection Hx as <-. apply H. lia.
Qed.

(** The frame [f] once zeroed and given the upper half of the root at [k]. *)
Definition copied (m m2 : UMem) (k f : Z) : Prop :=
  forall x, m2 x = if (f + 2048 <=? x) && (x <? f + 4096) then m (x - f + k)
                   else if (f <=? x) && (x <? f + 2048) then 0 else m x.

Lemma copied_fresh h m m2 k f : (k + PAGE_SIZE <= f \/ f + PAGE_SIZE <= k) -> copied m m2 k f ->
  (forall v, 0 <= v < LOW -> translate_addr m2 h f v = None)
  /\ (forall g, table m2 h f g -> g = f \/ table m2 h k g) /\ (forall g, lower_table m2 h f g -> g = f).
Proof.
  intros Hap Hm2. unfold PAGE_SIZE in Hap. apply translate_fresh.
  - change 2048%nat with (Z.to_nat 2048). apply load_const; [|lia]. intros x Hx. rewrite Hm2.
    destruct (Z.leb_spec (f + 2048) x); [lia|]. destruct (Z.leb_spec f x), (Z.ltb_spec x (f + 2048)); [done|lia..].
  - apply list_eq_same_length with (n := 2048%nat); rewrite ?length_load; [done..|].
    intros i x y Hi Hx Hy. rewrite load_lookup in Hx, Hy by lia. rewrite Hm2 in Hx, Hy.
    assert (forall z, f + 2048 <= z < f + 4096 -> (f + 2048 <=? z) && (z <? f + 4096) = true) as Hin
      by (intros z Hz; destruct (Z.leb_spec (f + 2048) z), (Z.ltb_spec z (f + 4096)); done || lia).
    rewrite Hin in Hx by lia.
    destruct (Z.leb_spec (f + 2048) (k + 2048 + Z.of_nat i)), (Z.ltb_spec (k + 2048 + Z.of_nat i) (f + 4096)); try lia;
      destruct (Z.leb_spec f (k + 2048 + Z.of_nat i)), (Z.ltb_spec (k + 2048 + Z.of_nat i) (f + 2048)); try lia;
      cbn [andb] in Hy; injection Hx as <-; injection Hy as <-; f_equal; lia.
Qed.

Lemma copied_kernel h m m2 k f : k mod PAGE_SIZE = 0 -> 0 <= k -> f mod PAGE_SIZE = 0 -> ~ table m h k f ->
  copied m m2 k f -> forall g, table m2 h k g <-> table m h k g.
Proof.
  intros Hk Hk0 Hf Hn Hm2. refine (proj1 (proj2 _)). apply (translate_frame m m2 h k f Hk Hk0 Hf Hn).
  intros x Hx. rewrite Hm2. unfold PAGE_SIZE in Hx.
  destruct (Z.leb_spec (f + 2048) x), (Z.ltb_spec x (f + 4096)), (Z.leb_spec f x), (Z.ltb_spec x (f + 2048)); done || lia.
Qed.

(** The copy of the kernel's root, as a space that maps nothing. *)
Lemma copied_space h a a1 m m2 k f L :
  spaces_ok h a m k L -> pmm_step a a1 -> ~ taken a f -> taken a1 f -> f mod PAGE_SIZE = 0 -> 0 <= f < total_pages a * PAGE_SIZE ->
  copied m m2 k f -> spaces_ok h a1 m2 k ((f, fun _ => None) :: L).
Proof.
  intros Hsp Hst Hfn Hft Hfa Hfr Hc. pose proof Hst as (Hwf1 & Ht1 & Hmono).
  pose proof (ss_kernel _ _ _ _ _ Hsp) as [Hwf Hsm (Hdh & Hdk & Hdp) [Hka Hkr] Hktab Hkb].
  assert (k + PAGE_SIZE <= f \/ f + PAGE_SIZE <= k) as Hap.
  { apply frames_apart; [done..|]. intros ->. apply Hfn, Hktab, table_root. }
  destruct (copied_fresh h m m2 k f Hap Hc) as (Hnone & Htab & Hlow).
  destruct (spaces_fresh h a a1 m m2 k L f Hsp Hst Hfn) as (Hsp1 & Htk & Hus).
  { intros x. rewrite Hc. destruct (Z.leb_spec (f + 2048) x), (Z.ltb_spec x (f + 4096)), (Z.leb_spec f x),
      (Z.ltb_spec x (f + 2048)); cbn [andb]; try lia; try (by left); right; apply in_frame; done || (unfold PAGE_SIZE; lia). }
  assert (forall g, ~ holds m2 h f g) as Hnh by (intros g (v & p & Hv & Hp & _); by rewrite Hnone in Hp).
  assert (forall s g, s ∈ L -> uses m2 h s.1 g -> g <> f) as Huf by (intros s g Hs Hu ->; by apply (proj1 (Hus s Hs)), Hus).
  apply spaces_cons. cbn [fst snd]. split_and!; [split_and!|done|]; cbn [fst snd].
  - constructor; rewrite ?Ht1; [done|done| |lia| | |].
    + split_and!; [done|by apply Hdp|intros q; rewrite Ht1; apply Hdp].
    + intros g Hg. destruct (Htab g Hg) as [->|Hg'%Htk]; [done|].
      destruct (table_aligned m h k g Hka ltac:(lia) Hg'). apply Hmono; [done|by apply Hktab].
    + intros v p Hv Hbad. by rewrite Hnone in Hbad.
    + intros v v' p p' Hv _ Hbad. by rewrite Hnone in Hbad.
  - intros v Hv. by rewrite Hnone.
  - intros g [Hg%Hlow|Hg]; [|by destruct (Hnh g)]. subst g. rewrite Htk. intros Hg. by apply Hfn, Hktab.
  - intros s Hs. destruct (Hus s Hs) as (Hn & Ho & Hu). split; intros g Hg Hg'.
    + destruct Hg as [Hg%Hlow|Hg]; [|by destruct (Hnh g)]. by apply (Huf s g).
    + destruct Hg' as [Hg'|Hg']; [|by destruct (Hnh g)]. destruct (Htab g Hg') as [->|Hg''].
      * exact (Huf s f Hs (owns_uses _ _ _ _ Hg) eq_refl).
      * destruct (proj1 (Forall_forall _ _) (ss_each _ _ _ _ _ Hsp1) s Hs) as (_ & _ & Hnk). by apply (Hnk g).
Qed.

(** A new address space maps nothing in the lower half. *)
Lemma AddressSpace_new_copies n st L :
  spaces n st L -> 1 <= n ->
  exists root st' a, AddressSpace_new st = (Ok (mkAS root), st') /\ spaces (n - 1) st' ((root, fun _ => None) :: L)
    /\ v_pmm st = Some a /\ 0 <= root /\ ~ taken a root
    /\ root mod PAGE_SIZE = 0 /\ (v_cr3 st', HHDM_OFFSET st', KERNEL_PML4_PHYS st') = (v_cr3 st, HHDM_OFFSET st, KERNEL_PML4_PHYS st)
    /\ forall k, KERNEL_PML4_PHYS st = Some k -> copied (ram st) (ram st') k root.
Proof.
  intros (a & h & k & Hp & Hh & Hk & Hn & Hsp) Hn1.
  pose proof (ss_kernel _ _ _ _ _ Hsp) as [Hwf Hsm (Hdh & Hdk & Hdp) [Hka Hkr] Hktab Hkb].
  destruct (pmm_has_page a Hwf ltac:(lia)) as (f & a1 & Ha).
  destruct (alloc_step a f a1 Hwf Ha) as (Hwf1 & Ht1 & Hf1 & Hfr & Hfa & Hfn & Hft & Hmono).
  set (m1 := store (ram st) f (replicate 4096 0)). set (st0 := set_ram m1 (set_pmm (Some a1) st)).
  set (st1 := add_message (NewAddressSpace f k) st0).
  assert (k + PAGE_SIZE <= f \/ f + PAGE_SIZE <= k) as Hap.
  { apply frames_apart; [done..|]. intros ->. apply Hfn, Hktab, table_root. }
  assert (forall x, m1 x = if (f <=? x) && (x <? f + 4096) then 0 else ram st x) as Hm1.
  { intros x. destruct (Z.leb_spec f x), (Z.ltb_spec x (f + 4096)); cbn [andb]; [by apply zeros_at| | |];
      apply store_out; unfold zlen; rewrite length_replicate; lia. }
  assert (forall x, k <= x < k + 4096 -> m1 x = ram st x) as Hm1k.
  { intros x Hx. rewrite Hm1. unfold PAGE_SIZE in Hap.
    destruct (Z.leb_spec f x), (Z.ltb_spec x (f + 4096)); done || lia. }
  destruct (copy_entries h k f 256 st1 m1) as (st2 & Hcp & (m2 & ->) & Hm2);
    [exact Hh|lia|lia|done|intros x Hx; rewrite Hm1k by lia; by apply Hkb|lia| |].
  { intros x. cbn [st1 st0 ram set_ram add_message]. destruct (Z.leb_spec (f + 2048) x), (Z.ltb_spec x (f + 256 * 8)); done || lia. }
  assert (copied (ram st) m2 k f) as Hc.
  { intros x. cbn [ram set_ram] in Hm2. rewrite Hm2.
    destruct (Z.leb_spec (f + 2048) x), (Z.ltb_spec x (f + 4096)); cbn [andb]; [by apply Hm1k; lia|..]; rewrite Hm1;
      destruct (Z.leb_spec f x), (Z.ltb_spec x (f + 2048)), (Z.ltb_spec x (f + 4096)); done || lia. }
  exists f, (set_ram m2 st1), a. split; [|split; [|split; [done|split; [lia|split; [done|split; [done|split; [done|by intros k0 Hk0; assert (k0 = k) as -> by congruence]]]]]]].
  - unfold AddressSpace_new. rewrite (bind_ok _ _ _ _ _ (alloc_zeroed_run _ st a h f a1 Hp Hh Ha ltac:(lia) (Hdp f Hfr))).
    fold m1 st0. rewrite bind_get. cbn [st0 KERNEL_PML4_PHYS set_ram set_pmm]. rewrite Hk, bind_ok_or_some. fold st0.
    unfold info_message. rewrite bind_assoc, bind_get, bind_put. fold st1.
    rewrite (bind_ok _ _ _ _ _ (phys_to_virt_run st1 h k Hh Hdk)), (bind_ok _ _ _ _ _ (phys_to_virt_run st1 h f Hh (Hdp f Hfr))).
    by rewrite (bind_ok _ _ _ _ _ Hcp).
  - exists a1, h, k. cbn [ram set_ram]. split_and!; [done..|lia|]. by apply (copied_space h a a1 (ram st)).
Qed.

Lemma AddressSpace_new_run n st L :
  spaces n st L -> 1 <= n ->
  exists root st' a, AddressSpace_new st = (Ok (mkAS root), st') /\ spaces (n - 1) st' ((root, fun _ => None) :: L)
    /\ v_pmm st = Some a /\ 0 <= root /\ ~ taken a root.
Proof.
  intros Hs Hn. destruct (AddressSpace_new_copies n st L Hs Hn) as (root & st' & a & H1 & H2 & H3 & H4 & H5 & _).
  by exists root, st', a.
Qed.
End facts.
