(* ===== verification/Heap.v ===== *)
(** * Heap: the kernel heap

    [vcore/src/mem/heap.rs].  The allocator itself is [linked_list_allocator]; what
    [init] does with it is an argument here. *)
From Stdlib Require Import ZArith Lia.
From stdpp Require Import base numbers option list.
From S2P Require Import Prelude Memory Pmm Vmm.

Definition HEAP_START : Z := 0xFFFF808000000000.
Definition HEAP_SIZE : Z := 1024 * 1024.

Section heap.
Context {X : Paging} (allocator_init : Z -> Z -> M VmState rstr unit).

Definition heap_init : M VmState rstr unit :=
  let flags := Z.lor (Z.lor PRESENT WRITABLE) NO_EXECUTE in
  let heap_pages := (HEAP_SIZE + PAGE_SIZE - 1) / PAGE_SIZE in
  for_each (seqZ 0 heap_pages) (fun i =>
    addr ← VirtAddr_new (HEAP_START + i * PAGE_SIZE);
    _ ← map_page_alloc addr flags;
    mret tt) ;;
  allocator_init HEAP_START HEAP_SIZE.
End heap.

Definition heap_size : Z := HEAP_SIZE / 1024.
