(* ===== verification/KernelMap.v ===== *)
(** * KernelMap: the upper half of the address space

    Pages the kernel maps for itself: the heap ([mem/heap.rs]) and the two APICs
    ([cpu/apic.rs]).  [UpperLaws] is what the [x86_64] crate promises there.
    [kernel_space n st K]: the kernel runs on its own tables, [n] frames are free, and
    [K] is what the tables map in the upper half. *)
From Stdlib Require Import ZArith Lia.
From stdpp Require Import base numbers option list.
From S2P Require Import Prelude Memory Pmm Vmm VmmFacts Heap.

Definition HIGH : Z := 2 ^ 64 - 2 ^ 47.

Class UpperLaws `{PL : PagingLaws} := {
  VirtAddr_high v : HIGH <= v < 2 ^ 64 -> VirtAddr_valid v = true;
  map_to_high m a h root virt phys fl :
    pmm_wf a -> total_pages a * PAGE_SIZE <= 2 ^ 52 -> direct_ok h a root -> root mod PAGE_SIZE = 0 -> 0 <= root ->
    HIGH <= virt < 2 ^ 64 -> virt mod PAGE_SIZE = 0 -> phys mod PAGE_SIZE = 0 -> Z.land fl PRESENT ≠ 0 ->
    translate_addr m h root virt = None -> (forall f, table m h root f -> taken a f) -> 3 <= free_pages a ->
    exists m' a' l, map_to h root virt phys fl allocate_frame (m, Some a) = (Ok tt, (m', Some a'))
      /\ allocs a l a' /\ (length l <= 3)%nat
      /\ (forall v, HIGH <= v < 2 ^ 64 -> translate_addr m' h root v =
            if containing v =? virt then Some (phys + v mod PAGE_SIZE) else translate_addr m h root v)
      /\ (forall f, table m' h root f -> table m h root f \/ f ∈ l)
      /\ (forall x, m' x = m x \/ exists f, (table m h root f \/ f ∈ l) /\ f <= x < f + PAGE_SIZE)
      /\ (forall x, root + 2048 <= x < root + 4096 -> is_byte (m x) -> is_byte (m' x));
  (** The upper half of a root is all there is to the upper half of its space. *)
  translate_shared m h root kroot : load m (root + 2048) 2048 = load m (kroot + 2048) 2048 ->
    forall v, HIGH <= v < 2 ^ 64 -> translate_addr m h root v = translate_addr m h kroot v;
  (** A walk reads the tables only. *)
  translate_high_local m m' h root :
    (forall f x, table m h root f -> f <= x < f + PAGE_SIZE -> m' x = m x) ->
    forall v, HIGH <= v < 2 ^ 64 -> translate_addr m' h root v = translate_addr m h root v
}.

Section facts.
Context {X : Paging} {PL : PagingLaws} {UL : UpperLaws}.
Abbreviation VM := (M VmState rstr).

Definition kernel_space (n : Z) (st : VmState) (K : Z -> option Z) : Prop :=
  exists a h k, v_pmm st = Some a /\ HHDM_OFFSET st = Some h /\ KERNEL_PML4_PHYS st = Some k /\ containing (v_cr3 st) = k
    /\ n <= free_pages a /\ kernel_ok h a (ram st) k
    /\ forall v, HIGH <= v < 2 ^ 64 -> translate_addr (ram st) h k v = K v.

(** A frame that is in use, but not for a table. *)
Definition private (st : VmState) (f : Z) : Prop :=
  exists a h k, v_pmm st = Some a /\ HHDM_OFFSET st = Some h /\ KERNEL_PML4_PHYS st = Some k
    /\ 0 <= f /\ f mod PAGE_SIZE = 0 /\ taken a f /\ ~ table (ram st) h k f.

(** The frames in use keep what they hold. *)
Definition keeps (st st' : VmState) : Prop :=
  v_cr3 st' = v_cr3 st /\
  forall f, private st f -> private st' f /\ forall x, f <= x < f + PAGE_SIZE -> ram st' x = ram st x.

Lemma keeps_refl st : keeps st st.
Proof. done. Qed.

Lemma keeps_trans st1 st2 st3 : keeps st1 st2 -> keeps st2 st3 -> keeps st1 st3.
Proof.
  intros [C12 H12] [C23 H23]. split; [congruence|]. intros f Hf. destruct (H12 f Hf) as [Hf2 E2]. destruct (H23 f Hf2) as [Hf3 E3]. split; [done|].
  intros x Hx. by rewrite E3, E2.
Qed.

Definition mapped (K : Z -> option Z) (pg f v : Z) : option Z :=
  if containing v =? pg then Some (f + v mod PAGE_SIZE) else K v.

Lemma kernel_space_ext n st K K' : kernel_space n st K -> (forall v, HIGH <= v < 2 ^ 64 -> K v = K' v) -> kernel_space n st K'.
Proof.
  intros (a & h & k & Hp & Hh & Hk & Hc & Hn & Hok & HK) He. exists a, h, k. split_and!; try done. intros v Hv. by rewrite HK, He.
Qed.

Lemma kernel_space_le n n' st K : kernel_space n st K -> n' <= n -> kernel_space n' st K.
Proof. intros (a & h & k & Hp & Hh & Hk & Hc & Hn & H) Hle. exists a, h, k. split_and!; try apply H; try done. lia. Qed.

(** Before there is any program, the spaces are the kernel's. *)
Lemma kernel_space_spaces n st K : kernel_space n st K -> spaces n st [].
Proof.
  intros (a & h & k & Hp & Hh & Hk & _ & Hn & Hok & _). exists a, h, k. split_and!; try done.
Qed.

Lemma map_page_run n st K virt phys fl :
  kernel_space n st K -> 3 <= n -> HIGH <= virt < 2 ^ 64 -> virt mod PAGE_SIZE = 0 -> phys mod PAGE_SIZE = 0 ->
  Z.land fl PRESENT ≠ 0 -> K virt = None ->
  exists st', map_page virt phys fl st = (Ok tt, st') /\ kernel_space (n - 3) st' (mapped K virt phys) /\ keeps st st'.
Proof.
  intros (a & h & k & Hp & Hh & Hk & Hcr & Hn & Hok & HK) Hn3 Hv Hva Hpa Hfl HKv.
  pose proof Hok as [Hwf Hsm (Hdh & Hdk & Hdp) [Hka Hk0] Htk Hkb].
  destruct (map_to_high (ram st) a h k virt phys fl) as (m' & a' & l & Hmap & Hal & Hll & Htr & Htab & Hmem & Hby);
    try done; [lia|by rewrite HK|lia|].
  destruct (allocs_spec a l a' Hwf Hal) as (Hwf' & Ht' & Hfree & Hmono & Hl).
  exists (set_pmm (Some a') (set_ram m' st)). split_and!.
  - unfold map_page. rewrite bind_get, Hcr. unfold map_in.
    rewrite (bind_ok _ _ _ _ _ (page_table_run st h k Hh Hdh Hdk)), bind_get, Hp.
    rewrite (containing_aligned virt), (containing_aligned phys) by done. by rewrite Hmap.
  - exists a', h, k. cbn [v_pmm ram HHDM_OFFSET KERNEL_PML4_PHYS v_cr3 set_pmm set_ram]. split_and!; try done; [unfold zlen in *; lia| |].
    + constructor; rewrite ?Ht'; try done.
      * split_and!; [done..|]. by rewrite Ht'.
      * intros f Hf. destruct (Htab f Hf) as [Hf'|Hin]; [|by destruct (Hl f Hin) as (_ & _ & _ & ?)].
        apply Hmono; [by apply (table_aligned (ram st) h k f Hka ltac:(lia))|by apply Htk].
      * intros x Hx. by apply Hby, Hkb.
    + intros v Hv'. unfold mapped. by rewrite Htr, HK.
  - split; [done|]. intros f (a0 & h0 & k0 & Hp0 & Hh0 & Hk0' & Hf0 & Hfa & Hft & Hfn).
    replace a0 with a in * by congruence. replace h0 with h in * by congruence. replace k0 with k in * by congruence.
    assert (forall g, g ∈ l -> g <> f) as Hlf by (intros g Hg ->; by destruct (Hl f Hg) as (_ & _ & ? & _)).
    split.
    + exists a', h, k. cbn [v_pmm ram HHDM_OFFSET KERNEL_PML4_PHYS set_pmm set_ram]. split_and!; try done; [by apply Hmono|].
      intros Hf. destruct (Htab f Hf) as [|Hin]; [done|]. by apply (Hlf f).
    + intros x Hx. cbn [ram set_pmm set_ram]. destruct (Hmem x) as [|(g & Hg & Hgx)]; [done|]. exfalso.
      assert (g mod PAGE_SIZE = 0 /\ g <> f) as [Hga Hgf].
      { destruct Hg as [Hg|Hg]; [split; [by apply (table_aligned (ram st) h k g Hka ltac:(lia))|by intros ->]|].
        split; [by destruct (Hl g Hg) as (_ & ? & _)|by apply Hlf]. }
      destruct (frames_apart f g Hfa Hga); lia || done.
Qed.

(** A page of zeros from a frame that was free. *)
Lemma map_page_alloc_run n st K virt fl :
  kernel_space n st K -> 4 <= n -> HIGH <= virt < 2 ^ 64 -> virt mod PAGE_SIZE = 0 -> Z.land fl PRESENT ≠ 0 -> K virt = None ->
  exists f st', map_page_alloc virt fl st = (Ok f, st') /\ kernel_space (n - 4) st' (mapped K virt f) /\ keeps st st'
    /\ private st' f /\ ~ private st f /\ forall x, f <= x < f + PAGE_SIZE -> ram st' x = 0.
Proof.
  intros (a & h & k & Hp & Hh & Hk & Hcr & Hn & Hok & HK) Hn4 Hv Hva Hfl HKv.
  pose proof Hok as [Hwf Hsm (Hdh & Hdk & Hdp) [Hka Hk0] Htk Hkb].
  destruct (pmm_has_page a Hwf ltac:(lia)) as (f & a1 & Ha).
  destruct (alloc_step a f a1 Hwf Ha) as (Hwf1 & Ht1 & Hf1 & Hfr & Hfa & Hfn & Hft & Hmono).
  set (m1 := store (ram st) f (replicate 4096 0)). set (st1 := set_ram m1 (set_pmm (Some a1) st)).
  assert (pmm_step a a1) as Hst by done.
  assert (~ table (ram st) h k f) as Hnt by (intros Ht; by apply Hfn, Htk).
  assert (forall x, table (ram st) h k (containing x) -> m1 x = ram st x) as Hm1.
  { intros x Hx. destruct (zeros_out (ram st) f x Hfa) as [|Hc]; [done|]. by rewrite Hc in Hx. }
  destruct (kernel_kept h a a1 (ram st) m1 k Hok Hst Hm1) as [Hok1 Htb1].
  assert (kernel_space (n - 1) st1 K) as Hks.
  { exists a1, h, k. cbn [st1 v_pmm ram HHDM_OFFSET KERNEL_PML4_PHYS v_cr3 set_pmm set_ram]. split_and!; try done; [lia|].
    intros v Hv'. rewrite <- HK by done. apply translate_high_local; [|done]. intros g x Hg Hx. apply Hm1.
    rewrite (in_frame g x); [done|apply (table_aligned (ram st) h k g Hka ltac:(lia) Hg)|done]. }
  assert (private st1 f) as Hpf.
  { exists a1, h, k. cbn. split_and!; try done; [lia|]. by rewrite Htb1. }
  assert (keeps st st1) as Hkp.
  { split; [done|]. intros g (a0 & h0 & k0 & Hp0 & Hh0 & Hk0' & Hg0 & Hga & Hgt & Hgn).
    replace a0 with a in * by congruence. replace h0 with h in * by congruence. replace k0 with k in * by congruence.
    assert (g <> f) as Hgf by (by intros ->). split.
    - exists a1, h, k. cbn. split_and!; try done; [by apply Hmono|]. by rewrite Htb1.
    - intros x Hx. cbn. destruct (zeros_out (ram st) f x Hfa) as [|Hc]; [done|]. by rewrite (in_frame g x Hga Hx) in Hc. }
  destruct (map_page_run (n - 1) st1 K virt f fl Hks ltac:(lia) Hv Hva Hfa Hfl HKv) as (st' & Hrun & Hks' & Hkp').
  destruct (proj2 Hkp' f Hpf) as [Hpf' Hz]. exists f, st'. split_and!; [|by replace (n - 4) with (n - 1 - 3) by lia|by eapply keeps_trans|done| |].
  - unfold map_page_alloc. rewrite (bind_ok _ _ _ _ _ (alloc_zeroed_run _ st a h f a1 Hp Hh Ha ltac:(lia) (Hdp f Hfr))).
    fold m1 st1. by rewrite (bind_ok _ _ _ _ _ Hrun).
  - intros (a0 & h0 & k0 & Hp0 & _ & _ & _ & _ & Hbad & _). apply Hfn. by replace a with a0 by congruence.
  - intros x Hx. rewrite Hz by done. by apply zeros_at.
Qed.

(** ** The heap *)
Definition heap_pages : Z := (HEAP_SIZE + PAGE_SIZE - 1) / PAGE_SIZE.

Definition heap_flags : Z := Z.lor (Z.lor PRESENT WRITABLE) NO_EXECUTE.

Lemma heap_flags_present : Z.land heap_flags PRESENT ≠ 0.
Proof using PL.
  unfold heap_flags. rewrite !Z.land_lor_distr_l, Z.land_diag. intros [[H _]%Z.lor_eq_0_iff _]%Z.lor_eq_0_iff. by apply PRESENT_flag.
Qed.

(** [K] with the frames [fs] from page [i] of the heap on. *)
Fixpoint with_heap (K : Z -> option Z) (i : Z) (fs : list Z) : Z -> option Z :=
  match fs with
  | [] => K
  | f :: fs' => with_heap (mapped K (HEAP_START + i * PAGE_SIZE) f) (i + 1) fs'
  end.

(** Frames that are in use, all different and full of zeros. *)
Definition zero_frames (st : VmState) (fs : list Z) : Prop :=
  NoDup fs /\ forall f, f ∈ fs -> private st f /\ forall x, f <= x < f + PAGE_SIZE -> ram st x = 0.

Lemma heap_page_aligned i : 0 <= i < heap_pages ->
  (HEAP_START + i * PAGE_SIZE) mod PAGE_SIZE = 0 /\ HIGH <= HEAP_START + i * PAGE_SIZE < 2 ^ 64.
Proof.
  intros Hi. assert (heap_pages = 256) as Hh by done. rewrite Hh in Hi. unfold HEAP_START, PAGE_SIZE, HIGH. split; [|lia].
  rewrite Z.mod_add by lia. done.
Qed.

Lemma VirtAddr_new_high v st : HIGH <= v < 2 ^ 64 -> VirtAddr_new v st = (Ok v, st).
Proof. intros Hv. unfold VirtAddr_new. by rewrite VirtAddr_high. Qed.

Lemma heap_loop_run (c : nat) : forall i n st K,
  0 <= i -> i + Z.of_nat c <= heap_pages -> kernel_space n st K -> 4 * Z.of_nat c <= n ->
  (forall j, i <= j < i + Z.of_nat c -> K (HEAP_START + j * PAGE_SIZE) = None) ->
  exists fs st', for_each (seqZ i (Z.of_nat c)) (fun i =>
      addr ← VirtAddr_new (HEAP_START + i * PAGE_SIZE); _ ← map_page_alloc addr heap_flags; mret tt) st = (Ok tt, st')
    /\ length fs = c /\ kernel_space (n - 4 * Z.of_nat c) st' (with_heap K i fs) /\ keeps st st' /\ zero_frames st' fs
    /\ forall f, f ∈ fs -> ~ private st f.
Proof.
  induction c as [|c IH]; intros i n st K Hi Hc Hks Hn HK.
  { exists [], st. split_and!; [done|done|by replace (n - 4 * Z.of_nat 0) with n by lia|done| |by intros f ?%elem_of_nil].
    split; [by constructor|]. by intros f ?%elem_of_nil. }
  destruct (heap_page_aligned i ltac:(lia)) as [Hal Hhi].
  destruct (map_page_alloc_run n st K (HEAP_START + i * PAGE_SIZE) heap_flags Hks ltac:(lia) Hhi Hal heap_flags_present (HK i ltac:(lia)))
    as (f & st1 & Hrun & Hks1 & Hkp1 & Hpf & Hnf & Hz).
  destruct (IH (i + 1) (n - 4) st1 _ ltac:(lia) ltac:(lia) Hks1 ltac:(lia)) as (fs & st' & Hloop & Hlen & Hks' & Hkp' & [Hnd Hzf] & Hnew).
  { intros j Hj. unfold mapped. rewrite containing_aligned by (apply heap_page_aligned; lia).
    destruct (Z.eqb_spec (HEAP_START + j * PAGE_SIZE) (HEAP_START + i * PAGE_SIZE)); [unfold PAGE_SIZE in *; lia|]. apply HK. lia. }
  exists (f :: fs), st'. destruct (proj2 Hkp' f Hpf) as [Hpf' Hz'].
  assert (f ∉ fs) as Hnin by (intros Hin; by apply (Hnew f Hin)). split_and!.
  - rewrite seqZ_cons by lia. cbn [for_each]. rewrite bind_assoc, (bind_ok _ _ _ _ _ (VirtAddr_new_high _ st Hhi)).
    rewrite bind_assoc, (bind_ok _ _ _ _ _ Hrun), bind_ret.
    by replace (Z.pred (Z.of_nat (Datatypes.S c))) with (Z.of_nat c) by lia.
  - cbn. by rewrite Hlen.
  - cbn [with_heap]. by replace (n - 4 * Z.of_nat (Datatypes.S c)) with (n - 4 - 4 * Z.of_nat c) by lia.
  - by eapply keeps_trans.
  - split; [by constructor|]. intros g [->|Hg]%elem_of_cons; [split; [done|]; intros x Hx; rewrite Hz' by done; by apply Hz|by apply Hzf].
  - intros g [->|Hg]%elem_of_cons; [done|]. intros Hgp. apply (Hnew g Hg). by apply (proj2 Hkp1).
Qed.

Definition in_heap (v : Z) : bool := (HEAP_START <=? v) && (v <? HEAP_START + HEAP_SIZE).

(** The heap's pages, at the frames [fs] in order. *)
Definition heap_map (K : Z -> option Z) (fs : list Z) (v : Z) : option Z :=
  if in_heap v then (fun f => f + v mod PAGE_SIZE) <$> fs !! Z.to_nat ((v - HEAP_START) / PAGE_SIZE) else K v.

Lemma with_heap_at fs : forall K i v, 0 <= i -> i + zlen fs <= heap_pages -> 0 <= v ->
  with_heap K i fs v =
    if (HEAP_START + i * PAGE_SIZE <=? v) && (v <? HEAP_START + (i + zlen fs) * PAGE_SIZE)
    then (fun f => f + v mod PAGE_SIZE) <$> fs !! Z.to_nat ((v - HEAP_START) / PAGE_SIZE - i) else K v.
Proof.
  induction fs as [|f fs IH]; intros K i v Hi Hl Hv.
  { unfold zlen. cbn [length with_heap]. rewrite Z.add_0_r. destruct (Z.leb_spec (HEAP_START + i * PAGE_SIZE) v), (Z.ltb_spec v (HEAP_START + i * PAGE_SIZE)); done || lia. }
  assert (zlen (f :: fs) = zlen fs + 1) as Hz by (unfold zlen; cbn; lia). rewrite Hz in Hl |- *.
  assert (0 <= zlen fs) by (unfold zlen; lia). assert (heap_pages = 256) as Hhp by done.
  cbn [with_heap]. rewrite IH by lia. destruct (heap_page_aligned i ltac:(lia)) as [Hal Hhi].
  pose proof (containing_spec v Hv) as (Hcv & Hc0 & Hc1). unfold mapped.
  assert ((v - HEAP_START) / PAGE_SIZE = i <-> containing v = HEAP_START + i * PAGE_SIZE) as Hpage.
  { unfold containing, PAGE_SIZE, HEAP_START in *. split; intros E; Z.div_mod_to_equations; lia. }
  destruct (decide (containing v = HEAP_START + i * PAGE_SIZE)) as [Hc|Hc].
  - rewrite (proj2 (Z.eqb_eq _ _) Hc), (proj2 Hpage Hc).
    assert ((HEAP_START + (i + 1) * PAGE_SIZE <=? v) = false) as -> by (apply Z.leb_gt; unfold PAGE_SIZE in *; lia). cbn [andb].
    destruct (Z.leb_spec (HEAP_START + i * PAGE_SIZE) v); [|lia]. destruct (Z.ltb_spec v (HEAP_START + (i + (zlen fs + 1)) * PAGE_SIZE)); [|unfold PAGE_SIZE in *; lia].
    cbn [andb]. by rewrite Z.sub_diag.
  - rewrite (proj2 (Z.eqb_neq _ _) Hc). replace (i + 1 + zlen fs) with (i + (zlen fs + 1)) by lia.
    assert ((HEAP_START + (i + 1) * PAGE_SIZE <=? v) = (HEAP_START + i * PAGE_SIZE <=? v)) as ->.
    { destruct (Z.leb_spec (HEAP_START + (i + 1) * PAGE_SIZE) v), (Z.leb_spec (HEAP_START + i * PAGE_SIZE) v); try done; [unfold PAGE_SIZE in *; lia|].
      exfalso. apply Hc, Hpage. unfold PAGE_SIZE in *. symmetry. apply Z.div_unique with (r := v - HEAP_START - i * 4096); [left|]; lia. }
    destruct (Z.leb_spec (HEAP_START + i * PAGE_SIZE) v), (Z.ltb_spec v (HEAP_START + (i + (zlen fs + 1)) * PAGE_SIZE)); cbn [andb]; try done.
    assert (i + 1 <= (v - HEAP_START) / PAGE_SIZE) as Hge.
    { assert (i <= (v - HEAP_START) / PAGE_SIZE) by (apply Z.div_le_lower_bound; unfold PAGE_SIZE in *; lia).
      assert ((v - HEAP_START) / PAGE_SIZE <> i) by (by intros E%Hpage). lia. }
    replace (Z.to_nat ((v - HEAP_START) / PAGE_SIZE - i)) with (Datatypes.S (Z.to_nat ((v - HEAP_START) / PAGE_SIZE - (i + 1)))) by lia.
    done.
Qed.

Lemma heap_init_run (allocator_init : Z -> Z -> VM unit) n st K :
  kernel_space n st K -> 4 * heap_pages <= n -> (forall v, in_heap v = true -> K v = None) ->
  exists fs st', heap_init allocator_init st = allocator_init HEAP_START HEAP_SIZE st'
    /\ length fs = 256%nat /\ zero_frames st' fs /\ (forall f, f ∈ fs -> ~ private st f) /\ keeps st st'
    /\ kernel_space (n - 4 * heap_pages) st' (heap_map K fs).
Proof.
  intros Hks Hn HK. assert (heap_pages = 256) as Hhp by done.
  destruct (heap_loop_run 256 0 n st K ltac:(lia) ltac:(lia) Hks ltac:(lia)) as (fs & st' & Hrun & Hlen & Hks' & Hkp & Hz & Hnew).
  { intros j Hj. apply HK. unfold in_heap, HEAP_START, HEAP_SIZE, PAGE_SIZE.
    apply andb_true_iff. split; [apply Z.leb_le|apply Z.ltb_lt]; lia. }
  exists fs, st'. split_and!; try done.
  - unfold heap_init. fold heap_pages. fold heap_flags. rewrite Hhp. cbv zeta. by rewrite (bind_ok _ _ _ _ _ Hrun).
  - rewrite Hhp. eapply kernel_space_ext; [exact Hks'|]. intros v Hv. unfold HIGH in Hv.
    rewrite with_heap_at by (unfold zlen; lia). unfold heap_map, in_heap, zlen. rewrite Hlen, Z.sub_0_r.
    by replace (HEAP_START + (0 + Z.of_nat 256) * PAGE_SIZE) with (HEAP_START + HEAP_SIZE) by done.
Qed.

(** C15: [heap::init] gives the allocator 1 MiB of kernel memory: with 1024 frames free
    (256 pages, and up to three tables each), every page of the heap is mapped to a
    frame of its own that was free before and holds zeros, nothing else in the upper
    half changes its translation, and no frame in use loses a byte. *)
Theorem heap_init_maps (allocator_init : Z -> Z -> VM unit) n st K :
  kernel_space n st K -> 4 * heap_pages <= n -> (forall v, in_heap v = true -> K v = None) ->
  exists fs st', heap_init allocator_init st = allocator_init HEAP_START HEAP_SIZE st'
    /\ length fs = 256%nat /\ zero_frames st' fs /\ (forall f, f ∈ fs -> ~ private st f) /\ keeps st st'
    /\ kernel_space (n - 4 * heap_pages) st' (heap_map K fs).
Proof. apply heap_init_run. Qed.

(** C14: Every address space made later shares the kernel's upper half, the heap and the
    device registers with it, so the kernel's code runs unchanged on a program's
    tables; in the lower half the new space maps nothing; and the kernel's own map is
    the same as before. *)
Theorem new_space_shares n st K : kernel_space n st K -> 1 <= n ->
  exists root st' h, AddressSpace_new st = (Ok (mkAS root), st') /\ HHDM_OFFSET st' = Some h /\ kernel_space (n - 1) st' K
    /\ spaces (n - 1) st' [(root, fun _ => None)]
    /\ (forall v, HIGH <= v < 2 ^ 64 -> translate_addr (ram st') h root v = K v)
    /\ (forall v, 0 <= v < LOW -> translate_addr (ram st') h root v = None).
Proof.
  intros Hks Hn. pose proof Hks as (a & h & k & Hp & Hh & Hk & Hcr & Hfree & Hok & HK).
  destruct (AddressSpace_new_copies n st [] (kernel_space_spaces n st K Hks) Hn)
    as (root & st' & a0 & Hrun & Hsp & Hp0 & Hr0 & Hnt & Hra & [= Hcr' Hh' Hk'] & Hcopy).
  replace a0 with a in * by congruence. specialize (Hcopy k Hk).
  pose proof Hok as [Hwf Hsm (Hdh & Hdk & Hdp) [Hka Hk0] Htk Hkb].
  assert (~ table (ram st) h k root) as Hnr by (intros Ht; by apply Hnt, Htk).
  assert (k + PAGE_SIZE <= root \/ root + PAGE_SIZE <= k) as Hap by (apply frames_apart; [done..|]; intros ->; apply Hnr, table_root).
  assert (forall v, HIGH <= v < 2 ^ 64 -> translate_addr (ram st') h k v = K v) as HK'.
  { intros v Hv. rewrite <- HK by done. apply translate_high_local; [|done]. intros f x Hf Hx. rewrite Hcopy.
    destruct (table_aligned (ram st) h k f Hka ltac:(lia) Hf) as [Hfa _].
    assert (f + PAGE_SIZE <= root \/ root + PAGE_SIZE <= f) as Hfr by (apply frames_apart; [done..|]; by intros ->).
    unfold PAGE_SIZE in *.
    destruct (Z.leb_spec (root + 2048) x), (Z.ltb_spec x (root + 4096)), (Z.leb_spec root x), (Z.ltb_spec x (root + 2048)); cbn [andb]; done || lia. }
  exists root, st', h. split_and!; [exact Hrun|congruence| |exact Hsp| |].
  - destruct Hsp as (a' & h' & k' & Hpa & Hha & Hka' & Hna & Hspo). exists a', h', k'.
    replace h' with h in * by congruence. replace k' with k in * by congruence. split_and!; try done; [congruence|].
    apply (ss_kernel _ _ _ _ _ Hspo).
  - intros v Hv. rewrite <- HK' by done. apply translate_shared; [|done].
    apply list_eq_same_length with (n := 2048%nat); rewrite ?length_load; [done..|].
    intros i x y Hi Hx Hy. rewrite load_lookup in Hx, Hy by lia. rewrite Hcopy in Hx, Hy. unfold PAGE_SIZE in Hap.
    destruct (Z.leb_spec (root + 2048) (root + 2048 + Z.of_nat i)), (Z.ltb_spec (root + 2048 + Z.of_nat i) (root + 4096)); try lia.
    destruct (Z.leb_spec (root + 2048) (k + 2048 + Z.of_nat i)), (Z.ltb_spec (k + 2048 + Z.of_nat i) (root + 4096)),
      (Z.leb_spec root (k + 2048 + Z.of_nat i)), (Z.ltb_spec (k + 2048 + Z.of_nat i) (root + 2048)); cbn [andb] in *; try lia;
      injection Hx as <-; injection Hy as <-; f_equal; lia.
  - intros v Hv. by apply (copied_fresh h (ram st) (ram st') k root Hap Hcopy).
Qed.
End facts.
