(* ===== verification/VmmDemo.v ===== *)
(** * VmmDemo: a mapper that keeps the promises

    A [Paging] whose tables are cells that hold an encoding of the list of pages
    mapped: one at the root for the lower half, one for the upper half, in the frame
    the eight bytes at the middle of the root point to.  The laws of [PagingLaws] and
    [UpperLaws] are satisfiable, and the theorems about address spaces apply to it. *)
From Stdlib Require Import ZArith Lia.
From stdpp Require Import base numbers option list countable.
From S2P Require Import Prelude Memory Pmm Vmm VmmFacts Heap KernelMap.

Definition mappings (m : UMem) (root : Z) : list (Z * Z) :=
  match m root with
  | Zpos p => default [] (decode p)
  | _ => []
  end.

Fixpoint find_page (l : list (Z * Z)) (virt : Z) : option Z :=
  match l with
  | [] => None
  | (v, p) :: l' => if v =? virt then Some p else find_page l' virt
  end.

Definition cell_write (m : UMem) (root : Z) (l : list (Z * Z)) : UMem :=
  fun x => if x =? root then Zpos (encode l) else m x.

(** One more than the frame of the upper half's cell, or 0. *)
Definition upper_frame (m : UMem) (root : Z) : option Z :=
  let p := from_le (load m (root + 2048) 8) - 1 in
  if 0 <=? p then Some (containing p) else None.

Definition cell_of (m : UMem) (root virt : Z) : option Z :=
  if virt <? LOW then Some root else upper_frame m root.

Definition cell_translate (m : UMem) (hhdm root v : Z) : option Z :=
  c ← cell_of m root v; (fun p => containing p + v mod PAGE_SIZE) <$> find_page (mappings m c) (containing v).

Definition cell_map_to (hhdm root virt phys flags : Z) (allocate : M (option BitmapAllocator) Empty_set (option Z)) :
    M (UMem * option BitmapAllocator) unit unit := fun '(m, p) =>
  match cell_of m root virt with
  | Some c =>
      match find_page (mappings m c) virt with
      | Some _ => (Err tt, (m, p))
      | None => (Ok tt, (cell_write m c ((virt, phys) :: mappings m c), p))
      end
  | None =>
      match allocate p with
      | (Ok (Some f), p') => (Ok tt, (cell_write (store m (root + 2048) (to_le 8 (f + 1))) f [(virt, phys)], p'))
      | (Panic, p') => (Panic, (m, p'))
      | (Hang, p') => (Hang, (m, p'))
      | (_, p') => (Err tt, (m, p'))
      end
  end.

Definition cell_unmap (hhdm root virt : Z) : M UMem unit Z := fun m =>
  match cell_of m root virt with
  | Some c =>
      match find_page (mappings m c) virt with
      | Some p => (Ok p, cell_write m c (filter (fun x => x.1 ≠ virt) (mappings m c)))
      | None => (Err tt, m)
      end
  | None => (Err tt, m)
  end.

#[export] Instance cell_paging : Paging := {
  VirtAddr_valid v := (v <? 2 ^ 47) || (2 ^ 64 - 2 ^ 47 <=? v);
  PhysAddr_valid p := p <? 2 ^ 52;
  PRESENT := 1;
  WRITABLE := 2;
  USER_ACCESSIBLE := 4;
  NO_EXECUTE := 2 ^ 63;
  map_to := cell_map_to;
  unmap := cell_unmap;
  translate_addr := cell_translate
}.

Lemma mappings_write m root l : mappings (cell_write m root l) root = l.
Proof. unfold mappings, cell_write. by rewrite Z.eqb_refl, decode_encode. Qed.

Lemma mappings_ext m m' root : m' root = m root -> mappings m' root = mappings m root.
Proof. unfold mappings. by intros ->. Qed.

Lemma upper_frame_ext m m' root root' :
  (forall i, 0 <= i < 8 -> m' (root' + 2048 + i) = m (root + 2048 + i)) -> upper_frame m' root' = upper_frame m root.
Proof.
  intros Hm. unfold upper_frame. assert (load m' (root' + 2048) 8 = load m (root + 2048) 8) as ->; [|done].
  unfold load. apply list_fmap_ext. intros i x Hx. apply Hm. apply lookup_seqZ in Hx. lia.
Qed.

Lemma upper_frame_range m root f : upper_frame m root = Some f -> f mod PAGE_SIZE = 0 /\ 0 <= f.
Proof.
  unfold upper_frame. destruct (Z.leb_spec 0 (from_le (load m (root + 2048) 8) - 1)) as [Hp|]; [|done]. intros [= <-].
  destruct (containing_spec _ Hp) as (Hm & [Hn _] & _). by split.
Qed.

(** A cell written at a page boundary leaves the pointer in the middle of a root alone. *)
Lemma upper_frame_write m c l root : root mod PAGE_SIZE = 0 -> c mod PAGE_SIZE = 0 ->
  upper_frame (cell_write m c l) root = upper_frame m root.
Proof.
  intros Hr Hc. apply upper_frame_ext. intros i Hi. unfold cell_write. destruct (Z.eqb_spec (root + 2048 + i) c) as [<-|]; [|done].
  exfalso. unfold PAGE_SIZE in *. Z.div_mod_to_equations. lia.
Qed.

Lemma high_cell m root v : HIGH <= v -> cell_of m root v = upper_frame m root.
Proof. intros Hv. unfold cell_of. destruct (Z.ltb_spec v LOW); [unfold HIGH, LOW in *; lia|done]. Qed.

Lemma low_cell m root v : v < LOW -> cell_of m root v = Some root.
Proof. intros Hv. unfold cell_of. by destruct (Z.ltb_spec v LOW); [|lia]. Qed.

#[export, refine] Instance cell_laws : PagingLaws := {
  table m _ root f := f = root \/ upper_frame m root = Some f;
  lower_table _ _ root f := f = root
}.
Proof.
  - done.
  - intros v [_ Hv]. cbn. unfold LOW in Hv. by destruct (Z.ltb_spec v (2 ^ 47)); [|lia].
  - intros p [_ Hp]. cbn. by apply Z.ltb_lt.
  - by left.
  - by left.
  - intros m _ root f Hr Hr0 [->|Hf]; [done|by eapply upper_frame_range].
  - intros m h root v Hv. cbn. unfold cell_translate. destruct (containing_spec v ltac:(lia)) as (Hc & Hc0 & _).
    rewrite !low_cell by lia. cbn. rewrite (containing_aligned (containing v)) by done. rewrite Hc. destruct (find_page _ _); cbn; [|done].
    f_equal. lia.
  - intros m h root v p Hv. cbn. unfold cell_translate. destruct (cell_of m root v) as [c|]; [|done]. cbn.
    destruct (find_page _ _) as [q|]; [|done]. cbn. intros [= <-].
    rewrite Hv. unfold containing, PAGE_SIZE. rewrite Z.add_0_r. pose proof (Z.div_mod q 4096 ltac:(lia)).
    replace (q - q mod 4096) with (q / 4096 * 4096) by lia. apply Z.mod_mul. lia.
  - intros m m' h root Hm.
    assert (upper_frame m' root = upper_frame m root) as Hu
      by (apply upper_frame_ext; intros i Hi; apply (Hm root); [by left|unfold PAGE_SIZE; lia]).
    split; [|split; [intros f; by rewrite Hu|done]]. intros v. cbn. unfold cell_translate, cell_of. rewrite Hu.
    destruct (v <? LOW); [|destruct (upper_frame m root) as [c|] eqn:Hc; [|done]]; cbn.
    + rewrite (mappings_ext m m') by (apply (Hm root); [by left|unfold PAGE_SIZE; lia]). done.
    + rewrite (mappings_ext m m' c) by (apply (Hm c); [by right|unfold PAGE_SIZE; lia]). done.
  - intros m h root kroot Hz Hs. split; [|split; [|done]].
    + intros v Hv. cbn. unfold cell_translate, mappings. rewrite low_cell by lia. cbn.
      pose proof (load_lookup m root 2048 0 ltac:(lia)) as H1. rewrite Hz in H1. rewrite Z.add_0_r in H1. by injection H1 as <-.
    + intros f [->|Hf]; [by left|right; right]. rewrite <- Hf. apply upper_frame_ext. intros i Hi.
      pose proof (load_lookup m (root + 2048) 2048 (Z.to_nat i) ltac:(lia)) as H1.
      pose proof (load_lookup m (kroot + 2048) 2048 (Z.to_nat i) ltac:(lia)) as H2. rewrite Hs, H2, Z2Nat.id in H1 by lia. by injection H1.
  - intros m a h root virt phys fl Hwf Hsm Hd Hr Hr0 Hv Hva Hpa Hfl Hnone Htk Hpt Hnp Hfree.
    assert (find_page (mappings m root) virt = None) as Hn.
    { cbn in Hnone. unfold cell_translate in Hnone. rewrite low_cell in Hnone by lia. cbn in Hnone.
      rewrite containing_aligned in Hnone by done. by destruct (find_page _ _). }
    exists (cell_write m root ((virt, phys) :: mappings m root)), a, []. cbn. unfold cell_map_to. rewrite low_cell by lia. rewrite Hn. split_and!; try done.
    + constructor.
    + lia.
    + intros v Hv'. unfold cell_translate. rewrite !low_cell by lia. cbn. rewrite mappings_write. cbn [find_page].
      rewrite (Z.eqb_sym virt). destruct (containing v =? virt); [|done]. cbn. by rewrite (containing_aligned phys).
    + intros f. rewrite upper_frame_write by done. by left.
    + by left.
    + intros x. unfold cell_write. destruct (Z.eqb_spec x root) as [->|]; [right|by left].
      exists root. split; [by left|unfold PAGE_SIZE; lia].
Defined.

Lemma load_at m p n x : p <= x < p + n -> load m p n !! Z.to_nat (x - p) = Some (m x).
Proof. intros Hx. rewrite load_lookup by lia. do 2 f_equal. lia. Qed.

(** The pointer once it is stored, and a cell written elsewhere. *)
Lemma upper_frame_stored m root f l : root mod PAGE_SIZE = 0 -> f mod PAGE_SIZE = 0 -> 0 <= f < 2 ^ 52 ->
  upper_frame (cell_write (store m (root + 2048) (to_le 8 (f + 1))) f l) root = Some f.
Proof.
  intros Hr Hf Hf0. rewrite upper_frame_write by done. unfold upper_frame.
  assert (load (store m (root + 2048) (to_le 8 (f + 1))) (root + 2048) 8 = to_le 8 (f + 1)) as -> by apply (load_store m (root + 2048) (to_le 8 (f + 1))).
  rewrite from_to_le by lia. replace (f + 1 - 1) with f by lia.
  destruct (Z.leb_spec 0 f); [|lia]. by rewrite containing_aligned.
Qed.

#[export] Instance cell_upper_laws : UpperLaws.
Proof.
  split.
  - intros v [Hv _]. cbn. apply orb_true_iff. right. by apply Z.leb_le.
  - intros m a h root virt phys fl Hwf Hsm Hd Hr Hr0 Hv Hva Hpa Hfl Hnone Htk Hfree. cbn [map_to cell_paging]. unfold cell_map_to.
    cbn in Hnone. unfold cell_translate in Hnone. rewrite high_cell in * by lia.
    destruct (upper_frame m root) as [c|] eqn:Hu.
    + destruct (upper_frame_range m root c Hu) as [Hca Hc0]. cbn in Hnone. rewrite containing_aligned in Hnone by done.
      assert (find_page (mappings m c) virt = None) as Hn by by destruct (find_page _ _).
      exists (cell_write m c ((virt, phys) :: mappings m c)), a, []. rewrite Hn. split_and!; try done.
      * constructor.
      * cbn. lia.
      * intros v Hv'. cbn. unfold cell_translate. rewrite !high_cell, upper_frame_write, Hu by (done || lia). cbn.
        rewrite mappings_write. cbn [find_page]. rewrite (Z.eqb_sym virt). destruct (containing v =? virt); [|done]. cbn. by rewrite (containing_aligned phys).
      * intros f. cbn. rewrite upper_frame_write by done. by left.
      * intros x. unfold cell_write. destruct (Z.eqb_spec x c) as [->|]; [right|by left].
        exists c. split; [left; by right|unfold PAGE_SIZE; lia].
      * intros x Hx Hb. unfold cell_write. destruct (Z.eqb_spec x c) as [->|]; [|done].
        exfalso. unfold PAGE_SIZE in *. Z.div_mod_to_equations. lia.
    + destruct (pmm_has_page a Hwf ltac:(lia)) as (f & a1 & Ha).
      destruct (alloc_step a f a1 Hwf Ha) as (Hwf1 & Ht1 & Hf1 & Hfr & Hfa & Hfn & Hft & Hmono).
      assert (f <> root) as Hfne by (intros ->; apply Hfn, Htk; by left).
      assert (root + PAGE_SIZE <= f \/ f + PAGE_SIZE <= root) as Hap by (apply frames_apart; done).
      exists (cell_write (store m (root + 2048) (to_le 8 (f + 1))) f [(virt, phys)]), a1, [f].
      assert (allocate_frame (Some a) = (Ok (Some f), Some a1)) as Hal.
      { unfold allocate_frame, mbind, M_bind, pmm_alloc. rewrite Ha. cbn [PhysAddr_valid cell_paging].
        assert ((f <? 2 ^ 52) = true) as -> by (apply Z.ltb_lt; lia). cbn. by rewrite containing_aligned. }
      rewrite Hal. split_and!; try done.
      * by repeat econstructor.
      * cbn. lia.
      * intros v Hv'. cbn [translate_addr cell_paging]. unfold cell_translate. rewrite !high_cell, upper_frame_stored, Hu by (done || lia). cbn.
        rewrite mappings_write. cbn [find_page]. rewrite (Z.eqb_sym virt). destruct (containing v =? virt); [|done]. cbn. by rewrite (containing_aligned phys).
      * intros g. cbn [table cell_laws]. rewrite upper_frame_stored by (done || lia). intros [->|[= <-]]; [left; by left|right; by left].
      * intros x. unfold cell_write. destruct (Z.eqb_spec x f) as [->|].
        { right. exists f. split; [right; by left|unfold PAGE_SIZE; lia]. }
        destruct (decide (root + 2048 <= x < root + 2048 + 8)) as [Hx|Hx].
        { right. exists root. split; [left; by left|unfold PAGE_SIZE; lia]. }
        left. apply store_out. unfold zlen. rewrite length_to_le. lia.
      * intros x Hx Hb. unfold cell_write. destruct (Z.eqb_spec x f) as [->|]; [unfold PAGE_SIZE in *; lia|].
        unfold store. destruct ((root + 2048 <=? x) && (x <? root + 2048 + zlen (to_le 8 (f + 1)))) eqn:E; [|done].
        apply andb_true_iff in E as [E1%Z.leb_le E2%Z.ltb_lt]. unfold zlen in E2. rewrite length_to_le in E2.
        destruct (lookup_lt_is_Some_2 (to_le 8 (f + 1)) (Z.to_nat (x - (root + 2048)))) as [y Hy]; [rewrite length_to_le; lia|].
        unfold rd. rewrite (nth_lookup_Some _ _ _ _ Hy). eapply Forall_lookup_1; [apply to_le_bytes|exact Hy].
  - intros m h root kroot Hs v Hv. cbn. unfold cell_translate. rewrite !high_cell by lia.
    rewrite (upper_frame_ext m m kroot root); [done|]. intros i Hi.
    pose proof (load_at m (root + 2048) 2048 (root + 2048 + i) ltac:(lia)) as H1.
    pose proof (load_at m (kroot + 2048) 2048 (kroot + 2048 + i) ltac:(lia)) as H2.
    replace (root + 2048 + i - (root + 2048)) with (kroot + 2048 + i - (kroot + 2048)) in H1 by lia. rewrite Hs, H2 in H1. by injection H1.
  - intros m m' h root Hm v Hv. by apply (proj1 (translate_local m m' h root Hm)).
Qed.

(** ** A machine that has just initialised its tables: 2048 frames, two in use *)
Definition boot_pmm : BitmapAllocator := mkAllocator (3 :: replicate 255 0) 256 2048 2048 2046.
Definition boot_vm : VmState :=
  mkVm (fun _ => 0) (Some boot_pmm) (Some 0xFFFF800000000000) (Some 0x1000) 0x1000 [].

Lemma boot_pmm_wf : pmm_wf boot_pmm.
Proof. split; vm_compute; done. Qed.

Lemma boot_kernel_space : kernel_space 2046 boot_vm (fun _ => None).
Proof.
  exists boot_pmm, 0xFFFF800000000000, 0x1000. split_and!; try done.
  - split; [apply boot_pmm_wf|vm_compute; done| |split; [done|lia]| |].
    + split_and!; [done..|]. intros p Hp. unfold PAGE_SIZE in Hp. cbn in Hp |- *. rewrite u64_small by lia.
      apply orb_true_iff. right. apply Z.leb_le. lia.
    + intros f [->|Hf]; [right; reflexivity|by vm_compute in Hf].
    + intros x _. cbn. unfold is_byte. lia.
  - intros v Hv. cbn. unfold cell_translate. rewrite high_cell by lia. done.
Qed.

Lemma heap_init_maps_witness :
  exists fs st', heap_init (fun _ _ => mret tt) boot_vm = (Ok tt, st')
    /\ length fs = 256%nat /\ zero_frames st' fs /\ kernel_space 1022 st' (heap_map (fun _ => None) fs).
Proof.
  destruct (heap_init_maps (fun _ _ => mret tt) 2046 boot_vm (fun _ => None) boot_kernel_space)
    as (fs & st' & Hrun & Hlen & Hz & _ & _ & Hks); [vm_compute; congruence|done|].
  exists fs, st'. split; [exact Hrun|split; [exact Hlen|split; [exact Hz|exact Hks]]].
Defined.

Lemma new_space_shares_witness :
  exists root st' h, AddressSpace_new boot_vm = (Ok (mkAS root), st') /\ HHDM_OFFSET st' = Some h
    /\ (forall v, HIGH <= v < 2 ^ 64 -> translate_addr (ram st') h root v = None).
Proof.
  destruct (new_space_shares 2046 boot_vm (fun _ => None) boot_kernel_space) as (root & st' & h & Hrun & Hh & _ & _ & Hs & _); [lia|].
  exists root, st', h. split; [exact Hrun|split; [exact Hh|exact Hs]].
Defined.
