(* ===== verification/Elf.v ===== *)
(** * Elf: the program loader

    [vcore/src/elf.rs].  A header is read through a pointer cast: the bytes it takes
    must lie in the file, or the model panics (in the kernel: undefined behaviour).
    [load_into] loads into an address space, [load] into the current one; the two
    bodies are the same but for the calls that map and fill. *)
From Stdlib Require Import ZArith Lia.
From stdpp Require Import base numbers option list.
From S2P Require Import Prelude Memory Pmm Vmm.

Definition ELF_MAGIC : bytes := [0x7f; 69; 76; 70].

Record Elf64Header := mkEhdr {
  magic : bytes;
  class : Z;
  endian : Z;
  version : Z;
  os_abi : Z;
  elf_type : Z;
  machine : Z;
  version2 : Z;
  entry : Z;
  phoff : Z;
  shoff : Z;
  eh_flags : Z;
  ehsize : Z;
  phentsize : Z;
  phnum : Z;
  shentsize : Z;
  shnum : Z;
  shstrndx : Z
}.

Record Elf64ProgramHeader := mkPhdr {
  seg_type : Z;
  ph_flags : Z;
  offset : Z;
  vaddr : Z;
  paddr : Z;
  filesz : Z;
  memsz : Z;
  align : Z
}.

(** [size_of] of the two, and their layout ([repr(C)]). *)
Definition EHDR_SIZE : Z := 64.
Definition PHDR_SIZE : Z := 56.

Definition ehdr_at (d : bytes) : Elf64Header :=
  mkEhdr (take 4 d) (rd d 4) (rd d 5) (rd d 6) (rd d 7) (le_at 2 d 16) (le_at 2 d 18) (le_at 4 d 20)
    (le_at 8 d 24) (le_at 8 d 32) (le_at 8 d 40) (le_at 4 d 48) (le_at 2 d 52) (le_at 2 d 54) (le_at 2 d 56)
    (le_at 2 d 58) (le_at 2 d 60) (le_at 2 d 62).

Definition phdr_at (d : bytes) (s : nat) : Elf64ProgramHeader :=
  mkPhdr (le_at 4 d s) (le_at 4 d (s + 4)) (le_at 8 d (s + 8)) (le_at 8 d (s + 16)) (le_at 8 d (s + 24))
    (le_at 8 d (s + 32)) (le_at 8 d (s + 40)) (le_at 8 d (s + 48)).

Definition PT_LOAD : Z := 1.
Definition PF_X : Z := 1.
Definition PF_W : Z := 2.
Definition PF_R : Z := 4.

Record LoadedElf := mkLoaded { l_entry : Z }.

(** [addr & !0xFFF]. *)
Definition page_floor (a : Z) : Z := Z.land a (u64 (Z.lnot 0xFFF)).

Definition start_page (ph : Elf64ProgramHeader) : Z := page_floor (vaddr ph).
Definition end_page (ph : Elf64ProgramHeader) : Z := page_floor ((vaddr ph +w64 memsz ph) +w64 0xFFF).

(** The addresses [addr] takes in [while addr < end { ..; addr += 4096 }]. *)
Definition page_addrs (start end_ : Z) : list Z :=
  (fun i => start + 4096 * i) <$> seqZ 0 ((end_ - start + 4095) / 4096).

Section elf.
Context {X : Paging}.
Abbreviation VM := (M VmState rstr).

(** The checks on the file header. *)
Definition check_header (elf_data : bytes) : VM Elf64Header :=
  if zlen elf_data <? EHDR_SIZE then fail (lit "elf too small")
  else
    let header := ehdr_at elf_data in
    if decide (magic header ≠ ELF_MAGIC) then fail (lit "invalid elf magic")
    else if negb (class header =? 2) then fail (lit "not an elf64")
    else if negb (machine header =? 0x3E) then fail (lit "not an amd64 elf")
    else mret header.

Definition read_phdr (elf_data : bytes) (ph_start : Z) : VM Elf64ProgramHeader :=
  assert_or_panic (ph_start + PHDR_SIZE <=? zlen elf_data) ;; mret (phdr_at elf_data (Z.to_nat ph_start)).

Definition segment_flags (ph : Elf64ProgramHeader) : Z :=
  let flags := Z.lor (Z.lor PRESENT WRITABLE) USER_ACCESSIBLE in
  if Z.land (ph_flags ph) PF_X =? 0 then Z.lor flags NO_EXECUTE else flags.

(** What differs between the two loaders. *)
Section load.
Context (mapped : Z -> VM bool) (map_alloc : Z -> Z -> VM Z)
  (fill : bytes -> Elf64ProgramHeader -> VM unit).

Definition map_pages (flags : Z) (addrs : list Z) : VM unit :=
  for_each addrs (fun addr =>
    a ← VirtAddr_new addr;
    m ← mapped a;
    if negb m then a ← VirtAddr_new addr; _ ← map_alloc a flags; mret tt
    else mret tt).

Definition load_segment (elf_data : bytes) (ph : Elf64ProgramHeader) : VM unit :=
  map_pages (segment_flags ph) (page_addrs (start_page ph) (end_page ph)) ;;
  let file_end := offset ph +w64 filesz ph in
  if zlen elf_data <? file_end then fail (lit "segment data out of bounds")
  else fill elf_data ph.

Definition load_with (elf_data : bytes) : VM LoadedElf :=
  header ← check_header elf_data;
  for_each (seqZ 0 (phnum header)) (fun i =>
    let ph_start := phoff header +w64 (i *w64 phentsize header) in
    if zlen elf_data <? ph_start +w64 phentsize header then fail (lit "program header out of bounds")
    else
      ph ← read_phdr elf_data ph_start;
      if negb (seg_type ph =? PT_LOAD) then mret tt
      else load_segment elf_data ph) ;;
  mret (mkLoaded (entry header)).
End load.

(** [&elf_data[file_start..file_end]]. *)
Definition file_slice (elf_data : bytes) (ph : Elf64ProgramHeader) : VM bytes :=
  let file_end := offset ph +w64 filesz ph in
  assert_or_panic ((offset ph <=? file_end) && (file_end <=? zlen elf_data)) ;;
  mret (slice elf_data (Z.to_nat (offset ph)) (Z.to_nat file_end)).

Definition fill_into (a : AddressSpace) (elf_data : bytes) (ph : Elf64ProgramHeader) : VM unit :=
  (if 0 <? filesz ph then
     v ← VirtAddr_new (vaddr ph);
     data ← file_slice elf_data ph;
     as_write a v data
   else mret tt) ;;
  if filesz ph <? memsz ph then
    v ← VirtAddr_new (vaddr ph +w64 filesz ph);
    as_zero a v (memsz ph -w64 filesz ph)
  else mret tt.

Definition load_into (elf_data : bytes) (a : AddressSpace) : VM LoadedElf :=
  load_with (as_is_mapped a) (as_map_page_alloc a) (fill_into a) elf_data.

(** A store of the processor, through the current tables; an unmapped address is a
    page fault. *)
Definition cpu_store (virt : Z) (bs : bytes) : VM unit :=
  h ← hhdm;
  for_each (zip (seqZ 0 (zlen bs)) bs) (fun '(i, b) =>
    s ← get;
    p ← unwrap (translate_addr (ram s) h (containing (v_cr3 s)) (virt +w64 i));
    put (set_ram (store (ram s) p [b]) s)).

Definition fill_current (elf_data : bytes) (ph : Elf64ProgramHeader) : VM unit :=
  data ← file_slice elf_data ph;
  cpu_store (vaddr ph) data ;;
  if filesz ph <? memsz ph
  then cpu_store (vaddr ph +w64 filesz ph) (replicate (Z.to_nat (memsz ph -w64 filesz ph)) 0)
  else mret tt.

Definition load (elf_data : bytes) : VM LoadedElf :=
  load_with is_mapped map_page_alloc fill_current elf_data.
End elf.
