(* ===== verification/ElfFacts.v ===== *)
(** * ElfFacts: loading a program

    [load_into] on a well-formed file terminates with the segments in place: the bytes
    of the address space afterwards are those of [image]. *)
From Stdlib Require Import ZArith Lia.
From stdpp Require Import base numbers option list.
From S2P Require Import Prelude Memory Pmm Vmm VmmFacts Elf.

(** ** Pages of a segment *)
Lemma page_floor_containing a : 0 <= a < 2 ^ 64 -> page_floor a = containing a.
Proof.
  intros Ha. unfold page_floor, containing. change PAGE_SIZE with (2 ^ 12). rewrite <- Z.land_ones by lia.
  assert (u64 (Z.lnot 0xFFF) = Z.ldiff (Z.ones 64) (Z.ones 12)) as -> by reflexivity.
  rewrite Z.sub_nocarry_ldiff; apply Z.bits_inj'; intros n Hn; rewrite ?Z.bits_0, ?Z.land_spec, ?Z.ldiff_spec, ?Z.land_spec.
  - destruct (Z.lt_ge_cases n 64); [rewrite (Z.ones_spec_low 64) by lia|rewrite (Z.bits_above_log2 a)];
      [by destruct (Z.testbit a n), (Z.testbit (Z.ones 12) n)|done|lia|].
    destruct (decide (a = 0)) as [->|]; [simpl; lia|]. apply Z.log2_lt_pow2; [lia|].
    eapply Z.lt_le_trans; [apply Ha|]. apply Z.pow_le_mono_r; lia.
  - by destruct (Z.testbit a n), (Z.testbit (Z.ones 12) n).
Qed.

(** [V] with the unmapped pages between [lo] and [hi] zeroed. *)
Definition with_pages (V : Z -> option Z) (lo hi v : Z) : option Z :=
  match V v with
  | Some b => Some b
  | None => if (lo <=? v) && (v <? hi) then Some 0 else None
  end.

Record seg_ok (d : bytes) (ph : Elf64ProgramHeader) : Prop := {
  so_vaddr : 0 <= vaddr ph;
  so_sizes : 0 <= filesz ph <= memsz ph;
  so_low : vaddr ph + memsz ph <= LOW;
  so_offset : 0 <= offset ph;
  so_file : offset ph + filesz ph <= zlen d
}.

Definition seg_pages (ph : Elf64ProgramHeader) : Z := (end_page ph - start_page ph) / PAGE_SIZE.

(** What a segment makes of the address space: its pages, its bytes of the file, and
    zeros up to its size in memory. *)
Definition seg_image (d : bytes) (V : Z -> option Z) (ph : Elf64ProgramHeader) : Z -> option Z :=
  over (over (with_pages V (start_page ph) (end_page ph)) (vaddr ph)
          (slice d (Z.to_nat (offset ph)) (Z.to_nat (offset ph + filesz ph))))
    (vaddr ph + filesz ph) (replicate (Z.to_nat (memsz ph - filesz ph)) 0).

Lemma seg_range d ph : seg_ok d ph ->
  start_page ph mod PAGE_SIZE = 0 /\ end_page ph = start_page ph + PAGE_SIZE * seg_pages ph /\ 0 <= seg_pages ph
  /\ 0 <= start_page ph <= vaddr ph /\ vaddr ph + memsz ph <= end_page ph <= LOW.
Proof.
  intros [? ? ? ? ?]. unfold LOW in *. unfold start_page, end_page, seg_pages, end_page, start_page.
  rewrite (u64_small (vaddr ph + memsz ph)), (u64_small (_ + 0xFFF)) by lia. rewrite !page_floor_containing by lia.
  destruct (containing_spec (vaddr ph) ltac:(lia)) as (Hm1 & H1 & H2).
  destruct (containing_spec (vaddr ph + memsz ph + 0xFFF) ltac:(lia)) as (Hm2 & H3 & H4).
  set (lo := containing (vaddr ph)) in *. set (hi := containing (vaddr ph + memsz ph + 0xFFF)) in *.
  unfold PAGE_SIZE in *. pose proof (Z.div_mod lo 4096 ltac:(lia)). pose proof (Z.div_mod hi 4096 ltac:(lia)).
  assert (hi - lo = (hi / 4096 - lo / 4096) * 4096) as He by lia. rewrite He, Z.div_mul by lia.
  split_and!; lia.
Qed.

(** Away from a segment's range, what was mapped stays. *)
Lemma seg_image_out d V ph v b : seg_ok d ph -> ~ (vaddr ph <= v < vaddr ph + memsz ph) -> V v = Some b ->
  seg_image d V ph v = Some b.
Proof.
  intros [? ? ? ? ?] Hv Hb. unfold seg_image, over, zlen in *. rewrite length_replicate, length_slice by lia.
  destruct (Z.leb_spec (vaddr ph + filesz ph) v), (Z.ltb_spec v (vaddr ph + filesz ph + Z.of_nat (Z.to_nat (memsz ph - filesz ph))));
    cbn [andb]; try lia;
    (destruct (Z.leb_spec (vaddr ph) v), (Z.ltb_spec v (vaddr ph + Z.of_nat (Z.to_nat (offset ph + filesz ph) - Z.to_nat (offset ph))%nat));
     cbn [andb]; try lia; unfold with_pages; by rewrite Hb).
Qed.

(** In it, the bytes of the file and then zeros. *)
Lemma seg_image_in d V ph i : seg_ok d ph -> 0 <= i < memsz ph ->
  seg_image d V ph (vaddr ph + i) = Some (if i <? filesz ph then rd d (Z.to_nat (offset ph + i)) else 0).
Proof.
  intros [? ? ? ? ?] Hi. unfold seg_image, over, zlen in *. rewrite length_replicate, length_slice by lia.
  destruct (Z.ltb_spec i (filesz ph)).
  - destruct (Z.leb_spec (vaddr ph + filesz ph) (vaddr ph + i)); [lia|]. cbn [andb].
    destruct (Z.leb_spec (vaddr ph) (vaddr ph + i)); [|lia]. cbn [andb].
    destruct (Z.ltb_spec (vaddr ph + i) (vaddr ph + Z.of_nat (Z.to_nat (offset ph + filesz ph) - Z.to_nat (offset ph)))); [|lia].
    f_equal. unfold rd. rewrite !nth_lookup, slice_lookup, decide_True by lia. do 2 f_equal. lia.
  - destruct (Z.leb_spec (vaddr ph + filesz ph) (vaddr ph + i)); [|lia]. cbn [andb].
    destruct (Z.ltb_spec (vaddr ph + i) (vaddr ph + filesz ph + Z.of_nat (Z.to_nat (memsz ph - filesz ph)))); [|lia].
    f_equal. unfold rd. rewrite nth_lookup, lookup_replicate_2 by lia. done.
Qed.

Section load_facts.
Context {X : Paging} {PL : PagingLaws} {rest : list Space}.
Abbreviation as_mem n st root V := (spaces n st ((root, V) :: rest)).

Lemma segment_flags_present ph : Z.land (segment_flags ph) PRESENT ≠ 0.
Proof using PL.
  assert (forall a b, Z.land (Z.lor (Z.lor PRESENT a) b) PRESENT ≠ 0) as H.
  { intros a b. rewrite !Z.land_lor_distr_l, Z.land_diag. intros [[H _]%Z.lor_eq_0_iff _]%Z.lor_eq_0_iff. by apply PRESENT_flag. }
  unfold segment_flags. destruct (_ =? 0); [|apply H].
  rewrite Z.land_lor_distr_l. intros [H0 _]%Z.lor_eq_0_iff. by apply (H WRITABLE USER_ACCESSIBLE).
Qed.

(** One more page of the range, which may be mapped already. *)
Lemma with_pages_next V lo addr v : lo <= addr ->
  with_pages V lo (addr + PAGE_SIZE) v
  = if (addr <=? v) && (v <? addr + PAGE_SIZE)
    then match with_pages V lo addr v with Some b => Some b | None => Some 0 end
    else with_pages V lo addr v.
Proof.
  intros Hlo. unfold with_pages, PAGE_SIZE. destruct (V v); [by destruct (_ && _)|].
  destruct (Z.leb_spec lo v), (Z.ltb_spec v (addr + 4096)), (Z.leb_spec addr v), (Z.ltb_spec v addr); cbn [andb]; done || lia.
Qed.

Lemma map_one_run n st root V fl lo addr :
  Z.land fl PRESENT ≠ 0 -> 0 <= lo <= addr -> addr < LOW -> addr mod PAGE_SIZE = 0 -> 4 <= n ->
  as_mem n st root (with_pages V lo addr) ->
  exists st1, (a ← VirtAddr_new addr; m ← as_is_mapped (mkAS root) a;
      if negb m then a ← VirtAddr_new addr; _ ← as_map_page_alloc (mkAS root) a fl; mret tt else mret tt) st = (Ok tt, st1)
    /\ as_mem (n - 4) st1 root (with_pages V lo (addr + PAGE_SIZE)).
Proof.
  intros Hfl Hlo Hlow Haa Hn Has. set (Vj := with_pages V lo addr) in *.
  assert (VirtAddr_new addr st = (Ok addr, st)) as Hv by (unfold VirtAddr_new; by rewrite VirtAddr_low by lia).
  rewrite (bind_ok _ _ _ _ _ Hv), (bind_ok _ _ _ _ _ (is_mapped_run n st root Vj addr Has ltac:(lia))).
  assert (forall v, 0 <= v < LOW -> addr <= v < addr + PAGE_SIZE -> Vj v = None <-> Vj addr = None) as Hpg.
  { intros v Hv' Hin. rewrite <- (in_frame addr v Haa Hin). by eapply (as_mem_page n st root); [exact Has|]. }
  case_bool_decide as Hmap; cbn [negb].
  - exists st. split; [done|]. apply spaces_le with (n := n); [|lia]. eapply as_mem_ext; [exact Has|].
    intros v Hv'. rewrite with_pages_next by lia. fold Vj.
    destruct (Z.leb_spec addr v), (Z.ltb_spec v (addr + PAGE_SIZE)); cbn [andb]; try done.
    destruct (Vj v) eqn:HVv; [done|]. apply Hpg in HVv; [|done|lia]. rewrite HVv in Hmap. by apply is_Some_None in Hmap.
  - rewrite (bind_ok _ _ _ _ _ Hv). apply eq_None_not_Some in Hmap.
    destruct (as_map_page_alloc_run n st root Vj addr fl Has Hn ltac:(lia) Haa Hmap Hfl) as (f & st1 & Hm & Has1).
    exists st1. rewrite (bind_ok _ _ _ _ _ Hm). split; [done|]. eapply as_mem_ext; [exact Has1|].
    intros v Hv'. rewrite with_pages_next by lia. fold Vj. unfold with_page.
    destruct (containing_spec v ltac:(lia)) as (Hcm & ? & ?).
    destruct (Z.leb_spec addr v), (Z.ltb_spec v (addr + PAGE_SIZE)); cbn [andb];
      destruct (Z.eqb_spec (containing v) addr) as [He|He]; try done; try lia.
    + apply (Hpg v Hv') in Hmap; [|lia]. by rewrite Hmap.
    + exfalso. apply He, in_frame; [done|lia].
Qed.

Lemma map_pages_run root V fl lo : forall k n j st,
  Z.land fl PRESENT ≠ 0 -> lo mod PAGE_SIZE = 0 -> 0 <= lo -> 0 <= j -> lo + PAGE_SIZE * (j + Z.of_nat k) <= LOW ->
  4 * Z.of_nat k <= n -> as_mem n st root (with_pages V lo (lo + PAGE_SIZE * j)) ->
  exists st', map_pages (as_is_mapped (mkAS root)) (as_map_page_alloc (mkAS root)) fl
      ((fun i => lo + 4096 * i) <$> seqZ j (Z.of_nat k)) st = (Ok tt, st')
    /\ as_mem (n - 4 * Z.of_nat k) st' root (with_pages V lo (lo + PAGE_SIZE * (j + Z.of_nat k))).
Proof.
  induction k as [|k IH]; intros n j st Hfl Hlo Hlo0 Hj Hlow Hn Has.
  - exists st. split; [done|]. rewrite Z.add_0_r. eapply spaces_le; [exact Has|lia].
  - rewrite seqZ_cons by lia. rewrite fmap_cons. unfold map_pages. cbn [for_each].
    replace (Z.pred (Z.of_nat (S k))) with (Z.of_nat k) by lia. replace (j + Z.of_nat (S k)) with (Z.succ j + Z.of_nat k) in * by lia.
    assert ((lo + PAGE_SIZE * j) mod PAGE_SIZE = 0) as Haa.
    { rewrite Z.mul_comm, Z.mod_add by (unfold PAGE_SIZE; lia). done. }
    destruct (map_one_run n st root V fl lo (lo + PAGE_SIZE * j) Hfl) as (st1 & Hs & Has1); try done; [unfold PAGE_SIZE in *; lia..|].
    replace (lo + PAGE_SIZE * j + PAGE_SIZE) with (lo + PAGE_SIZE * Z.succ j) in Has1 by lia.
    destruct (IH (n - 4) (Z.succ j) st1 Hfl Hlo Hlo0 ltac:(lia) Hlow ltac:(lia) Has1) as (st' & Hr & Has').
    exists st'. rewrite (bind_ok _ _ _ _ _ Hs). split; [exact Hr|]. by replace (n - 4 * Z.of_nat (S k)) with (n - 4 - 4 * Z.of_nat k) by lia.
Qed.

(** ** A segment *)
Lemma file_slice_run d ph (st : VmState) : seg_ok d ph -> zlen d < 2 ^ 63 ->
  file_slice d ph st = (Ok (slice d (Z.to_nat (offset ph)) (Z.to_nat (offset ph + filesz ph))), st).
Proof.
  intros [? ? ? ? ?] Hd. unfold file_slice. rewrite (u64_small (offset ph + filesz ph)) by lia.
  destruct (Z.leb_spec (offset ph) (offset ph + filesz ph)); [|lia].
  destruct (Z.leb_spec (offset ph + filesz ph) (zlen d)); [|lia]. done.
Qed.

(** The bytes of the file, then zeros, in pages that are mapped. *)
Lemma fill_into_run n st root W d ph :
  as_mem n st root W -> seg_ok d ph -> zlen d < 2 ^ 63 ->
  (forall v, vaddr ph <= v < vaddr ph + memsz ph -> is_Some (W v)) ->
  exists st', fill_into (mkAS root) d ph st = (Ok tt, st')
    /\ as_mem n st' root (over (over W (vaddr ph) (slice d (Z.to_nat (offset ph)) (Z.to_nat (offset ph + filesz ph))))
                            (vaddr ph + filesz ph) (replicate (Z.to_nat (memsz ph - filesz ph)) 0)).
Proof.
  intros Has Hok Hd HW. pose proof Hok as [Hv0 Hsz Hlow Ho Hfile].
  assert (0 <= memsz ph < 2 ^ 63 /\ vaddr ph < 2 ^ 63) as [? ?] by (unfold LOW in *; lia).
  set (data := slice d (Z.to_nat (offset ph)) (Z.to_nat (offset ph + filesz ph))).
  assert (zlen data = filesz ph) as Hdl by (unfold data, zlen in *; rewrite length_slice; lia).
  assert (exists st2, (if 0 <? filesz ph then v ← VirtAddr_new (vaddr ph); data ← file_slice d ph; as_write (mkAS root) v data
      else mret tt) st = (Ok tt, st2) /\ as_mem n st2 root (over W (vaddr ph) data)) as (st2 & Hw & Has2).
  { destruct (Z.ltb_spec 0 (filesz ph)).
    - unfold VirtAddr_new. rewrite VirtAddr_low by lia. rewrite bind_assoc. cbn [assert_or_panic]. rewrite !bind_ret.
      rewrite (bind_ok _ _ _ _ _ (file_slice_run d ph st Hok Hd)). fold data.
      apply as_write_run; try done; [lia|]. intros v Hv. apply HW. lia.
    - exists st. split; [done|]. eapply as_mem_ext; [exact Has|]. intros v _.
      assert (data = []) as -> by (apply length_zero_iff_nil; unfold zlen in Hdl; lia). by rewrite over_nil. }
  unfold fill_into. rewrite (bind_ok _ _ _ _ _ Hw). destruct (Z.ltb_spec (filesz ph) (memsz ph)).
  - rewrite (u64_small (vaddr ph + _)), (u64_small (memsz ph - _)) by lia. unfold VirtAddr_new. rewrite VirtAddr_low by lia.
    rewrite bind_assoc. cbn [assert_or_panic]. rewrite !bind_ret.
    apply as_zero_run; try done; [lia..|]. intros v Hv. apply over_mapped, HW. lia.
  - exists st2. split; [done|]. eapply as_mem_ext; [exact Has2|]. intros v _.
    replace (memsz ph - filesz ph) with 0 by lia. by rewrite over_nil.
Qed.

Lemma load_segment_run n st root V d ph :
  as_mem n st root V -> seg_ok d ph -> zlen d < 2 ^ 63 -> 4 * seg_pages ph <= n ->
  exists st', load_segment (as_is_mapped (mkAS root)) (as_map_page_alloc (mkAS root)) (fill_into (mkAS root)) d ph st = (Ok tt, st')
    /\ as_mem (n - 4 * seg_pages ph) st' root (seg_image d V ph).
Proof.
  intros Has Hok Hd Hn. pose proof (seg_range d ph Hok) as (Hsa & Hep & Hsp & Hsv & Hend). pose proof Hok as [Hv0 Hsz Hlow Ho Hfile].
  destruct (map_pages_run root V (segment_flags ph) (start_page ph) (Z.to_nat (seg_pages ph)) n 0 st) as (st1 & Hm & Has1);
    try done; try lia; [apply segment_flags_present| |].
  { eapply as_mem_ext; [exact Has|]. intros v _. unfold with_pages. destruct (V v); [done|].
    destruct (Z.leb_spec (start_page ph) v), (Z.ltb_spec v (start_page ph + PAGE_SIZE * 0)); cbn [andb]; done || lia. }
  rewrite Z2Nat.id in Hm, Has1 by lia. rewrite Z.add_0_l, <- Hep in Has1.
  assert ((end_page ph - start_page ph + 4095) / 4096 = seg_pages ph) as Hcnt.
  { rewrite Hep. unfold PAGE_SIZE. replace (start_page ph + 4096 * seg_pages ph - start_page ph + 4095) with (4095 + seg_pages ph * 4096) by lia.
    rewrite Z.div_add by lia. reflexivity. }
  destruct (fill_into_run _ st1 root _ d ph Has1 Hok Hd) as (st2 & Hf & Has2).
  { intros v Hv. unfold with_pages. destruct (V v); [by eexists|].
    destruct (Z.leb_spec (start_page ph) v), (Z.ltb_spec v (end_page ph)); [by eexists|lia..]. }
  exists st2. split; [|exact Has2]. unfold load_segment, page_addrs. rewrite Hcnt, (bind_ok _ _ _ _ _ Hm).
  rewrite (u64_small (offset ph + filesz ph)) by (unfold LOW in *; lia). cbv zeta.
  destruct (Z.ltb_spec (zlen d) (offset ph + filesz ph)); [lia|done].
Qed.

(** ** A program *)
Definition phdrs (d : bytes) : list Elf64ProgramHeader :=
  let h := ehdr_at d in
  (fun i => phdr_at d (Z.to_nat (phoff h + i * phentsize h))) <$> seqZ 0 (phnum h).

Definition segments (d : bytes) : list Elf64ProgramHeader := filter (fun ph => seg_type ph = PT_LOAD) (phdrs d).

Definition total_seg_pages (phs : list Elf64ProgramHeader) : Z := foldr (fun ph n => seg_pages ph + n) 0 phs.

Lemma total_seg_pages_pos d phs : Forall (seg_ok d) phs -> 0 <= total_seg_pages phs.
Proof.
  intros Hs. induction Hs as [|q l Hq Hl IH]; simpl; [lia|]. pose proof (seg_range d q Hq) as (_ & _ & ? & _). lia.
Qed.

(** The segments laid over [V], in the order of their headers. *)
Definition image (d : bytes) (V : Z -> option Z) : Z -> option Z := foldl (seg_image d) V (segments d).

(** A byte of a segment that no later segment covers. *)
Lemma image_reads d V pre ph post i :
  segments d = pre ++ ph :: post -> Forall (seg_ok d) (segments d) -> 0 <= i < memsz ph ->
  Forall (fun q => ~ (vaddr q <= vaddr ph + i < vaddr q + memsz q)) post ->
  image d V (vaddr ph + i) = Some (if i <? filesz ph then rd d (Z.to_nat (offset ph + i)) else 0).
Proof.
  intros Hs Hok Hi Hpost. unfold image. rewrite Hs in *. apply Forall_app in Hok as [_ [Hph Hok]%Forall_cons].
  rewrite foldl_app. cbn [foldl]. pose proof (seg_image_in d (foldl (seg_image d) V pre) ph i Hph Hi) as Hin.
  revert Hin. generalize (seg_image d (foldl (seg_image d) V pre) ph) as W. clear Hs. induction post as [|q post IH]; intros W HW; [done|].
  apply Forall_cons in Hok as [Hq Hok]. apply Forall_cons in Hpost as [Hqv Hpost].
  cbn [foldl]. apply IH; [done..|]. by apply seg_image_out.
Qed.

Record elf_ok (d : bytes) : Prop := {
  eo_size : EHDR_SIZE <= zlen d < 2 ^ 63;
  eo_bytes : Forall is_byte d;
  eo_magic : magic (ehdr_at d) = ELF_MAGIC;
  eo_class : class (ehdr_at d) = 2;
  eo_machine : machine (ehdr_at d) = 0x3E;
  eo_phentsize : PHDR_SIZE <= phentsize (ehdr_at d);
  eo_phdrs : phoff (ehdr_at d) + phnum (ehdr_at d) * phentsize (ehdr_at d) <= zlen d;
  eo_segments : Forall (seg_ok d) (segments d)
}.

Lemma check_header_run d (st : VmState) : elf_ok d -> check_header d st = (Ok (ehdr_at d), st).
Proof.
  intros []. unfold check_header. destruct (Z.ltb_spec (zlen d) EHDR_SIZE); [lia|]. cbv zeta.
  rewrite decide_False by (intros Hn; by apply Hn). rewrite eo_class0, eo_machine0. done.
Qed.

Lemma load_segments_run root d phs : zlen d < 2 ^ 63 -> forall n st V,
  as_mem n st root V -> Forall (seg_ok d) (filter (fun ph => seg_type ph = PT_LOAD) phs) ->
  4 * total_seg_pages (filter (fun ph => seg_type ph = PT_LOAD) phs) <= n ->
  exists st', for_each phs (fun ph => if negb (seg_type ph =? PT_LOAD) then mret tt
      else load_segment (as_is_mapped (mkAS root)) (as_map_page_alloc (mkAS root)) (fill_into (mkAS root)) d ph) st = (Ok tt, st')
    /\ as_mem (n - 4 * total_seg_pages (filter (fun ph => seg_type ph = PT_LOAD) phs)) st' root
         (foldl (seg_image d) V (filter (fun ph => seg_type ph = PT_LOAD) phs)).
Proof.
  intros Hd. induction phs as [|ph phs IH]; intros n st V Has Hok Hn.
  { exists st. split; [done|]. eapply spaces_le; [exact Has|]. change (n - 4 * 0 <= n). lia. }
  cbn [for_each]. rewrite filter_cons in *. destruct (decide (seg_type ph = PT_LOAD)) as [Ht|Ht].
  - apply Forall_cons in Hok as [Hok Hoks]. pose proof (seg_range d ph Hok) as (_ & _ & Hsp & _).
    cbn [total_seg_pages foldr] in *. fold (total_seg_pages (filter (fun ph => seg_type ph = PT_LOAD) phs)) in *.
    pose proof (total_seg_pages_pos d _ Hoks).
    destruct (load_segment_run n st root V d ph Has Hok Hd ltac:(lia)) as (st1 & Hs & Has1).
    destruct (IH _ st1 _ Has1 Hoks ltac:(lia)) as (st2 & Hr & Has2).
    exists st2. rewrite Ht. cbn [Z.eqb]. change (PT_LOAD =? PT_LOAD) with true. cbn [negb]. rewrite (bind_ok _ _ _ _ _ Hs).
    split; [exact Hr|]. cbn [foldl]. eapply spaces_le; [exact Has2|lia].
  - destruct (IH n st V Has Hok Hn) as (st2 & Hr & Has2). exists st2.
    destruct (Z.eqb_spec (seg_type ph) PT_LOAD); [done|]. cbn [negb]. rewrite bind_ret. by split.
Qed.

(** The loop over the program headers, as the loop over the headers read. *)
Lemma phdr_loop d (body : Elf64ProgramHeader -> M VmState rstr unit) st : elf_ok d ->
  for_each (seqZ 0 (phnum (ehdr_at d))) (fun i =>
    let ph_start := phoff (ehdr_at d) +w64 (i *w64 phentsize (ehdr_at d)) in
    if zlen d <? ph_start +w64 phentsize (ehdr_at d) then fail (lit "program header out of bounds")
    else ph ← read_phdr d ph_start; body ph) st
  = for_each (phdrs d) body st.
Proof.
  intros []. unfold phdrs. cbv zeta. change (?f <$> ?l) with (map f l). rewrite for_each_fmap.
  assert (0 <= phoff (ehdr_at d)) as Hoff by (apply (le_at_range 8 d 32); [done|unfold EHDR_SIZE, zlen in *; lia]).
  apply for_each_ext. intros i s Hi%elem_of_seqZ. unfold PHDR_SIZE in *.
  assert (i * phentsize (ehdr_at d) + phentsize (ehdr_at d) <= phnum (ehdr_at d) * phentsize (ehdr_at d)) by nia.
  assert (0 <= i * phentsize (ehdr_at d)) by nia.
  rewrite (u64_small (i * _)), (u64_small (_ + i * _)), u64_small by lia.
  destruct (Z.ltb_spec (zlen d) (phoff (ehdr_at d) + i * phentsize (ehdr_at d) + phentsize (ehdr_at d))); [lia|].
  unfold read_phdr, PHDR_SIZE. destruct (Z.leb_spec (phoff (ehdr_at d) + i * phentsize (ehdr_at d) + 56) (zlen d)); [|lia].
  rewrite bind_assoc. cbn [assert_or_panic]. by rewrite !bind_ret.
Qed.

Lemma load_into_run n st root V d :
  as_mem n st root V -> elf_ok d -> 4 * total_seg_pages (segments d) <= n ->
  exists st', load_into d (mkAS root) st = (Ok (mkLoaded (entry (ehdr_at d))), st')
    /\ as_mem (n - 4 * total_seg_pages (segments d)) st' root (image d V).
Proof.
  intros Has Hok Hn. destruct (load_segments_run root d (phdrs d)) with n st V as (st' & Hr & Has');
    [apply Hok|done|apply Hok|done|].
  exists st'. split; [|done]. unfold load_into, load_with. rewrite (bind_ok _ _ _ _ _ (check_header_run d st Hok)).
  erewrite bind_ok; [reflexivity|]. rewrite phdr_loop by done. exact Hr.
Qed.

(** C8: Loading a well-formed program into one of the address spaces of memory, with
    four free frames for each of its pages, terminates without error and returns its
    entry point.  That space then holds in its lower half exactly the image the file
    describes: every [PT_LOAD] segment, in the order of the headers, has its pages
    mapped, its bytes of the file at its address and zeros up to its size in memory;
    the rest of it, every other address space and the kernel's tables are as they
    were, and no frame has two owners. *)
Theorem load_into_maps n st root V d :
  spaces n st ((root, V) :: rest) -> elf_ok d -> 4 * total_seg_pages (segments d) <= n ->
  exists st', load_into d (mkAS root) st = (Ok (mkLoaded (entry (ehdr_at d))), st')
    /\ spaces (n - 4 * total_seg_pages (segments d)) st' ((root, image d V) :: rest).
Proof. apply load_into_run. Qed.
End load_facts.
