(* ===== verification/Block.v ===== *)
(** * Block: block devices, partitions and the device file system

    [vcore/src/vfs/block/mod.rs].  The trait [BlockDevice] is a type class over
    the world [W] of disk contents and a type [D] of devices; what its clients
    (partitions, devfs, FAT32) rely on is the class [BlockDeviceLaws], which an
    in-memory disk satisfies and which [Partition] inherits from the device it
    wraps.  Error strings are [&'static str]s. *)
From Stdlib Require Import ZArith Lia.
From stdpp Require Import base numbers option list.
From S2P Require Import Prelude VfsTypes Path BTree.

Definition SECTOR_SIZE : Z := 512.

(** [read_sector] returns the caller's 512-byte buffer. *)
Class BlockDevice (W D : Type) := {
  bd_read_sector : D -> Z -> M W rstr bytes;
  bd_write_sector : D -> Z -> bytes -> M W rstr unit;
  bd_sector_count : D -> option Z
}.

Definition block_size : Z := SECTOR_SIZE.
Definition num_blocks {W D} `{BlockDevice W D} (d : D) : Z := default 0 (bd_sector_count d).

Definition is_u32 (z : Z) : Prop := 0 <= z < 2 ^ 32.

(** A device is an array of sectors, some of which may be absent: an access to
    one that is there succeeds, a write changes that sector only, and an access to
    an absent one is an error and changes nothing.  A sector holds bytes. *)
Class BlockDeviceLaws (W D : Type) `{BlockDevice W D} := {
  sectors : W -> D -> Z -> option bytes;
  sectors_length w d lba b : sectors w d lba = Some b -> length b = 512%nat;
  read_sector_ok w d lba b :
    is_u32 lba -> sectors w d lba = Some b -> bd_read_sector d lba w = (Ok b, w);
  read_sector_err w d lba :
    is_u32 lba -> sectors w d lba = None -> exists e, bd_read_sector d lba w = (Err e, w);
  write_sector_ok w d lba b data :
    is_u32 lba -> sectors w d lba = Some b -> length data = 512%nat -> Forall is_byte data ->
    exists w', bd_write_sector d lba data w = (Ok tt, w')
      /\ forall lba', is_u32 lba' ->
           sectors w' d lba' = if decide (lba' = lba) then Some data else sectors w d lba';
  write_sector_err w d lba data :
    is_u32 lba -> sectors w d lba = None -> length data = 512%nat -> Forall is_byte data -> exists e, bd_write_sector d lba data w = (Err e, w)
}.

(** ** Partitions *)
Record Partition (D : Type) := mkPartition { p_device : D; start_lba : Z; sector_count : Z }.
Arguments mkPartition {D}. Arguments p_device {D}. Arguments start_lba {D}. Arguments sector_count {D}.

Definition Partition_new {D} (device : D) (start_lba sector_count : Z) : Partition D :=
  mkPartition device start_lba sector_count.

Definition Partition_into_inner {D} (p : Partition D) : D := p_device p.

Section partition.
Context {W D : Type} `{BlockDevice W D}.

Definition partition_read_sector (p : Partition D) (lba : Z) : M W rstr bytes :=
  if sector_count p <=? lba then fail (lit "sector out of bounds")
  else bd_read_sector (p_device p) (start_lba p +w32 lba).

Definition partition_write_sector (p : Partition D) (lba : Z) (buf : bytes) : M W rstr unit :=
  if sector_count p <=? lba then fail (lit "sector out of bounds")
  else bd_write_sector (p_device p) (start_lba p +w32 lba) buf.

#[export] Instance Partition_device : BlockDevice W (Partition D) := {
  bd_read_sector := partition_read_sector;
  bd_write_sector := partition_write_sector;
  bd_sector_count p := Some (sector_count p)
}.
End partition.

(** ** The device file system *)
Definition trim_start_slash : rstr -> rstr :=
  fix trim (s : rstr) : rstr :=
    match s with c :: s' => if c =? slash then trim s' else s | [] => [] end.

Record BlockDeviceHandle := mkDevHandle { device_name : rstr; dev_position : Z }.

Section devfs.
Context {W D : Type} `{BlockDevice W D}.

(** The map behind [devices: Mutex<BTreeMap<..>>], with the disks it drives. *)
Abbreviation DevFs := (list (rstr * D)).
Abbreviation DM := (M (DevFs * W) VfsError).
Abbreviation HM := (M (BlockDeviceHandle * (DevFs * W)) VfsError).

Definition DevFs_new : DevFs := [].
Definition DevFs_default : DevFs := DevFs_new.

Definition register_device (name : rstr) (device : D) : DM unit :=
  '(devices, w) ← get; put (bt_insert name device devices, w).

Definition unregister_device (name : rstr) : DM (option D) :=
  '(devices, w) ← get;
  put (bt_remove name devices, w) ;;
  mret (bt_get name devices).

Definition dev_open (path : rstr) (_flags : OpenFlags.t) : DM BlockDeviceHandle :=
  let name := trim_start_slash path in
  if decide (name = []) then fail IsADirectory
  else
    '(devices, _) ← get;
    if negb (bt_contains_key name devices) then fail NotFound
    else mret (mkDevHandle name 0).

Definition dev_readdir (path : rstr) : DM (list DirEntry) :=
  if decide (trim_start_slash path ≠ []) then fail NotADirectory
  else
    '(devices, _) ← get;
    mret ((fun '(name, _) => {| de_name := name; de_file_type := Device |}) <$> devices).

Definition device_bytes (device : D) : Z := num_blocks device *w64 block_size.

Definition dev_metadata (path : rstr) : DM Metadata :=
  let name := trim_start_slash path in
  if decide (name = []) then mret {| md_file_type := Directory; md_size := 0 |}
  else
    '(devices, _) ← get;
    device ← ok_or NotFound (bt_get name devices);
    mret {| md_file_type := Device; md_size := device_bytes device |}.

#[export] Instance DevFs_filesystem : Filesystem (DevFs * W) unit BlockDeviceHandle := {
  fs_open _ := dev_open;
  fs_mkdir _ _ := fail PermissionDenied;
  fs_remove _ _ := fail PermissionDenied;
  fs_rmdir _ _ := fail PermissionDenied;
  fs_readdir _ := dev_readdir;
  fs_metadata _ := dev_metadata
}.

(** A call on the device, its error mapped to [IoError]. *)
Definition on_device {A} (m : M W rstr A) : HM A :=
  map_err (fun _ => IoError)
    (zoom (fun s : BlockDeviceHandle * (DevFs * W) => s.2.2) (fun w s => (s.1, (s.2.1, w))) m).

Definition advance (n : Z) : HM unit :=
  '(h, s) ← get; put (mkDevHandle (device_name h) (dev_position h +w64 n), s).

Definition dev_read (buf : bytes) : HM (Z * bytes) :=
  '(h, (devices, _)) ← get;
  device ← ok_or NotFound (bt_get (device_name h) devices);
  let block_num := u32 (dev_position h / block_size) in
  let block_offset := dev_position h mod block_size in
  sector ← on_device (bd_read_sector device block_num);
  let available := sat_sub SECTOR_SIZE block_offset in
  let to_read := Z.min (zlen buf) available in
  let off := Z.to_nat block_offset in
  advance to_read ;;
  mret (to_read, splice buf 0 (slice sector off (off + Z.to_nat to_read))).

Definition dev_write (buf : bytes) : HM Z :=
  '(h, (devices, _)) ← get;
  device ← ok_or NotFound (bt_get (device_name h) devices);
  let block_num := u32 (dev_position h / block_size) in
  let block_offset := dev_position h mod block_size in
  sector ← (if negb (block_offset =? 0) || (zlen buf <? SECTOR_SIZE)
            then on_device (bd_read_sector device block_num)
            else mret (replicate 512 0));
  let to_write := Z.min (zlen buf) (SECTOR_SIZE - block_offset) in
  let sector := splice sector (Z.to_nat block_offset) (take (Z.to_nat to_write) buf) in
  on_device (bd_write_sector device block_num sector) ;;
  advance to_write ;;
  mret to_write.

Definition dev_seek (pos : SeekFrom) : HM Z :=
  '(h, (devices, w)) ← get;
  new_pos ← match pos with
    | Start n => mret (i64 n)
    | Current n => mret (i64 (i64 (dev_position h) + n))
    | End_ n =>
        device ← ok_or NotFound (bt_get (device_name h) devices);
        mret (i64 (i64 (device_bytes device) + n))
    end;
  if new_pos <? 0 then fail InvalidPath
  else
    put (mkDevHandle (device_name h) (u64 new_pos), (devices, w)) ;;
    mret (u64 new_pos).

Definition dev_handle_metadata : HM Metadata :=
  '(h, (devices, _)) ← get;
  device ← ok_or NotFound (bt_get (device_name h) devices);
  mret {| md_file_type := Device; md_size := device_bytes device |}.

#[export] Instance BlockDeviceHandle_handle : FileHandle (DevFs * W) BlockDeviceHandle := {
  fh_read := dev_read;
  fh_write := dev_write;
  fh_seek := dev_seek;
  fh_metadata := dev_handle_metadata
}.
End devfs.

(** ** An in-memory disk *)
Definition RamDisk : Type := list bytes.

Definition ram_sector (w : RamDisk) (lba : Z) : option bytes :=
  b ← w !! Z.to_nat lba; if decide (length b = 512%nat) then Some b else None.

#[export] Instance RamDisk_device : BlockDevice RamDisk unit := {
  bd_read_sector _ lba w :=
    match ram_sector w lba with Some b => (Ok b, w) | None => (Err (lit "bad sector"), w) end;
  bd_write_sector _ lba data w :=
    match ram_sector w lba with
    | Some _ => (Ok tt, <[Z.to_nat lba := data]> w)
    | None => (Err (lit "bad sector"), w)
    end;
  bd_sector_count _ := None
}.

#[export] Instance RamDisk_laws : BlockDeviceLaws RamDisk unit.
Proof.
  refine (Build_BlockDeviceLaws _ _ _ (fun w _ lba => ram_sector w lba) _ _ _ _ _).
  - intros w _ lba b (x & _ & Hx)%bind_Some. by case_decide; simplify_eq.
  - intros w d lba b _ Hs. simpl. by rewrite Hs.
  - intros w d lba _ Hs. simpl. rewrite Hs. eauto.
  - intros w d lba b data Hl Hs Hd _. unfold bd_write_sector, RamDisk_device. rewrite Hs. eexists. split; [done|].
    intros lba' Hl'. unfold ram_sector in *. destruct (w !! Z.to_nat lba) as [x|] eqn:Hx; [|done].
    case_decide as Heq.
    + subst. rewrite (list_lookup_insert_eq (A:=bytes)) by by eapply lookup_lt_Some. simpl. by rewrite decide_True.
    + rewrite (list_lookup_insert_ne (A:=bytes)); [done|]. intros He. apply Z2Nat.inj in He; unfold is_u32 in *; lia.
  - intros w d lba data _ Hs. simpl. rewrite Hs. eauto.
Defined.

(** ** Partitions inherit the laws *)
Section partition_laws.
Context {W D : Type} `{BlockDeviceLaws W D}.

Lemma partition_lba_inj s a b : is_u32 a -> is_u32 b -> s +w32 a = s +w32 b -> a = b.
Proof. unfold is_u32, u32. intros Ha Hb He. Z.div_mod_to_equations. lia. Qed.

Definition partition_sectors (w : W) (p : Partition D) (lba : Z) : option bytes :=
  if sector_count p <=? lba then None else sectors w (p_device p) (start_lba p +w32 lba).

#[export] Instance Partition_laws : BlockDeviceLaws W (Partition D).
Proof.
  refine (Build_BlockDeviceLaws _ _ _ partition_sectors _ _ _ _ _).
  - intros w p lba b. unfold partition_sectors. case_bool; [done|]. apply sectors_length.
  - intros w p lba b Hl. unfold partition_sectors. simpl. unfold partition_read_sector.
    case_bool; [done|]. apply read_sector_ok. apply u32_range.
  - intros w p lba Hl. unfold partition_sectors. simpl. unfold partition_read_sector.
    case_bool; [eauto|]. apply read_sector_err. apply u32_range.
  - intros w p lba b data Hl. unfold partition_sectors. simpl. unfold partition_write_sector.
    destruct (Z.leb_spec (sector_count p) lba); [done|]. intros Hs Hd Hb.
    destruct (write_sector_ok w (p_device p) _ b data (u32_range _) Hs Hd Hb) as (w' & -> & Hw').
    exists w'. split; [done|]. intros lba' Hl'. destruct (Z.leb_spec (sector_count p) lba').
    + by rewrite decide_False by lia.
    + rewrite Hw' by apply u32_range. destruct (decide (lba' = lba)) as [->|Hne].
      * by rewrite decide_True.
      * rewrite decide_False; [done|]. intros He%partition_lba_inj; done.
  - intros w p lba data Hl. unfold partition_sectors. simpl. unfold partition_write_sector.
    case_bool; [eauto|]. apply write_sector_err. apply u32_range.
Defined.

(** C38: A partition is its window of the disk.  Sector [lba] of it is sector
    [start_lba + lba] of the device: reading it gives that sector and changes nothing,
    writing it replaces exactly that one, and where the device has none both are errors
    that change nothing.  A sector number at or beyond the partition's size is an error
    that touches nothing, and whatever else a read or write does, every sector of the
    disk outside [start_lba .. start_lba + sector_count) keeps its contents. *)
Theorem partition_isolation (p : Partition D) lba data w x :
  is_u32 lba -> length data = 512%nat -> Forall is_byte data -> is_u32 x ->
  (forall i, 0 <= i < sector_count p -> x ≠ start_lba p +w32 i) ->
  (sector_count p <= lba -> bd_read_sector p lba w = (Err (lit "sector out of bounds"), w)
                         /\ bd_write_sector p lba data w = (Err (lit "sector out of bounds"), w))
  /\ (bd_read_sector p lba w).2 = w
  /\ sectors (bd_write_sector p lba data w).2 (p_device p) x = sectors w (p_device p) x
  /\ (lba < sector_count p ->
      match sectors w (p_device p) (start_lba p +w32 lba) with
      | Some b => bd_read_sector p lba w = (Ok b, w)
          /\ exists w', bd_write_sector p lba data w = (Ok tt, w') /\ forall y, is_u32 y ->
               sectors w' (p_device p) y = if decide (y = start_lba p +w32 lba) then Some data else sectors w (p_device p) y
      | None => exists e e', bd_read_sector p lba w = (Err e, w) /\ bd_write_sector p lba data w = (Err e', w)
      end).
Proof.
  intros Hl Hd Hdb Hx Hout. simpl. unfold partition_read_sector, partition_write_sector.
  destruct (Z.leb_spec (sector_count p) lba) as [|Hlt]; [split_and!; done || lia|]. split; [lia|].
  pose proof (u32_range (start_lba p + lba)) as Hu.
  destruct (sectors w (p_device p) (start_lba p +w32 lba)) as [b|] eqn:Hs.
  - rewrite (read_sector_ok _ _ _ _ Hu Hs). split; [done|].
    destruct (write_sector_ok w (p_device p) _ b data Hu Hs Hd Hdb) as (w' & -> & Hw').
    cbn [snd]. split; [|intros _; split; [done|by exists w']].
    rewrite Hw' by done. rewrite decide_False; [done|]. apply Hout. unfold is_u32 in *. lia.
  - destruct (read_sector_err _ _ _ Hu Hs) as (e & ->). split; [done|].
    destruct (write_sector_err _ _ _ data Hu Hs Hd Hdb) as (e' & ->). split; [done|]. intros _. by exists e, e'.
Qed.
End partition_laws.

Definition demo_disk : RamDisk := replicate 4 (replicate 512 0) ++ [replicate 512 4; replicate 512 5].

(** Sectors 2, 3 and 4 of six. *)
Lemma partition_isolation_witness : let p := mkPartition tt 2 3 in
  sectors (bd_write_sector p 1 (replicate 512 7) demo_disk).2 tt 5 = Some (replicate 512 5)
  /\ sectors (bd_write_sector p 1 (replicate 512 7) demo_disk).2 tt 3 = Some (replicate 512 7)
  /\ bd_read_sector p 2 demo_disk = (Ok (replicate 512 4), demo_disk).
Proof.
  cbv zeta. assert (forall i, 0 <= i < 3 -> 5 ≠ 2 +w32 i) as Hout by (intros i Hi; rewrite u32_small by lia; lia).
  assert (Forall is_byte (replicate 512 7)) as Hb by (apply Forall_replicate; split; lia).
  destruct (partition_isolation (mkPartition tt 2 3) 1 (replicate 512 7) demo_disk 5
    ltac:(split; [lia|reflexivity]) ltac:(reflexivity) Hb ltac:(split; [lia|reflexivity]) Hout) as (_ & _ & H5 & Hin).
  destruct (partition_isolation (mkPartition tt 2 3) 2 (replicate 512 7) demo_disk 5
    ltac:(split; [lia|reflexivity]) ltac:(reflexivity) Hb ltac:(split; [lia|reflexivity]) Hout) as (_ & _ & _ & Hin2).
  split; [exact H5|]. split.
  - destruct (Hin ltac:(done)) as (_ & w' & Hw & Hs). rewrite Hw. specialize (Hs 3 ltac:(split; [lia|reflexivity])). rewrite decide_True in Hs by done. exact Hs.
  - exact (proj1 (Hin2 ltac:(done))).
Defined.

(** ** The device file as an array of bytes *)
Section dev_bytes.
Context {W D : Type} `{BlockDeviceLaws W D}.

Definition dev_byte (w : W) (d : D) (q : Z) : option Z :=
  b ← sectors w d (q / SECTOR_SIZE); b !! Z.to_nat (q mod SECTOR_SIZE).

(** Positions whose sector number fits the 32 bits the driver uses. *)
Definition addressable (q : Z) : Prop := 0 <= q < 2 ^ 32 * SECTOR_SIZE.

Lemma addressable_sector q : addressable q -> is_u32 (q / SECTOR_SIZE) /\ 0 <= q mod SECTOR_SIZE < SECTOR_SIZE.
Proof. unfold addressable, is_u32, SECTOR_SIZE. intros. Z.div_mod_to_equations. lia. Qed.

Lemma on_device_ok {A} (m : M W rstr A) h devs w a w' :
  m w = (Ok a, w') -> on_device m (h, (devs, w)) = (Ok a, ((h, (devs, w')) : BlockDeviceHandle * (list (rstr * D) * W))).
Proof. intros Hm. unfold on_device, map_err, zoom. cbn [fst snd]. by rewrite Hm. Qed.

Lemma on_device_err {A} (m : M W rstr A) h devs w e :
  m w = (Err e, w) -> on_device m (h, (devs, w)) = (Err IoError, ((h, (devs, w)) : BlockDeviceHandle * (list (rstr * D) * W))).
Proof. intros Hm. unfold on_device, map_err, zoom. cbn [fst snd]. by rewrite Hm. Qed.

(** How many bytes one call transfers: up to the end of the sector. *)
Definition transfer (position : Z) (buf : bytes) : Z :=
  Z.min (zlen buf) (SECTOR_SIZE - position mod SECTOR_SIZE).

Lemma transfer_bounds q buf : addressable q -> 0 <= transfer q buf <= SECTOR_SIZE - q mod SECTOR_SIZE.
Proof. intros Hq. unfold transfer, zlen. pose proof (proj2 (addressable_sector q Hq)). lia. Qed.

Lemma advance_run n h (s : list (rstr * D) * W) :
  0 <= dev_position h + n < 2 ^ 64 ->
  advance n (h, s) = (Ok tt, (mkDevHandle (device_name h) (dev_position h + n), s)).
Proof. intros Hn. unfold advance. rewrite bind_get. cbn beta iota. by rewrite u64_small. Qed.

Lemma dev_read_bytes h devs w d b buf :
  bt_get (device_name h) devs = Some d -> addressable (dev_position h) ->
  sectors w d (dev_position h / SECTOR_SIZE) = Some b ->
  exists buf', dev_read buf (h, (devs, w))
      = (Ok (transfer (dev_position h) buf, buf'),
         (mkDevHandle (device_name h) (dev_position h + transfer (dev_position h) buf), (devs, w)))
    /\ length buf' = length buf
    /\ forall i, (i < length buf)%nat -> buf' !! i =
         if decide (Z.of_nat i < transfer (dev_position h) buf)
         then dev_byte w d (dev_position h + Z.of_nat i) else buf !! i.
Proof.
  intros Hd Ha Hb. pose proof (addressable_sector _ Ha) as (Hu & Hoff).
  pose proof (transfer_bounds _ buf Ha) as Hn. pose proof (sectors_length _ _ _ _ Hb) as Hlb.
  unfold dev_read. rewrite bind_get. cbn beta iota. rewrite Hd, bind_ok_or_some.
  unfold block_size. rewrite (u32_small (dev_position h / SECTOR_SIZE)) by done.
  rewrite (bind_ok _ _ _ _ _ (on_device_ok _ h devs w _ _ (read_sector_ok _ _ _ _ Hu Hb))).
  unfold sat_sub. rewrite Z.max_r by lia. fold (transfer (dev_position h) buf).
  set (n := transfer (dev_position h) buf) in *.
  assert (n <= zlen buf) as Hnb by (subst n; unfold transfer; lia).
  rewrite (bind_ok _ _ _ _ _ (advance_run n h (devs, w) ltac:(unfold addressable, SECTOR_SIZE in *; lia))).
  unfold SECTOR_SIZE, zlen in *.
  set (off := Z.to_nat (dev_position h mod 512)) in *.
  assert (length (slice b off (off + Z.to_nat n)) = Z.to_nat n) as Hls by (rewrite length_slice by lia; lia).
  eexists. split; [reflexivity|]. rewrite length_splice by lia. split; [done|]. intros i Hi.
  case_decide as Hin.
  - rewrite splice_lookup_in by lia. unfold slice. rewrite Nat.sub_0_r, lookup_take_lt, lookup_drop by lia.
    unfold dev_byte, SECTOR_SIZE.
    replace ((dev_position h + Z.of_nat i) / 512) with (dev_position h / 512) by (Z.div_mod_to_equations; lia).
    rewrite Hb. simpl. f_equal. subst off. Z.div_mod_to_equations. lia.
  - by rewrite splice_lookup_out by lia.
Qed.

Lemma dev_write_bytes h devs w d b buf :
  bt_get (device_name h) devs = Some d -> addressable (dev_position h) ->
  sectors w d (dev_position h / SECTOR_SIZE) = Some b -> Forall is_byte b -> Forall is_byte buf ->
  exists w', dev_write buf (h, (devs, w))
      = (Ok (transfer (dev_position h) buf),
         (mkDevHandle (device_name h) (dev_position h + transfer (dev_position h) buf), (devs, w')))
    /\ forall q, addressable q -> dev_byte w' d q =
         if decide (dev_position h <= q < dev_position h + transfer (dev_position h) buf)
         then buf !! Z.to_nat (q - dev_position h) else dev_byte w d q.
Proof.
  intros Hd Ha Hb Hbb Hbuf. pose proof (addressable_sector _ Ha) as (Hu & Hoff).
  pose proof (transfer_bounds _ buf Ha) as Hn. pose proof (sectors_length _ _ _ _ Hb) as Hlb.
  unfold dev_write. rewrite bind_get. cbn beta iota. rewrite Hd, bind_ok_or_some.
  unfold block_size. rewrite (u32_small (dev_position h / SECTOR_SIZE)) by done.
  fold (transfer (dev_position h) buf). set (n := transfer (dev_position h) buf) in *.
  set (c := (negb _ || _)%bool).
  assert (exists sec, (if c then on_device (bd_read_sector d (dev_position h / SECTOR_SIZE)) else mret (replicate 512 0)) (h, (devs, w))
    = (Ok sec, (h, (devs, w))) /\ length sec = 512%nat /\ Forall is_byte sec /\ (sec = b \/ n = SECTOR_SIZE)) as (sec & Hr & Hls & Hsecb & Hcase).
  { destruct c eqn:Hc.
    - exists b. rewrite (on_device_ok _ h devs w _ _ (read_sector_ok _ _ _ _ Hu Hb)). auto.
    - exists (replicate 512 0). split; [done|]. split; [done|]. split; [apply Forall_replicate; split; lia|right].
      subst c n. zbool. unfold transfer. lia. }
  rewrite (bind_ok _ _ _ _ _ Hr). clear Hr.
  set (off := Z.to_nat (dev_position h mod SECTOR_SIZE)) in *.
  set (sec' := splice sec off (take (Z.to_nat n) buf)).
  assert (n <= zlen buf) as Hnb by (subst n; unfold transfer; lia).
  assert (Hlt : length (take (Z.to_nat n) buf) = Z.to_nat n) by (rewrite length_take; unfold zlen in *; lia).
  assert (length sec' = 512%nat) as Hls'
    by (subst sec'; rewrite length_splice; [done|rewrite Hlt; unfold SECTOR_SIZE in *; lia]).
  assert (Forall is_byte sec') as Hsb
    by (subst sec'; unfold splice; repeat (apply Forall_app; split); auto using Forall_take, Forall_drop).
  destruct (write_sector_ok w d _ b sec' Hu Hb Hls' Hsb) as (w' & Hw & Hw').
  rewrite (bind_ok _ _ _ _ _ (on_device_ok _ h devs w _ _ Hw)).
  rewrite (bind_ok _ _ _ _ _ (advance_run n h (devs, w') ltac:(unfold addressable, SECTOR_SIZE in *; lia))).
  exists w'. split; [done|]. intros q Hq. pose proof (addressable_sector _ Hq) as (Huq & Hoq).
  unfold dev_byte. rewrite Hw' by done.
  destruct (decide (q / SECTOR_SIZE = dev_position h / SECTOR_SIZE)) as [He|He].
  - rewrite He, Hb. simpl. unfold SECTOR_SIZE in *. case_decide as Hin.
    + subst sec'. rewrite splice_lookup_in by (rewrite ?Hlt; subst off; Z.div_mod_to_equations; lia).
      rewrite lookup_take_lt by (subst off; Z.div_mod_to_equations; lia).
      f_equal. subst off. Z.div_mod_to_equations. lia.
    + destruct Hcase as [->|Hfull]; [|exfalso; Z.div_mod_to_equations; lia].
      subst sec'. by rewrite splice_lookup_out by (rewrite ?Hlt; subst off; Z.div_mod_to_equations; lia).
  - rewrite decide_False; [done|]. unfold SECTOR_SIZE in *. Z.div_mod_to_equations. lia.
Qed.

(** A registered device, opened through devfs, behaves as a byte array under
    a cursor: a read or a write transfers bytes up to the end of the current
    sector, at the cursor, and advances it; a read returns exactly the device's
    bytes and changes nothing; a write replaces exactly those bytes, in a
    read-modify-write of one sector, and leaves every other byte alone. *)
Theorem dev_handle_bytes h devs w d b buf :
  bt_get (device_name h) devs = Some d -> addressable (dev_position h) ->
  sectors w d (dev_position h / SECTOR_SIZE) = Some b -> Forall is_byte b -> Forall is_byte buf ->
  let n := transfer (dev_position h) buf in
  let h' := mkDevHandle (device_name h) (dev_position h + n) in
  (exists buf', dev_read buf (h, (devs, w)) = (Ok (n, buf'), (h', (devs, w)))
    /\ length buf' = length buf
    /\ forall i, (i < length buf)%nat -> buf' !! i =
         if decide (Z.of_nat i < n) then dev_byte w d (dev_position h + Z.of_nat i) else buf !! i)
  /\ (exists w', dev_write buf (h, (devs, w)) = (Ok n, (h', (devs, w')))
    /\ forall q, addressable q -> dev_byte w' d q =
         if decide (dev_position h <= q < dev_position h + n)
         then buf !! Z.to_nat (q - dev_position h) else dev_byte w d q).
Proof. intros Hd Ha Hb Hbb Hbuf. split; [by eapply dev_read_bytes|by eapply dev_write_bytes]. Qed.
End dev_bytes.

Lemma dev_handle_bytes_witness :
  exists w', dev_write [1; 2; 3] (mkDevHandle (lit "ata0") 1022, ([(lit "ata0", tt)], demo_disk))
      = (Ok 2, (mkDevHandle (lit "ata0") 1024, ([(lit "ata0", tt)], w')))
    /\ dev_byte w' tt 1023 = Some 2 /\ dev_byte w' tt 1024 = Some 0.
Proof.
  destruct (proj2 (dev_handle_bytes (mkDevHandle (lit "ata0") 1022) [(lit "ata0", tt)] demo_disk tt
    (replicate 512 0) [1; 2; 3] ltac:(reflexivity) ltac:(split; [simpl; lia|reflexivity]) ltac:(vm_compute; reflexivity)
    ltac:(apply Forall_replicate; split; lia) ltac:(by_decide)))
    as (w' & Hr & Hq).
  exists w'. split; [exact Hr|]. split.
  - rewrite (Hq 1023 ltac:(split; [lia|reflexivity])). vm_compute. reflexivity.
  - rewrite (Hq 1024 ltac:(split; [lia|reflexivity])). vm_compute. reflexivity.
Defined.
