(* ===== verification/Ata.v ===== *)
(** * Ata: the disk driver

    [vcore/src/drivers/ata.rs] and [vcore/src/vfs/block/ata.rs]: programmed I/O on the
    primary channel, one sector at a time.  The drive itself is behind the ports of
    [Hw]; [AtaFacts.v] says what it is taken to do. *)
From Stdlib Require Import ZArith Lia.
From stdpp Require Import base numbers option list.
From S2P Require Import Prelude Hw Block.

Definition ATA_PRIMARY_DATA : Z := 0x1F0.
Definition ATA_PRIMARY_ERROR : Z := 0x1F1.
Definition ATA_PRIMARY_SECTOR_COUNT : Z := 0x1F2.
Definition ATA_PRIMARY_LBA_LOW : Z := 0x1F3.
Definition ATA_PRIMARY_LBA_MID : Z := 0x1F4.
Definition ATA_PRIMARY_LBA_HIGH : Z := 0x1F5.
Definition ATA_PRIMARY_DRIVE_SELECT : Z := 0x1F6.
Definition ATA_PRIMARY_COMMAND : Z := 0x1F7.
Definition ATA_PRIMARY_STATUS : Z := 0x1F7.

Definition ATA_CMD_READ_SECTORS : Z := 0x20.
Definition ATA_CMD_WRITE_SECTORS : Z := 0x30.
Definition ATA_CMD_IDENTIFY : Z := 0xEC.

Definition ATA_SR_BSY : Z := 0x80.
Definition ATA_SR_DRDY : Z := 0x40.
Definition ATA_SR_DRQ : Z := 0x08.
Definition ATA_SR_ERR : Z := 0x01.

(** The ports of a drive. *)
Record AtaDrive := mkAtaDrive {
  a_data : Z;
  a_error : Z;
  a_sector_count : Z;
  a_lba_low : Z;
  a_lba_mid : Z;
  a_lba_high : Z;
  a_drive_select : Z;
  a_command : Z;
  a_status : Z
}.

Definition AtaDrive_new : AtaDrive :=
  mkAtaDrive ATA_PRIMARY_DATA ATA_PRIMARY_ERROR ATA_PRIMARY_SECTOR_COUNT ATA_PRIMARY_LBA_LOW ATA_PRIMARY_LBA_MID
    ATA_PRIMARY_LBA_HIGH ATA_PRIMARY_DRIVE_SELECT ATA_PRIMARY_COMMAND ATA_PRIMARY_STATUS.

(** How often the status is polled. *)
Definition POLLS : Z := 1000000.

(** [0..1000000], whose counter is not used. *)
Definition polls : list nat := seq 0 (Z.to_nat POLLS).

Section driver.
Context {S : Type} `{Hw S}.
Abbreviation IO := (M S rstr).

Definition wait_ready (d : AtaDrive) : IO unit :=
  r ← for_find polls (fun _ =>
    status ← inb (a_status d);
    mret (if Z.land status ATA_SR_BSY =? 0 then Some tt else None));
  ok_or (lit "ATA timeout waiting for ready") r.

Definition wait_data (d : AtaDrive) : IO unit :=
  r ← for_find polls (fun _ =>
    status ← inb (a_status d);
    if negb (Z.land status ATA_SR_DRQ =? 0) then mret (Some tt)
    else if negb (Z.land status ATA_SR_ERR =? 0) then fail (lit "ATA error")
    else mret None);
  ok_or (lit "ATA timeout waiting for data") r.

(** The registers of a transfer, and its command. *)
Definition issue (d : AtaDrive) (select count low mid high command : Z) : IO unit :=
  outb (a_drive_select d) select ;;
  outb (a_sector_count d) count ;;
  outb (a_lba_low d) low ;;
  outb (a_lba_mid d) mid ;;
  outb (a_lba_high d) high ;;
  outb (a_command d) command.

Definition issue_lba (d : AtaDrive) (lba command : Z) : IO unit :=
  issue d (Z.lor 0xE0 (Z.land (Z.shiftr lba 24) 0x0F)) 1 (Z.land lba 0xFF) (Z.land (Z.shiftr lba 8) 0xFF)
    (Z.land (Z.shiftr lba 16) 0xFF) command.

(** The 256 words of a sector, into [buffer] and out of it. *)
Definition read_words (d : AtaDrive) (buffer : bytes) : IO bytes :=
  for_acc (seqZ 0 256) buffer (fun buffer i =>
    word ← inw (a_data d);
    mret (<[Z.to_nat (i * 2 + 1) := Z.shiftr word 8]> (<[Z.to_nat (i * 2) := Z.land word 0xFF]> buffer))).

Definition write_words (d : AtaDrive) (buffer : bytes) : IO unit :=
  for_each (seqZ 0 256) (fun i =>
    lo ← unwrap (buffer !! Z.to_nat (i * 2));
    hi ← unwrap (buffer !! Z.to_nat (i * 2 + 1));
    outw (a_data d) (Z.lor lo (Z.shiftl hi 8))).

Definition drive_read_sector (d : AtaDrive) (lba : Z) (buffer : bytes) : IO bytes :=
  wait_ready d ;;
  issue_lba d lba ATA_CMD_READ_SECTORS ;;
  wait_data d ;;
  read_words d buffer.

Definition drive_write_sector (d : AtaDrive) (lba : Z) (buffer : bytes) : IO unit :=
  wait_ready d ;;
  issue_lba d lba ATA_CMD_WRITE_SECTORS ;;
  wait_data d ;;
  write_words d buffer ;;
  wait_ready d.

Definition identify (d : AtaDrive) : IO (list Z) :=
  wait_ready d ;;
  issue d 0xA0 0 0 0 0 ATA_CMD_IDENTIFY ;;
  status ← inb (a_status d);
  if status =? 0 then fail (lit "no drive detected")
  else
    wait_data d ;;
    for_acc (seqZ 0 256) (replicate 256 0) (fun identify_data i =>
      w ← inw (a_data d); mret (<[Z.to_nat i := w]> identify_data)).

(** ** The static drive *)
Record AtaWorld := mkAtaWorld { ATA : option AtaDrive; aw_ports : S }.

Definition on_ports {A} (m : IO A) : M AtaWorld rstr A :=
  zoom aw_ports (fun s w => mkAtaWorld (ATA w) s) m.

Definition ata_init : M AtaWorld rstr unit :=
  let drive := AtaDrive_new in
  _ ← on_ports (identify drive);
  w ← get;
  put (mkAtaWorld (Some drive) (aw_ports w)).

Definition ata_read_sector (lba : Z) (buffer : bytes) : M AtaWorld rstr bytes :=
  w ← get;
  drive ← ok_or (lit "ATA not initialized") (ATA w);
  on_ports (drive_read_sector drive lba buffer).

Definition ata_write_sector (lba : Z) (buffer : bytes) : M AtaWorld rstr unit :=
  w ← get;
  drive ← ok_or (lit "ATA not initialized") (ATA w);
  on_ports (drive_write_sector drive lba buffer).

(** [AtaDisk], a unit struct: the block device that is the static drive. *)
#[export] Instance AtaDisk_device : BlockDevice AtaWorld unit := {
  bd_read_sector _ lba := ata_read_sector lba (replicate 512 0);
  bd_write_sector _ lba buf := ata_write_sector lba buf;
  bd_sector_count _ := None
}.
End driver.
Arguments AtaWorld : clear implicits.
