(* ===== verification/AtaFacts.v ===== *)
(** * AtaFacts: the disk behind the driver

    What an ATA drive promises ([AtaLaws]), seen from the ports: a controller that is
    busy for a while after a command, then asks for or offers the words of one sector,
    or reports an error.  What a drive may do and the driver does not expect is not
    assumed away: such a drive has gone [astray].  On any machine the driver returns;
    and unless the drive goes astray [AtaDisk] is an array of sectors, addressed modulo
    2^28 (the driver sends 28 bits of the address). *)
From Stdlib Require Import ZArith Lia.
From stdpp Require Import base numbers option list gmap.
From S2P Require Import Prelude Hw Block Ata.

(** ** Whatever the channel answers, the driver ends *)
Section ends.
Context {S : Type} `{Hw S} (R : S -> Prop).
Abbreviation IO := (M S rstr).

Definition ata_port (p : Z) : Prop := ATA_PRIMARY_DATA <= p <= ATA_PRIMARY_STATUS.

(** Accesses to the channel's ports stay in [R]. *)
Definition ata_closed : Prop := forall w p v s, ata_port p -> R s -> R (port_out w p v s) /\ R (port_in w p s).2.

Definition returned {E A} (o : outcome E A) : Prop := match o with Ok _ | Err _ => True | _ => False end.

(** [m] stays in [R]; and it returns or fails, if [strict]. *)
Definition ends (strict : bool) {A} (m : IO A) : Prop :=
  forall s, R s -> R (m s).2 /\ (strict = true -> returned (m s).1).

Context (strict : bool).

Lemma ends_bind {A B} (m : IO A) (k : A -> IO B) : ends strict m -> (forall a, ends strict (k a)) -> ends strict (m ≫= k).
Proof.
  intros Hm Hk s Hs. unfold mbind, M_bind. destruct (Hm s Hs) as [Hs' Ho]. destruct (m s) as [[a|e| |] s']; cbn [fst snd] in *; try done.
  by apply Hk.
Qed.

Lemma ends_ret {A} (a : A) : ends strict (mret a).
Proof. by intros s Hs. Qed.

Lemma ends_fail {A} (e : rstr) : ends strict (fail e : IO A).
Proof. by intros s Hs. Qed.

Lemma ends_ok_or {A} e (o : option A) : ends strict (ok_or e o).
Proof. destruct o; [apply ends_ret|apply ends_fail]. Qed.

Lemma ends_unwrap {A} (o : option A) : (strict = true -> is_Some o) -> ends strict (unwrap o : IO A).
Proof. intros Ho s Hs. destruct o; [done|]. split; [done|]. intros Ht. by destruct (Ho Ht). Qed.

Lemma ends_for_find {A B} (l : list A) (body : A -> IO (option B)) : (forall x, ends strict (body x)) -> ends strict (for_find l body).
Proof.
  intros Hb. induction l as [|x l IH]; [apply ends_ret|]. apply ends_bind; [apply Hb|]. intros [v|]; [apply ends_ret|exact IH].
Qed.

Lemma ends_for_acc {A B} (l : list A) (body : B -> A -> IO B) : (forall b x, ends strict (body b x)) -> forall b, ends strict (for_acc l b body).
Proof.
  intros Hb. induction l as [|x l IH]; intros b; [apply ends_ret|]. apply ends_bind; [apply Hb|]. exact IH.
Qed.

Lemma ends_for_each {A} (l : list A) (body : A -> IO unit) : (forall x, x ∈ l -> ends strict (body x)) -> ends strict (for_each l body).
Proof.
  induction l as [|x l IH]; intros Hb; [apply ends_ret|]. apply ends_bind; [apply Hb; left|]. intros _. apply IH. intros y Hy. apply Hb. by right.
Qed.

Context (HR : ata_closed).

Lemma ends_inb p : ata_port p -> ends strict (inb p).
Proof. intros Hp s Hs. destruct (HR 8 p 0 s Hp Hs) as [_ Hi]. unfold inb. by destruct (port_in 8 p s). Qed.

Lemma ends_inw p : ata_port p -> ends strict (inw p).
Proof. intros Hp s Hs. destruct (HR 16 p 0 s Hp Hs) as [_ Hi]. unfold inw. by destruct (port_in 16 p s). Qed.

Lemma ends_outb p v : ata_port p -> ends strict (outb p v).
Proof. intros Hp s Hs. split; [by apply HR|done]. Qed.

Lemma ends_outw p v : ata_port p -> ends strict (outw p v).
Proof. intros Hp s Hs. split; [by apply HR|done]. Qed.

End ends.

(** Follow a driver, access by access, on ports that are closed. *)
Ltac ends_walk := cbn beta zeta;
  first
    [ lazymatch goal with
      | |- ends _ _ (mbind _ _) => apply ends_bind; [ends_walk|intros; ends_walk]
      | |- ends _ _ (for_find _ _) => apply ends_for_find; intros; ends_walk
      | |- ends _ _ (for_acc _ _ _) => apply ends_for_acc; intros; ends_walk
      | |- ends _ _ (inb _) => apply ends_inb; [assumption|split; by_decide]
      | |- ends _ _ (inw _) => apply ends_inw; [assumption|split; by_decide]
      | |- ends _ _ (outb _ _) => apply ends_outb; [assumption|split; by_decide]
      | |- ends _ _ (outw _ _) => apply ends_outw; [assumption|split; by_decide]
      | |- ends _ _ (mret _) => apply ends_ret
      | |- ends _ _ (fail _) => apply ends_fail
      | |- ends _ _ (ok_or _ _) => apply ends_ok_or
      | |- ends _ _ (if ?b then _ else _) => destruct b; ends_walk
      end
    | idtac ].

Section driver_ends.
Context {S : Type} `{Hw S} (R : S -> Prop) (strict : bool) (HR : ata_closed R).

Lemma wait_ready_ends : ends R strict (wait_ready AtaDrive_new).
Proof using HR. unfold wait_ready. ends_walk. Qed.

Lemma wait_data_ends : ends R strict (wait_data AtaDrive_new).
Proof using HR. unfold wait_data. ends_walk. Qed.

Lemma issue_ends a b c d e f : ends R strict (issue AtaDrive_new a b c d e f).
Proof using HR. unfold issue. ends_walk. Qed.

Lemma read_words_ends buf : ends R strict (read_words AtaDrive_new buf).
Proof using HR. unfold read_words. ends_walk. Qed.

Lemma write_words_ends buf : (strict = true -> length buf = 512%nat) -> ends R strict (write_words AtaDrive_new buf).
Proof using HR.
  intros Hlen. unfold write_words. apply ends_for_each. intros i Hi%elem_of_seqZ.
  apply ends_bind; [apply ends_unwrap; intros Ht; apply lookup_lt_is_Some_2; rewrite (Hlen Ht); lia|]. intros lo.
  apply ends_bind; [apply ends_unwrap; intros Ht; apply lookup_lt_is_Some_2; rewrite (Hlen Ht); lia|]. intros hi. ends_walk.
Qed.

Lemma drive_read_sector_ends lba buf : ends R strict (drive_read_sector AtaDrive_new lba buf).
Proof using HR.
  apply ends_bind; [apply wait_ready_ends|intros _]. apply ends_bind; [apply issue_ends|intros _].
  apply ends_bind; [apply wait_data_ends|intros _]. apply read_words_ends.
Qed.

Lemma drive_write_sector_ends lba buf : (strict = true -> length buf = 512%nat) -> ends R strict (drive_write_sector AtaDrive_new lba buf).
Proof using HR.
  intros Hlen. apply ends_bind; [apply wait_ready_ends|intros _]. apply ends_bind; [apply issue_ends|intros _].
  apply ends_bind; [apply wait_data_ends|intros _]. apply ends_bind; [by apply write_words_ends|intros _]. apply wait_ready_ends.
Qed.

Lemma identify_ends : ends R strict (identify AtaDrive_new).
Proof using HR.
  apply ends_bind; [apply wait_ready_ends|intros _]. apply ends_bind; [apply issue_ends|intros _].
  unfold wait_data. ends_walk.
Qed.
End driver_ends.

Section ends_on_disk.
Context {S : Type} `{Hw S} (R : S -> Prop) (HR : ata_closed R).

(** So [init] ends, with a drive or with an error and none. *)
Lemma ata_init_ends (w : AtaWorld S) : R (aw_ports w) ->
  exists w', R (aw_ports w') /\ (ata_init w = (Ok tt, w') /\ ATA w' = Some AtaDrive_new
    \/ exists e, ata_init w = (Err e, w') /\ ATA w' = ATA w).
Proof using HR.
  intros Hw. destruct (identify_ends R true HR (aw_ports w) Hw) as [Hr Ho]. specialize (Ho eq_refl).
  unfold ata_init, mbind, M_bind, on_ports, zoom.
  destruct (identify AtaDrive_new (aw_ports w)) as [[a|e| |] s']; cbn [fst snd] in *; try done.
  - exists (mkAtaWorld (Some AtaDrive_new) s'). split; [done|by left].
  - exists (mkAtaWorld (ATA w) s'). split; [done|right; by exists e].
Qed.

(** The drive the kernel holds, if it holds one, is on these ports. *)
Definition its_drive (w : AtaWorld S) : Prop := ATA w = None \/ ATA w = Some AtaDrive_new.

Lemma on_disk_ends {A} strict (m : AtaDrive -> M S rstr A) (w : AtaWorld S) : its_drive w -> ends R strict (m AtaDrive_new) ->
  R (aw_ports w) -> let (o, w') := (w ← get; drive ← ok_or (lit "ATA not initialized") (ATA w); on_ports (m drive)) w in
  R (aw_ports w') /\ ATA w' = ATA w /\ (strict = true -> returned o).
Proof using.
  intros Hw Hm Hs. rewrite bind_get. destruct Hw as [Hw|Hw]; rewrite Hw; [done|]. unfold mbind, M_bind, on_ports, zoom. cbn.
  destruct (Hm _ Hs) as [Hr Ho]. by destruct (m AtaDrive_new (aw_ports w)).
Qed.

Lemma ata_read_ends strict lba buf (w : AtaWorld S) : its_drive w -> R (aw_ports w) -> let (o, w') := ata_read_sector lba buf w in
  R (aw_ports w') /\ ATA w' = ATA w /\ (strict = true -> returned o).
Proof using HR. intros Hw. apply (on_disk_ends strict (fun d => drive_read_sector d lba buf)); [done|by apply drive_read_sector_ends]. Qed.

Lemma ata_write_ends strict lba buf (w : AtaWorld S) : its_drive w -> (strict = true -> length buf = 512%nat) -> R (aw_ports w) ->
  let (o, w') := ata_write_sector lba buf w in R (aw_ports w') /\ ATA w' = ATA w /\ (strict = true -> returned o).
Proof using HR. intros Hw Hl. apply (on_disk_ends strict (fun d => drive_write_sector d lba buf)); [done|by apply drive_write_sector_ends]. Qed.
End ends_on_disk.

(** ** The drive as software sees it *)
Inductive Stage :=
| Idle (error : bool)
| DataIn (rest : list Z)              (* words still to be read *)
| DataOut (lba : Z) (got : list Z).   (* words written so far *)

Record Drive := mkDrive {
  r_select : Z;
  r_count : Z;
  r_low : Z;
  r_mid : Z;
  r_high : Z;
  delay : nat;      (* polls of the status that will find the drive busy *)
  stage : Stage;
  platter : gmap Z bytes
}.

Definition set_stage (n : nat) (st : Stage) (v : Drive) : Drive :=
  mkDrive (r_select v) (r_count v) (r_low v) (r_mid v) (r_high v) n st (platter v).
Definition set_platter (p : gmap Z bytes) (v : Drive) : Drive :=
  mkDrive (r_select v) (r_count v) (r_low v) (r_mid v) (r_high v) (delay v) (stage v) p.

Definition sector_words (b : bytes) : list Z := (fun i => le_at 2 b (2 * i)) <$> seq 0 256.
Definition words_bytes (ws : list Z) : bytes := mjoin (to_le 2 <$> ws).

(** The address in the registers. *)
Definition reg_lba (v : Drive) : Z :=
  Z.land (r_select v) 0x0F * 2 ^ 24 + r_high v * 2 ^ 16 + r_mid v * 2 ^ 8 + r_low v.

Definition bit_set (status mask : Z) : bool := negb (Z.land status mask =? 0).

(** The status says what the driver takes it to say: a drive that is busy shows it, and
    no other bit the driver looks at; one that is not shows data or an error, as it is.
    (After a write the driver looks at [BSY] alone.) *)
Definition plain (n : nat) (st : Stage) (status : Z) : bool :=
  match n with
  | Datatypes.S _ => bit_set status ATA_SR_BSY
      && match st with Idle false => true | _ => negb (bit_set status ATA_SR_DRQ) && negb (bit_set status ATA_SR_ERR) end
  | O => negb (bit_set status ATA_SR_BSY) && negb (status =? 0)
      && match st with
         | Idle false => true
         | Idle true => negb (bit_set status ATA_SR_DRQ) && bit_set status ATA_SR_ERR
         | _ => bit_set status ATA_SR_DRQ && negb (bit_set status ATA_SR_ERR)
         end
  end.

Definition set_register (port value : Z) (v : Drive) : Drive :=
  let w := fun p old => if port =? p then value else old in
  mkDrive (w ATA_PRIMARY_DRIVE_SELECT (r_select v)) (w ATA_PRIMARY_SECTOR_COUNT (r_count v)) (w ATA_PRIMARY_LBA_LOW (r_low v))
    (w ATA_PRIMARY_LBA_MID (r_mid v)) (w ATA_PRIMARY_LBA_HIGH (r_high v)) (delay v) (stage v) (platter v).

Definition REGISTERS : list Z :=
  [ATA_PRIMARY_DRIVE_SELECT; ATA_PRIMARY_SECTOR_COUNT; ATA_PRIMARY_LBA_LOW; ATA_PRIMARY_LBA_MID; ATA_PRIMARY_LBA_HIGH].

(** What a command leads to, for the first drive in LBA mode and one sector. *)
Definition command_stage (v : Drive) (command : Z) (st : Stage) : Prop :=
  match platter v !! reg_lba v with
  | Some b => if command =? ATA_CMD_READ_SECTORS then st = DataIn (sector_words b) else st = DataOut (reg_lba v) []
  | None => st = Idle true
  end.

(** What a drive may do and the driver is not made for. *)
Inductive Trouble :=
| Unclear      (* a status that is not [plain]: data or an error shown while busy, where these bits
                  mean nothing; [BSY] not raised yet, 400 ns after a command; data offered together
                  with an error, or a fault without one *)
| Slow         (* still busy when the driver's polls run out *)
| Refused      (* a sector the drive holds is reported as an error *)
| WriteFault.  (* the words are taken and the sector is not stored, which only the status says *)

(** A drive in LBA mode, by the ATA command protocol for one sector of programmed I/O.  What it
    may do besides is recorded in [went], for good. *)
Class AtaLaws (S : Type) `{Hw S} := {
  drive : S -> Drive;
  went : Trouble -> S -> Prop;
  went_for_good t : ata_closed (went t);
  platter_length s lba b : platter (drive s) !! lba = Some b -> length b = 512%nat /\ Forall is_byte b;
  (** Reading the status changes nothing, while time passes. *)
  status_read s :
    let (status, s') := port_in 8 ATA_PRIMARY_STATUS s in
    if plain (delay (drive s)) (stage (drive s)) status then drive s' = set_stage (pred (delay (drive s))) (stage (drive s)) (drive s)
    else went Unclear s';
  register_write s e port value : delay (drive s) = 0%nat -> stage (drive s) = Idle e -> port ∈ REGISTERS -> is_byte value ->
    drive (port_out 8 port value s) = set_register port value (drive s);
  command_write s e command : delay (drive s) = 0%nat -> stage (drive s) = Idle e ->
    Z.land (r_select (drive s)) 0xF0 = 0xE0 -> r_count (drive s) = 1 ->
    command ∈ [ATA_CMD_READ_SECTORS; ATA_CMD_WRITE_SECTORS] ->
    let s' := port_out 8 ATA_PRIMARY_COMMAND command s in
    exists n st, drive s' = set_stage n st (drive s)
      /\ (Z.of_nat n < POLLS \/ went Slow s')
      /\ (command_stage (drive s) command st \/ st = Idle true /\ went Refused s');
  identify_write s e : delay (drive s) = 0%nat -> stage (drive s) = Idle e -> r_select (drive s) = 0xA0 ->
    let s' := port_out 8 ATA_PRIMARY_COMMAND ATA_CMD_IDENTIFY s in
    exists n ws, length ws = 256%nat /\ drive s' = set_stage n (DataIn ws) (drive s) /\ (Z.of_nat n < POLLS \/ went Slow s');
  data_read s w rest : delay (drive s) = 0%nat -> stage (drive s) = DataIn (w :: rest) ->
    let (v, s') := port_in 16 ATA_PRIMARY_DATA s in
    v = w /\ drive s' = set_stage 0 (match rest with [] => Idle false | _ => DataIn rest end) (drive s);
  data_write s lba got w : delay (drive s) = 0%nat -> stage (drive s) = DataOut lba got -> (length got < 255)%nat -> 0 <= w < 2 ^ 16 ->
    drive (port_out 16 ATA_PRIMARY_DATA w s) = set_stage 0 (DataOut lba (got ++ [w])) (drive s);
  (** The last word, and the drive sets about storing the sector. *)
  data_last s lba got w : delay (drive s) = 0%nat -> stage (drive s) = DataOut lba got -> length got = 255%nat -> 0 <= w < 2 ^ 16 ->
    let s' := port_out 16 ATA_PRIMARY_DATA w s in
    exists n (error : bool), (Z.of_nat n < POLLS \/ went Slow s')
      /\ if error then went WriteFault s'
         else drive s' = set_platter (<[lba := words_bytes (got ++ [w])]> (platter (drive s))) (set_stage n (Idle false) (drive s))
}.

(** ** Words and bytes *)
Lemma le_at_pair b i x y : b !! i = Some x -> b !! Datatypes.S i = Some y -> le_at 2 b i = x + 256 * y.
Proof.
  intros Hx Hy. unfold le_at, slice. replace (i + 2 - i)%nat with 2%nat by lia.
  rewrite (drop_S _ _ _ Hx), (drop_S _ _ _ Hy). transitivity (from_le [x; y]); [done|unfold from_le; lia].
Qed.

Lemma sector_words_length b : length (sector_words b) = 256%nat.
Proof. unfold sector_words. by rewrite length_fmap, length_seq. Qed.

Lemma sector_words_at b i x y : (i < 256)%nat -> b !! (2 * i)%nat = Some x -> b !! Datatypes.S (2 * i) = Some y ->
  sector_words b !! i = Some (x + 256 * y).
Proof.
  intros Hi Hx Hy. unfold sector_words. rewrite list_lookup_fmap, lookup_seq_lt by done. cbn [fmap option_fmap option_map].
  f_equal. by apply le_at_pair.
Qed.

Lemma words_bytes_pairs n : forall b, length b = (2 * n)%nat -> Forall is_byte b ->
  words_bytes ((fun i => le_at 2 b (2 * i)) <$> seq 0 n) = b.
Proof.
  induction n as [|n IH]; intros b Hl Hb; [by destruct b|].
  destruct b as [|x [|y b]]; simpl in Hl; try lia. apply Forall_cons in Hb as [Hx [Hy Hb]%Forall_cons].
  cbn [seq fmap list_fmap]. rewrite <- fmap_S_seq, <- list_fmap_compose. unfold words_bytes. cbn [fmap list_fmap mjoin list_join].
  assert (to_le 2 (le_at 2 (x :: y :: b) (2 * 0)) = [x; y]) as ->.
  { rewrite (le_at_pair _ _ x y) by done. replace (x + 256 * y) with (from_le [x; y]) by (unfold from_le; lia).
    apply (to_from_le [x; y]). by apply Forall_cons_2, Forall_singleton. }
  cbn [app]. do 2 f_equal. pose proof (IH b ltac:(lia) Hb) as E. unfold words_bytes in E. etransitivity; [|exact E]. do 2 f_equal.
  apply list_fmap_ext. intros _ i _. cbn [compose]. unfold le_at, slice.
  replace (2 * Datatypes.S i)%nat with (Datatypes.S (Datatypes.S (2 * i))) by lia. cbn [drop]. done.
Qed.

Lemma words_bytes_sector b : length b = 512%nat -> Forall is_byte b -> words_bytes (sector_words b) = b.
Proof. intros Hl Hb. by apply (words_bytes_pairs 256). Qed.

Lemma split_word x y : is_byte x -> is_byte y -> Z.land (x + 256 * y) 0xFF = x /\ Z.shiftr (x + 256 * y) 8 = y.
Proof.
  unfold is_byte. intros Hx Hy. change 0xFF with (Z.ones 8). rewrite Z.land_ones, Z.shiftr_div_pow2 by lia. change (2 ^ 8) with 256.
  split; Z.div_mod_to_equations; lia.
Qed.

Lemma join_word x y : is_byte x -> is_byte y -> Z.lor x (Z.shiftl y 8) = x + 256 * y.
Proof.
  unfold is_byte. intros Hx Hy. rewrite Z.shiftl_mul_pow2 by lia. change (2 ^ 8) with 256.
  rewrite <- Z.lxor_lor, <- Z.add_nocarry_lxor; [lia|..]; apply Z.bits_inj'; intros n Hn; rewrite Z.land_spec, Z.bits_0;
    (destruct (Z.lt_ge_cases n 8);
     [rewrite (Z.mul_pow2_bits_low y 8) by lia; apply andb_false_r
     |replace (Z.testbit x n) with false; [done|]; symmetry; destruct (decide (x = 0)) as [->|]; [apply Z.bits_0|];
      apply Z.bits_above_log2; [lia|]; apply Z.lt_le_trans with 8; [apply Z.log2_lt_pow2; lia|lia]]).
Qed.

(** ** The driver on such a drive *)
Section facts.
Context {S : Type} `{AtaLaws S}.
Abbreviation IO := (M S rstr).

Definition ready (s : S) : Prop := Z.of_nat (delay (drive s)) < POLLS /\ exists e, stage (drive s) = Idle e.

(** The drive has done something the driver is not made for. *)
Definition astray (s : S) : Prop := exists t, went t s.

Lemma astray_for_good : ata_closed astray.
Proof. intros w p v s Hp [t Ht]. destruct (went_for_good t w p v s Hp Ht). split; by exists t. Qed.

(** [m] ends with the drive astray. *)
Definition strays {A} (m : IO A) (s : S) : Prop := astray (m s).2.

Lemma strays_bind {A B} (m : IO A) (k : A -> IO B) s : strays m s -> (forall a, ends astray false (k a)) -> strays (m ≫= k) s.
Proof.
  unfold strays. intros Hm Hk. unfold mbind, M_bind. destruct (m s) as [[a|e| |] s']; try done. by apply (Hk a s').
Qed.

Lemma strays_after {A B} (m : IO A) (k : A -> IO B) s a s' : m s = (Ok a, s') -> strays (k a) s' -> strays (m ≫= k) s.
Proof. intros Hm. unfold strays. by rewrite (bind_ok _ _ _ _ _ Hm). Qed.

Lemma set_stage_stage n st n' st' v : set_stage n st (set_stage n' st' v) = set_stage n st v.
Proof. done. Qed.

Lemma set_stage_same v : set_stage (delay v) (stage v) v = v.
Proof. by destruct v. Qed.

(** Polling skips the busy answers and stops at the first other one. *)
Lemma poll_run {E} (found : Z -> outcome rstr (option E)) (r : outcome rstr (option E)) st :
  (forall n status, plain (Datatypes.S n) st status = true -> found status = Ok None) ->
  (forall status, plain 0 st status = true -> found status = r) -> r ≠ Ok None ->
  forall l s, (delay (drive s) < length l)%nat -> stage (drive s) = st ->
  let m := for_find l (fun _ : nat => status ← inb ATA_PRIMARY_STATUS; lift (found status)) in
  strays m s \/ exists s', m s = (r, s') /\ drive s' = set_stage 0 st (drive s).
Proof.
  intros Hbusy Hst Hr. induction l as [|x l IH]; intros s Hn Hs; simpl in Hn; [lia|]. cbn zeta in IH |- *. cbn [for_find].
  pose proof (status_read s) as Hrd. destruct (port_in 8 ATA_PRIMARY_STATUS s) as [status s'] eqn:Hp. rewrite Hs in Hrd.
  assert (forall o, found status = o -> (status ← inb ATA_PRIMARY_STATUS; lift (found status)) s = (o, s')) as Hbody.
  { intros o <-. unfold mbind, M_bind, inb. by rewrite Hp. }
  destruct (plain _ st status) eqn:Hpl.
  - destruct (delay (drive s)) as [|n] eqn:Hd.
    + right. exists s'. rewrite (Hst status Hpl) in Hbody. split; [|exact Hrd]. specialize (Hbody r eq_refl).
      unfold mbind at 1, M_bind at 1. rewrite Hbody. by destruct r as [[a|]|e| |].
    + specialize (Hbody (Ok None) (Hbusy n status Hpl)).
      destruct (IH s') as [Hstr|(s2 & Hrun & Hv2)]; [rewrite Hrd; cbn in *; lia|by rewrite Hrd| |].
      * left. by apply (strays_after _ _ _ None s').
      * right. exists s2. split; [by rewrite (bind_ok _ _ _ _ _ Hbody)|]. by rewrite Hv2, Hrd.
  - left. apply strays_bind.
    + unfold strays. rewrite (Hbody _ eq_refl). by exists Unclear.
    + intros [v|]; [apply ends_ret|]. apply ends_for_find. intros _. apply ends_bind; [apply ends_inb; [exact astray_for_good|split; by_decide]|].
      intros v0. by intros s0 Hs0.
Qed.

Lemma for_find_ext {E X R} (l : list X) (f g : X -> M S E (option R)) s :
  (forall x s, f x s = g x s) -> for_find l f s = for_find l g s.
Proof.
  intros Hf. revert s. induction l as [|x l IH]; intros s; [done|]. cbn [for_find]. unfold mbind, M_bind. rewrite Hf.
  destruct (g x s) as [[[v|]|e| |] s']; auto.
Qed.

Lemma polls_fuel n : Z.of_nat n < POLLS -> (n < length polls)%nat.
Proof. unfold polls. rewrite length_seq. lia. Qed.

Lemma wait_ready_run s : ready s -> strays (wait_ready AtaDrive_new) s \/
  exists s', wait_ready AtaDrive_new s = (Ok tt, s') /\ drive s' = set_stage 0 (stage (drive s)) (drive s).
Proof.
  intros [Hn [e He]]. rewrite He. destruct (poll_run
    (fun status => Ok (if Z.land status ATA_SR_BSY =? 0 then Some tt else None)) (Ok (Some tt)) (Idle e)) with (l := polls) (s := s)
    as [Hs|(s' & Hr & Hv)]; [| |done|by apply polls_fuel|done| |].
  - intros n st Hb. cbn [plain] in Hb. unfold bit_set in Hb. by destruct (Z.land st ATA_SR_BSY =? 0).
  - intros st Hb. cbn [plain] in Hb. unfold bit_set in Hb. by destruct (Z.land st ATA_SR_BSY =? 0).
  - left. apply strays_bind; [exact Hs|]. intros a. apply ends_ok_or.
  - right. exists s'. split; [|done]. unfold wait_ready. rewrite (bind_ok _ _ _ _ _ Hr). done.
Qed.

Lemma wait_data_run s : Z.of_nat (delay (drive s)) < POLLS -> stage (drive s) ≠ Idle false ->
  strays (wait_data AtaDrive_new) s \/
  exists s', wait_data AtaDrive_new s
      = (match stage (drive s) with Idle _ => Err (lit "ATA error") | _ => Ok tt end, s')
    /\ drive s' = set_stage 0 (stage (drive s)) (drive s).
Proof.
  intros Hn Hst. set (found := fun status => if bit_set status ATA_SR_DRQ then Ok (Some tt)
      else if bit_set status ATA_SR_ERR then Err (lit "ATA error") else Ok None).
  assert (for_find polls (fun _ : nat => status ← inb (a_status AtaDrive_new);
        if negb (Z.land status ATA_SR_DRQ =? 0) then mret (Some tt)
        else if negb (Z.land status ATA_SR_ERR =? 0) then fail (lit "ATA error") else mret None) s
      = for_find polls (fun _ : nat => status ← inb ATA_PRIMARY_STATUS; lift (found status)) s) as Hf.
  { apply for_find_ext. intros _ t. unfold mbind, M_bind. destruct (inb _ t) as [[st| | |] t']; try done.
    unfold found, bit_set, lift. by destruct (negb (Z.land st ATA_SR_DRQ =? 0)), (negb (Z.land st ATA_SR_ERR =? 0)). }
  destruct (poll_run found (match stage (drive s) with Idle _ => Err (lit "ATA error") | _ => Ok (Some tt) end) (stage (drive s)))
    with (l := polls) (s := s) as [Hs|(s' & Hr & Hv)]; [| | |by apply polls_fuel|done| |].
  - intros n st Hp. cbn [plain] in Hp. unfold found. clear Hf. by destruct (stage (drive s)) as [[]| |], (bit_set st ATA_SR_BSY), (bit_set st ATA_SR_DRQ), (bit_set st ATA_SR_ERR).
  - intros st Hp. cbn [plain] in Hp. unfold found. clear Hf.
    by destruct (stage (drive s)) as [[]| |], (bit_set st ATA_SR_BSY), (st =? 0), (bit_set st ATA_SR_DRQ), (bit_set st ATA_SR_ERR).
  - by destruct (stage (drive s)).
  - left. apply strays_bind; [|intros a; apply ends_ok_or]. unfold strays. rewrite Hf. exact Hs.
  - right. exists s'. split; [|done]. unfold wait_data. rewrite <- Hf in Hr.
    destruct (stage (drive s)) as [e| |]; [by rewrite (bind_err _ _ _ _ _ Hr)|by rewrite (bind_ok _ _ _ _ _ Hr)..].
Qed.

(** The registers, then the command. *)
Lemma outb_run p v (s : S) : (outb p v : IO unit) s = (Ok tt, port_out 8 p v s).
Proof. done. Qed.

Lemma byte_of_land x : 0 <= x -> is_byte (Z.land x 0xFF).
Proof. intros Hx. change 0xFF with (Z.ones 8). rewrite Z.land_ones by lia. apply Z.mod_pos_bound. lia. Qed.

Lemma shifted_byte lba n : 0 <= n -> Z.land (Z.shiftr lba n) 0xFF = lba / 2 ^ n mod 256.
Proof. intros Hn. rewrite Z.shiftr_div_pow2 by done. change 0xFF with (Z.ones 8). by rewrite Z.land_ones by lia. Qed.

Lemma nibble lba : is_u32 lba -> Z.lor 0xE0 (Z.land (Z.shiftr lba 24) 0x0F) = 0xE0 + lba / 2 ^ 24 mod 16.
Proof.
  intros [Hl0 Hl1]. rewrite Z.shiftr_div_pow2 by lia. change 0x0F with (Z.ones 4). rewrite Z.land_ones by lia.
  change (2 ^ 4) with 16. set (x := lba / 2 ^ 24 mod 16). assert (0 <= x < 16) as Hx by (apply Z.mod_pos_bound; lia).
  clearbody x. rewrite <- (Z.lxor_lor), <- Z.add_nocarry_lxor; [done|..];
    (assert (x ∈ seqZ 0 16) as Hin by (apply elem_of_seqZ; lia); clear -Hin;
     revert x Hin; apply Forall_forall; by_decide).
Qed.

Lemma lba_split lba : 0 <= lba ->
  lba / 2 ^ 24 mod 16 * 2 ^ 24 + lba / 2 ^ 16 mod 256 * 2 ^ 16 + lba / 2 ^ 8 mod 256 * 2 ^ 8 + lba mod 256 = lba mod 2 ^ 28.
Proof. intros Hl. change (2 ^ 28) with (16 * 2 ^ 24). Z.div_mod_to_equations. lia. Qed.

Lemma regs_run e l : Forall (fun pv => pv.1 ∈ REGISTERS /\ is_byte pv.2) l ->
  forall s, delay (drive s) = 0%nat -> stage (drive s) = Idle e ->
  drive (foldl (fun s pv => port_out 8 pv.1 pv.2 s) s l) = foldl (fun v pv => set_register pv.1 pv.2 v) (drive s) l.
Proof.
  induction 1 as [|[p v] l [Hp Hv] _ IH]; intros s Hd Hst; [done|]. cbn [foldl fst snd] in *.
  pose proof (register_write s e p v Hd Hst Hp Hv) as Hw. rewrite IH; rewrite Hw; done.
Qed.

Lemma issue_lba_run s e lba command :
  delay (drive s) = 0%nat -> stage (drive s) = Idle e -> is_u32 lba ->
  command ∈ [ATA_CMD_READ_SECTORS; ATA_CMD_WRITE_SECTORS] ->
  exists s' st, (issue_lba AtaDrive_new lba command : IO unit) s = (Ok tt, s') /\ (astray s' \/
    Z.of_nat (delay (drive s')) < POLLS /\ stage (drive s') = st /\ platter (drive s') = platter (drive s)
    /\ match platter (drive s) !! (lba mod 2 ^ 28) with
       | Some b => st = if command =? ATA_CMD_READ_SECTORS then DataIn (sector_words b) else DataOut (lba mod 2 ^ 28) []
       | None => st = Idle true
       end).
Proof.
  intros Hd Hst Hl Hc. pose proof Hl as [Hl0 Hl1]. unfold issue_lba, issue.
  rewrite nibble by done. rewrite !shifted_byte by lia. change 0xFF with (Z.ones 8). rewrite Z.land_ones by lia. change (2 ^ 8) with 256.
  set (sel := 0xE0 + lba / 2 ^ 24 mod 16). set (hi := lba / 2 ^ 16 mod 256). set (mi := lba / 2 ^ 8 mod 256) in *.
  set (lo := lba mod 256).
  assert (0 <= lba / 2 ^ 24 mod 16 < 16) as Hsel by (apply Z.mod_pos_bound; lia).
  assert (is_byte sel) by (unfold sel, is_byte; lia).
  assert (is_byte hi /\ is_byte mi /\ is_byte lo) as (? & ? & ?) by (split_and!; apply Z.mod_pos_bound; lia).
  set (regs := [(ATA_PRIMARY_DRIVE_SELECT, sel); (ATA_PRIMARY_SECTOR_COUNT, 1); (ATA_PRIMARY_LBA_LOW, lo);
    (ATA_PRIMARY_LBA_MID, mi); (ATA_PRIMARY_LBA_HIGH, hi)]).
  set (s1 := foldl (fun s pv => port_out 8 pv.1 pv.2 s) s regs).
  assert (drive s1 = mkDrive sel 1 lo mi hi 0 (Idle e) (platter (drive s))) as Hv.
  { unfold s1. rewrite (regs_run e); [|repeat (apply Forall_cons; split; [split; [by_decide|done]|]); by apply Forall_nil|done|done].
    unfold regs. cbn [foldl fst snd]. unfold set_register. cbn. by rewrite Hd, Hst. }
  assert (reg_lba (drive s1) = lba mod 2 ^ 28) as Hlba.
  { rewrite Hv. unfold reg_lba. cbn [r_select r_high r_mid r_low]. rewrite <- lba_split by lia. fold hi mi lo. do 4 f_equal.
    unfold sel. change 0x0F with (Z.ones 4). rewrite Z.land_ones by lia. change 0xE0 with (14 * 2 ^ 4).
    rewrite Z.add_comm, Z.mod_add by lia. apply Z.mod_small. exact Hsel. }
  destruct (command_write s1 e command) as (n & st & Hcv & Hn & Hcs); rewrite ?Hv; try done.
  { cbn [r_select]. unfold sel. change 0xF0 with (Z.land 0xF0 0xFF). 
    assert (lba / 2 ^ 24 mod 16 ∈ seqZ 0 16) as Hin by (apply elem_of_seqZ; lia). clear -Hin. revert Hin.
    generalize (lba / 2 ^ 24 mod 16). apply Forall_forall. by_decide. }
  exists (port_out 8 ATA_PRIMARY_COMMAND command s1), st. split; [done|].
  destruct Hn as [Hn|Hn]; [|left; by exists Slow]. destruct Hcs as [Hcs|[_ Hcs]]; [|left; by exists Refused].
  right. rewrite Hcv, Hv. split_and!; try done. unfold command_stage in Hcs. rewrite Hlba, Hv in Hcs. cbn [platter] in Hcs.
  destruct (platter (drive s) !! (lba mod 2 ^ 28)); [|done]. by destruct (command =? ATA_CMD_READ_SECTORS).
Qed.

(** *** The data *)
Definition words_left (ws : list Z) : Stage := match ws with [] => Idle false | _ => DataIn ws end.

Lemma read_words_from b k : forall s buf,
  length b = 512%nat -> Forall is_byte b -> (k <= 256)%nat -> delay (drive s) = 0%nat ->
  stage (drive s) = words_left (drop (256 - k) (sector_words b)) ->
  length buf = 512%nat -> take (2 * (256 - k)) buf = take (2 * (256 - k)) b ->
  exists s', (for_acc (seqZ (256 - Z.of_nat k) (Z.of_nat k)) buf (fun buffer i =>
      word ← inw ATA_PRIMARY_DATA;
      mret (<[Z.to_nat (i * 2 + 1) := Z.shiftr word 8]> (<[Z.to_nat (i * 2) := Z.land word 0xFF]> buffer))) : IO bytes) s
      = (Ok b, s') /\ drive s' = set_stage 0 (Idle false) (drive s).
Proof.
  induction k as [|k IH]; intros s buf Hb Hbb Hk Hd Hst Hlen Htake.
  - exists s. split.
    + change (seqZ (256 - Z.of_nat 0) (Z.of_nat 0)) with (@nil Z). cbn [for_acc]. unfold mret, M_ret. do 2 f_equal. change (2 * (256 - 0))%nat with 512%nat in Htake. rewrite !take_ge in Htake by lia. done.
    + rewrite drop_ge in Hst by (rewrite sector_words_length; lia). cbn in Hst. rewrite <- Hst, <- Hd. by rewrite set_stage_same.
  - rewrite seqZ_cons by lia. cbn [for_acc]. set (i := (256 - Datatypes.S k)%nat) in *.
    destruct (lookup_lt_is_Some_2 b (2 * i)) as [x Hx]; [lia|]. destruct (lookup_lt_is_Some_2 b (Datatypes.S (2 * i))) as [y Hy]; [lia|].
    pose proof (sector_words_at b i x y ltac:(lia) Hx Hy) as Hw. rewrite (drop_S _ _ _ Hw) in Hst. cbn [words_left] in Hst.
    assert (is_byte x /\ is_byte y) as [Hxb Hyb] by (split; eapply Forall_lookup_1; done).
    pose proof (data_read s _ _ Hd Hst) as Hr. unfold mbind at 1, M_bind at 1. unfold mbind at 1, M_bind at 1. unfold inw.
    destruct (port_in 16 ATA_PRIMARY_DATA s) as [v s1]. destruct Hr as [-> Hv]. cbn [mret M_ret].
    destruct (split_word x y Hxb Hyb) as [-> ->].
    replace (Z.to_nat ((256 - Z.of_nat (Datatypes.S k)) * 2 + 1)) with (Datatypes.S (2 * i)) by lia.
    replace (Z.to_nat ((256 - Z.of_nat (Datatypes.S k)) * 2)) with (2 * i)%nat by lia.
    replace (Z.succ (256 - Z.of_nat (Datatypes.S k))) with (256 - Z.of_nat k) by lia.
    replace (Z.pred (Z.of_nat (Datatypes.S k))) with (Z.of_nat k) by lia.
    destruct (IH s1 (<[Datatypes.S (2 * i) := y]> (<[(2 * i)%nat := x]> buf))) as (s2 & Hrun & Hv2); try done; [lia| | | | |].
    + by rewrite Hv.
    + rewrite Hv. cbn [stage set_stage]. by replace (256 - k)%nat with (Datatypes.S i) by lia.
    + by rewrite !length_insert.
    + replace (2 * (256 - k))%nat with (Datatypes.S (Datatypes.S (2 * i))) by lia.
      rewrite (take_S_r b _ y), (take_S_r b _ x) by done.
      rewrite (take_S_r _ _ y) by (rewrite list_lookup_insert_eq by (rewrite length_insert; lia); done).
      rewrite (take_S_r _ _ x) by (rewrite list_lookup_insert_ne, list_lookup_insert_eq by lia; done).
      do 2 f_equal. rewrite !take_insert_ge by lia. exact Htake.
    + exists s2. split; [exact Hrun|]. by rewrite Hv2, Hv.
Qed.

Lemma write_words_from b k : forall s lba,
  length b = 512%nat -> Forall is_byte b -> (k <= 256)%nat -> (0 < k)%nat -> delay (drive s) = 0%nat ->
  stage (drive s) = DataOut lba (take (256 - k) (sector_words b)) ->
  exists s', (for_each (seqZ (256 - Z.of_nat k) (Z.of_nat k)) (fun i =>
      lo ← unwrap (b !! Z.to_nat (i * 2));
      hi ← unwrap (b !! Z.to_nat (i * 2 + 1));
      outw ATA_PRIMARY_DATA (Z.lor lo (Z.shiftl hi 8))) : IO unit) s = (Ok tt, s')
    /\ (astray s' \/ exists n, Z.of_nat n < POLLS
    /\ drive s' = set_platter (<[lba := b]> (platter (drive s))) (set_stage n (Idle false) (drive s))).
Proof.
  induction k as [|k IH]; intros s lba Hb Hbb Hk Hk0 Hd Hst; [lia|].
  rewrite seqZ_cons by lia. cbn [for_each]. set (i := (256 - Datatypes.S k)%nat) in *.
  destruct (lookup_lt_is_Some_2 b (2 * i)) as [x Hx]; [lia|]. destruct (lookup_lt_is_Some_2 b (Datatypes.S (2 * i))) as [y Hy]; [lia|].
  pose proof (sector_words_at b i x y ltac:(lia) Hx Hy) as Hw.
  assert (is_byte x /\ is_byte y) as [Hxb Hyb] by (split; eapply Forall_lookup_1; done).
  replace (Z.to_nat ((256 - Z.of_nat (Datatypes.S k)) * 2 + 1)) with (Datatypes.S (2 * i)) by lia.
  replace (Z.to_nat ((256 - Z.of_nat (Datatypes.S k)) * 2)) with (2 * i)%nat by lia.
  replace (Z.succ (256 - Z.of_nat (Datatypes.S k))) with (256 - Z.of_nat k) by lia.
  replace (Z.pred (Z.of_nat (Datatypes.S k))) with (Z.of_nat k) by lia.
  rewrite bind_assoc, Hx, bind_unwrap_some, bind_assoc, Hy, bind_unwrap_some, join_word by done.
  assert (0 <= x + 256 * y < 2 ^ 16) as Hr by (unfold is_byte in *; lia).
  assert (length (take i (sector_words b)) = i) as Hlt by (rewrite length_take, sector_words_length; lia).
  unfold mbind, M_bind, outw. destruct (Nat.lt_ge_cases i 255).
  - pose proof (data_write s lba _ _ Hd Hst ltac:(lia) Hr) as Hwr. rewrite <- (take_S_r _ _ _ Hw) in Hwr.
    destruct (IH (port_out 16 ATA_PRIMARY_DATA (x + 256 * y) s) lba) as (s' & Hrun & Hv); try done; [lia|lia| | |].
    + by rewrite Hwr.
    + rewrite Hwr. cbn [stage set_stage]. by replace (256 - k)%nat with (Datatypes.S i) by lia.
    + exists s'. split; [exact Hrun|]. by rewrite Hwr in Hv.
  - destruct (data_last s lba _ _ Hd Hst ltac:(lia) Hr) as (n & error & Hn & Hv). rewrite <- (take_S_r _ _ _ Hw) in Hv. assert (k = 0)%nat as -> by lia.
    exists (port_out 16 ATA_PRIMARY_DATA (x + 256 * y) s). split; [done|]. destruct Hn as [Hn|Hn]; [|left; by exists Slow].
    destruct error; [left; by exists WriteFault|right]. exists n. split; [done|]. rewrite Hv. rewrite take_ge by (rewrite sector_words_length; lia). by rewrite words_bytes_sector.
Qed.

(** *** The operations *)
Definition ATA_error : rstr := lit "ATA error".

(** A command for one sector, up to the transfer [k] of its data. *)
Lemma transfer_run {A} (k : IO A) s lba command : ready s -> is_u32 lba ->
  command ∈ [ATA_CMD_READ_SECTORS; ATA_CMD_WRITE_SECTORS] -> ends astray false k ->
  let m := wait_ready AtaDrive_new ;; issue_lba AtaDrive_new lba command ;; wait_data AtaDrive_new ;; k in
  strays m s \/ exists s', delay (drive s') = 0%nat /\ platter (drive s') = platter (drive s)
    /\ match platter (drive s) !! (lba mod 2 ^ 28) with
       | Some b => m s = k s'
           /\ stage (drive s') = if command =? ATA_CMD_READ_SECTORS then DataIn (sector_words b) else DataOut (lba mod 2 ^ 28) []
       | None => m s = (Err ATA_error, s') /\ stage (drive s') = Idle true
       end.
Proof.
  intros Hrdy Hl Hc Hk. cbn zeta. pose proof Hrdy as [_ [e He]]. pose proof astray_for_good as Hag.
  assert (ends astray false (wait_data AtaDrive_new ;; k)) as Hwk.
  { apply ends_bind; [by apply wait_data_ends|done]. }
  destruct (wait_ready_run s Hrdy) as [Hs|(s1 & H1 & Hv1)].
  { left. apply strays_bind; [done|]. intros _. apply ends_bind; [by apply issue_ends|done]. }
  destruct (issue_lba_run s1 e lba command) as (s2 & st & H2 & Hs2); [by rewrite Hv1|by rewrite Hv1|done|done|].
  destruct Hs2 as [Hs|(Hn & Hst2 & Hp2 & Hpl)].
  { left. apply (strays_after _ _ _ _ _ H1), (strays_after _ _ _ _ _ H2). exact (proj1 (Hwk s2 Hs)). }
  rewrite Hv1 in Hp2, Hpl. cbn [platter set_stage] in Hp2, Hpl. rewrite (bind_ok _ _ _ _ _ H1), (bind_ok _ _ _ _ _ H2).
  destruct (wait_data_run s2) as [Hs|(s3 & H3 & Hv3)]; [done| | |].
  { rewrite Hst2. destruct (platter (drive s) !! _); rewrite Hpl; [by destruct (_ =? _)|done]. }
  { left. apply (strays_after _ _ _ _ _ H1), (strays_after _ _ _ _ _ H2). by apply strays_bind. }
  right. exists s3. rewrite Hv3. split; [done|]. split; [exact Hp2|]. cbn [stage set_stage].
  destruct (platter (drive s) !! (lba mod 2 ^ 28)) as [b|]; rewrite Hst2, Hpl in H3 |- *.
  - split; [|done]. refine (bind_ok _ _ _ tt s3 _). rewrite H3. by destruct (_ =? _).
  - split; [exact (bind_err _ _ _ _ _ H3)|done].
Qed.

Lemma read_sector_run s lba : ready s -> is_u32 lba ->
  strays (drive_read_sector AtaDrive_new lba (replicate 512 0)) s \/
  exists s', drive_read_sector AtaDrive_new lba (replicate 512 0) s
      = (match platter (drive s) !! (lba mod 2 ^ 28) with Some b => Ok b | None => Err ATA_error end, s')
    /\ ready s' /\ platter (drive s') = platter (drive s).
Proof.
  intros Hrdy Hl. unfold drive_read_sector.
  destruct (transfer_run (read_words AtaDrive_new (replicate 512 0)) s lba ATA_CMD_READ_SECTORS) as [Hs|(s3 & Hd3 & Hp3 & H3)];
    [done|done|by left|apply read_words_ends, astray_for_good|by left|right].
  destruct (platter (drive s) !! (lba mod 2 ^ 28)) as [b|] eqn:Hb; destruct H3 as [-> Hst3].
  - destruct (platter_length s _ _ Hb) as [Hlen Hbytes].
    destruct (read_words_from b 256 s3 (replicate 512 0)) as (s4 & H4 & Hv4); try done.
    exists s4. split; [exact H4|]. unfold ready. rewrite Hv4. split; [split; [done|by exists false]|done].
  - exists s3. split; [done|]. split; [|done]. split; [by rewrite Hd3|by exists true].
Qed.

Lemma write_sector_run s lba data : ready s -> is_u32 lba -> length data = 512%nat -> Forall is_byte data ->
  strays (drive_write_sector AtaDrive_new lba data) s \/
  exists s', ready s' /\
    match platter (drive s) !! (lba mod 2 ^ 28) with
    | Some _ => drive_write_sector AtaDrive_new lba data s = (Ok tt, s')
        /\ platter (drive s') = <[lba mod 2 ^ 28 := data]> (platter (drive s))
    | None => drive_write_sector AtaDrive_new lba data s = (Err ATA_error, s') /\ platter (drive s') = platter (drive s)
    end.
Proof.
  intros Hrdy Hl Hlen Hbytes. pose proof astray_for_good as Hag. unfold drive_write_sector.
  set (k := write_words AtaDrive_new data ;; wait_ready AtaDrive_new).
  destruct (transfer_run k s lba ATA_CMD_WRITE_SECTORS) as [Hs|(s3 & Hd3 & Hp3 & H3)]; [done|done|right; by left| |by left|].
  { apply ends_bind; [by apply write_words_ends|intros _; by apply wait_ready_ends]. }
  destruct (platter (drive s) !! (lba mod 2 ^ 28)) as [b|] eqn:Hb; destruct H3 as [Hm Hst3]; rewrite Hm.
  - destruct (write_words_from data 256 s3 (lba mod 2 ^ 28)) as (s4 & H4 & Hs4); try done; [lia|].
    destruct Hs4 as [Hs|(m & Hmp & Hv4)].
    { left. unfold strays. rewrite Hm. apply (strays_after _ _ _ _ _ H4). exact (proj1 (wait_ready_ends astray false Hag s4 Hs)). }
    assert (ready s4) as Hr4 by (unfold ready; rewrite Hv4; split; [done|by exists false]).
    destruct (wait_ready_run s4 Hr4) as [Hs|(s5 & H5 & Hv5)].
    { left. unfold strays. rewrite Hm. exact (strays_after _ _ _ _ _ H4 Hs). }
    right. exists s5. split; [unfold ready; rewrite Hv5, Hv4; split; [done|by exists false]|].
    split; [unfold k; by rewrite (bind_ok _ _ _ _ _ H4)|]. rewrite Hv5, Hv4. cbn [platter set_stage set_platter]. by rewrite Hp3.
  - right. exists s3. split; [split; [by rewrite Hd3|by exists true]|done].
Qed.

Lemma read_words_identify k : forall s buf ws,
  (k <= 256)%nat -> length ws = k -> delay (drive s) = 0%nat -> stage (drive s) = words_left ws ->
  exists s' buf', (for_acc (seqZ (256 - Z.of_nat k) (Z.of_nat k)) buf (fun buffer i =>
      w ← inw ATA_PRIMARY_DATA; mret (<[Z.to_nat i := w]> buffer)) : IO (list Z)) s = (Ok buf', s')
    /\ drive s' = set_stage 0 (Idle false) (drive s).
Proof.
  induction k as [|k IH]; intros s buf ws Hk Hlen Hd Hst.
  - exists s, buf. split; [done|]. destruct ws; [|done]. rewrite <- (set_stage_same (drive s)) at 1. by rewrite Hd, Hst.
  - destruct ws as [|w ws]; [done|]. rewrite seqZ_cons by lia. cbn [for_acc].
    pose proof (data_read s w ws Hd Hst) as Hr. unfold mbind at 1, M_bind at 1. unfold mbind at 1, M_bind at 1. unfold inw.
    destruct (port_in 16 ATA_PRIMARY_DATA s) as [v s1]. destruct Hr as [-> Hv]. cbn [mret M_ret].
    replace (Z.succ (256 - Z.of_nat (Datatypes.S k))) with (256 - Z.of_nat k) by lia.
    replace (Z.pred (Z.of_nat (Datatypes.S k))) with (Z.of_nat k) by lia.
    destruct (IH s1 (<[Z.to_nat (256 - Z.of_nat (Datatypes.S k)) := w]> buf) ws) as (s2 & buf' & Hrun & Hv2);
      [lia|by injection Hlen|by rewrite Hv|by rewrite Hv|].
    exists s2, buf'. split; [exact Hrun|]. by rewrite Hv2, Hv.
Qed.

Lemma identify_run s : ready s -> strays (identify AtaDrive_new) s \/
  exists ws s', identify AtaDrive_new s = (Ok ws, s') /\ ready s' /\ platter (drive s') = platter (drive s).
Proof.
  intros Hrdy. pose proof Hrdy as [_ [e He]]. pose proof astray_for_good as Hag. unfold identify, strays.
  destruct (wait_ready_run s Hrdy) as [Hs|(s1 & H1 & Hv1)].
  { left. apply strays_bind; [done|]. intros _. unfold issue, wait_data. ends_walk. }
  rewrite (bind_ok _ _ _ _ _ H1). unfold issue.
  set (regs := [(ATA_PRIMARY_DRIVE_SELECT, 0xA0); (ATA_PRIMARY_SECTOR_COUNT, 0); (ATA_PRIMARY_LBA_LOW, 0);
    (ATA_PRIMARY_LBA_MID, 0); (ATA_PRIMARY_LBA_HIGH, 0)]).
  set (s2 := foldl (fun s pv => port_out 8 pv.1 pv.2 s) s1 regs).
  assert (drive s2 = mkDrive 0xA0 0 0 0 0 0 (Idle e) (platter (drive s))) as Hv.
  { unfold s2. rewrite (regs_run e); [|repeat (apply Forall_cons; split; [split; [by_decide|done]|]); by apply Forall_nil|by rewrite Hv1|by rewrite Hv1].
    unfold regs. cbn [foldl fst snd]. unfold set_register. rewrite Hv1. cbn. by rewrite He. }
  destruct (identify_write s2 e) as (n & ws & Hws & Hcv & Hn); [by rewrite Hv|by rewrite Hv|by rewrite Hv|].
  set (s3 := port_out 8 ATA_PRIMARY_COMMAND ATA_CMD_IDENTIFY s2) in *. rewrite Hv in Hcv.
  rewrite (bind_ok _ _ _ tt s3) by reflexivity.
  destruct Hn as [Hn|Hn].
  2: { left. assert (ends astray false (status ← inb (a_status AtaDrive_new); if status =? 0 then fail (lit "no drive detected")
         else wait_data AtaDrive_new ;; for_acc (seqZ 0 256) (replicate 256 0) (fun identify_data i =>
           w ← inw (a_data AtaDrive_new); mret (<[Z.to_nat i := w]> identify_data)) : IO (list Z))) as Hk
         by (unfold wait_data; ends_walk). refine (proj1 (Hk s3 _)). by exists Slow. }
  pose proof (status_read s3) as Hrd. rewrite Hcv in Hrd. cbn [delay stage set_stage] in Hrd.
  assert (exists st s4, (inb (a_status AtaDrive_new) : IO Z) s3 = (Ok st, s4) /\ port_in 8 ATA_PRIMARY_STATUS s3 = (st, s4)) as (st & s4 & H4 & Hp4).
  { unfold inb. cbn [a_status AtaDrive_new]. destruct (port_in 8 ATA_PRIMARY_STATUS s3) as [st s4]. by exists st, s4. }
  rewrite Hp4 in Hrd. rewrite (bind_ok _ _ _ _ _ H4). destruct (plain n (DataIn ws) st) eqn:Hpl.
  2: { left. destruct (st =? 0); [by exists Unclear|]. assert (ends astray false (wait_data AtaDrive_new ;; for_acc (seqZ 0 256) (replicate 256 0)
         (fun identify_data i => w ← inw (a_data AtaDrive_new); mret (<[Z.to_nat i := w]> identify_data)) : IO (list Z))) as Hk
         by (unfold wait_data; ends_walk). refine (proj1 (Hk s4 _)). by exists Unclear. }
  destruct (Z.eqb_spec st 0) as [->|_]; [by destruct n|].
  destruct (wait_data_run s4) as [Hs|(s5 & H5 & Hv5)]; [rewrite Hrd; cbn; lia|by rewrite Hrd| |].
  { left. apply strays_bind; [exact Hs|]. intros _. ends_walk. }
  right. rewrite Hrd in H5, Hv5. cbn [stage set_stage] in H5, Hv5. rewrite (bind_ok _ _ _ _ _ H5).
  destruct (read_words_identify 256 s5 (replicate 256 0) ws) as (s6 & buf & H6 & Hv6); [lia|done|by rewrite Hv5| |].
  { rewrite Hv5. cbn [stage set_stage]. by destruct ws. }
  exists buf, s6. split; [exact H6|]. unfold ready. rewrite Hv6, Hv5. split; [split; [done|by exists false]|done].
Qed.

(** ** [AtaDisk] *)

(** The kernel has found its drive, and the drive waits. *)
Definition attached (w : AtaWorld S) : Prop := ATA w = Some AtaDrive_new /\ ready (aw_ports w).

Definition disk_of (w : AtaWorld S) : gmap Z bytes := platter (drive (aw_ports w)).

(** The drive has gone astray on the kernel. *)
Definition gone (w : AtaWorld S) : Prop := astray (aw_ports w).

Lemma AtaDisk_read (w : AtaWorld S) lba : attached w -> is_u32 lba -> let (o, w') := bd_read_sector tt lba w in
  returned o /\ (gone w' \/ attached w' /\ disk_of w' = disk_of w
    /\ o = match disk_of w !! (lba mod 2 ^ 28) with Some b => Ok b | None => Err ATA_error end).
Proof.
  intros [Ha Hr] Hl. pose proof (ata_read_ends (fun _ => True) ltac:(done) true lba (replicate 512 0) w (or_intror Ha) I) as He.
  cbn [bd_read_sector AtaDisk_device] in *. unfold ata_read_sector in *. rewrite bind_get, Ha, (bind_ok _ _ _ AtaDrive_new w) in He |- * by done.
  unfold on_ports, zoom, gone, disk_of in *. destruct (read_sector_run _ lba Hr Hl) as [Hs|(s' & Hrun & Hr' & Hp)].
  - unfold strays in Hs. destruct (drive_read_sector _ _ _ _) as [o s']. destruct He as (_ & _ & He). split; [by apply He|by left].
  - rewrite Hrun in He |- *. destruct He as (_ & _ & He). split; [by apply He|right]. rewrite Ha. by split_and!.
Qed.

Lemma AtaDisk_write (w : AtaWorld S) lba data : attached w -> is_u32 lba -> length data = 512%nat -> Forall is_byte data ->
  let (o, w') := bd_write_sector tt lba data w in
  returned o /\ (gone w' \/ attached w' /\ match disk_of w !! (lba mod 2 ^ 28) with
    | Some _ => o = Ok tt /\ disk_of w' = <[lba mod 2 ^ 28 := data]> (disk_of w)
    | None => o = Err ATA_error /\ disk_of w' = disk_of w
    end).
Proof.
  intros [Ha Hr] Hl Hlen Hb. pose proof (ata_write_ends (fun _ => True) ltac:(done) true lba data w (or_intror Ha) (fun _ => Hlen) I) as He.
  cbn [bd_write_sector AtaDisk_device] in *. unfold ata_write_sector in *. rewrite bind_get, Ha, (bind_ok _ _ _ AtaDrive_new w) in He |- * by done.
  unfold on_ports, zoom, gone, disk_of in *. destruct (write_sector_run _ lba data Hr Hl Hlen Hb) as [Hs|(s' & Hr' & Hrun)].
  - unfold strays in Hs. destruct (drive_write_sector _ _ _ _) as [o s']. destruct He as (_ & _ & He). split; [by apply He|by left].
  - destruct (platter (drive (aw_ports w)) !! (lba mod 2 ^ 28)); destruct Hrun as [Hrun Hp]; rewrite Hrun in He |- *;
      destruct He as (_ & _ & He); (split; [by apply He|right]); rewrite Ha; by split_and!.
Qed.

Lemma AtaDisk_init (w : AtaWorld S) : ready (aw_ports w) -> let (o, w') := ata_init w in
  returned o /\ (gone w' \/ o = Ok tt /\ attached w' /\ disk_of w' = disk_of w).
Proof.
  intros Hr. unfold ata_init, on_ports, zoom, gone, mbind, M_bind. pose proof (identify_ends (fun _ => True) true ltac:(done) (aw_ports w) I) as [_ He].
  specialize (He eq_refl). destruct (identify_run (aw_ports w) Hr) as [Hs|(ws & s' & Hi & Hr' & Hp)].
  - unfold strays in Hs. destruct (identify AtaDrive_new (aw_ports w)) as [[a|e| |] s']; try done; (split; [done|by left]).
  - rewrite Hi. split; [done|right]. by split_and!.
Qed.

(** C5: On any machine the driver comes back from every access, with data or an error:
    looking for a drive, reading a sector, writing one.  On a drive ([AtaLaws]) either
    the drive has by then gone astray - shown a status that is not what the driver takes
    it to be, outlasted its polls, refused a sector it holds or failed a write
    ([Trouble]) - or [drivers::ata::init] has found it, and [AtaDisk] is the drive's array
    of sectors, addressed modulo 2^28: a read returns the sector's bytes and changes
    nothing, a write replaces exactly that sector, an access beyond the end is the error
    [ATA error] and changes nothing, and the drive is left waiting for the next. *)
Theorem AtaDisk_array (w : AtaWorld S) lba (data : bytes) :
  (its_drive w -> length data = 512%nat -> returned (ata_init w).1 /\ returned (bd_read_sector tt lba w).1 /\ returned (bd_write_sector tt lba data w).1)
  /\ (ready (aw_ports w) -> let (o, w') := ata_init w in gone w' \/ o = Ok tt /\ attached w' /\ disk_of w' = disk_of w)
  /\ (attached w -> is_u32 lba -> let (o, w') := bd_read_sector tt lba w in
        gone w' \/ attached w' /\ disk_of w' = disk_of w
          /\ o = match disk_of w !! (lba mod 2 ^ 28) with Some b => Ok b | None => Err (lit "ATA error") end)
  /\ (attached w -> is_u32 lba -> length data = 512%nat -> Forall is_byte data -> let (o, w') := bd_write_sector tt lba data w in
        gone w' \/ attached w' /\ match disk_of w !! (lba mod 2 ^ 28) with
          | Some _ => o = Ok tt /\ disk_of w' = <[lba mod 2 ^ 28 := data]> (disk_of w)
          | None => o = Err (lit "ATA error") /\ disk_of w' = disk_of w
          end).
Proof.
  split_and!.
  - intros Hw Hl. pose proof (ata_read_ends (fun _ => True) ltac:(done) true lba (replicate 512 0) w Hw I) as Hr.
    pose proof (ata_write_ends (fun _ => True) ltac:(done) true lba data w Hw (fun _ => Hl) I) as Hwr.
    destruct (ata_init_ends (fun _ => True) ltac:(done) w I) as (w' & _ & [[Hi _]|(e & Hi & _)]); rewrite Hi;
      (split; [done|]); cbn [bd_read_sector bd_write_sector AtaDisk_device];
      destruct (ata_read_sector _ _ w), (ata_write_sector _ _ w); split; [by apply Hr|by apply Hwr|by apply Hr|by apply Hwr].
  - intros Hr. pose proof (AtaDisk_init w Hr) as Hi. destruct (ata_init w). by destruct Hi.
  - intros Ha Hl. pose proof (AtaDisk_read w lba Ha Hl) as Hr. destruct (bd_read_sector tt lba w). by destruct Hr.
  - intros Ha Hl Hlen Hb. pose proof (AtaDisk_write w lba data Ha Hl Hlen Hb) as Hr. destruct (bd_write_sector tt lba data w). by destruct Hr.
Qed.
End facts.

(** ** A channel that does not answer *)
Section errors.
Context {S : Type} `{Hw S}.
Abbreviation IO := (M S rstr).

Lemma for_find_none {X R} (P : S -> Prop) (l : list X) (body : X -> IO (option R)) :
  (forall x s, P s -> exists s', body x s = (Ok None, s') /\ P s') ->
  forall s, P s -> exists s', for_find l body s = (Ok None, s') /\ P s'.
Proof.
  intros Hb. induction l as [|x l IH]; intros s Hs; [by exists s|]. destruct (Hb x s Hs) as (s1 & H1 & Hs1).
  destruct (IH s1 Hs1) as (s2 & H2 & Hs2). exists s2. split; [|done]. cbn [for_find]. by rewrite (bind_ok _ _ _ _ _ H1).
Qed.

(** Every status read in [P] has [f] true, and stays in [P]. *)
Definition status_always (f : Z -> bool) (P : S -> Prop) : Prop :=
  forall s, P s -> f (port_in 8 ATA_PRIMARY_STATUS s).1 = true /\ P (port_in 8 ATA_PRIMARY_STATUS s).2.

Lemma poll_timeout f P (k : Z -> IO (option unit)) msg : status_always f P -> (forall v s, f v = true -> k v s = (Ok None, s)) ->
  forall s, P s -> exists s', (r ← for_find polls (fun _ => status ← inb ATA_PRIMARY_STATUS; k status); ok_or msg r) s
      = (Err msg, s') /\ P s'.
Proof.
  intros HP Hk s Hs.
  destruct (for_find_none P polls (fun _ => status ← inb ATA_PRIMARY_STATUS; k status)) with (s := s) as (s' & Hrun & Hs'); [|exact Hs|].
  - intros _ s1 Hs1. destruct (HP s1 Hs1) as [Hv Hp]. exists (port_in 8 ATA_PRIMARY_STATUS s1).2. split; [|exact Hp].
    unfold mbind, M_bind, inb. destruct (port_in 8 ATA_PRIMARY_STATUS s1) as [v s2]. by apply Hk.
  - exists s'. split; [|exact Hs']. by rewrite (bind_ok _ _ _ _ _ Hrun).
Qed.

Lemma wait_ready_timeout P : status_always (fun v => bit_set v ATA_SR_BSY) P -> forall s, P s ->
  exists s', wait_ready AtaDrive_new s = (Err (lit "ATA timeout waiting for ready"), s') /\ P s'.
Proof.
  intros HP s. unfold wait_ready. revert s.
  apply (poll_timeout _ P (fun v => mret (if Z.land v ATA_SR_BSY =? 0 then Some tt else None)) _ HP).
  intros v s Hv. unfold bit_set in Hv. by destruct (Z.land v ATA_SR_BSY =? 0).
Qed.

Lemma wait_data_timeout P : status_always (fun v => negb (bit_set v ATA_SR_DRQ) && negb (bit_set v ATA_SR_ERR)) P -> forall s, P s ->
  exists s', wait_data AtaDrive_new s = (Err (lit "ATA timeout waiting for data"), s') /\ P s'.
Proof.
  intros HP s. unfold wait_data. revert s. apply (poll_timeout _ P (fun v =>
    if negb (Z.land v ATA_SR_DRQ =? 0) then mret (Some tt)
    else if negb (Z.land v ATA_SR_ERR =? 0) then fail (lit "ATA error") else mret None) _ HP).
  intros v s Hv. unfold bit_set in Hv.
  by destruct (Z.land v ATA_SR_DRQ =? 0), (Z.land v ATA_SR_ERR =? 0).
Qed.

(** No drive on the bus: the status reads 0 whatever is written. *)
Definition bus_empty (P : S -> Prop) : Prop :=
  status_always (fun v => v =? 0) P /\ forall w p v s, P s -> P (port_out w p v s).

Lemma empty_wait_ready P s : bus_empty P -> P s -> exists s', wait_ready AtaDrive_new s = (Ok tt, s') /\ P s'.
Proof.
  intros [HP _] Hs. destruct (HP s Hs) as [Hv Hp]. exists (port_in 8 ATA_PRIMARY_STATUS s).2. split; [|exact Hp].
  unfold wait_ready, polls. destruct (Z.to_nat POLLS) as [|n] eqn:En; [unfold POLLS in En; lia|]. cbn [seq for_find]. rewrite bind_assoc. unfold inb. cbn [a_status AtaDrive_new].
  unfold mbind, M_bind. destruct (port_in 8 ATA_PRIMARY_STATUS s) as [v s2]. cbn [fst snd] in *. apply Z.eqb_eq in Hv. subst v. done.
Qed.

Lemma empty_issue P s a b c d e f : bus_empty P -> P s -> exists s', issue AtaDrive_new a b c d e f s = (Ok tt, s') /\ P s'.
Proof. intros [_ HP] Hs. eexists. split; [reflexivity|]. by repeat apply HP. Qed.

(** C16: What the driver does when the channel does not answer.  While the status stays
    busy, reading, writing and identifying give up after their polls with [ATA timeout
    waiting for ready].  On an empty bus, where the status reads 0, [init] reports that
    there is no drive and installs none, so every later access by [AtaDisk] is the error
    [ATA not initialized] and touches no port; a drive used there nonetheless would
    time out waiting for data. *)
Theorem ata_no_answer P s lba (buffer : bytes) : P s ->
  (status_always (fun v => bit_set v ATA_SR_BSY) P -> exists s1 s2 s3, P s1 /\ P s2 /\ P s3
     /\ drive_read_sector AtaDrive_new lba buffer s = (Err (lit "ATA timeout waiting for ready"), s1)
     /\ drive_write_sector AtaDrive_new lba buffer s = (Err (lit "ATA timeout waiting for ready"), s2)
     /\ identify AtaDrive_new s = (Err (lit "ATA timeout waiting for ready"), s3))
  /\ (bus_empty P ->
     (exists s', P s' /\ ata_init (mkAtaWorld None s) = (Err (lit "no drive detected"), mkAtaWorld None s'))
     /\ bd_read_sector tt lba (mkAtaWorld None s) = (Err (lit "ATA not initialized"), mkAtaWorld None s)
     /\ bd_write_sector tt lba buffer (mkAtaWorld None s) = (Err (lit "ATA not initialized"), mkAtaWorld None s)
     /\ exists s', P s' /\ drive_read_sector AtaDrive_new lba buffer s = (Err (lit "ATA timeout waiting for data"), s')).
Proof.
  intros Hs. split.
  - intros HP. destruct (wait_ready_timeout P HP s Hs) as (s' & Hrun & Hs'). exists s', s', s'.
    unfold drive_read_sector, drive_write_sector, identify. rewrite !(bind_err _ _ _ _ _ Hrun). by split_and!.
  - intros HE. destruct (empty_wait_ready P s HE Hs) as (s1 & H1 & Hs1). split_and!; [|done|done|].
    + destruct (empty_issue P s1 0xA0 0 0 0 0 ATA_CMD_IDENTIFY HE Hs1) as (s2 & H2 & Hs2). pose proof HE as [HE1 _].
      destruct (HE1 s2 Hs2) as [Hv Hp]. exists (port_in 8 ATA_PRIMARY_STATUS s2).2. split; [exact Hp|].
      unfold ata_init. rewrite (bind_err _ _ _ (lit "no drive detected") (mkAtaWorld None (port_in 8 ATA_PRIMARY_STATUS s2).2)); [done|].
      unfold on_ports, zoom, identify. cbn [aw_ports]. rewrite (bind_ok _ _ _ _ _ H1), (bind_ok _ _ _ _ _ H2).
      unfold mbind, M_bind, inb. cbn [a_status AtaDrive_new]. destruct (port_in 8 ATA_PRIMARY_STATUS s2) as [v s3]. cbn [fst snd] in *.
      by rewrite Hv.
    + destruct (empty_issue P s1 (Z.lor 0xE0 (Z.land (Z.shiftr lba 24) 0x0F)) 1 (Z.land lba 0xFF) (Z.land (Z.shiftr lba 8) 0xFF)
        (Z.land (Z.shiftr lba 16) 0xFF) ATA_CMD_READ_SECTORS HE Hs1) as (s2 & H2 & Hs2).
      destruct (wait_data_timeout P) with (s := s2) as (s3 & H3 & Hs3); [|exact Hs2|].
      * intros s0 Hs0. destruct HE as [HE1 _]. destruct (HE1 s0 Hs0) as [Hv Hp]. apply Z.eqb_eq in Hv. by rewrite Hv.
      * exists s3. split; [exact Hs3|]. unfold drive_read_sector, issue_lba.
        by rewrite (bind_ok _ _ _ _ _ H1), (bind_ok _ _ _ _ _ H2), (bind_err _ _ _ _ _ H3).
Qed.
End errors.
