(* ===== verification/AtaDemo.v ===== *)
(** * AtaDemo: a drive that keeps the promises of [AtaLaws]

    The drive of [AtaFacts] as a program: two polls busy after a command, the words of
    one sector, and back to idle.  What it shows beside [BSY] and whether its writes
    fail are settings.  The theorems about the driver are run on it, and on the settings
    with which it goes astray the driver is seen to take what is not data for data and a
    failed write for a good one. *)
From Stdlib Require Import ZArith Lia.
From stdpp Require Import base numbers option list gmap.
From S2P Require Import Prelude Hw Block Ata AtaFacts.

(** The sectors that are sectors. *)
Definition formatted (p : gmap Z bytes) : gmap Z bytes :=
  filter (fun kb : Z * bytes => length kb.2 = 512%nat /\ Forall is_byte kb.2) p.
Definition normal (v : Drive) : Drive := set_platter (formatted (platter v)) v.

Record DemoDrive := mkDemo {
  dd : Drive;
  beside_busy : Z;       (* bits of the status beside [BSY] *)
  bad_write : bool;
  seen : list Trouble
}.

Definition set_dd (d : Drive) (v : DemoDrive) : DemoDrive := mkDemo d (beside_busy v) (bad_write v) (seen v).
Definition record (t : Trouble) (v : DemoDrive) : DemoDrive := mkDemo (dd v) (beside_busy v) (bad_write v) (t :: seen v).

Definition status_of (v : DemoDrive) : Z :=
  match delay (dd v), stage (dd v) with
  | Datatypes.S _, _ => Z.lor ATA_SR_BSY (beside_busy v)
  | O, Idle e => if e then Z.lor ATA_SR_DRDY ATA_SR_ERR else ATA_SR_DRDY
  | O, _ => Z.lor ATA_SR_DRDY ATA_SR_DRQ
  end.

(** The status is read, and a poll later. *)
Definition polled (v : DemoDrive) : DemoDrive :=
  let v' := set_dd (set_stage (pred (delay (dd v))) (stage (dd v)) (dd v)) v in
  if plain (delay (dd v)) (stage (dd v)) (status_of v) then v' else record Unclear v'.

Definition LATENCY : nat := 2.

Definition on_command (command : Z) (v : Drive) : Drive :=
  if command =? ATA_CMD_IDENTIFY then set_stage LATENCY (DataIn (replicate 256 0x4142)) v
  else match platter (normal v) !! reg_lba v with
       | Some b => set_stage LATENCY (if command =? ATA_CMD_READ_SECTORS then DataIn (sector_words b) else DataOut (reg_lba v) []) v
       | None => set_stage LATENCY (Idle true) v
       end.

Definition on_word (w : Z) (v : DemoDrive) : DemoDrive :=
  match stage (dd v) with
  | DataOut lba got =>
      if (length got <? 255)%nat then set_dd (set_stage 0 (DataOut lba (got ++ [w])) (dd v)) v
      else if bad_write v then record WriteFault (set_dd (set_stage LATENCY (Idle true) (dd v)) v)
      else set_dd (set_platter (<[lba := words_bytes (got ++ [w])]> (platter (dd v))) (set_stage LATENCY (Idle false) (dd v))) v
  | _ => v
  end.

#[export] Instance demo_drive : Hw DemoDrive := {
  port_in width port v :=
    if port =? ATA_PRIMARY_STATUS then (status_of v, polled v)
    else match delay (dd v), stage (dd v) with
         | O, DataIn (w :: rest) => (w, set_dd (set_stage 0 (match rest with [] => Idle false | _ => DataIn rest end) (dd v)) v)
         | _, _ => (0, v)
         end;
  port_out width port value v :=
    if port =? ATA_PRIMARY_COMMAND then set_dd (on_command value (dd v)) v
    else if port =? ATA_PRIMARY_DATA then on_word value v
    else set_dd (set_register port value (dd v)) v;
  mmio_read _ v := (0, v);
  mmio_write _ _ v := v
}.

Lemma words_bytes_ok ws : length (words_bytes ws) = (2 * length ws)%nat /\ Forall is_byte (words_bytes ws).
Proof.
  induction ws as [|w ws [IHl IHb]]; [done|]. change (words_bytes (w :: ws)) with (to_le 2 w ++ words_bytes ws). split.
  - rewrite length_app, IHl, length_to_le. cbn [length]. lia.
  - apply Forall_app. split; [apply to_le_bytes|exact IHb].
Qed.

Lemma formatted_insert p lba b : length b = 512%nat -> Forall is_byte b -> formatted (<[lba := b]> p) = <[lba := b]> (formatted p).
Proof. intros Hl Hb. unfold formatted. by rewrite map_filter_insert_True. Qed.

Lemma demo_remembers t : ata_closed (fun v : DemoDrive => t ∈ seen v).
Proof.
  intros w p v s _ Hs. split; cbn [port_in port_out demo_drive snd].
  - destruct (p =? _); [exact Hs|]. destruct (p =? _); [|exact Hs]. unfold on_word. destruct (stage (dd s)); try exact Hs.
    destruct (_ <? _)%nat; [exact Hs|]. destruct (bad_write s); [by right|exact Hs].
  - destruct (p =? _); cbn [snd].
    + unfold polled. destruct (plain _ _ _); [exact Hs|by right].
    + by destruct (delay (dd s)), (stage (dd s)) as [|[]|].
Qed.

#[export] Instance demo_laws : AtaLaws DemoDrive.
Proof.
  refine {| drive := fun v => normal (dd v); went := fun t v => t ∈ seen v; went_for_good := demo_remembers |}.
  - intros v lba b Hb. cbn in Hb. by apply map_lookup_filter_Some in Hb as [_ ?].
  - intros v. cbn [port_in demo_drive]. change (ATA_PRIMARY_STATUS =? ATA_PRIMARY_STATUS) with true. cbv iota.
    unfold polled. change (delay (normal (dd v))) with (delay (dd v)). change (stage (normal (dd v))) with (stage (dd v)).
    destruct (plain _ _ _); [done|by left].
  - intros v e port value Hd Hs Hp Hv. cbn [port_out demo_drive]. unfold REGISTERS in Hp.
    repeat (apply elem_of_cons in Hp as [->|Hp]; [reflexivity|]). by apply elem_of_nil in Hp.
  - intros v e command Hd Hs Hsel Hc Hin. exists LATENCY, (stage (on_command command (dd v))).
    cbn [port_out demo_drive]. change (ATA_PRIMARY_COMMAND =? ATA_PRIMARY_COMMAND) with true. cbv iota. cbn [dd set_dd].
    unfold command_stage, on_command. change (reg_lba (normal (dd v))) with (reg_lba (dd v)).
    assert ((command =? ATA_CMD_IDENTIFY) = false) as -> by (repeat (apply elem_of_cons in Hin as [->|Hin]; [reflexivity|]); by apply elem_of_nil in Hin).
    destruct (platter (normal (dd v)) !! reg_lba (dd v)); (split; [done|]; split; [by left|left]); cbn; [|done]. by destruct (command =? ATA_CMD_READ_SECTORS).
  - intros v e Hd Hs Hsel. exists LATENCY, (replicate 256 0x4142). by split_and!; [rewrite length_replicate| |left].
  - intros v w rest Hd Hs. cbn [port_in demo_drive]. cbn in Hs, Hd. by rewrite Hd, Hs.
  - intros v lba got w Hd Hs Hl Hw. cbn [port_out demo_drive]. cbn in Hs. unfold on_word. rewrite Hs.
    apply Nat.ltb_lt in Hl. by rewrite Hl.
  - intros v lba got w Hd Hs Hl Hw. exists LATENCY, (bad_write v). split; [by left|]. cbn [port_out demo_drive]. cbn in Hs. unfold on_word. cbn. rewrite Hs, Hl. cbn.
    destruct (bad_write v); cbn; [by left|].
    unfold normal. cbn. rewrite formatted_insert; [done|..]; apply words_bytes_ok || (destruct (words_bytes_ok (got ++ [w])) as [E ?]; rewrite E, length_app, Hl; done).
Defined.

(** A drive that shows nothing beside [BSY] and stores what it is given never goes astray. *)
Definition sound (v : DemoDrive) : Prop := beside_busy v = 0 /\ bad_write v = false /\ seen v = [].

Lemma sound_plain v : sound v -> plain (delay (dd v)) (stage (dd v)) (status_of v) = true.
Proof. intros (Hb & _). unfold status_of. rewrite Hb. by destruct (delay (dd v)), (stage (dd v)) as [[]| |]. Qed.

Lemma sound_closed : ata_closed sound.
Proof.
  intros w p v s _ Hs. pose proof Hs as (Hb & Hw & He). split; cbn [port_in port_out demo_drive snd].
  - destruct (p =? _); [exact Hs|]. destruct (p =? _); [|exact Hs]. unfold on_word. destruct (stage (dd s)); try exact Hs.
    destruct (_ <? _)%nat; [exact Hs|]. rewrite Hw. exact Hs.
  - destruct (p =? _); cbn [snd].
    + unfold polled. rewrite sound_plain by done. exact Hs.
    + by destruct (delay (dd s)), (stage (dd s)) as [|[]|].
Qed.

Lemma sound_not_astray v : sound v -> ~ astray v.
Proof. intros (_ & _ & He) [t Ht]. cbn in Ht. rewrite He in Ht. by apply elem_of_nil in Ht. Qed.

(** ** Runs *)
Definition demo_disk : DemoDrive := mkDemo (mkDrive 0 0 0 0 0 0 (Idle false) {[ 5 := replicate 512 7 ]}) 0 false [].

Lemma demo_disk_ready : ready demo_disk.
Proof. split; [done|by exists false]. Qed.

(** Find the drive, write sector 5, read it back under its alias, and read past the end. *)
Definition demo_session : M (AtaWorld DemoDrive) rstr (bytes * bytes) :=
  ata_init ;;
  b0 ← bd_read_sector tt 5;
  bd_write_sector tt 5 (replicate 512 0xA5) ;;
  b1 ← bd_read_sector tt (2 ^ 28 + 5);
  mret (b0, b1).

Example demo_session_runs :
  (demo_session (mkAtaWorld None demo_disk)).1 = Ok (replicate 512 7, replicate 512 0xA5)
  /\ ((ata_init ;; bd_read_sector tt 6) (mkAtaWorld None demo_disk)).1 = Err (lit "ATA error").
Proof. split; vm_compute; reflexivity. Qed.

(** A drive that shows [DRQ] beside [BSY], and one whose writes fail. *)
Definition hasty_disk : DemoDrive := mkDemo (dd demo_disk) ATA_SR_DRQ false [].
Definition faulty_disk : DemoDrive := mkDemo (dd demo_disk) 0 true [].

(** [wait_data] believes the first, and the driver takes what is not there for the sector. *)
Example data_taken_while_busy :
  let (o, v) := drive_read_sector AtaDrive_new 5 (replicate 512 0) hasty_disk in
  o = Ok (replicate 512 0) /\ platter (dd v) !! 5 = Some (replicate 512 7) /\ seen v = [Unclear].
Proof. vm_compute. by split_and!. Qed.

(** [write_sector] reports success of a write that failed, and the sector is the old one. *)
Example failed_write_reported_done :
  let (o, v) := drive_write_sector AtaDrive_new 5 (replicate 512 0xA5) faulty_disk in
  o = Ok tt /\ bit_set (status_of v) ATA_SR_ERR = true /\ platter (dd v) !! 5 = Some (replicate 512 7).
Proof. vm_compute. by split_and!. Qed.

Lemma AtaDisk_array_witness :
  let w := mkAtaWorld (Some AtaDrive_new) demo_disk in
  attached w /\ (exists w', ata_init (mkAtaWorld None demo_disk) = (Ok tt, w') /\ attached w')
  /\ (exists w', bd_read_sector tt (2 ^ 28 + 5) w = (Ok (replicate 512 7), w') /\ disk_of w' = disk_of w)
  /\ (exists w', bd_write_sector tt 5 (replicate 512 0xA5) w = (Ok tt, w') /\ disk_of w' = <[5 := replicate 512 0xA5]> (disk_of w))
  /\ (exists w', bd_write_sector tt 6 (replicate 512 0xA5) w = (Err (lit "ATA error"), w') /\ disk_of w' = disk_of w).
Proof.
  set (w := mkAtaWorld (Some AtaDrive_new) demo_disk). assert (attached w) as Ha by (split; [done|apply demo_disk_ready]).
  assert (disk_of w = {[ 5 := replicate 512 7 ]}) as Hw.
  { unfold disk_of, w. cbn [aw_ports drive demo_laws]. unfold normal, demo_disk, formatted. cbn [dd platter set_platter].
    apply map_filter_singleton_True. split; [done|by_decide]. }
  assert (forall w', sound (aw_ports w') -> ~ gone w') as Hs by (intros w'; apply sound_not_astray).
  assert (sound (aw_ports w)) as Hsw by done. assert (its_drive w) as Hid by (right; apply Ha). clearbody w.
  split; [exact Ha|]. split_and!.
  - set (w0 := mkAtaWorld None demo_disk). assert (sound (aw_ports w0)) as Hs0 by done. pose proof demo_disk_ready as Hr0.
    change demo_disk with (aw_ports w0) in Hr0. clearbody w0.
    destruct (AtaDisk_array w0 5 []) as (_ & Hi & _). specialize (Hi Hr0).
    pose proof (ata_init_ends sound sound_closed w0 Hs0) as (w1 & Hs1 & He). destruct (ata_init w0) as [o w']. destruct Hi as [Hg|(-> & Ha' & _)]; [|by exists w'].
    destruct He as [[[= -> ->] _]|(e & [= -> ->] & _)]; by apply Hs in Hs1.
  - destruct (AtaDisk_array w (2 ^ 28 + 5) []) as (_ & _ & Hr & _). specialize (Hr Ha ltac:(done)).
    pose proof (ata_read_ends sound sound_closed true (2 ^ 28 + 5) (replicate 512 0) w Hid Hsw) as He.
    cbn [bd_read_sector AtaDisk_device] in *. destruct (ata_read_sector _ _ w) as [o w']. destruct He as [Hs1 _].
    destruct Hr as [Hg|(_ & Hd & ->)]; [by apply Hs in Hs1|]. exists w'. split; [|exact Hd]. rewrite Hw.
    change ((2 ^ 28 + 5) mod 2 ^ 28) with 5. by rewrite lookup_singleton_eq.
  - destruct (AtaDisk_array w 5 (replicate 512 0xA5)) as (_ & _ & _ & Hr). specialize (Hr Ha ltac:(done) ltac:(done) ltac:(by_decide)).
    pose proof (ata_write_ends sound sound_closed true 5 (replicate 512 0xA5) w Hid ltac:(done) Hsw) as He.
    cbn [bd_write_sector AtaDisk_device] in *. destruct (ata_write_sector _ _ w) as [o w']. destruct He as [Hs1 _].
    destruct Hr as [Hg|(_ & Hd)]; [by apply Hs in Hs1|]. exists w'. rewrite Hw in Hd |- *. change (5 mod 2 ^ 28) with 5 in Hd.
    rewrite lookup_singleton_eq in Hd. by destruct Hd as [-> Hd].
  - destruct (AtaDisk_array w 6 (replicate 512 0xA5)) as (_ & _ & _ & Hr). specialize (Hr Ha ltac:(done) ltac:(done) ltac:(by_decide)).
    pose proof (ata_write_ends sound sound_closed true 6 (replicate 512 0xA5) w Hid ltac:(done) Hsw) as He.
    cbn [bd_write_sector AtaDisk_device] in *. destruct (ata_write_sector _ _ w) as [o w']. destruct He as [Hs1 _].
    destruct Hr as [Hg|(_ & Hd)]; [by apply Hs in Hs1|]. exists w'. rewrite Hw in Hd |- *. change (6 mod 2 ^ 28) with 6 in Hd.
    rewrite lookup_singleton_ne in Hd by done. by destruct Hd as [-> Hd].
Defined.

(** A channel on which every read delivers the same value. *)
#[export] Instance floating : Hw Z := {
  port_in _ _ v := (v, v); port_out _ _ _ v := v; mmio_read _ v := (v, v); mmio_write _ _ v := v
}.

Lemma ata_no_answer_witness :
  (exists s1, drive_read_sector AtaDrive_new 5 [] 0xFF = (Err (lit "ATA timeout waiting for ready"), s1))
  /\ (exists s', ata_init (mkAtaWorld None 0) = (Err (lit "no drive detected"), mkAtaWorld None s')).
Proof.
  split.
  - destruct (ata_no_answer (fun s : Z => s = 0xFF) 0xFF 5 [] eq_refl) as [Hb _].
    destruct Hb as (s1 & _ & _ & _ & _ & _ & Hr & _); [by intros s ->|]. by exists s1.
  - destruct (ata_no_answer (fun s : Z => s = 0) 0 5 [] eq_refl) as [_ He].
    destruct He as [(s' & _ & Hi) _]; [split; [by intros s ->|done]|]. by exists s'.
Defined.
