(* ===== verification/Apic.v ===== *)
(** * Apic: interrupt controllers, timer and keyboard controller

    [vcore/src/cpu/apic.rs].  The port accesses are those of [Hw]; the two APICs are
    device registers behind [LAPIC_VIRT] and [IOAPIC_VIRT], mapped by [init].  The code
    polls without a limit, so a poll takes fuel here ([PATIENCE]) and is [Hang]
    without it. *)
From Stdlib Require Import ZArith Lia.
From stdpp Require Import base numbers option list.
From S2P Require Import Prelude Memory Pmm Vmm Hw.

Definition LAPIC_VIRT : Z := 0xFFFFFFFFFEE00000.
Definition LAPIC_PHYS : Z := 0xFEE00000.

Definition IOAPIC_VIRT : Z := 0xFFFFFFFFFEC00000.
Definition IOAPIC_PHYS : Z := 0xFEC00000.

Definition LAPIC_ID : Z := 0x020.
Definition LAPIC_EOI : Z := 0x0B0.
Definition LAPIC_SPURIOUS : Z := 0x0F0.
Definition LAPIC_TIMER_LVT : Z := 0x320.
Definition LAPIC_TIMER_INIT : Z := 0x380.
Definition LAPIC_TIMER_CURRENT : Z := 0x390.
Definition LAPIC_TIMER_DIV : Z := 0x3E0.

Definition IOAPIC_REG_SELECT : Z := 0x00.
Definition IOAPIC_REG_DATA : Z := 0x10.

Definition IOAPIC_ID : Z := 0x00.
Definition IOAPIC_VER : Z := 0x01.
Definition IOAPIC_REDTBL_BASE : Z := 0x10.

Definition PIT_FREQ : Z := 1193182.
Definition CALIBRATE_MS : Z := 10.

(** [interrupts.rs]. *)
Definition TIMER_VECTOR : Z := 32.
Definition KEYBOARD_VECTOR : Z := 33.
Definition SPURIOUS_VECTOR : Z := 255.

(** The statics the set-up touches, and the machine. *)
Record ApicWorld (S : Type) := mkApic {
  TICKS_PER_MS : Z;
  ap_vm : VmState;
  ap_ports : S
}.
Arguments mkApic {S}.
Arguments TICKS_PER_MS {S}.
Arguments ap_vm {S}.
Arguments ap_ports {S}.

Section apic.
Context {S : Type} `{Hw S} {X : Paging} (PATIENCE : nat).
Abbreviation IO := (M S rstr).

Definition disable_pic : IO unit :=
  let pic1_cmd := 0x20 in
  let pic1_data := 0x21 in
  let pic2_cmd := 0xA0 in
  let pic2_data := 0xA1 in
  outb pic1_cmd 0x11 ;;
  outb pic2_cmd 0x11 ;;

  outb pic1_data 0x20 ;;
  outb pic2_data 0x28 ;;

  outb pic1_data 4 ;;
  outb pic2_data 2 ;;

  outb pic1_data 0x01 ;;
  outb pic2_data 0x01 ;;

  outb pic1_data 0xFF ;;
  outb pic2_data 0xFF.

Definition lapic_read (offset : Z) : IO Z := read_volatile (LAPIC_VIRT +w64 offset).

Definition lapic_write (offset value : Z) : IO unit := write_volatile (LAPIC_VIRT +w64 offset) value.

Definition ioapic_read (reg : Z) : IO Z :=
  let select := IOAPIC_VIRT in
  let data := IOAPIC_VIRT +w64 IOAPIC_REG_DATA in
  write_volatile select reg ;;
  read_volatile data.

Definition ioapic_write (reg value : Z) : IO unit :=
  let select := IOAPIC_VIRT in
  let data := IOAPIC_VIRT +w64 IOAPIC_REG_DATA in
  write_volatile select reg ;;
  write_volatile data value.

Definition ioapic_set_irq (irq vector : Z) : IO unit :=
  let redtbl_reg := u32 (IOAPIC_REDTBL_BASE + u32 (irq * 2)) in
  ioapic_write redtbl_reg vector ;;
  ioapic_write (u32 (redtbl_reg + 1)) 0.

(** The value for [TICKS_PER_MS]. *)
Definition calibrate_timer : IO Z :=
  let pit_cmd := 0x43 in
  let pit_ch2 := 0x42 in
  let pit_gate := 0x61 in

  let divisor := u32 (PIT_FREQ / 1000 * CALIBRATE_MS) in

  outb pit_cmd 0xB2 ;;

  gate ← inb pit_gate;
  outb pit_gate (Z.lor gate 0x01) ;;

  outb pit_ch2 (u8 (Z.land divisor 0xFF)) ;;
  outb pit_ch2 (u8 (Z.shiftr divisor 8)) ;;

  lapic_write LAPIC_TIMER_DIV 0x3 ;;
  lapic_write LAPIC_TIMER_INIT 0xFFFFFFFF ;;

  wait_while PATIENCE pit_gate (fun v => Z.land v 0x20 =? 0) ;;

  current ← lapic_read LAPIC_TIMER_CURRENT;
  let elapsed := u32 (0xFFFFFFFF - current) in

  lapic_write LAPIC_TIMER_INIT 0 ;;

  mret (elapsed / CALIBRATE_MS).

Definition init_keyboard_controller : IO unit :=
  let cmd_port := 0x64 in
  let data_port := 0x60 in

  wait_while PATIENCE cmd_port (fun v => negb (Z.land v 0x02 =? 0)) ;;

  outb cmd_port 0xAD ;;

  wait_while PATIENCE cmd_port (fun v => negb (Z.land v 0x02 =? 0)) ;;

  outb cmd_port 0xA7 ;;

  _ ← inb data_port;

  wait_while PATIENCE cmd_port (fun v => negb (Z.land v 0x02 =? 0)) ;;
  outb cmd_port 0x20 ;;
  wait_while PATIENCE cmd_port (fun v => Z.land v 0x01 =? 0) ;;
  config ← inb data_port;

  let config := Z.lor config 0x01 in
  let config := Z.land config (Z.lxor 0xFF 0x40) in

  wait_while PATIENCE cmd_port (fun v => negb (Z.land v 0x02 =? 0)) ;;
  outb cmd_port 0x60 ;;
  wait_while PATIENCE cmd_port (fun v => negb (Z.land v 0x02 =? 0)) ;;
  outb data_port config ;;

  wait_while PATIENCE cmd_port (fun v => negb (Z.land v 0x02 =? 0)) ;;
  outb cmd_port 0xAE ;;

  loop PATIENCE (fun _ : unit =>
    v ← inb cmd_port;
    if negb (Z.land v 0x01 =? 0) then _ ← inb data_port; mret (inl tt) else mret (inr tt)) tt.

(** ** [init] *)
Definition on_machine {A} (m : IO A) : M (ApicWorld S) rstr A :=
  zoom ap_ports (fun s w => mkApic (TICKS_PER_MS w) (ap_vm w) s) m.

Definition on_vm {A} (m : M VmState rstr A) : M (ApicWorld S) rstr A :=
  zoom ap_vm (fun v w => mkApic (TICKS_PER_MS w) v (ap_ports w)) m.

(** [vmm::map_page(VirtAddr::new(..), PhysAddr::new(..), flags).expect(..)]. *)
Definition map_or_panic (virt phys flags : Z) : M (ApicWorld S) rstr unit :=
  virt ← on_vm (VirtAddr_new virt);
  phys ← on_vm (PhysAddr_new phys);
  r ← catch (on_vm (map_page virt phys flags));
  unwrap r.

(** [PageTableFlags::NO_CACHE] is of the crate. *)
Definition apic_init (NO_CACHE : Z) : M (ApicWorld S) rstr unit :=
  on_machine disable_pic ;;

  let flags := Z.lor (Z.lor PRESENT WRITABLE) NO_CACHE in

  map_or_panic LAPIC_VIRT LAPIC_PHYS flags ;;

  map_or_panic IOAPIC_VIRT IOAPIC_PHYS flags ;;

  on_machine (lapic_write LAPIC_SPURIOUS (Z.lor 0x100 SPURIOUS_VECTOR)) ;;

  ticks_per_ms ← on_machine calibrate_timer;
  w ← get;
  put (mkApic ticks_per_ms (ap_vm w) (ap_ports w)) ;;

  w ← get;
  let ticks_10ms := u32 (TICKS_PER_MS w * 10) in
  on_machine (
    lapic_write LAPIC_TIMER_DIV 0x3 ;;
    lapic_write LAPIC_TIMER_LVT (Z.lor (Z.shiftl 1 17) TIMER_VECTOR) ;;
    lapic_write LAPIC_TIMER_INIT ticks_10ms) ;;

  on_machine init_keyboard_controller ;;
  on_machine (ioapic_set_irq 1 KEYBOARD_VECTOR).
End apic.
