(* ===== verification/Board.v ===== *)
(** * Board: the interrupt hardware as software sees it

    What [Apic.v] and [Interrupts.v] drive: the two 8259 interrupt controllers, the
    8254's channel 2, the local APIC, the I/O APIC and the 8042 keyboard controller.
    [BoardLaws] says how each access moves the [Board], and what the two timers show as
    time passes; how long an access and a device take and when a byte arrives from the
    keyboard are left open. *)
From Stdlib Require Import ZArith Lia.
From stdpp Require Import base numbers option list gmap.
From S2P Require Import Prelude Memory Pmm Vmm Hw Apic.

Definition bit_on (v n : Z) : bool := Z.testbit v n.

(** ** The 8259, after ICW1 = 0x11: ICW2 to ICW4 follow, then the mask *)
Record Pic := mkPic { icw : nat; vector_base : Z; imr : Z }.

Definition pic_cmd (v : Z) (p : Pic) : Pic := if bit_on v 4 then mkPic 1 (vector_base p) 0 else p.
Definition pic_data (v : Z) (p : Pic) : Pic :=
  match icw p with
  | 0 => mkPic 0 (vector_base p) v
  | 1 => mkPic 2 (Z.land v 0xF8) (imr p)
  | 2 => mkPic 3 (vector_base p) (imr p)
  | _ => mkPic 0 (vector_base p) (imr p)
  end%nat.

(** ** Channel 2 of the 8254, as a one-shot (mode 1) *)
Record Pit := mkPit {
  pit_mode : Z;
  pit_low : option Z;      (* the low byte of a count, when it has come *)
  pit_count : option Z;    (* the count loaded since the mode was set *)
  pit_gate : bool;
  pit_due : option Z       (* when its output rises, once it counts *)
}.

(** Channel 2, low byte then high byte, mode 1. *)
Definition PIT_ONE_SHOT : Z := 0xB2.

Definition set_mode (v : Z) (p : Pit) : Pit := mkPit v None None (pit_gate p) None.
Definition set_low (l : option Z) (p : Pit) : Pit := mkPit (pit_mode p) l (pit_count p) (pit_gate p) (pit_due p).
Definition set_gate (g : bool) (p : Pit) : Pit := mkPit (pit_mode p) (pit_low p) (pit_count p) g (pit_due p).
Definition set_count (c : Z) (due : option Z) (p : Pit) : Pit := mkPit (pit_mode p) None (Some c) (pit_gate p) due.

(** ** The 8042 *)
Inductive KAction := KNone | KCommand (v : Z) | KData (v : Z).

Record Kbc := mkKbc {
  kb_delay : nat;             (* polls until the last byte written is taken *)
  kb_action : KAction;        (* .. and what it asks for *)
  kb_param : bool;            (* the next data byte is the configuration *)
  kb_config : Z;
  kb_output : option Z;       (* the output buffer *)
  kb_queue : list Z           (* what the keyboard still has to send *)
}.

Definition kb_enabled (k : Kbc) : bool := negb (bit_on (kb_config k) 4).
Definition set_output (o : option Z) (q : list Z) (k : Kbc) : Kbc :=
  mkKbc (kb_delay k) (kb_action k) (kb_param k) (kb_config k) o q.
Definition set_config (c : Z) (p : bool) (k : Kbc) : Kbc :=
  mkKbc (kb_delay k) (kb_action k) p c (kb_output k) (kb_queue k).
Definition set_pending (n : nat) (a : KAction) (k : Kbc) : Kbc :=
  mkKbc n a (kb_param k) (kb_config k) (kb_output k) (kb_queue k).

(** The last byte written takes effect. *)
Definition carry_out (k : Kbc) : Kbc :=
  let k0 := set_pending 0 KNone k in
  match kb_action k with
  | KNone => k0
  | KCommand v =>
      if v =? 0xAD then set_config (Z.lor (kb_config k) 0x10) (kb_param k) k0
      else if v =? 0xAE then set_config (Z.ldiff (kb_config k) 0x10) (kb_param k) k0
      else if v =? 0xA7 then set_config (Z.lor (kb_config k) 0x20) (kb_param k) k0
      else if v =? 0x20 then set_output (Some (kb_config k)) (kb_queue k) k0
      else if v =? 0x60 then set_config (kb_config k) true k0
      else k0
  | KData v => if kb_param k then set_config v false k0 else k0
  end.

(** Where it ends up. *)
Definition settled (k : Kbc) : Kbc := match kb_delay k with O => k | _ => carry_out k end.

Definition poll (k : Kbc) : Kbc :=
  match kb_delay k with O => k | Datatypes.S O => carry_out k | Datatypes.S n => set_pending n (kb_action k) k end.

Definition start (n : nat) (a : KAction) (k : Kbc) : Kbc :=
  match n with O => carry_out (set_pending 0 a k) | _ => set_pending n a k end.

(** An enabled keyboard may put its next byte into the empty buffer at any time. *)
Definition drift (k k' : Kbc) : Prop :=
  k' = k \/ kb_enabled k = true /\ kb_output k = None /\ exists b q, kb_queue k = b :: q /\ k' = set_output (Some b) q k.

(** ** The board *)
Record Board := mkBoard {
  pic1 : Pic;
  pic2 : Pic;
  pit : Pit;
  lapic : gmap Z Z;        (* by offset *)
  ioregsel : Z;
  ioregs : gmap Z Z;
  kbc : Kbc
}.

Definition set_pic1 (p : Pic) (b : Board) : Board := mkBoard p (pic2 b) (pit b) (lapic b) (ioregsel b) (ioregs b) (kbc b).
Definition set_pic2 (p : Pic) (b : Board) : Board := mkBoard (pic1 b) p (pit b) (lapic b) (ioregsel b) (ioregs b) (kbc b).
Definition set_pit (p : Pit) (b : Board) : Board := mkBoard (pic1 b) (pic2 b) p (lapic b) (ioregsel b) (ioregs b) (kbc b).
Definition set_lapic (l : gmap Z Z) (b : Board) : Board := mkBoard (pic1 b) (pic2 b) (pit b) l (ioregsel b) (ioregs b) (kbc b).
Definition set_io (sel : Z) (r : gmap Z Z) (b : Board) : Board := mkBoard (pic1 b) (pic2 b) (pit b) (lapic b) sel r (kbc b).
Definition set_kbc (k : Kbc) (b : Board) : Board := mkBoard (pic1 b) (pic2 b) (pit b) (lapic b) (ioregsel b) (ioregs b) k.

(** What a write to a port does, where nothing is left open. *)
Definition board_out (port v : Z) (b : Board) : option Board :=
  if port =? 0x20 then Some (set_pic1 (pic_cmd v (pic1 b)) b)
  else if port =? 0x21 then Some (set_pic1 (pic_data v (pic1 b)) b)
  else if port =? 0xA0 then Some (set_pic2 (pic_cmd v (pic2 b)) b)
  else if port =? 0xA1 then Some (set_pic2 (pic_data v (pic2 b)) b)
  else if port =? 0x43 then if v =? PIT_ONE_SHOT then Some (set_pit (set_mode v (pit b)) b) else None
  else if port =? 0x61 then
    (* the gate; raised on a loaded count it starts the one-shot *)
    if bit_on v 0 && negb (pit_gate (pit b)) && bool_decide (is_Some (pit_count (pit b))) then None
    else Some (set_pit (set_gate (bit_on v 0) (pit b)) b)
  else None.

Definition LAPIC_REGISTERS : list Z := [LAPIC_EOI; LAPIC_SPURIOUS; LAPIC_TIMER_LVT; LAPIC_TIMER_INIT; LAPIC_TIMER_DIV].

(** The values of a function of time that an access may show. *)
Definition during (t0 t1 t : Z) : Prop := t0 <= t <= t1.

(** Time is counted in cycles of the processor. *)
Class BoardLaws (S : Type) `{Hw S} := {
  board : S -> Board;
  latency : nat;
  now : S -> Z;
  loaded : S -> Z;           (* when the local APIC's timer last took its initial count *)
  access_time : Z;           (* the most an access takes *)
  tick : Z;                  (* a tick of that timer, its clock divided by 16 *)
  tick_pos : 0 < tick;
  pit_time : Z -> Z;         (* how long channel 2 takes to count so far down *)
  pit_time_bound c : 0 <= c < 2 ^ 16 -> 0 <= pit_time c <= Z.of_nat latency;
  (** By its data sheet a one-shot counts from a rising edge of its gate on, after its count is loaded; the
      code expects that it counts from the load on.  A board does one or the other. *)
  counts_on_load : bool;
  clock_in w p s : now s < now (port_in w p s).2 <= now s + access_time /\ loaded (port_in w p s).2 = loaded s;
  clock_out w p v s : now s < now (port_out w p v s) <= now s + access_time /\ loaded (port_out w p v s) = loaded s;
  clock_read a s : now s < now (mmio_read a s).2 <= now s + access_time /\ loaded (mmio_read a s).2 = loaded s;
  clock_write a v s : let s' := mmio_write a v s in now s < now s' <= now s + access_time
    /\ if a =? LAPIC_VIRT + LAPIC_TIMER_INIT then during (now s) (now s') (loaded s') else loaded s' = loaded s;
  out_board s port v b : board_out port v (board s) = Some b -> board (port_out 8 port v s) = b;
  lapic_store s off v : off ∈ LAPIC_REGISTERS ->
    board (mmio_write (LAPIC_VIRT + off) v s) = set_lapic (<[off := v]> (lapic (board s))) (board s);
  ioapic_select s v : board (mmio_write IOAPIC_VIRT v s) = set_io v (ioregs (board s)) (board s);
  ioapic_store s v :
    board (mmio_write (IOAPIC_VIRT + IOAPIC_REG_DATA) v s)
    = set_io (ioregsel (board s)) (<[ioregsel (board s) := v]> (ioregs (board s))) (board s);
  timer_current s : let (v, s') := mmio_read (LAPIC_VIRT + LAPIC_TIMER_CURRENT) s in 0 <= v < 2 ^ 32 /\ board s' = board s
    /\ forall c, lapic (board s) !! LAPIC_TIMER_DIV = Some 3 -> lapic (board s) !! LAPIC_TIMER_INIT = Some c -> 0 <= c < 2 ^ 32 ->
       exists t, during (now s) (now s') t /\ let elapsed := (t - loaded s) / tick in 0 <= elapsed <= c -> v = c - elapsed;
  (** A count is loaded low byte first. *)
  pit_load_low s v : pit_mode (pit (board s)) = PIT_ONE_SHOT -> pit_low (pit (board s)) = None ->
    board (port_out 8 0x42 v s) = set_pit (set_low (Some v) (pit (board s))) (board s);
  pit_load_high s l v : pit_mode (pit (board s)) = PIT_ONE_SHOT -> pit_low (pit (board s)) = Some l -> pit_due (pit (board s)) = None ->
    let s' := port_out 8 0x42 v s in let c := l + 256 * v in
    exists t, during (now s) (now s') t
      /\ board s' = set_pit (set_count c (if counts_on_load then Some (t + pit_time c) else None) (pit (board s))) (board s);
  (** The output of a one-shot is up, but while it counts. *)
  pit_out s : pit_mode (pit (board s)) = PIT_ONE_SHOT ->
    let (v, s') := port_in 8 0x61 s in is_byte v /\ board s' = board s
      /\ exists t, during (now s) (now s') t /\ bit_on v 5 = match pit_due (pit (board s)) with Some due => due <=? t | None => true end;
  kbc_status s : let (v, s') := port_in 8 0x64 s in exists k, drift (kbc (board s)) k
    /\ bit_on v 0 = bool_decide (is_Some (kb_output k)) /\ bit_on v 1 = negb (Nat.eqb (kb_delay k) 0)
    /\ board s' = set_kbc (poll k) (board s);
  kbc_read s : let (v, s') := port_in 8 0x60 s in exists k, drift (kbc (board s)) k
    /\ (forall b, kb_output k = Some b -> v = b) /\ board s' = set_kbc (set_output None (kb_queue k) k) (board s);
  kbc_command s v : kb_delay (kbc (board s)) = O -> exists k n, drift (kbc (board s)) k /\ (n <= latency)%nat
    /\ board (port_out 8 0x64 v s) = set_kbc (start n (KCommand v) k) (board s);
  kbc_data s v : kb_delay (kbc (board s)) = O -> exists k n, drift (kbc (board s)) k /\ (n <= latency)%nat
    /\ board (port_out 8 0x60 v s) = set_kbc (start n (KData v) k) (board s)
}.
