(* ===== verification/ApicFacts.v ===== *)
(** * ApicFacts: the interrupt hardware after set-up

    [Apic.v] on a machine with the devices of [Board.v]. *)
From Stdlib Require Import ZArith Lia.
From stdpp Require Import base numbers option list gmap.
From S2P Require Import Prelude Memory Pmm Vmm VmmFacts Heap KernelMap Hw Apic Board.

Section facts.
Context {S : Type} `{BL : BoardLaws S} {X : Paging} (PATIENCE : nat).
Abbreviation IO := (M S rstr).

(** ** Single accesses *)
Lemma out_run {E} s b b' p v : board s = b -> board_out p v b = Some b' ->
  runs (outb p v : M S E unit) s (fun _ s' => board s' = b').
Proof. intros <- Hb. apply runs_outb. by apply out_board. Qed.

Lemma ioapic_run s b reg v : board s = b ->
  runs (ioapic_write reg v) s (fun _ s' => board s' = set_io reg (<[reg := v]> (ioregs b)) b).
Proof.
  intros <-. unfold ioapic_write. apply (runs_bind _ _ _ (fun _ s' => board s' = set_io reg (ioregs (board s)) (board s))).
  { apply runs_write_volatile. apply ioapic_select. }
  intros _ s1 H1. apply runs_write_volatile. change (IOAPIC_VIRT +w64 IOAPIC_REG_DATA) with (IOAPIC_VIRT + IOAPIC_REG_DATA).
  rewrite ioapic_store, H1. done.
Qed.

(** .. and the time it takes. *)
Lemma lapic_timed s b off v : board s = b -> off ∈ LAPIC_REGISTERS ->
  runs (lapic_write off v) s (fun _ s' => board s' = set_lapic (<[off := v]> (lapic b)) b
    /\ now s < now s' <= now s + access_time
    /\ if off =? LAPIC_TIMER_INIT then during (now s) (now s') (loaded s') else loaded s' = loaded s).
Proof.
  intros <- Hin. assert (LAPIC_VIRT +w64 off = LAPIC_VIRT + off) as Ha.
  { apply u64_small. unfold LAPIC_VIRT. revert Hin. unfold LAPIC_REGISTERS.
    rewrite !elem_of_cons, elem_of_nil. intros [->|[->|[->|[->|[->|[]]]]]]; by split. }
  apply runs_write_volatile. rewrite Ha. split; [by apply lapic_store|].
  pose proof (clock_write (LAPIC_VIRT + off) v s) as [Hc Hl]. split; [exact Hc|].
  destruct (Z.eqb_spec off LAPIC_TIMER_INIT) as [->|Hne]; [by rewrite Z.eqb_refl in Hl|].
  destruct (Z.eqb_spec (LAPIC_VIRT + off) (LAPIC_VIRT + LAPIC_TIMER_INIT)); [lia|done].
Qed.

Lemma lapic_run s b off v : board s = b -> off ∈ LAPIC_REGISTERS ->
  runs (lapic_write off v) s (fun _ s' => board s' = set_lapic (<[off := v]> (lapic b)) b).
Proof. intros Hb Hin. eapply runs_weaken; [by apply lapic_timed|]. by intros _ s' [-> _]. Qed.

(** One statement of a sequence, by the lemma for it. *)
Ltac run_step lem s H :=
  eapply runs_bind; [eapply lem; [exact H|..]|]; [..|clear dependent s; cbn beta; intros _ s H].

Lemma disable_pic_run s b : board s = b ->
  runs disable_pic s (fun _ s' => board s' = set_pic1 (mkPic 0 0x20 0xFF) (set_pic2 (mkPic 0 0x28 0xFF) b)).
Proof.
  intros Hb. unfold disable_pic. do 9 (run_step @out_run s Hb; [reflexivity|]).
  eapply runs_weaken; [eapply out_run; [exact Hb|reflexivity]|]. intros _ s' ->. done.
Qed.

Lemma ioapic_set_irq_run s b irq vector : 0 <= irq < 256 -> board s = b ->
  runs (ioapic_set_irq irq vector) s (fun _ s' =>
    board s' = set_io (16 + 2 * irq + 1) (<[16 + 2 * irq + 1 := 0]> (<[16 + 2 * irq := vector]> (ioregs b))) b).
Proof.
  intros Hi Hb. unfold ioapic_set_irq, IOAPIC_REDTBL_BASE. rewrite (u32_small (irq * 2)), (u32_small (16 + irq * 2)), (u32_small (16 + irq * 2 + 1)) by lia.
  replace (16 + irq * 2) with (16 + 2 * irq) by lia.
  eapply runs_bind; [by apply ioapic_run|]. clear s Hb. cbn beta. intros _ s Hb.
  eapply runs_weaken; [by apply ioapic_run|]. cbn beta. by intros _ s' ->.
Qed.

(** ** The timer *)
Lemma gate_bit g : bit_on (Z.lor g 0x01) 0 = true.
Proof. unfold bit_on. rewrite Z.lor_spec. cbn. by rewrite orb_true_r. Qed.

Lemma mask_bit v n : 0 <= n -> (Z.land v (2 ^ n) =? 0) = negb (bit_on v n).
Proof.
  intros Hn. unfold bit_on. destruct (Z.testbit v n) eqn:Hb; cbn [negb].
  - apply Z.eqb_neq. intros Hz. assert (Z.testbit (Z.land v (2 ^ n)) n = false) as Hf by (rewrite Hz; apply Z.bits_0).
    rewrite Z.land_spec, Hb, Z.pow2_bits_true in Hf by done. done.
  - apply Z.eqb_eq, Z.bits_inj'. intros m Hm. rewrite Z.land_spec, Z.bits_0, Z.pow2_bits_eqb by done.
    destruct (Z.eqb_spec n m) as [->|]; [by rewrite Hb|by rewrite andb_false_r].
Qed.

(** Polling the output ends with the poll that finds it up: at once if nothing counts, and else
    within two accesses of the time it rises. *)
Lemma pit_wait_run s b p : board s = set_pit p b -> pit_mode p = PIT_ONE_SHOT ->
  (forall due, pit_due p = Some due -> (Z.to_nat (due - now s) < PATIENCE)%nat) -> (0 < PATIENCE)%nat ->
  runs (wait_while PATIENCE 0x61 (fun v => Z.land v 0x20 =? 0) : IO unit) s (fun _ s' =>
    board s' = board s /\ loaded s' = loaded s /\ now s <= now s'
    /\ match pit_due p with
       | None => now s' <= now s + access_time
       | Some due => due <= now s' <= Z.max (now s) (due + access_time) + access_time
       end).
Proof.
  intros Hs Hm Hp Hp0. apply runs_wait_while with
    (I := fun s1 => board s1 = board s /\ loaded s1 = loaded s /\ now s <= now s1
            /\ match pit_due p with None => now s1 = now s | Some due => now s1 <= Z.max (now s) (due + access_time) end)
    (variant := fun s1 => match pit_due p with None => 0%nat | Some due => Z.to_nat (due - now s1) end).
  - intros s1 (Hb & Hl & Hge & Hdue). pose proof (pit_out s1) as Ho. pose proof (clock_in 8 0x61 s1) as [Hc Hlk].
    rewrite Hb, Hs in Ho. cbn [pit set_pit] in Ho. specialize (Ho Hm).
    destruct (port_in 8 0x61 s1) as [v s2]. destruct Ho as (_ & Ho & t & Ht & Hv). cbn [snd] in *. unfold during in Ht.
    change 0x20 with (2 ^ 5). rewrite mask_bit, Hv by lia. rewrite Hs.
    destruct (pit_due p) as [due|]; cbn [negb]; [|split; [done|]; split; [congruence|lia]].
    destruct (Z.leb_spec due t); cbn [negb]; [split; [done|]; split; [congruence|lia]|].
    split; [|lia]. split; [done|]. split; [congruence|lia].
  - split; [done|]. split; [done|]. split; [lia|]. destruct (pit_due p); lia.
  - destruct (pit_due p) as [due|]; [by apply Hp|done].
Qed.

(** What the measured ticks per millisecond are: a tenth of the ticks the timer counted while the code
    waited for channel 2.  Where a loaded count is counted down, that was the time of 11930 of
    its clocks, ten milliseconds, up to the time of three accesses; where it waits for an edge of the
    gate, which has been raised by then, the code did not wait at all. *)
Definition calibrated (ticks_per_ms : Z) : Prop :=
  exists elapsed, (elapsed / tick <= 0xFFFFFFFF -> ticks_per_ms = elapsed / tick / 10)
    /\ if counts_on_load then pit_time 11930 - 3 * access_time <= elapsed <= pit_time 11930 + 3 * access_time
       else 0 <= elapsed <= 3 * access_time.

Lemma calibrate_timer_run s b : (latency < PATIENCE)%nat -> board s = b ->
  runs (calibrate_timer PATIENCE) s (fun t s' => 0 <= t * 10 < 2 ^ 32 /\ calibrated t
    /\ exists due, board s' = set_lapic (<[LAPIC_TIMER_INIT := 0]> (<[LAPIC_TIMER_INIT := 0xFFFFFFFF]> (<[LAPIC_TIMER_DIV := 3]> (lapic b))))
         (set_pit (mkPit PIT_ONE_SHOT None (Some 11930) true due) b)).
Proof.
  intros Hpat Hb. unfold calibrate_timer. run_step @out_run s Hb; [reflexivity|].
  apply (runs_bind _ _ _ (fun _ s' => board s' = set_pit (set_mode PIT_ONE_SHOT (pit b)) b)).
  { apply runs_inb. pose proof (pit_out s) as Ho. rewrite Hb in Ho. specialize (Ho eq_refl). destruct (port_in 8 0x61 s) as [v s'].
    by destruct Ho as (_ & Ho & _). }
  clear dependent s. intros gate s1 Hs1. run_step @out_run s1 Hs1.
  { unfold board_out. cbn. by rewrite andb_false_r. }
  change (Z.odd (Z.lor gate 1)) with (bit_on (Z.lor gate 1) 0) in Hs1. rewrite gate_bit in Hs1.
  apply (runs_bind _ _ _ (fun _ s' => board s' = set_pit (mkPit PIT_ONE_SHOT (Some 0x9A) None true None) b)).
  { apply runs_outb. rewrite pit_load_low by (by rewrite Hs1). by rewrite Hs1. }
  clear dependent s1. intros _ s1 Hs1.
  apply (runs_bind _ _ _ (fun _ s' => exists t, now s' - access_time <= t <= now s'
    /\ board s' = set_pit (mkPit PIT_ONE_SHOT None (Some 11930) true (if counts_on_load then Some (t + pit_time 11930) else None)) b)).
  { apply runs_outb. destruct (pit_load_high s1 0x9A (u8 (Z.shiftr (u32 (PIT_FREQ / 1000 * CALIBRATE_MS)) 8))) as (t & Ht & Hs2);
      [by rewrite Hs1..|]. exists t. rewrite Hs2, Hs1. split; [|done]. unfold during in Ht.
    pose proof (clock_out 8 0x42 (u8 (Z.shiftr (u32 (PIT_FREQ / 1000 * CALIBRATE_MS)) 8)) s1). lia. }
  clear dependent s1. intros _ s1 (t & Ht & Hs1).
  eapply runs_bind; [apply lapic_timed; [exact Hs1|by_decide]|]. cbn beta. intros _ s2 (Hs2 & Hc2 & _).
  eapply runs_bind; [apply lapic_timed; [exact Hs2|by_decide]|]. cbn beta. intros _ s3 (Hs3 & Hc3 & Hl3).
  change (LAPIC_TIMER_INIT =? LAPIC_TIMER_INIT) with true in Hl3. cbv iota in Hl3. unfold during in Hl3.
  set (p := mkPit PIT_ONE_SHOT None (Some 11930) true (if counts_on_load then Some (t + pit_time 11930) else None)) in *.
  change (board s3 = set_pit p (set_lapic (<[LAPIC_TIMER_INIT := 0xFFFFFFFF]> (<[LAPIC_TIMER_DIV := 3]> (lapic b))) b)) in Hs3.
  pose proof (pit_time_bound 11930 ltac:(lia)) as Hpt.
  eapply runs_bind; [eapply (pit_wait_run _ _ p); [exact Hs3|done| |lia]|].
  { unfold p. cbn. destruct counts_on_load; [|done]. intros due [= <-]. lia. }
  cbn beta. intros _ s4 (Hs4 & Hl4 & Hge4 & Hdue4). rewrite Hs3 in Hs4.
  apply (runs_bind _ _ _ (fun v s' => 0 <= v < 2 ^ 32 /\ board s' = board s4 /\ exists r, now s4 <= r <= now s4 + access_time
    /\ ((r - loaded s3) / tick <= 0xFFFFFFFF -> v = 0xFFFFFFFF - (r - loaded s3) / tick))).
  { apply runs_read_volatile. change (LAPIC_VIRT +w64 LAPIC_TIMER_CURRENT) with (LAPIC_VIRT + LAPIC_TIMER_CURRENT).
    pose proof (timer_current s4) as Hcu. pose proof (clock_read (LAPIC_VIRT + LAPIC_TIMER_CURRENT) s4) as [Hc _].
    destruct (mmio_read _ s4) as [v s5]. destruct Hcu as (Hv & Hb5 & Hcu). split; [exact Hv|]. split; [exact Hb5|].
    destruct (Hcu 0xFFFFFFFF) as (r & Hr & Hcur).
    - rewrite Hs4. cbn [lapic set_pit set_lapic]. rewrite lookup_insert_ne by done. apply lookup_insert_eq.
    - rewrite Hs4. apply lookup_insert_eq.
    - lia.
    - exists r. unfold during in Hr. cbn [snd] in Hc. rewrite Hl4 in Hcur. split; [lia|]. intros Hle. apply Hcur. split; [|exact Hle].
      apply Z.div_pos; [lia|apply tick_pos]. }
  intros v s5 (Hv & Hs5 & r & Hr & Hcur). rewrite Hs4 in Hs5. eapply runs_bind; [eapply lapic_run; [exact Hs5|by_decide]|]. cbn beta. intros _ s6 Hs6.
  apply runs_ret. rewrite u32_small by lia. unfold CALIBRATE_MS. split; [Z.div_mod_to_equations; lia|].
  split; [|eexists; rewrite Hs6; reflexivity].
  exists (r - loaded s3). split; [intros Hle; rewrite Hcur by done; f_equal; lia|]. unfold p in Hdue4. cbn in Hdue4.
  destruct counts_on_load; lia.
Qed.

(** ** The keyboard controller *)
Context (N : nat).

(** Nothing takes longer than promised, and at most [N] bytes wait in the keyboard. *)
Definition calm (k : Kbc) : Prop := (kb_delay k <= latency)%nat /\ (length (kb_queue k) <= N)%nat.

Definition kb_at (b : Board) (P : Kbc -> Prop) (s : S) : Prop := exists k, board s = set_kbc k b /\ calm k /\ P k.

Lemma carry_out_keeps k : kb_delay (carry_out k) = 0%nat /\ kb_queue (carry_out k) = kb_queue k.
Proof. unfold carry_out. destruct (kb_action k); [done|repeat case_match; done|by destruct (kb_param k)]. Qed.

Lemma settled_poll k : settled (poll k) = settled k.
Proof.
  unfold settled, poll. destruct (kb_delay k) as [|[|n]] eqn:Hd; [by rewrite Hd|by destruct (carry_out_keeps k) as [-> _]|].
  cbn [kb_delay set_pending]. done.
Qed.

Lemma settled_start n a k : settled (start n a k) = carry_out (set_pending 0 a k).
Proof. unfold settled, start. destruct n; [|done]. by destruct (carry_out_keeps (set_pending 0 a k)) as [-> _]. Qed.

Lemma drift_config k k' : drift k k' -> kb_config (settled k') = kb_config (settled k).
Proof.
  intros [->|(_ & _ & b & q & _ & ->)]; [done|]. unfold settled. cbn [kb_delay set_output]. destruct (kb_delay k); [done|].
  unfold carry_out. cbn [kb_action set_output]. destruct (kb_action k) as [|v|v]; [done| |by destruct (kb_param k) eqn:E; cbn; rewrite E].
  cbn. repeat case_match; done.
Qed.

Lemma drift_calm k k' : calm k -> drift k k' -> calm k' /\ kb_delay k' = kb_delay k.
Proof. intros [Hd Hn] [->|(_ & _ & b & q & Hq & ->)]; [done|]. rewrite Hq in Hn. cbn in Hn. split; [|done]. split; [done|cbn; lia]. Qed.

Lemma poll_calm k : calm k -> calm (poll k).
Proof.
  intros [Hd Hn]. unfold calm, poll. destruct (kb_delay k) as [|[|n]] eqn:E; [by rewrite E| |cbn; lia].
  destruct (carry_out_keeps k) as [-> ->]. lia.
Qed.

Lemma start_calm n a k : (n <= latency)%nat -> calm k -> calm (start n a k).
Proof.
  intros Hn [Hd Hq]. unfold calm, start. destruct n; [|done]. destruct (carry_out_keeps (set_pending 0 a k)) as [-> ->]. cbn. lia.
Qed.

Lemma drift_disabled k k' : kb_enabled k = false -> drift k k' -> k' = k.
Proof. intros He [|[? _]]; [done|congruence]. Qed.

(** *** The accesses *)
Lemma kb_status_run b (P : Kbc -> Prop) s : kb_at b P s ->
  let (v, s') := port_in 8 0x64 s in exists k0 k, P k0 /\ calm k0 /\ drift k0 k /\ board s = set_kbc k0 b
    /\ bit_on v 0 = bool_decide (is_Some (kb_output k)) /\ bit_on v 1 = negb (Nat.eqb (kb_delay k) 0)
    /\ board s' = set_kbc (poll k) b.
Proof.
  intros (k0 & Hb & Hc & Hp). pose proof (kbc_status s) as Hs. destruct (port_in 8 0x64 s) as [v s'].
  rewrite Hb in Hs. destruct Hs as (k & Hd & H0 & H1 & Hs). exists k0, k. by split_and!.
Qed.

Lemma kb_command_run b (P Q : Kbc -> Prop) v s : kb_at b P s -> (forall k, P k -> kb_delay k = 0%nat) ->
  (forall k k' n, P k -> drift k k' -> Q (start n (KCommand v) k')) ->
  runs (outb 0x64 v : IO unit) s (fun _ => kb_at b Q).
Proof.
  intros (k0 & Hb & Hc & Hp) Hz Hq. apply runs_outb. destruct (kbc_command s v) as (k & n & Hd & Hn & Hs); [rewrite Hb; by apply Hz|].
  rewrite Hb in Hd, Hs. exists (start n (KCommand v) k). split; [exact Hs|]. split; [|by eapply Hq].
  apply start_calm; [done|]. by eapply drift_calm.
Qed.

Lemma kb_data_run b (P Q : Kbc -> Prop) v s : kb_at b P s -> (forall k, P k -> kb_delay k = 0%nat) ->
  (forall k k' n, P k -> drift k k' -> Q (start n (KData v) k')) ->
  runs (outb 0x60 v : IO unit) s (fun _ => kb_at b Q).
Proof.
  intros (k0 & Hb & Hc & Hp) Hz Hq. apply runs_outb. destruct (kbc_data s v) as (k & n & Hd & Hn & Hs); [rewrite Hb; by apply Hz|].
  rewrite Hb in Hd, Hs. exists (start n (KData v) k). split; [exact Hs|]. split; [|by eapply Hq].
  apply start_calm; [done|]. by eapply drift_calm.
Qed.

Lemma kb_read_run b (P : Kbc -> Prop) (R : Z -> Kbc -> Prop) s : kb_at b P s ->
  (forall k k' v, P k -> drift k k' -> (forall c, kb_output k' = Some c -> v = c) -> R v (set_output None (kb_queue k') k')) ->
  runs (inb 0x60 : IO Z) s (fun v => kb_at b (R v)).
Proof.
  intros (k0 & Hb & Hc & Hp) Hr. apply runs_inb. pose proof (kbc_read s) as Hs. destruct (port_in 8 0x60 s) as [v s'].
  rewrite Hb in Hs. destruct Hs as (k & Hd & Hv & Hs). exists (set_output None (kb_queue k) k). split; [exact Hs|].
  split; [|by eapply Hr]. destruct (drift_calm k0 k Hc Hd) as [Hc' _]. exact Hc'.
Qed.

(** [while cmd_port.read() & 0x02 != 0 {}]. *)
Lemma kb_wait_run b (P : Kbc -> Prop) s : kb_at b P s -> (latency < PATIENCE)%nat ->
  (forall k k', P k -> drift k k' -> P k') -> (forall k, P k -> P (poll k)) ->
  runs (wait_while PATIENCE 0x64 (fun v => negb (Z.land v 0x02 =? 0)) : IO unit) s (fun _ => kb_at b (fun k => P k /\ kb_delay k = 0%nat)).
Proof.
  intros Hs Hpat Hdr Htk. apply runs_wait_while with (I := kb_at b P) (variant := fun s => kb_delay (kbc (board s))); [|exact Hs|].
  - intros s1 Hs1. pose proof (kb_status_run b P s1 Hs1) as Hst. destruct (port_in 8 0x64 s1) as [v s2].
    destruct Hst as (k0 & k & Hp & Hc & Hd & Hb & _ & H1 & Hs2). change 0x02 with (2 ^ 1). rewrite mask_bit, negb_involutive, H1 by lia.
    destruct (drift_calm k0 k Hc Hd) as [Hck Hdk]. destruct (Nat.eqb_spec (kb_delay k) 0) as [Hz|Hz]; cbn [negb].
    + exists (poll k). split; [exact Hs2|]. split; [by apply poll_calm|]. split; [by eapply Htk, Hdr|]. unfold poll. by rewrite Hz.
    + split; [exists (poll k); split; [exact Hs2|]; split; [by apply poll_calm|by eapply Htk, Hdr]|].
      rewrite Hs2, Hb. cbn [kbc set_kbc]. rewrite <- Hdk. unfold poll. destruct (kb_delay k) as [|[|n]]; [done| |cbn; lia].
      destruct (carry_out_keeps k) as [-> _]. lia.
  - destruct Hs as (k & -> & [Hd _] & _). cbn. lia.
Qed.

(** *** The sequence *)

Lemma lor_bit c m n : 0 <= n -> bit_on c n = true -> bit_on (Z.lor c m) n = true.
Proof. unfold bit_on. intros Hn Hc. by rewrite Z.lor_spec, Hc. Qed.

Lemma off_kept k k' : bit_on (kb_config k) 4 = true -> drift k k' -> k' = k.
Proof. intros Hc. apply drift_disabled. unfold kb_enabled. by rewrite Hc. Qed.

(** A keyboard being switched off. *)
Definition off_soon (k : Kbc) : Prop := bit_on (kb_config (settled k)) 4 = true.

Lemma off_soon_drift k k' : off_soon k -> drift k k' -> off_soon k'.
Proof. unfold off_soon. intros Ho Hd. by rewrite (drift_config k k' Hd). Qed.

Lemma off_soon_poll k : off_soon k -> off_soon (poll k).
Proof. unfold off_soon. by rewrite settled_poll. Qed.

(** Waiting, with a keyboard that is off, for a command that leaves it off. *)
Lemma off_poll (P : Kbc -> Prop) k : bit_on (kb_config k) 4 = true -> bit_on (kb_config (settled k)) 4 = true ->
  bit_on (kb_config (poll k)) 4 = true.
Proof.
  unfold poll, settled. destruct (kb_delay k) as [|[|n]]; [done|done|done].
Qed.

(** [Q] holds of the controller when it is done, and the keyboard is off till then. *)
Definition off_then (Q : Kbc -> Prop) (k : Kbc) : Prop :=
  bit_on (kb_config k) 4 = true /\ bit_on (kb_config (settled k)) 4 = true /\ Q (settled k).

Lemma off_then_drift Q k k' : off_then Q k -> drift k k' -> off_then Q k'.
Proof. intros Ho Hd. by rewrite (off_kept k k' (proj1 Ho) Hd). Qed.

Lemma off_then_poll Q k : off_then Q k -> off_then Q (poll k).
Proof. intros (Hc & Hs & Hq). unfold off_then. rewrite !settled_poll. split_and!; [by apply off_poll|done|done]. Qed.

Lemma off_then_now Q k : off_then Q k -> kb_delay k = 0%nat -> bit_on (kb_config k) 4 = true /\ Q k.
Proof. intros (Hc & _ & Hq) Hd. unfold settled in Hq. rewrite Hd in Hq. done. Qed.

Lemma off_then_start Q n a k : bit_on (kb_config k) 4 = true ->
  bit_on (kb_config (carry_out (set_pending 0 a k))) 4 = true -> Q (carry_out (set_pending 0 a k)) -> off_then Q (start n a k).
Proof.
  intros Hc Hs Hq. unfold off_then. rewrite settled_start. split_and!; [|done|done]. unfold start. by destruct n.
Qed.

(** [while cmd_port.read() & 0x01 == 0 {}], for the answer to the command 0x20. *)
Definition answering (k : Kbc) : Prop :=
  bit_on (kb_config k) 4 = true
  /\ match kb_delay k with O => kb_output k = Some (kb_config k) | _ => kb_action k = KCommand 0x20 /\ kb_output k = None end.

Lemma kb_answer_run b s : kb_at b answering s -> (latency < PATIENCE)%nat ->
  runs (wait_while PATIENCE 0x64 (fun v => Z.land v 0x01 =? 0) : IO unit) s (fun _ => kb_at b (fun k => answering k /\ kb_delay k = 0%nat)).
Proof.
  intros Hs Hpat. apply runs_wait_while with (I := kb_at b answering) (variant := fun s => kb_delay (kbc (board s))); [|exact Hs|].
  - intros s1 Hs1. pose proof (kb_status_run b _ s1 Hs1) as Hst. destruct (port_in 8 0x64 s1) as [v s2].
    destruct Hst as (k0 & k & [Hoff Ha] & Hc & Hd & Hb & H0 & _ & Hs2). change 0x01 with (2 ^ 0). rewrite mask_bit, H0 by lia.
    rewrite (off_kept k0 k Hoff Hd) in *. clear Hd k. unfold poll in Hs2. destruct (kb_delay k0) as [|[|n]] eqn:Hz.
    + rewrite Ha. rewrite bool_decide_true by done. cbn [negb]. exists k0. unfold answering. rewrite Hz. by split_and!.
    + destruct Ha as [Ha Ho]. rewrite Ho. cbn [is_Some bool_decide]. rewrite bool_decide_false by (by intros [??]). cbn [negb].
      assert (carry_out k0 = set_output (Some (kb_config k0)) (kb_queue k0) (set_pending 0 KNone k0)) as Hk by (unfold carry_out; by rewrite Ha).
      split; [|rewrite Hs2, Hb, Hk; cbn; lia]. exists (carry_out k0). split; [done|]. rewrite Hk. split; [|done]. destruct Hc as [_ Hq].
      split; [cbn; lia|done].
    + destruct Ha as [Ha Ho]. rewrite Ho, bool_decide_false by (by intros [??]). cbn [negb].
      split; [|rewrite Hs2, Hb; cbn; lia]. exists (set_pending (Datatypes.S n) (kb_action k0) k0). split; [done|]. split; [|done].
      destruct Hc as [Hcd Hq]. split; [cbn in *; lia|done].
  - destruct Hs as (k & -> & [Hd _] & _). cbn. lia.
Qed.

(** The last loop: whatever the keyboard still sends is thrown away. *)
Definition fill (k : Kbc) : nat := (length (kb_queue k) + match kb_output k with Some _ => 1 | None => 0 end)%nat.

Lemma tick_fill k : kb_action k <> KCommand 0x20 \/ kb_delay k = 0%nat -> fill (poll k) = fill k.
Proof.
  intros Ha. unfold poll. destruct (kb_delay k) as [|[|n]]; [done| |done]. destruct Ha as [Ha|]; [|done].
  unfold carry_out. destruct (kb_action k) as [|v|v]; [done| |by destruct (kb_param k)].
  destruct (Z.eqb_spec v 0x20) as [->|]; [done|]. repeat case_match; done.
Qed.

Definition draining (c : Z) (k : Kbc) : Prop :=
  kb_config (settled k) = c /\ (kb_action k <> KCommand 0x20 \/ kb_delay k = 0%nat).

Lemma drain_run b c s : kb_at b (draining c) s -> (N + 1 < PATIENCE)%nat ->
  runs (loop PATIENCE (fun _ : unit =>
    v ← inb 0x64;
    if negb (Z.land v 0x01 =? 0) then _ ← inb 0x60; mret (inl tt) else mret (inr tt)) tt : IO unit) s
    (fun _ => kb_at b (fun k => kb_config (settled k) = c)).
Proof.
  intros Hs Hpat.
  apply (runs_loop (fun _ => kb_at b (draining c)) (fun _ s => fill (kbc (board s))) _ (fun _ => kb_at b (fun k => kb_config (settled k) = c)));
    [|exact Hs|].
  - clear s Hs. cbn beta. intros _ s Hs. pose proof (kb_status_run b _ s Hs) as Hst.
    apply (runs_bind _ _ _ (fun v s1 => exists k, calm k /\ draining c k /\ fill k = fill (kbc (board s)) /\ board s1 = set_kbc k b
      /\ (bit_on v 0 = true -> is_Some (kb_output k)))).
    { apply runs_inb. destruct (port_in 8 0x64 s) as [v s1]. destruct Hst as (k0 & k & [Hset Ha] & Hc & Hd & Hb & H0 & _ & Hs1).
      destruct (drift_calm k0 k Hc Hd) as [Hck Hdk].
      assert (kb_action k <> KCommand 0x20 \/ kb_delay k = 0%nat) as Hak
        by (rewrite Hdk; destruct Hd as [->|(_ & _ & x & q & _ & ->)]; done).
      exists (poll k). split_and!; [by apply poll_calm| | |exact Hs1|].
      - split; [by rewrite settled_poll, (drift_config k0 k Hd)|]. unfold poll.
        destruct (kb_delay k) as [|[|n]] eqn:E; [by right|right; apply carry_out_keeps|]. destruct Hak; [by left|lia].
      - rewrite tick_fill, Hb by done. cbn [kbc set_kbc].
        destruct Hd as [->|(_ & Ho & x & q & Hq & ->)]; [done|]. unfold fill. cbn. rewrite Ho, Hq. cbn. lia.
      - rewrite H0. intros Hsome%bool_decide_eq_true. unfold poll. destruct (kb_delay k) as [|[|n]] eqn:E; [done| |done].
        unfold carry_out. destruct (kb_action k) as [|v'|v']; [done| |by destruct (kb_param k)]. repeat case_match; done. }
    clear Hst. intros v s1 (k & Hc & Hdr & Hf & Hs1 & Hsome). change 0x01 with (2 ^ 0). rewrite mask_bit, negb_involutive by lia.
    destruct (bit_on v 0).
    + eapply runs_bind.
      * apply (kb_read_run b (fun k' => k' = k) (fun _ k' => draining c k' /\ (fill k' < fill k)%nat)); [by exists k|].
        intros k1 k' w -> Hd _. destruct (Hsome eq_refl) as [x Hx]. assert (k' = k) as -> by (destruct Hd as [|(_ & Ho & _)]; congruence).
        destruct Hdr as [Hset Ha]. split; [|unfold fill; cbn; rewrite Hx; lia]. split; [|done].
        rewrite <- Hset. unfold settled. cbn [kb_delay set_output]. destruct (kb_delay k); [done|]. unfold carry_out. cbn [kb_action set_output].
        destruct (kb_action k) as [|v'|v']; [done| |]; cbn; repeat case_match; done.
      * intros w s2 (k' & Hs2 & Hc' & Hdr' & Hlt). apply runs_ret. split; [by exists k'|]. rewrite Hs2, <- Hf. exact Hlt.
    + apply runs_ret. exists k. split_and!; [done|done|apply Hdr].
  - destruct Hs as (k & -> & [_ Hq] & _). unfold fill. cbn. destruct (kb_output k); lia.
Qed.

(** The configuration written back: the keyboard interrupt on, translation off. *)
Definition new_config (c : Z) : Z := Z.land (Z.lor c 0x01) (Z.lxor 0xFF 0x40).

Lemma new_config_off c : bit_on c 4 = true -> bit_on (new_config c) 4 = true.
Proof. unfold new_config, bit_on. intros Hc. by rewrite Z.land_spec, Z.lor_spec, Hc. Qed.

Lemma keyboard_run s b : kb_at b (fun _ => True) s -> (latency < PATIENCE)%nat -> (N + 1 < PATIENCE)%nat ->
  runs (init_keyboard_controller PATIENCE) s (fun _ s' => exists c, kb_at b (fun k => kb_config (settled k) = Z.ldiff (new_config c) 0x10) s').
Proof.
  intros Hs Hpat HN. unfold init_keyboard_controller.
  eapply runs_bind; [by apply (kb_wait_run b (fun _ => True) s Hs Hpat)|]. clear s Hs. cbn beta. intros _ s Hs.
  eapply runs_bind; [apply (kb_command_run b _ off_soon 0xAD s Hs); [by intros k [_ Hz]|]|].
  { intros k k' n _ _. unfold off_soon. rewrite settled_start. change (bit_on (Z.lor (kb_config k') 0x10) 4 = true).
    unfold bit_on. rewrite Z.lor_spec. apply orb_true_r. }
  clear s Hs. cbn beta. intros _ s Hs.
  eapply runs_bind; [apply (kb_wait_run b off_soon s Hs Hpat off_soon_drift off_soon_poll)|]. clear s Hs. cbn beta. intros _ s Hs.
  eapply runs_bind; [apply (kb_command_run b _ (fun k => off_then (fun _ => True) k /\ (kb_delay k = 0%nat \/ kb_action k = KCommand 0xA7)) 0xA7 s Hs);
    [by intros k [_ Hz]|]|].
  { intros k k' n [Hoff Hz] Hd. unfold off_soon, settled in Hoff. rewrite Hz in Hoff. rewrite (off_kept k k' Hoff Hd). split.
    - apply off_then_start; [done|by apply (lor_bit (kb_config k) 0x20 4)|done].
    - destruct n; [left; apply carry_out_keeps|by right]. }
  clear s Hs. cbn beta. intros _ s Hs.
  eapply runs_bind; [apply (kb_read_run b _ (fun _ => off_then (fun k => kb_output k = None)) s Hs)|].
  { intros k k' v [(Hc & Hset & _) Ha] Hd _. rewrite (off_kept k k' Hc Hd). unfold off_then, settled in *. cbn [kb_delay set_output] in *.
    destruct (kb_delay k); [done|]. destruct Ha as [|Ha]; [done|]. unfold carry_out in *. cbn [kb_action set_output]. by rewrite Ha in *. }
  clear s Hs. cbn beta. intros _ s Hs.
  eapply runs_bind; [apply (kb_wait_run b _ s Hs Hpat); [apply off_then_drift|apply off_then_poll]|]. clear s Hs. cbn beta. intros _ s Hs.
  eapply runs_bind; [apply (kb_command_run b _ answering 0x20 s Hs); [by intros k [_ Hz]|]|].
  { intros k k' n [Ho Hz] Hd. destruct (off_then_now _ _ Ho Hz) as [Hc Hout]. rewrite (off_kept k k' Hc Hd). unfold answering, start.
    by destruct n. }
  clear s Hs. cbn beta. intros _ s Hs.
  eapply runs_bind; [by apply kb_answer_run|]. clear s Hs. cbn beta. intros _ s Hs.
  eapply runs_bind; [apply (kb_read_run b _ (fun v => off_then (fun k => kb_config k = v)) s Hs)|].
  { intros k k' v [[Hc Ha] Hz] Hd Hv. rewrite Hz in Ha. rewrite (off_kept k k' Hc Hd) in *. unfold off_then, settled. cbn [kb_delay set_output].
    rewrite Hz. split_and!; [done..|]. symmetry. by apply Hv. }
  clear s Hs. cbn beta. intros c s Hs. cbv zeta. fold (new_config c).
  eapply runs_bind; [apply (kb_wait_run b _ s Hs Hpat); [apply off_then_drift|apply off_then_poll]|]. clear s Hs. cbn beta. intros _ s Hs.
  eapply runs_bind; [apply (kb_command_run b _ (off_then (fun k => kb_param k = true /\ kb_config k = c)) 0x60 s Hs); [by intros k [_ Hz]|]|].
  { intros k k' n [Ho Hz] Hd. destruct (off_then_now _ _ Ho Hz) as [Hc Hcfg]. rewrite (off_kept k k' Hc Hd). by apply off_then_start. }
  clear s Hs. cbn beta. intros _ s Hs.
  eapply runs_bind; [apply (kb_wait_run b _ s Hs Hpat); [apply off_then_drift|apply off_then_poll]|]. clear s Hs. cbn beta. intros _ s Hs.
  eapply runs_bind; [apply (kb_data_run b _ (off_then (fun k => kb_config k = new_config c)) (new_config c) s Hs); [by intros k [_ Hz]|]|].
  { intros k k' n [Ho Hz] Hd. destruct (off_then_now _ _ Ho Hz) as (Hc & Hpar & Hcfg). rewrite (off_kept k k' Hc Hd).
    apply off_then_start; [done|..]; unfold carry_out; cbn; rewrite Hpar; cbn; [|done]. rewrite <- Hcfg. by apply new_config_off. }
  clear s Hs. cbn beta. intros _ s Hs.
  eapply runs_bind; [apply (kb_wait_run b _ s Hs Hpat); [apply off_then_drift|apply off_then_poll]|]. clear s Hs. cbn beta. intros _ s Hs.
  eapply runs_bind; [apply (kb_command_run b _ (draining (Z.ldiff (new_config c) 0x10)) 0xAE s Hs); [by intros k [_ Hz]|]|].
  { intros k k' n [Ho Hz] Hd. destruct (off_then_now _ _ Ho Hz) as (Hc & Hcfg). rewrite (off_kept k k' Hc Hd). split.
    - rewrite settled_start. cbn. by rewrite Hcfg.
    - destruct n; [right; apply carry_out_keeps|by left]. }
  clear s Hs. cbn beta. intros _ s Hs. eapply runs_weaken; [by apply (drain_run b _ s Hs)|]. cbn beta. intros _ s' Hs'. by exists c.
Qed.
End facts.

(** ** [init] *)
Section init.
Context {S : Type} `{BL : BoardLaws S} {X : Paging} {PL : PagingLaws} {UL : UpperLaws} (PATIENCE : nat).

Lemma on_machine_run {A} (m : M S rstr A) (w : ApicWorld S) (Q : A -> S -> Prop) :
  runs m (ap_ports w) Q -> runs (on_machine m) w (fun a (w' : ApicWorld S) => Q a (ap_ports w') /\ w' = mkApic (TICKS_PER_MS w) (ap_vm w) (ap_ports w')).
Proof.
  intros (a & s' & Hm & Hq). exists a, (mkApic (TICKS_PER_MS w) (ap_vm w) s'). split; [|done].
  unfold on_machine, zoom. by rewrite Hm.
Qed.

Lemma map_or_panic_run (w : ApicWorld S) n K virt phys fl :
  kernel_space n (ap_vm w) K -> 3 <= n -> HIGH <= virt < 2 ^ 64 -> virt mod PAGE_SIZE = 0 -> 0 <= phys < 2 ^ 52 ->
  phys mod PAGE_SIZE = 0 -> Z.land fl PRESENT <> 0 -> K virt = None ->
  runs (map_or_panic virt phys fl) w (fun _ (w' : ApicWorld S) => kernel_space (n - 3) (ap_vm w') (mapped K virt phys)
    /\ keeps (ap_vm w) (ap_vm w') /\ w' = mkApic (TICKS_PER_MS w) (ap_vm w') (ap_ports w)).
Proof.
  intros Hks Hn Hv Hva Hp Hpa Hfl HK. destruct (map_page_run n (ap_vm w) K virt phys fl Hks Hn Hv Hva Hpa Hfl HK) as (st' & Hrun & Hks' & Hkp).
  exists tt, (mkApic (TICKS_PER_MS w) st' (ap_ports w)). split; [|done]. unfold map_or_panic.
  rewrite (bind_ok _ _ _ virt w) by (unfold on_vm, zoom; rewrite VirtAddr_new_high by done; by destruct w).
  rewrite (bind_ok _ _ _ phys w) by (unfold on_vm, zoom, PhysAddr_new; rewrite PhysAddr_low by done; by destruct w).
  rewrite (bind_ok _ _ _ (Some tt) (mkApic (TICKS_PER_MS w) st' (ap_ports w))); [done|].
  unfold catch, on_vm, zoom. by rewrite Hrun.
Qed.

Lemma present_lor a b : Z.land (Z.lor (Z.lor PRESENT a) b) PRESENT <> 0.
Proof using PL.
  rewrite !Z.land_lor_distr_l, Z.land_diag. intros [[H1 _]%Z.lor_eq_0_iff _]%Z.lor_eq_0_iff. by apply PRESENT_flag.
Qed.

(** The state of the interrupt hardware after [init]. *)
Record apic_ready (ticks_per_ms : Z) (b : Board) : Prop := {
  ar_pics : pic1 b = mkPic 0 TIMER_VECTOR 0xFF /\ pic2 b = mkPic 0 (TIMER_VECTOR + 8) 0xFF;
  ar_spurious : lapic b !! LAPIC_SPURIOUS = Some (0x100 + SPURIOUS_VECTOR);
  ar_timer : lapic b !! LAPIC_TIMER_LVT = Some (2 ^ 17 + TIMER_VECTOR) /\ lapic b !! LAPIC_TIMER_DIV = Some 3
    /\ lapic b !! LAPIC_TIMER_INIT = Some (ticks_per_ms * 10);
  ar_keyboard_irq : ioregs b !! (IOAPIC_REDTBL_BASE + 2) = Some KEYBOARD_VECTOR /\ ioregs b !! (IOAPIC_REDTBL_BASE + 3) = Some 0;
  ar_keyboard : let c := kb_config (settled (kbc b)) in bit_on c 0 = true /\ bit_on c 4 = false /\ bit_on c 6 = false
}.

Lemma new_config_bits c : let c' := Z.ldiff (new_config c) 0x10 in bit_on c' 0 = true /\ bit_on c' 4 = false /\ bit_on c' 6 = false.
Proof.
  unfold new_config, bit_on. cbv zeta. rewrite !Z.ldiff_spec, !Z.land_spec, !Z.lor_spec.
  change (Z.testbit (Z.lxor 255 64) 0) with true. change (Z.testbit (Z.lxor 255 64) 4) with true. change (Z.testbit (Z.lxor 255 64) 6) with false.
  change (Z.testbit 16 0) with false. change (Z.testbit 16 4) with true. change (Z.testbit 1 0) with true. cbn [negb].
  rewrite !andb_false_r, orb_true_r. done.
Qed.

Lemma apic_init_run (NO_CACHE : Z) (N : nat) n (w : ApicWorld S) K b :
  kernel_space n (ap_vm w) K -> 6 <= n -> K LAPIC_VIRT = None -> K IOAPIC_VIRT = None ->
  kb_at N b (fun _ => True) (ap_ports w) -> (latency < PATIENCE)%nat -> (N + 1 < PATIENCE)%nat ->
  exists w', apic_init PATIENCE NO_CACHE w = (Ok tt, w') /\ keeps (ap_vm w) (ap_vm w')
    /\ kernel_space (n - 6) (ap_vm w') (mapped (mapped K LAPIC_VIRT LAPIC_PHYS) IOAPIC_VIRT IOAPIC_PHYS)
    /\ 0 <= TICKS_PER_MS w' * 10 < 2 ^ 32 /\ calibrated (TICKS_PER_MS w') /\ apic_ready (TICKS_PER_MS w') (board (ap_ports w')).
Proof.
  intros Hks Hn HL HI Hkb Hpat HN. destruct Hkb as (k0 & Hb & Hcalm & _). set (b0 := set_kbc k0 b) in *.
  cut (runs (apic_init PATIENCE NO_CACHE) w (fun _ w' => keeps (ap_vm w) (ap_vm w')
    /\ kernel_space (n - 6) (ap_vm w') (mapped (mapped K LAPIC_VIRT LAPIC_PHYS) IOAPIC_VIRT IOAPIC_PHYS)
    /\ 0 <= TICKS_PER_MS w' * 10 < 2 ^ 32 /\ calibrated (TICKS_PER_MS w') /\ apic_ready (TICKS_PER_MS w') (board (ap_ports w')))).
  { intros ([] & w' & Hrun & Hq). by exists w'. }
  unfold apic_init. cbv zeta.
  eapply runs_bind; [apply on_machine_run, disable_pic_run, Hb|]. cbn beta. intros _ w1 [Hb1 Hw1].
  eapply runs_bind; [eapply map_or_panic_run with (n := n); try done; [by rewrite Hw1|lia|apply present_lor]|].
  cbn beta. intros _ w2 (Hks2 & Hkp2 & Hw2).
  eapply runs_bind; [eapply map_or_panic_run with (n := n - 3); [exact Hks2|lia|done|done|done|done|apply present_lor|by unfold mapped]|].
  cbn beta. intros _ w3 (Hks3 & Hkp3 & Hw3).
  assert (board (ap_ports w3) = set_pic1 (mkPic 0 32 255) (set_pic2 (mkPic 0 40 255) b0)) as Hb3 by (rewrite Hw3, Hw2; exact Hb1).
  eapply runs_bind; [apply on_machine_run; eapply lapic_run; [exact Hb3|by_decide]|]. cbn beta. intros _ w4 [Hb4 Hw4].
  eapply runs_bind; [apply on_machine_run; eapply calibrate_timer_run; [exact Hpat|exact Hb4]|]. cbn beta. intros t w5 [(Ht & Hcal & due & Hb5) Hw5].
  apply runs_get, runs_put, runs_get. cbn [TICKS_PER_MS ap_vm ap_ports]. rewrite u32_small by lia.
  set (w6 := mkApic t (ap_vm w5) (ap_ports w5)).
  eapply runs_bind.
  { apply on_machine_run. eapply runs_bind; [eapply lapic_run; [exact Hb5|by_decide]|]. cbn beta. intros _ s1 Hs1.
    eapply runs_bind; [eapply lapic_run; [exact Hs1|by_decide]|]. cbn beta. intros _ s2 Hs2. eapply lapic_run; [exact Hs2|by_decide]. }
  cbn beta. intros _ w7 [Hb7 Hw7].
  eapply runs_bind.
  { apply on_machine_run. apply (keyboard_run PATIENCE N _ (board (ap_ports w7))); [|exact Hpat|exact HN].
    exists (kbc (board (ap_ports w7))). split; [by destruct (board (ap_ports w7))|]. split; [by rewrite Hb7|done]. }
  cbn beta. intros _ w8 [(c & k & Hb8 & _ & Hk) Hw8].
  eapply runs_weaken; [apply on_machine_run; eapply ioapic_set_irq_run; [lia|exact Hb8]|].
  cbn beta. intros _ w9 [Hb9 Hw9].
  assert (TICKS_PER_MS w9 = t /\ ap_vm w9 = ap_vm w3) as [Ht9 Hv9] 
    by (split; [by rewrite Hw9, Hw8, Hw7|rewrite Hw9, Hw8, Hw7; cbn; by rewrite Hw5, Hw4]).
  rewrite Ht9, Hv9. split_and!; [|by replace (n - 6) with (n - 3 - 3) by lia|lia|lia|exact Hcal|].
  - eapply keeps_trans; [|exact Hkp3]. rewrite Hw1 in Hkp2. exact Hkp2.
  - rewrite Hb9, Hb7. split; cbn; [done|..].
    + by simplify_map_eq.
    + by simplify_map_eq.
    + by simplify_map_eq.
    + rewrite Hk. apply new_config_bits.
Qed.

(** C11: [apic::init], on a machine whose devices answer within [PATIENCE] polls, ends;
    it maps the two APICs at their addresses, and leaves the old controllers masked,
    the local APIC enabled with its timer periodic at vector 32 and a count of ten
    times the ticks per millisecond measured (which never overflows), the keyboard's
    interrupt line at vector 33 of the first processor, and the keyboard controller
    with its interrupt on, the keyboard enabled and translation off, so that
    [keyboard.rs] sees scancode set 2, whatever bytes were waiting.  The ticks measured
    ([calibrated]) are a tenth of what the timer counted while the code polled channel 2
    of the 8254: where a load starts the count, as the code expects, the time of 11930 of its
    clocks - ten milliseconds - up to that of three accesses; where only a later edge of
    the gate does, as the data sheet has it, the time of three accesses at most, so that
    the timer's period is not the ten milliseconds meant. *)
Theorem apic_init_ready (NO_CACHE : Z) (N : nat) n (w : ApicWorld S) K b :
  kernel_space n (ap_vm w) K -> 6 <= n -> K LAPIC_VIRT = None -> K IOAPIC_VIRT = None ->
  kb_at N b (fun _ => True) (ap_ports w) -> (latency < PATIENCE)%nat -> (N + 1 < PATIENCE)%nat ->
  exists w', apic_init PATIENCE NO_CACHE w = (Ok tt, w') /\ keeps (ap_vm w) (ap_vm w')
    /\ kernel_space (n - 6) (ap_vm w') (mapped (mapped K LAPIC_VIRT LAPIC_PHYS) IOAPIC_VIRT IOAPIC_PHYS)
    /\ 0 <= TICKS_PER_MS w' * 10 < 2 ^ 32 /\ calibrated (TICKS_PER_MS w') /\ apic_ready (TICKS_PER_MS w') (board (ap_ports w')).
Proof. apply apic_init_run. Qed.
End init.
