(* ===== verification/ApicDemo.v ===== *)
(** * ApicDemo: a board that keeps the promises of [BoardLaws]

    Every command takes one poll; the keyboard sends a byte as soon as it may.  An access
    takes a cycle, a tick of the local APIC's timer; channel 2 counts forty cycles from the
    load of its count on, as the code expects ([as_expected]), or waits for an edge of its gate
    ([by_data_sheet]). *)
From Stdlib Require Import ZArith Lia.
From stdpp Require Import base numbers option list gmap.
From S2P Require Import Prelude Memory Pmm Vmm VmmFacts Heap KernelMap VmmDemo Hw Apic Board ApicFacts.

Definition refill (k : Kbc) : Kbc :=
  match kb_output k, kb_queue k with
  | None, b :: q => if kb_enabled k then set_output (Some b) q k else k
  | _, _ => k
  end.

Lemma refill_drift k : drift k (refill k).
Proof.
  unfold refill. destruct (kb_output k) eqn:Ho; [by left|]. destruct (kb_queue k) as [|b q] eqn:Hq; [by left|].
  destruct (kb_enabled k) eqn:He; [right|by left]. split_and!; [done|done|by exists b, q].
Qed.

Definition status_byte (k : Kbc) : Z :=
  (match kb_output k with Some _ => 1 | None => 0 end) + (match kb_delay k with O => 0 | _ => 2 end).

(** The board, the time, and when the timer was loaded. *)
Record Timed := mkTimed { t_board : Board; t_now : Z; t_loaded : Z }.

Definition later (b : Board) (m : Timed) : Timed := mkTimed b (t_now m + 1) (t_loaded m).

(** What is left of the timer's count when an access is over. *)
Definition timer_left (m : Timed) : Z :=
  Z.max 0 (default 0xFFFFFFFF (lapic (t_board m) !! LAPIC_TIMER_INIT) - (t_now m + 1 - t_loaded m)) mod 2 ^ 32.

Definition PIT_TIME : Z := 40.

Section machine.
Context (on_load : bool).

Definition pit_write (v : Z) (m : Timed) (p : Pit) : Pit :=
  if pit_mode p =? PIT_ONE_SHOT then
    match pit_low p with
    | None => set_low (Some v) p
    | Some l => set_count (l + 256 * v) (if on_load then Some (t_now m + 1 + PIT_TIME) else None) p
    end
  else p.

Definition board_in (port : Z) (m : Timed) : Z * Board :=
  let b := t_board m in
  if port =? 0x64 then let k := refill (kbc b) in (status_byte k, set_kbc (poll k) b)
  else if port =? 0x60 then let k := refill (kbc b) in (default 0 (kb_output k), set_kbc (set_output None (kb_queue k) k) b)
  else if port =? 0x61 then
    (match pit_due (pit b) with Some due => if due <=? t_now m + 1 then 0x20 else 0 | None => 0x20 end, b)
  else (0, b).

Definition board_written (port v : Z) (m : Timed) : Board :=
  let b := t_board m in
  if port =? 0x64 then set_kbc (start 1 (KCommand v) (kbc b)) b
  else if port =? 0x60 then set_kbc (start 1 (KData v) (kbc b)) b
  else if port =? 0x42 then set_pit (pit_write v m (pit b)) b
  else default b (board_out port v b).

Definition timed_hw : Hw Timed := {|
  port_in width port m := let (v, b) := board_in port m in (v, later b m);
  port_out width port v m := later (board_written port v m) m;
  mmio_read addr m := (if addr =? LAPIC_VIRT + LAPIC_TIMER_CURRENT then timer_left m else 0, later (t_board m) m);
  mmio_write addr v m :=
    let b := t_board m in
    if addr =? IOAPIC_VIRT then later (set_io v (ioregs b) b) m
    else if addr =? IOAPIC_VIRT + IOAPIC_REG_DATA then later (set_io (ioregsel b) (<[ioregsel b := v]> (ioregs b)) b) m
    else
      let m' := later (set_lapic (<[addr - LAPIC_VIRT := v]> (lapic b)) b) m in
      if addr =? LAPIC_VIRT + LAPIC_TIMER_INIT then mkTimed (t_board m') (t_now m') (t_now m') else m'
|}.

Lemma status_bits k : bit_on (status_byte k) 0 = bool_decide (is_Some (kb_output k))
  /\ bit_on (status_byte k) 1 = negb (Nat.eqb (kb_delay k) 0).
Proof.
  unfold status_byte. destruct (kb_output k); [rewrite bool_decide_true by done|rewrite bool_decide_false by (by intros [??])];
    by destruct (kb_delay k).
Qed.

Lemma timed_write m a v : a <> LAPIC_VIRT + LAPIC_TIMER_INIT -> t_loaded (mmio_write (Hw := timed_hw) a v m) = t_loaded m.
Proof. intros Ha. cbn [mmio_write timed_hw]. destruct (a =? IOAPIC_VIRT); [done|]. destruct (a =? _); [done|]. by destruct (Z.eqb_spec a (LAPIC_VIRT + LAPIC_TIMER_INIT)). Qed.

Lemma timed_write_now m a v : t_now (mmio_write (Hw := timed_hw) a v m) = t_now m + 1.
Proof. cbn [mmio_write timed_hw]. by repeat case_match. Qed.

Definition timed_laws : BoardLaws (H := timed_hw) Timed.
Proof.
  refine {| board := t_board; latency := 40%nat; now := t_now; loaded := t_loaded; access_time := 1; tick := 1;
            pit_time := fun _ => PIT_TIME; counts_on_load := on_load |}; try done.
  - intros w p s. cbn [port_in timed_hw]. destruct (board_in p s). cbn. lia.
  - intros w p v s. cbn. lia.
  - intros a s. cbn. lia.
  - intros a v s. cbv zeta. rewrite timed_write_now. split; [lia|].
    destruct (Z.eqb_spec a (LAPIC_VIRT + LAPIC_TIMER_INIT)) as [->|Hne]; [|by apply timed_write]. unfold during. change (t_now s <= t_now s + 1 <= t_now s + 1). lia.
  - intros m port v b' Hb. cbn [port_out timed_hw t_board later]. unfold board_written, board_out in *.
    destruct (Z.eqb_spec port 0x64) as [->|]; [done|]. destruct (Z.eqb_spec port 0x60) as [->|]; [done|].
    destruct (Z.eqb_spec port 0x42) as [->|]; [done|]. by rewrite Hb.
  - intros m off v Hin. unfold LAPIC_REGISTERS in Hin. rewrite !elem_of_cons, elem_of_nil in Hin.
    by destruct Hin as [->|[->|[->|[->|[->|[]]]]]].
  - intros m. cbn [mmio_read timed_hw]. rewrite Z.eqb_refl. split; [unfold timer_left; apply Z.mod_pos_bound; lia|]. split; [done|].
    intros c _ Hc Hc32. exists (t_now m + 1). split; [unfold during; cbn; lia|]. cbv zeta. rewrite Z.div_1_r. intros Hle.
    unfold timer_left. rewrite Hc. cbn [default from_option id]. rewrite Z.max_r, Z.mod_small by lia. done.
  - intros m v Hm Hl. cbn. unfold pit_write. by rewrite Hm, Hl.
  - intros m l v Hm Hl _. exists (t_now m + 1). split; [unfold during; cbn; lia|]. cbn. unfold pit_write. by rewrite Hm, Hl.
  - intros m Hm. cbn [port_in timed_hw]. unfold board_in. cbn. split; [|split; [done|]].
    + unfold is_byte. destruct (pit_due _) as [due|]; [destruct (due <=? _)|]; lia.
    + exists (t_now m + 1). split; [unfold during; cbn; lia|]. destruct (pit_due _) as [due|]; [by destruct (due <=? _)|done].
  - intros m. cbn [port_in timed_hw]. unfold board_in. cbn. set (b := t_board m). exists (refill (kbc b)). destruct (status_bits (refill (kbc b))) as [H0 H1].
    split_and!; [apply refill_drift|done..].
  - intros m. cbn [port_in timed_hw]. unfold board_in. cbn. set (b := t_board m). exists (refill (kbc b)). split_and!; [apply refill_drift| |done].
    by intros c ->.
  - intros m v Hd. exists (kbc (t_board m)), 1%nat. split_and!; [by left|lia|done].
  - intros m v Hd. exists (kbc (t_board m)), 1%nat. split_and!; [by left|lia|done].
Defined.
End machine.

#[export] Instance as_expected : Hw Timed := timed_hw true.
#[export] Instance expected_laws : BoardLaws Timed := timed_laws true.
Definition by_data_sheet : Hw Timed := timed_hw false.
Definition data_sheet_laws : BoardLaws (H := by_data_sheet) Timed := timed_laws false.

(** Firmware left the keyboard enabled and translating, with two bytes waiting. *)
Definition firmware : Timed :=
  mkTimed (mkBoard (mkPic 0 8 0xB8) (mkPic 0 0x70 0x8F) (mkPit 0 None None false None) gmap_empty 0 gmap_empty
    (mkKbc 0 KNone false 0x47 (Some 0xFA) [0x1C; 0xF0])) 1000 0.

Definition apic_boot : ApicWorld Timed := mkApic 0 boot_vm firmware.

(** Forty cycles are four ticks a millisecond where the count starts, less those of two accesses; and
    none at all where it does not. *)
Example calibrates : (apic_init 64 0x10 apic_boot).1 = Ok tt /\ TICKS_PER_MS (apic_init 64 0x10 apic_boot).2 = 3.
Proof. split; vm_compute; reflexivity. Qed.

Example measures_nothing :
  (apic_init (H := by_data_sheet) 64 0x10 apic_boot).1 = Ok tt /\ TICKS_PER_MS (apic_init (H := by_data_sheet) 64 0x10 apic_boot).2 = 0.
Proof. split; vm_compute; reflexivity. Qed.

Lemma apic_init_ready_witness :
  exists w', apic_init 64 0x10 apic_boot = (Ok tt, w') /\ apic_ready (TICKS_PER_MS w') (board (ap_ports w'))
    /\ (exists elapsed, TICKS_PER_MS w' = elapsed / 10 /\ 37 <= elapsed <= 43)
    /\ kernel_space 2040 (ap_vm w') (mapped (mapped (fun _ => None) LAPIC_VIRT LAPIC_PHYS) IOAPIC_VIRT IOAPIC_PHYS).
Proof.
  destruct (apic_init_ready 64 0x10 2 2046 apic_boot (fun _ => None) (t_board firmware) boot_kernel_space) as (w' & Hrun & _ & Hks & _ & Hc & Hr);
    [lia|done|done| |cbn; lia|lia|].
  - exists (kbc (t_board firmware)). split; [done|]. split; [split; cbn; lia|done].
  - exists w'. split; [exact Hrun|]. split; [exact Hr|]. split; [|exact Hks].
    destruct Hc as (elapsed & He & Hb). change (PIT_TIME - 3 * 1 <= elapsed <= PIT_TIME + 3 * 1) in Hb. unfold PIT_TIME in Hb.
    exists elapsed. split; [|lia]. change (elapsed / 1 <= 0xFFFFFFFF -> TICKS_PER_MS w' = elapsed / 1 / 10) in He. rewrite Z.div_1_r in He.
    apply He. lia.
Defined.
