(* ===== verification/PartTable.v ===== *)
(** * PartTable: MBR and GPT partition tables

    [vcore/src/vfs/block/partition.rs].  Parsing runs on any block device; the
    slice and index checks and the division of the GPT code, whose operands come
    from the disk, are kept as panics. *)
From Stdlib Require Import ZArith Lia.
From stdpp Require Import base numbers option list.
From S2P Require Import Prelude Block.

Inductive PartitionType :=
| Fat32
| Linux
| EfiSystem
| Unknown (b : Z).
#[export] Instance PartitionType_eq_dec : EqDecision PartitionType.
Proof. solve_decision. Defined.

Record PartitionInfo := mkPart {
  pi_index : Z;
  pi_start_lba : Z;
  pi_sector_count : Z;
  pi_partition_type : PartitionType
}.

Definition mbr_type (ptype : Z) : option PartitionType :=
  match ptype with
  | 0x0B | 0x0C => Some Fat32
  | 0x83 => Some Linux
  | 0xEF => Some EfiSystem
  | 0xEE => None
  | other => Some (Unknown other)
  end.

(** One turn of the loop of [parse_mbr]; [None] is [continue]. *)
Definition mbr_entry (mbr : bytes) (i : nat) : option PartitionInfo :=
  let offset := (446 + i * 16)%nat in
  let ptype := rd mbr (offset + 4) in
  if ptype =? 0 then None
  else
    partition_type ← mbr_type ptype;
    Some (mkPart (Z.of_nat i) (le_at 4 mbr (offset + 8)) (le_at 4 mbr (offset + 12)) partition_type).

Definition parse_mbr (mbr : bytes) : list PartitionInfo := omap (mbr_entry mbr) (seq 0 4).

Definition EFI_SYSTEM : bytes :=
  [0x28; 0x73; 0x2A; 0xC1; 0x1F; 0xF8; 0xD2; 0x11; 0xBA; 0x4B; 0x00; 0xA0; 0xC9; 0x3E; 0xC9; 0x3B].
Definition BASIC_DATA : bytes :=
  [0xA2; 0xA0; 0xD0; 0xEB; 0xE5; 0xB9; 0x33; 0x44; 0x87; 0xC0; 0x68; 0xB6; 0xB7; 0x26; 0x99; 0xC7].
Definition LINUX_FS : bytes :=
  [0xAF; 0x3D; 0xC6; 0x0F; 0x83; 0x84; 0x72; 0x47; 0x8E; 0x79; 0x3D; 0x69; 0xD8; 0x47; 0x7D; 0xE4].

Definition identify_gpt_type (guid : bytes) : PartitionType :=
  if decide (guid = EFI_SYSTEM) then EfiSystem
  else if decide (guid = BASIC_DATA) then Fat32
  else if decide (guid = LINUX_FS) then Linux
  else Unknown 0.

Section parse.
Context {W D : Type} `{BlockDevice W D}.
Abbreviation PM := (M W rstr).

(** One entry, already cut out of its sector; [entry[32]] and the like panic on a
    short entry. *)
Definition gpt_entry (i : Z) (entry : bytes) : PM (option PartitionInfo) :=
  assert_or_panic (16 <=? zlen entry) ;;
  let type_guid := take 16 entry in
  if forallb (fun b => b =? 0) type_guid then mret None
  else
    assert_or_panic (48 <=? zlen entry) ;;
    let start_lba := u32 (le_at 8 entry 32) in
    let end_lba := u32 (le_at 8 entry 40) in
    let sector_count := end_lba -w32 start_lba +w32 1 in
    mret (Some (mkPart (u8 i) start_lba sector_count (identify_gpt_type type_guid))).

Definition gpt_step (device : D) (entry_lba entry_size entries_per_sector : Z)
    (acc : list PartitionInfo) (i : Z) : PM (list PartitionInfo) :=
  assert_or_panic (negb (entries_per_sector =? 0)) ;;
  let sector_offset := i / entries_per_sector in
  let entry_offset := Z.to_nat (u32 (i mod entries_per_sector * entry_size)) in
  sector ← bd_read_sector device (entry_lba +w32 sector_offset);
  assert_or_panic (Z.of_nat entry_offset + entry_size <=? zlen sector) ;;
  r ← gpt_entry i (slice sector entry_offset (entry_offset + Z.to_nat entry_size));
  mret (acc ++ match r with Some p => [p] | None => [] end).

Definition parse_gpt (device : D) : PM (list PartitionInfo) :=
  header ← bd_read_sector device 1;
  if negb (bool_decide (take 8 header = lit "EFI PART")) then fail (lit "invalid GPT signature")
  else
    let partition_entry_lba := u32 (le_at 8 header 72) in
    let num_entries := le_at 4 header 80 in
    let entry_size := le_at 4 header 84 in
    assert_or_panic (negb (entry_size =? 0)) ;;
    let entries_per_sector := SECTOR_SIZE / entry_size in
    for_acc (seqZ 0 (Z.min num_entries 128)) []
      (gpt_step device partition_entry_lba entry_size entries_per_sector).

Definition parse_partitions (device : D) : PM (list PartitionInfo) :=
  sector ← bd_read_sector device 0;
  if negb (rd sector 510 =? 0x55) || negb (rd sector 511 =? 0xAA) then fail (lit "no MBR signature")
  else if rd sector 450 =? 0xEE then parse_gpt device
  else mret (parse_mbr sector).

Definition find_partition (device : D) (ptype : PartitionType) : PM (option PartitionInfo) :=
  partitions ← parse_partitions device;
  mret (List.find (fun p => bool_decide (pi_partition_type p = ptype)) partitions).

Definition first_partition (device : D) : PM (option PartitionInfo) :=
  partitions ← parse_partitions device;
  mret (head partitions).
End parse.

(** ** The entry array as one run of bytes *)
Section gpt_spec.
Context {W D : Type} `{BlockDeviceLaws W D}.

(** Byte [q] of the device, sectors taken modulo 2^32 from [lba]. *)
Definition disk_slice (w : W) (d : D) (lba : Z) (off len : nat) : option bytes :=
  mapM (fun q => b ← sectors w d (lba +w32 (Z.of_nat q / SECTOR_SIZE)); b !! Z.to_nat (Z.of_nat q mod SECTOR_SIZE))
    (seq off len).

(** What entry [i] says, read at byte [i * entry_size] of the array. *)
Definition gpt_entry_spec (i : Z) (entry : bytes) : option PartitionInfo :=
  if forallb (fun b => b =? 0) (take 16 entry) then None
  else
    let start_lba := u32 (le_at 8 entry 32) in
    let end_lba := u32 (le_at 8 entry 40) in
    Some (mkPart (u8 i) start_lba (u32 (u32 (end_lba - start_lba) + 1)) (identify_gpt_type (take 16 entry))).

Lemma disk_slice_sector w d lba off len b :
  sectors w d (lba +w32 (Z.of_nat off / SECTOR_SIZE)) = Some b ->
  Z.of_nat off mod SECTOR_SIZE + Z.of_nat len <= SECTOR_SIZE ->
  disk_slice w d lba off len
    = Some (slice b (Z.to_nat (Z.of_nat off mod SECTOR_SIZE)) (Z.to_nat (Z.of_nat off mod SECTOR_SIZE) + len)).
Proof.
  intros Hb Hl. pose proof (sectors_length _ _ _ _ Hb) as Hlb. unfold disk_slice, SECTOR_SIZE in *.
  apply mapM_Some. apply Forall2_same_length_lookup. split.
  - rewrite length_seq, length_slice by (Z.div_mod_to_equations; lia). lia.
  - intros i q y [-> Hi]%lookup_seq Hy. unfold slice in Hy.
    apply lookup_take_Some in Hy as [Hy _]. rewrite lookup_drop in Hy.
    replace (Z.of_nat (off + i) / 512) with (Z.of_nat off / 512) by (Z.div_mod_to_equations; lia).
    rewrite Hb. simpl. rewrite <- Hy. f_equal. Z.div_mod_to_equations. lia.
Qed.

(** Where the code looks for entry [i]: in a sector, at a multiple of [es]. *)
Definition gpt_place (w : W) (d : D) (lba es i : Z) : option bytes :=
  let k := SECTOR_SIZE / es in
  b ← sectors w d (lba +w32 (i / k)); Some (slice b (Z.to_nat (i mod k * es)) (Z.to_nat (i mod k * es) + Z.to_nat es)).

(** With entries of a divisor of the sector's size that is their place in one run of bytes. *)
Lemma gpt_place_array w d lba es i : 0 < es <= SECTOR_SIZE -> SECTOR_SIZE mod es = 0 -> 0 <= i ->
  gpt_place w d lba es i = disk_slice w d lba (Z.to_nat (i * es)) (Z.to_nat es).
Proof.
  intros Hes Hdiv Hi. unfold gpt_place.
  assert (exists k, SECTOR_SIZE = k * es /\ 0 < k) as (k & Hk & Hkp).
  { exists (SECTOR_SIZE / es). unfold SECTOR_SIZE in *. Z.div_mod_to_equations. nia. }
  assert (SECTOR_SIZE / es = k) as -> by (rewrite Hk; apply Z.div_mul; lia).
  assert (Z.of_nat (Z.to_nat (i * es)) = i * es) as Hid by (rewrite Z2Nat.id; nia).
  assert (i * es / SECTOR_SIZE = i / k) as Hq by (rewrite Hk, Z.div_mul_cancel_r by lia; done).
  assert (i * es mod SECTOR_SIZE = i mod k * es) as Hm by (rewrite Hk, Z.mul_mod_distr_r by lia; done).
  destruct (sectors w d (lba +w32 (i / k))) as [b|] eqn:Hb; cbn.
  - rewrite (disk_slice_sector w d lba _ _ b); rewrite ?Hid, ?Hq, ?Hm; try done.
    pose proof (Z.mod_pos_bound i k Hkp). rewrite Z2Nat.id by lia. rewrite Hk. nia.
  - unfold disk_slice. destruct (Z.to_nat es) as [|n] eqn:Hn; [lia|]. cbn [seq mapM]. cbn. by rewrite Hid, Hq, Hb.
Qed.

(** Entries whose type is not zero, and sizes at which an entry panics. *)
Definition gpt_used (entry : bytes) : bool := negb (forallb (fun b => b =? 0) (take 16 entry)).
Definition gpt_short (es : Z) (entry : bytes) : bool := (es <? 16) || (es <? 48) && gpt_used entry.

Lemma gpt_entry_run i entry (w : W) :
  gpt_entry i entry w = (if gpt_short (zlen entry) entry then Panic else Ok (gpt_entry_spec i entry), w).
Proof.
  unfold gpt_entry, gpt_entry_spec, gpt_short, gpt_used. rewrite !Z.ltb_antisym.
  destruct (16 <=? zlen entry); [|done]. cbn [assert_or_panic negb orb]. rewrite bind_ret.
  destruct (forallb _ _); [by rewrite andb_false_r|]. by destruct (48 <=? zlen entry).
Qed.

Lemma gpt_step_run d lba es w acc i entry :
  0 < es <= SECTOR_SIZE -> 0 <= i -> gpt_place w d lba es i = Some entry ->
  gpt_step d lba es (SECTOR_SIZE / es) acc i w
    = (if gpt_short es entry then Panic else Ok (acc ++ match gpt_entry_spec i entry with Some p => [p] | None => [] end), w).
Proof.
  intros Hes Hi Hpl. unfold gpt_step, gpt_place in *. set (k := SECTOR_SIZE / es) in *.
  assert (0 < k /\ k * es <= SECTOR_SIZE) as [Hk Hkes] by (subst k; unfold SECTOR_SIZE in *; Z.div_mod_to_equations; nia).
  pose proof (Z.mod_pos_bound i k Hk) as Hmod. assert (0 <= i mod k * es /\ i mod k * es + es <= SECTOR_SIZE) as Hoff by nia.
  destruct (Z.eqb_spec k 0); [lia|]. cbn [negb assert_or_panic]. rewrite bind_ret.
  rewrite u32_small by (unfold SECTOR_SIZE in *; lia).
  destruct (sectors w d (lba +w32 (i / k))) as [b|] eqn:Hb; [|done]. cbn in Hpl. injection Hpl as <-.
  rewrite (bind_ok _ _ _ _ _ (read_sector_ok _ _ _ _ (u32_range _) Hb)).
  pose proof (sectors_length _ _ _ _ Hb) as Hlb. unfold zlen at 1. rewrite Hlb.
  destruct (Z.leb_spec (Z.of_nat (Z.to_nat (i mod k * es)) + es) (Z.of_nat 512)); [|unfold SECTOR_SIZE in *; lia].
  cbn [assert_or_panic]. rewrite bind_ret. set (entry := slice b _ _).
  assert (zlen entry = es) as Hl by (subst entry; unfold zlen; rewrite length_slice; unfold SECTOR_SIZE in *; lia).
  unfold mbind, M_bind. rewrite gpt_entry_run, Hl. by destruct (gpt_short es entry).
Qed.

(** Entry [i] is one of the first that panics. *)
Definition gpt_bad (w : W) (d : D) (lba es i : Z) : bool :=
  match gpt_place w d lba es i with Some entry => gpt_short es entry | None => false end.

Definition gpt_read_entry (w : W) (d : D) (lba es i : Z) : option PartitionInfo :=
  entry ← gpt_place w d lba es i; gpt_entry_spec i entry.

Lemma gpt_loop d lba es w l : 0 < es <= SECTOR_SIZE ->
  Forall (fun i => 0 <= i /\ is_Some (gpt_place w d lba es i)) l -> forall acc,
  for_acc l acc (gpt_step d lba es (SECTOR_SIZE / es)) w
    = (if existsb (gpt_bad w d lba es) l then Panic else Ok (acc ++ omap (gpt_read_entry w d lba es) l), w).
Proof.
  intros Hes Hl. induction Hl as [|i l [Hi [entry He]] Hl IH]; intros acc.
  - cbn. by rewrite app_nil_r.
  - cbn [for_acc existsb omap list_omap]. unfold mbind at 1, M_bind at 1. rewrite (gpt_step_run d lba es w acc i entry Hes Hi He).
    assert (gpt_read_entry w d lba es i = gpt_entry_spec i entry) as -> by (unfold gpt_read_entry; by rewrite He).
    unfold gpt_bad at 1. rewrite He. destruct (gpt_short es entry); [done|]. rewrite IH. cbn [orb].
    destruct (existsb _ l); [done|]. destruct (gpt_entry_spec i entry); simpl; by rewrite <- app_assoc.
Qed.

(** A sector of the array that cannot be read. *)
Lemma gpt_loop_err d lba es w l : 48 <= es <= SECTOR_SIZE -> Forall (fun i => 0 <= i) l ->
  Exists (fun i => gpt_place w d lba es i = None) l -> forall acc,
  exists e, for_acc l acc (gpt_step d lba es (SECTOR_SIZE / es)) w = (Err e, w).
Proof.
  intros Hes Hpos. induction Hpos as [|i l Hi Hpos IH]; intros He acc; [by inversion He|]. cbn [for_acc].
  destruct (gpt_place w d lba es i) as [entry|] eqn:Hpl.
  - apply Exists_cons in He as [He|He]; [congruence|].
    destruct (IH He (acc ++ match gpt_entry_spec i entry with Some p => [p] | None => [] end)) as (e & Hrun). exists e. rewrite <- Hrun.
    refine (bind_ok _ _ _ _ w _). rewrite (gpt_step_run d lba es w acc i entry ltac:(unfold SECTOR_SIZE in *; lia) Hi Hpl). unfold gpt_short.
    destruct (Z.ltb_spec es 16); [lia|]. by destruct (Z.ltb_spec es 48); [lia|].
  - unfold gpt_place in Hpl. set (k := SECTOR_SIZE / es) in *.
    assert (0 < k) as Hk by (subst k; unfold SECTOR_SIZE in *; Z.div_mod_to_equations; nia).
    destruct (sectors w d (lba +w32 (i / k))) eqn:Hs; [done|]. destruct (read_sector_err w d _ (u32_range _) Hs) as (e & Hr).
    exists e. refine (bind_err _ _ _ _ w _). unfold gpt_step. destruct (Z.eqb_spec k 0); [lia|]. cbn [negb assert_or_panic].
    rewrite bind_ret. exact (bind_err _ _ _ _ w Hr).
Qed.

(** C39: Reading a GPT, for every entry size the header can give, changes nothing.  With
    the sectors of the entries readable it panics exactly when the size is zero or there
    is an entry to read and the size is larger than a sector, less than 16, or less than
    48 while one of the entries read is in use; otherwise it yields exactly the entries whose
    type GUID is not zero, among the first 128, in order, each decoded from its place.
    For a size that divides the sector's, as every valid one up to 512 does (128 is usual), that
    place is the contiguous bytes [i * entry_size ..] of the array.  A sector of the array
    that cannot be read is an error. *)
Theorem parse_gpt_spec d w header :
  sectors w d 1 = Some header -> Forall is_byte header -> take 8 header = lit "EFI PART" ->
  let lba := u32 (le_at 8 header 72) in
  let n := Z.min (le_at 4 header 80) 128 in
  let es := le_at 4 header 84 in
  let place := gpt_place w d lba es in
  let panics := es = 0 \/ 0 < n /\ (SECTOR_SIZE < es \/ es < 16
    \/ es < 48 /\ exists i entry, 0 <= i < n /\ place i = Some entry /\ gpt_used entry = true) in
  ((0 < es <= SECTOR_SIZE -> forall i, 0 <= i < n -> is_Some (place i)) ->
     (panics -> parse_gpt d w = (Panic, w))
     /\ (~ panics -> parse_gpt d w = (Ok (omap (fun i => entry ← place i; gpt_entry_spec i entry) (seqZ 0 n)), w)))
  /\ (0 < es <= SECTOR_SIZE -> SECTOR_SIZE mod es = 0 -> forall i, 0 <= i ->
       place i = disk_slice w d lba (Z.to_nat (i * es)) (Z.to_nat es))
  /\ (48 <= es <= SECTOR_SIZE -> (exists i, 0 <= i < n /\ place i = None) -> exists e, parse_gpt d w = (Err e, w)).
Proof.
  intros Hs Hb Hsig lba n es place panics. pose proof (sectors_length _ _ _ _ Hs) as Hl.
  assert (0 <= es) as Hes0 by (apply (le_at_range 4 header 84 Hb); lia).
  unfold parse_gpt. rewrite (bind_ok _ _ _ _ _ (read_sector_ok w d 1 header ltac:(split; [lia|done]) Hs)).
  rewrite bool_decide_true by done. cbn [negb]. cbv zeta. fold lba n es.
  split_and!; [|by intros; apply gpt_place_array|].
  - intros Hall. destruct (Z.eqb_spec es 0) as [Hz|Hz]; [split; [done|]; intros Hp; by destruct Hp; left|].
    cbn [negb assert_or_panic]. rewrite bind_ret. destruct (Z.lt_ge_cases SECTOR_SIZE es) as [Hbig|Hbig].
    { destruct (Z.lt_ge_cases 0 n) as [Hn|Hn].
      - rewrite seqZ_cons by lia. cbn [for_acc]. rewrite Z.div_small by (unfold SECTOR_SIZE in *; lia).
        split; [done|]. intros Hp. destruct Hp. right. split; [done|by left].
      - rewrite seqZ_nil by lia. cbn. split; [|done]. intros [?|[? _]]; lia. }
    rewrite gpt_loop; [|lia|].
    2: { apply Forall_forall. intros i [Hi1 Hi2]%elem_of_seqZ. split; [lia|]. apply Hall; lia. }
    destruct (existsb _ _) eqn:Hex.
    + split; [done|]. intros Hp. destruct Hp. right. apply existsb_exists in Hex as (i & Hi & Hbad). apply list_elem_of_In, elem_of_seqZ in Hi.
      split; [lia|]. unfold gpt_bad in Hbad. fold place in Hbad. destruct (place i) as [entry|] eqn:Hpl; [|done]. unfold gpt_short in Hbad.
      apply orb_true_iff in Hbad as [Hlt%Z.ltb_lt|[Hlt%Z.ltb_lt Hu]%andb_true_iff]; [by right; left|]. right. right. split; [done|].
      exists i, entry. split_and!; [lia|lia|done|done].
    + split; [|done]. intros Hp. exfalso. apply not_true_iff_false in Hex. apply Hex. apply existsb_exists.
      destruct Hp as [?|(Hn & [?|[Hlt|(Hlt & i & entry & Hi & Hpl & Hu)]])]; [lia|lia| |].
      * exists 0. split; [apply list_elem_of_In, elem_of_seqZ; lia|]. unfold gpt_bad. fold place.
        destruct (Hall ltac:(lia) 0 ltac:(lia)) as [entry ->]. unfold gpt_short. by rewrite (proj2 (Z.ltb_lt es 16) Hlt).
      * exists i. split; [apply list_elem_of_In, elem_of_seqZ; lia|]. unfold gpt_bad. fold place. rewrite Hpl. unfold gpt_short.
        rewrite (proj2 (Z.ltb_lt es 48) Hlt), Hu. apply orb_true_r.
  - intros Hes (i & Hi & Hpl). destruct (Z.eqb_spec es 0); [lia|]. cbn [negb assert_or_panic]. rewrite bind_ret.
    apply gpt_loop_err; [done| |].
    + apply Forall_forall. intros j Hj%elem_of_seqZ. lia.
    + apply Exists_exists. exists i. split; [apply elem_of_seqZ; lia|done].
Qed.
End gpt_spec.

(** *** Witness: a disk with one EFI partition *)
Definition demo_gpt : RamDisk :=
  let header := splice (replicate 512 0) 0 (lit "EFI PART") in
  let header := splice header 72 [2; 0; 0; 0; 0; 0; 0; 0; 2; 0; 0; 0; 128; 0; 0; 0] in
  let entries := splice (splice (replicate 512 0) 0 EFI_SYSTEM) 32 [34; 0; 0; 0; 0; 0; 0; 0; 99; 0; 0; 0; 0; 0; 0; 0] in
  [replicate 512 0; header; entries].

Lemma demo_gpt_bytes : Forall is_byte (default [] (demo_gpt !! 1%nat)).
Proof. apply (bool_decide_unpack _). vm_compute. reflexivity. Qed.

Lemma demo_gpt_header : sectors demo_gpt tt 1 = Some (default [] (demo_gpt !! 1%nat)).
Proof. vm_compute. reflexivity. Qed.

(** The same disk, whose header says entries of 32 bytes. *)
Definition short_gpt : RamDisk :=
  <[1%nat := splice (default [] (demo_gpt !! 1%nat)) 84 [32]]> demo_gpt.

Lemma short_gpt_bytes : Forall is_byte (default [] (short_gpt !! 1%nat)).
Proof. apply (bool_decide_unpack _). vm_compute. reflexivity. Qed.

Lemma parse_gpt_spec_witness :
  parse_gpt tt demo_gpt = (Ok [mkPart 0 34 66 EfiSystem], demo_gpt) /\ parse_gpt tt short_gpt = (Panic, short_gpt).
Proof.
  split.
  - etransitivity.
    + apply (proj1 (parse_gpt_spec tt demo_gpt (default [] (demo_gpt !! 1%nat)) demo_gpt_header demo_gpt_bytes eq_refl)).
      * intros _ i Hi. assert (i = 0 \/ i = 1) as [->| ->] by (assert (0 <= i < 2) by exact Hi; lia);
          vm_compute; eexists; reflexivity.
      * change (le_at 4 (default [] (demo_gpt !! 1%nat)) 84) with 128. unfold SECTOR_SIZE. lia.
    + vm_compute. reflexivity.
  - apply (proj1 (parse_gpt_spec tt short_gpt (default [] (short_gpt !! 1%nat)) ltac:(by vm_compute) short_gpt_bytes eq_refl)).
    + intros _ i Hi. assert (i = 0 \/ i = 1) as [->| ->] by (assert (0 <= i < 2) by exact Hi; lia);
        vm_compute; eexists; reflexivity.
    + right. split; [done|]. right. right. split; [done|]. exists 0. eexists. split; [by vm_compute|]. by split; vm_compute.
Defined.
