(* ===== verification/FatCodec.v ===== *)
(** * FatCodec: the on-disk structures of FAT32

    [vcore/src/vfs/fat32.rs], lines 13-489: the BIOS parameter block, short and
    long-name directory entries and the name rules.  [str::to_uppercase] and
    [str::to_lowercase] need the Unicode tables of Rust's standard library; they
    are the operations of the class [UnicodeCase], of which the code relies on the
    behaviour on ASCII, stated as laws. *)
From Stdlib Require Import ZArith Lia.
From stdpp Require Import base numbers option list.
From S2P Require Import Prelude Block PartTable.

Definition FAT32_EOC : Z := 0x0FFFFFF8.
Definition FAT32_FREE : Z := 0.
Definition FAT32_BAD : Z := 0x0FFFFFF7.

Definition ATTR_READ_ONLY : Z := 0x01.
Definition ATTR_HIDDEN : Z := 0x02.
Definition ATTR_SYSTEM : Z := 0x04.
Definition ATTR_VOLUME_ID : Z := 0x08.
Definition ATTR_DIRECTORY : Z := 0x10.
Definition ATTR_ARCHIVE : Z := 0x20.
Definition ATTR_LFN : Z := 0x0F.

Definition LFN_LAST_ENTRY : Z := 0x40.
Definition LFN_SEQ_MASK : Z := 0x1F.

Definition DIR_ENTRY_SIZE : nat := 32.
Definition DELETED_MARKER : Z := 0xE5.

(** ** The BIOS parameter block *)
Record Bpb := mkBpb {
  bytes_per_sector : Z;
  sectors_per_cluster : Z;
  reserved_sectors : Z;
  num_fats : Z;
  total_sectors : Z;
  sectors_per_fat : Z;
  root_cluster : Z;
  fs_info_sector : Z
}.

Definition Bpb_parse (sector : bytes) : option Bpb :=
  if negb (rd sector 510 =? 0x55) || negb (rd sector 511 =? 0xAA) then None
  else
    let total_sectors_16 := le_at 2 sector 19 in
    let total_sectors_32 := le_at 4 sector 32 in
    Some (mkBpb (le_at 2 sector 11) (rd sector 13) (le_at 2 sector 14) (rd sector 16)
            (if total_sectors_16 =? 0 then total_sectors_32 else total_sectors_16)
            (le_at 4 sector 36) (le_at 4 sector 44) (le_at 2 sector 48)).

Definition fat_start_sector (b : Bpb) : Z := reserved_sectors b.
Definition data_start_sector (b : Bpb) : Z := reserved_sectors b +w32 (num_fats b *w32 sectors_per_fat b).
Definition cluster_to_sector (b : Bpb) (cluster : Z) : Z :=
  data_start_sector b +w32 ((cluster -w32 2) *w32 sectors_per_cluster b).
Definition bytes_per_cluster (b : Bpb) : Z := bytes_per_sector b * sectors_per_cluster b.

(** The division panics on a zero cluster size. *)
Definition total_clusters {E} (b : Bpb) : outcome E Z :=
  if sectors_per_cluster b =? 0 then Panic
  else Ok ((total_sectors b -w32 data_start_sector b) / sectors_per_cluster b).

(** ** Short directory entries *)
Record ShortDirEntry := mkShort {
  s_name : bytes;
  s_attr : Z;
  s_nt_res : Z;
  s_create_time_tenth : Z;
  s_create_time : Z;
  s_create_date : Z;
  s_access_date : Z;
  s_cluster_high : Z;
  s_modify_time : Z;
  s_modify_date : Z;
  s_cluster_low : Z;
  s_size : Z
}.

Definition Short_parse (data : bytes) : option ShortDirEntry :=
  if (zlen data <? Z.of_nat DIR_ENTRY_SIZE) || (rd data 0 =? 0) then None
  else Some (mkShort (slice data 0 11) (rd data 11) (rd data 12) (rd data 13)
               (le_at 2 data 14) (le_at 2 data 16) (le_at 2 data 18) (le_at 2 data 20)
               (le_at 2 data 22) (le_at 2 data 24) (le_at 2 data 26) (le_at 4 data 28)).

Definition Short_serialize (e : ShortDirEntry) : bytes :=
  s_name e ++ [s_attr e; s_nt_res e; s_create_time_tenth e] ++ to_le 2 (s_create_time e)
  ++ to_le 2 (s_create_date e) ++ to_le 2 (s_access_date e) ++ to_le 2 (s_cluster_high e)
  ++ to_le 2 (s_modify_time e) ++ to_le 2 (s_modify_date e) ++ to_le 2 (s_cluster_low e)
  ++ to_le 4 (s_size e).

Definition s_cluster (e : ShortDirEntry) : Z :=
  Z.lor (u32 (Z.shiftl (s_cluster_high e) 16)) (s_cluster_low e).

Definition set_size_cluster (e : ShortDirEntry) (size cluster : Z) : ShortDirEntry :=
  mkShort (s_name e) (s_attr e) (s_nt_res e) (s_create_time_tenth e) (s_create_time e)
    (s_create_date e) (s_access_date e) (u16 (Z.shiftr cluster 16)) (s_modify_time e)
    (s_modify_date e) (u16 cluster) size.

Definition set_cluster (e : ShortDirEntry) (cluster : Z) : ShortDirEntry := set_size_cluster e (s_size e) cluster.

Definition is_directory (e : ShortDirEntry) : bool := negb (Z.land (s_attr e) ATTR_DIRECTORY =? 0).
Definition is_volume_label (e : ShortDirEntry) : bool := negb (Z.land (s_attr e) ATTR_VOLUME_ID =? 0).

Definition is_lfn (e : ShortDirEntry) : bool := s_attr e =? ATTR_LFN.
Definition is_deleted (e : ShortDirEntry) : bool := rd (s_name e) 0 =? DELETED_MARKER.
Definition is_free (e : ShortDirEntry) : bool := (rd (s_name e) 0 =? 0x00) || (rd (s_name e) 0 =? DELETED_MARKER).

(** ASCII classification and case. *)
Definition ascii_upper_alpha (c : Z) : bool := (65 <=? c) && (c <=? 90).
Definition ascii_lower_alpha (c : Z) : bool := (97 <=? c) && (c <=? 122).
Definition ascii_digit (c : Z) : bool := (48 <=? c) && (c <=? 57).
Definition ascii_alphanumeric (c : Z) : bool := ascii_upper_alpha c || ascii_lower_alpha c || ascii_digit c.
Definition to_ascii_lowercase (c : Z) : Z := if ascii_upper_alpha c then c + 32 else c.
Definition to_ascii_uppercase (c : Z) : Z := if ascii_lower_alpha c then c - 32 else c.

Definition space : Z := 32.
Definition dot : Z := 46.
Definition underscore : Z := 95.
Definition hyphen : Z := 45.

Fixpoint take_while {A} (f : A -> bool) (l : list A) : list A :=
  match l with [] => [] | x :: l' => if f x then x :: take_while f l' else [] end.

Definition name_field (b : bytes) : rstr :=
  to_ascii_lowercase <$> take_while (fun c => negb (c =? space)) b.

Definition short_name (e : ShortDirEntry) : rstr :=
  let name_part := name_field (slice (s_name e) 0 8) in
  let ext_part := name_field (slice (s_name e) 8 11) in
  if decide (ext_part = []) then name_part else name_part ++ [dot] ++ ext_part.

(** ** Long-name entries *)
Record LfnEntry := mkLfn {
  l_seq : Z;
  l_name1 : list Z;
  l_attr : Z;
  l_entry_type : Z;
  l_checksum : Z;
  l_name2 : list Z;
  l_cluster : Z;
  l_name3 : list Z
}.

(** [n] consecutive little-endian [u16]s from [off]. *)
Definition u16s (n : nat) (data : bytes) (off : nat) : list Z :=
  (fun i => le_at 2 data (off + i * 2)) <$> seq 0 n.

Definition Lfn_parse (data : bytes) : option LfnEntry :=
  if (zlen data <? Z.of_nat DIR_ENTRY_SIZE) || negb (rd data 11 =? ATTR_LFN) then None
  else Some (mkLfn (rd data 0) (u16s 5 data 1) (rd data 11) (rd data 12) (rd data 13)
               (u16s 6 data 14) (le_at 2 data 26) (u16s 2 data 28)).

Definition Lfn_serialize (e : LfnEntry) : bytes :=
  [l_seq e] ++ (l_name1 e ≫= to_le 2) ++ [ATTR_LFN; 0; l_checksum e]
  ++ (l_name2 e ≫= to_le 2) ++ [0; 0] ++ (l_name3 e ≫= to_le 2).

Definition sequence_number (e : LfnEntry) : Z := Z.land (l_seq e) LFN_SEQ_MASK.
Definition is_last (e : LfnEntry) : bool := negb (Z.land (l_seq e) LFN_LAST_ENTRY =? 0).

(** [char::from_u32]. *)
Definition char_from_u32 (c : Z) : option Z :=
  if ((0 <=? c) && (c <? 0xD800)) || ((0xE000 <=? c) && (c <? 0x110000)) then Some c else None.

(** One of the three loops of [chars]. *)
Fixpoint push_chars (units : list Z) : rstr :=
  match units with
  | [] => []
  | c :: units' =>
      if (c =? 0) || (c =? 0xFFFF) then []
      else match char_from_u32 c with Some ch => ch :: push_chars units' | None => push_chars units' end
  end.

Definition lfn_chars (e : LfnEntry) : rstr :=
  let chars := push_chars (l_name1 e) in
  if (length chars <? 5)%nat then chars
  else
    let chars := chars ++ push_chars (l_name2 e) in
    if (length chars <? 11)%nat then chars else chars ++ push_chars (l_name3 e).

(** [for (i, &ch) in part.enumerate() { a[i] = ch as u16 }]. *)
Definition fill16 (a : list Z) (part : rstr) : list Z := splice a 0 (u16 <$> part).

Definition Lfn_new (seq checksum : Z) (chars : rstr) (is_last : bool) : LfnEntry :=
  let len := length chars in
  let name1 := fill16 (replicate 5 0xFFFF) (take 5 chars) in
  let name2 := if (5 <=? len)%nat then fill16 (replicate 6 0xFFFF) (take 6 (drop 5 chars)) else replicate 6 0xFFFF in
  let name3 := if (11 <=? len)%nat then fill16 (replicate 2 0xFFFF) (take 2 (drop 11 chars)) else replicate 2 0xFFFF in
  let name1 := if (len <? 13)%nat && (len <? 5)%nat then <[len := 0]> name1 else name1 in
  let name2 := if (len <? 13)%nat && negb (len <? 5)%nat && (len <? 11)%nat then <[(len - 5)%nat := 0]> name2 else name2 in
  let name3 := if (len <? 13)%nat && negb (len <? 11)%nat then <[(len - 11)%nat := 0]> name3 else name3 in
  mkLfn (if is_last then Z.lor seq LFN_LAST_ENTRY else seq) name1 ATTR_LFN 0 checksum name2 0 name3.

(** [u8::rotate_right(1)]. *)
Definition rotate_right1 (b : Z) : Z := Z.lor (Z.shiftr b 1) (u8 (Z.shiftl b 7)).

Definition lfn_checksum (short_name : bytes) : Z :=
  foldl (fun sum b => u8 (rotate_right1 sum + b)) 0 short_name.

Definition create_lfn_entries (name : rstr) (short_name : bytes) : list LfnEntry :=
  let checksum := lfn_checksum short_name in
  let num_entries := ((length name + 12) / 13)%nat in
  (fun i : nat =>
     let start := (i * 13)%nat in
     let end_ := Nat.min (start + 13) (length name) in
     Lfn_new (u8 (Z.of_nat i + 1)) checksum (slice name start end_) (i =? num_entries - 1)%nat)
  <$> rev (seq 0 num_entries).

Definition assemble_lfn (lfn_entries : list LfnEntry) : rstr := rev lfn_entries ≫= lfn_chars.

(** ** Names *)
Class UnicodeCase := {
  str_to_uppercase : rstr -> rstr;
  str_to_lowercase : rstr -> rstr;
  str_to_uppercase_ascii s : Forall (fun c => 0 <= c < 128) s -> str_to_uppercase s = to_ascii_uppercase <$> s;
  str_to_lowercase_ascii s : Forall (fun c => 0 <= c < 128) s -> str_to_lowercase s = to_ascii_lowercase <$> s
}.

(** [rsplitn(2, '.')]: after the last dot, and before it if there is one. *)
Fixpoint rsplit_dot (s : rstr) : rstr * option rstr :=
  match s with
  | [] => ([], None)
  | c :: s' =>
      let (ext, base) := rsplit_dot s' in
      match base with
      | Some b => (ext, Some (c :: b))
      | None => if c =? dot then (ext, Some []) else (c :: ext, None)
      end
  end.

Definition short_char (c : Z) : Z :=
  if ascii_alphanumeric c || (c =? underscore) || (c =? hyphen) then c else underscore.

(** [for (i, c) in part.chars().take(n).enumerate() { result[off + i] = .. }]. *)
Definition put_part (result : bytes) (off n : nat) (part : rstr) : bytes :=
  splice result off (short_char <$> take n part).

Section names.
Context {U : UnicodeCase}.

Definition make_short_name (name : rstr) : bytes :=
  let name_upper := str_to_uppercase name in
  let (ext, base) := rsplit_dot name_upper in
  let base := default name_upper base in
  let (base, ext) := if negb (existsb (fun c => c =? dot) name) then (ext, []) else (base, ext) in
  put_part (put_part (replicate 11 space) 0 8 base) 8 3 ext.

Definition needs_lfn (name : rstr) : bool :=
  if 12 <? str_len name then true
  else
    let (ext, base) := rsplit_dot name in
    if match base with
       | Some b => (8 <? str_len b) || (3 <? str_len ext)
       | None => 8 <? str_len ext
       end then true
    else existsb (fun c => ascii_lower_alpha c
                           || (negb (ascii_alphanumeric c) && negb (c =? dot)
                               && negb (c =? underscore) && negb (c =? hyphen))) name.

(** [ShortDirEntry::new]. *)
Definition Short_new (name : rstr) (attr cluster size : Z) : ShortDirEntry :=
  mkShort (make_short_name name) attr 0 0 0 0 0 (u16 (Z.shiftr cluster 16)) 0 0 (u16 cluster) size.
End names.

(** ** Entries survive serialization *)
Record short_wf (e : ShortDirEntry) : Prop := {
  sw_name : length (s_name e) = 11%nat;
  sw_bytes : Forall is_byte (s_name e);
  sw_first : rd (s_name e) 0 ≠ 0;
  sw_attr : is_byte (s_attr e);
  sw_nt : is_byte (s_nt_res e);
  sw_tenth : is_byte (s_create_time_tenth e);
  sw_ctime : 0 <= s_create_time e < 65536;
  sw_cdate : 0 <= s_create_date e < 65536;
  sw_adate : 0 <= s_access_date e < 65536;
  sw_high : 0 <= s_cluster_high e < 65536;
  sw_mtime : 0 <= s_modify_time e < 65536;
  sw_mdate : 0 <= s_modify_date e < 65536;
  sw_low : 0 <= s_cluster_low e < 65536;
  sw_size : 0 <= s_size e < 2 ^ 32
}.

(** Expose the elements of a list of known length. *)
Ltac explode l H :=
  repeat (let x := fresh "b" in destruct l as [|x l]; [discriminate H|]; cbn [length] in H);
  try (destruct l; [|discriminate H]); clear H.

Lemma length_Short_serialize e : short_wf e -> length (Short_serialize e) = 32%nat.
Proof. intros Hw. unfold Short_serialize. rewrite !length_app, (sw_name _ Hw). reflexivity. Qed.

Lemma Short_serialize_bytes e : short_wf e -> Forall is_byte (Short_serialize e).
Proof.
  intros []. unfold Short_serialize. repeat (apply Forall_app; split); auto using to_le_bytes.
Qed.

Lemma Short_parse_serialize e : short_wf e -> Short_parse (Short_serialize e) = Some e.
Proof.
  intros Hw. pose proof (length_Short_serialize e Hw) as Hl.
  destruct Hw as [Hn Hb H0 _ _ _ H1 H2 H3 H4 H5 H6 H7 H8].
  destruct e as [n a nt ct c1 c2 c3 c4 c5 c6 c7 c8]. cbn [s_name s_attr s_nt_res s_create_time_tenth
    s_create_time s_create_date s_access_date s_cluster_high s_modify_time s_modify_date s_cluster_low s_size] in *.
  unfold Short_parse, zlen. rewrite Hl. change (Z.of_nat 32 <? Z.of_nat DIR_ENTRY_SIZE) with false.
  explode n Hn. cbn [orb].
  change (rd (Short_serialize _) 0) with b. change (rd (b :: _) 0) with b in H0.
  destruct (Z.eqb_spec b 0) as [|_]; [done|].
  f_equal. f_equal; first
    [ reflexivity | apply (from_to_le 2); change (256 ^ Z.of_nat 2) with 65536; lia
    | apply (from_to_le 4); change (256 ^ Z.of_nat 4) with (2 ^ 32); lia ].
Qed.

Lemma to_le_at n b off : Forall is_byte b -> (off + n <= length b)%nat -> to_le n (le_at n b off) = slice b off (off + n).
Proof.
  intros Hb Hl. unfold le_at. pose proof (to_from_le (slice b off (off + n))) as H.
  rewrite length_slice in H by lia. replace (off + n - off)%nat with n in H by lia. apply H.
  unfold slice. by apply Forall_take, Forall_drop.
Qed.

Lemma rd_byte b i : Forall is_byte b -> (i < length b)%nat -> is_byte (rd b i).
Proof.
  intros Hb Hi. unfold rd. rewrite Forall_lookup in Hb.
  destruct (lookup_lt_is_Some_2 b i Hi) as [x Hx]. erewrite nth_lookup_Some by exact Hx. by eapply Hb.
Qed.

Lemma Short_serialize_parse data e :
  length data = 32%nat -> Forall is_byte data -> Short_parse data = Some e ->
  Short_serialize e = data /\ short_wf e.
Proof.
  intros Hl Hb. unfold Short_parse, zlen. rewrite Hl. cbn [orb].
  change (Z.of_nat 32 <? Z.of_nat DIR_ENTRY_SIZE) with false. cbn [orb].
  destruct (Z.eqb_spec (rd data 0) 0) as [|H0]; [done|]. intros [= <-]. split.
  - unfold Short_serialize. cbn [s_name s_attr s_nt_res s_create_time_tenth s_create_time s_create_date
      s_access_date s_cluster_high s_modify_time s_modify_date s_cluster_low s_size].
    rewrite !to_le_at by (done || lia). explode data Hl. reflexivity.
  - pose proof (fun i Hi => rd_byte data i Hb Hi) as Hrd. rewrite Hl in Hrd.
    pose proof (fun n off Ho => le_at_range n data off Hb Ho) as Hle. rewrite Hl in Hle.
    split; cbn [s_name s_attr s_nt_res s_create_time_tenth s_create_time s_create_date
      s_access_date s_cluster_high s_modify_time s_modify_date s_cluster_low s_size];
      try (apply Hrd; lia); try (apply (Hle 2%nat); lia); try (apply (Hle 4%nat); lia).
    + by rewrite length_slice by lia.
    + unfold slice. by apply Forall_take, Forall_drop.
    + by explode data Hl.
Qed.

Record lfn_wf (e : LfnEntry) : Prop := {
  lw_seq : is_byte (l_seq e);
  lw_name1 : length (l_name1 e) = 5%nat /\ Forall (fun c => 0 <= c < 65536) (l_name1 e);
  lw_attr : l_attr e = ATTR_LFN;
  lw_type : l_entry_type e = 0;
  lw_checksum : is_byte (l_checksum e);
  lw_name2 : length (l_name2 e) = 6%nat /\ Forall (fun c => 0 <= c < 65536) (l_name2 e);
  lw_cluster : l_cluster e = 0;
  lw_name3 : length (l_name3 e) = 2%nat /\ Forall (fun c => 0 <= c < 65536) (l_name3 e)
}.

Lemma le16 v : 0 <= v < 65536 -> from_le (to_le 2 v) = v.
Proof. intros H. apply from_to_le. exact H. Qed.

Lemma length_Lfn_serialize e : lfn_wf e -> length (Lfn_serialize e) = 32%nat.
Proof.
  intros [_ [H1 _] _ _ _ [H2 _] _ [H3 _]]. unfold Lfn_serialize.
  destruct e as [sq n1 at_ ty ck n2 cl n3]. cbn [l_name1 l_name2 l_name3 l_seq l_checksum] in *.
  explode n1 H1. explode n2 H2. explode n3 H3. reflexivity.
Qed.

Lemma Lfn_parse_serialize e : lfn_wf e -> Lfn_parse (Lfn_serialize e) = Some e.
Proof.
  intros Hw. pose proof (length_Lfn_serialize e Hw) as Hl.
  destruct Hw as [_ [H1 F1] Ha Ht _ [H2 F2] Hc [H3 F3]].
  destruct e as [sq n1 at_ ty ck n2 cl n3]. cbn [l_name1 l_name2 l_name3 l_seq l_checksum l_attr l_entry_type l_cluster] in *.
  subst at_ ty cl. unfold Lfn_parse, zlen. rewrite Hl. change (Z.of_nat 32 <? Z.of_nat DIR_ENTRY_SIZE) with false.
  explode n1 H1. explode n2 H2. explode n3 H3. cbn [orb].
  change (negb (rd (Lfn_serialize _) 11 =? ATTR_LFN)) with false. cbn iota.
  repeat match goal with F : Forall _ (_ :: _) |- _ => apply Forall_cons in F as [? F] end.
  f_equal. f_equal; try reflexivity.
  all: unfold u16s; cbn [seq fmap list_fmap]; repeat f_equal; by apply le16.
Qed.

(** ** Long names *)

(** A character a long-name entry can hold: one UTF-16 unit, neither of the two
    that end a name. *)
Definition lfn_char (c : Z) : Prop := is_char c /\ 0 < c < 0xFFFF.
#[export] Instance lfn_char_dec c : Decision (lfn_char c).
Proof. unfold lfn_char, is_char. apply _. Defined.

Lemma push_chars_app l r : Forall lfn_char l -> push_chars (l ++ r) = l ++ push_chars r.
Proof.
  induction 1 as [|c l [Hc Hr] Hl IH]; [done|]. cbn [app push_chars].
  destruct (Z.eqb_spec c 0), (Z.eqb_spec c 0xFFFF); try lia. cbn [orb].
  assert (char_from_u32 c = Some c) as ->.
  { unfold char_from_u32, is_char in *. case_bool; [done|]. exfalso. zbool. 
    repeat match goal with H : (_ && _)%bool = false |- _ => apply andb_false_iff in H as [?|?] end; zbool; lia. }
  by rewrite IH.
Qed.

Lemma u16_lfn l : Forall lfn_char l -> u16 <$> l = l.
Proof.
  induction 1 as [|c l [_ Hr] Hl IH]; [done|]. rewrite fmap_cons, IH. by rewrite u16_small by lia.
Qed.

Lemma fill16_lfn n part : Forall lfn_char part -> (length part <= n)%nat ->
  fill16 (replicate n 0xFFFF) part = part ++ replicate (n - length part) 0xFFFF.
Proof.
  intros Hp Hl. unfold fill16. rewrite u16_lfn by done. unfold splice. cbn [take]. rewrite app_nil_l, drop_replicate.
  by rewrite Nat.add_0_l.
Qed.

Lemma push_terminated l n : Forall lfn_char l -> push_chars (l ++ replicate n 0xFFFF) = l.
Proof. intros Hl. rewrite push_chars_app by done. destruct n; [by rewrite app_nil_r|]. simpl. by rewrite app_nil_r. Qed.

Lemma push_terminated0 l n : Forall lfn_char l -> push_chars (l ++ 0 :: replicate n 0xFFFF) = l.
Proof. intros Hl. rewrite push_chars_app by done. simpl. by rewrite app_nil_r. Qed.

Lemma insert_terminator i (l : list Z) n : i = length l -> (0 < n)%nat ->
  <[i := 0]> (l ++ replicate n 0xFFFF) = l ++ 0 :: replicate (n - 1) 0xFFFF.
Proof.
  intros -> Hn. destruct n as [|n]; [lia|]. rewrite insert_app_r_alt by lia. rewrite Nat.sub_diag.
  cbn [replicate]. replace (S n - 1)%nat with n by lia. done.
Qed.

(** One entry gives back the characters it was made of. *)
Lemma lfn_chars_new sq ck chars last :
  Forall lfn_char chars -> (length chars <= 13)%nat -> lfn_chars (Lfn_new sq ck chars last) = chars.
Proof.
  intros Hc Hl. unfold lfn_chars, Lfn_new. cbn [l_name1 l_name2 l_name3].
  set (p1 := take 5 chars). set (p2 := take 6 (drop 5 chars)). set (p3 := take 2 (drop 11 chars)).
  assert (Forall lfn_char p1 /\ Forall lfn_char p2 /\ Forall lfn_char p3) as (F1 & F2 & F3)
    by (subst p1 p2 p3; auto using Forall_take, Forall_drop).
  assert (length p1 = Nat.min 5 (length chars)) as L1 by (subst p1; by rewrite length_take).
  assert (length p2 = Nat.min 6 (length chars - 5)) as L2 by (subst p2; by rewrite length_take, length_drop).
  assert (length p3 = Nat.min 2 (length chars - 11)) as L3 by (subst p3; by rewrite length_take, length_drop).
  assert (p1 ++ p2 ++ p3 = chars) as Hall.
  { subst p1 p2 p3. rewrite <- (take_drop 5 chars) at 4. f_equal. rewrite <- (take_drop 6 (drop 5 chars)) at 2.
    f_equal. rewrite drop_drop. apply take_ge. rewrite length_drop. lia. }
  rewrite (fill16_lfn 5 p1), (fill16_lfn 6 p2), (fill16_lfn 2 p3) by (done || lia).
  rewrite L1, L2, L3.
  destruct (Nat.ltb_spec (length chars) 5) as [H5|H5]; cbn [andb negb].
  { (* the name ends in the first part *)
    destruct (Nat.ltb_spec (length chars) 13); [|lia]. cbn [andb].
    rewrite (insert_terminator (length chars) p1) by lia.
    rewrite push_terminated0 by done. destruct (Nat.ltb_spec (length p1) 5); [|lia].
    subst p1. apply take_ge. lia. }
  rewrite !andb_false_r. rewrite push_terminated by done.
  destruct (Nat.ltb_spec (length p1) 5); [lia|]. destruct (Nat.leb_spec 5 (length chars)); [|lia].
  destruct (Nat.ltb_spec (length chars) 11) as [H11|H11]; cbn [andb negb].
  { destruct (Nat.ltb_spec (length chars) 13); [|lia]. cbn [andb].
    rewrite (insert_terminator (length chars - 5) p2) by lia.
    rewrite push_terminated0 by done. rewrite length_app. destruct (Nat.ltb_spec (length p1 + length p2) 11); [|lia].
    rewrite <- Hall. assert (p3 = []) as -> by (apply nil_length_inv; lia). by rewrite app_nil_r. }
  rewrite !andb_false_r. rewrite push_terminated by done. rewrite length_app.
  destruct (Nat.ltb_spec (length p1 + length p2) 11); [lia|]. destruct (Nat.leb_spec 11 (length chars)); [|lia].
  destruct (Nat.ltb_spec (length chars) 13); cbn [andb].
  - rewrite (insert_terminator (length chars - 11) p3) by lia.
    rewrite push_terminated0 by done. by rewrite <- app_assoc.
  - rewrite push_terminated by done. by rewrite <- app_assoc.
Qed.

Lemma Lfn_new_wf sq ck chars last :
  is_byte sq -> is_byte ck -> Forall lfn_char chars -> (length chars <= 13)%nat -> lfn_wf (Lfn_new sq ck chars last).
Proof.
  intros Hs Hk Hc Hl.
  assert (Hfill : forall n part, length (fill16 (replicate n 0xFFFF) (take n part)) = n).
  { intros n part. unfold fill16. rewrite length_splice; rewrite length_replicate; [done|].
    rewrite length_fmap, length_take. lia. }
  assert (Hrng : forall n part, Forall lfn_char part -> Forall (fun c => 0 <= c < 65536) (fill16 (replicate n 0xFFFF) (take n part))).
  { intros n part Hp. rewrite fill16_lfn by (auto using Forall_take; rewrite length_take; lia).
    apply Forall_app. split.
    - eapply Forall_impl; [by apply Forall_take|]. intros c [_ ?]. simpl. lia.
    - apply Forall_replicate. lia. }
  assert (Hrep : forall n, Forall (fun c => 0 <= c < 65536) (replicate n 0xFFFF)) by (intros; apply Forall_replicate; lia).
  assert (Hins : forall (l : list Z) i, Forall (fun c => 0 <= c < 65536) l -> Forall (fun c => 0 <= c < 65536) (<[i:=0]> l))
    by (intros; apply Forall_insert; [done|lia]).
  split; unfold Lfn_new; cbn [l_seq l_name1 l_attr l_entry_type l_checksum l_name2 l_cluster l_name3]; try done.
  - destruct last; [|done]. unfold is_byte, LFN_LAST_ENTRY in *. split.
    + apply Z.lor_nonneg. lia.
    + change 256 with (2 ^ 8). apply Z.log2_lt_cancel. rewrite Z.log2_lor by lia.
      change (Z.log2 (2 ^ 8)) with 8. change (Z.log2 64) with 6. apply Z.max_lub_lt; [|lia].
      destruct (Z.eq_dec sq 0) as [->|]; [done|]. apply Z.log2_lt_pow2; lia.
  - split; repeat case_match; rewrite ?length_insert; auto using Forall_drop.
  - split; repeat case_match; rewrite ?length_insert; auto using Forall_drop.
  - split; repeat case_match; rewrite ?length_insert; auto using Forall_drop.
Qed.

Lemma lfn_checksum_byte sn : is_byte (lfn_checksum sn).
Proof.
  unfold lfn_checksum. cut (forall s, is_byte s -> is_byte (foldl (fun sum b => u8 (rotate_right1 sum + b)) s sn)).
  { intros H. by apply H. }
  induction sn as [|b sn IH]; intros s Hs; [done|]. cbn [foldl]. apply IH. apply u8_range.
Qed.

(** The chunk of the name that entry [i] holds. *)
Definition lfn_chunk (name : rstr) (i : nat) : rstr :=
  slice name (i * 13) (Nat.min (i * 13 + 13) (length name)).

Lemma lfn_chunk_length name i : (length (lfn_chunk name i) <= 13)%nat.
Proof. unfold lfn_chunk, slice. rewrite length_take. lia. Qed.

Lemma lfn_chunk_chars name i : Forall lfn_char name -> Forall lfn_char (lfn_chunk name i).
Proof. intros H. unfold lfn_chunk, slice. by apply Forall_take, Forall_drop. Qed.

Lemma chunks_concat name n : (seq 0 n ≫= lfn_chunk name) = take (n * 13) name.
Proof.
  induction n as [|n IH]; [done|]. rewrite seq_S, bind_app, IH. cbn [mbind list_bind].
  rewrite app_nil_r. unfold lfn_chunk, slice. rewrite Nat.add_0_l.
  replace (S n * 13)%nat with (n * 13 + 13)%nat by lia. rewrite <- take_take_drop. f_equal.
  destruct (Nat.le_gt_cases (n * 13 + 13) (length name)); [f_equal; lia|].
  rewrite !take_ge; rewrite ?length_drop; try lia. done.
Qed.

Lemma create_lfn_entries_map name sn :
  let n := ((length name + 12) / 13)%nat in
  create_lfn_entries name sn =
    (fun i => Lfn_new (u8 (Z.of_nat i + 1)) (lfn_checksum sn) (lfn_chunk name i) (i =? n - 1)%nat) <$> rev (seq 0 n).
Proof. done. Qed.

(** The longest name whose sequence numbers stay clear of the "last" flag. *)
Definition LFN_MAX : nat := 63 * 13.

Lemma lfn_entries_ok name sn :
  Forall lfn_char name -> (length name <= LFN_MAX)%nat ->
  Forall (fun e => lfn_wf e /\ l_checksum e = lfn_checksum sn) (create_lfn_entries name sn).
Proof.
  intros Hc Hl. rewrite create_lfn_entries_map. apply Forall_fmap, Forall_forall.
  intros i _. cbn. split; [|done]. apply Lfn_new_wf; auto using lfn_chunk_chars, lfn_chunk_length, lfn_checksum_byte.
  apply u8_range.
Qed.

Lemma rev_fmap {A B} (f : A -> B) l : rev (f <$> l) = f <$> rev l.
Proof. symmetry. apply map_rev. Qed.

Lemma assemble_create name sn :
  Forall lfn_char name -> assemble_lfn (create_lfn_entries name sn) = name.
Proof.
  intros Hc. unfold assemble_lfn. rewrite create_lfn_entries_map. set (n := ((length name + 12) / 13)%nat).
  rewrite rev_fmap, rev_involutive.
  transitivity (seq 0 n ≫= lfn_chunk name).
  - induction (seq 0 n) as [|i l IH]; [done|]. rewrite fmap_cons, !bind_cons, IH.
    by rewrite lfn_chars_new by auto using lfn_chunk_chars, lfn_chunk_length.
  - rewrite chunks_concat. apply take_ge. subst n. pose proof (Nat.div_mod_eq (length name + 12) 13).
    pose proof (Nat.mod_upper_bound (length name + 12) 13). lia.
Qed.

Lemma land64_small i : 0 <= i < 64 -> Z.land i 64 = 0.
Proof.
  intros Hs. change 64 with (2 ^ 6). apply Z.bits_inj'. intros k Hk. rewrite Z.land_spec, Z.pow2_bits_eqb, Z.bits_0 by lia.
  destruct (Z.eqb_spec 6 k) as [<-|]; [|by rewrite andb_false_r]. rewrite andb_true_r.
  apply Z.bits_above_log2; [lia|]. destruct (Z.eq_dec i 0) as [->|]; [done|]. apply Z.log2_lt_pow2; lia.
Qed.

Lemma Lfn_new_is_last sq ck chars last : 0 <= sq < 64 -> is_last (Lfn_new sq ck chars last) = last.
Proof.
  intros H0%land64_small. unfold is_last, Lfn_new, LFN_LAST_ENTRY. cbn [l_seq].
  destruct last; [|by rewrite H0]. rewrite Z.land_lor_distr_l, H0. done.
Qed.

Lemma lfn_last_flags name sn :
  name ≠ [] -> (length name <= LFN_MAX)%nat ->
  is_last <$> create_lfn_entries name sn = true :: replicate ((length name + 12) / 13 - 1) false.
Proof.
  intros Hne Hl. rewrite create_lfn_entries_map. rewrite <- list_fmap_compose.
  assert (0 < length name)%nat by (destruct name; [done|simpl; lia]). unfold LFN_MAX in Hl.
  pose proof (Nat.div_mod_eq (length name + 12) 13). pose proof (Nat.mod_upper_bound (length name + 12) 13).
  destruct ((length name + 12) / 13)%nat as [|n] eqn:Hn; [lia|].
  rewrite seq_S, rev_app_distr, Nat.add_0_l. cbn [rev app]. rewrite fmap_cons. unfold compose at 1.
  rewrite Lfn_new_is_last by (rewrite u8_small; lia).
  replace (S n - 1)%nat with n by lia. rewrite Nat.eqb_refl. f_equal.
  apply list_eq_same_length with n; [by rewrite length_replicate|by rewrite length_fmap, length_rev, length_seq|].
  intros i x y Hi Hx Hy. apply lookup_replicate in Hy as [-> _].
  apply list_lookup_fmap_Some in Hx as (j & -> & Hj).
  assert (In j (seq 0 n)) as Hin by (apply in_rev; by eapply list_elem_of_In, list_elem_of_lookup_2).
  apply in_seq in Hin. unfold compose. rewrite Lfn_new_is_last by (rewrite u8_small; lia).
  apply Nat.eqb_neq. lia.
Qed.

(** Directory entries survive the disk: a short entry with fields in range
    and a first name byte that is not zero serializes to 32 bytes that parse back to it,
    and any 32 bytes that parse as a short entry are exactly its serialization. *)
Theorem short_entry_roundtrip :
  (forall e, short_wf e -> length (Short_serialize e) = 32%nat /\ Short_parse (Short_serialize e) = Some e)
  /\ (forall data e, length data = 32%nat -> Forall is_byte data -> Short_parse data = Some e ->
        Short_serialize e = data /\ short_wf e).
Proof.
  split; [|exact Short_serialize_parse].
  intros e Hw. split; [by apply length_Short_serialize|by apply Short_parse_serialize].
Qed.

(** C35: Long names survive the disk: for a nonempty name of at most 819
    characters, each a single UTF-16 unit, the entries made for it serialize to
    slots that parse back to them, carry the checksum of the short name, have the
    "last" flag on the first slot and on no other, and reassemble to exactly the
    name. *)
Theorem lfn_roundtrip name sn :
  name ≠ [] -> Forall lfn_char name -> (length name <= LFN_MAX)%nat ->
  exists es, mapM Lfn_parse (Lfn_serialize <$> create_lfn_entries name sn) = Some es
    /\ assemble_lfn es = name
    /\ Forall (fun e => l_checksum e = lfn_checksum sn) es
    /\ is_last <$> es = true :: replicate ((length name + 12) / 13 - 1) false.
Proof.
  intros Hne Hc Hl. exists (create_lfn_entries name sn).
  pose proof (lfn_entries_ok name sn Hc Hl) as Hok. split_and!.
  - apply mapM_Some. apply Forall2_fmap_l, Forall_Forall2_diag.
    eapply Forall_impl; [exact Hok|]. intros e [Hw _]. by apply Lfn_parse_serialize.
  - by apply assemble_create.
  - eapply Forall_impl; [exact Hok|]. by intros e [_ ?].
  - by apply lfn_last_flags.
Qed.

Lemma lfn_roundtrip_witness :
  exists es, mapM Lfn_parse (Lfn_serialize <$> create_lfn_entries (lit "a long file name.txt") (replicate 11 65)) = Some es
    /\ assemble_lfn es = lit "a long file name.txt" /\ length es = 2%nat.
Proof.
  destruct (lfn_roundtrip (lit "a long file name.txt") (replicate 11 65)) as (es & H1 & H2 & _ & H4).
  - discriminate.
  - apply (bool_decide_unpack _). vm_compute. reflexivity.
  - vm_compute. lia.
  - exists es. split; [exact H1|]. split; [exact H2|].
    apply (f_equal length) in H4. rewrite length_fmap in H4. exact H4.
Defined.
