(* ===== verification/Fat32.v ===== *)
(** * Fat32: the FAT32 file system on a block device

    [vcore/src/vfs/fat32.rs], lines 491-1385: the allocation table, cluster
    chains, directories, path resolution, the [Filesystem] operations and the
    file handle.  [Fat32Inner] carries the device and the parameter block, which
    never change; the world is the device's.  The three chain walks that follow
    links on the disk take [fuel] turns at most (a cyclic chain makes the code
    loop for ever, here [Hang]). *)
From Stdlib Require Import ZArith Lia.
From stdpp Require Import base numbers option list.
From S2P Require Import Prelude VfsTypes Path Block PartTable FatCodec.

Record FatDirEntry := mkDirEntry {
  fe_name : rstr;
  fe_short_entry : ShortDirEntry;
  fe_lfn_entries : list LfnEntry;
  fe_entry_offset : nat;
  fe_entry_count : nat
}.

Definition fe_cluster (e : FatDirEntry) : Z := s_cluster (fe_short_entry e).
Definition fe_is_directory (e : FatDirEntry) : bool := is_directory (fe_short_entry e).
Definition fe_size (e : FatDirEntry) : Z := s_size (fe_short_entry e).

Record Fat32Inner (D : Type) := mkInner { fi_device : D; fi_bpb : Bpb }.
Arguments mkInner {D}. Arguments fi_device {D}. Arguments fi_bpb {D}.

(** ** Directory contents, as bytes *)

(** [data[off..off + src.len()].copy_from_slice(src)]. *)
Definition store {W E} (data : bytes) (off : nat) (src : bytes) : M W E bytes :=
  if (off + length src <=? length data)%nat then mret (splice data off src) else panic.

(** The loop of [read_directory] over the 32-byte slots, with the long-name
    entries collected so far and the offset of the first of them. *)
Fixpoint dir_loop (slots : list (nat * bytes)) (lfn_parts : list LfnEntry) (lfn_start : nat) : list FatDirEntry :=
  match slots with
  | [] => []
  | (i, entry_data) :: slots' =>
      if rd entry_data 0 =? 0 then []
      else if rd entry_data 0 =? DELETED_MARKER then dir_loop slots' [] lfn_start
      else if rd entry_data 11 =? ATTR_LFN then
        match Lfn_parse entry_data with
        | Some lfn =>
            if is_last lfn then dir_loop slots' [lfn] i
            else dir_loop slots' (lfn_parts ++ [lfn]) lfn_start
        | None => dir_loop slots' lfn_parts lfn_start
        end
      else
        match Short_parse entry_data with
        | Some short =>
            if is_volume_label short then dir_loop slots' [] lfn_start
            else
              let name :=
                if decide (lfn_parts ≠ []) then
                  if forallb (fun e => l_checksum e =? lfn_checksum (s_name short)) lfn_parts
                  then assemble_lfn lfn_parts else short_name short
                else short_name short in
              if bool_decide (short_name short ≠ lit ".") && bool_decide (short_name short ≠ lit "..") then
                mkDirEntry name short lfn_parts (if decide (lfn_parts ≠ []) then lfn_start else i)
                  (length lfn_parts + 1) :: dir_loop slots' [] lfn_start
              else dir_loop slots' [] lfn_start
        | None => dir_loop slots' lfn_parts lfn_start
        end
  end.

Definition dir_slots (data : bytes) : list (nat * bytes) :=
  (fun k => (k * DIR_ENTRY_SIZE, slice data (k * DIR_ENTRY_SIZE) (k * DIR_ENTRY_SIZE + DIR_ENTRY_SIZE)))%nat
  <$> seq 0 (length data / DIR_ENTRY_SIZE).

Definition parse_directory (data : bytes) : list FatDirEntry := dir_loop (dir_slots data) [] 0.

(** The scan of [find_free_dir_slots]: [inl] a run long enough, [inr] the length
    and start of the run at the end. *)
Fixpoint free_scan (slots : list (nat * bytes)) (needed consecutive start : nat) : nat + nat * nat :=
  match slots with
  | [] => inr (consecutive, start)
  | (i, slot) :: slots' =>
      if (rd slot 0 =? 0) || (rd slot 0 =? DELETED_MARKER) then
        let start := if (consecutive =? 0)%nat then i else start in
        if (needed <=? consecutive + 1)%nat then inl start
        else free_scan slots' needed (consecutive + 1) start
      else free_scan slots' needed 0 start
  end.

(** [path.trim_matches('/')]. *)
Definition trim_end_slash (s : rstr) : rstr := rev (trim_start_slash (rev s)).
Definition trim_slash (s : rstr) : rstr := trim_end_slash (trim_start_slash s).

(** [path.rfind('/')]: what comes before and after the last slash. *)
Fixpoint rsplit_slash (s : rstr) : option (rstr * rstr) :=
  match s with
  | [] => None
  | c :: s' =>
      match rsplit_slash s' with
      | Some (a, b) => Some (c :: a, b)
      | None => if c =? slash then Some ([], s') else None
      end
  end.

Section fat32.
Context {W D : Type} `{BlockDevice W D} {U : UnicodeCase}.
Variable fuel : nat.
Variable self : Fat32Inner D.

Abbreviation FM := (M W rstr).
Abbreviation bpb := (fi_bpb self).

Definition read_sector (sector : Z) : FM bytes := bd_read_sector (fi_device self) sector.
Definition write_sector (sector : Z) (buf : bytes) : FM unit := bd_write_sector (fi_device self) sector buf.

(** ** The allocation table *)
Definition get_fat_entry (cluster : Z) : FM Z :=
  let fat_offset := cluster *w32 4 in
  let fat_sector := fat_start_sector bpb +w32 (fat_offset / SECTOR_SIZE) in
  let offset := Z.to_nat (fat_offset mod SECTOR_SIZE) in
  sector ← read_sector fat_sector;
  mret (Z.land (le_at 4 sector offset) 0x0FFFFFFF).

Definition set_fat_entry (cluster value : Z) : FM unit :=
  let fat_offset := cluster *w32 4 in
  let offset := Z.to_nat (fat_offset mod SECTOR_SIZE) in
  for_each (seqZ 0 (num_fats bpb)) (fun fat_num =>
    let fat_sector := fat_start_sector bpb +w32 (fat_num *w32 sectors_per_fat bpb) +w32 (fat_offset / SECTOR_SIZE) in
    sector ← read_sector fat_sector;
    let existing := le_at 4 sector offset in
    let new_value := Z.lor (Z.land existing 0xF0000000) (Z.land value 0x0FFFFFFF) in
    write_sector fat_sector (splice sector offset (to_le 4 new_value))).

Definition zero_cluster (cluster : Z) : FM unit :=
  let start_sector := cluster_to_sector bpb cluster in
  for_each (seqZ 0 (sectors_per_cluster bpb)) (fun i =>
    write_sector (start_sector +w32 i) (replicate 512 0)).

Definition allocate_cluster : FM Z :=
  total_clusters ← lift (total_clusters bpb);
  let total := total_clusters +w32 2 in
  r ← for_find (seqZ 2 (total - 2)) (fun cluster =>
        entry ← get_fat_entry cluster;
        if entry =? FAT32_FREE then
          set_fat_entry cluster FAT32_EOC ;;
          zero_cluster cluster ;;
          mret (Some cluster)
        else mret None);
  match r with
  | Some cluster => mret cluster
  | None => fail (lit "no free clusters")
  end.

Definition allocate_chain (count : nat) : FM Z :=
  if (count =? 0)%nat then mret 0
  else
    first ← allocate_cluster;
    for_acc (seq 1 (count - 1)) first (fun prev _ =>
      next ← allocate_cluster;
      set_fat_entry prev next ;;
      mret next) ;;
    mret first.

Definition extend_chain (last_cluster : Z) : FM Z :=
  new_cluster ← allocate_cluster;
  set_fat_entry last_cluster new_cluster ;;
  mret new_cluster.

Definition in_chain (cluster : Z) : bool := (2 <=? cluster) && (cluster <? FAT32_EOC).

Definition free_chain (start : Z) : FM unit :=
  loop fuel (fun cluster =>
    if in_chain cluster then
      next ← get_fat_entry cluster;
      set_fat_entry cluster FAT32_FREE ;;
      mret (inl next)
    else mret (inr tt)) start.

Definition get_last_cluster (start : Z) : FM Z :=
  loop fuel (fun cluster =>
    next ← get_fat_entry cluster;
    mret (if FAT32_EOC <=? next then inr cluster else inl next)) start.

(** ** Clusters *)
Definition read_cluster (cluster : Z) (buf : bytes) : FM bytes :=
  let start_sector := cluster_to_sector bpb cluster in
  if zlen buf <? bytes_per_cluster bpb then fail (lit "buffer too small")
  else
    for_acc (seqZ 0 (sectors_per_cluster bpb)) buf (fun buf i =>
      sector ← read_sector (start_sector +w32 i);
      store buf (Z.to_nat (i * SECTOR_SIZE)) sector).

Definition write_cluster (cluster : Z) (buf : bytes) : FM unit :=
  let start_sector := cluster_to_sector bpb cluster in
  if zlen buf <? bytes_per_cluster bpb then fail (lit "buffer too small")
  else
    for_each (seqZ 0 (sectors_per_cluster bpb)) (fun i =>
      assert_or_panic ((i + 1) * SECTOR_SIZE <=? zlen buf) ;;
      write_sector (start_sector +w32 i)
        (slice buf (Z.to_nat (i * SECTOR_SIZE)) (Z.to_nat ((i + 1) * SECTOR_SIZE)))).

Definition read_chain (start : Z) : FM bytes :=
  let cluster_size := bytes_per_cluster bpb in
  loop fuel (fun '(data, cluster, buf) =>
    if negb (in_chain cluster) then mret (inr data)
    else
      buf ← read_cluster cluster buf;
      next ← get_fat_entry cluster;
      mret (inl (data ++ buf, next, buf))) ([], start, replicate (Z.to_nat cluster_size) 0).

(** One turn of the loop of [write_chain]: write piece [i] and step to the next
    cluster, extending the chain at its end. *)
Definition write_step (data : bytes) (clusters_needed : Z) (cluster i : Z) : FM Z :=
  let cluster_size := bytes_per_cluster bpb in
  let offset := i * cluster_size in
  let end_ := Z.min (offset + cluster_size) (zlen data) in
  let buf := vec_resize (slice data (Z.to_nat offset) (Z.to_nat end_)) (Z.to_nat cluster_size) 0 in
  write_cluster cluster buf ;;
  if i + 1 <? clusters_needed then
    next ← get_fat_entry cluster;
    if FAT32_EOC <=? next then extend_chain cluster else mret next
  else mret cluster.

Definition write_chain (start : Z) (data : bytes) : FM Z :=
  let cluster_size := bytes_per_cluster bpb in
  assert_or_panic (negb (cluster_size =? 0)) ;;
  let clusters_needed := (zlen data + cluster_size - 1) / cluster_size in
  if clusters_needed =? 0 then mret start
  else
    first ← (if start <? 2 then allocate_cluster else mret start);
    cluster ← for_acc (seqZ 0 clusters_needed) first (write_step data clusters_needed);
    set_fat_entry cluster FAT32_EOC ;;
    get_fat_entry cluster ;;
    mret first.

(** ** Directories *)
Definition read_directory (dir_cluster : Z) : FM (list FatDirEntry) :=
  data ← read_chain dir_cluster; mret (parse_directory data).

Definition find_in_directory (dir_cluster : Z) (name : rstr) : FM (option FatDirEntry) :=
  entries ← read_directory dir_cluster;
  let name_lower := str_to_lowercase name in
  mret (List.find (fun e => bool_decide (str_to_lowercase (fe_name e) = name_lower)) entries).

Definition find_free_dir_slots (dir_cluster : Z) (slots_needed : nat) : FM (bytes * nat) :=
  data ← read_chain dir_cluster;
  match free_scan (dir_slots data) slots_needed 0 0 with
  | inl start_offset => mret (data, start_offset)
  | inr (consecutive_free, start_offset) =>
      let current_size := length data in
      get_last_cluster dir_cluster ;;
      let data := vec_resize data (current_size + Z.to_nat (bytes_per_cluster bpb)) 0 in
      mret (data, if (0 <? consecutive_free)%nat then start_offset else current_size)
  end.

Definition add_dir_entry (dir_cluster : Z) (name : rstr) (attr cluster size : Z) : FM unit :=
  let short_name := make_short_name name in
  let lfn_entries := if needs_lfn name then create_lfn_entries name short_name else [] in
  let slots_needed := (length lfn_entries + 1)%nat in
  '(data, offset) ← find_free_dir_slots dir_cluster slots_needed;
  data ← for_acc (zip (seq 0 (length lfn_entries)) lfn_entries) data (fun data '(i, lfn) =>
           store data (offset + i * DIR_ENTRY_SIZE) (Lfn_serialize lfn));
  let short_entry := Short_new name attr cluster size in
  data ← store data (offset + length lfn_entries * DIR_ENTRY_SIZE) (Short_serialize short_entry);
  write_chain dir_cluster data ;;
  mret tt.

Definition update_dir_entry (dir_cluster : Z) (entry : FatDirEntry) : FM unit :=
  data ← read_chain dir_cluster;
  let short_offset := (fe_entry_offset entry + (fe_entry_count entry - 1) * DIR_ENTRY_SIZE)%nat in
  if (length data <? short_offset + DIR_ENTRY_SIZE)%nat then fail (lit "invalid entry offset")
  else
    data ← store data short_offset (Short_serialize (fe_short_entry entry));
    write_chain dir_cluster data ;;
    mret tt.

(** Mark the slots of an entry deleted. *)
Definition delete_slots (entry : FatDirEntry) (data : bytes) : bytes :=
  foldl (fun data i =>
    let offset := (fe_entry_offset entry + i * DIR_ENTRY_SIZE)%nat in
    if (offset <? length data)%nat then <[offset := DELETED_MARKER]> data else data)
    data (seq 0 (fe_entry_count entry)).

Definition remove_dir_entry (dir_cluster : Z) (entry : FatDirEntry) : FM unit :=
  data ← read_chain dir_cluster;
  write_chain dir_cluster (delete_slots entry data) ;;
  mret tt.

(** ** Paths *)
Fixpoint resolve_parts (current_cluster : Z) (parts : list rstr) : FM (Z * option FatDirEntry) :=
  match parts with
  | [] => mret (current_cluster, None)
  | part :: parts' =>
      found ← find_in_directory current_cluster part;
      entry ← ok_or (lit "path not found") found;
      match parts' with
      | [] => mret (current_cluster, Some entry)
      | _ =>
          if negb (fe_is_directory entry) then fail (lit "not a directory")
          else resolve_parts (fe_cluster entry) parts'
      end
  end.

Definition resolve_path (path : rstr) : FM (Z * option FatDirEntry) :=
  resolve_parts (root_cluster bpb) (path_parts path).

Definition split_path (path : rstr) : FM (Z * rstr) :=
  let path := trim_slash path in
  if decide (path = []) then fail (lit "invalid path")
  else
    match rsplit_slash path with
    | Some (parent_path, name) =>
        '(_, parent_entry) ← resolve_path parent_path;
        match parent_entry with
        | Some e => if fe_is_directory e then mret (fe_cluster e, name)
                    else fail (lit "parent is not a directory")
        | None => mret (root_cluster bpb, name)
        end
    | None => mret (root_cluster bpb, path)
    end.

(** ** [Fat32Fs] *)
Abbreviation VM := (M W VfsError).
Definition io {A} (m : FM A) : VM A := map_err (fun _ => IoError) m.
Definition invalid {A} (m : FM A) : VM A := map_err (fun _ => InvalidPath) m.
Definition missing {A} (m : FM A) : VM A := map_err (fun _ => NotFound) m.

Definition sync_file (path : rstr) (old_cluster : Z) (data : bytes) : VM unit :=
  '(parent_cluster, name) ← invalid (split_path path);
  found ← io (find_in_directory parent_cluster name);
  entry ← ok_or NotFound found;
  new_cluster ← (if decide (data = []) then
                   (if 2 <=? old_cluster then io (free_chain old_cluster) else mret tt) ;;
                   mret 0
                 else io (write_chain old_cluster data));
  let short := set_size_cluster (fe_short_entry entry) (u32 (zlen data)) new_cluster in
  io (update_dir_entry parent_cluster
        (mkDirEntry (fe_name entry) short (fe_lfn_entries entry) (fe_entry_offset entry) (fe_entry_count entry))).

Record FatFileHandle := mkFatHandle {
  fh_path : rstr;
  fh_cluster : Z;
  fh_size : Z;
  fh_position : Z;
  fh_data : bytes;
  fh_dirty : bool;
  fh_flags : OpenFlags.t
}.

Definition fat_open (path : rstr) (flags : OpenFlags.t) : VM FatFileHandle :=
  '(_, entry_opt) ← missing (resolve_path path);
  match entry_opt with
  | Some entry =>
      if fe_is_directory entry then fail IsADirectory
      else
        data ← (if 2 <=? fe_cluster entry then
                  d ← io (read_chain (fe_cluster entry));
                  mret (take (Z.to_nat (fe_size entry)) d)
                else mret []);
        let position := if OpenFlags.contains flags OpenFlags.O_APPEND then zlen data else 0 in
        let truncate := OpenFlags.contains flags OpenFlags.O_TRUNC in
        mret (mkFatHandle path (fe_cluster entry) (fe_size entry) position
                (if truncate then [] else data) truncate flags)
  | None =>
      if negb (OpenFlags.contains flags OpenFlags.O_CREAT) then fail NotFound
      else
        '(parent_cluster, name) ← invalid (split_path path);
        io (add_dir_entry parent_cluster name ATTR_ARCHIVE 0 0) ;;
        mret (mkFatHandle path 0 0 0 [] false flags)
  end.

(** The entries "." and ".." of a new directory. *)
Definition dot_short (name : bytes) (cluster : Z) : ShortDirEntry :=
  mkShort name ATTR_DIRECTORY 0 0 0 0 0 (u16 (Z.shiftr cluster 16)) 0 0 (u16 cluster) 0.

Definition fat_mkdir (path : rstr) : VM unit :=
  '(parent_cluster, name) ← invalid (split_path path);
  found ← io (find_in_directory parent_cluster name);
  match found with
  | Some _ => fail AlreadyExists
  | None =>
    dir_cluster ← io allocate_cluster;
    let dir_data := replicate (Z.to_nat (bytes_per_cluster bpb)) 0 in
    dir_data ← store dir_data 0 (Short_serialize (dot_short (lit ".          ") dir_cluster));
    dir_data ← store dir_data 32 (Short_serialize (dot_short (lit "..         ") parent_cluster));
    io (write_cluster dir_cluster dir_data) ;;
    io (add_dir_entry parent_cluster name ATTR_DIRECTORY dir_cluster 0)
  end.

Definition fat_remove (path : rstr) : VM unit :=
  '(parent_cluster, name) ← invalid (split_path path);
  found ← io (find_in_directory parent_cluster name);
  entry ← ok_or NotFound found;
  if fe_is_directory entry then fail IsADirectory
  else
    (if 2 <=? fe_cluster entry then io (free_chain (fe_cluster entry)) else mret tt) ;;
    io (remove_dir_entry parent_cluster entry).

Definition fat_rmdir (path : rstr) : VM unit :=
  '(parent_cluster, name) ← invalid (split_path path);
  found ← io (find_in_directory parent_cluster name);
  entry ← ok_or NotFound found;
  if negb (fe_is_directory entry) then fail NotADirectory
  else
    entries ← io (read_directory (fe_cluster entry));
    if decide (entries ≠ []) then fail NotEmpty
    else
      io (free_chain (fe_cluster entry)) ;;
      io (remove_dir_entry parent_cluster entry).

Definition fe_type (e : FatDirEntry) : FileType := if fe_is_directory e then Directory else File.

Definition fat_readdir (path : rstr) : VM (list DirEntry) :=
  cluster ← (if decide (trim_slash path = []) then mret (root_cluster bpb)
             else
               '(_, found) ← missing (resolve_path path);
               entry ← ok_or NotFound found;
               if negb (fe_is_directory entry) then fail NotADirectory
               else mret (fe_cluster entry));
  entries ← io (read_directory cluster);
  mret ((fun e => {| de_name := fe_name e; de_file_type := fe_type e |}) <$> entries).

Definition fat_metadata (path : rstr) : VM Metadata :=
  if decide (trim_slash path = []) then mret {| md_file_type := Directory; md_size := 0 |}
  else
    '(_, found) ← missing (resolve_path path);
    entry ← ok_or NotFound found;
    mret {| md_file_type := fe_type entry; md_size := fe_size entry |}.
End fat32.

(** [Fat32Fs::new]. *)
Definition Fat32Fs_new {W D} `{BlockDevice W D} (device : D) : M W rstr (Fat32Inner D) :=
  sector ← bd_read_sector device 0;
  bpb ← ok_or (lit "invalid FAT32 boot sector") (Bpb_parse sector);
  if sectors_per_fat bpb =? 0 then fail (lit "not a FAT32 filesystem")
  else mret (mkInner device bpb).

(** ** [FatFileHandle] *)
Section handle.
Context {W D : Type} `{BlockDevice W D} {U : UnicodeCase}.
Abbreviation HM := (M (FatFileHandle * W) VfsError).

Definition fat_read (buf : bytes) : HM (Z * bytes) :=
  '(h, w) ← get;
  '(n, buf', p) ← lift (cursor_read (fh_data h) (fh_position h) buf);
  put (mkFatHandle (fh_path h) (fh_cluster h) (fh_size h) p (fh_data h) (fh_dirty h) (fh_flags h), w) ;;
  mret (n, buf').

Definition fat_write (buf : bytes) : HM Z :=
  '(h, w) ← get;
  if negb (OpenFlags.is_writable (fh_flags h)) then fail PermissionDenied
  else
    let end_pos := fh_position h +w64 zlen buf in
    assert_or_panic (end_pos <? 2 ^ 63) ;;
    let data := if zlen (fh_data h) <? end_pos then vec_resize (fh_data h) (Z.to_nat end_pos) 0 else fh_data h in
    assert_or_panic ((fh_position h <=? end_pos) && (end_pos <=? zlen data)) ;;
    let data := splice data (Z.to_nat (fh_position h)) buf in
    put (mkFatHandle (fh_path h) (fh_cluster h) (fh_size h) end_pos data true (fh_flags h), w) ;;
    mret (zlen buf).

Definition fat_seek (pos : SeekFrom) : HM Z :=
  '(h, w) ← get;
  p ← lift (cursor_seek (zlen (fh_data h)) (fh_position h) pos);
  put (mkFatHandle (fh_path h) (fh_cluster h) (fh_size h) p (fh_data h) (fh_dirty h) (fh_flags h), w) ;;
  mret p.

Definition fat_handle_metadata : HM Metadata :=
  '(h, w) ← get;
  mret {| md_file_type := File; md_size := zlen (fh_data h) |}.

(** [Drop]: a dirty handle is written back, its error ignored. *)
Definition fat_drop (fuel : nat) (fs : Fat32Inner D) (h : FatFileHandle) : M W Empty_set unit := fun w =>
  if fh_dirty h then
    match sync_file fuel fs (fh_path h) (fh_cluster h) (fh_data h) w with
    | (Panic, w') => (Panic, w')
    | (Hang, w') => (Hang, w')
    | (_, w') => (Ok tt, w')
    end
  else (Ok tt, w).

Definition Fat32_filesystem (fuel : nat) : Filesystem W (Fat32Inner D) FatFileHandle := {|
  fs_open fs := fat_open fuel fs;
  fs_mkdir fs := fat_mkdir fuel fs;
  fs_remove fs := fat_remove fuel fs;
  fs_rmdir fs := fat_rmdir fuel fs;
  fs_readdir fs := fat_readdir fuel fs;
  fs_metadata fs := fat_metadata fuel fs
|}.

#[export] Instance FatFileHandle_handle : FileHandle W FatFileHandle := {
  fh_read := fat_read;
  fh_write := fat_write;
  fh_seek := fat_seek;
  fh_metadata := fat_handle_metadata
}.
End handle.
