(* ===== verification/FatImage.v ===== *)
(** * FatImage: directories as sequences of items

    The contents of a directory are 32-byte slots.  Read as items (holes, slots
    that are skipped, entries with their long-name slots) followed by never-used
    slots, they parse to one entry per named item, and the byte updates the code
    makes (rewriting a short entry, marking slots deleted, storing a new entry
    in a free run) are updates of the items. *)
From Stdlib Require Import ZArith Lia.
From stdpp Require Import base numbers option list sets.
From S2P Require Import Prelude VfsTypes PartTable FatCodec Fat32.

(** ** Slots *)
Abbreviation slot := bytes.

Definition slot_ok (s : slot) : Prop := length s = 32%nat /\ Forall is_byte s.

Definition image (slots : list slot) : bytes := mjoin slots.

(** The slots with their offsets, from [i] on. *)
Fixpoint number (i : nat) (slots : list slot) : list (nat * slot) :=
  match slots with
  | [] => []
  | s :: slots' => (i, s) :: number (i + 32) slots'
  end.

Lemma number_app i l1 l2 : number i (l1 ++ l2) = number i l1 ++ number (i + 32 * length l1) l2.
Proof.
  revert i. induction l1 as [|s l1 IH]; intros i; cbn [app number length]; [f_equal; lia|].
  rewrite IH. do 3 f_equal. lia.
Qed.

Lemma length_image slots : Forall slot_ok slots -> length (image slots) = (32 * length slots)%nat.
Proof.
  unfold image. induction 1 as [|s l [Hs _] Hl IH]; [done|].
  change (mjoin (s :: l)) with (s ++ mjoin l). rewrite length_app, IH, Hs. simpl. lia.
Qed.

Lemma image_app l1 l2 : image (l1 ++ l2) = image l1 ++ image l2.
Proof. apply join_app. Qed.

Lemma image_bytes slots : Forall slot_ok slots -> Forall is_byte (image slots).
Proof.
  unfold image. induction 1 as [|s l [_ Hs] Hl IH]; [constructor|].
  change (mjoin (s :: l)) with (s ++ mjoin l). by apply Forall_app.
Qed.

Lemma slice_app_l {A} (l k : list A) n : length l = n -> slice (l ++ k) 0 n = l.
Proof. intros <-. unfold slice. rewrite drop_0, Nat.sub_0_r. apply take_app_length. Qed.

Lemma dir_slots_image_from slots (pre : bytes) n :
  Forall slot_ok slots -> length pre = (32 * n)%nat ->
  (fun k => (k * 32, slice (pre ++ image slots) (k * 32) (k * 32 + 32)))%nat <$> seq n (length slots)
  = number (32 * n) slots.
Proof.
  intros Hs. revert pre n. induction Hs as [|s l [Hl Hb] Hls IH]; intros pre n Hp; [done|].
  cbn [length seq number]. rewrite fmap_cons. f_equal.
  - f_equal; [lia|]. change (image (s :: l)) with (s ++ image l). unfold slice.
    rewrite drop_app_ge by lia. replace (n * 32 - length pre)%nat with 0%nat by lia.
    rewrite drop_0. rewrite take_app_le by lia. apply take_ge. lia.
  - change (image (s :: l)) with (s ++ image l). rewrite app_assoc.
    replace (32 * n + 32)%nat with (32 * S n)%nat by lia. apply IH. rewrite length_app. lia.
Qed.

Lemma dir_slots_image slots : Forall slot_ok slots -> dir_slots (image slots) = number 0 slots.
Proof.
  intros Hs. unfold dir_slots, DIR_ENTRY_SIZE. rewrite length_image by done.
  replace (32 * length slots)%nat with (length slots * 32)%nat by lia. rewrite Nat.div_mul by lia.
  apply (dir_slots_image_from slots [] 0 Hs). done.
Qed.

(** [copy_from_slice] over one slot, and over a run of them. *)
Lemma store_slots {St E} pre old new post (s : St) :
  Forall slot_ok pre -> Forall slot_ok old -> Forall slot_ok new -> length old = length new ->
  (store (image (pre ++ old ++ post)) (32 * length pre) (image new) : M St E bytes) s
  = (Ok (image (pre ++ new ++ post)), s).
Proof.
  intros Hp Ho Hn Hl. unfold store. rewrite !image_app, !length_app, !length_image by done.
  destruct (Nat.leb_spec (32 * length pre + 32 * length new) (32 * length pre + (32 * length old + length (image post)))); [|lia].
  unfold mret, M_ret. do 2 f_equal. unfold splice. rewrite !length_image by done.
  rewrite <- (length_image pre) by done. rewrite take_app_length. f_equal. f_equal.
  rewrite drop_app_ge by lia. rewrite drop_app_ge by (rewrite length_image by done; lia).
  rewrite (length_image old) by done. replace (_ - _ - _)%nat with 0%nat by lia. apply drop_0.
Qed.

Lemma store_slot {St E} pre old new post (s : St) :
  Forall slot_ok pre -> slot_ok old -> slot_ok new ->
  (store (image (pre ++ old :: post)) (32 * length pre) new : M St E bytes) s = (Ok (image (pre ++ new :: post)), s).
Proof.
  intros Hp Ho Hn. pose proof (@store_slots St E pre [old] [new] post s Hp) as Hs.
  unfold image in Hs at 2. cbn [mjoin list_join] in Hs. rewrite app_nil_r in Hs. apply Hs; auto.
Qed.

(** Marking a slot deleted. *)
Definition mark (s : slot) : slot := <[0%nat := DELETED_MARKER]> s.

Lemma mark_ok s : slot_ok s -> slot_ok (mark s) /\ rd (mark s) 0 = DELETED_MARKER.
Proof.
  intros [Hl Hb]. unfold mark. split; [split|].
  - by rewrite length_insert.
  - destruct s as [|x s]; [done|]. apply Forall_cons in Hb as [_ Hb]. constructor; [split; done|done].
  - by destruct s.
Qed.

Lemma mark_image pre s post :
  Forall slot_ok pre -> slot_ok s ->
  <[(32 * length pre)%nat := DELETED_MARKER]> (image (pre ++ s :: post)) = image (pre ++ mark s :: post).
Proof.
  intros Hp [Hl _]. rewrite !image_app. rewrite <- (length_image pre) by done.
  change (image (s :: post)) with (s ++ image post). change (image (mark s :: post)) with (mark s ++ image post).
  rewrite <- (Nat.add_0_r (length (image pre))), insert_app_r. f_equal. rewrite insert_app_l by lia. done.
Qed.

Lemma delete_slots_image pre ss post n e :
  Forall slot_ok pre -> Forall slot_ok ss -> fe_entry_offset e = (32 * length pre)%nat ->
  n = length ss -> fe_entry_count e = n -> delete_slots e (image (pre ++ ss ++ post)) = image (pre ++ (mark <$> ss) ++ post).
Proof.
  intros Hp Hss Ho -> Hn. unfold delete_slots. rewrite Ho, Hn. unfold DIR_ENTRY_SIZE.
  assert (forall done_ todo, Forall slot_ok done_ -> Forall slot_ok todo ->
    foldl (fun data i => let offset := (32 * length pre + i * 32)%nat in
        if (offset <? length data)%nat then <[offset := DELETED_MARKER]> data else data)
      (image (pre ++ done_ ++ todo ++ post)) (seq (length done_) (length todo))
    = image (pre ++ (done_ ++ (mark <$> todo)) ++ post)) as Hfold.
  { intros done_ todo Hd Ht. revert done_ Hd. induction Ht as [|s todo Hs Ht IH]; intros done_ Hd.
    { cbn. by rewrite app_nil_r. }
    cbn [length seq foldl app fmap list_fmap].
    replace (32 * length pre + length done_ * 32)%nat with (32 * length (pre ++ done_))%nat by (rewrite length_app; lia).
    assert (Forall slot_ok (pre ++ done_)) as Hpd by by apply Forall_app.
    rewrite (app_assoc pre). rewrite mark_image by done.
    destruct (Nat.ltb_spec (32 * length (pre ++ done_)) (length (image ((pre ++ done_) ++ s :: todo ++ post)))) as [_|Hge].
    - specialize (IH (done_ ++ [mark s])). rewrite length_app, Nat.add_1_r in IH.
      rewrite <- (app_assoc done_) in IH. rewrite <- (app_assoc pre). cbn [app] in IH.
      rewrite IH; [by rewrite <- (app_assoc done_)|]. apply Forall_app. split; [done|]. constructor; [by apply mark_ok|done].
    - exfalso. rewrite image_app, (length_app (image _)), (length_image (pre ++ done_)) in Hge by done.
      change (image (s :: todo ++ post)) with (s ++ image (todo ++ post)) in Hge.
      rewrite (length_app s) in Hge. destruct Hs as [Hs _]. lia. }
  apply (Hfold [] ss); [constructor|done].
Qed.

(** ** Items *)
Inductive item :=
| Hole (s : slot)
| Skip (s : slot)
| Named (lfns : list slot) (short : slot).

Definition item_slots (it : item) : list slot :=
  match it with Hole s | Skip s => [s] | Named lfns short => lfns ++ [short] end.

Definition slots_of (items : list item) : list slot := items ≫= item_slots.

Definition no_lfn : LfnEntry := mkLfn 0 [] 0 0 0 [] 0 [].
Definition no_short : ShortDirEntry := mkShort [] 0 0 0 0 0 0 0 0 0 0 0.
Definition lfn_of (s : slot) : LfnEntry := default no_lfn (Lfn_parse s).
Definition short_of (s : slot) : ShortDirEntry := default no_short (Short_parse s).

(** The entries that are listed: no volume label, not "." or "..". *)
Definition visible (e : ShortDirEntry) : bool :=
  negb (is_volume_label e) && bool_decide (short_name e ≠ lit ".") && bool_decide (short_name e ≠ lit "..").

Definition live (s : slot) : Prop := slot_ok s /\ rd s 0 ≠ 0 /\ rd s 0 ≠ DELETED_MARKER.
Definition lfn_slot (s : slot) : Prop := live s /\ rd s 11 = ATTR_LFN.
Definition short_slot (s : slot) : Prop := live s /\ rd s 11 ≠ ATTR_LFN.

(** A run of long-name slots starts with the flagged one. *)
Definition lfn_run (lfns : list slot) : Prop :=
  Forall lfn_slot lfns /\
  match lfns with [] => True | s :: rest => is_last (lfn_of s) = true /\ Forall (fun s => is_last (lfn_of s) = false) rest end.

Definition item_ok (it : item) : Prop :=
  match it with
  | Hole s => slot_ok s /\ rd s 0 = DELETED_MARKER
  | Skip s => short_slot s /\ visible (short_of s) = false
  | Named lfns short => lfn_run lfns /\ short_slot short /\ visible (short_of short) = true
  end.

Definition unused (s : slot) : Prop := slot_ok s /\ rd s 0 = 0.

(** A well-formed directory: items, then slots that were never used. *)
Definition dir_wf (items : list item) (tail : list slot) : Prop := Forall item_ok items /\ Forall unused tail.
Definition dir_image (items : list item) (tail : list slot) : bytes := image (slots_of items ++ tail).

Definition entry_name (lfns : list slot) (short : slot) : rstr :=
  if decide (lfns ≠ []) then
    if forallb (fun e => l_checksum e =? lfn_checksum (s_name (short_of short))) (lfn_of <$> lfns)
    then assemble_lfn (lfn_of <$> lfns) else short_name (short_of short)
  else short_name (short_of short).

Definition entry_of (i : nat) (lfns : list slot) (short : slot) : FatDirEntry :=
  mkDirEntry (entry_name lfns short) (short_of short) (lfn_of <$> lfns) i (length lfns + 1).

Fixpoint entries_at (i : nat) (items : list item) : list FatDirEntry :=
  match items with
  | [] => []
  | it :: items' =>
      let i' := (i + 32 * length (item_slots it))%nat in
      match it with
      | Named lfns short => entry_of i lfns short :: entries_at i' items'
      | _ => entries_at i' items'
      end
  end.

Lemma item_slots_ok it : item_ok it -> Forall slot_ok (item_slots it).
Proof.
  destruct it; cbn.
  - intros [? _]. auto.
  - intros [[[? _] _] _]. auto.
  - intros ([Hl _] & [[? _] _] & _). apply Forall_app. split; [|auto].
    eapply Forall_impl; [exact Hl|]. by intros s [[? _] _].
Qed.

Lemma slots_of_ok items : Forall item_ok items -> Forall slot_ok (slots_of items).
Proof.
  intros Hi. unfold slots_of. apply Forall_bind. eapply Forall_impl; [exact Hi|]. apply item_slots_ok.
Qed.

Lemma slots_of_app a b : slots_of (a ++ b) = slots_of a ++ slots_of b.
Proof. apply bind_app. Qed.

Lemma slots_of_cons it items : slots_of (it :: items) = item_slots it ++ slots_of items.
Proof. done. Qed.

Lemma dir_wf_slots items tail : dir_wf items tail -> Forall slot_ok (slots_of items ++ tail).
Proof.
  intros [Hi Ht]. apply Forall_app. split; [by apply slots_of_ok|]. eapply Forall_impl; [exact Ht|]. by intros s [? _].
Qed.

Lemma entries_at_app i a b : entries_at i (a ++ b) = entries_at i a ++ entries_at (i + 32 * length (slots_of a)) b.
Proof.
  revert i. induction a as [|it a IH]; intros i; [cbn; f_equal; lia|].
  cbn [app entries_at]. rewrite slots_of_cons, length_app.
  replace (i + 32 * (length (item_slots it) + length (slots_of a)))%nat
    with (i + 32 * length (item_slots it) + 32 * length (slots_of a))%nat by lia.
  destruct it; by rewrite IH.
Qed.

(** ** Parsing an image *)
Lemma lfn_parse_slot s : lfn_slot s -> Lfn_parse s = Some (lfn_of s).
Proof.
  intros [[[Hl _] _] Ha]. unfold lfn_of, Lfn_parse. unfold zlen. rewrite Hl, Ha. done.
Qed.

Lemma short_parse_slot s : short_slot s -> Short_parse s = Some (short_of s).
Proof.
  intros [([Hl _] & Hz & _) _]. unfold short_of, Short_parse. unfold zlen. rewrite Hl.
  destruct (Z.eqb_spec (rd s 0) 0); [done|]. done.
Qed.

Lemma dir_loop_live i s rest parts st :
  live s -> dir_loop ((i, s) :: rest) parts st =
    if rd s 11 =? ATTR_LFN then
      match Lfn_parse s with
      | Some lfn => if is_last lfn then dir_loop rest [lfn] i else dir_loop rest (parts ++ [lfn]) st
      | None => dir_loop rest parts st
      end
    else
      match Short_parse s with
      | Some short =>
          if is_volume_label short then dir_loop rest [] st
          else
            let name :=
              if decide (parts ≠ []) then
                if forallb (fun e => l_checksum e =? lfn_checksum (s_name short)) parts
                then assemble_lfn parts else short_name short
              else short_name short in
            if bool_decide (short_name short ≠ lit ".") && bool_decide (short_name short ≠ lit "..") then
              mkDirEntry name short parts (if decide (parts ≠ []) then st else i) (length parts + 1) :: dir_loop rest [] st
            else dir_loop rest [] st
      | None => dir_loop rest parts st
      end.
Proof.
  intros (_ & H0 & H5). cbn [dir_loop].
  destruct (Z.eqb_spec (rd s 0) 0); [done|]. by destruct (Z.eqb_spec (rd s 0) DELETED_MARKER).
Qed.

Lemma dir_loop_lfns j ls rest parts st :
  Forall lfn_slot ls -> Forall (fun s => is_last (lfn_of s) = false) ls ->
  dir_loop (number j ls ++ rest) parts st = dir_loop rest (parts ++ (lfn_of <$> ls)) st.
Proof.
  intros Hl. revert j parts. induction Hl as [|s ls Hs Hl IH]; intros j parts Hn; [cbn; by rewrite app_nil_r|].
  apply Forall_cons in Hn as [Hn1 Hn]. cbn [number app]. pose proof Hs as [Hlive Ha].
  rewrite (dir_loop_live j s _ parts st Hlive), Ha, Z.eqb_refl, (lfn_parse_slot s Hs), Hn1.
  rewrite IH by done. by rewrite <- app_assoc.
Qed.

(** The last slot of an entry, with what the long-name slots left. *)
Lemma dir_loop_short j s rest parts st :
  short_slot s -> visible (short_of s) = true ->
  dir_loop ((j, s) :: rest) parts st
  = mkDirEntry (if decide (parts ≠ []) then
                  if forallb (fun e => l_checksum e =? lfn_checksum (s_name (short_of s))) parts
                  then assemble_lfn parts else short_name (short_of s)
                else short_name (short_of s))
      (short_of s) parts (if decide (parts ≠ []) then st else j) (length parts + 1) :: dir_loop rest [] st.
Proof.
  intros Hs Hv. pose proof Hs as [Hl Ha]. rewrite (dir_loop_live j s _ parts st Hl), (short_parse_slot s Hs).
  destruct (Z.eqb_spec (rd s 11) ATTR_LFN); [done|].
  unfold visible in Hv. destruct (is_volume_label (short_of s)); [done|]. cbn [negb andb] in Hv. by rewrite Hv.
Qed.

Lemma dir_loop_named j lfns short rest st :
  item_ok (Named lfns short) ->
  exists st', dir_loop (number j (lfns ++ [short]) ++ rest) [] st = entry_of j lfns short :: dir_loop rest [] st'.
Proof.
  intros ((Hl & Hrun) & Hs & Hv). rewrite number_app, <- app_assoc. cbn [number app].
  destruct lfns as [|s lfns]; cbn [number app length].
  - exists st. rewrite dir_loop_short by done. rewrite !decide_False by auto. unfold entry_of, entry_name.
    rewrite decide_False by auto. cbn. do 2 f_equal. lia.
  - apply Forall_cons in Hl as [Hls Hl]. destruct Hrun as [Hlast Hrest]. exists j.
    pose proof Hls as [Hlive Ha].
    rewrite (dir_loop_live j s _ [] st Hlive), Ha, Z.eqb_refl, (lfn_parse_slot s Hls), Hlast.
    rewrite dir_loop_lfns by done. change ([lfn_of s] ++ (lfn_of <$> lfns)) with (lfn_of <$> s :: lfns).
    rewrite dir_loop_short by done. rewrite !decide_True by done. unfold entry_of, entry_name.
    rewrite decide_True by done. f_equal. f_equal. by rewrite length_fmap.
Qed.

Lemma dir_loop_items items tail j st :
  dir_wf items tail -> dir_loop (number j (slots_of items ++ tail)) [] st = entries_at j items.
Proof.
  intros [Hi Ht]. revert j st. induction Hi as [|it items Hit Hi IH]; intros j st.
  { destruct Ht as [|s tail [_ H0] _]; [done|]. cbn. by rewrite H0. }
  rewrite slots_of_cons, <- app_assoc, number_app. cbn [entries_at].
  destruct it as [s|s|lfns short]; cbn [item_slots length number app].
  - destruct Hit as [_ H5]. cbn [dir_loop]. rewrite H5. cbn [Z.eqb DELETED_MARKER]. apply IH.
  - destruct Hit as [Hs Hv]. pose proof Hs as [Hl Ha].
    rewrite (dir_loop_live j s _ [] st Hl), (short_parse_slot s Hs).
    destruct (Z.eqb_spec (rd s 11) ATTR_LFN); [done|]. unfold visible in Hv.
    destruct (is_volume_label (short_of s)); [apply IH|]. cbn [negb andb] in Hv. rewrite Hv. apply IH.
  - destruct (dir_loop_named j lfns short (number (j + 32 * length (lfns ++ [short])) (slots_of items ++ tail)) st Hit)
      as [st' ->]. f_equal. apply IH.
Qed.

Lemma parse_image items tail : dir_wf items tail -> parse_directory (dir_image items tail) = entries_at 0 items.
Proof.
  intros Hw. unfold parse_directory, dir_image. rewrite dir_slots_image by by apply dir_wf_slots.
  by apply dir_loop_items.
Qed.

(** ** Updates *)
Lemma entries_at_elem i items e :
  e ∈ entries_at i items ->
  exists pre lfns short post, items = pre ++ Named lfns short :: post
    /\ e = entry_of (i + 32 * length (slots_of pre)) lfns short.
Proof.
  revert i. induction items as [|it items IH]; intros i; [by intros ?%elem_of_nil|].
  assert (e ∈ entries_at (i + 32 * length (item_slots it)) items ->
    exists pre lfns short post, it :: items = pre ++ Named lfns short :: post
      /\ e = entry_of (i + 32 * length (slots_of pre)) lfns short) as Hrest.
  { intros (pre & lfns & short & post & -> & ->)%IH. exists (it :: pre), lfns, short, post. split; [done|].
    rewrite slots_of_cons, length_app. f_equal. lia. }
  cbn [entries_at]. destruct it as [s|s|lfns short]; [exact Hrest|exact Hrest|].
  intros [->|He]%elem_of_cons; [|by apply Hrest]. exists [], lfns, short, items. split; [done|]. cbn. f_equal. lia.
Qed.

Lemma named_slots pre lfns short post tail :
  slots_of (pre ++ Named lfns short :: post) ++ tail
  = (slots_of pre ++ lfns) ++ short :: (slots_of post ++ tail).
Proof. rewrite slots_of_app, slots_of_cons. cbn [item_slots]. by rewrite <- !app_assoc. Qed.

Lemma dir_wf_middle pre it post tail :
  dir_wf (pre ++ it :: post) tail -> Forall item_ok pre /\ item_ok it /\ Forall item_ok post /\ Forall unused tail.
Proof. intros [[Hp [Hi Ho]%Forall_cons]%Forall_app Ht]. done. Qed.

(** Rewriting the short slot of an entry. *)
Lemma store_short {St E} pre lfns short post tail new (s : St) :
  dir_wf (pre ++ Named lfns short :: post) tail -> slot_ok new ->
  (store (dir_image (pre ++ Named lfns short :: post) tail)
     (32 * length (slots_of pre) + (length lfns + 1 - 1) * 32) new : M St E bytes) s
  = (Ok (dir_image (pre ++ Named lfns new :: post) tail), s).
Proof.
  intros (Hp & Hi & _ & _)%dir_wf_middle Hn. unfold dir_image. rewrite !named_slots.
  replace (32 * length (slots_of pre) + (length lfns + 1 - 1) * 32)%nat
    with (32 * length (slots_of pre ++ lfns))%nat by (rewrite length_app; lia).
  apply item_slots_ok in Hi. apply Forall_app in Hi as [Hl [Hs _]%Forall_cons].
  apply store_slot; [|done|done]. apply Forall_app. split; [by apply slots_of_ok|done].
Qed.

Definition deleted (lfns : list slot) (short : slot) : list item := (fun s => Hole (mark s)) <$> (lfns ++ [short]).

Lemma slots_of_holes ss : slots_of (Hole <$> ss) = ss.
Proof. induction ss as [|s ss IH]; [done|]. rewrite fmap_cons, slots_of_cons, IH. done. Qed.

Lemma slots_of_deleted lfns short : slots_of (deleted lfns short) = mark <$> (lfns ++ [short]).
Proof. unfold deleted. rewrite (list_fmap_compose mark Hole). apply slots_of_holes. Qed.

Lemma deleted_ok lfns short : item_ok (Named lfns short) -> Forall item_ok (deleted lfns short).
Proof.
  intros Hi%item_slots_ok. unfold deleted. apply Forall_fmap. eapply Forall_impl; [exact Hi|].
  intros s Hs. cbn. apply mark_ok. by apply Hs.
Qed.

Lemma entries_at_holes i ss : entries_at i (Hole <$> ss) = [].
Proof. revert i. induction ss as [|s ss IH]; intros i; [done|]. apply IH. Qed.

(** Removing an entry turns its slots into holes. *)
Lemma delete_named pre lfns short post tail e :
  dir_wf (pre ++ Named lfns short :: post) tail -> e = entry_of (32 * length (slots_of pre)) lfns short ->
  delete_slots e (dir_image (pre ++ Named lfns short :: post) tail)
    = dir_image (pre ++ deleted lfns short ++ post) tail
  /\ dir_wf (pre ++ deleted lfns short ++ post) tail.
Proof.
  intros (Hp & Hi & Ho & Ht)%dir_wf_middle ->. split.
  - unfold dir_image. rewrite slots_of_app, slots_of_cons, !slots_of_app, slots_of_deleted. cbn [item_slots].
    rewrite <- !(app_assoc (slots_of pre)), <- !(app_assoc (lfns ++ [short])), <- !(app_assoc (mark <$> _)).
    apply delete_slots_image with (n := length (lfns ++ [short])); [by apply slots_of_ok| |done|done|].
    + exact (item_slots_ok (Named lfns short) Hi).
    + cbn. rewrite length_app. simpl. lia.
  - split; [|done]. apply Forall_app. split; [done|]. apply Forall_app. split; [by apply deleted_ok|done].
Qed.

Lemma entries_at_deleted i lfns short : entries_at i (deleted lfns short) = [].
Proof. unfold deleted. rewrite (list_fmap_compose mark Hole). apply entries_at_holes. Qed.

(** ** Finding room *)
Definition free_slot (s : slot) : bool := (rd s 0 =? 0) || (rd s 0 =? DELETED_MARKER).

(** What the scan finds: the first run of free slots that is long enough, or the
    run at the end; in both cases the slot before the run is in use. *)
Definition run_at (slots pre run post : list slot) : Prop :=
  slots = pre ++ run ++ post /\ Forall (fun s => free_slot s = true) run
  /\ (forall s, last pre = Some s -> free_slot s = false).

Lemma free_scan_run needed l pre run start :
  (0 < needed)%nat -> (length run < needed)%nat ->
  Forall (fun s => free_slot s = true) run -> (forall s, last pre = Some s -> free_slot s = false) ->
  (run ≠ [] -> start = (32 * length pre)%nat) ->
  match free_scan (number (32 * length (pre ++ run)) l) needed (length run) start with
  | inl off => exists p r q, run_at (pre ++ run ++ l) p r q /\ off = (32 * length p)%nat /\ length r = needed
  | inr (c, st) => exists p r, run_at (pre ++ run ++ l) p r [] /\ length r = c /\ (c < needed)%nat
      /\ (r ≠ [] -> st = (32 * length p)%nat)
  end.
Proof.
  intros Hn. revert pre run start. induction l as [|s l IH]; intros pre run start Hlt Hrun Hlast Hst.
  { cbn. exists pre, run. split_and!; try done. }
  cbn [number free_scan]. change ((rd s 0 =? 0) || (rd s 0 =? DELETED_MARKER)) with (free_slot s).
  destruct (free_slot s) eqn:Hs.
  - assert ((if (length run =? 0)%nat then (32 * length (pre ++ run))%nat else start) = (32 * length pre)%nat) as Hstart.
    { destruct run as [|x run]; [cbn; by rewrite app_nil_r|]. cbn [length Nat.eqb]. by apply Hst. }
    assert (Forall (fun s => free_slot s = true) (run ++ [s])) as Hrun' by (apply Forall_app; auto).
    assert (length (run ++ [s]) = length run + 1)%nat as Hlr by (rewrite length_app; done).
    destruct (Nat.leb_spec needed (length run + 1)).
    + exists pre, (run ++ [s]), l. split_and!; [split_and!; try done|done|lia]. by rewrite <- !app_assoc.
    + rewrite Hstart. specialize (IH pre (run ++ [s]) (32 * length pre)%nat ltac:(lia) Hrun' Hlast ltac:(done)).
      rewrite Hlr in IH. rewrite (app_assoc pre run), length_app in IH. cbn [length] in IH.
      replace (32 * (length (pre ++ run) + 1))%nat with (32 * length (pre ++ run) + 32)%nat in IH by lia.
      rewrite <- (app_assoc run) in IH. exact IH.
  - specialize (IH (pre ++ run ++ [s]) [] start ltac:(simpl; lia) ltac:(constructor)).
    rewrite app_nil_r in IH. replace (32 * length (pre ++ run ++ [s]))%nat with (32 * length (pre ++ run) + 32)%nat in IH
      by (rewrite !length_app; simpl; lia).
    rewrite <- !app_assoc in IH. apply IH; [|done]. intros x. rewrite app_assoc, last_snoc. by intros [= <-].
Qed.

Lemma live_not_free s : live s -> free_slot s = false.
Proof.
  intros (_ & H0 & H5). unfold free_slot. destruct (Z.eqb_spec (rd s 0) 0), (Z.eqb_spec (rd s 0) DELETED_MARKER); done.
Qed.

Lemma unused_free s : unused s -> free_slot s = true.
Proof. intros [_ H0]. unfold free_slot. by rewrite H0. Qed.

Lemma item_busy it s :
  item_ok it -> s ∈ item_slots it -> (forall x, it ≠ Hole x) -> free_slot s = false.
Proof.
  destruct it as [x|x|lfns short]; intros Hi Hs Hn; [by destruct (Hn x)| |]; apply live_not_free.
  - apply list_elem_of_singleton in Hs as ->. by destruct Hi as [[? _] _].
  - destruct Hi as ([Hl _] & [Hsh _] & _). apply elem_of_app in Hs as [Hs| ->%list_elem_of_singleton]; [|done].
    rewrite Forall_forall in Hl. by apply Hl.
Qed.

(** The items a run of free slots covers: holes, and slots that were never used
    when it reaches the end. *)
Definition covers (items : list item) (tail p r q : list slot) : Prop :=
  exists pre holes post t1 tail',
    items = pre ++ (Hole <$> holes) ++ post /\ p = slots_of pre
    /\ tail = t1 ++ tail' /\ r = holes ++ t1 /\ q = slots_of post ++ tail' /\ (t1 = [] \/ post = []).

Lemma covers_start items tail r q :
  dir_wf items tail -> slots_of items ++ tail = r ++ q -> Forall (fun s => free_slot s = true) r ->
  covers items tail [] r q.
Proof.
  intros [Hi Ht]. revert r. induction Hi as [|it items Hit Hi IH]; intros r Heq Hr.
  { exists [], [], [], r, q. split_and!; try done. by right. }
  destruct r as [|x r]. { exists [], [], (it :: items), [], tail. split_and!; try done. by left. }
  apply Forall_cons in Hr as [Hx Hr].
  destruct it as [s|s|lfns short].
  - injection Heq as -> Heq. destruct (IH r Heq Hr) as (pre & holes & post & t1 & tail' & -> & Hp & -> & -> & -> & Hor).
    assert (pre = []) as -> by (destruct pre as [|[y|y|ls y] pre]; [done..|]; rewrite slots_of_cons in Hp; by destruct ls).
    by exists [], (x :: holes), post, t1, tail'.
  - exfalso. injection Heq as -> _. pose proof (item_busy (Skip x) x Hit ltac:(by left) ltac:(done)). congruence.
  - exfalso. assert (x ∈ item_slots (Named lfns short)) as Hin.
    { rewrite slots_of_cons in Heq. cbn [item_slots] in *. destruct lfns; injection Heq as -> _; by left. }
    pose proof (item_busy _ x Hit Hin ltac:(done)). congruence.
Qed.

Lemma covers_cons it items tail p r q :
  covers items tail p r q -> covers (it :: items) tail (item_slots it ++ p) r q.
Proof.
  intros (pre & holes & post & t1 & tail' & -> & -> & Hr). exists (it :: pre), holes, post, t1, tail'. done.
Qed.

Lemma covers_run items tail p r q :
  dir_wf items tail -> run_at (slots_of items ++ tail) p r q -> r ≠ [] -> covers items tail p r q.
Proof.
  intros [Hi Ht] (Heq & Hr & Hl) Hne.
  revert p Heq Hl. induction Hi as [|it items Hit Hi IH]; intros p Heq Hl.
  { assert (p = []) as ->; [|by apply covers_start].
    destruct p as [|x p _] using rev_ind; [done|]. exfalso.
    assert (free_slot x = true) by (apply unused_free; rewrite Forall_forall in Ht; apply Ht; cbn in Heq; rewrite Heq; set_solver).
    rewrite (Hl x) in H; [done|]. by rewrite last_snoc. }
  destruct (decide (p = [])) as [->|Hp]; [apply covers_start; [split; auto|done|done]|].
  rewrite slots_of_cons, <- app_assoc in Heq. apply app_eq_inv in Heq as [(k & Hk & Heq)|(k & -> & Heq)].
  - destruct k as [|y k].
    + rewrite app_nil_r in Hk. subst p. rewrite <- (app_nil_r (item_slots it)). apply covers_cons.
      apply covers_start; [by split|done|done].
    + exfalso. destruct r as [|x r]; [done|]. injection Heq as -> _. apply Forall_cons in Hr as [Hy _].
      assert (free_slot y = false); [|congruence]. apply (item_busy it); [done|rewrite Hk; set_solver|].
      intros z ->. cbn in Hk. destruct p as [|? [|]]; done.
  - apply covers_cons. apply IH; [done|]. intros s Hs. apply Hl. by rewrite last_app, Hs.
Qed.

(** Filling a run of free slots with an item of the same length. *)
Lemma fill_run items tail p r q it :
  dir_wf items tail -> item_ok it -> covers items tail p r q -> length (item_slots it) = length r ->
  exists pre post tail',
    p ++ item_slots it ++ q = slots_of (pre ++ it :: post) ++ tail'
    /\ dir_wf (pre ++ it :: post) tail' /\ p = slots_of pre
    /\ entries_at 0 items = entries_at 0 pre ++ entries_at (32 * (length p + length r)) post.
Proof.
  intros [Hi Ht] Hit (pre & holes & post & t1 & tail' & -> & -> & -> & -> & -> & Hor) Hlen.
  apply Forall_app in Hi as [Hpre Hi]. apply Forall_app in Hi as [_ Hpost]. apply Forall_app in Ht as [_ Ht].
  exists pre, post, tail'. split; [|split; [|split; [done|]]].
  - by rewrite slots_of_app, slots_of_cons, <- !app_assoc.
  - split; [|done]. apply Forall_app. split; [done|]. by constructor.
  - rewrite !entries_at_app, entries_at_holes, slots_of_holes. f_equal. cbn [app]. rewrite length_app.
    destruct Hor as [-> | ->]; [|done]. f_equal. simpl. lia.
Qed.

(** Storing the slots of an entry one after the other. *)
Lemma store_each {St E X} (ser : X -> slot) (xs : list X) p r q (s : St) off n :
  Forall slot_ok p -> Forall slot_ok r -> Forall (fun x => slot_ok (ser x)) xs -> length r = length xs ->
  off = (32 * length p)%nat -> n = length xs ->
  (for_acc (zip (seq 0 n) xs) (image (p ++ r ++ q))
     (fun data '(i, x) => store data (off + i * 32) (ser x)) : M St E bytes) s
  = (Ok (image (p ++ (ser <$> xs) ++ q)), s).
Proof.
  intros Hp Hr Hx Hl -> ->. 
  assert (forall done_ j, Forall slot_ok done_ -> j = length done_ ->
    (for_acc (zip (seq j (length xs)) xs) (image (p ++ (done_ ++ r) ++ q))
      (fun data '(i, x) => store data (32 * length p + i * 32) (ser x)) : M St E bytes) s
    = (Ok (image (p ++ (done_ ++ (ser <$> xs)) ++ q)), s)) as Hall; [|by apply (Hall [] 0%nat)].
  revert r Hr Hl. induction Hx as [|x xs Hx Hxs IH]; intros r Hr Hl done_ j Hd ->.
  { destruct r; [|done]. done. }
  destruct r as [|y r]; [done|]. apply Forall_cons in Hr as [Hy Hr]. injection Hl as Hl.
  cbn [length seq zip zip_with for_acc].
  replace (32 * length p + length done_ * 32)%nat with (32 * length (p ++ done_))%nat by (rewrite length_app; lia).
  replace (image (p ++ (done_ ++ y :: r) ++ q)) with (image ((p ++ done_) ++ y :: (r ++ q))) by (by rewrite <- !app_assoc).
  assert (Forall slot_ok (p ++ done_)) as Hpd by by apply Forall_app.
  rewrite (bind_ok _ _ _ _ _ (store_slot (p ++ done_) y (ser x) (r ++ q) s Hpd Hy Hx)).
  replace (image ((p ++ done_) ++ ser x :: r ++ q)) with (image (p ++ ((done_ ++ [ser x]) ++ r) ++ q))
    by (by rewrite <- !app_assoc).
  rewrite (IH r Hr Hl (done_ ++ [ser x]) (S (length done_))).
  - by rewrite fmap_cons, <- (app_assoc done_).
  - apply Forall_app. auto.
  - rewrite length_app. simpl. lia.
Qed.
