(* ===== verification/FatNames.v ===== *)
(** * FatNames: the slots of a new entry

    What [add_dir_entry] stores for a name: the 8.3 name [make_short_name] derives,
    the long-name slots when [needs_lfn] asks for them; the name a directory scan
    reads back from them, and for which names a lookup then fails ([lost_name]). *)
From Stdlib Require Import ZArith Lia.
From stdpp Require Import base numbers option list sets.
From S2P Require Import Prelude VfsTypes PartTable FatCodec Fat32 FatImage.

Definition short_alpha (c : Z) : bool := ascii_alphanumeric c || (c =? underscore) || (c =? hyphen).

Lemma short_alpha_range c : short_alpha c = true -> 45 <= c <= 122 /\ c ≠ 46.
Proof.
  unfold short_alpha, ascii_alphanumeric, ascii_upper_alpha, ascii_lower_alpha, ascii_digit, underscore, hyphen.
  rewrite !orb_true_iff, !andb_true_iff, !Z.leb_le, !Z.eqb_eq. lia.
Qed.

Lemma short_char_alpha c : short_alpha (short_char c) = true.
Proof.
  unfold short_char. change (ascii_alphanumeric c || (c =? underscore) || (c =? hyphen)) with (short_alpha c).
  by destruct (short_alpha c) eqn:Hc.
Qed.

(** A byte of an 8.3 name. *)
Definition name_byte (c : Z) : Prop := c = space \/ short_alpha c = true.

Lemma name_byte_range c : name_byte c -> 32 <= c <= 122 /\ c ≠ 46.
Proof. intros [->|H%short_alpha_range]; unfold space; lia. Qed.

Lemma put_part_ok result off n part :
  Forall name_byte result -> (off + n <= length result)%nat ->
  length (put_part result off n part) = length result /\ Forall name_byte (put_part result off n part).
Proof.
  intros Hr Hl. unfold put_part. assert (length (short_char <$> take n part) <= n)%nat as Hn
    by (rewrite length_fmap, length_take; lia). split; [apply length_splice; lia|].
  unfold splice. apply Forall_app. split; [by apply Forall_take|]. apply Forall_app. split; [|by apply Forall_drop].
  apply Forall_fmap, Forall_forall. intros c _. right. apply short_char_alpha.
Qed.

Section names.
Context {U : UnicodeCase}.

Lemma make_short_name_ok name : length (make_short_name name) = 11%nat /\ Forall name_byte (make_short_name name).
Proof.
  unfold make_short_name. destruct (rsplit_dot (str_to_uppercase name)) as [ext base].
  assert (forall b e, length (put_part (put_part (replicate 11 space) 0 8 b) 8 3 e) = 11%nat
    /\ Forall name_byte (put_part (put_part (replicate 11 space) 0 8 b) 8 3 e)) as Hput.
  { intros b e. assert (Forall name_byte (replicate 11 space)) as H0 by (apply Forall_replicate; by left).
    destruct (put_part_ok (replicate 11 space) 0 8 b H0 ltac:(rewrite length_replicate; lia)) as [H1 H2].
    rewrite length_replicate in H1.
    destruct (put_part_ok _ 8 3 e H2 ltac:(rewrite H1; lia)) as [H3 H4]. by rewrite H3, H1. }
  destruct (negb _); apply Hput.
Qed.

Lemma Short_new_wf name attr cluster size :
  is_byte attr -> 0 <= size < 2 ^ 32 -> short_wf (Short_new name attr cluster size).
Proof.
  intros Ha Hs. destruct (make_short_name_ok name) as [Hl Hb].
  assert (Forall is_byte (make_short_name name)) as Hbytes.
  { eapply Forall_impl; [exact Hb|]. intros c Hc%name_byte_range. unfold is_byte. lia. }
  split; cbn; try (by split); try lia; try done.
  - destruct (make_short_name name) as [|c s]; [done|]. apply Forall_cons in Hb as [Hc _].
    apply name_byte_range in Hc. cbn. lia.
  - apply u16_range.
  - apply u16_range.
Qed.

(** ** The listed short name is never "." or ".." *)
Lemma take_while_elem {A} (f : A -> bool) l x : x ∈ take_while f l -> x ∈ l /\ f x = true.
Proof.
  induction l as [|y l IH]; [by intros ?%elem_of_nil|]. cbn. destruct (f y) eqn:Hf; [|by intros ?%elem_of_nil].
  intros [->|Hx]%elem_of_cons; [split; [by left|done]|]. apply IH in Hx as [? ?]. split; [by right|done].
Qed.

Lemma name_field_no_dot b : Forall name_byte b -> dot ∉ name_field b.
Proof.
  intros Hb (c & Hc & [Hin Hsp]%take_while_elem)%list_elem_of_fmap. rewrite Forall_forall in Hb.
  specialize (Hb c Hin). apply name_byte_range in Hb. unfold to_ascii_lowercase, dot in Hc.
  destruct (ascii_upper_alpha c) eqn:Hu; [|lia]. unfold ascii_upper_alpha in Hu. lia.
Qed.

Lemma short_name_not_dots name attr cluster size :
  short_name (Short_new name attr cluster size) ≠ lit "." /\ short_name (Short_new name attr cluster size) ≠ lit "..".
Proof.
  unfold short_name. cbn [s_name Short_new]. destruct (make_short_name_ok name) as [_ Hb].
  assert (forall i j, dot ∉ name_field (slice (make_short_name name) i j)) as Hd.
  { intros i j. apply name_field_no_dot. unfold slice. by apply Forall_take, Forall_drop. }
  pose proof (Hd 0%nat 8%nat) as H1. pose proof (Hd 8%nat 11%nat) as H2.
  destruct (name_field (slice _ 0 8)) as [|a l1], (name_field (slice _ 8 11)) as [|a2 l2]; cbn [app];
    [done|rewrite decide_False by done|rewrite decide_True by done|rewrite decide_False by done].
  - split; [by intros [= ->]|]. intros [= -> ->]. apply H2. by left.
  - split; intros [= -> ->]; apply H1; by left.
  - split; intros [= -> Heq]; apply H1; by left.
Qed.

Lemma Short_new_visible name attr cluster size :
  Z.land attr ATTR_VOLUME_ID = 0 -> visible (Short_new name attr cluster size) = true.
Proof.
  intros Ha. destruct (short_name_not_dots name attr cluster size) as [H1 H2]. unfold visible, is_volume_label.
  cbn [s_attr Short_new]. rewrite Ha. by rewrite !bool_decide_eq_true_2.
Qed.

(** ** The slots *)
Definition new_lfns (name : rstr) : list LfnEntry :=
  if needs_lfn name then create_lfn_entries name (make_short_name name) else [].

Definition new_item (name : rstr) (attr cluster size : Z) : item :=
  Named (Lfn_serialize <$> new_lfns name) (Short_serialize (Short_new name attr cluster size)).

(** The name a listing shows for the new entry.  This is no function of the driver
    but the statement's word for what its parts make together: [new_item_entry]
    derives it from the slots above and the directory scan's [entry_of], and
    [add_dir_entry_run] ([FatDir.v]) from [add_dir_entry]. *)
Definition created_name (name : rstr) : rstr :=
  if needs_lfn name then name else short_name (Short_new name 0 0 0).

Definition name_ok (name : rstr) : Prop := name ≠ [] /\ Forall lfn_char name /\ (length name <= LFN_MAX)%nat.

Lemma Lfn_serialize_slot e : lfn_wf e -> slot_ok (Lfn_serialize e).
Proof.
  intros Hw. split; [by apply length_Lfn_serialize|].
  assert (forall l, Forall is_byte (l ≫= to_le 2)) as Hl.
  { intros l. apply Forall_bind, Forall_forall. intros. apply to_le_bytes. }
  destruct Hw. unfold Lfn_serialize. repeat (apply Forall_app; split); auto.
  - repeat constructor; done || apply lw_checksum.
  - by repeat constructor.
Qed.

Lemma lor64_range i : 0 <= i < 64 -> Z.lor i 64 = i + 64.
Proof.
  intros Hi%land64_small. rewrite <- Z.lxor_lor by done. symmetry. by apply Z.add_nocarry_lxor.
Qed.

Lemma lfn_entries_wf name sn :
  name_ok name -> Forall (fun e => lfn_wf e /\ 0 < l_seq e < 128) (create_lfn_entries name sn).
Proof.
  intros (_ & Hc & Hl). pose proof (lfn_entries_ok name sn Hc Hl) as Hok. rewrite create_lfn_entries_map in *.
  rewrite Forall_fmap in *. rewrite Forall_forall in *. intros i Hi. destruct (Hok i Hi) as [Hw _]. split; [exact Hw|].
  apply list_elem_of_In, in_rev in Hi. apply in_seq in Hi. unfold LFN_MAX in Hl.
  pose proof (Nat.div_mod_eq (length name + 12) 13). pose proof (Nat.mod_upper_bound (length name + 12) 13).
  cbn. rewrite u8_small by lia. destruct (_ =? _)%nat; [rewrite lor64_range|]; lia.
Qed.

Lemma lfn_serialize_lfn_slot e : lfn_wf e /\ 0 < l_seq e < 128 -> lfn_slot (Lfn_serialize e) /\ lfn_of (Lfn_serialize e) = e.
Proof.
  intros [Hw Hs]. pose proof (Lfn_parse_serialize e Hw) as Hp. split; [|unfold lfn_of; by rewrite Hp].
  split; [split; [by apply Lfn_serialize_slot|]|].
  - change (rd (Lfn_serialize e) 0) with (l_seq e). unfold DELETED_MARKER. lia.
  - destruct Hw as [_ [H1 _] _ _ _ _ _ _]. unfold Lfn_serialize. destruct e as [sq n1 at_ ty ck n2 cl n3]. cbn in H1.
    cbn [l_name1 l_seq]. explode n1 H1. reflexivity.
Qed.

Lemma new_lfns_ok name : name_ok name -> Forall (fun e => lfn_wf e /\ 0 < l_seq e < 128) (new_lfns name).
Proof. intros Hn. unfold new_lfns. destruct (needs_lfn name); [by apply lfn_entries_wf|constructor]. Qed.

Lemma lfn_of_serialized name : name_ok name -> lfn_of <$> (Lfn_serialize <$> new_lfns name) = new_lfns name.
Proof.
  intros Hn. pose proof (new_lfns_ok name Hn) as Hok. induction Hok as [|e l He Hl IH]; [done|].
  rewrite !fmap_cons, IH. f_equal. by apply lfn_serialize_lfn_slot.
Qed.

Lemma short_of_serialized name attr cluster size :
  is_byte attr -> 0 <= size < 2 ^ 32 ->
  short_of (Short_serialize (Short_new name attr cluster size)) = Short_new name attr cluster size.
Proof. intros Ha Hs. unfold short_of. by rewrite Short_parse_serialize by by apply Short_new_wf. Qed.

Lemma new_item_ok name attr cluster size :
  name_ok name -> is_byte attr -> Z.land attr ATTR_VOLUME_ID = 0 -> 0 <= size < 2 ^ 32 ->
  item_ok (new_item name attr cluster size).
Proof.
  intros Hn Ha Hv Hs. pose proof (Short_new_wf name attr cluster size Ha Hs) as Hw.
  pose proof (new_lfns_ok name Hn) as Hok. split; [split|split].
  - apply Forall_fmap. eapply Forall_impl; [exact Hok|]. intros e He. by apply lfn_serialize_lfn_slot.
  - pose proof (lfn_of_serialized name Hn) as Hof. unfold new_lfns in *. destruct (needs_lfn name); [|done].
    destruct Hn as (Hne & Hc & Hl). pose proof (lfn_last_flags name (make_short_name name) Hne Hl) as Hf.
    destruct (create_lfn_entries name (make_short_name name)) as [|e es]; [done|]. rewrite !fmap_cons in *.
    injection Hof as He Hes. injection Hf as Hl1 Hl2. split; [by rewrite He|].
    assert (Forall (fun e => is_last e = false) es) as Hes2.
    { apply (Forall_fmap is_last (fun c => c = false) es). rewrite Hl2. by apply Forall_replicate. }
    rewrite <- Hes in Hes2. by apply Forall_fmap in Hes2.
  - split; [split; [split; [by apply length_Short_serialize|by apply Short_serialize_bytes]|]|].
    + destruct (make_short_name_ok name) as [Hl Hb]. unfold Short_serialize. cbn [s_name Short_new].
      destruct (make_short_name name) as [|c s]; [done|]. apply Forall_cons in Hb as [Hc _].
      apply name_byte_range in Hc. cbn. unfold DELETED_MARKER. lia.
    + assert (rd (Short_serialize (Short_new name attr cluster size)) 11 = attr) as ->.
      { unfold Short_serialize. cbn [s_name s_attr Short_new]. destruct (make_short_name_ok name) as [Hl _].
        revert Hl. generalize (make_short_name name). intros sn Hl. explode sn Hl. reflexivity. }
      intros ->. done.
  - rewrite short_of_serialized by done. by apply Short_new_visible.
Qed.

Lemma new_item_entry i name attr cluster size :
  name_ok name -> is_byte attr -> 0 <= size < 2 ^ 32 ->
  entry_of i (Lfn_serialize <$> new_lfns name) (Short_serialize (Short_new name attr cluster size))
  = mkDirEntry (created_name name) (Short_new name attr cluster size) (new_lfns name) i (length (new_lfns name) + 1).
Proof.
  intros Hn Ha Hs. unfold entry_of, entry_name. rewrite short_of_serialized, lfn_of_serialized, length_fmap by done.
  f_equal. unfold created_name, new_lfns. destruct (needs_lfn name); [|done].
  destruct Hn as (Hne & Hc & Hl). rewrite decide_True.
  - pose proof (lfn_entries_ok name (make_short_name name) Hc Hl) as Hok.
    assert (forallb (fun e => l_checksum e =? lfn_checksum (s_name (Short_new name attr cluster size)))
      (create_lfn_entries name (make_short_name name)) = true) as ->.
    { apply forallb_forall. intros e He%list_elem_of_In. rewrite Forall_forall in Hok. destruct (Hok e He) as [_ ->].
      apply Z.eqb_refl. }
    by apply assemble_create.
  - pose proof (lfn_last_flags name (make_short_name name) Hne Hl) as Hf.
    by destruct (create_lfn_entries name (make_short_name name)).
Qed.

(** ** The name an entry is listed under *)
Definition upper_part (p : rstr) : Prop := Forall (fun c => short_alpha c = true /\ ascii_lower_alpha c = false) p.

Lemma short_char_id p : upper_part p -> short_char <$> p = p.
Proof.
  induction 1 as [|c p [Hc _] Hp IH]; [done|]. rewrite fmap_cons, IH. f_equal. unfold short_char.
  change (ascii_alphanumeric c || (c =? underscore) || (c =? hyphen)) with (short_alpha c). by rewrite Hc.
Qed.

Lemma name_field_padded p k : upper_part p -> name_field (p ++ replicate k space) = to_ascii_lowercase <$> p.
Proof.
  intros Hp. unfold name_field. f_equal. induction Hp as [|c p [Hc _] Hp IH].
  - by destruct k.
  - cbn. apply short_alpha_range in Hc. unfold space in *. destruct (Z.eqb_spec c 32); [lia|]. cbn. by rewrite IH.
Qed.

Lemma put_parts base ext :
  upper_part base -> upper_part ext -> (length base <= 8)%nat -> (length ext <= 3)%nat ->
  put_part (put_part (replicate 11 space) 0 8 base) 8 3 ext
  = (base ++ replicate (8 - length base) space) ++ (ext ++ replicate (3 - length ext) space).
Proof.
  intros Hb He Hlb Hle. unfold put_part. rewrite !take_ge by lia. rewrite !short_char_id by done.
  assert (splice (replicate 11 space) 0 base = (base ++ replicate (8 - length base) space) ++ replicate 3 space) as ->.
  { unfold splice. rewrite take_0, app_nil_l, Nat.add_0_l, drop_replicate, <- app_assoc, <- replicate_add. f_equal. f_equal. lia. }
  unfold splice. assert (length (base ++ replicate (8 - length base) space) = 8%nat) as H8
    by (rewrite length_app, length_replicate; lia).
  rewrite take_app_le by lia. rewrite take_ge by lia. f_equal. f_equal.
  rewrite drop_app_ge by lia. rewrite H8, drop_replicate. f_equal. lia.
Qed.

Lemma rsplit_dot_none s : dot ∉ s -> rsplit_dot s = (s, None).
Proof.
  induction s as [|c s IH]; [done|]. intros Hs. cbn. rewrite IH by set_solver.
  destruct (Z.eqb_spec c dot); [set_solver|done].
Qed.

Lemma rsplit_dot_app a s : dot ∉ s -> rsplit_dot (a ++ dot :: s) = (s, Some a).
Proof.
  intros Hs. induction a as [|c a IH]; cbn [app rsplit_dot]; [by rewrite rsplit_dot_none|]. by rewrite IH.
Qed.

Lemma upper_part_facts p :
  upper_part p -> (dot ∉ p) /\ to_ascii_uppercase <$> p = p /\ Forall (fun c => 0 <= c < 128) p
  /\ to_ascii_lowercase <$> (to_ascii_lowercase <$> p) = to_ascii_lowercase <$> p.
Proof.
  induction 1 as [|c p [Hc Hl] Hp (IH1 & IH2 & IH3 & IH4)]; [split_and!; try done; by intros ?%elem_of_nil|].
  pose proof (short_alpha_range c Hc) as [Hr Hd]. rewrite !fmap_cons, IH2, IH4. split_and!.
  - intros [Hx|Hx]%elem_of_cons; [by apply Hd|done].
  - f_equal. unfold to_ascii_uppercase. by rewrite Hl.
  - constructor; [lia|done].
  - f_equal. unfold to_ascii_lowercase, ascii_upper_alpha. repeat case_bool; lia.
Qed.

Lemma existsb_dot s : existsb (fun c => c =? dot) s = true <-> dot ∈ s.
Proof.
  rewrite existsb_exists. split.
  - intros (c & Hin%list_elem_of_In & ->%Z.eqb_eq). done.
  - intros Hin%list_elem_of_In. exists dot. split; [done|apply Z.eqb_refl].
Qed.

Lemma short_name_fields base ext size :
  upper_part base -> upper_part ext -> (length base <= 8)%nat -> (length ext <= 3)%nat ->
  short_name (mkShort ((base ++ replicate (8 - length base) space) ++ ext ++ replicate (3 - length ext) space)
    0 0 0 0 0 0 (u16 (Z.shiftr 0 16)) 0 0 (u16 0) size)
  = if decide (ext = []) then to_ascii_lowercase <$> base
    else (to_ascii_lowercase <$> base) ++ [dot] ++ (to_ascii_lowercase <$> ext).
Proof.
  intros Hb He Hlb Hle. unfold short_name. cbn [s_name]. set (B := base ++ _). set (X := ext ++ _).
  assert (length B = 8%nat /\ length X = 3%nat) as [HB HX]
    by (unfold B, X; rewrite !length_app, !length_replicate; lia).
  assert (slice (B ++ X) 0 8 = B) as -> by (apply slice_app_l; done).
  assert (slice (B ++ X) 8 11 = X) as ->.
  { unfold slice. rewrite drop_app_ge by lia. rewrite HB, Nat.sub_diag, drop_0. apply take_ge. lia. }
  unfold B, X. rewrite !name_field_padded by done.
  destruct (decide (ext = [])) as [->|Hne]; [by rewrite decide_True|]. rewrite decide_False; [done|].
  by destruct ext.
Qed.

Lemma short_char_idem c : short_char (short_char c) = short_char c.
Proof.
  unfold short_char at 1. fold (short_alpha (short_char c)). change (ascii_alphanumeric (short_char c) || (short_char c =? underscore)
    || (short_char c =? hyphen)) with (short_alpha (short_char c)). by rewrite short_char_alpha.
Qed.

Lemma put_part_short_char result off n part : put_part result off n (short_char <$> part) = put_part result off n part.
Proof.
  unfold put_part. f_equal. rewrite <- fmap_take, <- list_fmap_compose. apply list_fmap_ext. intros _ c _. apply short_char_idem.
Qed.

(** ** The names that fit 8.3
    Capitals, digits, [_], [-] and dots, at most three of them after the last dot
    and eight before it. *)
Definition short_upper (c : Z) : bool := short_alpha c && negb (ascii_lower_alpha c).

Definition short_form (name : rstr) : bool :=
  forallb (fun c => short_upper c || (c =? dot)) name
  && match rsplit_dot name with
     | (ext, Some base) => (length base <=? 8)%nat && (length ext <=? 3)%nat
     | (all, None) => (length all <=? 8)%nat
     end.

(** Of these, the ones that no lookup finds: those with a dot that 8.3 does not
    keep, because another follows it or nothing does. *)
Definition lost_name (name : rstr) : bool :=
  short_form name
  && match rsplit_dot name with
     | (ext, Some base) => bool_decide (ext = []) || bool_decide (dot ∈ base)
     | (_, None) => false
     end.

Lemma rsplit_dot_spec s :
  match rsplit_dot s with
  | (ext, Some base) => s = base ++ dot :: ext /\ dot ∉ ext
  | (all, None) => s = all /\ dot ∉ all
  end.
Proof.
  induction s as [|c s IH]; cbn [rsplit_dot]; [split; [done|apply not_elem_of_nil]|].
  destruct (rsplit_dot s) as [ext [base|]], IH as [-> Hd]; [done|].
  destruct (Z.eqb_spec c dot) as [->|Hc]; [done|]. split; [done|]. by intros [Hx|Hx]%elem_of_cons.
Qed.

Lemma short_upper_ascii c : short_upper c || (c =? dot) = true -> 45 <= c <= 122.
Proof.
  intros [[Hc%short_alpha_range _]%andb_prop | ->%Z.eqb_eq]%orb_prop; [lia|unfold dot; lia].
Qed.

Lemma str_len_ascii s : Forall (fun c => 0 <= c < 128) s -> str_len s = zlen s.
Proof.
  induction 1 as [|c s Hc Hs IH]; [done|]. cbn [str_len fold_right]. fold (str_len s). rewrite IH. unfold zlen. cbn [length].
  unfold char_len_utf8. repeat case_bool; lia.
Qed.

Lemma forallb_negb_existsb {A} (f g : A -> bool) l : (forall x, f x = negb (g x)) -> existsb f l = negb (forallb g l).
Proof. intros Hfg. induction l as [|x l IH]; [done|]. cbn. by rewrite IH, Hfg, negb_andb. Qed.

#[local] Ltac case_leb :=
  match goal with
  | |- context [Z.ltb ?a ?b] => destruct (Z.ltb_spec a b)
  | |- context [Nat.leb ?a ?b] => destruct (Nat.leb_spec a b)
  end.

(** [needs_lfn] asks for long-name slots exactly when the name does not fit. *)
Lemma needs_lfn_short_form name : needs_lfn name = negb (short_form name).
Proof.
  unfold needs_lfn, short_form.
  rewrite (forallb_negb_existsb _ (fun c => short_upper c || (c =? dot))).
  2: { intros c. unfold short_upper, short_alpha, ascii_alphanumeric. destruct (ascii_lower_alpha c) eqn:Hl.
    - rewrite andb_false_r. destruct (Z.eqb_spec c dot) as [->|]; [done|]. by destruct (ascii_upper_alpha c), (ascii_digit c).
    - by destruct (ascii_upper_alpha c), (ascii_digit c), (c =? dot), (c =? underscore), (c =? hyphen). }
  destruct (forallb _ name) eqn:Hf; cbn [negb andb].
  - assert (Forall (fun c => 0 <= c < 128) name) as Ha.
    { apply Forall_forall. intros c Hc%list_elem_of_In. rewrite forallb_forall in Hf. specialize (Hf c Hc).
      apply short_upper_ascii in Hf. lia. }
    pose proof (rsplit_dot_spec name) as Hs. rewrite (str_len_ascii name Ha).
    destruct (rsplit_dot name) as [ext [base|]], Hs as [-> _].
    + apply Forall_app in Ha as [Hb [_ He]%Forall_cons]. rewrite !str_len_ascii by done. unfold zlen. rewrite length_app. cbn [length].
      repeat case_leb; (done || lia).
    + rewrite str_len_ascii by done. unfold zlen. repeat case_leb; (done || lia).
  - destruct (12 <? str_len name); [done|]. destruct (rsplit_dot name) as [ext [base|]]; by case_match.
Qed.

Lemma short_part p :
  forallb (fun c => short_upper c || (c =? dot)) p = true ->
  upper_part (short_char <$> p) /\ to_ascii_uppercase <$> p = p /\ Forall (fun c => 0 <= c < 128) p
  /\ ((dot ∉ p) -> short_char <$> p = p)
  /\ ((to_ascii_lowercase <$> (short_char <$> p) = to_ascii_lowercase <$> p) -> dot ∉ p).
Proof.
  induction p as [|c p IH]; [intros _; split_and!; try constructor; intros; (done || apply not_elem_of_nil)|].
  cbn [forallb]. intros [Hc Hp]%andb_prop. destruct (IH Hp) as (IH1 & IH2 & IH3 & IH4 & IH5).
  pose proof (short_upper_ascii c Hc) as Hr. apply orb_prop in Hc as [Hc | ->%Z.eqb_eq].
  - pose proof Hc as [Ha Hl]%andb_prop. apply negb_true_iff in Hl. pose proof (short_alpha_range c Ha) as [_ Hd].
    assert (short_char c = c) as Hs by (unfold short_char; unfold short_alpha in Ha; by rewrite Ha).
    rewrite !fmap_cons, Hs. split_and!.
    + by constructor.
    + unfold to_ascii_uppercase at 1. by rewrite Hl, IH2.
    + constructor; [lia|done].
    + intros [_ Hn]%not_elem_of_cons. by rewrite IH4.
    + intros [= Heq]%(f_equal tail). apply not_elem_of_cons. split; [by intros Heq'|by apply IH5].
  - rewrite !fmap_cons. split_and!; [by constructor| by rewrite IH2|by constructor| |done].
    intros [? _]%not_elem_of_cons. done.
Qed.

Lemma put_parts_image base ext :
  upper_part (short_char <$> base) -> upper_part (short_char <$> ext) -> (length base <= 8)%nat -> (length ext <= 3)%nat ->
  put_part (put_part (replicate 11 space) 0 8 base) 8 3 ext
  = ((short_char <$> base) ++ replicate (8 - length base) space) ++ (short_char <$> ext) ++ replicate (3 - length ext) space.
Proof.
  intros Hb He Hlb Hle. rewrite <- (put_part_short_char _ 0 8 base), <- (put_part_short_char _ 8 3 ext).
  rewrite put_parts by (done || by rewrite length_fmap). by rewrite !length_fmap.
Qed.

(** What is listed for a name without long-name slots. *)
Lemma created_short name :
  short_form name = true ->
  created_name name = match rsplit_dot name with
                      | (ext, Some base) =>
                          (to_ascii_lowercase <$> (short_char <$> base))
                          ++ if decide (ext = []) then [] else dot :: (to_ascii_lowercase <$> ext)
                      | (all, None) => to_ascii_lowercase <$> all
                      end.
Proof.
  intros Hs. unfold created_name. rewrite needs_lfn_short_form, Hs. cbn [negb]. pose proof Hs as [Hf Hl]%andb_prop.
  destruct (short_part name Hf) as (_ & Hu & Ha & _). pose proof (rsplit_dot_spec name) as Hsp.
  unfold Short_new, make_short_name. rewrite str_to_uppercase_ascii, Hu by done.
  destruct (rsplit_dot name) as [ext [base|]], Hsp as [-> Hd].
  - rewrite forallb_app in Hf. apply andb_prop in Hf as [Hfb [_ Hfe]%andb_prop]. apply andb_prop in Hl as [Hlb%Nat.leb_le Hle%Nat.leb_le].
    destruct (short_part base Hfb) as (Hb & _). destruct (short_part ext Hfe) as (He & _ & _ & Hes & _).
    assert (existsb (fun c => c =? dot) (base ++ dot :: ext) = true) as -> by (apply existsb_dot; set_solver).
    cbn [negb default]. rewrite put_parts_image by done. specialize (Hes Hd).
    rewrite <- (length_fmap short_char base), <- (length_fmap short_char ext) at 1.
    rewrite short_name_fields by (done || by rewrite length_fmap). rewrite Hes. case_decide; [by rewrite app_nil_r|done].
  - destruct (short_part ext Hf) as (Hb & _ & _ & Hns & _). apply Nat.leb_le in Hl.
    destruct (existsb _ ext) eqn:Hx; [by apply existsb_dot in Hx|]. cbn [negb]. specialize (Hns Hd). rewrite Hns in Hb.
    rewrite put_parts by (done || (simpl; lia) || by constructor). by rewrite (short_name_fields ext []) by (done || (simpl; lia) || by constructor).
Qed.

Lemma lower_ascii s :
  Forall (fun c => 0 <= c < 128) s ->
  Forall (fun c => 0 <= c < 128) (to_ascii_lowercase <$> s)
  /\ to_ascii_lowercase <$> (to_ascii_lowercase <$> s) = to_ascii_lowercase <$> s.
Proof.
  induction 1 as [|c s Hc Hs [IH1 IH2]]; [done|]. rewrite !fmap_cons, IH2. unfold to_ascii_lowercase, ascii_upper_alpha in *.
  split; [constructor; [|done]|f_equal]; repeat case_bool; lia.
Qed.

(** Lookups compare in lower case: the entry answers to the name it was made with
    unless the name is lost. *)
Lemma created_name_found name :
  bool_decide (str_to_lowercase (created_name name) = str_to_lowercase name) = negb (lost_name name).
Proof.
  unfold lost_name. destruct (short_form name) eqn:Hs; cbn [andb negb].
  2: { unfold created_name. rewrite needs_lfn_short_form, Hs. by apply bool_decide_eq_true_2. }
  rewrite (created_short name Hs). pose proof Hs as [Hf _]%andb_prop. destruct (short_part name Hf) as (_ & _ & Ha & _).
  pose proof (rsplit_dot_spec name) as Hsp. rewrite (str_to_lowercase_ascii name Ha).
  destruct (rsplit_dot name) as [ext [base|]], Hsp as [-> Hd].
  2: { destruct (lower_ascii ext Ha) as [Ha' Hl]. rewrite str_to_lowercase_ascii, Hl by done. by apply bool_decide_eq_true_2. }
  rewrite forallb_app in Hf. apply andb_prop in Hf as [Hfb _]. apply Forall_app in Ha as [_ [_ Hae]%Forall_cons].
  destruct (short_part base Hfb) as (Hb & _ & Hab & Hkeep & Hdot). destruct (upper_part_facts _ Hb) as (_ & _ & Hab' & Hlb).
  destruct (lower_ascii _ Hab') as [Hlab _]. destruct (lower_ascii _ Hae) as [Hlae Hle].
  rewrite str_to_lowercase_ascii.
  2: { apply Forall_app. split; [done|]. case_decide; [constructor|]. constructor; [unfold dot; lia|done]. }
  rewrite !fmap_app, fmap_cons, Hlb. destruct (decide (ext = [])) as [->|Hne].
  - apply bool_decide_eq_false_2. intros Heq%(f_equal length). rewrite !length_app, !length_fmap in Heq. simpl in Heq. lia.
  - rewrite (bool_decide_eq_false_2 (ext = [])) by done. cbn [orb]. rewrite fmap_cons, Hle. destruct (decide (dot ∈ base)) as [Hi|Hi].
    + rewrite (bool_decide_eq_true_2 (dot ∈ base)) by done. apply bool_decide_eq_false_2. intros [Heq _]%app_inj_1; [|by rewrite !length_fmap].
      by apply Hdot in Heq.
    + rewrite (bool_decide_eq_false_2 (dot ∈ base)) by done. apply bool_decide_eq_true_2. by rewrite Hkeep.
Qed.
End names.
