(* ===== verification/FatVolume.v ===== *)
(** * FatVolume: a FAT32 volume as a table and clusters

    The geometry the code relies on, the abstract view of a volume (the 28-bit
    table [fat] and the cluster contents [clus]) and what each primitive of
    [Fat32.v] does to the view: everything above the primitives is proved against
    these lemmas only. *)
From Stdlib Require Import ZArith Lia.
From stdpp Require Import base numbers option list.
From S2P Require Import Prelude VfsTypes Block PartTable FatCodec Fat32.

(** ** Bits *)
Lemma bits_bound x n : 0 <= n -> 0 <= x -> (forall i, n <= i -> Z.testbit x i = false) -> x < 2 ^ n.
Proof.
  intros Hn Hx Hb. assert (x = x mod 2 ^ n) as ->.
  { apply Z.bits_inj'. intros i Hi. destruct (Z.lt_ge_cases i n).
    - by rewrite Z.mod_pow2_bits_low.
    - by rewrite Z.mod_pow2_bits_high, Hb by lia. }
  apply Z.mod_pos_bound. lia.
Qed.

Lemma land_bound a b n : 0 <= n -> 0 <= b < 2 ^ n -> 0 <= Z.land a b < 2 ^ n.
Proof.
  intros Hn [Hb1 Hb2]. assert (0 <= Z.land a b) by (apply Z.land_nonneg; by right). split; [done|].
  apply bits_bound; [done..|]. intros i Hi. rewrite Z.land_spec.
  destruct (Z.eq_dec b 0) as [->|]; [by rewrite Z.bits_0, andb_false_r|].
  rewrite (Z.bits_above_log2 b i), andb_false_r; [done|lia|].
  apply Z.lt_le_trans with n; [apply Z.log2_lt_pow2; lia|done].
Qed.

(** The new table word: four reserved bits kept, 28 bits replaced. *)
Definition merge (existing value : Z) : Z := Z.lor (Z.land existing 0xF0000000) (Z.land value 0x0FFFFFFF).

Lemma merge_range e v : 0 <= merge e v < 2 ^ 32.
Proof.
  unfold merge. pose proof (land_bound e 0xF0000000 32 ltac:(lia) ltac:(lia)).
  pose proof (land_bound v 0x0FFFFFFF 32 ltac:(lia) ltac:(lia)).
  assert (0 <= Z.lor (Z.land e 0xF0000000) (Z.land v 0x0FFFFFFF)) by (apply Z.lor_nonneg; lia).
  split; [done|]. apply bits_bound; [lia|done|]. intros i Hi. rewrite Z.lor_spec.
  rewrite !Z.land_spec. rewrite (Z.bits_above_log2 0xF0000000 i), (Z.bits_above_log2 0x0FFFFFFF i);
    [by rewrite !andb_false_r|lia|cbn; lia|lia|cbn; lia].
Qed.

Lemma merge_value e v : Z.land (merge e v) 0x0FFFFFFF = Z.land v 0x0FFFFFFF.
Proof.
  unfold merge. rewrite Z.land_lor_distr_l, <- !Z.land_assoc.
  change (Z.land 0xF0000000 0x0FFFFFFF) with 0. change (Z.land 0x0FFFFFFF 0x0FFFFFFF) with 0x0FFFFFFF.
  by rewrite Z.land_0_r, Z.lor_0_l.
Qed.

Lemma merge_reserved e v : Z.land (merge e v) 0xF0000000 = Z.land e 0xF0000000.
Proof.
  unfold merge. rewrite Z.land_lor_distr_l, <- !Z.land_assoc.
  change (Z.land 0x0FFFFFFF 0xF0000000) with 0. change (Z.land 0xF0000000 0xF0000000) with 0xF0000000.
  by rewrite Z.land_0_r, Z.lor_0_r.
Qed.

Lemma land28_small v : 0 <= v < 2 ^ 28 -> Z.land v 0x0FFFFFFF = v.
Proof. intros Hv. change 0x0FFFFFFF with (Z.ones 28). rewrite Z.land_ones by lia. by apply Z.mod_small. Qed.

(** ** Little-endian words inside a sector *)
Lemma le_at_splice_same n b off v :
  (off + n <= length b)%nat -> 0 <= v < 256 ^ Z.of_nat n -> le_at n (splice b off (to_le n v)) off = v.
Proof.
  intros Hl Hv. unfold le_at. pose proof (slice_splice_same b off (to_le n v)) as H.
  rewrite length_to_le in H. rewrite H by done. by apply from_to_le.
Qed.

Lemma le_at_splice_other n b off off' src :
  (off + length src <= length b)%nat -> (off' + n <= length b)%nat ->
  (off' + n <= off \/ off + length src <= off')%nat ->
  le_at n (splice b off src) off' = le_at n b off'.
Proof. intros. unfold le_at. by rewrite slice_splice_other. Qed.

Lemma splice_bytes b off src : Forall is_byte b -> Forall is_byte src -> Forall is_byte (splice b off src).
Proof. intros Hb Hs. unfold splice. repeat (apply Forall_app; split); auto using Forall_take, Forall_drop. Qed.

(** ** Geometry *)
Definition clusters (b : Bpb) : Z :=
  (total_sectors b - (reserved_sectors b + num_fats b * sectors_per_fat b)) / sectors_per_cluster b.

Record geom_wf (b : Bpb) : Prop := {
  g_bps : bytes_per_sector b = 512;
  g_spc : 0 < sectors_per_cluster b;
  g_res : 0 <= reserved_sectors b;
  g_fats : 0 < num_fats b;
  g_spf : 0 < sectors_per_fat b;
  g_fit : (clusters b + 2) * 4 <= sectors_per_fat b * 512;
  g_total : reserved_sectors b + num_fats b * sectors_per_fat b <= total_sectors b < 2 ^ 32;
  g_max : clusters b + 2 <= FAT32_BAD
}.

(** A data cluster number. *)
Definition is_cluster (b : Bpb) (c : Z) : Prop := 2 <= c < clusters b + 2.

Section volume.
Context {W D : Type} `{BlockDeviceLaws W D}.
Variable self : Fat32Inner D.
Abbreviation b := (fi_bpb self).
Abbreviation dev := (fi_device self).

(** Every sector of the volume is there and holds bytes. *)
Definition vol_ok (w : W) : Prop :=
  forall s, 0 <= s < total_sectors b -> exists sec, sectors w dev s = Some sec /\ Forall is_byte sec.

Definition sec (w : W) (s : Z) : bytes := default [] (sectors w dev s).

Definition fat_sector (k c : Z) : Z := reserved_sectors b + k * sectors_per_fat b + 4 * c / 512.
Definition fat_off (c : Z) : nat := Z.to_nat (4 * c mod 512).

(** The word for cluster [c] in copy [k] of the table, and the 28 bits that count. *)
Definition raw (w : W) (k c : Z) : Z := le_at 4 (sec w (fat_sector k c)) (fat_off c).
Definition fat (w : W) (c : Z) : Z := Z.land (raw w 0 c) 0x0FFFFFFF.

Definition cluster_sector (c : Z) : Z :=
  reserved_sectors b + num_fats b * sectors_per_fat b + (c - 2) * sectors_per_cluster b.
Definition clus (w : W) (c : Z) : bytes :=
  seqZ 0 (sectors_per_cluster b) ≫= fun i => sec w (cluster_sector c + i).

Hypothesis Hg : geom_wf b.

Lemma vol_sec w s : vol_ok w -> 0 <= s < total_sectors b ->
  sectors w dev s = Some (sec w s) /\ length (sec w s) = 512%nat /\ Forall is_byte (sec w s).
Proof.
  intros Hv Hs. destruct (Hv s Hs) as (x & Hx & Hb). unfold sec. rewrite Hx. cbn.
  split_and!; [done|by eapply sectors_length|done].
Qed.

Lemma read_run w s : vol_ok w -> 0 <= s < total_sectors b ->
  read_sector self s w = (Ok (sec w s), w).
Proof.
  intros Hv Hs. destruct (vol_sec w s Hv Hs) as (Hx & _). unfold read_sector.
  apply read_sector_ok; [|done]. destruct Hg. unfold is_u32. lia.
Qed.

(** [w'] is [w] with the sectors changed by [f] (identity where nothing is written). *)
Definition changed (w w' : W) (f : Z -> bytes -> bytes) : Prop :=
  vol_ok w' /\ forall s, 0 <= s < total_sectors b -> sec w' s = f s (sec w s).

Lemma write_run w s data :
  vol_ok w -> 0 <= s < total_sectors b -> length data = 512%nat -> Forall is_byte data ->
  exists w', write_sector self s data w = (Ok tt, w')
    /\ changed w w' (fun s' x => if decide (s' = s) then data else x).
Proof.
  intros Hv Hs Hd Hb. destruct (vol_sec w s Hv Hs) as (Hx & _).
  assert (forall s', 0 <= s' < total_sectors b -> is_u32 s') as Hu by (destruct Hg; unfold is_u32; lia).
  destruct (write_sector_ok w dev s _ data (Hu s Hs) Hx Hd Hb) as (w' & Hw & Hs').
  exists w'. split; [done|]. split.
  - intros s' Hr. rewrite Hs' by auto. destruct (decide (s' = s)); [by eexists|by apply Hv].
  - intros s' Hr. unfold sec at 1. rewrite Hs' by auto. by destruct (decide (s' = s)).
Qed.

Lemma changed_trans w1 w2 w3 f g :
  changed w1 w2 f -> changed w2 w3 g -> changed w1 w3 (fun s x => g s (f s x)).
Proof. intros [_ H1] [Hv H2]. split; [done|]. intros s Hs. by rewrite H2, H1. Qed.

Lemma changed_id w : vol_ok w -> changed w w (fun _ x => x).
Proof. by split. Qed.

(** *** Where things are *)
Lemma fat_sector_range k c : 0 <= k < num_fats b -> 0 <= c < clusters b + 2 ->
  0 <= fat_sector k c < reserved_sectors b + num_fats b * sectors_per_fat b.
Proof.
  intros Hk Hc. unfold fat_sector. destruct Hg.
  assert (0 <= 4 * c / 512 < sectors_per_fat b) by (Z.div_mod_to_equations; lia). nia.
Qed.

Lemma fat_sector_inj k c k' c' :
  0 <= k < num_fats b -> 0 <= k' < num_fats b -> 0 <= c < clusters b + 2 -> 0 <= c' < clusters b + 2 ->
  fat_sector k c = fat_sector k' c' -> k = k' /\ 4 * c / 512 = 4 * c' / 512.
Proof.
  unfold fat_sector. intros Hk Hk' Hc Hc' He. destruct Hg.
  assert (0 <= 4 * c / 512 < sectors_per_fat b) by (Z.div_mod_to_equations; lia).
  assert (0 <= 4 * c' / 512 < sectors_per_fat b) by (Z.div_mod_to_equations; lia).
  assert (k = k') by nia. subst. lia.
Qed.

Lemma fat_off_range c : (fat_off c + 4 <= 512)%nat.
Proof. unfold fat_off. Z.div_mod_to_equations. lia. Qed.

Lemma fat_off_disjoint c c' : 4 * c / 512 = 4 * c' / 512 -> c ≠ c' ->
  (fat_off c' + 4 <= fat_off c \/ fat_off c + 4 <= fat_off c')%nat.
Proof. unfold fat_off. intros He Hne. Z.div_mod_to_equations. lia. Qed.

Lemma cluster_sector_range c i : is_cluster b c -> 0 <= i < sectors_per_cluster b ->
  reserved_sectors b + num_fats b * sectors_per_fat b <= cluster_sector c + i < total_sectors b.
Proof.
  unfold is_cluster, cluster_sector. intros Hc Hi. destruct Hg.
  assert (clusters b * sectors_per_cluster b <= total_sectors b - (reserved_sectors b + num_fats b * sectors_per_fat b)).
  { unfold clusters. rewrite Z.mul_comm. apply Z.mul_div_le. lia. }
  nia.
Qed.

Lemma cluster_sector_inj c i c' i' :
  0 <= i < sectors_per_cluster b -> 0 <= i' < sectors_per_cluster b ->
  cluster_sector c + i = cluster_sector c' + i' -> c = c' /\ i = i'.
Proof. unfold cluster_sector. intros Hi Hi' He. assert (c = c') by nia. subst. lia. Qed.

Lemma data_start_run : data_start_sector b = reserved_sectors b + num_fats b * sectors_per_fat b.
Proof. unfold data_start_sector. destruct Hg. rewrite (u32_small (num_fats b * _)) by nia. apply u32_small. nia. Qed.

Lemma cluster_sector_run c i : is_cluster b c -> 0 <= i < sectors_per_cluster b ->
  cluster_to_sector b c +w32 i = cluster_sector c + i.
Proof.
  intros Hc Hi. pose proof (cluster_sector_range c i Hc Hi) as Hr.
  pose proof (cluster_sector_range c 0 Hc ltac:(lia)) as Hr0. destruct Hg.
  unfold cluster_to_sector. rewrite data_start_run. unfold is_cluster, cluster_sector in *.
  assert (0 <= (c - 2) * sectors_per_cluster b < 2 ^ 32) by nia.
  rewrite (u32_small (c - 2)) by nia. rewrite (u32_small ((c - 2) * _)) by lia.
  rewrite (u32_small (reserved_sectors b + _ + _)) by nia. by rewrite u32_small by nia.
Qed.

Lemma cluster_size : bytes_per_cluster b = 512 * sectors_per_cluster b.
Proof. unfold bytes_per_cluster. by rewrite (g_bps _ Hg). Qed.

Lemma total_clusters_run {E} : total_clusters (E:=E) b = Ok (clusters b).
Proof.
  unfold total_clusters. pose proof (g_spc _ Hg). destruct (Z.eqb_spec (sectors_per_cluster b) 0); [lia|].
  rewrite data_start_run. destruct Hg. by rewrite u32_small by nia.
Qed.

Lemma clusters_nonneg : 0 <= clusters b.
Proof. destruct Hg. unfold clusters. apply Z.div_pos; lia. Qed.

(** ** The table *)
Lemma raw_range w k c : vol_ok w -> 0 <= k < num_fats b -> 0 <= c < clusters b + 2 -> 0 <= raw w k c < 2 ^ 32.
Proof.
  intros Hv Hk Hc. pose proof (fat_sector_range k c Hk Hc) as Hr.
  destruct (vol_sec w (fat_sector k c) Hv) as (_ & Hl & Hb); [destruct Hg; lia|].
  apply (le_at_range 4); [done|]. rewrite Hl. apply fat_off_range.
Qed.

Lemma fat_range w c : vol_ok w -> 0 <= c < clusters b + 2 -> 0 <= fat w c < 2 ^ 28.
Proof. intros Hv Hc. apply land_bound; lia. Qed.

Lemma fat_index c : 0 <= c < clusters b + 2 ->
  c *w32 4 = 4 * c /\ 0 <= 4 * c < 2 ^ 32 /\ Z.to_nat ((c *w32 4) mod SECTOR_SIZE) = fat_off c.
Proof.
  intros Hc. assert (0 <= 4 * c < 2 ^ 32) by (destruct Hg; unfold FAT32_BAD in *; lia).
  rewrite u32_small by lia. unfold fat_off, SECTOR_SIZE. rewrite (Z.mul_comm c). done.
Qed.

Lemma get_fat_entry_run w c :
  vol_ok w -> 0 <= c < clusters b + 2 -> get_fat_entry self c w = (Ok (fat w c), w).
Proof.
  intros Hv Hc. unfold get_fat_entry. destruct (fat_index c Hc) as (He & Hr & Ho). rewrite Ho, He.
  pose proof (fat_sector_range 0 c ltac:(destruct Hg; lia) Hc) as Hs. unfold fat_sector in Hs.
  unfold fat_start_sector, SECTOR_SIZE. rewrite u32_small by (destruct Hg; lia).
  rewrite (bind_ok _ _ _ _ _ (read_run w (reserved_sectors b + 4 * c / 512) Hv ltac:(destruct Hg; lia))).
  unfold fat, raw, fat_sector. by rewrite Z.mul_0_l, Z.add_0_r.
Qed.

(** The update of one sector of the table. *)
Definition put_entry (c v : Z) (x : bytes) : bytes :=
  splice x (fat_off c) (to_le 4 (merge (le_at 4 x (fat_off c)) v)).

Lemma put_entry_ok c v x : length x = 512%nat -> Forall is_byte x ->
  length (put_entry c v x) = 512%nat /\ Forall is_byte (put_entry c v x).
Proof.
  intros Hl Hb. pose proof (fat_off_range c). unfold put_entry. split.
  - rewrite length_splice; [done|]. rewrite length_to_le. lia.
  - apply splice_bytes; auto with vyper.
Qed.

(** Writing the copies [ks] of entry [c]. *)
Lemma set_copies w c v ks :
  vol_ok w -> 0 <= c < clusters b + 2 -> NoDup ks -> Forall (fun k => 0 <= k < num_fats b) ks ->
  exists w', for_each ks (fun fat_num =>
      let fat_sector := fat_start_sector b +w32 (fat_num *w32 sectors_per_fat b) +w32 (c *w32 4 / SECTOR_SIZE) in
      sector ← read_sector self fat_sector;
      let existing := le_at 4 sector (Z.to_nat ((c *w32 4) mod SECTOR_SIZE)) in
      let new_value := Z.lor (Z.land existing 0xF0000000) (Z.land v 0x0FFFFFFF) in
      write_sector self fat_sector (splice sector (Z.to_nat ((c *w32 4) mod SECTOR_SIZE)) (to_le 4 new_value))) w
    = (Ok tt, w')
    /\ changed w w' (fun s x => if decide (s ∈ (fun k => fat_sector k c) <$> ks) then put_entry c v x else x).
Proof.
  intros Hv Hc Hnd Hks. destruct (fat_index c Hc) as (He & Hr & Ho). rewrite Ho, He.
  revert w Hv Hnd. induction Hks as [|k ks Hk Hks IH]; intros w Hv Hnd.
  { exists w. split; [done|]. split; [done|]. intros s _. rewrite decide_False; [done|]. by intros ?%elem_of_nil. }
  cbn [for_each]. pose proof (fat_sector_range k c Hk Hc) as Hs.
  assert (fat_start_sector b +w32 (k *w32 sectors_per_fat b) +w32 (4 * c / SECTOR_SIZE) = fat_sector k c) as ->.
  { unfold fat_start_sector, fat_sector, SECTOR_SIZE in *. destruct Hg.
    assert (0 <= 4 * c / 512) by (Z.div_mod_to_equations; lia).
    assert (0 <= k * sectors_per_fat b) by nia.
    rewrite (u32_small (k * _)) by nia. rewrite (u32_small (reserved_sectors b + _)) by nia. by rewrite u32_small by nia. }
  assert (0 <= fat_sector k c < total_sectors b) as Hst by (destruct Hg; lia).
  destruct (vol_sec w _ Hv Hst) as (_ & Hl & Hb).
  destruct (put_entry_ok c v _ Hl Hb) as [Hpl Hpb].
  destruct (write_run w _ (put_entry c v (sec w (fat_sector k c))) Hv Hst Hpl Hpb) as (w1 & Hw & Hch).
  apply NoDup_cons in Hnd as [Hn Hnd]. pose proof Hch as [Hv1 _].
  destruct (IH w1 Hv1 Hnd) as (w2 & Hf & Hch2).
  exists w2. split.
  - erewrite bind_ok; [exact Hf|]. rewrite (bind_ok _ _ _ _ _ (read_run w _ Hv Hst)). exact Hw.
  - destruct (changed_trans _ _ _ _ _ Hch Hch2) as [Hv2 H2]. split; [done|]. intros s Hsr. rewrite H2 by done.
    rewrite fmap_cons. destruct (decide (s = fat_sector k c)) as [->|Hne].
    + rewrite (decide_True (P := _ ∈ _ :: _)) by by left. rewrite decide_False; [done|].
      intros (k' & Heq & Hk')%list_elem_of_fmap. rewrite Forall_forall in Hks.
      apply fat_sector_inj in Heq as [<- _]; auto.
    + destruct (decide (s ∈ (fun k => fat_sector k c) <$> ks)) as [Hin|Hin].
      * by rewrite decide_True by by right.
      * rewrite decide_False; [done|]. by intros [?|?]%elem_of_cons.
Qed.

(** [set_fat_entry] changes the 28 bits of one entry, in every copy. *)
Definition table_set (w w' : W) (c v : Z) : Prop :=
  vol_ok w'
  /\ (forall k c', 0 <= k < num_fats b -> 0 <= c' < clusters b + 2 ->
        raw w' k c' = if decide (c' = c) then merge (raw w k c) v else raw w k c')
  /\ (forall c', is_cluster b c' -> clus w' c' = clus w c').

Lemma set_fat_entry_run w c v :
  vol_ok w -> 0 <= c < clusters b + 2 ->
  exists w', set_fat_entry self c v w = (Ok tt, w') /\ table_set w w' c v.
Proof.
  intros Hv Hc. unfold set_fat_entry.
  destruct (set_copies w c v (seqZ 0 (num_fats b)) Hv Hc) as (w' & Hf & Hv' & Hch).
  { apply NoDup_seqZ. } { apply Forall_forall. intros k Hk%elem_of_seqZ. lia. }
  exists w'. split; [exact Hf|]. split; [done|]. split.
  - intros k c' Hk Hc'. unfold raw. pose proof (fat_sector_range k c' Hk Hc') as Hs.
    rewrite Hch by (destruct Hg; lia).
    destruct (vol_sec w (fat_sector k c') Hv) as (_ & Hl & Hb); [destruct Hg; lia|].
    destruct (decide (c' = c)) as [->|Hne].
    + rewrite decide_True. 2:{ apply list_elem_of_fmap. exists k. split; [done|]. apply elem_of_seqZ. lia. }
      unfold put_entry. apply le_at_splice_same; [rewrite Hl; apply fat_off_range|apply merge_range].
    + case_decide as Hin; [|done]. apply list_elem_of_fmap in Hin as (k' & Heq & Hk'%elem_of_seqZ).
      apply fat_sector_inj in Heq as [-> Heq]; [|lia..]. unfold put_entry.
      pose proof (fat_off_range c). pose proof (fat_off_range c').
      apply le_at_splice_other; rewrite ?length_to_le, ?Hl; [lia|lia|].
      by apply fat_off_disjoint; [|congruence].
  - intros c' Hc'. apply Forall_bind_ext, Forall_forall. intros i Hi%elem_of_seqZ.
    pose proof (cluster_sector_range c' i Hc' ltac:(lia)) as Hs. destruct Hg.
    rewrite Hch by lia. rewrite decide_False; [done|].
    intros (k & Heq & Hk%elem_of_seqZ)%list_elem_of_fmap.
    pose proof (fat_sector_range k c ltac:(lia) Hc). lia.
Qed.

Lemma table_set_fat w w' c v c' :
  table_set w w' c v -> 0 <= c' < clusters b + 2 ->
  fat w' c' = if decide (c' = c) then Z.land v 0x0FFFFFFF else fat w c'.
Proof.
  intros (_ & Hr & _) Hc'. unfold fat. rewrite Hr by (destruct Hg; lia). case_decide; [|done].
  subst. apply merge_value.
Qed.

(** ** Cluster contents *)
Lemma length_clus w c : vol_ok w -> is_cluster b c -> zlen (clus w c) = 512 * sectors_per_cluster b.
Proof.
  intros Hv Hc. unfold clus, zlen.
  assert (forall l, Forall (fun i => 0 <= i < sectors_per_cluster b) l ->
    length (l ≫= fun i => sec w (cluster_sector c + i)) = (512 * length l)%nat) as Hl.
  { induction 1 as [|i l Hi Hl IH]; [done|]. rewrite bind_cons, length_app, IH. cbn [length].
    destruct (vol_sec w (cluster_sector c + i) Hv) as (_ & -> & _); [|lia].
    pose proof (cluster_sector_range c i Hc Hi). destruct Hg. nia. }
  rewrite Hl by (apply Forall_forall; intros i Hi%elem_of_seqZ; lia). rewrite length_seqZ. destruct Hg. lia.
Qed.

Lemma clus_bytes w c : vol_ok w -> is_cluster b c -> Forall is_byte (clus w c).
Proof.
  intros Hv Hc. unfold clus. apply Forall_bind, Forall_forall. intros i Hi%elem_of_seqZ.
  apply vol_sec; [done|]. pose proof (cluster_sector_range c i Hc ltac:(lia)). destruct Hg. nia.
Qed.

(** Cluster [c] now holds [data]; the table and the other clusters are as before. *)
Definition cluster_set (w w' : W) (c : Z) (data : bytes) : Prop :=
  vol_ok w'
  /\ (forall k c', 0 <= k < num_fats b -> 0 <= c' < clusters b + 2 -> raw w' k c' = raw w k c')
  /\ (forall c', is_cluster b c' -> clus w' c' = if decide (c' = c) then data else clus w c').

(** Writing the first [n] sectors of a cluster, the pieces given by [f]. *)
Lemma write_sectors w c (f : Z -> bytes) l (guard : Z -> bool) :
  vol_ok w -> is_cluster b c -> NoDup l ->
  Forall (fun i => 0 <= i < sectors_per_cluster b /\ length (f i) = 512%nat /\ Forall is_byte (f i) /\ guard i = true) l ->
  exists w', for_each l (fun i => assert_or_panic (guard i) ;;
                write_sector self (cluster_to_sector b c +w32 i) (f i)) w = (Ok tt, w')
    /\ vol_ok w'
    /\ (forall s, 0 <= s < total_sectors b ->
          (forall i, i ∈ l -> s ≠ cluster_sector c + i) -> sec w' s = sec w s)
    /\ (forall i, i ∈ l -> sec w' (cluster_sector c + i) = f i).
Proof.
  intros Hv Hc Hnd Hl. revert w Hv Hnd. induction Hl as [|i l (Hi & Hfl & Hfb & Hgd) Hl IH]; intros w Hv Hnd.
  { exists w. split_and!; try done. by intros i ?%elem_of_nil. }
  apply NoDup_cons in Hnd as [Hn Hnd]. cbn [for_each]. rewrite Hgd. cbn [assert_or_panic].
  rewrite (cluster_sector_run c i Hc Hi).
  pose proof (cluster_sector_range c i Hc Hi) as Hs. assert (0 <= cluster_sector c + i < total_sectors b) as Hst by (destruct Hg; nia).
  destruct (write_run w _ (f i) Hv Hst Hfl Hfb) as (w1 & Hw & Hv1 & Hch).
  destruct (IH w1 Hv1 Hnd) as (w2 & Hf & Hv2 & Hout & Hin).
  exists w2. split_and!; [|done| |].
  - erewrite bind_ok; [exact Hf|]. rewrite bind_ret. exact Hw.
  - intros s Hsr Hne. rewrite Hout; [|done|intros j Hj; apply Hne; by right].
    rewrite Hch by done. rewrite decide_False; [done|]. apply Hne. by left.
  - intros j [->|Hj]%elem_of_cons; [|by apply Hin].
    rewrite Hout; [|done|].
    + rewrite Hch by done. by rewrite decide_True.
    + intros k Hk Heq. apply Hn. assert (i = k) as -> by lia. done.
Qed.

(** A whole cluster written sector by sector. *)
Lemma write_sectors_cluster w w' c data :
  vol_ok w -> is_cluster b c -> vol_ok w' -> zlen data = 512 * sectors_per_cluster b ->
  (forall s, 0 <= s < total_sectors b ->
     (forall i, i ∈ seqZ 0 (sectors_per_cluster b) -> s ≠ cluster_sector c + i) -> sec w' s = sec w s) ->
  (forall i, i ∈ seqZ 0 (sectors_per_cluster b) ->
     sec w' (cluster_sector c + i) = slice data (Z.to_nat (i * 512)) (Z.to_nat ((i + 1) * 512))) ->
  cluster_set w w' c data.
Proof.
  intros Hv Hc Hv' Hl Hout Hin. split; [done|]. split.
  - intros k c' Hk Hc'. unfold raw. pose proof (fat_sector_range k c' Hk Hc').
    rewrite Hout; [done|destruct Hg; lia|]. intros i Hi%elem_of_seqZ.
    pose proof (cluster_sector_range c i Hc ltac:(lia)). lia.
  - intros c' Hc'. case_decide as He; [subst|].
    + unfold clus. transitivity (seqZ 0 (sectors_per_cluster b) ≫= fun i => slice data (Z.to_nat (i * 512)) (Z.to_nat ((i + 1) * 512))).
      { apply Forall_bind_ext, Forall_forall. apply Hin. }
      assert (forall n, 0 <= n <= sectors_per_cluster b ->
        (seqZ 0 n ≫= fun i => slice data (Z.to_nat (i * 512)) (Z.to_nat ((i + 1) * 512))) = take (Z.to_nat (n * 512)) data) as Hcat.
      { intros n [Hn0 Hn]. revert Hn. pattern n. apply Zlt_0_ind; [|done]. clear n Hn0. intros n IH Hn0 Hn.
        destruct (Z.eq_dec n 0) as [->|]; [done|].
        replace n with (n - 1 + 1) at 1 by lia. rewrite seqZ_app by lia. rewrite bind_app, IH by lia.
        rewrite Z.add_0_l. replace (seqZ (n - 1) 1) with [n - 1] by (by rewrite seqZ_cons by lia).
        rewrite bind_cons, app_nil_r.
        unfold slice. replace (n - 1 + 1) with n by lia.
        replace (Z.to_nat (n * 512)) with (Z.to_nat ((n - 1) * 512) + 512)%nat by lia.
        rewrite <- take_take_drop. do 2 f_equal. lia. }
      rewrite Hcat by (destruct Hg; lia). apply take_ge. unfold zlen in Hl. lia.
    + apply Forall_bind_ext, Forall_forall. intros i Hi%elem_of_seqZ.
      pose proof (cluster_sector_range c' i Hc' ltac:(lia)). apply Hout; [destruct Hg; nia|].
      intros j Hj%elem_of_seqZ Heq. apply cluster_sector_inj in Heq as [? _]; [done|lia|lia].
Qed.

Lemma write_cluster_run w c buf :
  vol_ok w -> is_cluster b c -> zlen buf = 512 * sectors_per_cluster b -> Forall is_byte buf ->
  exists w', write_cluster self c buf w = (Ok tt, w') /\ cluster_set w w' c buf.
Proof.
  intros Hv Hc Hl Hb. unfold write_cluster. rewrite cluster_size by done.
  destruct (Z.ltb_spec (zlen buf) (512 * sectors_per_cluster b)); [lia|]. unfold SECTOR_SIZE.
  destruct (write_sectors w c (fun i => slice buf (Z.to_nat (i * 512)) (Z.to_nat ((i + 1) * 512)))
    (seqZ 0 (sectors_per_cluster b)) (fun i => (i + 1) * 512 <=? zlen buf) Hv Hc (NoDup_seqZ _ _)) as (w' & Hw & Hv' & Hout & Hin).
  { apply Forall_forall. intros i Hi%elem_of_seqZ. unfold zlen in *. split_and!; [lia|lia| | |].
    - rewrite length_slice; lia.
    - unfold slice. by apply Forall_take, Forall_drop.
    - apply Z.leb_le. lia. }
  exists w'. split; [exact Hw|]. by apply write_sectors_cluster.
Qed.

Lemma slice_replicate {A} (x : A) n i j : (i <= j)%nat -> (j <= n)%nat -> slice (replicate n x) i j = replicate (j - i) x.
Proof. intros. unfold slice. rewrite drop_replicate, take_replicate. f_equal. lia. Qed.

Definition zeros : bytes := replicate (Z.to_nat (512 * sectors_per_cluster b)) 0.

Lemma zero_cluster_run w c :
  vol_ok w -> is_cluster b c -> exists w', zero_cluster self c w = (Ok tt, w') /\ cluster_set w w' c zeros.
Proof.
  intros Hv Hc. unfold zero_cluster.
  destruct (write_sectors w c (fun _ => replicate 512 0) (seqZ 0 (sectors_per_cluster b)) (fun _ => true) Hv Hc (NoDup_seqZ _ _))
    as (w' & Hw & Hv' & Hout & Hin).
  { apply Forall_forall. intros i Hi%elem_of_seqZ. split_and!; [lia|lia|done| |done].
    apply Forall_replicate. split; lia. }
  exists w'. split.
  { rewrite <- Hw. apply (f_equal (fun g => g w)). apply (f_equal (for_each _)). done. }
  apply write_sectors_cluster; try done.
  - unfold zeros, zlen. rewrite length_replicate. destruct Hg. lia.
  - intros i Hi. rewrite Hin by done. apply elem_of_seqZ in Hi. unfold zeros.
    rewrite slice_replicate by lia. f_equal. lia.
Qed.

Lemma read_cluster_run w c buf :
  vol_ok w -> is_cluster b c -> zlen buf = 512 * sectors_per_cluster b ->
  read_cluster self c buf w = (Ok (clus w c), w).
Proof.
  intros Hv Hc Hl. unfold read_cluster. rewrite cluster_size by done.
  destruct (Z.ltb_spec (zlen buf) (512 * sectors_per_cluster b)); [lia|]. unfold SECTOR_SIZE, clus.
  assert (forall n m buf', 0 <= n -> 0 <= m -> n + m = sectors_per_cluster b -> zlen buf' = 512 * sectors_per_cluster b ->
    for_acc (seqZ n m) buf' (fun buf i => sector ← read_sector self (cluster_to_sector b c +w32 i);
      store buf (Z.to_nat (i * 512)) sector) w
    = (Ok (take (Z.to_nat (n * 512)) buf' ++ (seqZ n m ≫= fun i => sec w (cluster_sector c + i))), w)) as Hloop.
  { intros n m buf' Hn Hm. revert n buf' Hn. pattern m. apply Zlt_0_ind; [|done]. clear m Hm.
    intros m IH Hm n buf' Hn Hnm Hl'. destruct (Z.eq_dec m 0) as [->|Hm0].
    { cbn [seqZ for_acc]. change (seqZ n 0) with (@nil Z). cbn [for_acc mbind list_bind]. rewrite app_nil_r.
      rewrite take_ge by (unfold zlen in Hl'; lia). done. }
    rewrite seqZ_cons by lia. cbn [for_acc]. rewrite (cluster_sector_run c n Hc) by lia.
    pose proof (cluster_sector_range c n Hc ltac:(lia)) as Hs.
    assert (0 <= cluster_sector c + n < total_sectors b) as Hst by (destruct Hg; nia).
    destruct (vol_sec w _ Hv Hst) as (_ & Hls & _).
    rewrite bind_assoc. rewrite (bind_ok _ _ _ _ _ (read_run w _ Hv Hst)). unfold store. rewrite Hls.
    unfold zlen in Hl'.
    destruct (Nat.leb_spec (Z.to_nat (n * 512) + 512) (length buf')) as [Hle|]; [|lia]. rewrite bind_ret.
    rewrite IH; [|lia|lia|lia|unfold zlen; rewrite length_splice by (rewrite Hls; lia); lia].
    do 2 f_equal. rewrite bind_cons, app_assoc. f_equal.
    unfold splice. rewrite take_app_ge; rewrite length_take_le by lia; [|lia].
    f_equal. rewrite take_app_le by (rewrite Hls; lia). apply take_ge. rewrite Hls. lia. }
  rewrite (Hloop 0 (sectors_per_cluster b) buf); [done|lia|destruct Hg; lia|lia|done].
Qed.
End volume.
