(* ===== verification/FatChain.v ===== *)
(** * FatChain: allocation and cluster chains

    What the chain operations of [Fat32.v] do to the abstract volume of
    [FatVolume.v]: allocation takes the first free cluster, a chain is read,
    extended, rewritten and freed, and nothing else on the volume changes. *)
From Stdlib Require Import ZArith Lia.
From stdpp Require Import base numbers option list sets.
From S2P Require Import Prelude VfsTypes Block PartTable FatCodec Fat32 FatVolume.

Section chains.
Context {W D : Type} `{BlockDeviceLaws W D}.
Variable self : Fat32Inner D.
Abbreviation b := (fi_bpb self).
Hypothesis Hg : geom_wf b.
Implicit Types (w : W) (c : Z) (l : list Z).

Abbreviation fat := (fat self).
Abbreviation clus := (clus self).
Abbreviation vol_ok := (vol_ok self).
Abbreviation zeros := (zeros self).
Abbreviation is_cluster := (is_cluster b).

(** The end mark as it is stored. *)
Definition EOC : Z := 0x0FFFFFF8.

Definition is_free w c : Prop := is_cluster c /\ fat w c = 0.
#[export] Instance is_free_dec w c : Decision (is_free w c).
Proof. unfold is_free, FatVolume.is_cluster. apply _. Defined.

Definition free_count w : nat := length (filter (is_free w) (seqZ 2 (clusters b))).

(** Each cluster's table entry is the next of the list. *)
Fixpoint path w l : Prop :=
  match l with
  | x :: ((y :: _) as l') => fat w x = y /\ path w l'
  | _ => True
  end.

(** [l] is the chain of clusters from [c] to its end mark. *)
Definition chain w c l : Prop :=
  head l = Some c /\ Forall is_cluster l /\ path w l
  /\ exists z, last l = Some z /\ FAT32_EOC <= fat w z.

(** The contents of a chain. *)
Definition contents w l : bytes := l ≫= clus w.

Lemma is_cluster_bound c : is_cluster c -> 2 <= c < FAT32_BAD /\ 0 <= c < clusters b + 2.
Proof. unfold FatVolume.is_cluster. pose proof (g_max _ Hg). lia. Qed.

Lemma cluster_set_fat w w' c data c' :
  cluster_set self w w' c data -> 0 <= c' < clusters b + 2 -> fat w' c' = fat w c'.
Proof. intros (_ & Hr & _) Hc'. unfold FatVolume.fat. rewrite Hr; [done|destruct Hg; lia|done]. Qed.

Lemma chain_cons w c l :
  chain w c l -> exists l', l = c :: l' /\ is_cluster c /\
    ((l' = [] /\ FAT32_EOC <= fat w c) \/ (chain w (fat w c) l' /\ is_cluster (fat w c))).
Proof.
  intros (Hh & Hc & Hp & z & Hz & Hf). destruct l as [|x l]; [done|]. injection Hh as ->.
  apply Forall_cons in Hc as [Hx Hc]. exists l. do 2 (split; [done|]). destruct l as [|y l]; [left|right].
  - injection Hz as ->. done.
  - destruct Hp as [-> Hp]. split; [|by apply Forall_cons in Hc as [? _]].
    split; [done|]. split; [done|]. split; [done|]. by exists z.
Qed.

Lemma chain_app_cons w c l : is_cluster c -> chain w (fat w c) l -> chain w c (c :: l).
Proof.
  intros Hc (Hh & Hl & Hp & z & Hz & Hf). split; [done|]. split; [by constructor|].
  destruct l as [|y l]; [done|]. injection Hh as ->. split; [done|]. by exists z.
Qed.

Lemma chain_single w c : is_cluster c -> FAT32_EOC <= fat w c -> chain w c [c].
Proof. intros Hc He. split; [done|]. split; [by constructor|]. split; [done|]. by exists c. Qed.

Lemma chain_det w c l1 l2 : chain w c l1 -> chain w c l2 -> l1 = l2.
Proof.
  revert c l2. induction l1 as [|x l1 IH]; intros c l2 H1 H2; [by destruct H1|].
  destruct (chain_cons _ _ _ H1) as (l1' & [= -> ->] & Hc & Hn1).
  destruct (chain_cons _ _ _ H2) as (l2' & -> & _ & Hn2). f_equal.
  destruct Hn1 as [[-> He1]|[Hn1 Hi1]], Hn2 as [[-> He2]|[Hn2 Hi2]]; try done.
  - apply is_cluster_bound in Hi2. unfold FAT32_EOC, FAT32_BAD in *. lia.
  - apply is_cluster_bound in Hi1. unfold FAT32_EOC, FAT32_BAD in *. lia.
  - by eapply IH.
Qed.

Lemma chain_suffix w c l1 x l2 : chain w c (l1 ++ x :: l2) -> chain w x (x :: l2).
Proof.
  revert c. induction l1 as [|y l1 IH]; intros c Hc.
  - destruct (chain_cons _ _ _ Hc) as (l' & [= -> <-] & _). done.
  - destruct (chain_cons _ _ _ Hc) as (l' & [= -> <-] & _ & Hn).
    destruct Hn as [[? _]|[Hn _]]; [by destruct l1|by eapply IH].
Qed.

(** A chain that ends never visits a cluster twice. *)
Lemma chain_nodup w c l : chain w c l -> NoDup l.
Proof.
  revert c. induction l as [|x l IH]; intros c Hc; [constructor|].
  destruct (chain_cons _ _ _ Hc) as (l' & [= -> <-] & _ & Hn).
  destruct Hn as [[-> _]|[Hn _]]; [by apply NoDup_singleton|].
  apply NoDup_cons. split; [|by eapply IH]. intros (l1 & l2 & ->)%list_elem_of_split.
  pose proof (chain_suffix _ _ _ _ _ Hn) as Hs. pose proof (chain_det _ _ _ _ Hc Hs) as He.
  apply (f_equal length) in He. rewrite !length_cons, length_app in He. simpl in He. lia.
Qed.

Lemma chain_not_free w c l x : chain w c l -> x ∈ l -> fat w x ≠ 0.
Proof.
  intros Hc (l1 & l2 & ->)%list_elem_of_split. apply chain_suffix in Hc.
  destruct (chain_cons _ _ _ Hc) as (l' & _ & _ & [[_ He]|[_ Hi]]); [unfold FAT32_EOC in *; lia|].
  apply is_cluster_bound in Hi. lia.
Qed.

(** A chain depends only on the entries of its clusters. *)
Lemma chain_frame w w' c l : chain w c l -> (forall x, x ∈ l -> fat w' x = fat w x) -> chain w' c l.
Proof.
  revert c. induction l as [|y l IH]; intros c Hc Hf; [by destruct Hc|].
  destruct (chain_cons _ _ _ Hc) as (l' & [= -> <-] & Hi & Hn). assert (fat w' c = fat w c) as He by (apply Hf; by left).
  destruct Hn as [[-> Hn]|[Hn Hin]]; [apply chain_single; [done|lia]|].
  apply chain_app_cons; [done|]. rewrite He. apply IH; [done|]. intros x Hx. apply Hf. by right.
Qed.

Lemma contents_frame w w' l : (forall x, x ∈ l -> clus w' x = clus w x) -> contents w' l = contents w l.
Proof. intros Hf. apply Forall_bind_ext, Forall_forall. exact Hf. Qed.

(** ** Reading a chain *)
Lemma read_chain_loop fuel w c l data buf :
  vol_ok w -> chain w c l -> (length l < fuel)%nat -> zlen buf = 512 * sectors_per_cluster b ->
  loop fuel (fun '(data, cluster, buf) =>
    if negb (in_chain cluster) then mret (inr data)
    else
      buf ← read_cluster self cluster buf;
      next ← get_fat_entry self cluster;
      mret (inl (data ++ buf, next, buf))) (data, c, buf) w = (Ok (data ++ contents w l), w).
Proof.
  intros Hv. revert c l data buf. induction fuel as [|fuel IH]; intros c l data buf Hc Hl Hb; [lia|].
  destruct (chain_cons _ _ _ Hc) as (l' & -> & Hi & Hn). pose proof (is_cluster_bound c Hi) as [Hr Hr'].
  cbn [loop]. assert (in_chain c = true) as ->.
  { unfold in_chain, FAT32_EOC, FAT32_BAD in *. destruct (Z.leb_spec 2 c), (Z.ltb_spec c 0x0FFFFFF8); lia || done. }
  cbn [negb]. rewrite bind_assoc, (bind_ok _ _ _ _ _ (read_cluster_run self Hg w c buf Hv Hi Hb)).
  rewrite bind_assoc, (bind_ok _ _ _ _ _ (get_fat_entry_run self Hg w c Hv Hr')), bind_ret.
  unfold contents. rewrite bind_cons. fold (contents w l').
  destruct Hn as [[-> He]|[Hn _]].
  - destruct fuel as [|fuel]; [simpl in Hl; lia|]. cbn [loop].
    assert (in_chain (fat w c) = false) as ->.
    { unfold in_chain, FAT32_EOC in *. destruct (Z.ltb_spec (fat w c) 0x0FFFFFF8); [lia|]. by rewrite andb_false_r. }
    cbn [negb]. rewrite bind_ret. unfold contents. simpl. by rewrite app_nil_r.
  - rewrite IH with (l := l'); [|done|simpl in Hl; lia|by apply length_clus]. by rewrite <- app_assoc.
Qed.

Lemma read_chain_run fuel w c l :
  vol_ok w -> chain w c l -> (length l < fuel)%nat -> read_chain fuel self c w = (Ok (contents w l), w).
Proof.
  intros Hv Hc Hl. unfold read_chain. rewrite (read_chain_loop fuel w c l); try done.
  rewrite cluster_size by done. unfold zlen. rewrite length_replicate. destruct Hg. lia.
Qed.

Lemma get_last_cluster_run fuel w c l :
  vol_ok w -> chain w c l -> (length l <= fuel)%nat -> get_last_cluster fuel self c w = (Ok (default c (last l)), w).
Proof.
  intros Hv. unfold get_last_cluster. revert c l. induction fuel as [|fuel IH]; intros c l Hc Hl.
  { destruct (chain_cons _ _ _ Hc) as (l' & -> & _). simpl in Hl. lia. }
  destruct (chain_cons _ _ _ Hc) as (l' & -> & Hi & Hn). pose proof (is_cluster_bound c Hi) as [Hr Hr'].
  cbn [loop]. rewrite bind_assoc, (bind_ok _ _ _ _ _ (get_fat_entry_run self Hg w c Hv Hr')), bind_ret.
  destruct Hn as [[-> He]|[Hn Hin]].
  - by destruct (Z.leb_spec FAT32_EOC (fat w c)); [|lia].
  - apply is_cluster_bound in Hin as [Hin _]. destruct (Z.leb_spec FAT32_EOC (fat w c)); [unfold FAT32_EOC, FAT32_BAD in *; lia|].
    rewrite IH with (l := l'); [|done|simpl in Hl; lia].
    destruct (chain_cons _ _ _ Hn) as (l2 & -> & _). change (last (c :: fat w c :: l2)) with (last (fat w c :: l2)).
    destruct (last (fat w c :: l2)) eqn:Hlast; [done|]. by apply last_None in Hlast.
Qed.

(** ** Freeing a chain *)
Lemma free_chain_run fuel w c l :
  vol_ok w -> chain w c l -> (length l < fuel)%nat ->
  exists w', free_chain fuel self c w = (Ok tt, w') /\ vol_ok w'
    /\ (forall x, 0 <= x < clusters b + 2 -> fat w' x = if decide (x ∈ l) then 0 else fat w x)
    /\ (forall x, is_cluster x -> clus w' x = clus w x).
Proof.
  unfold free_chain. revert w c l. induction fuel as [|fuel IH]; intros w c l Hv Hc Hl; [lia|].
  pose proof (chain_nodup _ _ _ Hc) as Hnd.
  destruct (chain_cons _ _ _ Hc) as (l' & -> & Hi & Hn). pose proof (is_cluster_bound c Hi) as [Hr Hr'].
  cbn [loop]. assert (in_chain c = true) as ->.
  { unfold in_chain, FAT32_EOC, FAT32_BAD in *. destruct (Z.leb_spec 2 c), (Z.ltb_spec c 0x0FFFFFF8); lia || done. }
  rewrite bind_assoc, (bind_ok _ _ _ _ _ (get_fat_entry_run self Hg w c Hv Hr')), bind_assoc.
  destruct (set_fat_entry_run self Hg w c FAT32_FREE Hv Hr') as (w1 & Hs & Ht).
  rewrite (bind_ok _ _ _ _ _ Hs), bind_ret. pose proof Ht as (Hv1 & _ & Hcl).
  pose proof (fun x Hx => table_set_fat self Hg w w1 c FAT32_FREE x Ht Hx) as Hf1.
  apply NoDup_cons in Hnd as [Hn1 Hnd].
  destruct Hn as [[-> He]|[Hn _]].
  - destruct fuel as [|fuel]; [simpl in Hl; lia|]. exists w1. cbn [loop].
    assert (in_chain (fat w c) = false) as ->.
    { unfold in_chain, FAT32_EOC in *. destruct (Z.ltb_spec (fat w c) 0x0FFFFFF8); [lia|]. by rewrite andb_false_r. }
    rewrite bind_ret. split_and!; try done. intros x Hx. rewrite Hf1 by done.
    destruct (decide (x = c)) as [->|Hne]; [by rewrite decide_True by by left|].
    rewrite decide_False; [done|]. by intros ?%list_elem_of_singleton.
  - assert (chain w1 (fat w c) l') as Hc1.
    { eapply chain_frame; [done|]. intros x Hx. rewrite Hf1; [by rewrite decide_False by by intros ->|].
      destruct Hn as (_ & Hall & _). rewrite Forall_forall in Hall. by apply is_cluster_bound, Hall. }
    destruct (IH w1 _ l' Hv1 Hc1) as (w2 & Hrun & Hv2 & Hf2 & Hcl2); [simpl in Hl; lia|].
    exists w2. split; [exact Hrun|]. split; [done|]. split.
    + intros x Hx. rewrite Hf2, Hf1 by done. destruct (decide (x = c)) as [->|Hne].
      * rewrite (decide_True (P := _ ∈ _ :: _)) by by left. by case_decide.
      * destruct (decide (x ∈ l')); [by rewrite decide_True by by right|].
        rewrite decide_False; [done|]. by intros [?|?]%elem_of_cons.
    + intros x Hx. by rewrite Hcl2, Hcl.
Qed.

(** ** Allocation *)
Definition first_free w : option Z := snd <$> list_find (is_free w) (seqZ 2 (clusters b)).

(** [w'] is [w] with the free cluster [n] taken, zeroed, and marked end of chain. *)
Definition allocated w w' n : Prop :=
  vol_ok w'
  /\ (forall x, 0 <= x < clusters b + 2 -> fat w' x = if decide (x = n) then EOC else fat w x)
  /\ (forall x, is_cluster x -> clus w' x = if decide (x = n) then zeros else clus w x).

Lemma take_cluster w n :
  vol_ok w -> is_cluster n ->
  exists w', (set_fat_entry self n FAT32_EOC ;; zero_cluster self n ;; mret (Some n)) w = (Ok (Some n), w')
    /\ allocated w w' n.
Proof.
  intros Hv Hn. pose proof (is_cluster_bound n Hn) as [_ Hn'].
  destruct (set_fat_entry_run self Hg w n FAT32_EOC Hv Hn') as (w1 & Hs & Ht).
  pose proof Ht as (Hv1 & _ & Hcl1).
  destruct (zero_cluster_run self Hg w1 n Hv1 Hn) as (w2 & Hz & Hset). pose proof Hset as (Hv2 & _ & Hcl2).
  exists w2. rewrite (bind_ok _ _ _ _ _ Hs), (bind_ok _ _ _ _ _ Hz). split; [done|]. split; [done|]. split.
  - intros x Hx. rewrite (cluster_set_fat _ _ _ _ _ Hset Hx). rewrite (table_set_fat self Hg w w1 n _ x Ht Hx). done.
  - intros x Hx. rewrite Hcl2 by done. case_decide; [done|]. by apply Hcl1.
Qed.

Lemma allocate_loop w l :
  vol_ok w -> Forall is_cluster l ->
  match list_find (is_free w) l with
  | Some (_, n) => exists w', for_find l (fun cluster =>
        entry ← get_fat_entry self cluster;
        if entry =? FAT32_FREE then
          set_fat_entry self cluster FAT32_EOC ;;
          zero_cluster self cluster ;;
          mret (Some cluster)
        else mret None) w = (Ok (Some n), w') /\ allocated w w' n
  | None => for_find l (fun cluster =>
        entry ← get_fat_entry self cluster;
        if entry =? FAT32_FREE then
          set_fat_entry self cluster FAT32_EOC ;;
          zero_cluster self cluster ;;
          mret (Some cluster)
        else mret None) w = (Ok None, w)
  end.
Proof.
  intros Hv Hl. induction Hl as [|n l Hn Hl IH]; [done|]. cbn [list_find for_find].
  pose proof (is_cluster_bound n Hn) as [_ Hn'].
  rewrite bind_assoc, (bind_ok _ _ _ _ _ (get_fat_entry_run self Hg w n Hv Hn')).
  destruct (fat w n =? FAT32_FREE) eqn:He; unfold FAT32_FREE in He.
  - apply Z.eqb_eq in He. rewrite decide_True by done. destruct (take_cluster w n Hv Hn) as (w' & Hr & Ha).
    exists w'. by rewrite (bind_ok _ _ _ _ _ Hr).
  - apply Z.eqb_neq in He. rewrite decide_False by by intros [_ ?]. rewrite bind_ret.
    destruct (list_find (is_free w) l) as [[j m]|]; exact IH.
Qed.

Lemma all_clusters : Forall is_cluster (seqZ 2 (clusters b)).
Proof. apply Forall_forall. intros x Hx%elem_of_seqZ. unfold FatVolume.is_cluster. lia. Qed.

(** [allocate_cluster] takes the lowest free cluster, or fails and changes nothing. *)
Lemma allocate_cluster_run w :
  vol_ok w ->
  match first_free w with
  | Some n => exists w', allocate_cluster self w = (Ok n, w') /\ is_free w n /\ allocated w w' n
  | None => allocate_cluster self w = (Err (lit "no free clusters"), w)
  end.
Proof.
  intros Hv. unfold allocate_cluster, first_free. rewrite (total_clusters_run self Hg), bind_lift_ok.
  pose proof (clusters_nonneg self Hg). pose proof (g_max _ Hg). unfold FAT32_BAD in *.
  rewrite u32_small by lia. replace (clusters b + 2 - 2) with (clusters b) by lia.
  pose proof (allocate_loop w _ Hv all_clusters) as Hloop.
  destruct (list_find (is_free w) (seqZ 2 (clusters b))) as [[j n]|] eqn:Hf; cbn [fmap option_fmap option_map snd].
  - destruct Hloop as (w' & Hr & Ha). exists w'. rewrite (bind_ok _ _ _ _ _ Hr).
    split; [done|]. split; [|done]. by apply list_find_Some in Hf as (_ & ? & _).
  - by rewrite (bind_ok _ _ _ _ _ Hloop).
Qed.

Lemma free_count_pos w : (0 < free_count w)%nat -> is_Some (first_free w).
Proof.
  unfold free_count, first_free. intros Hp. destruct (list_find _ _) as [[j n]|] eqn:Hf; [by eexists|].
  apply list_find_None in Hf. exfalso. revert Hp.
  induction Hf as [|x l Hx Hl IH]; [simpl; lia|]. by rewrite filter_cons_False.
Qed.

(** Taking one cluster leaves one fewer free. *)
Lemma free_count_drop w w' n :
  is_free w n -> (forall x, is_cluster x -> is_free w' x <-> is_free w x /\ x ≠ n) ->
  free_count w = S (free_count w').
Proof.
  intros Hn Hiff. unfold free_count.
  assert (n ∈ seqZ 2 (clusters b)) as (l1 & l2 & Hl)%list_elem_of_split.
  { apply elem_of_seqZ. destruct Hn as [Hn _]. unfold FatVolume.is_cluster in Hn. lia. }
  pose proof (NoDup_seqZ 2 (clusters b)) as Hnd. pose proof all_clusters as Hall. rewrite Hl in *.
  rewrite !filter_app, !filter_cons. rewrite decide_True by done. rewrite decide_False.
  2:{ intros Hx. apply Hiff in Hx as [_ ?]; [done|]. by destruct Hn. }
  apply NoDup_app in Hnd as (_ & Hd & Hnd). apply NoDup_cons in Hnd as [Hn2 _].
  rewrite Forall_forall in Hall.
  rewrite (filter_ext_elem (is_free w') (is_free w) l1), (filter_ext_elem (is_free w') (is_free w) l2).
  - rewrite !length_app. simpl. lia.
  - intros x Hx. rewrite Hiff by (apply Hall; set_solver). split; [by intros [? _]|]. intros ?. split; [done|]. by intros ->.
  - intros x Hx. rewrite Hiff by (apply Hall; set_solver). split; [by intros [? _]|]. intros ?. split; [done|].
    intros ->. apply (Hd n); [done|by left].
Qed.

(** [extend_chain] links a fresh cluster after [last]. *)
Lemma extend_chain_run w c :
  vol_ok w -> is_cluster c -> fat w c ≠ 0 -> (0 < free_count w)%nat ->
  exists n w', extend_chain self c w = (Ok n, w') /\ vol_ok w' /\ is_free w n /\ n ≠ c
    /\ (forall x, 0 <= x < clusters b + 2 ->
          fat w' x = if decide (x = c) then n else if decide (x = n) then EOC else fat w x)
    /\ (forall x, is_cluster x -> clus w' x = if decide (x = n) then zeros else clus w x)
    /\ free_count w = S (free_count w').
Proof.
  intros Hv Hc Hf Hp. destruct (free_count_pos w Hp) as [n Hn].
  pose proof (allocate_cluster_run w Hv) as Ha. rewrite Hn in Ha. destruct Ha as (w1 & Hr & Hfr & Hv1 & Hf1 & Hc1).
  pose proof (is_cluster_bound c Hc) as [_ Hc']. pose proof Hfr as [Hni Hn0].
  pose proof (is_cluster_bound n Hni) as [Hnb Hnb'].
  assert (n ≠ c) as Hne by (intros ->; done).
  destruct (set_fat_entry_run self Hg w1 c n Hv1 Hc') as (w2 & Hs & Ht). pose proof Ht as (Hv2 & _ & Hc2).
  assert (forall x, 0 <= x < clusters b + 2 ->
    fat w2 x = if decide (x = c) then n else if decide (x = n) then EOC else fat w x) as Hf2.
  { intros x Hx. rewrite (table_set_fat self Hg w1 w2 c n x Ht Hx). case_decide; [|by apply Hf1].
    apply land28_small. unfold FAT32_BAD in *. lia. }
  exists n, w2. split_and!; try done.
  - unfold extend_chain. rewrite (bind_ok _ _ _ _ _ Hr), (bind_ok _ _ _ _ _ Hs). done.
  - intros x Hx. rewrite Hc2, Hc1 by done. done.
  - apply (free_count_drop w w2 n Hfr). intros x Hx. pose proof (is_cluster_bound x Hx) as [_ Hx'].
    unfold is_free. rewrite Hf2 by done. destruct (decide (x = c)) as [->|Hxc].
    + split; [intros [_ ?]; lia|]. by intros [[_ ?] _].
    + destruct (decide (x = n)) as [->|Hxn]; [|naive_solver]. split; [by intros [_ ?]|]. by intros [_ ?].
Qed.

(** A volume without free clusters makes [extend_chain] fail and stays as it is. *)
Lemma free_count_zero w : free_count w = 0%nat -> first_free w = None.
Proof.
  unfold free_count, first_free. intros Hz. destruct (list_find _ _) as [[j n]|] eqn:Hf; [|done].
  apply list_find_Some in Hf as (Hl & Hn & _). apply list_elem_of_lookup_2 in Hl.
  apply length_zero_iff_nil in Hz. assert (n ∈ filter (is_free w) (seqZ 2 (clusters b))) as Hin by by apply list_elem_of_filter.
  rewrite Hz in Hin. by apply elem_of_nil in Hin.
Qed.

Lemma allocate_cluster_full w :
  vol_ok w -> free_count w = 0%nat -> allocate_cluster self w = (Err (lit "no free clusters"), w).
Proof.
  intros Hv Hz. pose proof (allocate_cluster_run w Hv) as Ha. by rewrite (free_count_zero w Hz) in Ha.
Qed.

Lemma free_count_ext w w' :
  (forall x, is_cluster x -> fat w' x = fat w x) -> free_count w' = free_count w.
Proof.
  intros He. unfold free_count. f_equal. apply filter_ext_elem. intros x Hx%elem_of_seqZ.
  unfold is_free. split; intros [Hi Hf]; (split; [done|]); [rewrite <- He|rewrite He]; done.
Qed.

(** ** Writing a chain *)
Abbreviation cs := (512 * sectors_per_cluster b).

(** Piece [i] of the data, padded to a cluster. *)
Definition piece (data : bytes) (i : Z) : bytes :=
  vec_resize (slice data (Z.to_nat (i * cs)) (Z.to_nat (Z.min (i * cs + cs) (zlen data)))) (Z.to_nat cs) 0.

Lemma piece_ok data i : Forall is_byte data -> zlen (piece data i) = cs /\ Forall is_byte (piece data i).
Proof.
  intros Hb. unfold piece, zlen. rewrite length_vec_resize. split; [destruct Hg; lia|].
  unfold vec_resize. apply Forall_app. split; [unfold slice; auto using Forall_take, Forall_drop|].
  apply Forall_replicate. split; lia.
Qed.

(** One turn of the loop that is not the last: the piece is stored and the walk
    stands on the next cluster, a new one if the chain ended. *)
Definition stepped w w' c r data i next r' : Prop :=
  vol_ok w' /\ chain w' next r' /\ (c ∉ r') /\ fat w' c = next /\ clus w' c = piece data i
  /\ (r = c :: r' /\ free_count w' = free_count w
      \/ r = [c] /\ r' = [next] /\ is_free w next /\ free_count w = S (free_count w'))
  /\ (forall x, is_free w' x -> is_free w x)
  /\ (forall x, 0 <= x < clusters b + 2 -> x ≠ c -> x ≠ next -> fat w' x = fat w x)
  /\ (forall x, is_cluster x -> x ≠ c -> x ≠ next -> clus w' x = clus w x).

Lemma write_piece w c data i :
  vol_ok w -> is_cluster c -> Forall is_byte data ->
  exists w1, write_cluster self c (piece data i) w = (Ok tt, w1) /\ cluster_set self w w1 c (piece data i).
Proof.
  intros Hv Hc Hb. destruct (piece_ok data i Hb) as [Hl Hp].
  by apply (write_cluster_run self Hg).
Qed.

Lemma write_step_last w c data i :
  vol_ok w -> is_cluster c -> Forall is_byte data ->
  exists w1, write_step self data (i + 1) c i w = (Ok c, w1) /\ cluster_set self w w1 c (piece data i).
Proof.
  intros Hv Hc Hb. destruct (write_piece w c data i Hv Hc Hb) as (w1 & Hw & Hset).
  exists w1. split; [|done]. unfold write_step. rewrite (cluster_size self Hg). fold (piece data i).
  rewrite (bind_ok _ _ _ _ _ Hw). by rewrite Z.ltb_irrefl.
Qed.

Lemma write_step_run w c r data i needed :
  vol_ok w -> chain w c r -> Forall is_byte data -> i + 1 < needed ->
  if decide (r = [c] /\ free_count w = 0%nat)
  then exists w', write_step self data needed c i w = (Err (lit "no free clusters"), w') /\ vol_ok w'
  else exists next r' w', write_step self data needed c i w = (Ok next, w') /\ stepped w w' c r data i next r'.
Proof.
  intros Hv Hc Hb Hi. pose proof (chain_nodup _ _ _ Hc) as Hnd.
  destruct (chain_cons _ _ _ Hc) as (r' & -> & Hci & Hn). pose proof (is_cluster_bound c Hci) as [_ Hcr].
  destruct (write_piece w c data i Hv Hci Hb) as (w1 & Hw & Hset). pose proof Hset as (Hv1 & _ & Hc1).
  pose proof (fun x => cluster_set_fat w w1 c (piece data i) x Hset) as Hf1.
  assert (free_count w1 = free_count w) as Hfc.
  { apply free_count_ext. intros x Hx. by apply Hf1, is_cluster_bound. }
  assert (write_step self data needed c i w =
    (next ← get_fat_entry self c; if FAT32_EOC <=? next then extend_chain self c else mret next) w1) as ->.
  { unfold write_step. rewrite (cluster_size self Hg). fold (piece data i). rewrite (bind_ok _ _ _ _ _ Hw).
    by destruct (Z.ltb_spec (i + 1) needed); [|lia]. }
  rewrite (bind_ok _ _ _ _ _ (get_fat_entry_run self Hg w1 c Hv1 Hcr)), Hf1 by done.
  destruct Hn as [[-> He]|[Hn Hin]].
  - destruct (Z.leb_spec FAT32_EOC (fat w c)); [|lia].
    destruct (decide (free_count w = 0%nat)) as [Hz|Hz].
    + rewrite decide_True by done. exists w1. split; [|done]. unfold extend_chain.
      rewrite (bind_err _ _ _ _ _ (allocate_cluster_full w1 Hv1 ltac:(lia))). done.
    + rewrite decide_False by by intros [_ ?].
      destruct (extend_chain_run w1 c Hv1 Hci) as (n & w2 & Hr & Hv2 & Hfr & Hne & Hf2 & Hc2 & Hct);
        [rewrite Hf1 by done; unfold FAT32_EOC in *; lia|lia|].
      pose proof Hfr as [Hni Hn0]. pose proof (is_cluster_bound n Hni) as [Hnb Hnr].
      assert (is_free w n) as Hfrw by (split; [done|by rewrite <- Hf1]).
      exists n, [n], w2. split; [done|]. unfold stepped. split_and!; try done.
      * apply chain_single; [done|]. rewrite Hf2 by done. rewrite decide_False, decide_True by done. done.
      * by intros ?%list_elem_of_singleton.
      * rewrite Hf2 by done. by rewrite decide_True.
      * rewrite Hc2, Hc1 by done. by rewrite decide_False, decide_True.
      * right. split_and!; try done. lia.
      * intros x [Hxi Hxf]. pose proof (is_cluster_bound x Hxi) as [_ Hxr]. split; [done|].
        rewrite Hf2 in Hxf by done. rewrite <- Hf1 by done.
        destruct (decide (x = c)); [lia|]. by destruct (decide (x = n)).
      * intros x Hx Hxc Hxn. rewrite Hf2 by done. rewrite !decide_False by done. by apply Hf1.
      * intros x Hx Hxc Hxn. rewrite Hc2, Hc1 by done. by rewrite !decide_False.
  - apply is_cluster_bound in Hin as Hin'. destruct Hin' as [Hin' _].
    destruct (Z.leb_spec FAT32_EOC (fat w c)); [unfold FAT32_EOC, FAT32_BAD in *; lia|].
    rewrite decide_False. 2:{ intros [[= ->] _]. by destruct Hn. }
    apply NoDup_cons in Hnd as [Hcn Hnd].
    exists (fat w c), r', w1. split; [done|]. unfold stepped. split_and!; try done.
    + eapply chain_frame; [done|]. intros x Hx. apply Hf1. destruct Hn as (_ & Hall & _).
      rewrite Forall_forall in Hall. by apply is_cluster_bound, Hall.
    + by apply Hf1.
    + rewrite Hc1 by done. by rewrite decide_True.
    + by left.
    + intros x [Hxi Hxf]. split; [done|]. rewrite <- Hf1; [done|]. by apply is_cluster_bound.
    + intros x Hx _ _. by apply Hf1.
    + intros x Hx Hxc _. rewrite Hc1 by done. by rewrite decide_False.
Qed.

(** The chain after the loop: [m] clusters, those of [r] first and then free ones,
    holding the pieces from [i] on. *)
Definition written w w' r data i m l : Prop :=
  vol_ok w' /\ length l = m /\ Forall is_cluster l /\ NoDup l /\ path w' l
  /\ (exists new, l = take m r ++ new /\ Forall (is_free w) new)
  /\ contents w' l = (seqZ i (Z.of_nat m) ≫= piece data)
  /\ (forall x, 0 <= x < clusters b + 2 -> (x ∉ l) -> fat w' x = fat w x)
  /\ (forall x, is_cluster x -> (x ∉ l) -> clus w' x = clus w x).

Lemma path_cons w c l : path w l -> (forall y, head l = Some y -> fat w c = y) -> path w (c :: l).
Proof. destruct l as [|y l]; [done|]. intros Hp He. split; [by apply He|done]. Qed.

Lemma written_step w w1 w' c r data i next r' m l :
  chain w c r -> stepped w w1 c r data i next r' -> head l = Some next ->
  written w1 w' r' data (i + 1) m l -> (0 < m)%nat ->
  written w w' r data i (S m) (c :: l).
Proof.
  intros Hc (Hv1 & Hc1 & Hn & Hf & Hcl & Hcase & Hfr & Hff & Hcf) Hh
    (Hv' & Hl & Hall & Hnd & Hp & (new & Hnew & Hfree) & Hcon & Hf' & Hc') Hm.
  destruct (chain_cons _ _ _ Hc) as (r0 & Hr & Hci & _). pose proof (is_cluster_bound c Hci) as [_ Hcr].
  assert (is_cluster next) as Hni by (destruct (chain_cons _ _ _ Hc1) as (? & _ & ? & _); done).
  assert (c ∉ l) as Hcl'.
  { rewrite Hnew. intros [Hx%elem_of_take|Hx]%elem_of_app.
    - destruct Hx as (j & Hj & _). apply Hn. by eapply list_elem_of_lookup_2.
    - rewrite Forall_forall in Hfree. apply Hfree in Hx as [_ Hx]. apply is_cluster_bound in Hni. lia. }
  assert (Forall (is_free w) new) as Hfree' by (eapply Forall_impl; eauto).
  split; [done|]. split; [simpl; by rewrite Hl|]. split; [by constructor|]. split; [by constructor|]. split.
  { apply path_cons; [done|]. intros y Hy. rewrite Hh in Hy. injection Hy as <-. by rewrite Hf'. }
  split.
  { destruct Hcase as [[-> _]|(-> & -> & Hnf & _)].
    - exists new. simpl. by rewrite Hnew.
    - exists l. simpl. rewrite take_nil. split; [done|]. rewrite Hnew.
      destruct m as [|m]; [lia|]. simpl. rewrite take_nil. by constructor. }
  split.
  { unfold contents. rewrite bind_cons. fold (contents w' l). rewrite Hcon, Hc' by done. rewrite Hcl.
    rewrite (seqZ_cons i) by lia. rewrite bind_cons. do 3 f_equal; lia. }
  assert (next ∈ l) as Hnl by (destruct l; [done|]; injection Hh as ->; by left).
  split; intros x Hx Hxl; assert ((x ∉ l) /\ x ≠ c /\ x ≠ next) as (? & ? & ?) by set_solver.
  - rewrite Hf' by done. by apply Hff.
  - rewrite Hc' by done. by apply Hcf.
Qed.

Lemma write_loop m w c r data i :
  vol_ok w -> chain w c r -> Forall is_byte data -> (0 < m)%nat ->
  let run := for_acc (seqZ i (Z.of_nat m)) c (write_step self data (i + Z.of_nat m)) w in
  if decide (m <= length r + free_count w)%nat
  then exists l w', run = (Ok (default c (last l)), w') /\ head l = Some c /\ written w w' r data i m l
  else exists w', run = (Err (lit "no free clusters"), w') /\ vol_ok w'.
Proof.
  revert w c r i. induction m as [|m IH]; intros w c r i Hv Hc Hb Hm; [lia|]. cbn zeta.
  destruct (chain_cons _ _ _ Hc) as (r0 & Hr & Hci & _). rewrite (seqZ_cons i) by lia. cbn [for_acc].
  destruct (decide (m = 0%nat)) as [->|Hm0].
  - rewrite decide_True by (rewrite Hr; simpl; lia).
    destruct (write_step_last w c data i Hv Hci Hb) as (w1 & Hw & Hset). pose proof Hset as (Hv1 & _ & Hc1).
    exists [c], w1. rewrite (bind_ok _ _ _ _ _ Hw). split; [done|]. split; [done|].
    split_and!; try done.
    + by constructor.
    + by apply NoDup_singleton.
    + exists []. rewrite Hr. by split.
    + unfold contents. rewrite (seqZ_cons i) by lia. cbn. by rewrite Hc1, decide_True by done.
    + intros x Hx _. by eapply cluster_set_fat.
    + intros x Hx Hxl. rewrite Hc1 by done. rewrite decide_False; [done|]. by intros ->; destruct Hxl; left.
  - pose proof (write_step_run w c r data i (i + Z.of_nat (S m)) Hv Hc Hb ltac:(lia)) as Hstep.
    destruct (decide (r = [c] /\ free_count w = 0%nat)) as [[-> Hz]|Hnz].
    + rewrite decide_False by (simpl; lia). destruct Hstep as (w1 & Hw & Hv1). exists w1.
      by rewrite (bind_err _ _ _ _ _ Hw).
    + destruct Hstep as (next & r' & w1 & Hw & Hst). pose proof Hst as (Hv1 & Hc1 & _ & _ & _ & Hcase & _).
      rewrite (bind_ok _ _ _ _ _ Hw).
      assert (length r' + free_count w1 + 1 = length r + free_count w)%nat as Hcount.
      { destruct Hcase as [[-> ?]|(-> & -> & _ & ?)]; simpl; lia. }
      specialize (IH w1 next r' (i + 1) Hv1 Hc1 Hb ltac:(lia)). cbn zeta in IH.
      replace (i + 1 + Z.of_nat m) with (i + Z.of_nat (S m)) in IH by lia.
      replace (Z.pred (Z.of_nat (S m))) with (Z.of_nat m) by lia. change (Z.succ i) with (i + 1).
      destruct (decide (m <= length r' + free_count w1)%nat) as [Hle|Hle].
      * rewrite decide_True by lia. destruct IH as (l & w2 & Hrun & Hh & Hwr).
        exists (c :: l), w2. split; [|split; [done|eapply written_step; eauto; lia]].
        rewrite Hrun. do 2 f_equal. destruct l as [|y l]; [done|].
        change (last (c :: y :: l)) with (last (y :: l)). destruct (last (y :: l)) eqn:Hlast; [done|].
        by apply last_None in Hlast.
      * rewrite decide_False by lia. exact IH.
Qed.

(** The clusters a file of this size takes. *)
Definition needed (data : bytes) : Z := (zlen data + cs - 1) / cs.

Lemma needed_pos data : data ≠ [] -> 0 < needed data /\ (needed data - 1) * cs < zlen data <= needed data * cs.
Proof.
  intros Hd. assert (0 < zlen data) by (destruct data; [done|unfold zlen; simpl; lia]).
  pose proof (g_spc _ Hg). unfold needed.
  assert (0 < cs) by lia. set (c := cs) in *. Z.div_mod_to_equations. nia.
Qed.

(** The pieces, put together: the data followed by zeros. *)
Lemma pieces_data data n : 0 <= n -> n * cs <= zlen data + cs - 1 ->
  (seqZ 0 n ≫= piece data) = vec_resize data (Z.to_nat (n * cs)) 0.
Proof.
  intros Hn. pattern n. apply Zlt_0_ind; [|done]. clear n Hn. intros n IH Hn Hle. pose proof (g_spc _ Hg).
  destruct (Z.eq_dec n 0) as [->|].
  { unfold vec_resize. simpl. done. }
  replace n with (n - 1 + 1) at 1 by lia. rewrite seqZ_app by lia. rewrite bind_app, IH by lia.
  rewrite Z.add_0_l. replace (seqZ (n - 1) 1) with [n - 1] by (by rewrite seqZ_cons by lia).
  rewrite bind_cons, app_nil_r. unfold piece, zlen in *. set (k := Z.to_nat ((n - 1) * cs)).
  assert (k <= length data)%nat by (unfold k; lia). assert (0 <= (n - 1) * cs) by nia.
  replace (Z.to_nat (n * cs)) with (k + Z.to_nat cs)%nat by (unfold k; lia). rewrite vec_resize_grow by done.
  f_equal; [|f_equal; f_equal; unfold k; lia].
  unfold vec_resize. replace (k - length data)%nat with 0%nat by lia. apply app_nil_r.
Qed.

(** Sealing the last cluster of a walk makes it a chain. *)
Lemma path_seal w w' c z v l :
  head l = Some c -> Forall is_cluster l -> NoDup l -> path w l -> last l = Some z ->
  (forall x, is_cluster x -> fat w' x = if decide (x = z) then v else fat w x) -> FAT32_EOC <= v ->
  chain w' c l.
Proof.
  intros Hh Hall Hnd Hp Hz Hf He. split; [done|]. split; [done|]. split.
  2:{ exists z. split; [done|]. rewrite Hf; [by rewrite decide_True|]. rewrite Forall_forall in Hall.
      apply Hall. by apply last_Some_elem_of. }
  clear Hh. induction l as [|x l IH]; [done|]. destruct l as [|y l]; [done|].
  destruct Hp as [Hx Hp]. apply NoDup_cons in Hnd as [Hxn Hnd]. apply Forall_cons in Hall as [Hxc Hall].
  change (last (x :: y :: l)) with (last (y :: l)) in Hz. split; [|by apply IH].
  rewrite Hf by done. rewrite decide_False; [done|]. intros ->. apply Hxn. by apply last_Some_elem_of.
Qed.

(** What [write_chain] leaves behind: the chain [l] from [first] holds the data
    padded with zeros; it reuses [r] and then takes free clusters, and no other
    cluster changed. *)
Definition rewritten w w' r data first l : Prop :=
  vol_ok w' /\ chain w' first l /\ zlen l = needed data
  /\ (exists new, l = take (Z.to_nat (needed data)) r ++ new /\ Forall (is_free w) new)
  /\ contents w' l = data ++ replicate (Z.to_nat (needed data * cs - zlen data)) 0
  /\ (forall x, is_cluster x -> (x ∉ l) -> fat w' x = fat w x /\ clus w' x = clus w x).

Lemma write_chain_tail w c r data :
  vol_ok w -> chain w c r -> data ≠ [] -> Forall is_byte data ->
  let run := (cluster ← for_acc (seqZ 0 (needed data)) c (write_step self data (needed data));
    set_fat_entry self cluster FAT32_EOC ;; get_fat_entry self cluster ;; mret c) w in
  if decide (needed data <= zlen r + Z.of_nat (free_count w))
  then exists l w', run = (Ok c, w') /\ rewritten w w' r data c l
  else exists w', run = (Err (lit "no free clusters"), w') /\ vol_ok w'.
Proof.
  intros Hv Hc Hd Hb run. destruct (needed_pos data Hd) as [Hn Hnl].
  pose proof (write_loop (Z.to_nat (needed data)) w c r data 0 Hv Hc Hb ltac:(lia)) as Hloop. cbn zeta in Hloop.
  rewrite Z2Nat.id, Z.add_0_l in Hloop by lia. unfold zlen.
  destruct (decide (Z.to_nat (needed data) <= length r + free_count w)%nat) as [Hle|Hle].
  - rewrite decide_True by lia. destruct Hloop as (l & w1 & Hrun & Hh & Hv1 & Hl & Hall & Hnd & Hp & Hnew & Hcon & Hf & Hcl).
    assert (is_Some (last l)) as [z Hz] by (destruct l using rev_ind; [done|]; rewrite last_snoc; by eexists).
    assert (is_cluster z) as Hzi by (rewrite Forall_forall in Hall; apply Hall; by apply last_Some_elem_of).
    pose proof (is_cluster_bound z Hzi) as [_ Hzr].
    destruct (set_fat_entry_run self Hg w1 z FAT32_EOC Hv1 Hzr) as (w2 & Hs & Ht). pose proof Ht as (Hv2 & _ & Hcl2).
    assert (forall x, is_cluster x -> fat w2 x = if decide (x = z) then EOC else fat w1 x) as Hf2.
    { intros x Hx. apply is_cluster_bound in Hx as [_ Hx]. exact (table_set_fat self Hg w1 w2 z _ x Ht Hx). }
    exists l, w2. split.
    { unfold run. rewrite Hz in Hrun. rewrite (bind_ok _ _ _ _ _ Hrun). cbn [default].
      rewrite (bind_ok _ _ _ _ _ Hs). by rewrite (bind_ok _ _ _ _ _ (get_fat_entry_run self Hg w2 z Hv2 Hzr)). }
    assert (z ∈ l) as Hzl by by apply last_Some_elem_of.
    split; [done|]. split; [by apply (path_seal w1 w2 c z EOC)|]. split; [unfold zlen; lia|]. split; [done|]. split.
    + rewrite (contents_frame w1 w2). 2:{ rewrite Forall_forall in Hall. auto. }
      rewrite Hcon, Z2Nat.id by lia. rewrite pieces_data by lia. unfold vec_resize, zlen in *.
      rewrite take_ge by lia. do 2 f_equal. lia.
    + intros x Hx Hxl. rewrite Hf2, Hcl2 by done. pose proof (is_cluster_bound x Hx) as [_ Hxr].
      rewrite decide_False by by intros ->. auto.
  - rewrite decide_False by lia. destruct Hloop as (w1 & Hrun & Hv1). exists w1. unfold run.
    by rewrite (bind_err _ _ _ _ _ Hrun).
Qed.

Lemma write_chain_run w start r data :
  vol_ok w -> (start < 2 /\ r = []) \/ chain w start r -> data ≠ [] -> Forall is_byte data ->
  if decide (needed data <= zlen r + Z.of_nat (free_count w))
  then exists first l w', write_chain self start data w = (Ok first, w')
         /\ rewritten w w' r data first l /\ (2 <= start -> first = start)
  else exists w', write_chain self start data w = (Err (lit "no free clusters"), w') /\ vol_ok w'.
Proof.
  intros Hv Hstart Hd Hb. destruct (needed_pos data Hd) as [Hn Hnl].
  unfold write_chain. rewrite (cluster_size self Hg). fold (needed data).
  destruct (Z.eqb_spec cs 0) as [?|_]; [pose proof (g_spc _ Hg); lia|]. destruct (Z.eqb_spec (needed data) 0) as [?|_]; [lia|].
  cbn [negb assert_or_panic]. rewrite bind_ret. destruct Hstart as [[Hs ->]|Hc].
  - destruct (Z.ltb_spec start 2); [|lia]. destruct (decide (free_count w = 0%nat)) as [Hz|Hz].
    + rewrite decide_False by (unfold zlen; simpl; lia). exists w.
      by rewrite (bind_err _ _ _ _ _ (allocate_cluster_full w Hv Hz)).
    + destruct (free_count_pos w ltac:(lia)) as [n Hfn]. pose proof (allocate_cluster_run w Hv) as Ha. rewrite Hfn in Ha.
      destruct Ha as (w1 & Hr & Hfr & Hv1 & Hf1 & Hc1). rewrite (bind_ok _ _ _ _ _ Hr).
      pose proof Hfr as [Hni Hn0]. pose proof (is_cluster_bound n Hni) as [_ Hnr].
      assert (chain w1 n [n]) as Hch by (apply chain_single; [done|]; rewrite Hf1 by done; by rewrite decide_True).
      assert (forall x, is_free w1 x -> is_free w x /\ x ≠ n) as Hdrop.
      { intros x [Hxi Hx]. pose proof (is_cluster_bound x Hxi) as [_ Hxr]. rewrite Hf1 in Hx by done.
        destruct (decide (x = n)); [done|]. by split. }
      assert (free_count w = S (free_count w1)) as Hct.
      { apply (free_count_drop w w1 n Hfr). intros x Hxi. split; [apply Hdrop|]. intros [[_ Hx] Hxn]. split; [done|].
        rewrite Hf1 by by apply is_cluster_bound. by rewrite decide_False. }
      pose proof (write_chain_tail w1 n [n] data Hv1 Hch Hd Hb) as Htail. cbn zeta in Htail.
      assert (zlen (@nil Z) = 0 /\ zlen [n] = 1) as [Hz0 Hz1] by done.
      destruct (decide (needed data <= zlen [n] + Z.of_nat (free_count w1))) as [Hle|Hle].
      * rewrite decide_True by lia. destruct Htail as (l & w2 & Hrun & Hv2 & Hch2 & Hl & (new & Hnew & Hfree) & Hcon & Hfr2).
        exists n, l, w2. split; [exact Hrun|]. split; [|lia]. split_and!; try done.
        -- exists l. rewrite take_nil. split; [done|]. rewrite Hnew. apply Forall_app. split.
           ++ apply Forall_take. by constructor.
           ++ eapply Forall_impl; [exact Hfree|]. intros x Hx. by apply Hdrop.
        -- intros x Hx Hxl. destruct (Hfr2 x Hx Hxl) as [-> ->]. destruct (chain_cons _ _ _ Hch2) as (l' & -> & _).
           assert (x ≠ n) by set_solver. rewrite Hf1, Hc1 by (done || by apply is_cluster_bound). by rewrite !decide_False.
      * rewrite decide_False by lia. exact Htail.
  - destruct (chain_cons _ _ _ Hc) as (l' & Hr & Hci & _). pose proof (is_cluster_bound start Hci) as [Hs _].
    destruct (Z.ltb_spec start 2); [lia|]. rewrite bind_ret.
    pose proof (write_chain_tail w start r data Hv Hc Hd Hb) as Htail. cbn zeta in Htail.
    destruct (decide (needed data <= zlen r + Z.of_nat (free_count w))) as [Hle|Hle]; [|exact Htail].
    destruct Htail as (l & w' & Hrun & Hrw). by exists start, l, w'.
Qed.
End chains.

(** ** What the chain operations promise *)
Section promises.
Context {W D : Type} `{BlockDeviceLaws W D}.
Variable self : Fat32Inner D.
Hypothesis Hg : geom_wf (fi_bpb self).

(** Chains that share no cluster with [l] are where they were. *)
Definition others_kept (w w' : W) (l : list Z) : Prop :=
  forall c l0, chain self w c l0 -> (forall x, x ∈ l0 -> x ∉ l) ->
    chain self w' c l0 /\ contents self w' l0 = contents self w l0.

Lemma others_kept_frame w w' (l touched : list Z) :
  (forall x, x ∈ touched -> x ∈ l \/ fat self w x = 0) ->
  (forall x, is_cluster (fi_bpb self) x -> (x ∉ touched) -> fat self w' x = fat self w x /\ clus self w' x = clus self w x) ->
  others_kept w w' l.
Proof.
  intros Ht Hf c l0 Hc Hd. assert (forall x, x ∈ l0 -> is_cluster (fi_bpb self) x /\ x ∉ touched) as Hx.
  { intros x Hx. split.
    - destruct Hc as (_ & Hall & _). rewrite Forall_forall in Hall. by apply Hall.
    - intros Hin. destruct (Ht x Hin) as [?|Hz]; [by apply (Hd x)|]. by apply (chain_not_free self Hg w c l0 x). }
  split.
  - eapply chain_frame; [done..|]. intros x Hin. apply Hf; by apply Hx.
  - apply contents_frame. intros x Hin. apply Hf; by apply Hx.
Qed.

(** C10: Writing a file and reading it back.  [write_chain] from a file without
    clusters, or from the chain [r] of one, succeeds exactly when the clusters
    of [r] and the free ones are enough; then [read_chain] from the cluster it
    returns yields the data padded with zeros to whole clusters, the first
    cluster of an existing chain is kept, and every other chain of the volume
    keeps its clusters and contents.  Otherwise the error is "no free clusters". *)
Theorem write_read_chain fuel w start r data :
  vol_ok self w -> (start < 2 /\ r = []) \/ chain self w start r ->
  data ≠ [] -> Forall is_byte data -> needed self data < Z.of_nat fuel ->
  if decide (needed self data <= zlen r + Z.of_nat (free_count self w))
  then exists first w', write_chain self start data w = (Ok first, w')
    /\ read_chain fuel self first w'
       = (Ok (data ++ replicate (Z.to_nat (needed self data * bytes_per_cluster (fi_bpb self) - zlen data)) 0), w')
    /\ (2 <= start -> first = start) /\ others_kept w w' r
  else (write_chain self start data w).1 = Err (lit "no free clusters").
Proof.
  intros Hv Hs Hd Hb Hfuel. pose proof (write_chain_run self Hg w start r data Hv Hs Hd Hb) as Hrun.
  case_decide as Hle; [|by destruct Hrun as (w' & -> & _)].
  destruct Hrun as (first & l & w' & Hw & (Hv' & Hc & Hl & (new & Hnew & Hfree) & Hcon & Hfr) & Hfirst).
  exists first, w'. split; [done|]. split; [|split; [done|]].
  - rewrite (read_chain_run self Hg fuel w' first l Hv' Hc) by (unfold zlen in Hl; lia).
    by rewrite Hcon, (cluster_size self Hg).
  - apply (others_kept_frame _ _ _ l); [|done]. intros x Hx. rewrite Hnew in Hx.
    apply elem_of_app in Hx as [Hx|Hx].
    + left. apply elem_of_take in Hx as (j & Hj & _). by eapply list_elem_of_lookup_2.
    + right. rewrite Forall_forall in Hfree. by apply Hfree.
Qed.

Lemma free_count_grow w w' l :
  NoDup l -> Forall (is_cluster (fi_bpb self)) l -> (forall x, x ∈ l -> fat self w x ≠ 0) ->
  (forall x, is_cluster (fi_bpb self) x -> fat self w' x = if decide (x ∈ l) then 0 else fat self w x) ->
  free_count self w' = (free_count self w + length l)%nat.
Proof.
  intros Hnd Hl Hn Hf. unfold free_count. rewrite <- length_app. apply Permutation_length, NoDup_Permutation.
  - apply NoDup_filter, NoDup_seqZ.
  - apply NoDup_app. split; [apply NoDup_filter, NoDup_seqZ|]. split; [|done].
    intros x [[_ Hx] _]%list_elem_of_filter Hin. by apply (Hn x).
  - intros x. rewrite elem_of_app, !list_elem_of_filter, elem_of_seqZ. unfold is_free.
    rewrite Forall_forall in Hl. split.
    + intros [[Hi Hx] Hr]. rewrite Hf in Hx by done. case_decide; [by right|]. by left.
    + intros [[[Hi Hx] Hr]|Hx].
      * split; [split; [done|]|done]. rewrite Hf by done. by case_decide.
      * specialize (Hl x Hx). split; [split; [done|]|unfold is_cluster in Hl; lia].
        rewrite Hf by done. by rewrite decide_True.
Qed.

(** C33: [free_chain] terminates on every chain that ends, gives exactly its
    clusters back to the free ones, and leaves every other chain and all
    cluster contents as they were. *)
Theorem free_chain_spec fuel w c l :
  vol_ok self w -> chain self w c l -> (length l < fuel)%nat ->
  exists w', free_chain fuel self c w = (Ok tt, w') /\ vol_ok self w'
    /\ (forall x, is_free self w' x <-> is_free self w x \/ x ∈ l)
    /\ free_count self w' = (free_count self w + length l)%nat
    /\ others_kept w w' l.
Proof.
  intros Hv Hc Hl. destruct (free_chain_run self Hg fuel w c l Hv Hc Hl) as (w' & Hr & Hv' & Hf & Hcl).
  pose proof Hc as (_ & Hall & _).
  assert (forall x, is_cluster (fi_bpb self) x -> fat self w' x = if decide (x ∈ l) then 0 else fat self w x) as Hf'.
  { intros x Hx. apply Hf. by apply (is_cluster_bound self Hg). }
  exists w'. split; [done|]. split; [done|]. split; [|split].
  - intros x. unfold is_free. rewrite Forall_forall in Hall. split.
    + intros [Hi Hx]. rewrite Hf' in Hx by done. case_decide; [by right|by left].
    + intros [[Hi Hx]|Hx]; [split; [done|]; rewrite Hf' by done; by case_decide|].
      split; [by apply Hall|]. rewrite Hf' by by apply Hall. by rewrite decide_True.
  - apply free_count_grow; [by eapply chain_nodup|done| |done]. intros x Hx. by eapply chain_not_free.
  - apply (others_kept_frame _ _ _ l); [by left|]. intros x Hx Hxl. rewrite Hf', Hcl by done. by rewrite decide_False.
Qed.

(** [allocate_cluster] takes the lowest free cluster, zeroes it and marks it
    the end of a chain, so that it is a chain of its own and every existing
    chain is kept; it fails exactly when no cluster is free, and then
    nothing has changed. *)
Theorem allocate_cluster_spec w :
  vol_ok self w ->
  (exists n w', allocate_cluster self w = (Ok n, w') /\ vol_ok self w'
     /\ is_free self w n /\ (forall x, is_free self w x -> n <= x)
     /\ chain self w' n [n] /\ contents self w' [n] = replicate (Z.to_nat (bytes_per_cluster (fi_bpb self))) 0
     /\ free_count self w = S (free_count self w') /\ others_kept w w' [])
  \/ (allocate_cluster self w = (Err (lit "no free clusters"), w) /\ forall x, ~ is_free self w x).
Proof.
  intros Hv. pose proof (allocate_cluster_run self Hg w Hv) as Ha. unfold first_free in Ha.
  destruct (list_find _ _) as [[j n]|] eqn:Hfind; cbn [fmap option_fmap option_map snd] in Ha.
  - left. destruct Ha as (w' & Hr & Hfr & Hv' & Hf & Hc). exists n, w'.
    pose proof Hfr as [Hni Hn0]. pose proof (is_cluster_bound self Hg n Hni) as [_ Hnr].
    split; [done|]. split; [done|]. split; [done|]. split_and!.
    + intros x Hx. apply list_find_Some in Hfind as (Hj & _ & Hlt). apply lookup_seqZ in Hj as [-> Hj].
      destruct (Z.le_gt_cases (2 + Z.of_nat j) x) as [|Hxj]; [done|]. exfalso.
      pose proof Hx as [Hxi _]. unfold is_cluster in Hxi.
      apply (Hlt (Z.to_nat (x - 2)) x); [apply lookup_seqZ; lia|lia|done].
    + apply chain_single; [done|]. rewrite Hf by done. by rewrite decide_True.
    + unfold contents. simpl. rewrite app_nil_r, Hc by done. rewrite decide_True by done. unfold zeros.
      by rewrite (cluster_size self Hg).
    + apply (free_count_drop self Hg w w' n Hfr). intros x Hxi. pose proof (is_cluster_bound self Hg x Hxi) as [_ Hxr].
      unfold is_free. rewrite Hf by done. destruct (decide (x = n)) as [->|Hxn]; [|naive_solver].
      split; [by intros [_ ?]|by intros [_ ?]].
    + apply (others_kept_frame _ _ _ [n]); [intros x ->%list_elem_of_singleton; by right|].
      intros x Hx Hxn. assert (x ≠ n) by set_solver.
      rewrite Hf, Hc by (done || by apply (is_cluster_bound self Hg)). by rewrite !decide_False.
  - right. split; [done|]. intros x Hx. apply list_find_None in Hfind. rewrite Forall_forall in Hfind.
    apply (Hfind x); [|done]. destruct Hx as [Hx _]. unfold is_cluster in Hx. apply elem_of_seqZ. lia.
Qed.
(** A file that shrinks keeps its old clusters allocated.  When the new
    data needs fewer clusters than the chain [r] has, [write_chain] succeeds,
    but the rest of [r] neither belongs to the new chain nor becomes free, so
    the number of free clusters does not grow. *)
Theorem write_chain_shrink_leaks w start r data :
  vol_ok self w -> chain self w start r -> data ≠ [] -> Forall is_byte data -> needed self data < zlen r ->
  exists w' l, write_chain self start data w = (Ok start, w') /\ chain self w' start l
    /\ (forall x, x ∈ drop (Z.to_nat (needed self data)) r -> ~ is_free self w' x /\ x ∉ l).
Proof.
  intros Hv Hc Hd Hb Hlt. destruct (needed_pos self Hg data Hd) as [Hn _].
  pose proof (write_chain_run self Hg w start r data Hv (or_intror Hc) Hd Hb) as Hrun.
  rewrite decide_True in Hrun by lia.
  destruct Hrun as (first & l & w' & Hw & (Hv' & Hc' & Hl & (new & Hnew & Hfree) & Hcon & Hfr) & Hfirst).
  assert (2 <= start) as H2 by (destruct (chain_cons self w start r Hc) as (? & _ & Hi & _); apply (is_cluster_bound self Hg) in Hi; lia).
  rewrite (Hfirst H2) in *. exists w', l. split; [done|]. split; [done|]. intros x Hx.
  pose proof (chain_nodup self Hg w start r Hc) as Hnd. pose proof Hc as (_ & Hall & _).
  assert (x ∉ l) as Hxl.
  { assert (new = []) as ->.
    { apply (f_equal length) in Hnew. rewrite length_app, length_take in Hnew. unfold zlen in *. destruct new; [done|simpl in *; lia]. }
    rewrite app_nil_r in Hnew. rewrite <- (take_drop (Z.to_nat (needed self data)) r), <- Hnew in Hnd.
    apply NoDup_app in Hnd as (_ & Hdis & _). intros Hxl. by apply (Hdis x). }
  assert (x ∈ r) as Hxr by (rewrite <- (take_drop (Z.to_nat (needed self data)) r); apply elem_of_app; by right).
  split; [|done]. intros [Hxi Hx0]. destruct (Hfr x Hxi Hxl) as [Hf _].
  apply (chain_not_free self Hg w start r x Hc Hxr). by rewrite <- Hf.
Qed.
End promises.

(** ** A volume to try them on *)
Definition demo_bpb : Bpb := mkBpb 512 1 1 2 7 1 2 0.
Definition demo_fs : Fat32Inner unit := mkInner tt demo_bpb.
Definition demo_fat : bytes :=
  ([0; 0; 0; 0] ++ [0; 0; 0; 0] ++ to_le 4 EOC ++ to_le 4 4 ++ to_le 4 EOC ++ to_le 4 0) ++ replicate 488 0.

(** A boot sector, two copies of the table, and clusters 2 to 5: cluster 2 is a
    chain, 3 and 4 are another, 5 is free. *)
Definition demo_vol : RamDisk :=
  [replicate 512 0; demo_fat; demo_fat; replicate 512 0; replicate 512 7; replicate 512 9; replicate 512 1].

Lemma demo_geom : geom_wf demo_bpb.
Proof. split; vm_compute; (split; congruence) || congruence || done. Qed.

(** Sectors of the right size, as many as the volume says, are a volume. *)
Lemma vol_ok_ram (fs : Fat32Inner unit) (w : RamDisk) :
  zlen w = total_sectors (fi_bpb fs) -> Forall (fun s => length s = 512%nat /\ Forall is_byte s) w -> vol_ok fs w.
Proof.
  intros Hl Hw s Hs. assert (Z.to_nat s < length w)%nat as Hlt by (unfold zlen in Hl; lia).
  destruct (lookup_lt_is_Some_2 w _ Hlt) as [x Hx]. rewrite Forall_lookup in Hw. destruct (Hw _ _ Hx) as [Hx1 Hx2].
  exists x. split; [|done]. change (ram_sector w s = Some x). unfold ram_sector. unfold RamDisk in *.
  rewrite Hx. cbn. by rewrite decide_True.
Qed.

Lemma demo_vol_ok : vol_ok demo_fs demo_vol.
Proof. apply vol_ok_ram; [reflexivity|]. apply (bool_decide_unpack _). vm_compute. reflexivity. Qed.

Lemma demo_chain : chain demo_fs demo_vol 3 [3; 4].
Proof.
  split; [done|]. split.
  { repeat constructor; vm_compute; congruence. }
  split; [split; [vm_compute; reflexivity|done]|]. exists 4. split; [done|]. vm_compute. congruence.
Qed.

Lemma write_read_chain_witness :
  exists first w', write_chain demo_fs 3 (replicate 1100 5) demo_vol = (Ok first, w')
    /\ read_chain 5 demo_fs first w'
       = (Ok (replicate 1100 5 ++ replicate (Z.to_nat (needed demo_fs (replicate 1100 5) * 512 - zlen (replicate 1100 5))) 0), w')
    /\ (2 <= 3 -> first = 3) /\ others_kept demo_fs demo_vol w' [3; 4].
Proof.
  pose proof (write_read_chain demo_fs demo_geom 5 demo_vol 3 [3; 4] (replicate 1100 5) demo_vol_ok (or_intror demo_chain)) as Hp.
  rewrite decide_True in Hp by (vm_compute; congruence).
  apply Hp; [done|apply Forall_replicate; split; lia|vm_compute; reflexivity].
Defined.

Lemma free_chain_spec_witness :
  exists w', free_chain 3 demo_fs 3 demo_vol = (Ok tt, w') /\ vol_ok demo_fs w'
    /\ (forall x, is_free demo_fs w' x <-> is_free demo_fs demo_vol x \/ x ∈ [3; 4])
    /\ free_count demo_fs w' = (free_count demo_fs demo_vol + 2)%nat
    /\ others_kept demo_fs demo_vol w' [3; 4].
Proof. exact (free_chain_spec demo_fs demo_geom 3 demo_vol 3 [3; 4] demo_vol_ok demo_chain ltac:(simpl; lia)). Defined.

Lemma allocate_cluster_spec_witness :
  exists n w', allocate_cluster demo_fs demo_vol = (Ok n, w') /\ vol_ok demo_fs w' /\ is_free demo_fs demo_vol n.
Proof.
  destruct (allocate_cluster_spec demo_fs demo_geom demo_vol demo_vol_ok) as [(n & w' & Hr & Hv & Hf & _)|[_ Hn]].
  - by exists n, w'.
  - exfalso. apply (Hn 5). split; [split; vm_compute; congruence|vm_compute; reflexivity].
Defined.

Lemma write_chain_shrink_leaks_witness :
  exists w' l, write_chain demo_fs 3 [1; 2; 3] demo_vol = (Ok 3, w') /\ chain demo_fs w' 3 l
    /\ (forall x, x ∈ [4] -> ~ is_free demo_fs w' x /\ x ∉ l).
Proof.
  refine (write_chain_shrink_leaks demo_fs demo_geom demo_vol 3 [3; 4] [1; 2; 3] demo_vol_ok demo_chain _ _ _).
  - done.
  - apply (bool_decide_unpack _). vm_compute. reflexivity.
  - vm_compute. reflexivity.
Defined.
