(* ===== verification/FatDir.v ===== *)
(** * FatDir: directory operations on the abstract volume

    A directory is a chain whose contents are the image of a list of items
    ([FatImage.v]).  Reading, updating, deleting and adding entries
    are changes of the items, made through [write_chain], and nothing else on the
    volume moves. *)
From Stdlib Require Import ZArith Lia.
From stdpp Require Import base numbers option list sets.
From S2P Require Import Prelude VfsTypes Path Block PartTable FatCodec Fat32 FatImage FatNames FatVolume FatChain.

(** ** Reading leaves the disk alone *)
Section reading.
Context {W D : Type} `{BlockDeviceLaws W D} {U : UnicodeCase}.
Variable fuel : nat.
Variable self : Fat32Inner D.

Lemma read_sector_pure w s : is_u32 s -> pure_on w (read_sector self s).
Proof.
  intros Hs. unfold pure_on, read_sector. destruct (sectors w (fi_device self) s) as [x|] eqn:Hx.
  - by rewrite (read_sector_ok _ _ _ _ Hs Hx).
  - by destruct (read_sector_err _ _ _ Hs Hx) as [e ->].
Qed.

Lemma store_pure {St E} (data : bytes) off src (s : St) : pure_on s (store data off src : M St E bytes).
Proof. unfold store. by destruct (_ <=? _)%nat. Qed.

Hint Resolve store_pure : vyper.

Lemma is_u32_wrap z : is_u32 (u32 z).
Proof. apply u32_range. Qed.

Hint Resolve read_sector_pure is_u32_wrap : vyper.

Lemma get_fat_entry_pure w c : pure_on w (get_fat_entry self c).
Proof. unfold get_fat_entry. auto with vyper. Qed.

Lemma read_cluster_pure w c buf : pure_on w (read_cluster self c buf).
Proof. unfold read_cluster. case_match; auto 8 with vyper. Qed.

Hint Resolve get_fat_entry_pure read_cluster_pure : vyper.

Lemma read_chain_pure w c : pure_on w (read_chain fuel self c).
Proof.
  unfold read_chain. apply pure_loop. intros [[data cl] buf]. case_match; auto 8 with vyper.
Qed.

Hint Resolve read_chain_pure : vyper.

Lemma find_in_directory_pure w c name : pure_on w (find_in_directory fuel self c name).
Proof. unfold find_in_directory, read_directory. auto 8 with vyper. Qed.

Hint Resolve find_in_directory_pure : vyper.

Lemma resolve_parts_pure w c parts : pure_on w (resolve_parts fuel self c parts).
Proof.
  revert c. induction parts as [|p ps IH]; intros c; cbn [resolve_parts]; [auto with vyper|].
  apply pure_bind; [auto with vyper|]. intros f. apply pure_bind; [auto with vyper|]. intros e.
  destruct ps; [auto with vyper|]. case_match; auto with vyper.
Qed.

(** Only the root has no components, and then nothing is left of the path. *)
Lemma resolve_parts_root w c parts r w' :
  resolve_parts fuel self c parts w = (Ok (r, None), w') -> parts = [].
Proof.
  revert c w. induction parts as [|p ps IH]; intros c w; [done|]. cbn [resolve_parts]. intros Hr.
  minv Hr. destruct ps; [minv Hr; congruence|]. case_match; minv Hr. by apply IH in Hr.
Qed.
End reading.

Section directory.
Context {W D : Type} `{BlockDeviceLaws W D} {U : UnicodeCase}.
Variable self : Fat32Inner D.
Hypothesis Hg : geom_wf (fi_bpb self).
Abbreviation b := (fi_bpb self).
Abbreviation cs := (512 * sectors_per_cluster b).

Lemma cs_pos : 0 < cs.
Proof. destruct Hg. lia. Qed.

(** Cluster [c] starts the directory of [items], on the chain [l]. *)
Record dir_at (w : W) (c : Z) (items : list item) (tail : list slot) (l : list Z) : Prop := {
  da_chain : chain self w c l;
  da_wf : dir_wf items tail;
  da_contents : contents self w l = dir_image items tail
}.

Lemma length_contents w l : vol_ok self w -> Forall (is_cluster b) l -> zlen (contents self w l) = zlen l * cs.
Proof.
  intros Hv. unfold contents, zlen. induction 1 as [|c l Hc Hl IH]; [done|].
  rewrite bind_cons, length_app. pose proof (length_clus self Hg w c Hv Hc) as Hn. unfold zlen in Hn.
  cbn [length]. lia.
Qed.

Lemma length_dir_image items tail : dir_wf items tail -> zlen (dir_image items tail) = 32 * zlen (slots_of items ++ tail).
Proof. intros Hw%dir_wf_slots. unfold dir_image, zlen. rewrite length_image by done. lia. Qed.

(** Another volume state with the same clusters has the same directory. *)
Lemma dir_at_frame w w' c items tail l :
  dir_at w c items tail l ->
  (forall x, x ∈ l -> fat self w' x = fat self w x /\ clus self w' x = clus self w x) -> dir_at w' c items tail l.
Proof.
  intros [Hc Hw He] Hf. split; [|done|].
  - eapply chain_frame; [done..|]. intros x Hx. by apply Hf.
  - rewrite <- He. apply contents_frame. intros x Hx. by apply Hf.
Qed.

Lemma chain_clusters w c l x : chain self w c l -> x ∈ l -> is_cluster b x.
Proof. intros (_ & Hall & _) Hx. rewrite Forall_forall in Hall. by apply Hall. Qed.

Lemma read_directory_run fuel w c items tail l :
  vol_ok self w -> dir_at w c items tail l -> (length l < fuel)%nat ->
  read_directory fuel self c w = (Ok (entries_at 0 items), w).
Proof.
  intros Hv [Hc Hw He] Hl. unfold read_directory.
  rewrite (bind_ok _ _ _ _ _ (read_chain_run self Hg fuel w c l Hv Hc Hl)), He. by rewrite parse_image.
Qed.

(** ** Writing a directory back *)

(** Clusters outside [touched] and the free ones are as before. *)
Definition kept (w w' : W) (touched : list Z) : Prop :=
  forall x, is_cluster b x -> (x ∉ touched) -> fat self w x ≠ 0 ->
    fat self w' x = fat self w x /\ clus self w' x = clus self w x.

Lemma kept_others w w' l : kept w w' l -> others_kept self w w' l.
Proof.
  intros Hk c l0 Hc Hd. assert (forall x, x ∈ l0 -> fat self w' x = fat self w x /\ clus self w' x = clus self w x) as Hx.
  { intros x Hx. apply Hk; [by eapply chain_clusters|by apply Hd|by eapply chain_not_free]. }
  split; [eapply chain_frame; [done..|]|apply contents_frame]; intros x Hin; by apply Hx.
Qed.

Lemma dir_write_run w c items tail l items' tail' k :
  vol_ok self w -> dir_at w c items tail l -> dir_wf items' tail' ->
  zlen (dir_image items' tail') = (zlen l + Z.of_nat k) * cs ->
  if decide (k <= free_count self w)%nat
  then exists l' w', write_chain self c (dir_image items' tail') w = (Ok c, w') /\ vol_ok self w'
         /\ dir_at w' c items' tail' (l ++ l') /\ length l' = k /\ Forall (is_free self w) l'
         /\ kept w w' l /\ (k = 0%nat -> forall x, is_cluster b x -> (x ∉ l) -> fat self w' x = fat self w x /\ clus self w' x = clus self w x)
  else exists w', write_chain self c (dir_image items' tail') w = (Err (lit "no free clusters"), w').
Proof.
  intros Hv [Hc Hw He] Hw' Hlen. pose proof cs_pos as Hcs.
  destruct (chain_cons self w c l Hc) as (l0 & Hl0 & Hci & _). pose proof (is_cluster_bound self Hg c Hci) as [Hc2 _].
  assert (dir_image items' tail' ≠ []) as Hne.
  { intros Hz. rewrite Hz in Hlen. rewrite Hl0 in Hlen. unfold zlen in Hlen. cbn [length] in Hlen. nia. }
  assert (Forall is_byte (dir_image items' tail')) as Hb by (apply image_bytes; by apply dir_wf_slots).
  assert (needed self (dir_image items' tail') = zlen l + Z.of_nat k) as Hn.
  { unfold needed. rewrite Hlen. symmetry. apply Z.div_unique with (cs - 1); lia. }
  pose proof (write_chain_run self Hg w c l _ Hv (or_intror Hc) Hne Hb) as Hrun. rewrite Hn in Hrun.
  destruct (decide (k <= free_count self w)%nat) as [Hk|Hk].
  - rewrite decide_True in Hrun by lia.
    destruct Hrun as (first & l2 & w' & Hr & (Hv' & Hc' & Hl2 & (new & Hnew & Hfree) & Hcon & Hfr) & Hfirst).
    rewrite (Hfirst ltac:(lia)) in *. rewrite Hn in *.
    rewrite take_ge in Hnew by (unfold zlen; lia). subst l2.
    exists new, w'. split; [done|]. split; [done|].
    assert (length new = k) as Hk' by (unfold zlen in Hl2; rewrite length_app in Hl2; lia).
    assert (forall x, x ∉ l -> fat self w x ≠ 0 \/ k = 0%nat -> x ∉ l ++ new) as Hout.
    { intros x Hx [Hz|Hz]; intros [?|Hin]%elem_of_app; try done.
      - rewrite Forall_forall in Hfree. by destruct (Hfree x Hin).
      - destruct new; [by apply elem_of_nil in Hin|simpl in Hk'; lia]. }
    split_and!; try done.
    + split; [done|done|]. rewrite Hcon, Hlen. replace (_ - _) with 0 by lia. by rewrite app_nil_r.
    + intros x Hx Hxl Hz. apply Hfr; [done|]. apply Hout; auto.
    + intros Hz x Hx Hxl. apply Hfr; [done|]. apply Hout; auto.
  - rewrite decide_False in Hrun by lia. destruct Hrun as (w' & Hr & _). by exists w'.
Qed.

(** Same size: no cluster is taken, and only the directory's own change. *)
Lemma dir_rewrite_run w c items tail l items' tail' :
  vol_ok self w -> dir_at w c items tail l -> dir_wf items' tail' ->
  length (slots_of items' ++ tail') = length (slots_of items ++ tail) ->
  exists w', write_chain self c (dir_image items' tail') w = (Ok c, w') /\ vol_ok self w'
    /\ dir_at w' c items' tail' l
    /\ (forall x, is_cluster b x -> (x ∉ l) -> fat self w' x = fat self w x /\ clus self w' x = clus self w x).
Proof.
  intros Hv Hd Hw' Hlen. pose proof Hd as [Hc Hw He].
  pose proof (dir_write_run w c items tail l items' tail' 0 Hv Hd Hw') as Hrun.
  rewrite decide_True in Hrun by lia. destruct Hrun as (l' & w' & Hr & Hv' & Hd' & Hl' & _ & _ & Hf).
  - rewrite length_dir_image by done. pose proof (length_contents w l Hv (proj1 (proj2 Hc))) as Hlc.
    rewrite He, length_dir_image in Hlc by done. unfold zlen in *. rewrite Hlen. lia.
  - destruct l'; [|done]. rewrite app_nil_r in Hd'. exists w'. split_and!; try done. by apply Hf.
Qed.

(** ** Updating and deleting an entry *)
Lemma short_slot_parts s : short_slot s -> Short_serialize (short_of s) = s /\ short_wf (short_of s).
Proof.
  intros Hs. pose proof (short_parse_slot s Hs) as Hp. destruct Hs as [[[Hl Hb] _] _]. by apply Short_serialize_parse.
Qed.

Lemma set_size_cluster_item lfns short size cluster :
  item_ok (Named lfns short) -> 0 <= size < 2 ^ 32 ->
  let new := Short_serialize (set_size_cluster (short_of short) size cluster) in
  item_ok (Named lfns new) /\ short_of new = set_size_cluster (short_of short) size cluster.
Proof.
  intros (Hl & Hs & Hv) Hsz new. destruct (short_slot_parts short Hs) as [Hser Hw].
  assert (short_wf (set_size_cluster (short_of short) size cluster)) as Hw'.
  { destruct Hw. split; try done; cbn; apply u16_range. }
  assert (short_of new = set_size_cluster (short_of short) size cluster) as Hof
    by (unfold new, short_of at 1; by rewrite Short_parse_serialize).
  split; [|done]. split; [done|]. split.
  - assert (forall i, (i < 12)%nat -> rd new i = rd short i) as Hrd.
    { intros i Hi. rewrite <- Hser. unfold new, Short_serialize, set_size_cluster. cbn [s_name s_attr s_nt_res s_create_time_tenth].
      destruct Hw as [Hn _ _ _ _ _ _ _ _ _ _ _ _ _]. unfold rd. rewrite !(app_assoc (s_name _)).
      rewrite !(app_nth1 (s_name _ ++ _)); [done|..]; rewrite length_app, Hn; simpl; lia. }
    destruct Hs as [(_ & Hz0 & Hz5) Ha]. split; [split; [|split]|].
    + split; [by apply length_Short_serialize|by apply Short_serialize_bytes].
    + rewrite Hrd by lia. done.
    + rewrite Hrd by lia. done.
    + rewrite Hrd by lia. done.
  - rewrite Hof. done.
Qed.

Lemma entry_of_new_short i lfns short new :
  s_name (short_of new) = s_name (short_of short) -> fe_name (entry_of i lfns new) = fe_name (entry_of i lfns short).
Proof. intros Hn. unfold entry_of, entry_name, short_name. cbn. by rewrite Hn. Qed.

(** The listing with the size and first cluster of the entry at [off] changed. *)
Definition retouch (off : nat) (size cluster : Z) (e : FatDirEntry) : FatDirEntry :=
  if decide (fe_entry_offset e = off)
  then mkDirEntry (fe_name e) (set_size_cluster (fe_short_entry e) size cluster) (fe_lfn_entries e) (fe_entry_offset e) (fe_entry_count e)
  else e.

Lemma entries_at_offsets i items e :
  e ∈ entries_at i items -> (i <= fe_entry_offset e < i + 32 * length (slots_of items))%nat.
Proof.
  intros (pre & lfns & short & post & -> & ->)%entries_at_elem. cbn.
  rewrite slots_of_app, slots_of_cons, !length_app. cbn [item_slots]. rewrite length_app. simpl. lia.
Qed.

Lemma retouch_other off size cluster l :
  Forall (fun e => fe_entry_offset e ≠ off) l -> retouch off size cluster <$> l = l.
Proof.
  induction 1 as [|e l He Hl IH]; [done|]. rewrite fmap_cons, IH. f_equal. unfold retouch. by rewrite decide_False.
Qed.

Lemma update_dir_entry_run fuel w c items tail l e size cluster :
  vol_ok self w -> dir_at w c items tail l -> (length l < fuel)%nat ->
  e ∈ entries_at 0 items -> 0 <= size < 2 ^ 32 ->
  exists w' items', update_dir_entry fuel self c
      (mkDirEntry (fe_name e) (set_size_cluster (fe_short_entry e) size cluster) (fe_lfn_entries e) (fe_entry_offset e) (fe_entry_count e)) w
      = (Ok tt, w')
    /\ vol_ok self w' /\ dir_at w' c items' tail l
    /\ entries_at 0 items' = retouch (fe_entry_offset e) size cluster <$> entries_at 0 items
    /\ (forall x, is_cluster b x -> (x ∉ l) -> fat self w' x = fat self w x /\ clus self w' x = clus self w x).
Proof.
  intros Hv Hd Hl (pre & lfns & short & post & -> & ->)%entries_at_elem Hsz.
  pose proof Hd as [Hc Hw He]. pose proof (dir_wf_middle _ _ _ _ Hw) as (Hp & Hi & Ho & Ht).
  destruct (set_size_cluster_item lfns short size cluster Hi Hsz) as [Hi' Hof].
  set (new := Short_serialize _) in *. cbn [fe_name fe_short_entry fe_lfn_entries fe_entry_offset fe_entry_count entry_of].
  assert (slot_ok new) as Hnew by (destruct Hi' as (_ & [[? _] _] & _); done).
  assert (dir_wf (pre ++ Named lfns new :: post) tail) as Hw'.
  { split; [|done]. apply Forall_app. split; [done|]. by constructor. }
  destruct (dir_rewrite_run w c _ tail l (pre ++ Named lfns new :: post) tail Hv Hd Hw') as (w' & Hr & Hv' & Hd' & Hf).
  { rewrite !slots_of_app, !slots_of_cons, !length_app. cbn [item_slots]. by rewrite !length_app. }
  exists w', (pre ++ Named lfns new :: post). split_and!; try done.
  - unfold update_dir_entry. rewrite (bind_ok _ _ _ _ _ (read_chain_run self Hg fuel w c l Hv Hc Hl)), He.
    cbn [fe_entry_offset fe_entry_count fe_short_entry]. unfold DIR_ENTRY_SIZE. rewrite Nat.add_0_l.
    destruct (Nat.ltb_spec (length (dir_image (pre ++ Named lfns short :: post) tail))
      (32 * length (slots_of pre) + (length lfns + 1 - 1) * 32 + 32)) as [Hlt|_].
    { exfalso. pose proof (length_dir_image _ _ Hw) as Hz. unfold zlen in Hz.
      rewrite named_slots, !length_app in Hz. cbn [length] in Hz. rewrite length_app in Hz. lia. }
    fold new. rewrite (bind_ok _ _ _ _ _ (store_short pre lfns short post tail new w Hw Hnew)).
    by rewrite (bind_ok _ _ _ _ _ Hr).
  - rewrite !entries_at_app. cbn [entries_at]. rewrite fmap_app, fmap_cons.
    assert (length (item_slots (Named lfns new)) = length (item_slots (Named lfns short))) as -> by (cbn; by rewrite !length_app).
    rewrite !Nat.add_0_l. f_equal; [|f_equal].
    + symmetry. apply retouch_other, Forall_forall. intros e Hin%entries_at_offsets. lia.
    + unfold retouch. rewrite decide_True by done. clearbody new. unfold entry_of. cbn. rewrite Hof. f_equal.
      unfold entry_name, short_name. by rewrite Hof.
    + symmetry. apply retouch_other, Forall_forall. intros e Hin%entries_at_offsets. cbn in Hin.
      rewrite length_app in Hin. simpl in Hin. lia.
Qed.

(** Deleting an entry leaves the others. *)
Lemma remove_dir_entry_run fuel w c items tail l e :
  vol_ok self w -> dir_at w c items tail l -> (length l < fuel)%nat -> e ∈ entries_at 0 items ->
  exists w' items' es1 es2, remove_dir_entry fuel self c e w = (Ok tt, w')
    /\ vol_ok self w' /\ dir_at w' c items' tail l
    /\ entries_at 0 items = es1 ++ e :: es2 /\ entries_at 0 items' = es1 ++ es2
    /\ (forall x, is_cluster b x -> (x ∉ l) -> fat self w' x = fat self w x /\ clus self w' x = clus self w x).
Proof.
  intros Hv Hd Hl (pre & lfns & short & post & -> & ->)%entries_at_elem. rewrite Nat.add_0_l.
  pose proof Hd as [Hc Hw He].
  destruct (delete_named pre lfns short post tail _ Hw eq_refl) as [Hdel Hw'].
  destruct (dir_rewrite_run w c _ tail l _ tail Hv Hd Hw') as (w' & Hr & Hv' & Hd' & Hf).
  { rewrite !slots_of_app, slots_of_cons, slots_of_deleted, !length_app, length_fmap. cbn [item_slots]. by rewrite length_app. }
  exists w', (pre ++ deleted lfns short ++ post), (entries_at 0 pre),
    (entries_at (32 * length (slots_of pre) + 32 * length (lfns ++ [short])) post).
  split_and!; try done.
  - unfold remove_dir_entry. rewrite (bind_ok _ _ _ _ _ (read_chain_run self Hg fuel w c l Hv Hc Hl)), He, Hdel.
    by rewrite (bind_ok _ _ _ _ _ Hr).
  - by rewrite entries_at_app.
  - rewrite !entries_at_app, entries_at_deleted, slots_of_deleted, length_fmap. done.
Qed.

(** ** Adding an entry *)
Definition zslot : slot := replicate 32 0.

Lemma zslot_unused : unused zslot.
Proof. split; [split; [done|]|done]. apply Forall_replicate. split; lia. Qed.

(** The slots of a cluster. *)
Definition per_cluster : nat := Z.to_nat (16 * sectors_per_cluster b).

Definition grown (k : nat) (tail : list slot) : list slot := tail ++ replicate (k * per_cluster) zslot.

Lemma grown_wf k items tail : dir_wf items tail -> dir_wf items (grown k tail).
Proof.
  intros [Hi Ht]. split; [done|]. apply Forall_app. split; [done|]. apply Forall_replicate, zslot_unused.
Qed.

Lemma image_zeros n : image (replicate n zslot) = replicate (n * 32) 0.
Proof.
  induction n as [|n IH]; [done|]. change (image (replicate (S n) zslot)) with (zslot ++ image (replicate n zslot)).
  rewrite IH. unfold zslot. by rewrite <- replicate_add.
Qed.

Lemma grow_image slots :
  Forall slot_ok slots ->
  vec_resize (image slots) (length (image slots) + Z.to_nat (bytes_per_cluster b)) 0
  = image (slots ++ replicate (1 * per_cluster) zslot).
Proof.
  intros Hs. rewrite image_app, image_zeros, (cluster_size self Hg). unfold vec_resize.
  rewrite take_ge by lia. f_equal. f_equal. unfold per_cluster. destruct Hg. lia.
Qed.

Lemma find_free_run fuel w c items tail l n :
  vol_ok self w -> dir_at w c items tail l -> (length l < fuel)%nat -> (0 < n <= per_cluster)%nat ->
  exists k p r q, find_free_dir_slots fuel self c n w = (Ok (image (p ++ r ++ q), (32 * length p)%nat), w)
    /\ (k <= 1)%nat /\ p ++ r ++ q = slots_of items ++ grown k tail /\ length r = n
    /\ covers items (grown k tail) p r q.
Proof.
  intros Hv [Hc Hw He] Hl Hn. pose proof (dir_wf_slots _ _ Hw) as Hok.
  unfold find_free_dir_slots. rewrite (bind_ok _ _ _ _ _ (read_chain_run self Hg fuel w c l Hv Hc Hl)), He.
  unfold dir_image. rewrite dir_slots_image by done.
  pose proof (free_scan_run n (slots_of items ++ tail) [] [] 0 ltac:(lia) ltac:(simpl; lia) (Forall_nil_2 _) ltac:(done) ltac:(done)) as Hscan.
  cbn [app length] in Hscan. rewrite Nat.mul_0_r in Hscan.
  destruct (free_scan (number 0 (slots_of items ++ tail)) n 0 0) as [off|[cnt st]].
  - destruct Hscan as (p & r & q & Hrun & -> & Hr). exists 0%nat, p, r, q.
    assert (grown 0 tail = tail) as -> by apply app_nil_r. pose proof Hrun as (Heq & _ & _). rewrite Heq.
    split_and!; try done; [lia|]. apply covers_run; [done|exact Hrun|]. intros ->. simpl in Hr. lia.
  - destruct Hscan as (p & r & (Heq & Hr & Hlast) & Hcnt & Hlt & Hst). rewrite app_nil_r in Heq.
    rewrite (bind_ok _ _ _ _ _ (get_last_cluster_run self Hg fuel w c l Hv Hc ltac:(lia))).
    rewrite grow_image by done. set (zs := replicate (1 * per_cluster) zslot).
    exists 1%nat, p, (take n (r ++ zs)), (drop n (r ++ zs)). rewrite take_drop.
    assert (slots_of items ++ grown 1 tail = p ++ r ++ zs) as Heq'
      by (unfold grown; rewrite app_assoc; rewrite Heq; by rewrite <- app_assoc).
    assert (length zs = per_cluster) as Hz by (unfold zs; rewrite length_replicate; lia).
    assert (length (take n (r ++ zs)) = n) as Hlen by (rewrite length_take, length_app; lia).
    split_and!; [|done|by rewrite Heq'|done|].
    + unfold mret, M_ret. do 3 f_equal; [rewrite Heq; by rewrite <- app_assoc|].
      destruct (Nat.ltb_spec 0 cnt) as [Hpos|Hpos]; [apply Hst; intros ->; simpl in Hcnt; lia|].
      assert (r = []) as -> by (destruct r; [done|simpl in Hcnt; lia]). rewrite app_nil_r in Heq.
      rewrite length_image by done. by rewrite Heq.
    + apply covers_run; [by apply grown_wf| |].
      * split; [by rewrite take_drop|]. split; [|done]. apply Forall_take, Forall_app. split; [done|].
        apply Forall_replicate. apply unused_free, zslot_unused.
      * intros Hnil. rewrite Hnil in Hlen. simpl in Hlen. lia.
Qed.

(** The slots of the new entry, written over the run. *)
Lemma store_item_run {St E} (w : St) p r q name attr cluster size :
  item_ok (new_item name attr cluster size) -> Forall slot_ok p -> Forall slot_ok r ->
  length r = (length (new_lfns name) + 1)%nat ->
  (data ← for_acc (zip (seq 0 (length (new_lfns name))) (new_lfns name)) (image (p ++ r ++ q))
            (fun data '(i, lfn) => store data (32 * length p + i * DIR_ENTRY_SIZE) (Lfn_serialize lfn));
   store data (32 * length p + length (new_lfns name) * DIR_ENTRY_SIZE) (Short_serialize (Short_new name attr cluster size))
    : M St E bytes) w
  = (Ok (image (p ++ item_slots (new_item name attr cluster size) ++ q)), w).
Proof.
  intros Hi Hp Hr Hlen. apply item_slots_ok in Hi. apply Forall_app in Hi as [Hls [Hsh _]%Forall_cons].
  destruct r as [|x r _] using rev_ind; [simpl in Hlen; lia|].
  rewrite length_app in Hlen. apply Forall_app in Hr as [Hr [Hx _]%Forall_cons].
  assert (length r = length (new_lfns name)) as Hlr by (simpl in Hlen; lia).
  rewrite <- (app_assoc r). unfold DIR_ENTRY_SIZE. pose proof (proj1 (Forall_fmap Lfn_serialize slot_ok (new_lfns name)) Hls) as Hls'.
  rewrite (bind_ok _ _ _ _ _ (store_each Lfn_serialize (new_lfns name) p r ([x] ++ q) w _ _ Hp Hr Hls' Hlr eq_refl eq_refl)).
  cbn [item_slots new_item]. rewrite <- !app_assoc. cbn [app].
  replace (32 * length p + length (new_lfns name) * 32)%nat
    with (32 * length (p ++ (Lfn_serialize <$> new_lfns name)))%nat by (rewrite length_app, length_fmap; lia).
  rewrite !(app_assoc p). apply store_slot; [|done|done]. apply Forall_app. by split.
Qed.

(** [add_dir_entry] lists the new entry among the old ones, in a free run or after
    them; the directory grows by a cluster at most, and it fails only when it must
    grow and no cluster is free. *)
Lemma add_dir_entry_run fuel w c items tail l name attr cluster size :
  vol_ok self w -> dir_at w c items tail l -> (length l < fuel)%nat ->
  name_ok name -> is_byte attr -> Z.land attr ATTR_VOLUME_ID = 0 -> 0 <= size < 2 ^ 32 ->
  (length (new_lfns name) < per_cluster)%nat ->
  (exists w' items' tail' l' es1 es2 i, add_dir_entry fuel self c name attr cluster size w = (Ok tt, w')
     /\ vol_ok self w' /\ dir_at w' c items' tail' (l ++ l') /\ (length l' <= 1)%nat /\ Forall (is_free self w) l'
     /\ entries_at 0 items = es1 ++ es2
     /\ entries_at 0 items' = es1 ++ mkDirEntry (created_name name) (Short_new name attr cluster size)
                                       (new_lfns name) i (length (new_lfns name) + 1) :: es2
     /\ kept w w' l)
  \/ (free_count self w = 0%nat
      /\ exists w', add_dir_entry fuel self c name attr cluster size w = (Err (lit "no free clusters"), w')).
Proof.
  intros Hv Hd Hl Hn Ha Hvol Hsz Hfit. pose proof Hd as [Hc Hw He].
  pose proof (new_item_ok name attr cluster size Hn Ha Hvol Hsz) as Hit.
  set (n := (length (new_lfns name) + 1)%nat).
  destruct (find_free_run fuel w c items tail l n Hv Hd Hl ltac:(unfold n; lia)) as (k & p & r & q & Hff & Hk & Heq & Hr & Hcov).
  pose proof (grown_wf k items tail Hw) as Hwg.
  assert (Forall slot_ok (p ++ r ++ q)) as Hok by (rewrite Heq; by apply dir_wf_slots).
  apply Forall_app in Hok as [Hp Hok]. apply Forall_app in Hok as [Hrk _].
  assert (length (item_slots (new_item name attr cluster size)) = length r) as Hlen
    by (rewrite Hr; cbn; rewrite length_app, length_fmap; done).
  destruct (fill_run items (grown k tail) p r q _ Hwg Hit Hcov Hlen) as (pre & post & tail' & Himg & Hw' & Hpre & Hents).
  assert (add_dir_entry fuel self c name attr cluster size w
    = (write_chain self c (dir_image (pre ++ new_item name attr cluster size :: post) tail') ;; mret tt) w) as Hadd.
  { unfold add_dir_entry. fold (new_lfns name). fold n. rewrite (bind_ok _ _ _ _ _ Hff). unfold dir_image. rewrite <- Himg.
    pose proof (store_item_run (E:=rstr) w p r q name attr cluster size Hit Hp Hrk Hr) as Hst.
    by rewrite (bind_then_ok _ _ _ _ _ _ Hst). }
  assert (zlen (dir_image (pre ++ new_item name attr cluster size :: post) tail') = (zlen l + Z.of_nat k) * cs) as Hz.
  { rewrite length_dir_image, <- Himg by done. pose proof (length_contents w l Hv (proj1 (proj2 Hc))) as Hlc.
    rewrite He, length_dir_image in Hlc by done.
    assert (zlen (p ++ item_slots (new_item name attr cluster size) ++ q) = zlen (slots_of items ++ grown k tail)) as ->.
    { unfold zlen. rewrite <- Heq, !length_app, Hlen. done. }
    unfold grown. rewrite app_assoc. unfold zlen in *. rewrite length_app, length_replicate.
    unfold per_cluster. destruct Hg. nia. }
  pose proof (dir_write_run w c items tail l _ tail' k Hv Hd Hw' Hz) as Hrun.
  destruct (decide (k <= free_count self w)%nat) as [Hle|Hle].
  - left. destruct Hrun as (l' & w' & Hr' & Hv' & Hd' & Hl' & Hfree & Hkept & _).
    exists w', (pre ++ new_item name attr cluster size :: post), tail', l', (entries_at 0 pre),
      (entries_at (32 * (length p + length r)) post), (32 * length (slots_of pre))%nat.
    split_and!; try done; [|lia|].
    + by rewrite Hadd, (bind_ok _ _ _ _ _ Hr').
    + rewrite entries_at_app. f_equal. rewrite Nat.add_0_l. unfold new_item at 1. cbn [entries_at].
      rewrite new_item_entry by done. f_equal. fold (new_item name attr cluster size). rewrite Hlen, <- Hpre. f_equal. lia.
  - right. split; [lia|]. destruct Hrun as (w' & Hr'). exists w'. by rewrite Hadd, (bind_err _ _ _ _ _ Hr').
Qed.
End directory.
