(* ===== verification/FatOps.v ===== *)
(** * FatOps: the path operations of FAT32

    [open], [mkdir], [remove], [rmdir], the listings and the write-back of a
    file, on the abstract volume. *)
From Stdlib Require Import ZArith Lia.
From stdpp Require Import base numbers option list sets.
From S2P Require Import Prelude VfsTypes Path Block PartTable FatCodec Fat32 FatImage FatNames FatVolume FatChain FatDir.

Lemma path_parts_nil path : path_parts path = [] -> trim_slash path = [].
Proof.
  unfold path_parts, trim_slash. intros Hp. assert (trim_start_slash path = []) as ->; [|done].
  induction path as [|c s IH]; [done|]. simpl in *. unfold slash in *. destruct (Z.eqb_spec c 47) as [->|Hc].
  - apply IH. destruct (decide (47 = 47)); [|done]. by rewrite filter_cons_False in Hp by (intros H'; by apply H').
  - exfalso. destruct (decide (c = 47)); [done|]. destruct (split_slash s) as [|p ps].
    + rewrite filter_cons_True in Hp; done.
    + rewrite filter_cons_True in Hp; done.
Qed.

Section opening.
Context {W D : Type} `{BlockDeviceLaws W D} {U : UnicodeCase}.

Lemma fat_open_root (fuel : nat) (self : Fat32Inner D) path (flags : OpenFlags.t) (w : W) :
  path_parts path = [] -> (fat_open fuel self path flags w).1 = Err (if OpenFlags.contains flags OpenFlags.O_CREAT then InvalidPath else NotFound)
  /\ (fat_open fuel self path flags w).2 = w.
Proof.
  intros Hp. unfold fat_open, resolve_path. rewrite Hp. cbn [resolve_parts].
  change (missing (mret (root_cluster (fi_bpb self), None))) with (mret (root_cluster (fi_bpb self), None) : M W VfsError (Z * option FatDirEntry)).
  rewrite bind_ret. destruct (OpenFlags.contains flags OpenFlags.O_CREAT); [|done].
  unfold split_path. by rewrite decide_True by by apply path_parts_nil.
Qed.

(** [open] never creates a file and never changes the disk.  A path that
    does not resolve is [NotFound] whatever the flags, [O_CREAT] included; the
    branch that creates is reached by the root only, where it fails. *)
Theorem fat_open_never_creates (fuel : nat) (self : Fat32Inner D) path (flags : OpenFlags.t) (w : W) :
  (fat_open fuel self path flags w).2 = w
  /\ match resolve_path fuel self path w with
     | (Err _, _) => (fat_open fuel self path flags w).1 = Err NotFound
     | (Ok (_, None), _) => is_ok (fat_open fuel self path flags w).1 = false
     | (Ok (_, Some e), _) => fe_is_directory e = true -> (fat_open fuel self path flags w).1 = Err IsADirectory
     | (Panic, _) => (fat_open fuel self path flags w).1 = Panic
     | (Hang, _) => (fat_open fuel self path flags w).1 = Hang
     end.
Proof.
  pose proof (resolve_parts_pure fuel self w (root_cluster (fi_bpb self)) (path_parts path)) as Hp.
  unfold pure_on in Hp. fold (resolve_path fuel self path) in Hp.
  destruct (resolve_path fuel self path w) as [[[c [e|]]|err| |] w1] eqn:Hr; simpl in Hp; subst w1.
  - assert (missing (resolve_path fuel self path) w = (Ok (c, Some e), w)) as Hm by (unfold missing, map_err; by rewrite Hr).
    unfold fat_open. rewrite (bind_ok _ _ _ _ _ Hm). destruct (fe_is_directory e) eqn:Hd; [done|]. split; [|done].
    assert (pure_on w (read_chain fuel self (fe_cluster e))) as Hrc by apply read_chain_pure.
    apply pure_bind; [|auto with vyper]. case_match; auto with vyper. apply pure_bind; auto with vyper.
    by apply pure_map_err.
  - apply resolve_parts_root in Hr. destruct (fat_open_root fuel self path flags w Hr) as [-> ->]. by case_match.
  - unfold fat_open. assert (missing (resolve_path fuel self path) w = (Err NotFound, w)) as Hm by (unfold missing, map_err; by rewrite Hr).
    by rewrite (bind_err _ _ _ _ _ Hm).
  - unfold fat_open. assert (missing (resolve_path fuel self path) w = (Panic, w)) as Hm by (unfold missing, map_err; by rewrite Hr).
    by rewrite (bind_panic _ _ _ _ Hm).
  - unfold fat_open. assert (missing (resolve_path fuel self path) w = (Hang, w)) as Hm by (unfold missing, map_err; by rewrite Hr).
    unfold mbind, M_bind. by rewrite Hm.
Qed.
End opening.

(** ** Canonical paths, trimmed and split *)
Definition joined (parts : list rstr) : rstr :=
  match parts with [] => [] | p :: ps => p ++ render ps end.

Lemma render_joined parts : parts ≠ [] -> render parts = slash :: joined parts.
Proof. destruct parts as [|p ps]; [done|]. intros _. by rewrite render_cons. Qed.

Lemma joined_snoc ps name : ps ≠ [] -> joined (ps ++ [name]) = joined ps ++ slash :: name.
Proof.
  destruct ps as [|p ps]; [done|]. intros _. cbn [app joined]. rewrite render_app, render_cons.
  by rewrite <- !app_assoc, app_nil_r.
Qed.

Lemma split_joined parts : Forall good_name parts -> parts ≠ [] -> split_slash (joined parts) = parts.
Proof.
  intros Hg Hne. pose proof (split_slash_render parts Hg) as Hs. rewrite render_joined in Hs by done.
  rewrite split_slash_cons_slash in Hs. by injection Hs.
Qed.

Lemma path_parts_joined parts : Forall good_name parts -> path_parts (joined parts) = parts.
Proof.
  intros Hg. destruct (decide (parts = [])) as [->|Hne]; [done|]. unfold path_parts. rewrite split_joined by done.
  clear Hne. induction Hg as [|p ps Hp Hps IH]; [done|].
  rewrite filter_cons_True by (by destruct Hp). by rewrite IH.
Qed.

Lemma trim_start_id c s : c ≠ slash -> trim_start_slash (c :: s) = c :: s.
Proof. intros Hc. cbn. by destruct (Z.eqb_spec c slash). Qed.

Lemma good_name_ends p : good_name p -> exists c s d t, p = c :: s /\ c ≠ slash /\ p = t ++ [d] /\ d ≠ slash.
Proof.
  intros (Hne & _ & _ & Hs). destruct p as [|c s]; [done|]. destruct (exists_last Hne) as (t & d & Ht).
  exists c, s, d, t. split_and!; [done| |done|]; intros ->; apply Hs; [by left|rewrite Ht]. set_solver.
Qed.

Lemma trim_slash_path_of ps name :
  Forall good_name (ps ++ [name]) -> trim_slash (path_of (ps ++ [name])) = joined (ps ++ [name]).
Proof.
  intros Hg. assert (ps ++ [name] ≠ []) as Hne by by destruct ps.
  rewrite path_of_cons, render_joined by done. unfold trim_slash.
  assert (trim_start_slash (slash :: joined (ps ++ [name])) = joined (ps ++ [name])) as ->.
  { change (trim_start_slash (slash :: joined (ps ++ [name]))) with (trim_start_slash (joined (ps ++ [name]))).
    destruct (ps ++ [name]) as [|p qs] eqn:He; [done|]. apply Forall_cons in Hg as [Hp _].
    destruct (good_name_ends p Hp) as (c & s & _ & _ & -> & Hc & _). by apply trim_start_id. }
  assert (exists t d, joined (ps ++ [name]) = t ++ [d] /\ d ≠ slash) as (t & d & -> & Hd).
  { apply Forall_app in Hg as [_ [Hn _]%Forall_cons]. destruct (good_name_ends name Hn) as (_ & _ & d & t & _ & _ & -> & Hd).
    destruct (decide (ps = [])) as [->|Hps].
    - exists t, d. cbn. by rewrite app_nil_r.
    - exists (joined ps ++ slash :: t), d. by rewrite joined_snoc, <- app_assoc. }
  unfold trim_end_slash. rewrite rev_app_distr. cbn [rev app]. rewrite trim_start_id by done.
  cbn [rev]. by rewrite rev_involutive.
Qed.

Lemma rsplit_none s : slash ∉ s -> rsplit_slash s = None.
Proof.
  induction s as [|c s IH]; [done|]. intros Hs. cbn. rewrite IH by set_solver.
  destruct (Z.eqb_spec c slash); [set_solver|done].
Qed.

Lemma rsplit_app a s : slash ∉ s -> rsplit_slash (a ++ slash :: s) = Some (a, s).
Proof.
  intros Hs. induction a as [|c a IH]; cbn [app rsplit_slash]; [by rewrite rsplit_none|]. by rewrite IH.
Qed.

(** ** Walking directories *)
Section ops.
Context {W D : Type} `{BlockDeviceLaws W D} {U : UnicodeCase}.
Variable fuel : nat.
Variable self : Fat32Inner D.
Hypothesis Hg : geom_wf (fi_bpb self).
Abbreviation b := (fi_bpb self).

(** The entry [find_in_directory] picks from a listing. *)
Definition find_entry (name : rstr) (es : list FatDirEntry) : option FatDirEntry :=
  List.find (fun e => bool_decide (str_to_lowercase (fe_name e) = str_to_lowercase name)) es.

(** Following [ps] from the directory at [c] leads to the directory at [pc]; [ls]
    are the clusters read on the way. *)
Inductive walk (w : W) : Z -> list rstr -> Z -> list Z -> Prop :=
| walk_here c : walk w c [] c []
| walk_down c p ps items tail l e pc ls :
    dir_at self w c items tail l -> (length l < fuel)%nat ->
    find_entry p (entries_at 0 items) = Some e -> fe_is_directory e = true ->
    walk w (fe_cluster e) ps pc ls -> walk w c (p :: ps) pc (l ++ ls).

Lemma walk_frame w w' c ps pc ls :
  walk w c ps pc ls -> (forall x, x ∈ ls -> fat self w' x = fat self w x /\ clus self w' x = clus self w x) ->
  walk w' c ps pc ls.
Proof.
  induction 1 as [|c p ps items tail l e pc ls Hd Hl Hf He Hw IH]; intros Hk; [constructor|].
  econstructor; eauto; [|apply IH; set_solver]. eapply dir_at_frame; [done|]. set_solver.
Qed.

Lemma find_in_directory_run w c items tail l name :
  vol_ok self w -> dir_at self w c items tail l -> (length l < fuel)%nat ->
  find_in_directory fuel self c name w = (Ok (find_entry name (entries_at 0 items)), w).
Proof.
  intros Hv Hd Hl. unfold find_in_directory. by rewrite (bind_ok _ _ _ _ _ (read_directory_run self Hg fuel w c items tail l Hv Hd Hl)).
Qed.

(** Resolving a path whose parent the walk reaches is a lookup there. *)
Lemma resolve_parts_walk w c ps pc ls name :
  vol_ok self w -> walk w c ps pc ls ->
  resolve_parts fuel self c (ps ++ [name]) w
  = (found ← find_in_directory fuel self pc name; e ← ok_or (lit "path not found") found; mret (pc, Some e)) w.
Proof.
  intros Hv. induction 1 as [c|c p ps items tail l e pc ls Hd Hl Hf He Hw IH]; [done|].
  cbn [app resolve_parts].
  rewrite (bind_ok _ _ _ _ _ (find_in_directory_run w c items tail l p Hv Hd Hl)), Hf. rewrite bind_ok_or_some.
  destruct (ps ++ [name]) as [|q qs] eqn:Hq; [by destruct ps|]. rewrite He. cbn [negb]. exact IH.
Qed.

Lemma resolve_parts_dir w c ps pc ls :
  vol_ok self w -> walk w c ps pc ls -> ps ≠ [] ->
  exists c' e, resolve_parts fuel self c ps w = (Ok (c', Some e), w) /\ fe_is_directory e = true /\ fe_cluster e = pc.
Proof.
  intros Hv. induction 1 as [|c p ps items tail l e pc ls Hd Hl Hf He Hw IH]; [done|]. intros _. cbn [resolve_parts].
  rewrite (bind_ok _ _ _ _ _ (find_in_directory_run w c items tail l p Hv Hd Hl)), Hf. rewrite bind_ok_or_some.
  destruct ps as [|q qs].
  - inversion Hw; subst. by exists c, e.
  - rewrite He. cbn [negb]. by apply IH.
Qed.

Lemma split_path_run w ps pc ls name :
  vol_ok self w -> walk w (root_cluster b) ps pc ls -> Forall good_name (ps ++ [name]) ->
  split_path fuel self (path_of (ps ++ [name])) w = (Ok (pc, name), w).
Proof.
  intros Hv Hw Hgn. unfold split_path. rewrite trim_slash_path_of by done.
  pose proof Hgn as [Hps [Hn _]%Forall_cons]%Forall_app. pose proof Hn as (Hnne & _ & _ & Hns).
  destruct (decide (ps = [])) as [->|Hne].
  - cbn [app joined]. change (render []) with (@nil Z). rewrite app_nil_r. rewrite decide_False by done.
    rewrite rsplit_none by done. inversion Hw. by subst.
  - rewrite joined_snoc by done. rewrite decide_False by (by destruct (joined ps)). rewrite rsplit_app by done.
    unfold resolve_path. rewrite path_parts_joined by done.
    destruct (resolve_parts_dir w _ ps pc ls Hv Hw Hne) as (c' & e & Hr & He & Hcl).
    rewrite (bind_ok _ _ _ _ _ Hr), He, Hcl. done.
Qed.

Lemma resolve_path_run w ps pc ls name items tail l :
  vol_ok self w -> walk w (root_cluster b) ps pc ls -> Forall good_name (ps ++ [name]) ->
  dir_at self w pc items tail l -> (length l < fuel)%nat ->
  resolve_path fuel self (path_of (ps ++ [name])) w
  = match find_entry name (entries_at 0 items) with
    | Some e => (Ok (pc, Some e), w)
    | None => (Err (lit "path not found"), w)
    end.
Proof.
  intros Hv Hw Hgn Hd Hl. unfold resolve_path. rewrite path_parts_path_of by done.
  rewrite (resolve_parts_walk w _ ps pc ls name Hv Hw).
  rewrite (bind_ok _ _ _ _ _ (find_in_directory_run w pc items tail l name Hv Hd Hl)).
  by destruct (find_entry _ _).
Qed.

(** ** Removing *)

(** The clusters of a file: none, or a chain. *)
Definition file_chain (w : W) (c : Z) (lf : list Z) : Prop := (c < 2 /\ lf = []) \/ chain self w c lf.

Lemma find_entry_elem name es e : find_entry name es = Some e -> e ∈ es.
Proof. intros [Hin _]%find_some. by apply list_elem_of_In. Qed.

Lemma io_ok {A} (m : M W rstr A) w a w' : m w = (Ok a, w') -> io m w = (Ok a, w').
Proof. apply map_err_ok. Qed.
Lemma io_err {A} (m : M W rstr A) w e w' : m w = (Err e, w') -> io m w = (Err IoError, w').
Proof. apply map_err_err. Qed.

Lemma free_file_run w c lf :
  vol_ok self w -> file_chain w c lf -> (length lf < fuel)%nat ->
  exists w', (if 2 <=? c then io (free_chain fuel self c) else mret tt) w = (Ok tt, w') /\ vol_ok self w'
    /\ (forall x, is_cluster b x -> fat self w' x = if decide (x ∈ lf) then 0 else fat self w x)
    /\ (forall x, is_cluster b x -> clus self w' x = clus self w x).
Proof.
  intros Hv [[Hc ->]|Hc] Hl.
  - exists w. destruct (Z.leb_spec 2 c); [lia|]. split_and!; try done.
  - destruct (free_chain_run self Hg fuel w c lf Hv Hc Hl) as (w' & Hr & Hv' & Hf & Hcl). exists w'.
    destruct (chain_cons self w c lf Hc) as (? & _ & Hi & _). apply (is_cluster_bound self Hg) in Hi as [Hi _].
    destruct (Z.leb_spec 2 c); [|lia]. split_and!; [by apply io_ok|done| |done].
    intros y Hy. apply Hf. by apply (is_cluster_bound self Hg).
Qed.

(** Free the clusters of an entry, then delete the entry. *)
Lemma delete_run w pc items tail l e lf :
  vol_ok self w -> dir_at self w pc items tail l -> (length l < fuel)%nat -> e ∈ entries_at 0 items ->
  file_chain w (fe_cluster e) lf -> (length lf < fuel)%nat -> (forall x, x ∈ lf -> x ∉ l) ->
  exists w' items' es1 es2,
    ((if 2 <=? fe_cluster e then io (free_chain fuel self (fe_cluster e)) else mret tt) ;;
     io (remove_dir_entry fuel self pc e)) w = (Ok tt, w')
    /\ vol_ok self w' /\ dir_at self w' pc items' tail l
    /\ entries_at 0 items = es1 ++ e :: es2 /\ entries_at 0 items' = es1 ++ es2
    /\ (forall x, x ∈ lf -> is_free self w' x) /\ others_kept self w w' (l ++ lf).
Proof.
  intros Hv Hd Hl He Hf Hlf Hdis. destruct (free_file_run w _ lf Hv Hf Hlf) as (w1 & Hr1 & Hv1 & Hf1 & Hc1).
  assert (dir_at self w1 pc items tail l) as Hd1.
  { eapply dir_at_frame; [done..|]. intros x Hx. pose proof (chain_clusters self w pc l x (da_chain _ _ _ _ _ _ Hd) Hx).
    rewrite Hf1, Hc1 by done. rewrite decide_False; [done|]. intros Hin. by apply (Hdis x). }
  destruct (remove_dir_entry_run self Hg fuel w1 pc items tail l e Hv1 Hd1 Hl He)
    as (w2 & items' & es1 & es2 & Hr2 & Hv2 & Hd2 & He1 & He2 & Hk2).
  assert (forall x, x ∈ lf -> is_cluster b x) as Hlfc.
  { intros x Hx. destruct Hf as [[_ ->]|Hf]; [by apply elem_of_nil in Hx|by eapply chain_clusters]. }
  exists w2, items', es1, es2. split_and!; try done.
  - rewrite (bind_ok _ _ _ _ _ Hr1). by apply io_ok.
  - intros x Hx. split; [by apply Hlfc|]. destruct (Hk2 x (Hlfc x Hx) (Hdis x Hx)) as [-> _].
    rewrite Hf1 by by apply Hlfc. by rewrite decide_True.
  - apply (others_kept_frame self Hg _ _ _ (l ++ lf)); [by left|]. intros x Hx Hn.
    apply not_elem_of_app in Hn as [Hn1 Hn2]. destruct (Hk2 x Hx Hn1) as [-> ->]. rewrite Hf1, Hc1 by done.
    by rewrite decide_False.
Qed.

(** C31: [remove] on a path whose parent directory exists: a missing name is
    [NotFound] and a directory is [IsADirectory], both without any change; a file
    is deleted: the listing of its parent loses exactly its entry, its clusters
    become free, and every chain that is neither the parent's nor the file's keeps
    its clusters and contents. *)
Theorem fat_remove_spec w ps pc ls name items tail l :
  vol_ok self w -> walk w (root_cluster b) ps pc ls -> Forall good_name (ps ++ [name]) ->
  dir_at self w pc items tail l -> (length l < fuel)%nat ->
  match find_entry name (entries_at 0 items) with
  | None => fat_remove fuel self (path_of (ps ++ [name])) w = (Err NotFound, w)
  | Some e =>
      if fe_is_directory e then fat_remove fuel self (path_of (ps ++ [name])) w = (Err IsADirectory, w)
      else forall lf, file_chain w (fe_cluster e) lf -> (length lf < fuel)%nat -> (forall x, x ∈ lf -> x ∉ l) ->
        exists w' items' es1 es2, fat_remove fuel self (path_of (ps ++ [name])) w = (Ok tt, w')
          /\ vol_ok self w' /\ dir_at self w' pc items' tail l
          /\ entries_at 0 items = es1 ++ e :: es2 /\ entries_at 0 items' = es1 ++ es2
          /\ (forall x, x ∈ lf -> is_free self w' x) /\ others_kept self w w' (l ++ lf)
  end.
Proof.
  intros Hv Hw Hgn Hd Hl. unfold fat_remove.
  pose proof (map_err_ok (fun _ => InvalidPath) _ _ _ _ (split_path_run w ps pc ls name Hv Hw Hgn)) as Hsp.
  pose proof (io_ok _ _ _ _ (find_in_directory_run w pc items tail l name Hv Hd Hl)) as Hfind.
  unfold invalid. rewrite (bind_ok _ _ _ _ _ Hsp), (bind_ok _ _ _ _ _ Hfind).
  destruct (find_entry name (entries_at 0 items)) as [e|] eqn:He; [|done]. rewrite bind_ok_or_some.
  destruct (fe_is_directory e); [done|]. intros lf Hf Hlf Hdis.
  by apply (delete_run w pc items tail l e lf Hv Hd Hl (find_entry_elem _ _ _ He) Hf Hlf Hdis).
Qed.

(** C32: [rmdir] of a name that is there refuses a file with [NotADirectory] and a
    directory that lists anything with [NotEmpty], changing nothing; an empty
    directory is deleted as by [remove]. *)
Theorem fat_rmdir_spec w ps pc ls name items tail l e sub subtail lf :
  vol_ok self w -> walk w (root_cluster b) ps pc ls -> Forall good_name (ps ++ [name]) ->
  dir_at self w pc items tail l -> (length l < fuel)%nat ->
  find_entry name (entries_at 0 items) = Some e ->
  (fe_is_directory e = true ->
     dir_at self w (fe_cluster e) sub subtail lf /\ (length lf < fuel)%nat /\ forall x, x ∈ lf -> x ∉ l) ->
  if negb (fe_is_directory e) then fat_rmdir fuel self (path_of (ps ++ [name])) w = (Err NotADirectory, w)
  else if decide (entries_at 0 sub ≠ []) then fat_rmdir fuel self (path_of (ps ++ [name])) w = (Err NotEmpty, w)
  else exists w' items' es1 es2, fat_rmdir fuel self (path_of (ps ++ [name])) w = (Ok tt, w')
    /\ vol_ok self w' /\ dir_at self w' pc items' tail l
    /\ entries_at 0 items = es1 ++ e :: es2 /\ entries_at 0 items' = es1 ++ es2
    /\ (forall x, x ∈ lf -> is_free self w' x) /\ others_kept self w w' (l ++ lf).
Proof.
  intros Hv Hw Hgn Hd Hl He Hsub. unfold fat_rmdir.
  pose proof (map_err_ok (fun _ => InvalidPath) _ _ _ _ (split_path_run w ps pc ls name Hv Hw Hgn)) as Hsp.
  pose proof (io_ok _ _ _ _ (find_in_directory_run w pc items tail l name Hv Hd Hl)) as Hfind.
  unfold invalid. rewrite (bind_ok _ _ _ _ _ Hsp), (bind_ok _ _ _ _ _ Hfind), He. rewrite bind_ok_or_some.
  destruct (fe_is_directory e) eqn:Hdir; cbn [negb]; [|done]. destruct (Hsub eq_refl) as (Hds & Hlf & Hdis).
  rewrite (bind_ok _ _ _ _ _ (io_ok _ _ _ _ (read_directory_run self Hg fuel w _ sub subtail lf Hv Hds Hlf))).
  destruct (decide (entries_at 0 sub ≠ [])); [done|]. pose proof (da_chain _ _ _ _ _ _ Hds) as Hc.
  destruct (delete_run w pc items tail l e lf Hv Hd Hl (find_entry_elem _ _ _ He) (or_intror Hc) Hlf Hdis) as (w' & items' & es1 & es2 & Hr & Hrest).
  exists w', items', es1, es2. split; [|exact Hrest]. rewrite <- Hr.
  destruct (chain_cons self w _ lf Hc) as (? & _ & Hi & _). apply (is_cluster_bound self Hg) in Hi as [Hi _].
  by destruct (Z.leb_spec 2 (fe_cluster e)); [|lia].
Qed.

(** ** Writing a file back *)
Lemma s_cluster_put e size c : 0 <= c < 2 ^ 32 -> s_cluster (set_size_cluster e size c) = c.
Proof.
  intros Hc. unfold s_cluster, set_size_cluster. cbn [s_cluster_high s_cluster_low].
  unfold u16, u32. rewrite Z.shiftr_div_pow2, Z.shiftl_mul_pow2 by lia.
  assert (0 <= c / 2 ^ 16 < 2 ^ 16) by (split; [apply Z.div_pos; lia|apply Z.div_lt_upper_bound; lia]).
  rewrite (Z.mod_small (c / 2 ^ 16)) by done. rewrite Z.mod_small by nia.
  rewrite <- Z.shiftl_mul_pow2, <- Z.shiftr_div_pow2, <- Z.ldiff_ones_r, <- Z.land_ones by lia.
  apply Z.lor_ldiff_and.
Qed.

Lemma is_directory_put e size c : is_directory (set_size_cluster e size c) = is_directory e.
Proof. done. Qed.

Lemma find_entry_retouch name off size c es :
  find_entry name (retouch off size c <$> es) = retouch off size c <$> find_entry name es.
Proof.
  induction es as [|e es IH]; [done|]. unfold find_entry in *. cbn.
  assert (fe_name (retouch off size c e) = fe_name e) as -> by (unfold retouch; by case_decide).
  by case_bool_decide.
Qed.

(** The clusters [write_chain] or [free_chain] leave to the file, and what they
    hold. *)
Lemma store_data_run w c lf data :
  vol_ok self w -> file_chain w c lf -> (length lf < fuel)%nat -> Forall is_byte data ->
  needed self data <= zlen lf + Z.of_nat (free_count self w) ->
  exists c' lf' w',
    (if decide (data = []) then
       (if 2 <=? c then io (free_chain fuel self c) else mret tt) ;; mret 0
     else io (write_chain self c data)) w = (Ok c', w') /\ vol_ok self w'
    /\ (data = [] /\ c' = 0 /\ lf' = [] \/
        data ≠ [] /\ chain self w' c' lf' /\ zlen lf' = needed self data
        /\ exists pad, contents self w' lf' = data ++ pad)
    /\ (forall x, x ∈ lf' -> x ∈ lf \/ fat self w x = 0) /\ kept self w w' lf.
Proof.
  intros Hv Hf Hl Hb Hn. destruct (decide (data = [])) as [->|Hne].
  - destruct (free_file_run w c lf Hv Hf Hl) as (w' & Hr & Hv' & Hf' & Hc'). exists 0, [], w'.
    rewrite (bind_ok _ _ _ _ _ Hr). split_and!; [done|done|by left|by intros x ?%elem_of_nil|].
    intros x Hx Hxl _. rewrite Hf', Hc' by done. by rewrite decide_False.
  - pose proof (write_chain_run self Hg w c lf data Hv Hf Hne Hb) as Hrun. rewrite decide_True in Hrun by done.
    destruct Hrun as (first & l2 & w' & Hr & (Hv' & Hc' & Hl2 & (new & Hnew & Hfree) & Hcon & Hfr) & _).
    exists first, l2, w'. split; [by apply io_ok|]. split; [done|].
    assert (forall x, x ∈ l2 -> x ∈ lf \/ fat self w x = 0) as Hin.
    { intros x Hx. rewrite Hnew in Hx. apply elem_of_app in Hx as [(j & Hj & _)%elem_of_take|Hx].
      - left. by eapply list_elem_of_lookup_2.
      - right. rewrite Forall_forall in Hfree. by apply Hfree. }
    split_and!; [right; split_and!; [done|done|done|by eexists]|done|].
    intros x Hx Hxl Hz. apply Hfr; [done|]. intros Hx2. by destruct (Hin x Hx2).
Qed.

Lemma sync_file_run w ps pc ls name items tail l e lf data :
  vol_ok self w -> walk w (root_cluster b) ps pc ls -> Forall good_name (ps ++ [name]) ->
  dir_at self w pc items tail l -> (length l < fuel)%nat ->
  find_entry name (entries_at 0 items) = Some e -> file_chain w (fe_cluster e) lf -> (length lf < fuel)%nat ->
  (forall x, x ∈ lf -> x ∉ l) -> Forall is_byte data -> zlen data < 2 ^ 32 ->
  needed self data <= zlen lf + Z.of_nat (free_count self w) ->
  exists c' lf' items' w', sync_file fuel self (path_of (ps ++ [name])) (fe_cluster e) data w = (Ok tt, w')
    /\ vol_ok self w' /\ dir_at self w' pc items' tail l
    /\ entries_at 0 items' = retouch (fe_entry_offset e) (zlen data) c' <$> entries_at 0 items
    /\ (data = [] /\ c' = 0 \/ data ≠ [] /\ chain self w' c' lf' /\ zlen lf' = needed self data
        /\ exists pad, contents self w' lf' = data ++ pad)
    /\ kept self w w' (l ++ lf).
Proof.
  intros Hv Hw Hgn Hd Hl He Hf Hlf Hdis Hb Hsz Hn. pose proof (find_entry_elem _ _ _ He) as Hel.
  destruct (store_data_run w _ lf data Hv Hf Hlf Hb Hn) as (c' & lf' & w1 & Hr1 & Hv1 & Hres & Hin & Hk1).
  pose proof Hd as [Hc _ _].
  assert (forall x, x ∈ l -> is_cluster b x /\ (x ∉ lf) /\ fat self w x ≠ 0) as Hlx.
  { intros x Hx. split; [by eapply chain_clusters|]. split; [|by eapply chain_not_free].
    intros Hy. by apply (Hdis x). }
  assert (dir_at self w1 pc items tail l) as Hd1.
  { eapply dir_at_frame; [done..|]. intros x Hx. destruct (Hlx x Hx) as (? & ? & ?). by apply Hk1. }
  assert (0 <= zlen data < 2 ^ 32) as Hsz' by (unfold zlen in *; lia).
  destruct (update_dir_entry_run self Hg fuel w1 pc items tail l e (zlen data) c' Hv1 Hd1 Hl Hel Hsz')
    as (w2 & items' & Hr2 & Hv2 & Hd2 & He2 & Hk2).
  assert (forall x, x ∈ lf' -> x ∉ l) as Hdis'.
  { intros x Hx Hxl. destruct (Hlx x Hxl) as (_ & Hy & Hz). by destruct (Hin x Hx). }
  exists c', lf', items', w2. split_and!; try done.
  - unfold sync_file, invalid.
    rewrite (bind_ok _ _ _ _ _ (map_err_ok (fun _ => InvalidPath) _ _ _ _ (split_path_run w ps pc ls name Hv Hw Hgn))).
    rewrite (bind_ok _ _ _ _ _ (io_ok _ _ _ _ (find_in_directory_run w pc items tail l name Hv Hd Hl))), He.
    rewrite bind_ok_or_some, (bind_ok _ _ _ _ _ Hr1). rewrite u32_small by done. by apply io_ok.
  - destruct Hres as [(? & ? & _)|(? & Hc' & ? & pad & Hpad)]; [by left|right]. split_and!; try done.
    + eapply chain_frame; [done..|]. intros x Hx. apply Hk2; [exact (chain_clusters self w1 c' lf' x Hc' Hx)|by apply Hdis'].
    + exists pad. rewrite <- Hpad. apply contents_frame. intros x Hx. apply Hk2; [exact (chain_clusters self w1 c' lf' x Hc' Hx)|by apply Hdis'].
  - intros x Hx Hn2 Hz. apply not_elem_of_app in Hn2 as [Hn1 Hn2].
    destruct (Hk2 x Hx Hn1) as [-> ->]. by apply Hk1.
Qed.

Lemma fat_persist_run w ps pc ls name items tail l e lf h flags :
  vol_ok self w -> walk w (root_cluster b) ps pc ls -> Forall good_name (ps ++ [name]) ->
  dir_at self w pc items tail l -> (length l < fuel)%nat -> (forall x, x ∈ ls -> x ∉ l ++ lf) ->
  find_entry name (entries_at 0 items) = Some e -> fe_is_directory e = false ->
  file_chain w (fe_cluster e) lf -> (length lf < fuel)%nat -> (forall x, x ∈ lf -> x ∉ l) ->
  fh_path h = path_of (ps ++ [name]) -> fh_cluster h = fe_cluster e -> fh_dirty h = true ->
  Forall is_byte (fh_data h) -> zlen (fh_data h) < 2 ^ 32 -> needed self (fh_data h) < Z.of_nat fuel ->
  needed self (fh_data h) <= zlen lf + Z.of_nat (free_count self w) ->
  OpenFlags.contains flags OpenFlags.O_TRUNC = false -> OpenFlags.contains flags OpenFlags.O_APPEND = false ->
  (forall x, x ∈ ls -> fat self w x ≠ 0 /\ is_cluster b x) ->
  exists w' c', fat_drop fuel self h w = (Ok tt, w') /\ vol_ok self w'
    /\ fat_open fuel self (fh_path h) flags w'
       = (Ok (mkFatHandle (fh_path h) c' (zlen (fh_data h)) 0 (fh_data h) false flags), w')
    /\ read_directory fuel self pc w'
       = (Ok (retouch (fe_entry_offset e) (zlen (fh_data h)) c' <$> entries_at 0 items), w')
    /\ others_kept self w w' (l ++ lf).
Proof.
  intros Hv Hw Hgn Hd Hl Hls He Hdir Hf Hlf Hdis Hpath Hcl Hdirty Hb Hsz Hfu Hn Htr Hap Hlsc.
  destruct (sync_file_run w ps pc ls name items tail l e lf (fh_data h) Hv Hw Hgn Hd Hl He Hf Hlf Hdis Hb Hsz Hn)
    as (c' & lf' & items' & w' & Hr & Hv' & Hd' & He' & Hres & Hk).
  exists w', c'. split_and!; [|done| | |by apply kept_others].
  - unfold fat_drop. rewrite Hdirty, Hpath, Hcl, Hr. done.
  - assert (walk w' (root_cluster b) ps pc ls) as Hw'.
    { eapply walk_frame; [done|]. intros x Hx. destruct (Hlsc x Hx). apply Hk; auto. }
    pose proof (resolve_path_run w' ps pc ls name items' tail l Hv' Hw' Hgn Hd' Hl) as Hres'.
    rewrite He', find_entry_retouch, He in Hres'. cbn [fmap option_fmap option_map] in Hres'.
    set (e' := retouch (fe_entry_offset e) (zlen (fh_data h)) c' e) in *.
    assert (fe_short_entry e' = set_size_cluster (fe_short_entry e) (zlen (fh_data h)) c') as Hse
      by (unfold e', retouch; by rewrite decide_True).
    assert (0 <= c' < 2 ^ 32) as Hc'.
    { destruct Hres as [[_ ->]|(_ & Hch & _)]; [lia|]. destruct (chain_cons self w' c' lf' Hch) as (? & _ & Hi & _).
      apply (is_cluster_bound self Hg) in Hi as [Hi _]. unfold FAT32_BAD in Hi. lia. }
    assert (fe_cluster e' = c') as Hec by (unfold fe_cluster; rewrite Hse; by apply s_cluster_put).
    assert (fe_size e' = zlen (fh_data h)) as Hes by (unfold fe_size; by rewrite Hse).
    assert (fe_is_directory e' = false) as Hed by (unfold fe_is_directory; by rewrite Hse).
    unfold fat_open. rewrite Hpath. unfold missing.
    rewrite (bind_ok _ _ _ _ _ (map_err_ok (fun _ => NotFound) _ _ _ _ Hres')), Hed, Hec, Hes, Htr, Hap.
    destruct Hres as [[-> ->]|(Hne & Hch & Hlen & pad & Hcon)].
    + destruct (Z.leb_spec 2 0); [lia|]. by rewrite bind_ret.
    + destruct (chain_cons self w' c' lf' Hch) as (? & _ & Hi & _).
      apply (is_cluster_bound self Hg) in Hi as [Hi _]. destruct (Z.leb_spec 2 c'); [|lia].
      rewrite bind_assoc, (bind_ok _ _ _ _ _ (io_ok _ _ _ _ (read_chain_run self Hg fuel w' c' lf' Hv' Hch ltac:(unfold zlen in *; lia)))).
      rewrite bind_ret, Hcon. unfold zlen. rewrite Nat2Z.id, take_app_length. done.
  - by rewrite (read_directory_run self Hg fuel w' pc items' tail l), He'.
Qed.

(** C18: What a program writes is there when the file is opened again.  Dropping
    a dirty handle of a file whose parent directory exists writes its data back;
    opening the same path afterwards (not truncating, not appending) gives a
    handle with exactly that data, at position 0; the listing of the parent has
    changed in that entry's size and first cluster only; and every chain that is
    neither the parent's nor the file's is untouched.  It needs enough free
    clusters and a file below 4 GiB. *)
Theorem fat_persist w ps pc ls name items tail l e lf h flags :
  vol_ok self w -> walk w (root_cluster b) ps pc ls -> Forall good_name (ps ++ [name]) ->
  dir_at self w pc items tail l -> (length l < fuel)%nat -> (forall x, x ∈ ls -> x ∉ l ++ lf) ->
  find_entry name (entries_at 0 items) = Some e -> fe_is_directory e = false ->
  file_chain w (fe_cluster e) lf -> (length lf < fuel)%nat -> (forall x, x ∈ lf -> x ∉ l) ->
  fh_path h = path_of (ps ++ [name]) -> fh_cluster h = fe_cluster e -> fh_dirty h = true ->
  Forall is_byte (fh_data h) -> zlen (fh_data h) < 2 ^ 32 -> needed self (fh_data h) < Z.of_nat fuel ->
  needed self (fh_data h) <= zlen lf + Z.of_nat (free_count self w) ->
  OpenFlags.contains flags OpenFlags.O_TRUNC = false -> OpenFlags.contains flags OpenFlags.O_APPEND = false ->
  (forall x, x ∈ ls -> fat self w x ≠ 0 /\ is_cluster b x) ->
  exists w' c', fat_drop fuel self h w = (Ok tt, w') /\ vol_ok self w'
    /\ fat_open fuel self (fh_path h) flags w'
       = (Ok (mkFatHandle (fh_path h) c' (zlen (fh_data h)) 0 (fh_data h) false flags), w')
    /\ read_directory fuel self pc w'
       = (Ok (retouch (fe_entry_offset e) (zlen (fh_data h)) c' <$> entries_at 0 items), w')
    /\ others_kept self w w' (l ++ lf).
Proof. apply fat_persist_run. Qed.

(** ** Making a directory *)
Definition dot_name : bytes := lit ".          ".
Definition dotdot_name : bytes := lit "..         ".

Lemma dot_short_wf nm c :
  length nm = 11%nat -> Forall is_byte nm -> rd nm 0 ≠ 0 -> short_wf (dot_short nm c).
Proof.
  intros Hl Hb Hf. unfold dot_short.
  split; cbn [s_name s_attr s_nt_res s_create_time_tenth s_create_time s_create_date s_access_date s_cluster_high
    s_modify_time s_modify_date s_cluster_low s_size]; (done || apply u16_range || (unfold is_byte, ATTR_DIRECTORY; lia)).
Qed.

Lemma dot_item nm c :
  nm = dot_name \/ nm = dotdot_name -> item_ok (Skip (Short_serialize (dot_short nm c))).
Proof.
  intros Hnm. assert (short_wf (dot_short nm c)) as Hw.
  { apply dot_short_wf; destruct Hnm as [-> | ->]; (reflexivity || done || (apply (bool_decide_unpack _); reflexivity)). }
  assert (short_of (Short_serialize (dot_short nm c)) = dot_short nm c) as Hof by (unfold short_of; by rewrite Short_parse_serialize).
  split; [|rewrite Hof; by destruct Hnm as [-> | ->]].
  split; [split; [split; [by apply length_Short_serialize|by apply Short_serialize_bytes]|]|];
    destruct Hnm as [-> | ->]; done.
Qed.

(** The contents [mkdir] gives a new directory. *)
Definition empty_items (n pc : Z) : list item :=
  [Skip (Short_serialize (dot_short dot_name n)); Skip (Short_serialize (dot_short dotdot_name pc))].
Definition empty_tail : list slot := replicate (per_cluster self - 2) zslot.

Lemma empty_wf n pc : dir_wf (empty_items n pc) empty_tail.
Proof.
  split; [|apply Forall_replicate, zslot_unused].
  apply Forall_cons. split; [apply dot_item; auto|]. apply Forall_cons. split; [apply dot_item; auto|constructor].
Qed.

Lemma per_cluster_16 : (16 <= per_cluster self)%nat.
Proof. unfold per_cluster. pose proof (g_spc _ Hg). lia. Qed.

Lemma empty_image n pc w :
  (data ← store (replicate (Z.to_nat (bytes_per_cluster b)) 0) 0 (Short_serialize (dot_short dot_name n));
   store data 32 (Short_serialize (dot_short dotdot_name pc)) : M W VfsError bytes) w
  = (Ok (dir_image (empty_items n pc) empty_tail), w)
  /\ zlen (dir_image (empty_items n pc) empty_tail) = 512 * sectors_per_cluster b
  /\ Forall is_byte (dir_image (empty_items n pc) empty_tail).
Proof.
  pose proof per_cluster_16 as Hp. pose proof (dir_wf_slots _ _ (empty_wf n pc)) as Hok.
  assert (replicate (Z.to_nat (bytes_per_cluster b)) 0 = image (zslot :: zslot :: empty_tail)) as ->.
  { change (zslot :: zslot :: empty_tail) with (replicate (2 + (per_cluster self - 2)) zslot). rewrite image_zeros, (cluster_size self Hg).
    f_equal. unfold per_cluster in *. pose proof (g_spc _ Hg). lia. }
  pose proof (proj1 zslot_unused) as Hz.
  pose proof (Forall_inv Hok) as Hd1. pose proof (Forall_inv (Forall_inv_tail Hok)) as Hd2.
  split; [|split].
  - rewrite (bind_ok _ _ _ _ _ (store_slot [] zslot _ (zslot :: empty_tail) w (Forall_nil_2 _) Hz Hd1)).
    apply (store_slot [Short_serialize (dot_short dot_name n)] zslot _ empty_tail w); auto.
  - rewrite (length_dir_image) by apply empty_wf. unfold zlen. cbn [slots_of mbind list_bind item_slots app empty_items].
    unfold empty_tail. cbn [length]. rewrite length_replicate. unfold per_cluster in *. lia.
  - by apply image_bytes.
Qed.

(** What [mkdir] does when it finds a cluster or two; [fat_mkdir_spec] and
    [fat_mkdir_found] are read off it. *)
Lemma fat_mkdir_run w ps pc ls name items tail l :
  vol_ok self w -> walk w (root_cluster b) ps pc ls -> Forall good_name (ps ++ [name]) ->
  dir_at self w pc items tail l -> (length l < fuel)%nat ->
  name_ok name -> (length (new_lfns name) < per_cluster self)%nat ->
  match find_entry name (entries_at 0 items) with
  | Some _ => fat_mkdir fuel self (path_of (ps ++ [name])) w = (Err AlreadyExists, w)
  | None =>
      (exists w' n items' tail' l' sub subtail es1 es2 e,
         fat_mkdir fuel self (path_of (ps ++ [name])) w = (Ok tt, w') /\ vol_ok self w' /\ is_free self w n
         /\ dir_at self w' pc items' tail' (l ++ l') /\ (length l' <= 1)%nat
         /\ entries_at 0 items = es1 ++ es2 /\ entries_at 0 items' = es1 ++ e :: es2
         /\ fe_name e = created_name name /\ fe_is_directory e = true /\ fe_size e = 0 /\ fe_cluster e = n
         /\ dir_at self w' n sub subtail [n] /\ entries_at 0 sub = []
         /\ kept self w w' l)
      \/ (free_count self w <= 1)%nat /\ (fat_mkdir fuel self (path_of (ps ++ [name])) w).1 = Err IoError
  end.
Proof.
  intros Hv Hw Hgn Hd Hl Hnm Hfit. unfold fat_mkdir.
  pose proof (map_err_ok (fun _ => InvalidPath) _ _ _ _ (split_path_run w ps pc ls name Hv Hw Hgn)) as Hsp.
  pose proof (io_ok _ _ _ _ (find_in_directory_run w pc items tail l name Hv Hd Hl)) as Hfind.
  unfold invalid. rewrite (bind_ok _ _ _ _ _ Hsp), (bind_ok _ _ _ _ _ Hfind).
  destruct (find_entry name (entries_at 0 items)) as [e|]; [done|].
  destruct (decide (free_count self w = 0%nat)) as [Hz|Hz].
  { right. split; [lia|]. by rewrite (bind_err _ _ _ _ _ (io_err _ _ _ _ (allocate_cluster_full self Hg w Hv Hz))). }
  destruct (free_count_pos self w ltac:(lia)) as [n Hfn]. pose proof (allocate_cluster_run self Hg w Hv) as Ha.
  rewrite Hfn in Ha. destruct Ha as (w1 & Hr1 & Hfr & Hv1 & Hf1 & Hc1). pose proof Hfr as [Hni Hn0].
  pose proof (is_cluster_bound self Hg n Hni) as [Hnb Hnr].
  rewrite (bind_ok _ _ _ _ _ (io_ok _ _ _ _ Hr1)).
  destruct (empty_image n pc w1) as (Himg & Hlen & Hbytes). rewrite (bind_then_ok _ _ _ _ _ _ Himg).
  destruct (write_cluster_run self Hg w1 n _ Hv1 Hni Hlen Hbytes) as (w2 & Hr2 & Hset). pose proof Hset as (Hv2 & _ & Hc2).
  rewrite (bind_ok _ _ _ _ _ (io_ok _ _ _ _ Hr2)).
  assert (forall x, is_cluster b x -> x ≠ n -> fat self w2 x = fat self w x /\ clus self w2 x = clus self w x) as Hk.
  { intros x Hx Hxn. pose proof (is_cluster_bound self Hg x Hx) as [_ Hxr].
    rewrite (cluster_set_fat self Hg w1 w2 n _ x Hset Hxr), Hf1, Hc2, Hc1 by done. by rewrite !decide_False. }
  pose proof Hd as [Hc _ _].
  assert (forall x, x ∈ l -> is_cluster b x /\ x ≠ n) as Hlx.
  { intros x Hx. split; [by eapply chain_clusters|]. intros ->. by apply (chain_not_free self Hg w pc l n Hc Hx). }
  assert (dir_at self w2 pc items tail l) as Hd2 by (eapply dir_at_frame; [done..|]; intros x Hx; apply Hk; by apply Hlx).
  assert (fat self w2 n = EOC) as Hfn2.
  { rewrite (cluster_set_fat self Hg w1 w2 n _ n Hset Hnr), Hf1 by done. by rewrite decide_True. }
  assert (free_count self w = S (free_count self w2)) as Hct.
  { apply (free_count_drop self Hg w w2 n Hfr). intros x Hx. unfold is_free. destruct (decide (x = n)) as [->|Hxn].
    - rewrite Hfn2. split; [by intros [_ ?]|by intros [_ ?]].
    - destruct (Hk x Hx Hxn) as [-> _]. naive_solver. }
  destruct (add_dir_entry_run self Hg fuel w2 pc items tail l name ATTR_DIRECTORY n 0 Hv2 Hd2 Hl Hnm)
    as [(w3 & items' & tail' & l' & es1 & es2 & i & Hr3 & Hv3 & Hd3 & Hl3 & _ & He1 & He2 & Hk3)|[Hz3 (w3 & Hr3)]];
    [split; vm_compute; congruence|reflexivity|lia|done| |].
  - left. exists w3, n, items', tail', l', (empty_items n pc), empty_tail, es1, es2. eexists.
    assert (n ∉ l) as Hnl by (intros Hx; by destruct (Hlx n Hx)).
    destruct (Hk3 n Hni Hnl) as [Hf3 Hc3]; [by rewrite Hfn2|].
    split; [by apply io_ok|]. split_and!; try done.
    + unfold fe_cluster. cbn [fe_short_entry]. apply (s_cluster_put (Short_new name ATTR_DIRECTORY 0 0) 0). unfold FAT32_BAD in *. lia.
    + split; [|apply empty_wf|].
      * apply chain_single; [done|]. rewrite Hf3, Hfn2. done.
      * unfold contents. cbn. rewrite app_nil_r, Hc3, Hc2 by done. by rewrite decide_True.
    + intros x Hx Hxl Hz'. assert (x ≠ n) as Hxn by by intros ->.
      destruct (Hk x Hx Hxn) as [Hfx Hcx]. rewrite <- Hfx, <- Hcx. apply Hk3; [done|done|by rewrite Hfx].
  - right. split; [lia|]. by rewrite (io_err _ _ _ _ Hr3).
Qed.

(** C30: [mkdir] on a path whose parent exists: a name that is taken is
    [AlreadyExists], without any change.  Otherwise the new directory is there,
    empty, on a cluster that was free; the listing of the parent has gained
    exactly its entry, marked as a directory and listed under the name given (or as its
    8.3 name in lower case when no long name is needed); and every chain but the parent's is
    untouched.  It can fail only for want of clusters: one for the directory and one
    for the parent's growth. *)
Theorem fat_mkdir_spec w ps pc ls name items tail l :
  vol_ok self w -> walk w (root_cluster b) ps pc ls -> Forall good_name (ps ++ [name]) ->
  dir_at self w pc items tail l -> (length l < fuel)%nat ->
  name_ok name -> (length (new_lfns name) < per_cluster self)%nat ->
  match find_entry name (entries_at 0 items) with
  | Some _ => fat_mkdir fuel self (path_of (ps ++ [name])) w = (Err AlreadyExists, w)
  | None =>
      (exists w' n items' tail' l' sub subtail es1 es2 e,
         fat_mkdir fuel self (path_of (ps ++ [name])) w = (Ok tt, w') /\ vol_ok self w' /\ is_free self w n
         /\ dir_at self w' pc items' tail' (l ++ l')
         /\ entries_at 0 items = es1 ++ es2 /\ entries_at 0 items' = es1 ++ e :: es2
         /\ fe_name e = created_name name /\ fe_is_directory e = true /\ fe_cluster e = n
         /\ dir_at self w' n sub subtail [n] /\ entries_at 0 sub = []
         /\ others_kept self w w' l)
      \/ (free_count self w <= 1)%nat /\ (fat_mkdir fuel self (path_of (ps ++ [name])) w).1 = Err IoError
  end.
Proof.
  intros Hv Hw Hgn Hd Hl Hnm Hfit. pose proof (fat_mkdir_run w ps pc ls name items tail l Hv Hw Hgn Hd Hl Hnm Hfit) as Hrun.
  destruct (find_entry name (entries_at 0 items)); [exact Hrun|].
  destruct Hrun as [(w' & n & items' & tail' & l' & sub & subtail & es1 & es2 & e & Hrun)|Hrun]; [left|by right].
  destruct Hrun as (Hr & Hv' & Hn & Hd' & _ & He & He' & Hname & Hdir & _ & Hcl & Hsub & Hnone & Hk).
  exists w', n, items', tail', l', sub, subtail, es1, es2, e. split_and!; try done. by apply (kept_others self Hg).
Qed.





End ops.

(** ** A volume with a file and a directory *)
Module Demo.
#[export] Instance ascii_case : UnicodeCase.
Proof.
  refine (Build_UnicodeCase (fmap to_ascii_uppercase) (fmap to_ascii_lowercase) _ _); done.
Defined.

Definition bpb : Bpb := mkBpb 512 1 1 2 8 1 2 0.
Definition fs : Fat32Inner unit := mkInner tt bpb.

Definition file_item : item := new_item (lit "HELLO.TXT") ATTR_ARCHIVE 3 1000.
Definition dir_item : item := new_item (lit "docs") ATTR_DIRECTORY 5 0.
Definition root_items : list item := [file_item; dir_item].
Definition root_tail : list slot := replicate 13 zslot.

Definition table : bytes :=
  ([0; 0; 0; 0] ++ [0; 0; 0; 0] ++ to_le 4 EOC ++ to_le 4 4 ++ to_le 4 EOC ++ to_le 4 EOC ++ to_le 4 0) ++ replicate 484 0.

(** Clusters 2 to 6: the root directory, two of the file, the directory, a free one. *)
Definition vol : RamDisk :=
  [replicate 512 0; table; table; dir_image root_items root_tail; replicate 512 7; replicate 512 9;
   dir_image (empty_items 5 2) (empty_tail fs); replicate 512 0].

Lemma geom : geom_wf bpb.
Proof. split; vm_compute; (split; congruence) || congruence || done. Qed.

Lemma ok : vol_ok fs vol.
Proof. apply vol_ok_ram; [reflexivity|]. apply (bool_decide_unpack _). vm_compute. reflexivity. Qed.

Lemma name_ok_dec name : bool_decide (name ≠ [] /\ Forall lfn_char name /\ (length name <= LFN_MAX)%nat) = true -> name_ok name.
Proof. apply bool_decide_eq_true. Qed.

Lemma root_wf : dir_wf root_items root_tail.
Proof.
  split; [|apply Forall_replicate, zslot_unused]. apply Forall_cons. split; [|apply Forall_cons; split; [|constructor]].
  - apply new_item_ok; [apply name_ok_dec; vm_compute; reflexivity|split; vm_compute; congruence|reflexivity|lia].
  - apply new_item_ok; [apply name_ok_dec; vm_compute; reflexivity|split; vm_compute; congruence|reflexivity|lia].
Qed.

Lemma single c : bool_decide (2 <= c < clusters bpb + 2 /\ FAT32_EOC <= fat fs vol c) = true -> chain fs vol c [c].
Proof. intros [Hc He]%bool_decide_eq_true. by apply (chain_single fs). Qed.

Lemma root_at : dir_at fs vol 2 root_items root_tail [2].
Proof. split; [apply single; vm_compute; reflexivity|apply root_wf|vm_compute; reflexivity]. Qed.

Lemma docs_at : dir_at fs vol 5 (empty_items 5 2) (empty_tail fs) [5].
Proof. split; [apply single; vm_compute; reflexivity|apply (empty_wf fs)|vm_compute; reflexivity]. Qed.

Lemma file_at : chain fs vol 3 [3; 4].
Proof.
  apply (chain_app_cons fs); [split; vm_compute; congruence|].
  assert (fat fs vol 3 = 4) as -> by (vm_compute; reflexivity). apply single. vm_compute. reflexivity.
Qed.

Definition path (name : rstr) : rstr := path_of ([] ++ [name]).
Definition file_entry : FatDirEntry := entry_of 0 [] (Short_serialize (Short_new (lit "HELLO.TXT") ATTR_ARCHIVE 3 1000)).
Definition dir_entry : FatDirEntry :=
  entry_of 32 (Lfn_serialize <$> new_lfns (lit "docs")) (Short_serialize (Short_new (lit "docs") ATTR_DIRECTORY 5 0)).

Lemma find_file : find_entry (lit "hello.TXT") (entries_at 0 root_items) = Some file_entry.
Proof. vm_compute. reflexivity. Qed.
Lemma find_docs : find_entry (lit "docs") (entries_at 0 root_items) = Some dir_entry.
Proof. vm_compute. reflexivity. Qed.
Lemma good name : bool_decide (good_name name) = true -> Forall good_name ([] ++ [name]).
Proof. intros Hn%bool_decide_eq_true. by apply Forall_singleton. Qed.
Lemma hello_good : Forall good_name ([] ++ [lit "hello.TXT"]).
Proof. apply good. vm_compute. reflexivity. Qed.
Lemma docs_good : Forall good_name ([] ++ [lit "docs"]).
Proof. apply good. vm_compute. reflexivity. Qed.
Lemma music_good : Forall good_name ([] ++ [lit "music"]).
Proof. apply good. vm_compute. reflexivity. Qed.
Lemma music_name : name_ok (lit "music").
Proof. apply name_ok_dec. vm_compute. reflexivity. Qed.
Lemma apart (l y : list Z) x : bool_decide (Forall (fun z => z ∉ y) l) = true -> x ∈ l -> x ∉ y.
Proof. intros Hf%bool_decide_eq_true. rewrite Forall_forall in Hf. apply Hf. Qed.
End Demo.
#[local] Existing Instance Demo.ascii_case.

Lemma fat_remove_spec_witness :
  exists w' items' es1 es2, fat_remove 5 Demo.fs (Demo.path (lit "hello.TXT")) Demo.vol = (Ok tt, w')
    /\ vol_ok Demo.fs w' /\ dir_at Demo.fs w' 2 items' Demo.root_tail [2]
    /\ entries_at 0 Demo.root_items = es1 ++ Demo.file_entry :: es2 /\ entries_at 0 items' = es1 ++ es2
    /\ (forall x, x ∈ [3; 4] -> is_free Demo.fs w' x) /\ others_kept Demo.fs Demo.vol w' ([2] ++ [3; 4]).
Proof.
  pose proof (fat_remove_spec 5 Demo.fs Demo.geom Demo.vol [] 2 [] (lit "hello.TXT") Demo.root_items Demo.root_tail [2]
    Demo.ok (walk_here _ _ _ 2) Demo.hello_good Demo.root_at) as Hp.
  rewrite Demo.find_file in Hp. change (fe_is_directory Demo.file_entry) with false in Hp. cbv iota in Hp.
  apply Hp; [simpl; lia|right; exact Demo.file_at|simpl; lia|]. intros x. apply Demo.apart. reflexivity.
Defined.

Lemma fat_rmdir_spec_witness :
  exists w' items' es1 es2, fat_rmdir 5 Demo.fs (Demo.path (lit "docs")) Demo.vol = (Ok tt, w')
    /\ vol_ok Demo.fs w' /\ dir_at Demo.fs w' 2 items' Demo.root_tail [2]
    /\ entries_at 0 Demo.root_items = es1 ++ Demo.dir_entry :: es2 /\ entries_at 0 items' = es1 ++ es2
    /\ (forall x, x ∈ [5] -> is_free Demo.fs w' x) /\ others_kept Demo.fs Demo.vol w' ([2] ++ [5]).
Proof.
  pose proof (fat_rmdir_spec 5 Demo.fs Demo.geom Demo.vol [] 2 [] (lit "docs") Demo.root_items Demo.root_tail [2]
    Demo.dir_entry (empty_items 5 2) (empty_tail Demo.fs) [5]
    Demo.ok (walk_here _ _ _ 2) Demo.docs_good Demo.root_at ltac:(simpl; lia) Demo.find_docs) as Hp.
  change (fe_is_directory Demo.dir_entry) with true in Hp. cbv iota beta delta [negb] in Hp.
  rewrite decide_False in Hp by (intros Hn; by apply Hn). apply Hp. intros _. change (fe_cluster Demo.dir_entry) with 5.
  split; [exact Demo.docs_at|]. split; [simpl; lia|]. intros x. apply Demo.apart. reflexivity.
Defined.

Lemma fat_mkdir_spec_witness :
  exists w' n items' tail' l' sub subtail es1 es2 e,
    fat_mkdir 5 Demo.fs (Demo.path (lit "music")) Demo.vol = (Ok tt, w') /\ vol_ok Demo.fs w' /\ is_free Demo.fs Demo.vol n
    /\ dir_at Demo.fs w' 2 items' tail' ([2] ++ l')
    /\ entries_at 0 Demo.root_items = es1 ++ es2 /\ entries_at 0 items' = es1 ++ e :: es2
    /\ fe_name e = created_name (lit "music") /\ fe_is_directory e = true /\ fe_cluster e = n
    /\ dir_at Demo.fs w' n sub subtail [n] /\ entries_at 0 sub = []
    /\ others_kept Demo.fs Demo.vol w' [2].
Proof.
  pose proof (fat_mkdir_spec 5 Demo.fs Demo.geom Demo.vol [] 2 [] (lit "music") Demo.root_items Demo.root_tail [2]
    Demo.ok (walk_here _ _ _ 2) Demo.music_good Demo.root_at ltac:(simpl; lia)
    Demo.music_name ltac:(vm_compute; lia)) as Hp.
  assert (find_entry (lit "music") (entries_at 0 Demo.root_items) = None) as Hf by (vm_compute; reflexivity).
  rewrite Hf in Hp. destruct Hp as [Hp|[_ He]]; [exact Hp|]. exfalso. revert He. vm_compute. congruence.
Defined.


Lemma fat_persist_witness :
  exists w' c', fat_drop 5 Demo.fs (mkFatHandle (Demo.path (lit "hello.TXT")) 3 1000 0 (replicate 1100 65) true OpenFlags.O_RDWR) Demo.vol = (Ok tt, w')
    /\ vol_ok Demo.fs w'
    /\ fat_open 5 Demo.fs (Demo.path (lit "hello.TXT")) OpenFlags.O_RDONLY w'
       = (Ok (mkFatHandle (Demo.path (lit "hello.TXT")) c' (zlen (replicate 1100 65)) 0 (replicate 1100 65) false OpenFlags.O_RDONLY), w').
Proof.
  destruct (fat_persist 5 Demo.fs Demo.geom Demo.vol [] 2 [] (lit "hello.TXT") Demo.root_items Demo.root_tail [2]
    Demo.file_entry [3; 4]
    (mkFatHandle (Demo.path (lit "hello.TXT")) 3 1000 0 (replicate 1100 65) true OpenFlags.O_RDWR) OpenFlags.O_RDONLY)
    as (w' & c' & Hd & Hv & Ho & _).
  all: try reflexivity.
  - exact Demo.ok.
  - constructor.
  - exact Demo.hello_good.
  - exact Demo.root_at.
  - simpl. lia.
  - by intros x ?%elem_of_nil.
  - right. exact Demo.file_at.
  - simpl. lia.
  - intros x. apply Demo.apart. reflexivity.
  - apply Forall_replicate. split; lia.
  - by intros x ?%elem_of_nil.
  - exists w', c'. split; [exact Hd|]. split; [exact Hv|exact Ho].
Defined.
