(* ===== verification/FatSim.v ===== *)
(** * FatSim: the same file system over two devices

    The code of [Fat32.v] is written for any [BlockDevice].  When the sectors of one
    device simulate those of another, every operation on files does: it gives the
    same result, and leaves the devices related.  The second device may give up
    ([Panic]) where it promises nothing, and the first may go [bad], for good. *)
From Stdlib Require Import ZArith Lia.
From stdpp Require Import base numbers option list.
From S2P Require Import Prelude VfsTypes Path Block PartTable FatCodec Fat32.

Section sim.
Context {W1 W2 : Type} (bad : W1 -> Prop) (R : W1 -> W2 -> Prop).

(** Two computations agree. *)
Definition agree {E A} (r1 : outcome E A * W1) (r2 : outcome E A * W2) : Prop :=
  bad r1.2 \/ r2.1 = Panic \/ r1.1 = r2.1 /\ R r1.2 r2.2.

Definition sim {E A} (m1 : M W1 E A) (m2 : M W2 E A) : Prop :=
  (forall w1, bad w1 -> bad (m1 w1).2) /\ forall w1 w2, R w1 w2 -> agree (m1 w1) (m2 w2).

(** ** Rules *)
Section rules.
Context {E : Type}.

Lemma sim_bind {A B} (m1 : M W1 E A) m2 (k1 : A -> M W1 E B) k2 :
  sim m1 m2 -> (forall a, sim (k1 a) (k2 a)) -> sim (m1 ≫= k1) (m2 ≫= k2).
Proof.
  intros [Hb Hm] Hk. unfold agree in *. split.
  - intros w1 Hw. unfold mbind, M_bind. specialize (Hb w1 Hw). destruct (m1 w1) as [[a|e| |] x1]; [by apply Hk|done..].
  - intros w1 w2 Hw. unfold mbind, M_bind. destruct (Hm w1 w2 Hw) as [Hx|[Hp|[Ho Hr]]].
    + left. destruct (m1 w1) as [[a|e| |] x1]; [by apply Hk|done..].
    + destruct (m2 w2) as [o w]. cbn [fst] in Hp. subst. right. by left.
    + destruct (m1 w1) as [o1 x1], (m2 w2) as [o2 x2]. cbn [fst snd] in *. subst.
      destruct o2 as [a|e| |]; [by apply Hk|by right; right|right; by left|by right; right].
Qed.

(** A computation that touches nothing. *)
Lemma sim_still {A} (o : outcome E A) (m1 : M W1 E A) m2 : (forall w, m1 w = (o, w)) -> (forall w, m2 w = (o, w)) -> sim m1 m2.
Proof. intros H1 H2. split; [intros w1 Hw; by rewrite H1|]. intros w1 w2 Hw. rewrite H1, H2. by right; right. Qed.

Lemma sim_ret {A} (a : A) : sim (mret a : M W1 E A) (mret a).
Proof. by apply (sim_still (Ok a)). Qed.
Lemma sim_fail {A} (e : E) : sim (fail e : M W1 E A) (fail e).
Proof. by apply (sim_still (Err e)). Qed.
Lemma sim_panic {A} : sim (panic : M W1 E A) panic.
Proof. by apply (sim_still Panic). Qed.
Lemma sim_hang {A} : sim (hang : M W1 E A) hang.
Proof. by apply (sim_still Hang). Qed.
Lemma sim_lift {A} (o : outcome E A) : sim (lift o) (lift o).
Proof. by apply (sim_still o). Qed.
Lemma sim_ok_or {A} (e : E) (o : option A) : sim (ok_or e o) (ok_or e o).
Proof. destruct o; [apply sim_ret|apply sim_fail]. Qed.
Lemma sim_assert b : sim (assert_or_panic b : M W1 E unit) (assert_or_panic b).
Proof. destruct b; [apply sim_ret|apply sim_panic]. Qed.

Lemma sim_for_each {X} (l : list X) (b1 : X -> M W1 E unit) b2 :
  (forall x, sim (b1 x) (b2 x)) -> sim (for_each l b1) (for_each l b2).
Proof. intros Hb. induction l; [apply sim_ret|]. by apply sim_bind. Qed.
Lemma sim_for_acc {X A} (l : list X) (b1 : A -> X -> M W1 E A) b2 :
  (forall a x, sim (b1 a x) (b2 a x)) -> forall a, sim (for_acc l a b1) (for_acc l a b2).
Proof. intros Hb. induction l; intros a0; [apply sim_ret|]. by apply sim_bind. Qed.
Lemma sim_for_find {X A} (l : list X) (b1 : X -> M W1 E (option A)) b2 :
  (forall x, sim (b1 x) (b2 x)) -> sim (for_find l b1) (for_find l b2).
Proof. intros Hb. induction l; [apply sim_ret|]. apply sim_bind; [done|]. intros [v|]; [apply sim_ret|done]. Qed.
Lemma sim_loop {A B} fuel (b1 : A -> M W1 E (A + B)) b2 :
  (forall a, sim (b1 a) (b2 a)) -> forall a, sim (loop fuel b1 a) (loop fuel b2 a).
Proof.
  intros Hb. induction fuel as [|n IH]; intros a0; [apply sim_hang|]. apply sim_bind; [done|].
  intros [a'|r]; [apply IH|apply sim_ret].
Qed.
End rules.

Lemma sim_map_err {E E' A} (f : E -> E') (m1 : M W1 E A) m2 : sim m1 m2 -> sim (map_err f m1) (map_err f m2).
Proof.
  intros [Hb Hm]. unfold map_err. split.
  - intros w1 Hw. specialize (Hb w1 Hw). by destruct (m1 w1) as [[] x1].
  - intros w1 w2 Hw. unfold agree in *.
    destruct (Hm w1 w2 Hw) as [Hx|[Hp|[Ho Hr]]], (m1 w1) as [o1 x1], (m2 w2) as [o2 x2]; cbn [fst snd] in *; subst.
    + left. by destruct o1.
    + right. by left.
    + destruct o2; [by right; right|by right; right|right; by left|by right; right].
Qed.
End sim.

Create HintDb simdb discriminated.
#[export] Hint Resolve sim_ret sim_fail sim_panic sim_hang sim_lift sim_ok_or sim_assert : simdb.
#[export] Hint Extern 2 (is_u32 (u32 _)) => apply u32_range : simdb.

(** Follow the two computations, which are the same up to the device. *)
Ltac sim_walk := cbn beta zeta;
  first [ solve [eauto 2 with simdb]
        | lazymatch goal with
          | |- sim _ _ (mbind _ _) _ => apply sim_bind; [sim_walk|intros; sim_walk]
          | |- sim _ _ (for_each _ _) _ => apply sim_for_each; intros; sim_walk
          | |- sim _ _ (for_acc _ _ _) _ => apply sim_for_acc; intros; sim_walk
          | |- sim _ _ (for_find _ _) _ => apply sim_for_find; intros; sim_walk
          | |- sim _ _ (loop _ _ _) _ => apply sim_loop; intros; sim_walk
          | |- sim _ _ (map_err _ _) _ => apply sim_map_err; sim_walk
          | |- sim _ _ (match ?x with _ => _ end) _ => destruct x; sim_walk
          end
        | idtac ].

Section fat.
Context {W1 W2 D : Type} {B1 : BlockDevice W1 D} {B2 : BlockDevice W2 D} {U : UnicodeCase}.
Context (bad : W1 -> Prop) (R : W1 -> W2 -> Prop) (fuel : nat) (self : Fat32Inner D).

(** The sectors of the volume. *)
Record dev_sim (d : D) : Prop := {
  ds_read : forall s, is_u32 s -> sim bad R (bd_read_sector (W := W1) d s) (bd_read_sector d s);
  ds_write : forall s buf, is_u32 s -> sim bad R (bd_write_sector (W := W1) d s buf) (bd_write_sector d s buf)
}.

Hypothesis Hdev : dev_sim (fi_device self).

Lemma read_sector_sim s : is_u32 s -> sim bad R (read_sector (W := W1) self s) (read_sector self s).
Proof using Hdev. apply ds_read, Hdev. Qed.
Lemma write_sector_sim s buf : is_u32 s -> sim bad R (write_sector (W := W1) self s buf) (write_sector self s buf).
Proof using Hdev. apply ds_write, Hdev. Qed.
Hint Resolve read_sector_sim write_sector_sim : simdb.

Lemma store_sim {E} data off src : sim bad R (store (W := W1) (E := E) data off src) (store data off src).
Proof. unfold store. sim_walk. Qed.
Hint Resolve store_sim : simdb.

(** ** The allocation table and the clusters *)
Lemma get_fat_entry_sim c : sim bad R (get_fat_entry (W := W1) self c) (get_fat_entry self c).
Proof using Hdev. unfold get_fat_entry. sim_walk. Qed.
Hint Resolve get_fat_entry_sim : simdb.
Lemma set_fat_entry_sim c v : sim bad R (set_fat_entry (W := W1) self c v) (set_fat_entry self c v).
Proof using Hdev. unfold set_fat_entry. sim_walk. Qed.
Hint Resolve set_fat_entry_sim : simdb.
Lemma zero_cluster_sim c : sim bad R (zero_cluster (W := W1) self c) (zero_cluster self c).
Proof using Hdev. unfold zero_cluster. sim_walk. Qed.
Hint Resolve zero_cluster_sim : simdb.
Lemma allocate_cluster_sim : sim bad R (allocate_cluster (W := W1) self) (allocate_cluster self).
Proof using Hdev. unfold allocate_cluster. sim_walk. Qed.
Hint Resolve allocate_cluster_sim : simdb.
Lemma allocate_chain_sim n : sim bad R (allocate_chain (W := W1) self n) (allocate_chain self n).
Proof using Hdev. unfold allocate_chain. sim_walk. Qed.
Hint Resolve allocate_chain_sim : simdb.
Lemma extend_chain_sim c : sim bad R (extend_chain (W := W1) self c) (extend_chain self c).
Proof using Hdev. unfold extend_chain. sim_walk. Qed.
Hint Resolve extend_chain_sim : simdb.
Lemma free_chain_sim c : sim bad R (free_chain (W := W1) fuel self c) (free_chain fuel self c).
Proof using Hdev. unfold free_chain. sim_walk. Qed.
Hint Resolve free_chain_sim : simdb.
Lemma get_last_cluster_sim c : sim bad R (get_last_cluster (W := W1) fuel self c) (get_last_cluster fuel self c).
Proof using Hdev. unfold get_last_cluster. sim_walk. Qed.
Hint Resolve get_last_cluster_sim : simdb.
Lemma read_cluster_sim c buf : sim bad R (read_cluster (W := W1) self c buf) (read_cluster self c buf).
Proof using Hdev. unfold read_cluster. sim_walk. Qed.
Hint Resolve read_cluster_sim : simdb.
Lemma write_cluster_sim c buf : sim bad R (write_cluster (W := W1) self c buf) (write_cluster self c buf).
Proof using Hdev. unfold write_cluster. sim_walk. Qed.
Hint Resolve write_cluster_sim : simdb.
Lemma read_chain_sim c : sim bad R (read_chain (W := W1) fuel self c) (read_chain fuel self c).
Proof using Hdev. unfold read_chain. sim_walk. Qed.
Hint Resolve read_chain_sim : simdb.
Lemma write_step_sim data n c i : sim bad R (write_step (W := W1) self data n c i) (write_step self data n c i).
Proof using Hdev. unfold write_step. sim_walk. Qed.
Hint Resolve write_step_sim : simdb.
Lemma write_chain_sim c data : sim bad R (write_chain (W := W1) self c data) (write_chain self c data).
Proof using Hdev. unfold write_chain. sim_walk. Qed.
Hint Resolve write_chain_sim : simdb.

(** ** Directories and paths *)
Lemma read_directory_sim c : sim bad R (read_directory (W := W1) fuel self c) (read_directory fuel self c).
Proof using Hdev. unfold read_directory. sim_walk. Qed.
Hint Resolve read_directory_sim : simdb.
Lemma find_in_directory_sim c name : sim bad R (find_in_directory (W := W1) fuel self c name) (find_in_directory fuel self c name).
Proof using Hdev. unfold find_in_directory. sim_walk. Qed.
Hint Resolve find_in_directory_sim : simdb.
Lemma find_free_dir_slots_sim c n : sim bad R (find_free_dir_slots (W := W1) fuel self c n) (find_free_dir_slots fuel self c n).
Proof using Hdev. unfold find_free_dir_slots. sim_walk. Qed.
Hint Resolve find_free_dir_slots_sim : simdb.
Lemma add_dir_entry_sim c name attr cl size : sim bad R (add_dir_entry (W := W1) fuel self c name attr cl size) (add_dir_entry fuel self c name attr cl size).
Proof using Hdev. unfold add_dir_entry. sim_walk. Qed.
Hint Resolve add_dir_entry_sim : simdb.
Lemma update_dir_entry_sim c e : sim bad R (update_dir_entry (W := W1) fuel self c e) (update_dir_entry fuel self c e).
Proof using Hdev. unfold update_dir_entry. sim_walk. Qed.
Hint Resolve update_dir_entry_sim : simdb.
Lemma remove_dir_entry_sim c e : sim bad R (remove_dir_entry (W := W1) fuel self c e) (remove_dir_entry fuel self c e).
Proof using Hdev. unfold remove_dir_entry. sim_walk. Qed.
Hint Resolve remove_dir_entry_sim : simdb.

Lemma resolve_parts_sim parts : forall c, sim bad R (resolve_parts (W := W1) fuel self c parts) (resolve_parts fuel self c parts).
Proof using Hdev.
  induction parts as [|part parts IH]; intros c; cbn [resolve_parts]; [apply sim_ret|].
  apply sim_bind; [apply find_in_directory_sim|]. intros found. apply sim_bind; [apply sim_ok_or|]. intros entry.
  destruct parts; [apply sim_ret|]. destruct (negb _); [apply sim_fail|apply IH].
Qed.
Hint Resolve resolve_parts_sim : simdb.
Lemma resolve_path_sim path : sim bad R (resolve_path (W := W1) fuel self path) (resolve_path fuel self path).
Proof using Hdev. apply resolve_parts_sim. Qed.
Hint Resolve resolve_path_sim : simdb.
Lemma split_path_sim path : sim bad R (split_path (W := W1) fuel self path) (split_path fuel self path).
Proof using Hdev. unfold split_path. sim_walk. Qed.
Hint Resolve split_path_sim : simdb.

(** ** The file system and its handles *)
Lemma sync_file_sim path c data : sim bad R (sync_file (W := W1) fuel self path c data) (sync_file fuel self path c data).
Proof using Hdev. unfold sync_file, io, invalid. sim_walk. Qed.
Lemma fat_open_sim path flags : sim bad R (fat_open (W := W1) fuel self path flags) (fat_open fuel self path flags).
Proof using Hdev. unfold fat_open, io, invalid, missing. sim_walk. Qed.
Lemma fat_mkdir_sim path : sim bad R (fat_mkdir (W := W1) fuel self path) (fat_mkdir fuel self path).
Proof using Hdev. unfold fat_mkdir, io, invalid, missing. sim_walk. Qed.
Lemma fat_remove_sim path : sim bad R (fat_remove (W := W1) fuel self path) (fat_remove fuel self path).
Proof using Hdev. unfold fat_remove, io, invalid, missing. sim_walk. Qed.
Lemma fat_rmdir_sim path : sim bad R (fat_rmdir (W := W1) fuel self path) (fat_rmdir fuel self path).
Proof using Hdev. unfold fat_rmdir, io, invalid, missing. sim_walk. Qed.
Lemma fat_readdir_sim path : sim bad R (fat_readdir (W := W1) fuel self path) (fat_readdir fuel self path).
Proof using Hdev. unfold fat_readdir, io, invalid, missing. sim_walk. Qed.
Lemma fat_metadata_sim path : sim bad R (fat_metadata (W := W1) fuel self path) (fat_metadata fuel self path).
Proof using Hdev. unfold fat_metadata, io, invalid, missing. sim_walk. Qed.

Lemma fat_drop_sim h : sim bad R (fat_drop (W := W1) fuel self h) (fat_drop fuel self h).
Proof using Hdev.
  pose proof (sync_file_sim (fh_path h) (fh_cluster h) (fh_data h)) as [Hb Hm]. unfold fat_drop. split.
  - intros w1 Hw. destruct (fh_dirty h); [|done]. specialize (Hb w1 Hw). by destruct (sync_file (W := W1) fuel self _ _ _ w1) as [[] x1].
  - intros w1 w2 Hw. destruct (fh_dirty h); [|by right; right]. specialize (Hm w1 w2 Hw). unfold agree in *.
    destruct Hm as [Hx|[Hp|[Ho Hr]]], (sync_file (W := W1) fuel self _ _ _ w1) as [o1 x1], (sync_file fuel self _ _ _ w2) as [o2 x2];
      cbn [fst snd] in *; subst.
    + left. by destruct o1.
    + right. by left.
    + destruct o2; [by right; right|by right; right|right; by left|by right; right].
Qed.
End fat.

Lemma Fat32Fs_new_sim {W1 W2 D} {B1 : BlockDevice W1 D} {B2 : BlockDevice W2 D} bad (R : W1 -> W2 -> Prop) (d : D) :
  dev_sim bad R d -> sim bad R (Fat32Fs_new (W := W1) d) (Fat32Fs_new d).
Proof. intros Hd. unfold Fat32Fs_new. apply sim_bind; [by apply Hd|]. intros sector. sim_walk. Qed.
