(* ===== verification/FatOnAta.v ===== *)
(** * FatOnAta: files on the disk

    [Fat32.v] over a partition of [AtaDisk], down to the ports.  [Platter] is the
    drive as an array of sectors; by [FatSim.v] the file system does on the drive what
    it does on the array, where the theorems of [FatOps.v] apply - unless the drive
    goes astray ([AtaFacts.v]). *)
From Stdlib Require Import ZArith Lia.
From stdpp Require Import base numbers option list gmap.
From S2P Require Import Prelude VfsTypes Path Hw Block Ata AtaFacts PartTable FatCodec Fat32 FatImage FatNames FatVolume FatChain FatDir FatOps FatSim.

(** ** The array *)
Abbreviation Platter := (gmap Z bytes).

(** Sectors the 28 bits of an address reach. *)
Definition platter_sector (p : Platter) (lba : Z) : option bytes :=
  if lba <? 2 ^ 28 then b ← p !! lba; if decide (length b = 512%nat) then Some b else None else None.

(** It promises nothing of a write that is not of 512 bytes. *)
#[export] Instance Platter_device : BlockDevice Platter unit := {
  bd_read_sector _ lba p := (match platter_sector p lba with Some b => Ok b | None => Err (lit "ATA error") end, p);
  bd_write_sector _ lba data p :=
    if decide (length data = 512%nat /\ Forall is_byte data) then
      match platter_sector p lba with
      | Some _ => (Ok tt, <[lba := data]> p)
      | None => (Err (lit "ATA error"), p)
      end
    else (Panic, p);
  bd_sector_count _ := None
}.

#[export] Instance Platter_laws : BlockDeviceLaws Platter unit.
Proof.
  refine {| sectors := fun p _ lba => platter_sector p lba |}; unfold platter_sector.
  - intros p _ lba b. destruct (lba <? 2 ^ 28); [|done]. intros (x & _ & Hx)%bind_Some. by case_decide; simplify_eq.
  - intros p d lba b _ Hs. cbn. unfold platter_sector. by rewrite Hs.
  - intros p d lba _ Hs. cbn. unfold platter_sector. rewrite Hs. eauto.
  - intros p d lba b data Hl Hs Hd Hb. cbn. rewrite decide_True by done. unfold platter_sector. rewrite Hs. eexists. split; [done|].
    intros lba' Hl'. destruct (decide (lba' = lba)) as [->|Hne].
    + destruct (lba <? 2 ^ 28); [|done]. rewrite lookup_insert_eq. cbn. by rewrite decide_True.
    + by rewrite lookup_insert_ne.
  - intros p d lba data _ Hs Hd Hb. cbn. rewrite decide_True by done. unfold platter_sector. rewrite Hs. eauto.
Defined.

(** ** The drive simulates the array *)
Section on_drive.
Context {S : Type} `{AL : AtaLaws S} {U : UnicodeCase}.
Abbreviation AW := (AtaWorld S).

Definition on_drive (w : AW) (p : Platter) : Prop := attached w /\ disk_of w = p.

(** A partition the addresses reach. *)
Definition in_reach (part : Partition unit) : Prop := 0 <= start_lba part /\ start_lba part + sector_count part <= 2 ^ 28.

Lemma platter_at (w : AW) lba : 0 <= lba < 2 ^ 28 -> platter_sector (disk_of w) lba = disk_of w !! (lba mod 2 ^ 28).
Proof using AL.
  intros Hl. unfold platter_sector. rewrite Z.mod_small by lia. destruct (Z.ltb_spec lba (2 ^ 28)); [|lia].
  destruct (disk_of w !! lba) as [b|] eqn:Hb; [|done]. cbn. by rewrite decide_True by by eapply (platter_length (aw_ports w) lba).
Qed.

Lemma part_lba part lba : in_reach part -> is_u32 lba -> lba < sector_count part ->
  start_lba part +w32 lba = start_lba part + lba /\ 0 <= start_lba part + lba < 2 ^ 28.
Proof. intros [Hs Hc] Hl Hlt. unfold is_u32 in Hl. rewrite u32_small by lia. lia. Qed.

(** The kernel's drive, on ports in [P]; and when it has gone astray. *)
Definition on_its (P : S -> Prop) (w : AW) : Prop := its_drive w /\ P (aw_ports w).
Abbreviation lost := (on_its astray).

(** What the channel's ports keep, the sectors of a partition keep, whatever is written. *)
Lemma disk_keeps P (w : AW) lba data : ata_closed P -> on_its P w ->
  on_its P (bd_read_sector tt lba w).2 /\ on_its P (bd_write_sector tt lba data w).2.
Proof.
  intros HP [Hw Hs]. pose proof (ata_read_ends P HP false lba (replicate 512 0) w Hw Hs) as Hr.
  pose proof (ata_write_ends P HP false lba data w Hw ltac:(done) Hs) as Hwr. cbn [bd_read_sector bd_write_sector AtaDisk_device].
  destruct (ata_read_sector _ _ w) as [o1 w1], (ata_write_sector _ _ w) as [o2 w2]. destruct Hr as (? & Ha & _), Hwr as (? & Hb & _).
  unfold on_its, its_drive in *. cbn [snd]. rewrite Ha, Hb. by split.
Qed.

Lemma partition_keeps P (part : Partition unit) : ata_closed P -> dev_sim (on_its P) (fun (_ : AW) (_ : Platter) => False) part.
Proof.
  intros HP. split; intros; (split; [|done]); intros w1 Hw; cbn [bd_read_sector bd_write_sector Partition_device].
  - unfold partition_read_sector. destruct (_ <=? _); [done|]. destruct part as [[] start cnt]. exact (proj1 (disk_keeps P w1 _ [] HP Hw)).
  - unfold partition_write_sector. destruct (_ <=? _); [done|]. destruct part as [[] start cnt]. exact (proj2 (disk_keeps P w1 _ _ HP Hw)).
Qed.

Lemma partition_on_drive part : in_reach part -> dev_sim lost on_drive part.
Proof using AL.
  intros Hp. destruct part as [[] start cnt]. split; intros lba; cbn [bd_read_sector bd_write_sector Partition_device].
  - intros Hl. split.
    { intros w Hw. by apply (ds_read _ _ _ (partition_keeps astray (mkPartition tt start cnt) astray_for_good) lba Hl). }
    intros w p [Ha <-]. unfold partition_read_sector. destruct (Z.leb_spec (sector_count (mkPartition tt start cnt)) lba) as [|Hlt]; [by right; right|].
    destruct (part_lba _ lba Hp Hl Hlt) as [-> Hr]. unfold agree. cbn [p_device].
    pose proof (AtaDisk_read w (start + lba) Ha ltac:(unfold is_u32; cbn [start_lba] in Hr; lia)) as Hrun.
    pose proof (proj1 (disk_keeps (fun _ => True) w (start + lba) [] ltac:(done) (conj (or_intror (proj1 Ha)) I))) as [Hid _].
    rewrite <- platter_at in Hrun by done. cbn [start_lba] in *. destruct (bd_read_sector tt (start + lba) w) as [o w'].
    destruct Hrun as [_ [Hg|(Ha' & Hd & ->)]]; [by left|right; right].
    cbn. split; [by destruct (platter_sector _ _)|]. by split.
  - intros data Hl. split.
    { intros w Hw. by apply (ds_write _ _ _ (partition_keeps astray (mkPartition tt start cnt) astray_for_good) lba data Hl). }
    intros w p [Ha <-]. unfold partition_write_sector. destruct (Z.leb_spec (sector_count (mkPartition tt start cnt)) lba) as [|Hlt]; [by right; right|].
    destruct (part_lba _ lba Hp Hl Hlt) as [-> Hr]. unfold agree. cbn [p_device bd_write_sector Platter_device].
    destruct (decide (length data = 512%nat /\ Forall is_byte data)) as [[Hlen Hb]|]; [|by right; left].
    pose proof (AtaDisk_write w (start + lba) data Ha ltac:(unfold is_u32; cbn [start_lba] in Hr; lia) Hlen Hb) as Hrun.
    pose proof (proj2 (disk_keeps (fun _ => True) w (start + lba) data ltac:(done) (conj (or_intror (proj1 Ha)) I))) as [Hid _].
    rewrite <- platter_at, (Z.mod_small (start + lba)) in Hrun by done. cbn [start_lba] in *.
    destruct (bd_write_sector tt (start + lba) data w) as [o w'].
    destruct Hrun as [_ [Hg|(Ha' & Hd)]]; [by left|right; right]. destruct (platter_sector _ _); by destruct Hd as [-> Hd].
Qed.

(** ** A partition keeps to itself *)
Definition outside (part : Partition unit) (s : Z) : Prop := ~ (start_lba part <= s < start_lba part + sector_count part).

Definition inside_only (part : Partition unit) (p0 p q : Platter) : Prop := p = q /\ forall s, outside part s -> q !! s = p0 !! s.

Lemma partition_inside part p0 : in_reach part -> dev_sim (fun _ => False) (inside_only part p0) part.
Proof.
  intros Hp. split; intros lba.
  - intros Hl. split; [done|]. intros p q [<- Hk]. cbn [bd_read_sector Partition_device]. unfold partition_read_sector.
    destruct (sector_count part <=? lba); by right; right.
  - intros data Hl. split; [done|]. intros p q [<- Hk]. cbn [bd_write_sector Partition_device]. unfold partition_write_sector.
    destruct (Z.leb_spec (sector_count part) lba) as [|Hlt]; [by right; right|].
    destruct (part_lba part lba Hp Hl Hlt) as [-> Hr]. cbn [bd_write_sector Platter_device].
    destruct (decide _); [|by right; left]. destruct (platter_sector p _); [|by right; right]. right. right. split; [done|]. split; [done|].
    cbn [snd]. intros s Hs. rewrite lookup_insert_ne; [by apply Hk|]. intros <-. apply Hs. unfold is_u32 in Hl. lia.
Qed.

(** C7: FAT32 on the disk is FAT32 on an array of sectors.  On a partition below 2^28, and
    a drive that has been found, mounting and every operation of the file system, run
    over the ports, either end with the drive gone astray (and then it stays so), or
    give the result they give on the drive's sectors as an array, and leave the drive
    with the array's sectors, waiting for the next command - for as long as they write
    sectors of bytes. *)
Theorem fat_on_ata fuel part bpb : in_reach part ->
  let fs := mkInner part bpb in
  sim lost on_drive (Fat32Fs_new (W := AW) part) (Fat32Fs_new part)
  /\ (forall path flags, sim lost on_drive (fat_open (W := AW) fuel fs path flags) (fat_open fuel fs path flags))
  /\ (forall path, sim lost on_drive (fat_mkdir (W := AW) fuel fs path) (fat_mkdir fuel fs path)
       /\ sim lost on_drive (fat_remove (W := AW) fuel fs path) (fat_remove fuel fs path)
       /\ sim lost on_drive (fat_rmdir (W := AW) fuel fs path) (fat_rmdir fuel fs path)
       /\ sim lost on_drive (fat_readdir (W := AW) fuel fs path) (fat_readdir fuel fs path)
       /\ sim lost on_drive (fat_metadata (W := AW) fuel fs path) (fat_metadata fuel fs path))
  /\ (forall h, sim lost on_drive (fat_drop (W := AW) fuel fs h) (fat_drop fuel fs h)).
Proof.
  intros Hp fs. pose proof (partition_on_drive part Hp) as Hd. split_and!; [by apply Fat32Fs_new_sim| | |].
  - intros path flags. by apply fat_open_sim.
  - intros path. split_and!; [by apply fat_mkdir_sim|by apply fat_remove_sim|by apply fat_rmdir_sim|by apply fat_readdir_sim|by apply fat_metadata_sim].
  - intros h. by apply fat_drop_sim.
Qed.

(** A run on the array that does not give up is one on the drive. *)
Lemma sim_run {E A} (m1 : M AW E A) (m2 : M Platter E A) w o p' : attached w -> sim lost on_drive m1 m2 ->
  m2 (disk_of w) = (o, p') -> o <> Panic -> lost (m1 w).2 \/ exists w', m1 w = (o, w') /\ attached w' /\ disk_of w' = p'.
Proof using AL.
  intros Ha [_ Hs] Hrun Ho. destruct (Hs w (disk_of w)) as [Hg|[Hp|[He [Ha' Hd]]]]; [done|by left| |]; rewrite Hrun in *; [done|].
  right. exists (m1 w).2. cbn [fst snd] in *. split_and!; [|done|done]. rewrite <- He. by destruct (m1 w).
Qed.

(** C6: A file saved is on the disk.  A handle with unsaved data is dropped on a mounted
    drive, and the file opened again: unless the drive has gone astray by then, the
    driver's commands have left the data on the platter, where opening, sector by sector
    through the ports, finds it, every other file of the volume as it was, and every
    sector outside the partition too. *)
Theorem file_saved_on_drive fuel part bpb (w : AW) ps pc ls name items tail l e lf h flags :
  let fs := mkInner part bpb in let p := disk_of w in
  geom_wf bpb -> in_reach part -> attached w ->
  vol_ok fs p -> walk fuel fs p (root_cluster bpb) ps pc ls -> Forall good_name (ps ++ [name]) ->
  dir_at fs p pc items tail l -> (length l < fuel)%nat -> (forall x, x ∈ ls -> x ∉ l ++ lf) ->
  find_entry name (entries_at 0 items) = Some e -> fe_is_directory e = false ->
  file_chain fs p (fe_cluster e) lf -> (length lf < fuel)%nat -> (forall x, x ∈ lf -> x ∉ l) ->
  fh_path h = path_of (ps ++ [name]) -> fh_cluster h = fe_cluster e -> fh_dirty h = true ->
  Forall is_byte (fh_data h) -> zlen (fh_data h) < 2 ^ 32 -> needed fs (fh_data h) < Z.of_nat fuel ->
  needed fs (fh_data h) <= zlen lf + Z.of_nat (free_count fs p) ->
  OpenFlags.contains flags OpenFlags.O_TRUNC = false -> OpenFlags.contains flags OpenFlags.O_APPEND = false ->
  (forall x, x ∈ ls -> fat fs p x ≠ 0 /\ is_cluster bpb x) ->
  let (o1, w1) := fat_drop fuel fs h w in let (o2, w2) := fat_open fuel fs (fh_path h) flags w1 in
  lost w2 \/ exists c', o1 = Ok tt /\ o2 = Ok (mkFatHandle (fh_path h) c' (zlen (fh_data h)) 0 (fh_data h) false flags)
    /\ attached w2 /\ disk_of w2 = disk_of w1
    /\ vol_ok fs (disk_of w1) /\ others_kept fs p (disk_of w1) (l ++ lf)
    /\ (forall s, outside part s -> disk_of w1 !! s = p !! s).
Proof.
  intros fs p Hg Hp Ha Hv Hw Hgn Hd Hl Hls He Hdir Hf Hlf Hdis Hpath Hcl Hdirty Hb Hsz Hfu Hn Htr Hap Hlsc.
  destruct (fat_persist_run fuel fs Hg p ps pc ls name items tail l e lf h flags) as (p1 & c' & Hr & Hv1 & Ho & _ & Hk); try done.
  pose proof (partition_on_drive part Hp) as Hds. pose proof (fat_open_sim lost on_drive fuel fs Hds (fh_path h) flags) as Hos.
  destruct (sim_run _ _ w _ _ Ha (fat_drop_sim lost on_drive fuel fs Hds h) Hr) as [Hlo|(w1 & Hr1 & Ha1 & Hd1)]; [done| |].
  { destruct (fat_drop (W := AW) fuel fs h w) as [o1 w1]. pose proof (proj1 Hos w1 Hlo) as Hlo2.
    destruct (fat_open (W := AW) fuel fs (fh_path h) flags w1) as [o2 w2]. by left. }
  rewrite Hr1. rewrite <- Hd1 in Ho. destruct (sim_run _ _ w1 _ _ Ha1 Hos Ho) as [Hlo|(w2 & Hr2 & Ha2 & Hd2)]; [done| |].
  { destruct (fat_open (W := AW) fuel fs (fh_path h) flags w1) as [o2 w2]. by left. }
  rewrite Hr2. right. exists c'. rewrite Hd1 in *. split_and!; try done.
  intros s Hs. destruct (fat_drop_sim (fun _ => False) (inside_only part p) fuel fs (partition_inside part p Hp) h) as [_ Hin].
  destruct (Hin p p) as [[]|[Hpn|[_ [_ Hin']]]]; [done| |].
  - by rewrite Hr in Hpn.
  - rewrite Hr in Hin'. by apply Hin'.
Qed.
End on_drive.
