(* ===== verification/DiskDemo.v ===== *)
(** * DiskDemo: a volume on a drive

    The volume of [FatOps.v]'s example in the sectors from 3 on of the drive of
    [AtaDemo.v]. *)
From Stdlib Require Import ZArith Lia.
From stdpp Require Import base numbers option list gmap.
From S2P Require Import Prelude VfsTypes Path Hw Block Ata AtaFacts AtaDemo PartTable FatCodec Fat32 FatImage FatNames FatVolume FatChain FatDir FatOps FatSim FatOnAta.

#[local] Existing Instance FatOps.Demo.ascii_case.

Definition part : Partition unit := mkPartition tt 3 8.
Definition fs : Fat32Inner (Partition unit) := mkInner part Demo.bpb.

(** Sector 2 is before the partition. *)
Definition sectors_of_volume : Platter := <[2 := replicate 512 0xEE]> (list_to_map (zip (seqZ 3 8) Demo.vol)).

Definition volume_drive : AtaWorld DemoDrive :=
  mkAtaWorld (Some AtaDrive_new) (mkDemo (mkDrive 0 0 0 0 0 0 (Idle false) sectors_of_volume) 0 false []).

Lemma volume_attached : attached volume_drive.
Proof. split; [done|]. split; [done|by exists false]. Qed.

Lemma volume_sectors : disk_of volume_drive = sectors_of_volume.
Proof. vm_compute. reflexivity. Qed.

Lemma part_in_reach : in_reach part.
Proof. split; vm_compute; congruence. Qed.

Lemma volume_ok : vol_ok fs sectors_of_volume.
Proof.
  assert (Forall (fun s => exists sec, sectors sectors_of_volume part s = Some sec /\ Forall is_byte sec) (seqZ 0 8)) as Hall.
  { repeat (apply Forall_cons; split; [eexists; split; [vm_compute; reflexivity|by_decide]|]). apply Forall_nil_2. }
  intros s Hs. rewrite Forall_forall in Hall. apply Hall. by apply elem_of_seqZ.
Qed.

Lemma volume_single c : bool_decide (2 <= c < clusters Demo.bpb + 2 /\ FAT32_EOC <= fat fs sectors_of_volume c) = true -> chain fs sectors_of_volume c [c].
Proof. intros [Hc He]%bool_decide_eq_true. by apply (chain_single fs). Qed.

Lemma volume_root : dir_at fs sectors_of_volume 2 Demo.root_items Demo.root_tail [2].
Proof. split; [apply volume_single; vm_compute; reflexivity|apply Demo.root_wf|vm_compute; reflexivity]. Qed.

Lemma volume_file : chain fs sectors_of_volume 3 [3; 4].
Proof.
  apply (chain_app_cons fs); [split; vm_compute; congruence|].
  assert (fat fs sectors_of_volume 3 = 4) as -> by (vm_compute; reflexivity). apply volume_single. vm_compute. reflexivity.
Qed.

Definition edited : FatFileHandle := mkFatHandle (Demo.path (lit "hello.TXT")) 3 1000 0 (replicate 1100 65) true OpenFlags.O_RDWR.

(** The drive is a sound one, and stays so. *)
Lemma volume_not_lost h path flags : let w1 := (fat_drop 5 fs h volume_drive).2 in ~ on_its astray (fat_open 5 fs path flags w1).2.
Proof.
  pose proof (partition_keeps sound part sound_closed) as Hk. intros w1 [_ Hl].
  assert (on_its sound volume_drive) as Hv by (split; [by right|done]).
  pose proof (proj1 (fat_drop_sim _ _ 5 fs Hk h) _ Hv) as Hw1.
  pose proof (proj1 (fat_open_sim _ _ 5 fs Hk path flags) _ Hw1) as [_ Hw2]. exact (sound_not_astray _ Hw2 Hl).
Qed.

Lemma file_saved_on_drive_witness :
  exists w1 w2 c', fat_drop 5 fs edited volume_drive = (Ok tt, w1)
    /\ fat_open 5 fs (Demo.path (lit "hello.TXT")) OpenFlags.O_RDONLY w1
       = (Ok (mkFatHandle (Demo.path (lit "hello.TXT")) c' 1100 0 (replicate 1100 65) false OpenFlags.O_RDONLY), w2)
    /\ disk_of w1 !! 2 = Some (replicate 512 0xEE).
Proof.
  pose proof (file_saved_on_drive 5 part Demo.bpb volume_drive [] 2 [] (lit "hello.TXT") Demo.root_items Demo.root_tail [2]
    Demo.file_entry [3; 4] edited OpenFlags.O_RDONLY) as Hsaved. cbv zeta in Hsaved.
  pose proof volume_attached as Hatt. pose proof volume_sectors as Hvs.
  pose proof (volume_not_lost edited (fh_path edited) OpenFlags.O_RDONLY) as Hnl. cbv zeta in Hnl.
  change (mkInner part Demo.bpb) with fs in Hsaved. generalize dependent volume_drive. intros w Hsaved Hatt Hvs Hnl.
  destruct (fat_drop 5 fs edited w) as [o1 w1] eqn:Hd. cbn [snd] in Hnl.
  destruct (fat_open 5 fs (fh_path edited) OpenFlags.O_RDONLY w1) as [o2 w2] eqn:Ho. cbn [snd] in Hnl.
  edestruct Hsaved as [Hlo|(c' & Ho1 & Ho2 & _ & _ & _ & _ & Hout)].
  all: rewrite ?Hvs.
  all: try reflexivity.
  - exact Demo.geom.
  - exact part_in_reach.
  - exact Hatt.
  - exact volume_ok.
  - constructor.
  - exact Demo.hello_good.
  - exact volume_root.
  - simpl. lia.
  - by intros x ?%elem_of_nil.
  - right. exact volume_file.
  - simpl. lia.
  - intros x. apply Demo.apart. reflexivity.
  - apply Forall_replicate. split; lia.
  - by intros x ?%elem_of_nil.
  - by destruct Hnl.
  - subst. exists w1, w2, c'. split; [done|]. split; [exact Ho|]. rewrite Hout; [by rewrite Hvs|]. unfold outside. cbn. lia.
Defined.

Lemma fat_on_ata_witness :
  sim (on_its astray) on_drive (fat_readdir (W := AtaWorld DemoDrive) 5 fs (lit "/")) (fat_readdir 5 fs (lit "/"))
  /\ exists p', fat_readdir 5 fs (lit "/") sectors_of_volume
     = (Ok [{| de_name := lit "hello.txt"; de_file_type := File |}; {| de_name := lit "docs"; de_file_type := Directory |}], p').
Proof.
  split; [|eexists; vm_compute; reflexivity].
  destruct (fat_on_ata 5 part Demo.bpb part_in_reach) as (_ & _ & Hp & _). exact (proj1 (proj2 (proj2 (proj2 (Hp (lit "/")))))).
Defined.
