(* ===== verification/Keyboard.v ===== *)
(** * Keyboard: scancode decoding and the input ring buffer

    [vcore/src/drivers/keyboard.rs].  The state behind [KEYBOARD: Mutex<Keyboard>]
    is a record; the keyboard interrupt ([handle_scancode]) and the reader
    ([read_char]) are computations on it, run one at a time under the lock.
    The ring of 256 bytes is shown to implement a queue of at most 255 bytes
    that drops what does not fit. *)
From Stdlib Require Import ZArith Lia.
From stdpp Require Import base numbers option list.
From S2P Require Import Prelude.

Definition BUFFER_SIZE : Z := 256.

Record Keyboard := mkKeyboard {
  buffer : bytes;
  read_pos : Z;
  write_pos : Z;
  shift_pressed : bool;
  caps_lock : bool;
  release_next : bool
}.

Definition Keyboard_new : Keyboard := mkKeyboard (replicate 256 0) 0 0 false false false.

Abbreviation KM := (M Keyboard Empty_set).

(** [buffer[i]], which panics out of range. *)
Definition buf_at (l : bytes) (i : Z) : option Z :=
  if (0 <=? i) && (i <? zlen l) then l !! Z.to_nat i else None.

Definition push (c : Z) : KM unit :=
  kb ← get;
  let next_write := (write_pos kb + 1) mod BUFFER_SIZE in
  if negb (next_write =? read_pos kb) then
    _ ← unwrap (buf_at (buffer kb) (write_pos kb));
    put (mkKeyboard (<[Z.to_nat (write_pos kb) := c]> (buffer kb)) (read_pos kb) next_write
           (shift_pressed kb) (caps_lock kb) (release_next kb))
  else mret tt.

Definition pop : KM (option Z) :=
  kb ← get;
  if read_pos kb =? write_pos kb then mret None
  else
    c ← unwrap (buf_at (buffer kb) (read_pos kb));
    put (mkKeyboard (buffer kb) ((read_pos kb + 1) mod BUFFER_SIZE) (write_pos kb)
           (shift_pressed kb) (caps_lock kb) (release_next kb)) ;;
    mret (Some c).

Definition is_empty (kb : Keyboard) : bool := read_pos kb =? write_pos kb.

Definition SCANCODE_RELEASE : Z := 0xF0.
Definition SCANCODE_LEFT_SHIFT : Z := 0x12.
Definition SCANCODE_RIGHT_SHIFT : Z := 0x59.
Definition SCANCODE_CAPS_LOCK : Z := 0x58.

(** A pair of one-character literals, as the code's [(b'1', b'!')]. *)
Definition key (unshifted shifted : rstr) : option (Z * Z) :=
  match unshifted, shifted with
  | [a], [b] => Some (a, b)
  | _, _ => None
  end.

(** The key table of scancode set 2. *)
Definition scancode_keys (scancode : Z) : option (Z * Z) :=
  match scancode with
  | 0x16 => key (lit "1") (lit "!")
  | 0x1E => key (lit "2") (lit "@")
  | 0x26 => key (lit "3") (lit "#")
  | 0x25 => key (lit "4") (lit "$")
  | 0x2E => key (lit "5") (lit "%")
  | 0x36 => key (lit "6") (lit "^")
  | 0x3D => key (lit "7") (lit "&")
  | 0x3E => key (lit "8") (lit "*")
  | 0x46 => key (lit "9") (lit "(")
  | 0x45 => key (lit "0") (lit ")")
  | 0x4E => key (lit "-") (lit "_")
  | 0x55 => key (lit "=") (lit "+")
  | 0x66 => Some (8, 8)
  | 0x0D => Some (9, 9)
  | 0x15 => key (lit "q") (lit "Q")
  | 0x1D => key (lit "w") (lit "W")
  | 0x24 => key (lit "e") (lit "E")
  | 0x2D => key (lit "r") (lit "R")
  | 0x2C => key (lit "t") (lit "T")
  | 0x35 => key (lit "y") (lit "Y")
  | 0x3C => key (lit "u") (lit "U")
  | 0x43 => key (lit "i") (lit "I")
  | 0x44 => key (lit "o") (lit "O")
  | 0x4D => key (lit "p") (lit "P")
  | 0x54 => key (lit "[") (lit "{")
  | 0x5B => key (lit "]") (lit "}")
  | 0x5A => Some (10, 10)
  | 0x1C => key (lit "a") (lit "A")
  | 0x1B => key (lit "s") (lit "S")
  | 0x23 => key (lit "d") (lit "D")
  | 0x2B => key (lit "f") (lit "F")
  | 0x34 => key (lit "g") (lit "G")
  | 0x33 => key (lit "h") (lit "H")
  | 0x3B => key (lit "j") (lit "J")
  | 0x42 => key (lit "k") (lit "K")
  | 0x4B => key (lit "l") (lit "L")
  | 0x4C => key (lit ";") (lit ":")
  | 0x52 => Some (39, 34)     (* the quote and the double quote *)
  | 0x0E => key (lit "`") (lit "~")
  | 0x5D => key (lit "\") (lit "|")
  | 0x1A => key (lit "z") (lit "Z")
  | 0x22 => key (lit "x") (lit "X")
  | 0x21 => key (lit "c") (lit "C")
  | 0x2A => key (lit "v") (lit "V")
  | 0x32 => key (lit "b") (lit "B")
  | 0x31 => key (lit "n") (lit "N")
  | 0x3A => key (lit "m") (lit "M")
  | 0x41 => key (lit ",") (lit "<")
  | 0x49 => key (lit ".") (lit ">")
  | 0x4A => key (lit "/") (lit "?")
  | 0x29 => key (lit " ") (lit " ")
  | _ => None
  end.

Definition is_ascii_lowercase (c : Z) : bool := (97 <=? c) && (c <=? 122).

Definition scancode_to_ascii (scancode : Z) (shift caps : bool) : option Z :=
  '(unshifted, shifted) ← scancode_keys scancode;
  let is_letter := is_ascii_lowercase unshifted in
  let use_shifted := if is_letter then xorb shift caps else shift in
  Some (if use_shifted then shifted else unshifted).

Definition set_modifiers (shift caps release : bool) : KM unit :=
  kb ← get;
  put (mkKeyboard (buffer kb) (read_pos kb) (write_pos kb) shift caps release).

Definition handle_scancode (scancode : Z) : KM unit :=
  kb ← get;
  if scancode =? SCANCODE_RELEASE then set_modifiers (shift_pressed kb) (caps_lock kb) true
  else if release_next kb then
    set_modifiers
      (if (scancode =? SCANCODE_LEFT_SHIFT) || (scancode =? SCANCODE_RIGHT_SHIFT)
       then false else shift_pressed kb) (caps_lock kb) false
  else if (scancode =? SCANCODE_LEFT_SHIFT) || (scancode =? SCANCODE_RIGHT_SHIFT) then
    set_modifiers true (caps_lock kb) (release_next kb)
  else if scancode =? SCANCODE_CAPS_LOCK then
    set_modifiers (shift_pressed kb) (negb (caps_lock kb)) (release_next kb)
  else
    match scancode_to_ascii scancode (shift_pressed kb) (caps_lock kb) with
    | Some ascii => push ascii
    | None => mret tt
    end.

Definition read_char : KM (option Z) := pop.

Definition has_input (kb : Keyboard) : bool := negb (is_empty kb).

(** ** The queue the ring implements *)
Record kb_wf (kb : Keyboard) : Prop := {
  wf_buffer : length (buffer kb) = 256%nat;
  wf_read : 0 <= read_pos kb < 256;
  wf_write : 0 <= write_pos kb < 256
}.

Definition kb_count (kb : Keyboard) : nat := Z.to_nat ((write_pos kb - read_pos kb) mod 256).

(** The [i]th pending byte. *)
Definition kb_nth (kb : Keyboard) (i : nat) : Z :=
  rd (buffer kb) (Z.to_nat ((read_pos kb + Z.of_nat i) mod 256)).

Definition kb_queue (kb : Keyboard) : list Z := kb_nth kb <$> seq 0 (kb_count kb).

(** The abstract device: pending bytes and the modifier state. *)
Record KbSpec := mkSpec { sp_queue : list Z; sp_shift : bool; sp_caps : bool; sp_release : bool }.

Definition kb_abs (kb : Keyboard) : KbSpec :=
  mkSpec (kb_queue kb) (shift_pressed kb) (caps_lock kb) (release_next kb).

Definition CAPACITY : nat := 255.

Definition enqueue (q : list Z) (c : Z) : list Z := if (length q <? CAPACITY)%nat then q ++ [c] else q.

Definition is_shift (code : Z) : bool := (code =? SCANCODE_LEFT_SHIFT) || (code =? SCANCODE_RIGHT_SHIFT).

(** One make or break byte, on the abstract device. *)
Definition sp_scan (code : Z) (s : KbSpec) : KbSpec :=
  let '(mkSpec q shift caps release) := s in
  if code =? SCANCODE_RELEASE then mkSpec q shift caps true
  else if release then mkSpec q (shift && negb (is_shift code)) caps false
  else if is_shift code then mkSpec q true caps false
  else if code =? SCANCODE_CAPS_LOCK then mkSpec q shift (negb caps) false
  else mkSpec (match scancode_to_ascii code shift caps with Some c => enqueue q c | None => q end)
         shift caps false.

Inductive KbEvent := Scan (code : Z) | ReadChar.

(** What a sequence of events reads, and where it leaves the device. *)
Fixpoint sp_run (evs : list KbEvent) (s : KbSpec) : list (option Z) * KbSpec :=
  match evs with
  | [] => ([], s)
  | Scan code :: evs' => sp_run evs' (sp_scan code s)
  | ReadChar :: evs' =>
      let (out, s') := sp_run evs' (mkSpec (tail (sp_queue s)) (sp_shift s) (sp_caps s) (sp_release s)) in
      (head (sp_queue s) :: out, s')
  end.

Fixpoint kb_run (evs : list KbEvent) : KM (list (option Z)) :=
  match evs with
  | [] => mret []
  | Scan code :: evs' => handle_scancode code ;; kb_run evs'
  | ReadChar :: evs' => c ← read_char; out ← kb_run evs'; mret (c :: out)
  end.

(** ** The ring implements the queue *)
Lemma kb_new_wf : kb_wf Keyboard_new.
Proof. by split. Qed.

Lemma buf_at_wf l i : 0 <= i < zlen l -> buf_at l i = Some (rd l (Z.to_nat i)).
Proof.
  intros Hi. unfold buf_at, rd, zlen in *.
  destruct (Z.leb_spec 0 i), (Z.ltb_spec i (Z.of_nat (length l))); try lia. simpl.
  destruct (lookup_lt_is_Some_2 l (Z.to_nat i)) as [x Hx]; [lia|].
  rewrite Hx. f_equal. symmetry. by apply nth_lookup_Some.
Qed.

Lemma rd_insert l i j c : (i < length l)%nat -> rd (<[i:=c]> l) j = if decide (j = i) then c else rd l j.
Proof.
  intros Hi. unfold rd. rewrite !nth_lookup. case_decide as Hj; [subst|].
  - by rewrite list_lookup_insert_eq.
  - by rewrite list_lookup_insert_ne.
Qed.

Lemma kb_count_max kb : (kb_count kb <= CAPACITY)%nat.
Proof.
  unfold kb_count, CAPACITY.
  pose proof (Z.mod_pos_bound (write_pos kb - read_pos kb) 256 ltac:(lia)). lia.
Qed.

Lemma length_kb_queue kb : length (kb_queue kb) = kb_count kb.
Proof. unfold kb_queue. by rewrite length_fmap, length_seq. Qed.

(** Two ring positions coincide only when they are the same offset. *)
Lemma ring_offset r i j : 0 <= i < 256 -> 0 <= j < 256 -> (r + i) mod 256 = (r + j) mod 256 -> i = j.
Proof. intros. Z.div_mod_to_equations. lia. Qed.

Lemma kb_count_write kb : kb_wf kb ->
  write_pos kb = (read_pos kb + Z.of_nat (kb_count kb)) mod 256.
Proof.
  intros [_ Hr Hw]. unfold kb_count.
  rewrite Z2Nat.id by (apply Z.mod_pos_bound; lia). Z.div_mod_to_equations. lia.
Qed.

Lemma push_spec kb c :
  kb_wf kb -> exists kb',
    push c kb = (Ok tt, kb') /\ kb_wf kb'
    /\ kb_abs kb' = mkSpec (enqueue (kb_queue kb) c) (shift_pressed kb) (caps_lock kb) (release_next kb).
Proof.
  intros Hw. pose proof Hw as [Hb Hr Hwp]. pose proof (kb_count_write kb Hw) as Hc.
  pose proof (kb_count_max kb) as Hmax. unfold CAPACITY in Hmax.
  unfold push, BUFFER_SIZE, enqueue. rewrite bind_get, length_kb_queue.
  pose proof (Z.mod_pos_bound (write_pos kb + 1) 256 ltac:(lia)) as Hnext.
  destruct (Z.eqb_spec ((write_pos kb + 1) mod 256) (read_pos kb)) as [He|He]; cbn [negb].
  - exists kb. do 2 (split; [done|]).
    assert (kb_count kb = 255%nat) as -> by (Z.div_mod_to_equations; lia). done.
  - rewrite buf_at_wf by (unfold zlen; lia). rewrite bind_unwrap_some.
    assert (kb_count kb < 255)%nat by (Z.div_mod_to_equations; lia).
    destruct (Nat.ltb_spec (kb_count kb) CAPACITY); [|unfold CAPACITY in *; lia].
    eexists. split; [reflexivity|]. split; [split; cbn [buffer read_pos write_pos]; [by rewrite length_insert|done|lia]|].
    unfold kb_abs. cbn [shift_pressed caps_lock release_next]. f_equal. unfold kb_queue.
    match goal with |- context [kb_count ?k] => set (kb' := k) end.
    assert (kb_count kb' = Datatypes.S (kb_count kb)) as ->.
    { unfold kb_count at 1. subst kb'. cbn [write_pos read_pos]. Z.div_mod_to_equations. lia. }
    rewrite seq_S, fmap_app. f_equal.
    + apply list_fmap_ext. intros i x [-> Hx]%lookup_seq. unfold kb_nth. subst kb'. cbn [buffer read_pos].
      rewrite rd_insert by lia. rewrite decide_False; [done|].
      intros Heq%Z2Nat.inj; try (apply Z.mod_pos_bound; lia); [|lia].
      rewrite Hc in Heq. apply ring_offset in Heq; lia.
    + simpl. unfold kb_nth. subst kb'. cbn [buffer read_pos]. rewrite <- Hc.
      by rewrite rd_insert, decide_True by lia.
Qed.

Lemma pop_spec kb :
  kb_wf kb -> exists kb',
    pop kb = (Ok (head (kb_queue kb)), kb') /\ kb_wf kb'
    /\ kb_abs kb' = mkSpec (tail (kb_queue kb)) (shift_pressed kb) (caps_lock kb) (release_next kb).
Proof.
  intros Hw. pose proof Hw as [Hb Hr Hwp]. pose proof (kb_count_write kb Hw) as Hc.
  unfold pop, BUFFER_SIZE. rewrite bind_get.
  destruct (Z.eqb_spec (read_pos kb) (write_pos kb)) as [He|He].
  - exists kb. unfold kb_abs, kb_queue.
    assert (kb_count kb = 0%nat) as ->; [|done]. unfold kb_count. by rewrite He, Z.sub_diag.
  - rewrite buf_at_wf by (unfold zlen; lia). rewrite bind_unwrap_some.
    destruct (kb_count kb) as [|n] eqn:Hn; [rewrite Z.add_0_r, Z.mod_small in Hc; lia|].
    pose proof (kb_count_max kb) as Hmax. unfold CAPACITY in Hmax.
    eexists. split; [rewrite bind_put; unfold kb_queue; rewrite Hn; cbn [seq fmap list_fmap head]; unfold kb_nth; by rewrite Z.add_0_r, (Z.mod_small (read_pos kb))|].
    split; [split; simpl; try done; apply Z.mod_pos_bound; lia|].
    unfold kb_abs. cbn [shift_pressed caps_lock release_next]. f_equal. unfold kb_queue. rewrite Hn.
    match goal with |- context [kb_count ?k] => set (kb' := k) end.
    assert (kb_count kb' = n) as ->.
    { unfold kb_count. subst kb'. cbn [write_pos read_pos]. Z.div_mod_to_equations. lia. }
    cbn [seq fmap list_fmap tail]. rewrite <- fmap_S_seq, <- list_fmap_compose.
    apply list_fmap_ext. intros i x _. unfold kb_nth. subst kb'. cbn [buffer read_pos compose].
    f_equal. f_equal. rewrite Nat2Z.inj_succ. Z.div_mod_to_equations. lia.
Qed.

Lemma handle_scancode_spec code kb :
  kb_wf kb -> exists kb',
    handle_scancode code kb = (Ok tt, kb') /\ kb_wf kb' /\ kb_abs kb' = sp_scan code (kb_abs kb).
Proof.
  intros Hw. pose proof Hw as [Hb Hr Hwp]. unfold handle_scancode, set_modifiers.
  rewrite bind_get. unfold sp_scan, kb_abs, is_shift.
  destruct (code =? SCANCODE_RELEASE); [by eexists|].
  destruct (release_next kb) eqn:Hrel.
  { eexists. split; [reflexivity|]. split; [done|]. f_equal. cbn [shift_pressed].
    by destruct (shift_pressed kb), (_ || _). }
  destruct (_ || _); [by eexists|].
  destruct (code =? SCANCODE_CAPS_LOCK); [by eexists|].
  destruct (scancode_to_ascii code _ _) as [c|].
  - destruct (push_spec kb c Hw) as (kb' & Hp & Hw' & Ha). exists kb'. rewrite Hrel in Ha. done.
  - exists kb. do 2 (split; [done|]). by rewrite Hrel.
Qed.

Lemma kb_run_spec evs kb :
  kb_wf kb -> exists kb',
    kb_run evs kb = (Ok (sp_run evs (kb_abs kb)).1, kb') /\ kb_wf kb'
    /\ kb_abs kb' = (sp_run evs (kb_abs kb)).2.
Proof.
  revert kb. induction evs as [|[code|] evs IH]; intros kb Hw; cbn [kb_run sp_run]; [by eexists|..].
  - destruct (handle_scancode_spec code kb Hw) as (kb1 & H1 & Hw1 & Ha1).
    destruct (IH kb1 Hw1) as (kb2 & H2 & Hw2 & Ha2). rewrite Ha1 in H2, Ha2.
    exists kb2. by rewrite (bind_ok _ _ _ _ _ H1).
  - destruct (pop_spec kb Hw) as (kb1 & H1 & Hw1 & Ha1).
    destruct (IH kb1 Hw1) as (kb2 & H2 & Hw2 & Ha2). rewrite Ha1 in H2, Ha2.
    unfold read_char. rewrite (bind_ok _ _ _ _ _ H1), (bind_ok _ _ _ _ _ H2).
    exists kb2. unfold kb_abs. cbn [sp_queue sp_shift sp_caps sp_release].
    destruct (sp_run evs _) as [out s'] eqn:Hr. cbn [fst snd] in *. done.
Qed.

(** C37: The keyboard driver refines a first-in first-out queue of capacity 255
    with a make/break decoder in front: whatever sequence of scancode interrupts
    and reads happens, no index is out of range, the bytes read are those of the
    abstract queue (later keystrokes are dropped while 255 are pending, nothing is
    overwritten or reordered), and the modifier state is the decoder's. *)
Theorem keyboard_refines_queue evs kb :
  kb_wf kb -> exists kb',
    kb_run evs kb = (Ok (sp_run evs (kb_abs kb)).1, kb') /\ kb_wf kb'
    /\ kb_abs kb' = (sp_run evs (kb_abs kb)).2.
Proof. apply kb_run_spec. Qed.

(** *** Typing *)
Record Stroke := mkStroke { st_shift : bool; st_code : Z }.

(** The bytes the controller sends for a key pressed and released, alone or
    while the left shift key is held. *)
Definition stroke_codes (st : Stroke) : list Z :=
  let press := [st_code st; SCANCODE_RELEASE; st_code st] in
  if st_shift st then SCANCODE_LEFT_SHIFT :: press ++ [SCANCODE_RELEASE; SCANCODE_LEFT_SHIFT] else press.

Definition stroke_char (caps : bool) (st : Stroke) : option Z :=
  scancode_to_ascii (st_code st) (st_shift st) caps.

Lemma sp_run_app evs evs' s :
  sp_run (evs ++ evs') s =
    let (out, s1) := sp_run evs s in let (out', s2) := sp_run evs' s1 in (out ++ out', s2).
Proof.
  revert s. induction evs as [|[code|] evs IH]; intros s; cbn [sp_run app].
  - by destruct (sp_run evs' s).
  - apply IH.
  - rewrite IH. destruct (sp_run evs _) as [out s1]. by destruct (sp_run evs' s1).
Qed.

Lemma key_not_modifier code shift caps c :
  scancode_to_ascii code shift caps = Some c ->
  (code =? SCANCODE_RELEASE) = false /\ is_shift code = false /\ (code =? SCANCODE_CAPS_LOCK) = false.
Proof.
  intros H. unfold is_shift.
  destruct (Z.eqb_spec code SCANCODE_RELEASE) as [->|_]; [done|].
  destruct (Z.eqb_spec code SCANCODE_LEFT_SHIFT) as [->|_]; [done|].
  destruct (Z.eqb_spec code SCANCODE_RIGHT_SHIFT) as [->|_]; [done|].
  by destruct (Z.eqb_spec code SCANCODE_CAPS_LOCK) as [->|_].
Qed.

Lemma sp_stroke st q caps c :
  stroke_char caps st = Some c ->
  sp_run (Scan <$> stroke_codes st) (mkSpec q false caps false) = ([], mkSpec (enqueue q c) false caps false).
Proof.
  unfold stroke_char, stroke_codes. intros Hc.
  destruct (key_not_modifier _ _ _ _ Hc) as (H1 & H2 & H3).
  assert (forall shift q, scancode_to_ascii (st_code st) shift caps = Some c ->
    sp_scan (st_code st) (mkSpec q shift caps false) = mkSpec (enqueue q c) shift caps false) as Hmake.
  { intros shift q' Hs. unfold sp_scan. by rewrite H1, H2, H3, Hs. }
  assert (forall shift q, sp_scan (st_code st) (mkSpec q shift caps true) = mkSpec q shift caps false) as Hbreak.
  { intros shift q'. unfold sp_scan. rewrite H1, H2. by destruct shift. }
  assert (forall shift q, sp_scan SCANCODE_RELEASE (mkSpec q shift caps false) = mkSpec q shift caps true) as Hrel by done.
  destruct (st_shift st); cbn [app fmap list_fmap sp_run].
  - assert (sp_scan SCANCODE_LEFT_SHIFT (mkSpec q false caps false) = mkSpec q true caps false) as -> by done.
    by rewrite (Hmake _ _ Hc), Hrel, Hbreak, Hrel.
  - by rewrite (Hmake _ _ Hc), Hrel, Hbreak.
Qed.

Lemma sp_strokes sts caps cs q :
  Forall2 (fun st c => stroke_char caps st = Some c) sts cs -> (length q + length sts <= CAPACITY)%nat ->
  sp_run (Scan <$> (sts ≫= stroke_codes)) (mkSpec q false caps false) = ([], mkSpec (q ++ cs) false caps false).
Proof.
  intros Hf. revert q. induction Hf as [|st c sts cs Hst Hf IH]; intros q Hlen; simpl in *.
  - by rewrite app_nil_r.
  - rewrite fmap_app, sp_run_app, (sp_stroke _ _ _ _ Hst).
    unfold enqueue. destruct (Nat.ltb_spec (length q) CAPACITY); [|lia].
    rewrite IH by (rewrite length_app; simpl; lia). by rewrite <- app_assoc.
Qed.

Lemma sp_drain q shift caps release :
  sp_run (replicate (length q) ReadChar ++ [ReadChar]) (mkSpec q shift caps release)
    = ((Some <$> q) ++ [None], mkSpec [] shift caps release).
Proof.
  induction q as [|c q IH]; [done|]. cbn [length replicate app sp_run sp_queue tail sp_shift sp_caps sp_release head].
  by rewrite IH.
Qed.

(** Typing works: from an idle keyboard, pressing and releasing up to 255
    keys of the layout one after another, some of them under shift, and then
    reading, yields exactly one character per key in order, the shifted one where
    shift was held (caps lock inverting it for letters), and then nothing. *)
Theorem kb_typing kb caps sts cs :
  kb_wf kb -> kb_abs kb = mkSpec [] false caps false ->
  Forall2 (fun st c => stroke_char caps st = Some c) sts cs -> (length sts <= CAPACITY)%nat ->
  (kb_run ((Scan <$> (sts ≫= stroke_codes)) ++ replicate (length sts) ReadChar ++ [ReadChar]) kb).1
    = Ok ((Some <$> cs) ++ [None]).
Proof.
  intros Hw Ha Hf Hlen.
  edestruct kb_run_spec as (kb' & Hrun & _ & _); [exact Hw|]. rewrite Hrun, Ha. cbn [fst].
  rewrite sp_run_app, (sp_strokes _ _ _ [] Hf) by (simpl; lia).
  rewrite (Forall2_length _ _ _ Hf). by rewrite sp_drain.
Qed.

Lemma keyboard_refines_queue_witness :
  exists kb', kb_run [Scan 0x12; Scan 0x1C; ReadChar; ReadChar] Keyboard_new
    = (Ok [Some 65; None], kb') /\ kb_wf kb'.
Proof.
  destruct (keyboard_refines_queue [Scan 0x12; Scan 0x1C; ReadChar; ReadChar] Keyboard_new kb_new_wf)
    as (kb' & H & Hw & _).
  exists kb'. split; [exact H|exact Hw].
Defined.

Lemma kb_typing_witness :
  (kb_run ((Scan <$> ([mkStroke true 0x33; mkStroke false 0x43] ≫= stroke_codes))
    ++ replicate 2 ReadChar ++ [ReadChar]) Keyboard_new).1 = Ok [Some 72; Some 105; None].
Proof.
  exact (kb_typing Keyboard_new false [mkStroke true 0x33; mkStroke false 0x43] [72; 105] kb_new_wf
    ltac:(reflexivity) ltac:(repeat constructor) ltac:(vm_compute; lia)).
Defined.
