(* ===== verification/Task.v ===== *)
(** * Task: tasks, their initial stacks and the context switch

    [vcore/src/sched/task.rs] and [vcore/src/sched/switch.rs].  The processor
    state the switch works on is a record of registers and the 64-bit words of
    memory; the naked assembly of [switch_context] is translated instruction by
    instruction.  [H] is the type of file handles, [AS] the type of address
    spaces ([vmm.rs]); neither is inspected here. *)
From Stdlib Require Import ZArith Lia.
From stdpp Require Import base numbers option list gmap.
From S2P Require Import Prelude VfsTypes FdTable.

Inductive TaskState := Ready | Running | Sleeping | Dead.
#[export] Instance TaskState_eq_dec : EqDecision TaskState.
Proof. solve_decision. Defined.

Inductive TaskMode := Kernel | User.
#[export] Instance TaskMode_eq_dec : EqDecision TaskMode.
Proof. solve_decision. Defined.

(** ** The machine *)
Record Regs := mkRegs {
  rsp : Z; rbp : Z; rbx : Z; r12 : Z; r13 : Z; r14 : Z; r15 : Z; rip : Z; cr3_reg : Z
}.

(** 64-bit words by address; absent words read as zero. *)
Abbreviation Mem := (gmap Z Z).

Definition mem_read (m : Mem) (a : Z) : Z := default 0 (m !! a).

Record Machine := mkMachine { regs : Regs; mem : Mem }.

Definition with_rsp (r : Regs) (v : Z) : Regs :=
  mkRegs v (rbp r) (rbx r) (r12 r) (r13 r) (r14 r) (r15 r) (rip r) (cr3_reg r).

(** [sp -= 8; (sp as *mut u64).write(v)], also the [push] instruction. *)
Definition push_word (v : Z) (sm : Z * Mem) : Z * Mem :=
  let sp := u64 (sm.1 - 8) in (sp, <[sp := v]> sm.2).

Fixpoint push_words (vs : list Z) (sm : Z * Mem) : Z * Mem :=
  match vs with
  | [] => sm
  | v :: vs' => push_words vs' (push_word v sm)
  end.

Definition pop_word (sm : Z * Mem) : Z * Z := (mem_read sm.2 sm.1, u64 (sm.1 + 8)).

(** [call switch_context] with return address [ret], then its body, up to and
    including the [ret]: the new machine and the value stored through [old_sp]. *)
Definition switch_context (ret new_sp new_cr3 : Z) (m : Machine) : Machine * Z :=
  let r := regs m in
  let '(sp, me) := push_words [ret; rbp r; rbx r; r12 r; r13 r; r14 r; r15 r] (rsp r, mem m) in
  let old := sp in                                        (* mov [rdi], rsp *)
  let cr3 := if new_cr3 =? 0 then cr3_reg r else new_cr3 in
  let sp := new_sp in                                     (* mov rsp, rsi *)
  let '(v15, sp) := pop_word (sp, me) in
  let '(v14, sp) := pop_word (sp, me) in
  let '(v13, sp) := pop_word (sp, me) in
  let '(v12, sp) := pop_word (sp, me) in
  let '(vbx, sp) := pop_word (sp, me) in
  let '(vbp, sp) := pop_word (sp, me) in
  let '(vip, sp) := pop_word (sp, me) in                  (* ret *)
  (mkMachine (mkRegs sp vbp vbx v12 v13 v14 v15 vip cr3) me, old).

(** ** Tasks *)
Section task.
Context {H AS : Type}.

Record Task := mkTask {
  id : Z;
  name : rstr;
  state : TaskState;
  mode : TaskMode;
  stack_ptr : Z;
  cr3 : Z;
  kernel_stack_top : Z;
  wake_at : option Z;
  user_entry : Z;
  user_stack : Z;
  fds : @FdTable H;
  cwd : rstr;
  address_space : option AS;
  stack_len : Z    (* the bytes of [_stack], which live in [Mem] *)
}.

Definition STACK_SIZE : Z := 4096 * 4.

(** The top of the stack buffer allocated at [stack_base], 16-byte aligned. *)
Definition stack_top (stack_base : Z) : Z := Z.ldiff (stack_base +w64 STACK_SIZE) 0xF.

(** [Task::new]: [nid] is the id drawn from [NEXT_ID], [stack_base] the address
    of the freshly allocated stack, [trampoline] the address of
    [entry_trampoline], [cr3] the current page table. *)
Definition Task_new (nid : Z) (nm : rstr) (entry trampoline stack_base cr3 : Z) (m : Mem) : Task * Mem :=
  let '(sp, m') := push_words [trampoline; 0; 0; 0; 0; 0; entry] (stack_top stack_base, m) in
  (mkTask nid nm Ready Kernel sp cr3 (stack_top stack_base) None 0 0 FdTable_new (lit "/") None STACK_SIZE, m').

Definition Task_new_user (nid : Z) (nm : rstr) (a : AS) (cr3_value : Z) (user_entry user_stack : Z)
    (trampoline stack_base : Z) (m : Mem) : Task * Mem :=
  let '(sp, m') := push_words [trampoline; 0; 0; 0; 0; user_stack; user_entry] (stack_top stack_base, m) in
  (mkTask nid nm Ready User sp cr3_value (stack_top stack_base) None user_entry user_stack FdTable_new
     (lit "/") (Some a) STACK_SIZE, m').

Definition kernel_task (nid cr3 : Z) : Task :=
  mkTask nid (lit "sched") Running Kernel 0 cr3 0 None 0 0 FdTable_new (lit "/") None 0.

Definition set_state (st : TaskState) (t : Task) : Task :=
  mkTask (id t) (name t) st (mode t) (stack_ptr t) (cr3 t) (kernel_stack_top t) (wake_at t)
    (user_entry t) (user_stack t) (fds t) (cwd t) (address_space t) (stack_len t).
Definition set_wake_at (w : option Z) (t : Task) : Task :=
  mkTask (id t) (name t) (state t) (mode t) (stack_ptr t) (cr3 t) (kernel_stack_top t) w
    (user_entry t) (user_stack t) (fds t) (cwd t) (address_space t) (stack_len t).
Definition set_stack_ptr (sp : Z) (t : Task) : Task :=
  mkTask (id t) (name t) (state t) (mode t) sp (cr3 t) (kernel_stack_top t) (wake_at t)
    (user_entry t) (user_stack t) (fds t) (cwd t) (address_space t) (stack_len t).
Definition set_fds (f : @FdTable H) (t : Task) : Task :=
  mkTask (id t) (name t) (state t) (mode t) (stack_ptr t) (cr3 t) (kernel_stack_top t) (wake_at t)
    (user_entry t) (user_stack t) f (cwd t) (address_space t) (stack_len t).
Definition set_task_cwd (c : rstr) (t : Task) : Task :=
  mkTask (id t) (name t) (state t) (mode t) (stack_ptr t) (cr3 t) (kernel_stack_top t) (wake_at t)
    (user_entry t) (user_stack t) (fds t) c (address_space t) (stack_len t).
End task.
Arguments Task : clear implicits.

(** ** Suspended contexts

    What a switch saves for a task and must give back to it. *)
Record Ctx := mkCtx { c_rbp : Z; c_rbx : Z; c_r12 : Z; c_r13 : Z; c_r14 : Z; c_r15 : Z; c_rip : Z; c_rsp : Z }.

Definition FRAME : Z := 56.

Definition frame_words (c : Ctx) : list Z :=
  [c_r15 c; c_r14 c; c_r13 c; c_r12 c; c_rbx c; c_rbp c; c_rip c].

(** The frame of [c] is in memory at [sp]. *)
Definition suspended (m : Mem) (sp : Z) (c : Ctx) : Prop :=
  c_rsp c = sp + FRAME
  /\ forall i v, frame_words c !! i = Some v -> mem_read m (sp + 8 * Z.of_nat i) = v.

(** The context a running task would be suspended with, returning to [ret]. *)
Definition ctx_of (r : Regs) (ret : Z) : Ctx :=
  mkCtx (rbp r) (rbx r) (r12 r) (r13 r) (r14 r) (r15 r) ret (rsp r).

Definition resume (c : Ctx) (cr3 : Z) : Regs :=
  mkRegs (c_rsp c) (c_rbp c) (c_rbx c) (c_r12 c) (c_r13 c) (c_r14 c) (c_r15 c) (c_rip c) cr3.

(** Outside [lo, hi) the two memories agree. *)
Definition mem_frame (m m' : Mem) (lo hi : Z) : Prop :=
  forall a, ~ (lo <= a < hi) -> mem_read m' a = mem_read m a.

Lemma mem_read_insert m a v b : mem_read (<[a := v]> m) b = if decide (b = a) then v else mem_read m b.
Proof.
  unfold mem_read. case_decide as E; [subst; by rewrite lookup_insert_eq|].
  by rewrite lookup_insert_ne.
Qed.

(** Pushing words moves the pointer down and writes them in memory order. *)
Lemma push_words_spec vs sp m :
  8 * zlen vs <= sp < 2 ^ 64 ->
  (push_words vs (sp, m)).1 = sp - 8 * zlen vs
  /\ (forall i v, vs !! i = Some v -> mem_read (push_words vs (sp, m)).2 (sp - 8 * Z.of_nat (S i)) = v)
  /\ mem_frame m (push_words vs (sp, m)).2 (sp - 8 * zlen vs) sp.
Proof.
  unfold zlen. revert sp m. induction vs as [|v vs IH]; intros sp m Hsp; cbn [push_words length] in *.
  { split_and!; [simpl; lia|by intros [] ?|done]. }
  unfold push_word. cbn [fst snd]. rewrite u64_small by lia.
  destruct (IH (sp - 8) (<[sp - 8:=v]> m) ltac:(lia)) as (H1 & H2 & H3).
  split_and!; [rewrite H1; lia| |].
  - intros [|i] w; simpl; intros Hw.
    + injection Hw as <-. rewrite H3 by lia. rewrite mem_read_insert. by rewrite decide_True by lia.
    + rewrite <- (H2 i w Hw). f_equal. lia.
  - intros a Ha. rewrite H3 by lia. rewrite mem_read_insert. by rewrite decide_False by lia.
Qed.

Lemma suspended_frame m m' sp c lo hi :
  suspended m sp c -> mem_frame m m' lo hi -> hi <= sp \/ sp + FRAME <= lo -> suspended m' sp c.
Proof.
  intros [Hr Hs] Hf Hd. split; [done|]. intros i v Hi. rewrite Hf; [by apply Hs|].
  apply lookup_lt_Some in Hi. cbn in Hi. unfold FRAME in *. lia.
Qed.

(** The effect of a switch: the caller is suspended on its own stack, the
    suspended context is resumed, and only the caller's frame was written. *)
Lemma switch_context_spec ret new_sp new_cr3 m c :
  FRAME <= rsp (regs m) < 2 ^ 64 ->
  0 <= new_sp -> new_sp + FRAME < 2 ^ 64 ->
  suspended (mem m) new_sp c ->
  rsp (regs m) <= new_sp \/ new_sp + FRAME <= rsp (regs m) - FRAME ->
  let '(m', old) := switch_context ret new_sp new_cr3 m in
  regs m' = resume c (if new_cr3 =? 0 then cr3_reg (regs m) else new_cr3)
  /\ old = rsp (regs m) - FRAME
  /\ suspended (mem m') old (ctx_of (regs m) ret)
  /\ mem_frame (mem m) (mem m') (rsp (regs m) - FRAME) (rsp (regs m)).
Proof.
  intros Hsp Hn1 Hn2 Hc Hdisj. unfold switch_context, FRAME in *. destruct m as [r me]. cbn [regs mem] in *.
  set (vs := [ret; rbp r; rbx r; r12 r; r13 r; r14 r; r15 r]).
  destruct (push_words_spec vs (rsp r) me) as (H1 & H2 & H3); [unfold zlen; cbn; lia|].
  destruct (push_words vs (rsp r, me)) as [sp me'] eqn:Hp. cbn [fst snd] in *. subst sp.
  change (8 * zlen vs) with 56 in *.
  assert (suspended me' new_sp c) as [Hcr Hs] by (eapply suspended_frame; [done..|unfold FRAME; lia]).
  unfold pop_word. cbn [fst snd]. rewrite !(u64_small (new_sp + 8)) by lia.
  rewrite !(u64_small (new_sp + 8 + 8)) by lia. rewrite !(u64_small (new_sp + 8 + 8 + 8)) by lia.
  rewrite !(u64_small (new_sp + 8 + 8 + 8 + 8)) by lia. rewrite !(u64_small (new_sp + 8 + 8 + 8 + 8 + 8)) by lia.
  rewrite !(u64_small (new_sp + 8 + 8 + 8 + 8 + 8 + 8)) by lia.
  rewrite !(u64_small (new_sp + 8 + 8 + 8 + 8 + 8 + 8 + 8)) by lia.
  cbn [regs mem]. split_and!.
  - unfold resume. f_equal.
    + rewrite Hcr. unfold FRAME. lia.
    + rewrite <- (Hs 5%nat _ eq_refl). f_equal; lia.
    + rewrite <- (Hs 4%nat _ eq_refl). f_equal; lia.
    + rewrite <- (Hs 3%nat _ eq_refl). f_equal; lia.
    + rewrite <- (Hs 2%nat _ eq_refl). f_equal; lia.
    + rewrite <- (Hs 1%nat _ eq_refl). f_equal; lia.
    + rewrite <- (Hs 0%nat _ eq_refl). f_equal; lia.
    + rewrite <- (Hs 6%nat _ eq_refl). f_equal; lia.
  - done.
  - split; [unfold FRAME; simpl; lia|]. intros i v Hi.
    rewrite <- (H2 (6 - i)%nat v).
    + f_equal. apply lookup_lt_Some in Hi. cbn in Hi. lia.
    + by do 7 (destruct i as [|i]; [exact Hi|]).
  - exact H3.
Qed.

Lemma stack_top_range base :
  0 <= base -> base + STACK_SIZE < 2 ^ 64 -> base + STACK_SIZE - 15 <= stack_top base <= base + STACK_SIZE.
Proof.
  intros Hb Hl. unfold stack_top, STACK_SIZE in *. rewrite u64_small by lia.
  change 15 with (Z.ones 4). rewrite Z.ldiff_ones_r by lia. rewrite Z.shiftr_div_pow2, Z.shiftl_mul_pow2 by lia.
  change (2 ^ 4) with 16. change (Z.ones 4) with 15. Z.div_mod_to_equations. lia.
Qed.

(** The seven words a new stack starts with are the frame of a context about to
    enter the trampoline. *)
Lemma initial_frame tramp v14 v15 base m :
  0 <= base -> base + STACK_SIZE < 2 ^ 64 ->
  let '(sp, m') := push_words [tramp; 0; 0; 0; 0; v14; v15] (stack_top base, m) in
  suspended m' sp (mkCtx 0 0 0 0 v14 v15 tramp (stack_top base))
  /\ base <= sp /\ sp + FRAME <= base + STACK_SIZE /\ mem_frame m m' base (base + STACK_SIZE).
Proof.
  intros Hb Hl. pose proof (stack_top_range base Hb Hl) as Ht. unfold STACK_SIZE, FRAME in *.
  set (vs := [tramp; 0; 0; 0; 0; v14; v15]).
  destruct (push_words_spec vs (stack_top base) m) as (H1 & H2 & H3); [unfold zlen; cbn; lia|].
  destruct (push_words vs (stack_top base, m)) as [sp me'] eqn:Hp. cbn [fst snd] in *. subst sp.
  change (8 * zlen vs) with 56 in *. split_and!; [| lia | lia |].
  - split; [unfold FRAME; simpl; lia|]. intros i v Hi. rewrite <- (H2 (6 - i)%nat v).
    + f_equal. apply lookup_lt_Some in Hi. cbn in Hi. lia.
    + by do 7 (destruct i as [|i]; [exact Hi|]).
  - intros a Ha. apply H3. lia.
Qed.

Definition new_ctx (tramp v14 v15 base : Z) : Ctx := mkCtx 0 0 0 0 v14 v15 tramp (stack_top base).

Section new_tasks.
Context {H AS : Type}.

Lemma Task_new_frame nid nm entry tramp base c m (t : Task H AS) m' :
  0 <= base -> base + STACK_SIZE < 2 ^ 64 ->
  Task_new nid nm entry tramp base c m = (t, m') ->
  suspended m' (stack_ptr t) (new_ctx tramp 0 entry base)
  /\ base <= stack_ptr t /\ stack_ptr t + FRAME <= base + STACK_SIZE
  /\ mem_frame m m' base (base + STACK_SIZE)
  /\ id t = nid /\ state t = Ready /\ cr3 t = c /\ kernel_stack_top t = stack_top base.
Proof.
  intros Hb Hl. unfold Task_new. pose proof (initial_frame tramp 0 entry base m Hb Hl) as Hf.
  destruct (push_words _ _) as [sp me]. intros [= <- <-]. cbn. naive_solver.
Qed.

Lemma Task_new_user_frame nid nm (a : AS) c entry stack tramp base m (t : Task H AS) m' :
  0 <= base -> base + STACK_SIZE < 2 ^ 64 ->
  Task_new_user nid nm a c entry stack tramp base m = (t, m') ->
  suspended m' (stack_ptr t) (new_ctx tramp stack entry base)
  /\ base <= stack_ptr t /\ stack_ptr t + FRAME <= base + STACK_SIZE
  /\ mem_frame m m' base (base + STACK_SIZE)
  /\ id t = nid /\ state t = Ready /\ cr3 t = c /\ kernel_stack_top t = stack_top base.
Proof.
  intros Hb Hl. unfold Task_new_user. pose proof (initial_frame tramp stack entry base m Hb Hl) as Hf.
  destruct (push_words _ _) as [sp me]. intros [= <- <-]. cbn. naive_solver.
Qed.

(** The first switch to a new user task, from a task running on another
    stack, lands in [user_entry_trampoline] with the program's entry point in
    [r15] and its stack in [r14], the kernel stack empty at its 16-byte aligned
    top, and the task's page table loaded; the task switched from is left
    suspended with its own callee-saved registers and return address. *)
Theorem first_switch_to_user nid nm (a : AS) c entry stack tramp base m (t : Task H AS) m1 ret mc :
  0 <= base -> base + STACK_SIZE < 2 ^ 64 -> c ≠ 0 ->
  Task_new_user nid nm a c entry stack tramp base m = (t, m1) ->
  mem mc = m1 -> FRAME <= rsp (regs mc) < 2 ^ 64 ->
  rsp (regs mc) <= base \/ base + STACK_SIZE <= rsp (regs mc) - FRAME ->
  let '(mc', old) := switch_context ret (stack_ptr t) (cr3 t) mc in
  rip (regs mc') = tramp /\ r15 (regs mc') = entry /\ r14 (regs mc') = stack
  /\ rsp (regs mc') = kernel_stack_top t /\ rsp (regs mc') mod 16 = 0
  /\ cr3_reg (regs mc') = c
  /\ suspended (mem mc') old (ctx_of (regs mc) ret).
Proof.
  intros Hb Hl Hc Ht Hm Hsp Hd.
  destruct (Task_new_user_frame _ _ _ _ _ _ _ _ _ _ _ Hb Hl Ht) as (Hs & H1 & H2 & _ & _ & _ & Hcr & Hk).
  pose proof (switch_context_spec ret (stack_ptr t) (cr3 t) mc (new_ctx tramp stack entry base)) as Hsw.
  rewrite Hm in Hsw. specialize (Hsw Hsp ltac:(lia) ltac:(lia) Hs ltac:(lia)).
  destruct (switch_context _ _ _ _) as [mc' old]. destruct Hsw as (Hr & _ & Hsus & _).
  rewrite Hr, Hcr. cbn [rip r15 r14 rsp cr3_reg resume new_ctx c_rip c_r15 c_r14 c_rsp].
  destruct (Z.eqb_spec c 0); [done|]. split_and!; try done.
  unfold stack_top. change 0xF with (Z.ones 4). rewrite Z.ldiff_ones_r by lia.
  rewrite Z.shiftl_mul_pow2 by lia. change (2 ^ 4) with 16. apply Z.mod_mul. lia.
Qed.
End new_tasks.

Lemma first_switch_to_user_witness :
  let '(t, m1) := @Task_new_user unit unit 1 (lit "sh") tt 0x5000 0x400000 0x7ffff000 0xffff8000 0x100000 gmap_empty in
  let '(mc', _) := switch_context 0x1234 (stack_ptr t) (cr3 t)
    (mkMachine (mkRegs 0x90000 1 2 3 4 5 6 0 0x1000) m1) in
  rip (regs mc') = 0xffff8000 /\ r15 (regs mc') = 0x400000.
Proof.
  destruct (@Task_new_user unit unit 1 (lit "sh") tt 0x5000 0x400000 0x7ffff000 0xffff8000 0x100000 gmap_empty)
    as [t m1] eqn:Ht.
  pose proof (first_switch_to_user 1 (lit "sh") tt 0x5000 0x400000 0x7ffff000 0xffff8000 0x100000 gmap_empty t m1
    0x1234 (mkMachine (mkRegs 0x90000 1 2 3 4 5 6 0 0x1000) m1)
    ltac:(lia) ltac:(vm_compute; done) ltac:(lia) Ht eq_refl ltac:(vm_compute; split; done) ltac:(left; vm_compute; done)) as Hf.
  destruct (switch_context _ _ _ _) as [mc' old]. destruct Hf as (H1 & H2 & _). split; [exact H1|exact H2].
Defined.
