(* ===== verification/Sched.v ===== *)
(** * Sched: the round-robin scheduler

    [vcore/src/sched/mod.rs].  The world holds the scheduler behind
    [SCHEDULER: Mutex<Option<Scheduler>>], the tick counter, the machine (of
    [Task.v]) and the ring-0 stack pointer of the TSS.  Every entry point runs
    with interrupts off, so each is one step of the system. *)
From Stdlib Require Import ZArith Lia.
From stdpp Require Import base numbers option list gmap.
From S2P Require Import Prelude VfsTypes FdTable Task.

Section sched.
Context {H AS : Type}.
Implicit Types (t cur : Task H AS).

(** Indices into the queue are machine words; the queue is shorter than memory,
    so they are natural numbers here. *)
Record Scheduler := mkScheduler { tasks : list (Task H AS); current : nat }.

Abbreviation SM := (M Scheduler Empty_set).

Definition Scheduler_new : Scheduler := mkScheduler [] 0.

Definition add_task (t : Task H AS) : SM unit :=
  s ← get; put (mkScheduler (tasks s ++ [t]) (current s)).

(** [self.tasks[idx].state == st]. *)
Definition in_state (s : Scheduler) (st : TaskState) (idx : nat) : bool :=
  match tasks s !! idx with Some t => bool_decide (state t = st) | None => false end.

Definition next_ready (s : Scheduler) : option nat :=
  let len := length (tasks s) in
  List.find (in_state s Ready) (map (fun i => (current s + i) mod len)%nat (seq 1 len)).

(** One round of the loop of [reap_dead]. *)
Definition reap_step (i : nat) : SM unit :=
  s ← get;
  if bool_decide (i ≠ current s) then
    t ← unwrap (tasks s !! i);
    if bool_decide (state t = Dead) then
      put (mkScheduler (delete i (tasks s)) (if (i <? current s)%nat then current s - 1 else current s)%nat)
    else mret tt
  else mret tt.

Definition reap_dead : SM unit :=
  s ← get; for_each (rev (seq 0 (length (tasks s)))) reap_step.

Definition current_task (s : Scheduler) : option (Task H AS) := tasks s !! current s.

(** Update [self.tasks[idx]], which panics out of range. *)
Definition update_task (idx : nat) (f : Task H AS -> Task H AS) : SM unit :=
  s ← get;
  _ ← unwrap (tasks s !! idx);
  put (mkScheduler (alter f idx (tasks s)) (current s)).

(** A sleeping task whose time has come. *)
Definition wake (tick : Z) (t : Task H AS) : Task H AS :=
  if bool_decide (state t = Sleeping) then
    match wake_at t with
    | Some wake_at => if wake_at <=? tick then set_wake_at None (set_state Ready t) else t
    | None => t
    end
  else t.

Record SwitchInfo := mkSwitch { sw_old : nat; sw_new_sp : Z; sw_cr3 : Z; sw_kernel_stack : Z }.

(** The locked part of [schedule]: the switch to perform, if any. *)
Definition schedule_pick (tick : Z) : SM (option SwitchInfo) :=
  reap_dead ;;
  s ← get;
  put (mkScheduler (wake tick <$> tasks s) (current s)) ;;
  s ← get;
  let current := current s in
  match next_ready s with
  | None => mret None
  | Some next =>
      put (mkScheduler (tasks s) next) ;;
      tc ← unwrap (tasks s !! current);
      (if bool_decide (state tc = Running) then update_task current (set_state Ready) else mret tt) ;;
      update_task next (set_state Running) ;;
      s ← get;
      tc ← unwrap (tasks s !! current);
      tn ← unwrap (tasks s !! next);
      mret (Some (mkSwitch current (stack_ptr tn)
                    (if negb (cr3 tc =? cr3 tn) then cr3 tn else 0) (kernel_stack_top tn)))
  end.

(** ** The world *)
Record World := mkWorld {
  w_sched : option Scheduler;
  w_ticks : Z;
  w_machine : Machine;
  w_rsp0 : Z;
  w_next_id : Z
}.

Abbreviation WM := (M World Empty_set).

(** Run a computation on the scheduler, which must be there. *)
Definition on_sched {A} (m : SM A) : WM A := fun w =>
  match w_sched w with
  | Some s => let (o, s') := m s in
      (o, mkWorld (Some s') (w_ticks w) (w_machine w) (w_rsp0 w) (w_next_id w))
  | None => (Panic, w)
  end.

(** The task-stack switch itself; the saved stack pointer goes through [old_sp]
    into the task's slot. *)
Definition do_switch (ret : Z) (i : SwitchInfo) : WM unit := fun w =>
  let rsp0 := if negb (sw_kernel_stack i =? 0) then sw_kernel_stack i else w_rsp0 w in
  let (m', old) := switch_context ret (sw_new_sp i) (sw_cr3 i) (w_machine w) in
  let sched := (fun s => mkScheduler (alter (set_stack_ptr old) (sw_old i) (tasks s)) (current s)) <$> w_sched w in
  (Ok tt, mkWorld sched (w_ticks w) m' rsp0 (w_next_id w)).

(** [ret] is the address [schedule] returns to in the task that calls it. *)
Definition schedule (ret : Z) : WM unit :=
  w ← get;
  match w_sched w with
  | None => mret tt
  | Some _ =>
      info ← on_sched (schedule_pick (w_ticks w));
      match info with
      | Some i => do_switch ret i
      | None => mret tt
      end
  end.

Definition yield_now (ret : Z) : WM unit := schedule ret.

(** The timer interrupt: count the tick, acknowledge, schedule. *)
Definition timer_handler (ret : Z) : WM unit :=
  w ← get;
  put (mkWorld (w_sched w) (w_ticks w +w64 1) (w_machine w) (w_rsp0 w) (w_next_id w)) ;;
  schedule ret.

Definition sleep (ret ticks : Z) : WM unit :=
  w ← get;
  let current_tick := w_ticks w in
  match w_sched w with
  | None => mret tt
  | Some _ =>
      on_sched (s ← get; update_task (current s)
        (fun t => set_state Sleeping (set_wake_at (Some (current_tick +w64 ticks)) t)))
  end ;;
  schedule ret.

(** [exit] up to its final [hlt] loop, which a later interrupt leaves for good. *)
Definition exit (ret : Z) : WM unit :=
  w ← get;
  match w_sched w with
  | None => mret tt
  | Some _ => on_sched (s ← get; update_task (current s) (set_state Dead))
  end ;;
  schedule ret.

Definition next_id : WM Z :=
  w ← get;
  put (mkWorld (w_sched w) (w_ticks w) (w_machine w) (w_rsp0 w) (w_next_id w +w64 1)) ;;
  mret (w_next_id w).

(** [init], with [cr3] the page table in use. *)
Definition sched_init (cr3 : Z) : WM unit :=
  nid ← next_id;
  w ← get;
  put (mkWorld (Some (mkScheduler [kernel_task nid cr3] 0)) (w_ticks w) (w_machine w) (w_rsp0 w) (w_next_id w)).

(** A new task: its id, and [mk] with the memory its first frame goes to. *)
Definition create (mk : Z -> Mem -> Task H AS * Mem) : WM (Task H AS) :=
  nid ← next_id;
  w ← get;
  let (t, m') := mk nid (mem (w_machine w)) in
  put (mkWorld (w_sched w) (w_ticks w) (mkMachine (regs (w_machine w)) m') (w_rsp0 w) (w_next_id w)) ;;
  mret t.

(** [if let Some(sched) = .. { sched.add_task(task) }]. *)
Definition enqueue (t : Task H AS) : WM unit :=
  w ← get;
  match w_sched w with
  | None => mret tt
  | Some _ => on_sched (add_task t)
  end.

(** [spawn]: the new task's stack was allocated at [stack_base]. *)
Definition spawn (nm : rstr) (entry trampoline stack_base : Z) : WM unit :=
  w ← get;
  t ← create (fun nid m => Task_new nid nm entry trampoline stack_base (cr3_reg (regs (w_machine w))) m);
  enqueue t.

(** The end of [spawn_elf]: a user task for the address space [a]. *)
Definition spawn_user (nm : rstr) (a : AS) (cr3_value entry user_stack trampoline stack_base : Z) : WM (Task H AS) :=
  t ← create (fun nid m => Task_new_user nid nm a cr3_value entry user_stack trampoline stack_base m);
  enqueue t ;;
  mret t.

(** [with_fd_table(f)]; the closure may also change what [S] stands for. *)
Definition with_fd_table {S A} (f : M (@FdTable H * S) VfsError A) : M (World * S) VfsError A :=
  fun '(w, s) =>
    match w_sched w with
    | None => (Err IoError, (w, s))
    | Some sched =>
        match current_task sched with
        | None => (Err IoError, (w, s))
        | Some task =>
            let '(o, (fds', s')) := f (Task.fds task, s) in
            (o, (mkWorld (Some (mkScheduler (alter (set_fds fds') (current sched) (tasks sched)) (current sched)))
                   (w_ticks w) (w_machine w) (w_rsp0 w) (w_next_id w), s'))
        end
    end.

Definition get_cwd (w : World) : option rstr :=
  sched ← w_sched w;
  t ← tasks sched !! current sched;
  Some (cwd t).

Definition set_cwd (path : rstr) : M World unit unit :=
  w ← get;
  sched ← ok_or tt (w_sched w);
  _ ← ok_or tt (tasks sched !! current sched);
  put (mkWorld (Some (mkScheduler (alter (set_task_cwd path) (current sched) (tasks sched)) (current sched)))
         (w_ticks w) (w_machine w) (w_rsp0 w) (w_next_id w)).

(** ** The run queue

    [rq s rest cur]: [cur] is the current task and [rest] the others in the order
    [next_ready] considers them. *)
Definition rq (s : Scheduler) (rest : list (Task H AS)) (cur : Task H AS) : Prop :=
  exists pre post, tasks s = pre ++ cur :: post /\ current s = length pre /\ rest = post ++ pre.

Definition alive (t : Task H AS) : Prop := state t ≠ Dead.
#[export] Instance alive_dec t : Decision (alive t).
Proof. unfold alive. apply _. Defined.

Definition yield_task (t : Task H AS) : Task H AS :=
  if bool_decide (state t = Running) then set_state Ready t else t.

(** One scheduling decision on the queue. *)
Definition rq_schedule (tick : Z) (q : list (Task H AS) * Task H AS) : list (Task H AS) * Task H AS :=
  let rest := wake tick <$> filter alive q.1 in
  let cur := wake tick q.2 in
  match list_find (fun t => state t = Ready) rest with
  | Some (k, t) => (drop (S k) rest ++ yield_task cur :: take k rest, set_state Running t)
  | None => if bool_decide (state cur = Ready) then (rest, set_state Running cur) else (rest, cur)
  end.
End sched.
Arguments Scheduler : clear implicits.
Arguments World : clear implicits.

Section run_queue.
Context {H AS : Type}.
Implicit Types (t cur : Task H AS) (s : Scheduler H AS).

(** The reaper handles index [i], which is not the current one. *)
Lemma reap_step_at s i pre t post :
  tasks s = pre ++ t :: post -> i = length pre -> i ≠ current s ->
  reap_step i s = (Ok tt,
    if decide (alive t) then s
    else mkScheduler (pre ++ post) (if (i <? current s)%nat then current s - 1 else current s)%nat).
Proof.
  intros Ht -> Hi. unfold reap_step. rewrite bind_get, bool_decide_true by done.
  rewrite Ht, list_lookup_middle by done. rewrite bind_unwrap_some. unfold alive.
  destruct (decide (state t = Dead)) as [Hd|Hd].
  - rewrite bool_decide_true by done. rewrite decide_False by tauto. by rewrite delete_middle.
  - rewrite bool_decide_false by done. by rewrite decide_True.
Qed.

(** Backwards over the tasks after the current one. *)
Lemma reap_after pre cur p1 p2 :
  for_each (rev (seq (S (length pre)) (length p1))) reap_step
    (mkScheduler (pre ++ cur :: p1 ++ p2) (length pre))
  = (Ok tt, mkScheduler (pre ++ cur :: filter alive p1 ++ p2) (length pre)).
Proof.
  revert p2. induction p1 as [|t p1 IH] using rev_ind; intros p2; [done|].
  rewrite length_app, Nat.add_1_r, seq_S, rev_app_distr. cbn [rev app for_each].
  erewrite bind_ok; [|eapply (reap_step_at _ _ (pre ++ cur :: p1) t p2); cbn [tasks current];
    [by rewrite <- !app_assoc|rewrite length_app; simpl; lia|lia]].
  cbn [current]. rewrite filter_app, filter_cons, filter_nil. case_decide.
  - rewrite <- !app_assoc. apply (IH (t :: p2)).
  - destruct (Nat.ltb_spec (S (length pre) + length p1) (length pre)); [lia|].
    rewrite <- !app_assoc. apply (IH p2).
Qed.

(** Backwards over the tasks before it; each removal shifts the index. *)
Lemma reap_before p1 p2 cur post :
  for_each (rev (seq 0 (length p1))) reap_step
    (mkScheduler (p1 ++ p2 ++ cur :: post) (length p1 + length p2))
  = (Ok tt, mkScheduler (filter alive p1 ++ p2 ++ cur :: post) (length (filter alive p1) + length p2)).
Proof.
  revert p2. induction p1 as [|t p1 IH] using rev_ind; intros p2; [done|].
  rewrite length_app, Nat.add_1_r, seq_S, rev_app_distr. cbn [rev app for_each].
  erewrite bind_ok; [|eapply (reap_step_at _ _ p1 t (p2 ++ cur :: post)); cbn [tasks current];
    [by rewrite <- !app_assoc|lia|lia]].
  cbn [current]. rewrite filter_app, filter_cons, filter_nil. case_decide.
  - rewrite <- !app_assoc, length_app. pose proof (IH (t :: p2)) as IH'. cbn [length app] in *.
    replace (S (length p1) + length p2)%nat with (length p1 + S (length p2))%nat by lia.
    rewrite IH'. do 2 f_equal. simpl. lia.
  - destruct (Nat.ltb_spec (0 + length p1) (S (length p1) + length p2)); [|lia].
    rewrite <- !app_assoc. replace (S (length p1) + length p2 - 1)%nat with (length p1 + length p2)%nat by lia.
    rewrite IH. by rewrite app_nil_l, app_nil_r.
Qed.

(** [reap_dead] never panics, drops exactly the dead tasks other than the current
    one, and keeps pointing at the current one. *)
Lemma reap_dead_run pre cur post :
  reap_dead (mkScheduler (pre ++ cur :: post) (length pre))
  = (Ok tt, mkScheduler (filter alive pre ++ cur :: filter alive post) (length (filter alive pre))).
Proof.
  unfold reap_dead. rewrite bind_get. cbn [tasks].
  replace (length (pre ++ cur :: post)) with (length pre + (1 + length post))%nat
    by (rewrite length_app; simpl; lia).
  rewrite seq_app, rev_app_distr, for_each_app. cbn [seq app rev].
  rewrite Nat.add_0_l.
  assert (for_each (rev (length pre :: seq (S (length pre)) (length post))) reap_step
     (mkScheduler (pre ++ cur :: post) (length pre))
     = (Ok tt, mkScheduler (pre ++ cur :: filter alive post) (length pre))) as Hmid.
  { cbn [rev]. rewrite for_each_app. pose proof (reap_after pre cur post []) as Ha.
    rewrite !app_nil_r in Ha. rewrite (bind_ok _ _ _ _ _ Ha). cbn [for_each].
    erewrite bind_ok; [reflexivity|]. unfold reap_step. rewrite bind_get.
    by rewrite bool_decide_false by (cbn [current]; tauto). }
  rewrite (bind_ok _ _ _ _ _ Hmid).
  pose proof (reap_before pre [] cur (filter alive post)) as Hb. cbn [length app] in Hb.
  rewrite !Nat.add_0_r in Hb. exact Hb.
Qed.

(** The indices [next_ready] tries: after the current one, then from the start. *)
Lemma ring_indices (pre post : list (Task H AS)) :
  map (fun i => (length pre + i) mod (length pre + S (length post)))%nat (seq 1 (length pre + S (length post)))
  = seq (S (length pre)) (length post) ++ seq 0 (length pre) ++ [length pre].
Proof.
  assert (seq 1 (length pre + S (length post)) = seq 1 (length post + (1 + length pre))) as ->
    by (f_equal; lia).
  rewrite seq_app, map_app. f_equal.
  - replace (seq (S (length pre)) (length post)) with (Nat.add (length pre) <$> seq 1 (length post))
      by (rewrite fmap_add_seq; f_equal; lia).
    apply map_ext_in. intros i Hi%in_seq. by rewrite Nat.mod_small by lia.
  - rewrite (Nat.add_comm 1 (length pre)), seq_app, map_app. cbn [seq map].
    replace (seq (1 + length post) (length pre)) with (Nat.add (S (length post)) <$> seq 0 (length pre))
      by by rewrite fmap_add_seq, Nat.add_0_r.
    f_equal.
    + unfold fmap. rewrite <- (map_id (seq 0 (length pre))) at 2.
      change list_fmap with map. rewrite map_map. apply map_ext_in.
      intros i Hi%in_seq. replace (length pre + (S (length post) + i))%nat
        with (i + 1 * (length pre + S (length post)))%nat by lia.
      rewrite Nat.Div0.mod_add. apply Nat.mod_small. lia.
    + f_equal. replace (length pre + (1 + length post + length pre))%nat
        with (length pre + 1 * (length pre + S (length post)))%nat by lia.
      rewrite Nat.Div0.mod_add. apply Nat.mod_small. lia.
Qed.

Abbreviation ready := (fun t : Task H AS => state t = Ready).

Lemma find_app {X} (f : X -> bool) l1 l2 :
  List.find f (l1 ++ l2) = match List.find f l1 with Some x => Some x | None => List.find f l2 end.
Proof. induction l1 as [|x l1 IH]; [done|]. simpl. by destruct (f x). Qed.

Lemma find_segment s u v w :
  tasks s = u ++ v ++ w ->
  List.find (in_state s Ready) (seq (length u) (length v))
    = (fun '(k, _) => (length u + k)%nat) <$> list_find ready v.
Proof.
  revert u. induction v as [|t v IH]; intros u Ht; [done|]. cbn [length seq List.find list_find].
  unfold in_state at 1. rewrite Ht. cbn [app]. rewrite list_lookup_middle by done.
  destruct (decide (state t = Ready)) as [Hr|Hr].
  - rewrite bool_decide_true by done. simpl. by rewrite Nat.add_0_r.
  - rewrite bool_decide_false by done. specialize (IH (u ++ [t])).
    rewrite length_app, Nat.add_1_r in IH. rewrite IH by (rewrite Ht, <- !app_assoc; done).
    destruct (list_find ready v) as [[k x]|]; [|done]. simpl. f_equal. lia.
Qed.

Lemma next_ready_split pre cur post :
  next_ready (mkScheduler (pre ++ cur :: post) (length pre)) =
    match list_find ready (post ++ pre) with
    | Some (k, _) => Some (if (k <? length post)%nat then S (length pre) + k else k - length post)%nat
    | None => if bool_decide (state cur = Ready) then Some (length pre) else None
    end.
Proof.
  unfold next_ready. cbn [tasks current]. rewrite length_app. cbn [length]. rewrite ring_indices.
  set (s := mkScheduler _ _). rewrite !find_app.
  pose proof (find_segment s (pre ++ [cur]) post [] ltac:(subst s; cbn [tasks]; by rewrite app_nil_r, <- app_assoc)) as H1.
  rewrite length_app, Nat.add_1_r in H1. rewrite H1.
  pose proof (find_segment s [] pre (cur :: post) eq_refl) as H2. cbn [length] in H2. rewrite H2.
  pose proof (find_segment s pre [cur] post eq_refl) as H3. cbn [length seq] in H3. rewrite H3. clear H1 H2 H3.
  destruct (list_find ready post) as [[k t]|] eqn:Hp.
  - rewrite (list_find_app_l _ _ _ _ _ Hp). simpl.
    apply list_find_Some in Hp as (Hl%lookup_lt_Some & _). by destruct (Nat.ltb_spec k (length post)); [|lia].
  - rewrite list_find_app_r by done. destruct (list_find ready pre) as [[k t]|]; simpl.
    + destruct (Nat.ltb_spec (k + length post) (length post)); [lia|]. f_equal. lia.
    + destruct (decide (state cur = Ready)); [rewrite bool_decide_true by done|rewrite bool_decide_false by done]; simpl; [by rewrite Nat.add_0_r|done].
Qed.

(** The state updates once [next] is chosen. *)
Lemma pick_run pre cur post next u t v :
  pre ++ yield_task cur :: post = u ++ t :: v -> length u = next ->
  next_ready (mkScheduler (pre ++ cur :: post) (length pre)) = Some next ->
  exists told, (if decide (next = length pre) then told = set_state Running (yield_task cur)
                else told = yield_task cur) /\
  (s ← get;
   let current := current s in
   match next_ready s with
   | None => mret None
   | Some next =>
      put (mkScheduler (tasks s) next) ;;
      tc ← unwrap (tasks s !! current);
      (if bool_decide (state tc = Running) then update_task current (set_state Ready) else mret tt) ;;
      update_task next (set_state Running) ;;
      s ← get;
      tc ← unwrap (tasks s !! current);
      tn ← unwrap (tasks s !! next);
      mret (Some (mkSwitch current (stack_ptr tn)
                    (if negb (cr3 tc =? cr3 tn) then cr3 tn else 0) (kernel_stack_top tn)))
   end) (mkScheduler (pre ++ cur :: post) (length pre))
  = (Ok (Some (mkSwitch (length pre) (stack_ptr t) (if negb (cr3 told =? cr3 t) then cr3 t else 0) (kernel_stack_top t))),
     mkScheduler (u ++ set_state Running t :: v) next).
Proof.
  intros Heq Hu Hn. rewrite bind_get. cbn [current tasks]. rewrite Hn, bind_put.
  rewrite list_lookup_middle by done. rewrite bind_unwrap_some.
  assert ((if bool_decide (state cur = Running) then update_task (length pre) (set_state Ready) else mret tt)
    (mkScheduler (pre ++ cur :: post) next) = (Ok tt, mkScheduler (u ++ t :: v) next)) as Hy.
  { rewrite <- Heq. unfold yield_task. case_bool_decide; [|done]. unfold update_task. rewrite bind_get.
    cbn [tasks current]. rewrite list_lookup_middle, bind_unwrap_some by done. by rewrite alter_middle. }
  rewrite (bind_ok _ _ _ _ _ Hy).
  assert (update_task next (set_state Running) (mkScheduler (u ++ t :: v) next)
    = (Ok tt, mkScheduler (u ++ set_state Running t :: v) next)) as Hr.
  { unfold update_task. rewrite bind_get. cbn [tasks current].
    rewrite list_lookup_middle, bind_unwrap_some by done. by rewrite <- Hu, alter_middle. }
  rewrite (bind_ok _ _ _ _ _ Hr), bind_get. cbn [tasks].
  assert ((u ++ t :: v) !! length pre = Some (yield_task cur)) as Hl
    by (rewrite <- Heq; by rewrite list_lookup_middle).
  destruct (decide (next = length pre)) as [He|He].
  - subst next. exists (set_state Running (yield_task cur)). split; [done|].
    rewrite <- He in Hl. rewrite list_lookup_middle in Hl by done. injection Hl as ->.
    rewrite <- He, !list_lookup_middle by done. by rewrite !bind_unwrap_some.
  - exists (yield_task cur). split; [done|].
    assert ((u ++ set_state Running t :: v) !! length pre = Some (yield_task cur)) as ->.
    { rewrite <- (alter_middle (set_state Running) u v t), Hu. by rewrite list_lookup_alter_ne. }
    rewrite bind_unwrap_some, list_lookup_middle by done. by rewrite bind_unwrap_some.
Qed.

Lemma wake_fields tick t :
  stack_ptr (wake tick t) = stack_ptr t /\ cr3 (wake tick t) = cr3 t
  /\ kernel_stack_top (wake tick t) = kernel_stack_top t /\ id (wake tick t) = id t.
Proof. unfold wake. case_bool_decide; [|done]. by destruct (wake_at t) as [w|]; [destruct (w <=? tick)|]. Qed.

Lemma yield_fields t :
  stack_ptr (yield_task t) = stack_ptr t /\ cr3 (yield_task t) = cr3 t
  /\ kernel_stack_top (yield_task t) = kernel_stack_top t /\ id (yield_task t) = id t.
Proof. unfold yield_task. by case_bool_decide. Qed.

(** Everything before the choice: reap, wake. *)
Lemma schedule_pick_prefix tick pre cur post :
  let pre1 := wake tick <$> filter alive pre in
  let post1 := wake tick <$> filter alive post in
  forall r, (s ← get;
   let current := current s in
   match next_ready s with
   | None => mret None
   | Some next =>
      put (mkScheduler (tasks s) next) ;;
      tc ← unwrap (tasks s !! current);
      (if bool_decide (state tc = Running) then update_task current (set_state Ready) else mret tt) ;;
      update_task next (set_state Running) ;;
      s ← get;
      tc ← unwrap (tasks s !! current);
      tn ← unwrap (tasks s !! next);
      mret (Some (mkSwitch current (stack_ptr tn)
                    (if negb (cr3 tc =? cr3 tn) then cr3 tn else 0) (kernel_stack_top tn)))
   end) (mkScheduler (pre1 ++ wake tick cur :: post1) (length pre1)) = r ->
  schedule_pick tick (mkScheduler (pre ++ cur :: post) (length pre)) = r.
Proof.
  intros pre1 post1 r Hr. unfold schedule_pick.
  rewrite (bind_ok _ _ _ _ _ (reap_dead_run pre cur post)), bind_get, bind_put. cbn [tasks current].
  rewrite fmap_app, fmap_cons.
  replace (length (filter alive pre)) with (length pre1) by (subst pre1; by rewrite length_fmap).
  exact Hr.
Qed.

(** The cases of a scheduling decision.  [g] is what is later stored in the slot
    of the task switched away from. *)
Lemma schedule_pick_cases s rest cur tick :
  rq s rest cur ->
  let rest1 := wake tick <$> filter alive rest in
  let cur1 := wake tick cur in
  match list_find ready rest1 with
  | Some (k, t) => exists i s', schedule_pick tick s = (Ok (Some i), s')
      /\ sw_new_sp i = stack_ptr t
      /\ sw_cr3 i = (if negb (cr3 cur =? cr3 t) then cr3 t else 0)
      /\ sw_kernel_stack i = kernel_stack_top t
      /\ forall g, rq (mkScheduler (alter g (sw_old i) (tasks s')) (current s'))
                     (drop (S k) rest1 ++ g (yield_task cur1) :: take k rest1) (set_state Running t)
  | None =>
      if bool_decide (state cur1 = Ready) then
        exists i s', schedule_pick tick s = (Ok (Some i), s')
          /\ sw_new_sp i = stack_ptr cur /\ sw_cr3 i = 0 /\ sw_kernel_stack i = kernel_stack_top cur
          /\ forall g, rq (mkScheduler (alter g (sw_old i) (tasks s')) (current s'))
                         rest1 (g (set_state Running cur1))
      else exists s', schedule_pick tick s = (Ok None, s') /\ rq s' rest1 cur1
  end.
Proof.
  intros (pre & post & Ht & Hc & ->) rest1 cur1. destruct s as [ts c]. cbn [tasks current] in *. subst ts c.
  pose proof (schedule_pick_prefix tick pre cur post) as Hpick. cbn zeta in Hpick. fold cur1 in Hpick.
  subst rest1. rewrite filter_app, fmap_app.
  set (P := wake tick <$> filter alive pre) in *. set (Q := wake tick <$> filter alive post) in *.
  pose proof (next_ready_split P cur1 Q) as Hn.
  destruct (wake_fields tick cur) as (Hw1 & Hw2 & Hw3 & _). fold cur1 in Hw1, Hw2, Hw3.
  destruct (yield_fields cur1) as (Hy1 & Hy2 & Hy3 & _).
  destruct (list_find ready (Q ++ P)) as [[k t]|] eqn:Hf.
  - apply list_find_Some in Hf as (Hk & _ & _).
    destruct (Nat.ltb_spec k (length Q)) as [Hlt|Hge].
    + rewrite lookup_app_l in Hk by lia. pose proof (take_drop_middle _ _ _ Hk) as HQ.
      destruct (pick_run P cur1 Q (S (length P) + k) (P ++ yield_task cur1 :: take k Q) t (drop (S k) Q))
        as (told & Hto & Hr); [by rewrite <- app_assoc; cbn [app]; rewrite HQ|rewrite length_app; cbn [length]; rewrite length_take; lia|done|].
      rewrite decide_False in Hto by lia. subst told. rewrite Hy2, Hw2 in Hr.
      do 2 eexists. split; [by apply Hpick|]. do 3 (split; [done|]). intros g. cbn [sw_old tasks current].
      exists (P ++ g (yield_task cur1) :: take k Q), (drop (S k) Q). cbn [tasks current].
      rewrite <- !app_assoc. cbn [app]. rewrite alter_middle. split; [done|].
      split; [rewrite length_app; cbn [length]; rewrite length_take; lia|].
      rewrite drop_app_le, take_app_le by lia. by rewrite <- app_assoc.
    + rewrite lookup_app_r in Hk by lia. pose proof (take_drop_middle _ _ _ Hk) as HP.
      set (j := (k - length Q)%nat) in *. pose proof (lookup_lt_Some _ _ _ Hk) as Hj.
      destruct (pick_run P cur1 Q j (take j P) t (drop (S j) P ++ yield_task cur1 :: Q))
        as (told & Hto & Hr); [by rewrite <- HP at 1; rewrite <- app_assoc|rewrite length_take; lia|done|].
      rewrite decide_False in Hto by lia. subst told. rewrite Hy2, Hw2 in Hr.
      do 2 eexists. split; [by apply Hpick|]. do 3 (split; [done|]). intros g. cbn [sw_old tasks current].
      exists (take j P), (drop (S j) P ++ g (yield_task cur1) :: Q). cbn [tasks current].
      split; [|split; [rewrite length_take; lia|]].
      * rewrite (app_comm_cons (drop (S j) P)), app_assoc.
        assert (length P = length (take j P ++ set_state Running t :: drop (S j) P)) as ->.
        { rewrite <- HP at 1. by rewrite !length_app. }
        by rewrite alter_middle, <- app_assoc.
      * rewrite drop_app_ge, take_app_ge by lia. fold j.
        replace (S k - length Q)%nat with (S j) by lia. by rewrite <- app_assoc.
  - case_bool_decide as Hr.
    + destruct (pick_run P cur1 Q (length P) P cur1 Q) as (told & Hto & Hrun); [|done|done|].
      { unfold yield_task. by rewrite bool_decide_false by congruence. }
      rewrite decide_True in Hto by done. subst told.
      assert (yield_task cur1 = cur1) as Hy by (unfold yield_task; by rewrite bool_decide_false by congruence).
      rewrite Hy in Hrun. change (cr3 (set_state Running cur1)) with (cr3 cur1) in Hrun.
      rewrite Z.eqb_refl in Hrun.
      do 2 eexists. split; [by apply Hpick|]. do 3 (split; [done|]). intros g. cbn [sw_old tasks current].
      exists P, Q. by rewrite alter_middle.
    + exists (mkScheduler (P ++ cur1 :: Q) (length P)). split; [|by exists P, Q].
      apply Hpick. rewrite bind_get. by rewrite Hn.
Qed.
End run_queue.

(** ** The system invariant

    Ghost state: the context each suspended task must be resumed with, and the
    bounds of each task's kernel stack, by task id. *)
Record Ghost := mkGhost { saved : Z -> Ctx; lo : Z -> Z; hi : Z -> Z }.

Definition save (g : Ghost) (i : Z) (c : Ctx) : Ghost :=
  mkGhost (fun j => if decide (j = i) then c else saved g j) (lo g) (hi g).

Section invariant.
Context {H AS : Type}.
Implicit Types (t cur : Task H AS) (w : World H AS).

(** The first task, [kernel_task], which idles in [hcf] and neither sleeps nor exits. *)
Definition IDLE : Z := 0.

Definition parked (m : Mem) (g : Ghost) (t : Task H AS) : Prop :=
  state t ≠ Running /\ suspended m (stack_ptr t) (saved g (id t))
  /\ lo g (id t) <= stack_ptr t /\ stack_ptr t + FRAME <= hi g (id t).

(** The part of the invariant about machine [m], ids below [n], and the queue. *)
Record queue_ok (m : Machine) (n : Z) (rest : list (Task H AS)) cur (g : Ghost) : Prop := {
  mi_nodup : NoDup (id <$> cur :: rest);
  mi_parked : Forall (parked (mem m) g) rest;
  mi_stacks : Forall (fun t => 0 <= lo g (id t) /\ hi g (id t) < 2 ^ 64 /\ cr3 t ≠ 0 /\ id t < n) (cur :: rest);
  mi_disjoint : forall i j, i ∈ id <$> cur :: rest -> j ∈ id <$> cur :: rest -> i ≠ j ->
    hi g i <= lo g j \/ hi g j <= lo g i;
  mi_rsp : lo g (id cur) + FRAME <= rsp (regs m) <= hi g (id cur);
  mi_cr3 : cr3_reg (regs m) = cr3 cur;
  mi_idle : (id cur = IDLE /\ state cur = Running) \/ (exists t, t ∈ rest /\ id t = IDLE /\ state t = Ready)
}.

Definition inv_mid w rest cur g : Prop :=
  (exists s, w_sched w = Some s /\ rq s rest cur)
  /\ queue_ok (w_machine w) (w_next_id w) rest cur g.

(** Between kernel entries the current task is running. *)
Definition inv w rest cur g : Prop := inv_mid w rest cur g /\ state cur = Running.

Lemma wake_ready tick t : state t = Ready \/ state t = Running -> wake tick t = t.
Proof. intros Hs. unfold wake. rewrite bool_decide_false; [done|]. intros ?. destruct Hs; congruence. Qed.

Lemma wake_state tick t : state (wake tick t) = state t \/ state t = Sleeping /\ state (wake tick t) = Ready.
Proof.
  unfold wake. case_bool_decide; [|by left]. destruct (wake_at t) as [x|]; [|by left].
  destruct (x <=? tick); [by right|by left].
Qed.

Lemma parked_wake m g tick t : parked m g t -> parked m g (wake tick t).
Proof.
  unfold parked. destruct (wake_fields tick t) as (-> & _ & _ & ->). intros (Hs & Hp).
  split; [|done]. destruct (wake_state tick t) as [->|[_ ->]]; done.
Qed.

Lemma wake_rest_ids tick (rest : list (Task H AS)) : sublist (id <$> (wake tick <$> filter alive rest)) (id <$> rest).
Proof.
  rewrite <- list_fmap_compose. rewrite (list_fmap_ext (id ∘ wake tick) id (filter alive rest)).
  - apply fmap_sublist. induction rest as [|t rest IH]; [constructor|]. rewrite filter_cons.
    case_decide; by constructor.
  - intros i t _. simpl. apply wake_fields.
Qed.

Lemma elem_of_woken tick t (rest : list (Task H AS)) :
  t ∈ wake tick <$> filter alive rest -> exists t0, t0 ∈ rest /\ t = wake tick t0.
Proof. intros (t0 & -> & [_ Ht]%list_elem_of_filter)%list_elem_of_fmap. eauto. Qed.

(** Reaping and waking keep the invariant. *)
Lemma queue_ok_woken m n rest cur g tick :
  queue_ok m n rest cur g -> queue_ok m n (wake tick <$> filter alive rest) (wake tick cur) g.
Proof.
  intros [Hnd Hp Hst Hdj Hrsp Hcr Hidle].
  destruct (wake_fields tick cur) as (_ & Hc & _ & Hi).
  assert (sublist (id <$> wake tick cur :: (wake tick <$> filter alive rest)) (id <$> cur :: rest)) as Hsub.
  { rewrite !fmap_cons, Hi. constructor. apply wake_rest_ids. }
  split; rewrite ?Hi, ?Hc; try done.
  - by eapply sublist_NoDup.
  - apply Forall_forall. intros t (t0 & Ht0 & ->)%elem_of_woken. apply parked_wake.
    rewrite Forall_forall in Hp. by apply Hp.
  - rewrite Forall_forall in Hst. apply Forall_forall.
    assert (forall t0, t0 ∈ cur :: rest -> 0 <= lo g (id (wake tick t0)) /\ hi g (id (wake tick t0)) < 2 ^ 64
      /\ cr3 (wake tick t0) ≠ 0 /\ id (wake tick t0) < n) as Hw.
    { intros t0 Ht0. destruct (wake_fields tick t0) as (_ & -> & _ & ->). by apply Hst. }
    intros t [->|(t0 & Ht0 & ->)%elem_of_woken]%elem_of_cons; apply Hw; by constructor.
  - intros i j Hi' Hj'. apply Hdj; eapply elem_of_submseteq; eauto using sublist_submseteq.
  - destruct Hidle as [[Hid Hs]|(t & Ht & Hid & Hs)].
    + left. by rewrite wake_ready by (by right).
    + right. exists t. split; [|done]. apply list_elem_of_fmap. exists t.
      rewrite wake_ready by (by left). split; [done|]. apply list_elem_of_filter. split; [|done].
      unfold alive. congruence.
Qed.

(** The two outcomes of a scheduling point for the machine. *)
Definition switched (ret : Z) w cur g w' cur' g' : Prop :=
  (id cur' = id cur /\ w_machine w' = w_machine w /\ g' = g)
  \/ (id cur' ≠ id cur
      /\ regs (w_machine w') = resume (saved g (id cur')) (cr3 cur')
      /\ g' = save g (id cur) (ctx_of (regs (w_machine w)) ret)
      /\ (kernel_stack_top cur' ≠ 0 -> w_rsp0 w' = kernel_stack_top cur')
      /\ mem_frame (mem (w_machine w)) (mem (w_machine w'))
           (rsp (regs (w_machine w)) - FRAME) (rsp (regs (w_machine w)))).

Lemma schedule_run ret w s i s' :
  w_sched w = Some s -> schedule_pick (w_ticks w) s = (Ok (Some i), s') ->
  forall m' old, switch_context ret (sw_new_sp i) (sw_cr3 i) (w_machine w) = (m', old) ->
  schedule ret w = (Ok tt, mkWorld
    (Some (mkScheduler (alter (set_stack_ptr old) (sw_old i) (tasks s')) (current s')))
    (w_ticks w) m' (if negb (sw_kernel_stack i =? 0) then sw_kernel_stack i else w_rsp0 w) (w_next_id w)).
Proof.
  intros Hs Hp m' old Hsw. unfold schedule. rewrite bind_get, Hs.
  assert (on_sched (schedule_pick (w_ticks w)) w = (Ok (Some i), mkWorld (Some s') (w_ticks w) (w_machine w) (w_rsp0 w) (w_next_id w))) as Ho
    by (unfold on_sched; by rewrite Hs, Hp).
  rewrite (bind_ok _ _ _ _ _ Ho). unfold do_switch. cbn [w_rsp0 w_machine w_sched w_ticks w_next_id].
  by rewrite Hsw.
Qed.

Lemma yield_not_running t : state (yield_task t) ≠ Running.
Proof. unfold yield_task. case_bool_decide; [done|congruence]. Qed.

(** The queue after a switch from [cur], saved at [old], to [t]. *)
Lemma queue_ok_switch m m' n A t B cur g ret :
  let old := rsp (regs m) - FRAME in
  queue_ok m n (A ++ t :: B) cur g ->
  regs m' = resume (saved g (id t)) (cr3 t) ->
  suspended (mem m') old (ctx_of (regs m) ret) ->
  mem_frame (mem m) (mem m') old (rsp (regs m)) ->
  queue_ok m' n (B ++ set_stack_ptr old (yield_task cur) :: A) (set_state Running t)
    (save g (id cur) (ctx_of (regs m) ret)).
Proof.
  intros old [Hnd Hp Hst Hdj Hrsp Hcr Hidle] Hregs Hsus Hfr.
  destruct (yield_fields cur) as (_ & Hy2 & _ & Hy4).
  set (told := set_stack_ptr old (yield_task cur)).
  assert (Hids : id <$> set_state Running t :: (B ++ told :: A) ≡ₚ id <$> cur :: (A ++ t :: B)).
  { rewrite !fmap_cons, !fmap_app, !fmap_cons. change (id told) with (id (yield_task cur)). rewrite Hy4.
    change (id (set_state Running t)) with (id t). solve_Permutation. }
  assert (Hin : t ∈ A ++ t :: B) by set_solver.
  assert (Hne : forall x, x ∈ A ++ t :: B -> id x ≠ id cur).
  { intros x Hx Heq. rewrite fmap_cons in Hnd. apply NoDup_cons in Hnd as [Hn _]. apply Hn.
    apply list_elem_of_fmap. by exists x. }
  assert (Hcase : forall x, x ∈ B ++ told :: A -> x = told \/ x ∈ A ++ t :: B) by set_solver.
  rewrite Forall_forall in Hp. pose proof (Hp t Hin) as (Hts & Htsus & Htl & Hth).
  split; cbn [id cr3 state set_state saved lo hi save] in *.
  - by rewrite Hids.
  - apply Forall_forall. intros x [->|Hx']%Hcase.
    + unfold parked. change (id told) with (id (yield_task cur)). rewrite Hy4.
      split; [apply yield_not_running|]. cbn [saved save]. rewrite decide_True by done.
      split; [done|]. cbn [lo hi save stack_ptr told set_stack_ptr]. subst old. lia.
    + destruct (Hp x Hx') as (Hxs & Hxsus & Hxl & Hxh).
      split; [done|]. cbn [saved lo hi save]. rewrite decide_False by by apply Hne.
      split; [|done]. eapply suspended_frame; [done|exact Hfr|].
      destruct (Hdj (id cur) (id x)) as [Hd|Hd]; subst old; try lia.
      * rewrite fmap_cons. by left.
      * rewrite fmap_cons. right. apply list_elem_of_fmap. by exists x.
      * by apply not_eq_sym, Hne.
  - rewrite Forall_forall in Hst. apply Forall_forall. intros x Hx.
    assert (exists y, y ∈ cur :: A ++ t :: B /\ id x = id y /\ cr3 x = cr3 y) as (y & Hy & -> & ->).
    { apply elem_of_cons in Hx as [->|[->|Hx]%Hcase]; [exists t; set_solver| |exists x; set_solver].
      exists cur. split; [by left|done]. }
    by apply Hst.
  - intros i j. rewrite Hids. apply Hdj.
  - rewrite Hregs. unfold resume. cbn [rsp]. destruct Htsus as [-> _]. lia.
  - by rewrite Hregs.
  - destruct (decide (id t = IDLE)) as [Hi|Hi]; [by left|right].
    destruct Hidle as [[Hid Hs]|(x & Hx & Hid & Hs)].
    + exists told. split; [set_solver|]. change (id told) with (id (yield_task cur)). rewrite Hy4.
      split; [done|]. change (state told) with (state (yield_task cur)). unfold yield_task.
      by rewrite bool_decide_true.
    + exists x. split; [|done]. assert (x ≠ t) by congruence. set_solver.
Qed.

(** With the idle task in the queue the scheduler never picks the task it runs on. *)
Lemma no_self_switch m n rest cur g :
  queue_ok m n rest cur g -> list_find (fun t : Task H AS => state t = Ready) rest = None ->
  id cur = IDLE /\ state cur = Running.
Proof.
  intros Hq Hf. destruct (mi_idle _ _ _ _ _ Hq) as [?|(t & Ht & _ & Hs)]; [done|].
  exfalso. apply list_find_None in Hf. rewrite Forall_forall in Hf. by apply (Hf t Ht).
Qed.

Lemma on_sched_run {A} (m : M (Scheduler H AS) Empty_set A) w s o s' :
  w_sched w = Some s -> m s = (o, s') ->
  on_sched m w = (o, mkWorld (Some s') (w_ticks w) (w_machine w) (w_rsp0 w) (w_next_id w)).
Proof. intros Hs Hm. unfold on_sched. by rewrite Hs, Hm. Qed.

(** A scheduling point, from any state of the current task. *)
Lemma schedule_inv ret w rest cur g :
  inv_mid w rest cur g ->
  exists w' rest' cur' g',
    schedule ret w = (Ok tt, w') /\ inv w' rest' cur' g' /\ switched ret w cur g w' cur' g'
    /\ w_ticks w' = w_ticks w /\ w_next_id w' = w_next_id w
    /\ cur' = (rq_schedule (w_ticks w) (rest, cur)).2
    /\ set_stack_ptr 0 <$> rest' = set_stack_ptr 0 <$> (rq_schedule (w_ticks w) (rest, cur)).1.
Proof.
  intros [(s & Hs & Hrq) Hq0]. pose proof (queue_ok_woken _ _ _ _ _ (w_ticks w) Hq0) as Hq.
  pose proof (schedule_pick_cases s rest cur (w_ticks w) Hrq) as Hpick. cbn zeta in Hpick.
  unfold rq_schedule. cbn [fst snd].
  destruct (wake_fields (w_ticks w) cur) as (Hw1 & Hw2 & Hw3 & Hw4).
  set (rest1 := wake (w_ticks w) <$> filter alive rest) in *. set (cur1 := wake (w_ticks w) cur) in *.
  destruct (list_find (fun t : Task H AS => state t = Ready) rest1) as [[k t]|] eqn:Hf.
  - destruct Hpick as (i & s' & Hp & Hi1 & Hi2 & Hi3 & Hrq').
    apply list_find_Some in Hf as (Hk & Hrdy & _).
    rewrite <- (take_drop_middle _ _ _ Hk) in Hq.
    destruct (switch_context ret (sw_new_sp i) (sw_cr3 i) (w_machine w)) as [m' old] eqn:Hsw.
    assert (Hin : t ∈ take k rest1 ++ t :: drop (S k) rest1) by set_solver.
    pose proof (mi_parked _ _ _ _ _ Hq) as Hpk. rewrite Forall_forall in Hpk.
    destruct (Hpk t Hin) as (_ & Hsus & Hl & Hh).
    pose proof (mi_stacks _ _ _ _ _ Hq) as Hst. rewrite Forall_forall in Hst.
    pose proof (Hst cur1 ltac:(by left)) as (Hc1 & Hc2 & Hc3 & _).
    pose proof (Hst t ltac:(by right)) as (Ht1 & Ht2 & Ht3 & _).
    pose proof (mi_rsp _ _ _ _ _ Hq) as Hrsp. pose proof (mi_cr3 _ _ _ _ _ Hq) as Hcr.
    assert (id t ≠ id cur1) as Hne.
    { pose proof (mi_nodup _ _ _ _ _ Hq) as Hnd. rewrite fmap_cons in Hnd.
      apply NoDup_cons in Hnd as [Hn _]. intros He. apply Hn. rewrite <- He.
      apply list_elem_of_fmap. by exists t. }
    assert (hi g (id cur1) <= lo g (id t) \/ hi g (id t) <= lo g (id cur1)) as Hdj.
    { apply (mi_disjoint _ _ _ _ _ Hq); [rewrite fmap_cons; by left| |by apply not_eq_sym].
      rewrite fmap_cons. right. apply list_elem_of_fmap. by exists t. }
    pose proof (switch_context_spec ret (sw_new_sp i) (sw_cr3 i) (w_machine w) (saved g (id t))) as Hspec.
    rewrite Hsw, Hi1 in Hspec. unfold FRAME in *.
    destruct Hspec as (Hregs & -> & Hsus' & Hfr); [lia|lia|lia|done|lia|].
    assert ((if sw_cr3 i =? 0 then cr3_reg (regs (w_machine w)) else sw_cr3 i) = cr3 t) as Hcr3.
    { rewrite Hi2, Hcr, Hw2. destruct (Z.eqb_spec (cr3 cur) (cr3 t)) as [->|Hx]; [done|].
      cbn [negb]. by destruct (Z.eqb_spec (cr3 t) 0). }
    rewrite Hcr3 in Hregs.
    pose proof (queue_ok_switch (w_machine w) m' _ _ _ _ _ _ ret Hq Hregs Hsus' Hfr) as Hq'.
    rewrite Hw4 in Hq', Hne.
    do 4 eexists. split; [exact (schedule_run ret w s i s' Hs Hp m' _ Hsw)|].
    split; [split; [split; [|exact Hq']|done]|].
    { eexists. split; [reflexivity|]. apply Hrq'. }
    split; [right|].
    { split_and!; try done. intros Hk0. cbn [w_rsp0]. rewrite Hi3.
      by destruct (Z.eqb_spec (kernel_stack_top t) 0). }
    do 2 (split; [done|]). split; [done|].
    cbn [fst]. by rewrite !fmap_app, !fmap_cons.
  - destruct (no_self_switch _ _ _ _ _ Hq Hf) as [Hid Hrun].
    rewrite bool_decide_false in Hpick by congruence. rewrite bool_decide_false by congruence.
    destruct Hpick as (s' & Hp & Hrq').
    exists (mkWorld (Some s') (w_ticks w) (w_machine w) (w_rsp0 w) (w_next_id w)), rest1, cur1, g.
    split; [unfold schedule; rewrite bind_get, Hs;
            by rewrite (bind_ok _ _ _ _ _ (on_sched_run _ _ _ _ _ Hs Hp))|].
    split; [split; [split; [by exists s'|done]|done]|].
    split; [by left|done].
Qed.

(** ** The system: tasks computing, interrupts, sleeps, exits and spawns *)
Definition cur_id w : option Z := s ← w_sched w; t ← tasks s !! current s; Some (id t).

(** The ghost record of a scheduling point that returns to [ret]. *)
Definition ghost_after (ret : Z) w w' (g : Ghost) : Ghost :=
  match cur_id w with
  | Some i => if decide (cur_id w' = Some i) then g else save g i (ctx_of (regs (w_machine w)) ret)
  | None => g
  end.

Definition set_machine (m : Machine) w : World H AS :=
  mkWorld (w_sched w) (w_ticks w) m (w_rsp0 w) (w_next_id w).

(** [point w w']: a scheduling point: a timer tick, or the current task sleeping
    or exiting. *)
Inductive point (ret : Z) w w' : Prop :=
| point_timer : timer_handler ret w = (Ok tt, w') -> point ret w w'
| point_sleep ticks : cur_id w ≠ Some IDLE -> sleep ret ticks w = (Ok tt, w') -> point ret w w'
| point_exit : cur_id w ≠ Some IDLE -> exit ret w = (Ok tt, w') -> point ret w w'.

(** The current task computes: it may change any register but the page table,
    keeps room on its own stack, and leaves the other tasks' stacks alone. *)
Definition computes (g : Ghost) w (m' : Machine) : Prop :=
  exists s cur, w_sched w = Some s /\ tasks s !! current s = Some cur
    /\ cr3_reg (regs m') = cr3_reg (regs (w_machine w))
    /\ lo g (id cur) + FRAME <= rsp (regs m') <= hi g (id cur)
    /\ (forall t a, t ∈ tasks s -> id t ≠ id cur -> lo g (id t) <= a < hi g (id t) ->
          mem_read (mem m') a = mem_read (mem (w_machine w)) a).

Definition with_stack (g : Ghost) (i : Z) (c : Ctx) (base : Z) : Ghost :=
  mkGhost (fun j => if decide (j = i) then c else saved g j)
          (fun j => if decide (j = i) then base else lo g j)
          (fun j => if decide (j = i) then base + STACK_SIZE else hi g j).

Inductive sys_step : World H AS * Ghost -> World H AS * Ghost -> Prop :=
| step_run w g m' : computes g w m' -> sys_step (w, g) (set_machine m' w, g)
| step_point ret w w' g : point ret w w' -> sys_step (w, g) (w', ghost_after ret w w' g)
| step_spawn nm entry tramp base w w' g :
    0 <= base -> base + STACK_SIZE < 2 ^ 64 -> w_next_id w + 1 < 2 ^ 64 ->
    (forall s t, w_sched w = Some s -> t ∈ tasks s -> hi g (id t) <= base \/ base + STACK_SIZE <= lo g (id t)) ->
    spawn nm entry tramp base w = (Ok tt, w') ->
    sys_step (w, g) (w', with_stack g (w_next_id w) (new_ctx tramp 0 entry base) base)
| step_spawn_user nm a c entry stack tramp base t w w' g :
    0 <= base -> base + STACK_SIZE < 2 ^ 64 -> w_next_id w + 1 < 2 ^ 64 -> c ≠ 0 ->
    (forall s t, w_sched w = Some s -> t ∈ tasks s -> hi g (id t) <= base \/ base + STACK_SIZE <= lo g (id t)) ->
    spawn_user nm a c entry stack tramp base w = (Ok t, w') ->
    sys_step (w, g) (w', with_stack g (w_next_id w) (new_ctx tramp stack entry base) base).

(** Boot: the scheduler starts with the code of [kmain] as its only task. *)
Definition boot (w : World H AS) (g : Ghost) : Prop :=
  exists w0 c, sched_init c w0 = (Ok tt, w) /\ w_next_id w0 = 0 /\ c ≠ 0
    /\ cr3_reg (regs (w_machine w0)) = c
    /\ 0 <= lo g IDLE /\ hi g IDLE < 2 ^ 64
    /\ lo g IDLE + FRAME <= rsp (regs (w_machine w0)) <= hi g IDLE.

Inductive sys_reach : World H AS -> Ghost -> Prop :=
| reach_boot w g : boot w g -> sys_reach w g
| reach_step w g w' g' : sys_reach w g -> sys_step (w, g) (w', g') -> sys_reach w' g'.

Lemma rq_cur_id w s rest cur : w_sched w = Some s -> rq s rest cur -> cur_id w = Some (id cur).
Proof.
  intros Hs (pre & post & Ht & Hc & _). unfold cur_id. rewrite Hs. simpl. rewrite Ht, Hc.
  by rewrite list_lookup_middle.
Qed.

Lemma inv_mid_cur_id w rest cur g : inv_mid w rest cur g -> cur_id w = Some (id cur).
Proof. intros [(s & Hs & Hrq) _]. by eapply rq_cur_id. Qed.

Lemma rq_elem s rest cur t : rq s rest cur -> t ∈ tasks s <-> t ∈ cur :: rest.
Proof. intros (pre & post & -> & _ & ->). set_solver. Qed.

Lemma rq_lookup s rest cur : rq s rest cur -> tasks s !! current s = Some cur.
Proof. intros (pre & post & -> & -> & _). by rewrite list_lookup_middle. Qed.

Lemma inv_boot w g : boot w g -> exists rest cur, inv w rest cur g.
Proof.
  intros (w0 & c & Hi & Hn & Hc & Hcr & Hl & Hh & Hr).
  injection Hi as <-. exists [], (kernel_task (w_next_id w0) c). rewrite Hn.
  split; [|done]. split; cbn [w_sched w_machine w_next_id].
  - eexists. split; [reflexivity|]. by exists [], [].
  - change (u64 (0 + 1)) with 1. split; cbn; try done.
    + apply NoDup_singleton.
    + constructor; [|constructor]. by split_and!.
    + intros i j ->%list_elem_of_singleton ->%list_elem_of_singleton. done.
    + by left.
Qed.

Lemma inv_computes w rest cur g m' :
  inv w rest cur g -> computes g w m' -> inv (set_machine m' w) rest cur g.
Proof.
  intros [[(s & Hs & Hrq) [Hnd Hp Hst Hdj Hrsp Hcr Hidle]] Hrun] (s1 & c1 & Hs1 & Hc1 & Hcr1 & Hsp1 & Hmem).
  rewrite Hs in Hs1. injection Hs1 as <-. rewrite (rq_lookup _ _ _ Hrq) in Hc1. injection Hc1 as <-.
  split; [|done]. split; [by exists s|]. split; try done; cbn [w_machine set_machine]; [|by rewrite Hcr1].
  rewrite Forall_forall in *. intros t Ht. destruct (Hp t Ht) as (Hx1 & (Hx2 & Hx3) & Hx4 & Hx5).
  split; [done|]. split; [|done]. split; [done|]. intros i v Hi. rewrite <- (Hx3 i v Hi).
  apply (Hmem t); [apply (rq_elem _ _ _ _ Hrq); by right| |].
  - rewrite fmap_cons in Hnd. apply NoDup_cons in Hnd as [Hn _]. intros He. apply Hn. rewrite <- He.
    apply list_elem_of_fmap. by exists t.
  - apply lookup_lt_Some in Hi. cbn in Hi. unfold FRAME in *. lia.
Qed.

(** The current task may be marked, unless it is the idle task. *)
Lemma queue_ok_mark m n rest cur cur1 g :
  queue_ok m n rest cur g -> id cur1 = id cur -> cr3 cur1 = cr3 cur -> id cur ≠ IDLE ->
  queue_ok m n rest cur1 g.
Proof.
  intros [Hnd Hp Hst Hdj Hrsp Hcr Hidle] Hi Hc Hid. split; rewrite ?fmap_cons, ?Hi, ?Hc; try done.
  - apply Forall_cons in Hst as [H1 H2]. apply Forall_cons. by rewrite Hi, Hc.
  - right. destruct Hidle as [[? _]|?]; done.
Qed.

Lemma mark_run w s rest cur f :
  w_sched w = Some s -> rq s rest cur ->
  exists s', on_sched (s ← get; update_task (current s) f) w
    = (Ok tt, mkWorld (Some s') (w_ticks w) (w_machine w) (w_rsp0 w) (w_next_id w))
    /\ rq s' rest (f cur).
Proof.
  intros Hs (pre & post & Ht & Hc & ->). exists (mkScheduler (pre ++ f cur :: post) (length pre)).
  split; [|by exists pre, post]. eapply on_sched_run; [done|]. rewrite bind_get. unfold update_task.
  rewrite bind_get, Ht, Hc, list_lookup_middle, bind_unwrap_some by done. by rewrite alter_middle.
Qed.

(** A scheduling point reaches [schedule] with the queue unchanged but for the
    mark on the current task; and it always completes. *)
Inductive marked w : World H AS -> Task H AS -> Task H AS -> Prop :=
| marked_timer cur :
    marked w (mkWorld (w_sched w) (w_ticks w +w64 1) (w_machine w) (w_rsp0 w) (w_next_id w)) cur cur
| marked_sleep cur s ticks :
    marked w (mkWorld (Some s) (w_ticks w) (w_machine w) (w_rsp0 w) (w_next_id w)) cur
      (set_state Sleeping (set_wake_at (Some (w_ticks w +w64 ticks)) cur))
| marked_exit cur s :
    marked w (mkWorld (Some s) (w_ticks w) (w_machine w) (w_rsp0 w) (w_next_id w)) cur (set_state Dead cur).

Lemma point_marked ret w w' rest cur g :
  inv w rest cur g -> point ret w w' ->
  exists w1 cur1, marked w w1 cur cur1 /\ inv_mid w1 rest cur1 g /\ schedule ret w1 = (Ok tt, w').
Proof.
  intros [[(s & Hs & Hrq) Hq] Hrun] Hp.
  pose proof (rq_cur_id _ _ _ _ Hs Hrq) as Hcid.
  destruct Hp as [Ht|ticks Hid Ht|Hid Ht].
  - unfold timer_handler in Ht. rewrite bind_get, bind_put in Ht.
    do 2 eexists. split; [constructor|]. split; [|exact Ht]. split; [by exists s|done].
  - unfold sleep in Ht. rewrite bind_get, Hs in Ht. cbn zeta in Ht.
    destruct (mark_run w s rest cur (fun t => set_state Sleeping (set_wake_at (Some (w_ticks w +w64 ticks)) t)) Hs Hrq)
      as (s' & Hm & Hrq'). rewrite (bind_ok _ _ _ _ _ Hm) in Ht.
    do 2 eexists. split; [by apply marked_sleep|]. split; [|exact Ht]. split; [by exists s'|].
    eapply queue_ok_mark; [done..|congruence].
  - unfold exit in Ht. rewrite bind_get, Hs in Ht.
    destruct (mark_run w s rest cur (set_state Dead) Hs Hrq) as (s' & Hm & Hrq').
    rewrite (bind_ok _ _ _ _ _ Hm) in Ht.
    do 2 eexists. split; [by apply marked_exit|]. split; [|exact Ht]. split; [by exists s'|].
    eapply queue_ok_mark; [done..|congruence].
Qed.

Lemma marked_same w w1 cur cur1 :
  marked w w1 cur cur1 -> id cur1 = id cur /\ w_machine w1 = w_machine w /\ w_next_id w1 = w_next_id w.
Proof. by destruct 1. Qed.

Lemma point_inv ret w w' rest cur g :
  inv w rest cur g -> point ret w w' ->
  exists w1 cur1 rest' cur', marked w w1 cur cur1
    /\ inv w' rest' cur' (ghost_after ret w w' g)
    /\ switched ret w1 cur1 g w' cur' (ghost_after ret w w' g)
    /\ cur' = (rq_schedule (w_ticks w1) (rest, cur1)).2
    /\ set_stack_ptr 0 <$> rest' = set_stack_ptr 0 <$> (rq_schedule (w_ticks w1) (rest, cur1)).1.
Proof.
  intros Hinv Hp. destruct (point_marked _ _ _ _ _ _ Hinv Hp) as (w1 & cur1 & Hm & Hmid & Hsch).
  destruct (schedule_inv ret w1 rest cur1 g Hmid) as (w2 & rest' & cur' & g' & Hrun & Hinv' & Hsw & _ & _ & Hc & Hr).
  rewrite Hsch in Hrun. injection Hrun as <-.
  destruct (marked_same _ _ _ _ Hm) as (Hi & Hma & _).
  assert (ghost_after ret w w' g = g') as ->.
  { unfold ghost_after. destruct Hinv as [Hinv _]. rewrite (inv_mid_cur_id _ _ _ _ Hinv).
    destruct Hinv' as [Hinv' _]. rewrite (inv_mid_cur_id _ _ _ _ Hinv').
    destruct Hsw as [(He & _ & ->)|(He & _ & -> & _)].
    - by rewrite decide_True by congruence.
    - rewrite decide_False by congruence. by rewrite Hi, Hma. }
  exists w1, cur1, rest', cur'. done.
Qed.

Lemma queue_ok_spawn m n rest cur g t m' base c :
  queue_ok m n rest cur g -> id t = n -> state t = Ready -> cr3 t ≠ 0 ->
  regs m' = regs m -> mem_frame (mem m) (mem m') base (base + STACK_SIZE) ->
  suspended (mem m') (stack_ptr t) c ->
  base <= stack_ptr t -> stack_ptr t + FRAME <= base + STACK_SIZE ->
  0 <= base -> base + STACK_SIZE < 2 ^ 64 ->
  (forall x, x ∈ cur :: rest -> hi g (id x) <= base \/ base + STACK_SIZE <= lo g (id x)) ->
  forall pre post, rest = post ++ pre -> queue_ok m' (n + 1) (post ++ t :: pre) cur (with_stack g n c base).
Proof.
  intros [Hnd Hp Hst Hdj Hrsp Hcr Hidle] Hid Hs Hc3 Hregs Hfr Hsus Hb1 Hb2 Hb0 Hb Hfree pre post ->.
  rewrite Forall_forall in Hst.
  assert (Hids : id <$> cur :: (post ++ t :: pre) ≡ₚ n :: (id <$> cur :: (post ++ pre))).
  { rewrite !fmap_cons, !fmap_app, !fmap_cons, Hid. solve_Permutation. }
  assert (Hold : forall x, x ∈ cur :: (post ++ pre) -> id x ≠ n).
  { intros x Hx He. destruct (Hst x Hx) as (_ & _ & _ & Hlt). lia. }
  assert (Hcase : forall x, x ∈ cur :: (post ++ t :: pre) -> x = t \/ x ∈ cur :: (post ++ pre)) by set_solver.
  assert (Holdi : forall i, i ∈ id <$> cur :: (post ++ pre) -> i ≠ n
    /\ (hi g i <= base \/ base + STACK_SIZE <= lo g i)).
  { intros i (x & -> & Hx)%list_elem_of_fmap. split; [by apply Hold|by apply Hfree]. }
  split; cbn [lo hi saved with_stack].
  - rewrite Hids. apply NoDup_cons. split; [|done]. intros Hx. by destruct (Holdi n Hx).
  - rewrite Forall_forall in Hp. apply Forall_forall. intros x Hx. unfold parked. cbn [lo hi saved with_stack].
    destruct (Hcase x ltac:(by right)) as [->|Hx'].
    + rewrite Hid, !decide_True by done. split; [congruence|done].
    + rewrite !decide_False by by apply Hold.
      assert (x ∈ post ++ pre ∨ x = t) as [Hxr| ->] by set_solver; [|by destruct (Hold t Hx')].
      destruct (Hp x Hxr) as (H1 & H2 & H3 & H4). split; [done|]. split; [|done].
      eapply suspended_frame; [done|exact Hfr|]. destruct (Hfree x Hx'); lia.
  - apply Forall_forall. intros x [->|Hx]%Hcase; cbn [lo hi with_stack].
    + rewrite Hid, !decide_True by done. split_and!; try done. lia.
    + rewrite !decide_False by by apply Hold. destruct (Hst x Hx) as (? & ? & ? & ?). split_and!; try done. lia.
  - intros i j. rewrite Hids, !elem_of_cons. cbn [lo hi with_stack].
    intros [->|Hi] [->|Hj] Hne; try done.
    + destruct (Holdi j Hj) as (Hj1 & Hj2). rewrite !(decide_True (P:=n=n)), !decide_False by done. lia.
    + destruct (Holdi i Hi) as (Hi1 & Hi2). rewrite !(decide_True (P:=n=n)), !decide_False by done. lia.
    + destruct (Holdi i Hi) as (Hi1 & _), (Holdi j Hj) as (Hj1 & _).
      rewrite !decide_False by done. by apply Hdj.
  - rewrite Hregs, !decide_False by (apply Hold; by left). done.
  - by rewrite Hregs.
  - destruct Hidle as [?|(x & Hx & ?)]; [by left|right]. exists x. split; [set_solver|done].
Qed.

(** A task whose first frame is in its own stack joins the queue. *)
Lemma inv_create mk w rest cur g t m' c base :
  inv w rest cur g ->
  0 <= base -> base + STACK_SIZE < 2 ^ 64 -> w_next_id w + 1 < 2 ^ 64 -> 0 <= w_next_id w ->
  (forall s t, w_sched w = Some s -> t ∈ tasks s -> hi g (id t) <= base \/ base + STACK_SIZE <= lo g (id t)) ->
  mk (w_next_id w) (mem (w_machine w)) = (t, m') ->
  id t = w_next_id w -> state t = Ready -> cr3 t ≠ 0 -> suspended m' (stack_ptr t) c ->
  base <= stack_ptr t -> stack_ptr t + FRAME <= base + STACK_SIZE ->
  mem_frame (mem (w_machine w)) m' base (base + STACK_SIZE) ->
  exists w' rest', (t ← create mk; enqueue t ;; mret t) w = (Ok t, w')
    /\ inv w' rest' cur (with_stack g (w_next_id w) c base) /\ w_next_id w' = w_next_id w + 1
    /\ exists s, w_sched w = Some s /\ w_sched w' = Some (mkScheduler (tasks s ++ [t]) (current s)).
Proof.
  intros [[(s & Hs & Hrq) Hq] Hrun] Hb Hl Hn Hn0 Hfree Hmk Hid Hst Hc3 Hsus Hb1 Hb2 Hfr.
  pose proof Hrq as (pre & post & Hts & Hcu & Hrest).
  eexists _, (post ++ t :: pre). split; [|split; [split; [split|]|]].
  - unfold create, next_id. rewrite !bind_assoc, bind_get, !bind_assoc, bind_put, bind_ret, bind_assoc, bind_get.
    cbn [w_machine]. rewrite Hmk, bind_assoc, bind_put, bind_ret. unfold enqueue. rewrite bind_assoc, bind_get.
    cbn [w_machine w_sched w_ticks w_rsp0 w_next_id]. rewrite Hs.
    erewrite bind_ok; [reflexivity|]. by eapply on_sched_run.
  - eexists. split; [reflexivity|]. exists pre, (post ++ [t]). cbn [tasks current].
    rewrite Hts, <- !app_assoc. done.
  - cbn [w_machine w_next_id]. rewrite u64_small by lia. eapply queue_ok_spawn; try done.
    intros x Hx. eapply Hfree; [done|]. by apply (rq_elem _ _ _ _ Hrq).
  - done.
  - cbn [w_next_id]. rewrite u64_small by lia. split; [done|]. by exists s.
Qed.

Lemma spawn_inv nm entry tramp base w rest cur g :
  inv w rest cur g ->
  0 <= base -> base + STACK_SIZE < 2 ^ 64 -> w_next_id w + 1 < 2 ^ 64 -> 0 <= w_next_id w ->
  (forall s t, w_sched w = Some s -> t ∈ tasks s -> hi g (id t) <= base \/ base + STACK_SIZE <= lo g (id t)) ->
  exists w' rest', spawn nm entry tramp base w = (Ok tt, w')
    /\ inv w' rest' cur (with_stack g (w_next_id w) (new_ctx tramp 0 entry base) base) /\ w_next_id w' = w_next_id w + 1
    /\ exists s t, id t = w_next_id w /\ w_sched w = Some s /\ w_sched w' = Some (mkScheduler (tasks s ++ [t]) (current s)).
Proof.
  intros Hi Hb Hl Hn Hn0 Hfree. pose proof Hi as [[_ Hq] _]. destruct (Task_new (H := H) (AS := AS) (w_next_id w) nm entry tramp base
    (cr3_reg (regs (w_machine w))) (mem (w_machine w))) as [t m'] eqn:Ht.
  destruct (Task_new_frame _ _ _ _ _ _ _ _ _ Hb Hl Ht) as (Hsus & Hb1 & Hb2 & Hfr & Hid & Hst & Hcr & _).
  destruct (inv_create (fun nid m => Task_new nid nm entry tramp base (cr3_reg (regs (w_machine w))) m)
    w rest cur g t m' (new_ctx tramp 0 entry base) base Hi Hb Hl Hn Hn0 Hfree Ht)
    as (w' & rest' & Hrun & Hi' & Hn' & s & Hs & Hs'); try done.
  { rewrite Hcr, (mi_cr3 _ _ _ _ _ Hq). pose proof (mi_stacks _ _ _ _ _ Hq) as Hsk.
    by apply Forall_cons in Hsk as [(_ & _ & Hc & _) _]. }
  exists w', rest'. split; [|split; [done|split; [done|by exists s, t]]]. clear Hs'. unfold spawn. rewrite bind_get. revert Hrun. generalize (create (fun nid m =>
    Task_new (H := H) (AS := AS) nid nm entry tramp base (cr3_reg (regs (w_machine w))) m)). intros mc.
  unfold mbind, M_bind. destruct (mc w) as [[t1| | |] w1]; try done.
  destruct (enqueue t1 w1) as [[[]| | |] w2]; try done. by intros [= -> ->].
Qed.

Lemma spawn_user_inv nm a c entry stack tramp base w rest cur g :
  inv w rest cur g ->
  0 <= base -> base + STACK_SIZE < 2 ^ 64 -> w_next_id w + 1 < 2 ^ 64 -> 0 <= w_next_id w -> c ≠ 0 ->
  (forall s t, w_sched w = Some s -> t ∈ tasks s -> hi g (id t) <= base \/ base + STACK_SIZE <= lo g (id t)) ->
  exists w' rest' t, spawn_user nm a c entry stack tramp base w = (Ok t, w')
    /\ t = (Task_new_user (w_next_id w) nm a c entry stack tramp base (mem (w_machine w))).1
    /\ inv w' rest' cur (with_stack g (w_next_id w) (new_ctx tramp stack entry base) base) /\ w_next_id w' = w_next_id w + 1
    /\ exists s, w_sched w = Some s /\ w_sched w' = Some (mkScheduler (tasks s ++ [t]) (current s)).
Proof.
  intros Hi Hb Hl Hn Hn0 Hc Hfree. destruct (Task_new_user (H := H) (w_next_id w) nm a c entry stack tramp base
    (mem (w_machine w))) as [t m'] eqn:Ht.
  destruct (Task_new_user_frame _ _ _ _ _ _ _ _ _ _ _ Hb Hl Ht) as (Hsus & Hb1 & Hb2 & Hfr & Hid & Hst & Hcr & _).
  destruct (inv_create (fun nid m => Task_new_user nid nm a c entry stack tramp base m)
    w rest cur g t m' (new_ctx tramp stack entry base) base Hi Hb Hl Hn Hn0 Hfree Ht)
    as (w' & rest' & Hrun & Hi' & Hn' & Hq); try done; [congruence|].
  exists w', rest', t. done.
Qed.

Lemma point_next_id ret w w' rest cur g :
  inv w rest cur g -> point ret w w' -> w_next_id w' = w_next_id w.
Proof.
  intros Hinv Hp. destruct (point_marked _ _ _ _ _ _ Hinv Hp) as (w1 & cur1 & Hm & Hmid & Hsch).
  destruct (schedule_inv ret w1 rest cur1 g Hmid) as (w2 & rest' & cur' & g' & Hrun & _ & _ & _ & Hn & _).
  rewrite Hsch in Hrun. injection Hrun as <-. rewrite Hn. by destruct (marked_same _ _ _ _ Hm) as (_ & _ & ->).
Qed.

Lemma reach_inv w g : sys_reach w g -> (exists rest cur, inv w rest cur g) /\ 0 <= w_next_id w.
Proof.
  induction 1 as [w g Hb|w g w' g' Hr [(rest & cur & Hi) Hn] Hs].
  { split; [by apply inv_boot|]. destruct Hb as (w0 & c & [= <-] & Hn & _). cbn. rewrite Hn. done. }
  inversion Hs; subst.
  - split; [|done]. exists rest, cur. by apply inv_computes.
  - destruct (point_inv _ _ _ _ _ _ Hi H1) as (w1 & cur1 & rest' & cur' & _ & Hi' & _).
    split; [by eauto|]. by erewrite point_next_id.
  - edestruct spawn_inv as (w1 & rest' & Hrun & Hi' & Hn' & _); [done..|].
    rewrite Hrun in *. simplify_eq. split; [by eauto|lia].
  - edestruct spawn_user_inv as (w1 & rest' & t' & Hrun & _ & Hi' & Hn' & _); [done..|].
    rewrite Hrun in *. simplify_eq. split; [by eauto|lia].
Qed.

(** C2: Context switching is transparent. In every state reachable from boot by
    tasks computing, being interrupted, sleeping, exiting and spawning, a timer
    tick completes without panic, and any scheduling point either returns to the
    same task with the machine untouched, or resumes another task with exactly
    the callee-saved registers, stack pointer and return address it was last
    suspended with (or its entry frame), its page table, and its kernel stack in
    the TSS; and only the suspended task's own frame was written. *)
Theorem sched_context_switch w g :
  sys_reach w g ->
  (forall ret, exists w', timer_handler ret w = (Ok tt, w'))
  /\ forall ret w', point ret w w' ->
      exists s' cur', w_sched w' = Some s' /\ tasks s' !! current s' = Some cur' /\ state cur' = Running
      /\ (cur_id w = Some (id cur') /\ w_machine w' = w_machine w
          \/ cur_id w ≠ Some (id cur')
             /\ regs (w_machine w') = resume (saved g (id cur')) (cr3 cur')
             /\ (kernel_stack_top cur' ≠ 0 -> w_rsp0 w' = kernel_stack_top cur')
             /\ mem_frame (mem (w_machine w)) (mem (w_machine w'))
                  (rsp (regs (w_machine w)) - FRAME) (rsp (regs (w_machine w)))).
Proof.
  intros Hr. destruct (reach_inv _ _ Hr) as [(rest & cur & Hi) _]. split.
  - intros ret. unfold timer_handler. rewrite bind_get, bind_put.
    edestruct schedule_inv as (w' & _ & _ & _ & Hs & _); [|by eauto].
    destruct Hi as [[Hq1 Hq2] _]. by split.
  - intros ret w' Hp.
    destruct (point_inv _ _ _ _ _ _ Hi Hp) as (w1 & cur1 & rest' & cur' & Hm & [[(s' & Hs' & Hrq') Hq'] Hrun] & Hsw & _).
    destruct (marked_same _ _ _ _ Hm) as (Hid & Hma & _). destruct Hi as [Hi _].
    exists s', cur'. split; [done|]. split; [by eapply rq_lookup|]. split; [done|].
    rewrite (inv_mid_cur_id _ _ _ _ Hi). destruct Hsw as [(He & Hmm & _)|(He & Hreg & _ & Hk & Hfr)].
    + left. rewrite He, Hid. by rewrite Hmm, Hma.
    + right. rewrite Hma in Hfr. split; [congruence|done].
Qed.

(** *** Fairness *)
Lemma filter_position (l : list (Task H AS)) j t :
  l !! j = Some t -> alive t -> exists j', (j' <= j)%nat /\ filter alive l !! j' = Some t
    /\ take j' (filter alive l) = filter alive (take j l).
Proof.
  intros Hl Ha. exists (length (filter alive (take j l))). split.
  - pose proof (length_filter alive (take j l)) as Hf. rewrite length_take in Hf. lia.
  - assert (filter alive l = filter alive (take j l) ++ t :: filter alive (drop (S j) l)) as ->.
    { rewrite <- (take_drop_middle _ _ _ Hl) at 1. by rewrite filter_app, filter_cons_True. }
    split; [by apply list_lookup_middle|]. by rewrite take_app_length.
Qed.

Lemma take_ids tick j (rest : list (Task H AS)) : id <$> (wake tick <$> filter alive (take j rest)) ⊆ id <$> take j rest.
Proof. intros x Hx. eapply elem_of_submseteq; [exact Hx|]. apply sublist_submseteq, wake_rest_ids. Qed.

(** At every decision a ready task is chosen, or one before it is, which goes behind it. *)
Lemma rq_schedule_progress tick rest cur j t :
  rest !! j = Some t -> state t = Ready ->
  let q := rq_schedule tick (rest, cur) in
  id q.2 = id t
  \/ exists j', (j' < j)%nat /\ q.1 !! j' = Some t /\ id q.2 ∈ id <$> take j rest /\ (id <$> take j' q.1) ⊆ (id <$> take j rest).
Proof.
  intros Hj Hs. cbv zeta. unfold rq_schedule. cbn [fst snd].
  destruct (filter_position rest j t Hj) as (j1 & Hle & Hj1 & Htk); [unfold alive; congruence|].
  assert ((wake tick <$> filter alive rest) !! j1 = Some t) as Hw.
  { rewrite list_lookup_fmap, Hj1. simpl. by rewrite wake_ready by (by left). }
  assert (id <$> take j1 (wake tick <$> filter alive rest) ⊆ id <$> take j rest) as Hids.
  { rewrite <- fmap_take, Htk. apply take_ids. }
  set (rest1 := wake tick <$> filter alive rest) in *.
  destruct (list_find (fun t : Task H AS => state t = Ready) rest1) as [[k t']|] eqn:Hf.
  - apply list_find_Some in Hf as (Hk & _ & Hmin).
    destruct (Nat.lt_trichotomy k j1) as [Hlt|[->|Hgt]].
    + right. exists (j1 - S k)%nat. cbn [fst snd]. pose proof (lookup_lt_Some _ _ _ Hw) as Hlen.
      assert (drop (S k) rest1 !! (j1 - S k)%nat = Some t) as Hd
        by (rewrite lookup_drop; rewrite <- Hw; f_equal; lia).
      split; [lia|]. split; [by rewrite lookup_app_l by by eapply lookup_lt_Some|]. split.
      * apply Hids. apply list_elem_of_fmap. exists t'. split; [done|]. apply list_elem_of_lookup. exists k.
        by rewrite lookup_take_lt.
      * rewrite take_app_le by (rewrite length_drop; lia). intros x Hx. apply Hids.
        rewrite take_drop_commute in Hx. replace (S k + (j1 - S k))%nat with j1 in Hx by lia.
        eapply elem_of_submseteq; [exact Hx|]. apply fmap_submseteq, sublist_submseteq, sublist_drop.
    + left. cbn [snd]. by simplify_eq.
    + by destruct (Hmin j1 t Hw).
  - apply list_find_None in Hf. rewrite Forall_forall in Hf. destruct (Hf t); [|done].
    by eapply list_elem_of_lookup_2.
Qed.

(** [exec ids n w g w' g']: tasks compute, spawn [n] others, and scheduling points happen;
    [ids] are the tasks chosen, in order. *)
Inductive exec : list Z -> nat -> World H AS -> Ghost -> World H AS -> Ghost -> Prop :=
| exec_nil w g : exec [] 0 w g w g
| exec_run ids n w g m' w' g' :
    computes g w m' -> exec ids n (set_machine m' w) g w' g' -> exec ids n w g w' g'
| exec_spawn ids n w g w1 g1 w' g' :
    sys_step (w, g) (w1, g1) -> w_next_id w1 = w_next_id w + 1 -> exec ids n w1 g1 w' g' -> exec ids (S n) w g w' g'
| exec_point i ids n ret w w1 g w' g' :
    point ret w w1 -> cur_id w1 = Some i -> exec ids n w1 (ghost_after ret w w1 g) w' g' ->
    exec (i :: ids) n w g w' g'.

(** A step that takes an id puts a task with it somewhere among the others. *)
Lemma spawned_inv w g w1 g1 rest cur : sys_step (w, g) (w1, g1) -> w_next_id w1 = w_next_id w + 1 -> inv w rest cur g -> 0 <= w_next_id w ->
  exists p q t, rest = p ++ q /\ id t = w_next_id w /\ inv w1 (p ++ t :: q) cur g1.
Proof.
  intros Hs Hn Hi Hn0.
  assert (forall rest1 s t, inv w1 rest1 cur g1 -> id t = w_next_id w -> w_sched w = Some s ->
    w_sched w1 = Some (mkScheduler (tasks s ++ [t]) (current s)) -> exists p q t, rest = p ++ q /\ id t = w_next_id w /\ inv w1 (p ++ t :: q) cur g1) as Hput.
  { intros rest1 s t Hi1 Hid Hsch Hsch1. destruct Hi as [[(s0 & Hs0 & pre & post & Hts & Hcu & Hre) _] _].
    rewrite Hsch in Hs0. injection Hs0 as <-. pose proof Hi1 as [[(s1 & Hs1 & pre1 & post1 & Hts1 & Hcu1 & Hre1) _] _].
    rewrite Hsch1 in Hs1. injection Hs1 as <-. cbn [tasks current] in *. rewrite Hts, <- app_assoc in Hts1. cbn [app] in Hts1.
    apply app_inj_1 in Hts1 as [-> [= <-]]; [|congruence]. exists post, pre1, t. split; [done|]. split; [done|].
    by rewrite Hre1, <- app_assoc in Hi1. }
  inversion Hs; subst.
  - cbn in Hn. lia.
  - pose proof (point_next_id _ _ _ _ _ _ Hi ltac:(eassumption)). lia.
  - edestruct spawn_inv as (w2 & rest1 & Hrun & Hi1 & _ & s & t & Hid & Hsch & Hsch1); [done..|].
    match goal with Hx : spawn _ _ _ _ _ = (Ok tt, w1) |- _ => rewrite Hx in Hrun end. injection Hrun as <-. by eapply Hput.
  - edestruct spawn_user_inv as (w2 & rest1 & t' & Hrun & Ht & Hi1 & _ & s & Hsch & Hsch1); [done..|].
    match goal with Hx : spawn_user _ _ _ _ _ _ _ _ = (Ok _, w1) |- _ => rewrite Hx in Hrun end. injection Hrun as -> <-.
    eapply Hput; [exact Hi1| |exact Hsch|exact Hsch1]. by rewrite Ht.
Qed.

(** The tasks chosen before a ready task are among those ahead of it and those spawned since,
    each once. *)
Lemma exec_reaches ids n w g w' g' : exec ids n w g w' g' -> forall rest cur j t, inv w rest cur g -> 0 <= w_next_id w ->
  rest !! j = Some t -> state t = Ready -> (j + n < length ids)%nat ->
  exists k, (k <= j + n)%nat /\ ids !! k = Some (id t) /\ NoDup (take k ids)
    /\ forall x, x ∈ take k ids -> x ∈ id <$> take j rest \/ w_next_id w <= x.
Proof.
  induction 1 as [w g|ids n w g m' w' g' Hc He IH|ids n w g w1 g1 w' g' Hstep Hnx He IH|i ids n ret w w1 g w' g' Hp Hid He IH];
    intros rest cur j t Hi Hn0 Hj Hs Hlen; cbn [length] in *; [lia|..].
  - eapply (IH rest cur j t); [by apply inv_computes|done..].
  - destruct (spawned_inv _ _ _ _ _ _ Hstep Hnx Hi Hn0) as (p & q & u & -> & Hu & Hi1).
    assert (exists j1, (p ++ u :: q) !! j1 = Some t /\ (j1 <= S j)%nat
      /\ forall x, x ∈ id <$> take j1 (p ++ u :: q) -> x ∈ id <$> take j (p ++ q) \/ x = id u) as (j1 & Hj1 & Hle & Hsub).
    { destruct (Nat.lt_ge_cases j (length p)) as [Hlt|Hge].
      - exists j. rewrite lookup_app_l in Hj |- * by done. split; [done|]. split; [lia|]. intros x. rewrite !take_app_le by lia. by left.
      - exists (S j). rewrite lookup_app_r in Hj |- * by lia. replace (S j - length p)%nat with (S (j - length p)) by lia.
        split; [exact Hj|]. split; [lia|]. intros x. rewrite !take_app_ge by lia. replace (S j - length p)%nat with (S (j - length p)) by lia.
        cbn [take]. rewrite !fmap_app, fmap_cons. set_solver. }
    destruct (IH _ _ _ _ Hi1 ltac:(lia) Hj1 Hs ltac:(lia)) as (k & Hk & Hkt & Hnd & Hin). exists k. split; [lia|]. split; [done|]. split; [done|].
    intros x Hx. destruct (Hin x Hx) as [Hx1| ?]; [|right; lia]. destruct (Hsub x Hx1) as [?| ->]; [by left|right; lia].
  - destruct (point_inv _ _ _ _ _ _ Hi Hp) as (w2 & cur1 & rest' & cur' & Hm & Hi' & _ & Hcur & Hrest).
    pose proof (point_next_id _ _ _ _ _ _ Hi Hp) as Hnx.
    assert (id cur' = i) as Hci by (pose proof Hi' as [Hmid _]; rewrite (inv_mid_cur_id _ _ _ _ Hmid) in Hid; congruence).
    assert (id <$> rest' = id <$> (rq_schedule (w_ticks w2) (rest, cur1)).1) as Hids.
    { apply (f_equal (fmap id)) in Hrest. by rewrite <- !list_fmap_compose in Hrest. }
    destruct (rq_schedule_progress (w_ticks w2) rest cur1 j t Hj Hs) as [Hc|(j' & Hlt & Hj' & Hcin & Hsub)].
    + exists 0%nat. split; [lia|]. split; [rewrite <- Hci, Hcur; exact (f_equal Some Hc)|]. split; [constructor|]. intros x Hx. by apply elem_of_nil in Hx.
    + assert ((set_stack_ptr 0 <$> rest') !! j' = Some (set_stack_ptr 0 t)) as Hl by by rewrite Hrest, list_lookup_fmap, Hj'.
      rewrite list_lookup_fmap in Hl. destruct (rest' !! j') as [t'|] eqn:Ht'; [|done].
      assert (id t = id t' /\ state t' = Ready) as [Heq Hst'].
      { apply (inj Some) in Hl. apply (f_equal id) in Hl as Hl1. apply (f_equal state) in Hl as Hl2. simpl in *. by rewrite Hl2. }
      destruct (IH _ _ _ _ Hi' ltac:(lia) Ht' Hst' ltac:(lia)) as (k & Hk & Hkt & Hnd & Hin). exists (S k). split; [lia|].
      split; [rewrite Heq; exact Hkt|]. cbn [take].
      assert (forall x, x ∈ take k ids -> x ∈ id <$> take j rest \/ w_next_id w <= x) as Hin'.
      { intros x Hx. destruct (Hin x Hx) as [Hx1| ?]; [left|right; lia]. apply Hsub. by rewrite fmap_take, <- Hids, <- fmap_take. }
      split.
      * constructor; [|done]. intros Hx. pose proof Hi' as [[_ Hq] _]. pose proof (mi_nodup _ _ _ _ _ Hq) as Hnd'. cbn in Hnd'.
        apply NoDup_cons in Hnd' as [Hni _]. destruct (Hin i Hx) as [Hx1|Hx1].
        -- apply Hni. rewrite Hci. eapply elem_of_submseteq; [exact Hx1|]. apply fmap_submseteq, sublist_submseteq, sublist_take.
        -- pose proof (mi_stacks _ _ _ _ _ Hq) as Hsk. apply Forall_cons in Hsk as [(_ & _ & _ & Hlt') _]. lia.
      * intros x [->|Hx]%elem_of_cons; [|by apply Hin']. left. rewrite <- Hci, Hcur. exact Hcin.
Qed.

(** C34: No ready task starves: from any reachable state, whatever the tasks do (compute,
    sleep, exit, be interrupted, spawn), a ready task is chosen within as many scheduling
    points as there are other tasks, counting those spawned meanwhile; and before it is, no
    task is chosen twice, and the one that was running not at all. *)
Theorem sched_no_starvation w g s t ids spawned w' g' :
  sys_reach w g -> w_sched w = Some s -> t ∈ tasks s -> state t = Ready ->
  exec ids spawned w g w' g' -> (length (tasks s) + spawned <= S (length ids))%nat ->
  exists k c, (k + 2 <= length (tasks s) + spawned)%nat /\ ids !! k = Some (id t)
    /\ cur_id w = Some c /\ NoDup (c :: take (S k) ids).
Proof.
  intros Hr Hs Ht Hst He Hlen. destruct (reach_inv _ _ Hr) as [(rest & cur & Hi) Hn0].
  pose proof Hi as [[(s1 & Hs1 & Hrq) Hq] Hrun]. rewrite Hs in Hs1. injection Hs1 as <-.
  apply (rq_elem _ _ _ _ Hrq) in Ht as [->|Ht]%elem_of_cons; [congruence|].
  apply list_elem_of_lookup in Ht as (j & Hj). pose proof (lookup_lt_Some _ _ _ Hj) as Hjl.
  assert (length (tasks s) = S (length rest)) as Hlr.
  { destruct Hrq as (pre & post & -> & _ & ->). rewrite !length_app. cbn. lia. }
  destruct (exec_reaches _ _ _ _ _ _ He _ _ _ _ Hi Hn0 Hj Hst ltac:(lia)) as (k & Hk & Hkt & Hnd & Hin).
  exists k, (id cur). split; [lia|]. split; [done|]. split; [by eapply rq_cur_id|].
  pose proof (mi_nodup _ _ _ _ _ Hq) as Hids. cbn in Hids. apply NoDup_cons in Hids as [Hcur Hids].
  pose proof (mi_stacks _ _ _ _ _ Hq) as Hsk. apply Forall_cons in Hsk as [(_ & _ & _ & Hcn) Hsk].
  assert (forall x, x ∈ rest -> id x < w_next_id w) as Hold by (rewrite Forall_forall in Hsk; intros x Hx; apply Hsk in Hx; tauto).
  assert (t ∈ rest) as Htr by by eapply list_elem_of_lookup_2.
  rewrite (take_S_r _ _ _ Hkt), app_comm_cons. apply NoDup_app. split; [|split; [|apply NoDup_singleton]].
  - apply NoDup_cons. split; [|done]. intros Hx. destruct (Hin _ Hx) as [Hx1|Hx1]; [|lia]. apply Hcur.
    eapply elem_of_submseteq; [exact Hx1|]. apply fmap_submseteq, sublist_submseteq, sublist_take.
  - intros x Hx ->%list_elem_of_singleton. apply elem_of_cons in Hx as [Hx|Hx].
    + apply Hcur. rewrite <- Hx. by apply list_elem_of_fmap_2.
    + destruct (Hin _ Hx) as [Hx1|Hx1]; [|specialize (Hold t Htr); lia].
      rewrite <- (take_drop_middle _ _ _ Hj), fmap_app, fmap_cons in Hids. apply NoDup_app in Hids as (_ & Hdis & _).
      eapply Hdis; [exact Hx1|by left].
Qed.

(** C36: [schedule]'s decision is round robin on the run queue, from any
    scheduler state whose current index is in range: dead tasks other than the
    current one are dropped and keep the rest in order, sleepers whose time has
    come are woken, the first ready task after the current one becomes the running
    one, the current one (made ready if it was running) goes to the back, and if
    no other task is ready the current one stays; nothing panics. *)
Theorem sched_round_robin s rest cur tick :
  rq s rest cur ->
  exists info s', schedule_pick tick s = (Ok info, s')
    /\ rq s' (rq_schedule tick (rest, cur)).1 (rq_schedule tick (rest, cur)).2
    /\ (info = None <-> Forall (fun t => state (wake tick t) ≠ Ready) (cur :: filter alive rest)).
Proof.
  intros Hrq. pose proof (schedule_pick_cases s rest cur tick Hrq) as H1. cbn zeta in H1.
  unfold rq_schedule. cbn [fst snd]. setoid_rewrite Forall_cons.
  destruct (list_find _ (wake tick <$> filter alive rest)) as [[k t]|] eqn:Hf.
  - destruct H1 as (i & s' & Hp & _ & _ & _ & Hg). exists (Some i), s'. split; [done|]. split.
    + specialize (Hg (fun x => x)). rewrite (list_alter_id (fun x => x)) in Hg by done. by destruct s'.
    + split; [done|]. intros [_ Hall]. apply list_find_Some in Hf as (Hk & Hr & _).
      rewrite list_lookup_fmap_Some in Hk. destruct Hk as (t0 & -> & Hk). rewrite Forall_forall in Hall.
      by destruct (Hall t0 ltac:(by eapply list_elem_of_lookup_2)).
  - apply list_find_None in Hf. rewrite Forall_fmap in Hf.
    case_bool_decide as Hc.
    + destruct H1 as (i & s' & Hp & _ & _ & _ & Hg). exists (Some i), s'. split; [done|]. split.
      * specialize (Hg (fun x => x)). rewrite (list_alter_id (fun x => x)) in Hg by done. by destruct s'.
      * split; [done|]. by intros [? _].
    + destruct H1 as (s' & Hp & Hg). exists None, s'. done.
Qed.
End invariant.

(** *** Witnesses: a kernel with one spawned task *)
Definition demo_boot : World unit unit :=
  mkWorld None 0 (mkMachine (mkRegs 0x9000 1 2 3 4 5 6 0 0x1000) gmap_empty) 0 0.
Definition demo_ghost : Ghost :=
  mkGhost (fun _ => mkCtx 0 0 0 0 0 0 0 0) (fun _ => 0x8000) (fun _ => 0x9000).
Definition demo_w0 : World unit unit := (sched_init 0x1000 demo_boot).2.
Definition demo_w1 : World unit unit := (spawn (lit "a") 0x400000 0x500000 0x10000 demo_w0).2.
Definition demo_g1 : Ghost := with_stack demo_ghost 1 (new_ctx 0x500000 0 0x400000 0x10000) 0x10000.

Lemma demo_reach : sys_reach demo_w1 demo_g1.
Proof.
  eapply (reach_step demo_w0 demo_ghost).
  - apply reach_boot. exists demo_boot, 0x1000. split_and!; try done; vm_compute; done.
  - apply (step_spawn (lit "a") 0x400000 0x500000 0x10000 demo_w0 demo_w1 demo_ghost); try done.
    intros s t _ _. left. vm_compute. done.
Qed.

Lemma sched_context_switch_witness :
  exists w', timer_handler 0x1234 demo_w1 = (Ok tt, w') /\ cur_id w' = Some 1.
Proof.
  destruct (proj1 (sched_context_switch demo_w1 demo_g1 demo_reach) 0x1234) as (w' & H).
  exists w'. split; [exact H|]. assert (w' = (timer_handler 0x1234 demo_w1).2) as -> by (rewrite H; reflexivity).
  vm_compute. reflexivity.
Defined.

(** One timer tick from [demo_w1], interrupted at address 0x1234, picks the new task. *)
Definition demo_w2 : World unit unit := (timer_handler 0x1234 demo_w1).2.

Lemma demo_point : point 0x1234 demo_w1 demo_w2.
Proof. apply point_timer. vm_compute. reflexivity. Qed.

Lemma sched_no_starvation_witness : let t := default (kernel_task 0 0) (default [] (tasks <$> w_sched demo_w1) !! 1%nat) in
  name t = lit "a" /\ state t = Ready
  /\ exists ids w' g', exec ids 0 demo_w1 demo_g1 w' g' /\ ids !! 0%nat = Some (id t) /\ cur_id w' = Some (id t).
Proof.
  cbv zeta. split; [by vm_compute|]. split; [by vm_compute|].
  exists [1], demo_w2, (ghost_after 0x1234 demo_w1 demo_w2 demo_g1).
  assert (exec [1] 0 demo_w1 demo_g1 demo_w2 (ghost_after 0x1234 demo_w1 demo_w2 demo_g1)) as He
    by (eapply exec_point; [exact demo_point|vm_compute; reflexivity|apply exec_nil]).
  split; [exact He|]. split; [|by vm_compute].
  destruct (sched_no_starvation demo_w1 demo_g1 (default (mkScheduler [] 0) (w_sched demo_w1))
    (default (kernel_task 0 0) (default [] (tasks <$> w_sched demo_w1) !! 1%nat))
    [1] 0 demo_w2 (ghost_after 0x1234 demo_w1 demo_w2 demo_g1) demo_reach) as (k & c & Hk & Hkt & _).
  - vm_compute. reflexivity.
  - vm_compute. right. left.
  - vm_compute. reflexivity.
  - exact He.
  - vm_compute. lia.
  - assert (k = 0%nat) as -> by (change (k + 2 <= 2)%nat in Hk; lia). exact Hkt.
Defined.

Lemma sched_round_robin_witness :
  exists info s', schedule_pick 0 (default (mkScheduler [] 0) (w_sched demo_w1)) = (Ok info, s')
    /\ option_map sw_old info = Some 0%nat.
Proof.
  destruct (sched_round_robin (default (mkScheduler [] 0) (w_sched demo_w1))
    (tail (default [] (tasks <$> w_sched demo_w1))) (kernel_task 0 0x1000) 0) as (info & s' & H & _).
  - exists [], (tail (default [] (tasks <$> w_sched demo_w1))). vm_compute. done.
  - exists info, s'. split; [exact H|].
    assert (Ok info = (schedule_pick 0 (default (mkScheduler [] 0) (w_sched demo_w1))).1) as Hi by by rewrite H.
    vm_compute in Hi. injection Hi as ->. reflexivity.
Defined.
