(* ===== verification/Spawn.v ===== *)
(** * Spawn: starting a program

    [spawn_elf] of [vcore/src/sched/mod.rs]: a new address space, the program loaded
    into it, four pages of stack, and a user task at the end of the queue.  The state
    is the scheduler's world with the memory manager's. *)
From Stdlib Require Import ZArith Lia.
From stdpp Require Import base numbers option list gmap.
From S2P Require Import Prelude VfsTypes FdTable Memory Pmm Vmm VmmFacts Elf ElfFacts Task Sched.

Section spawn.
Context {H : Type} {X : Paging}.
Abbreviation Kernel := (World H AddressSpace * VmState)%type.
Abbreviation KM := (M Kernel rstr).

Definition on_vm {A} (m : M VmState rstr A) : KM A := zoom snd (fun s k => (k.1, s)) m.
Definition on_world {A} (m : M (World H AddressSpace) Empty_set A) : KM A :=
  map_err (fun e : Empty_set => match e with end) (zoom fst (fun w k => (w, k.2)) m).

Definition user_stack_top_page : Z := 0x7FFFF000.
Definition user_stack_pages : Z := 4.

Definition stack_flags : Z := Z.lor (Z.lor (Z.lor PRESENT WRITABLE) USER_ACCESSIBLE) NO_EXECUTE.

Definition map_user_stack (a : AddressSpace) : M VmState rstr unit :=
  for_each (seqZ 0 user_stack_pages) (fun i =>
    let page_addr := user_stack_top_page -w64 (i *w64 4096) in
    v ← VirtAddr_new page_addr;
    _ ← as_map_page_alloc a v stack_flags;
    mret tt).

(** [trampoline] is the address of [user_entry_trampoline], [stack_base] that of the
    kernel stack allocated for the task. *)
Definition spawn_elf (nm : rstr) (elf_data : bytes) (trampoline stack_base : Z) : KM Z :=
  address_space ← on_vm AddressSpace_new;
  loaded ← on_vm (load_into elf_data address_space);
  entry_page ← on_vm (VirtAddr_new (page_floor (l_entry loaded)));
  mapped ← on_vm (as_is_mapped address_space entry_page);
  if negb mapped then fail (lit "entry point not mapped!")
  else
    on_vm (map_user_stack address_space) ;;
    let user_stack_top := user_stack_top_page +w64 4096 -w64 8 in
    task ← on_world (create (fun nid m =>
      Task_new_user nid nm address_space (cr3_value address_space) (l_entry loaded) user_stack_top trampoline stack_base m));
    on_vm (info_message (SpawnedTask (id task))) ;;
    on_world (enqueue task) ;;
    mret (id task).
End spawn.

(** ** What [spawn_elf] does *)
Definition STACK_LOW : Z := 0x7FFFC000.
Definition STACK_HIGH : Z := 0x80000000.

(** [V] with the stack, zeroed. *)
Definition with_stack_pages (V : Z -> option Z) (v : Z) : option Z :=
  if (STACK_LOW <=? v) && (v <? STACK_HIGH) then Some 0 else V v.

Section spawn_facts.
Context {H : Type} {X : Paging} {PL : PagingLaws} {rest : list Space}.
Implicit Types (w : World H AddressSpace).

Lemma stack_flags_present : Z.land stack_flags PRESENT ≠ 0.
Proof using PL.
  unfold stack_flags. rewrite !Z.land_lor_distr_l, Z.land_diag.
  intros [[[E _]%Z.lor_eq_0_iff _]%Z.lor_eq_0_iff _]%Z.lor_eq_0_iff. by apply PRESENT_flag.
Qed.

Lemma map_each_run root fl pages : Z.land fl PRESENT ≠ 0 -> forall n st V,
  spaces n st ((root, V) :: rest) -> NoDup pages ->
  Forall (fun p => 0 <= p < LOW /\ p mod PAGE_SIZE = 0 /\ V p = None) pages -> 4 * zlen pages <= n ->
  exists st', for_each pages (fun p => v ← VirtAddr_new p; _ ← as_map_page_alloc (mkAS root) v fl; mret tt) st = (Ok tt, st')
    /\ spaces (n - 4 * zlen pages) st' ((root, foldl with_page V pages) :: rest).
Proof.
  intros Hfl. induction pages as [|p pages IH]; intros n st V Has Hnd Hp Hn.
  { exists st. split; [done|]. eapply spaces_le; [exact Has|]. change (n - 4 * 0 <= n). lia. }
  apply NoDup_cons in Hnd as [Hnp Hnd]. apply Forall_cons in Hp as [(Hp1 & Hp2 & Hp3) Hps].
  unfold zlen in *. cbn [length] in Hn |- *. cbn [for_each foldl].
  destruct (as_map_page_alloc_run n st root V p fl Has ltac:(lia) Hp1 Hp2 Hp3 Hfl) as (f & st1 & Hm & Has1).
  destruct (IH (n - 4) st1 _ Has1 Hnd) as (st2 & Hr & Has2); [|lia|].
  { apply Forall_forall. intros q Hq. destruct (proj1 (Forall_forall _ _) Hps q Hq) as (H1 & H2 & H3).
    do 2 (split; [done|]). unfold with_page. rewrite containing_aligned by done. destruct (Z.eqb_spec q p) as [->|]; done. }
  exists st2. split.
  - unfold VirtAddr_new. rewrite VirtAddr_low by done. rewrite bind_assoc. cbn [assert_or_panic]. rewrite bind_assoc, !bind_ret.
    rewrite bind_assoc, (bind_ok _ _ _ _ _ Hm), bind_ret. exact Hr.
  - eapply spaces_le; [exact Has2|lia].
Qed.

Lemma map_user_stack_run n st root V :
  spaces n st ((root, V) :: rest) -> (forall v, STACK_LOW <= v < STACK_HIGH -> V v = None) -> 16 <= n ->
  exists st', map_user_stack (mkAS root) st = (Ok tt, st')
    /\ spaces (n - 16) st' ((root, with_stack_pages V) :: rest).
Proof.
  intros Has HV Hn. unfold STACK_LOW, STACK_HIGH in HV.
  destruct (map_each_run root stack_flags [0x7FFFF000; 0x7FFFE000; 0x7FFFD000; 0x7FFFC000] stack_flags_present n st V Has)
    as (st' & Hr & Has'); [by apply (bool_decide_unpack _)| |done|].
  { unfold LOW. repeat constructor; try done; apply HV; lia. }
  exists st'. split.
  - rewrite <- Hr. unfold map_user_stack. symmetry.
    change [0x7FFFF000; 0x7FFFE000; 0x7FFFD000; 0x7FFFC000]
      with (map (fun i => user_stack_top_page -w64 (i *w64 4096)) (seqZ 0 user_stack_pages)).
    by rewrite for_each_fmap.
  - eapply as_mem_ext; [exact Has'|]. intros v _. cbn [foldl]. unfold with_page, with_stack_pages, STACK_LOW, STACK_HIGH, containing, PAGE_SIZE.
    pose proof (Z.div_mod v 4096 ltac:(lia)). pose proof (Z.mod_pos_bound v 4096 ltac:(lia)).
    repeat match goal with |- context [?a =? ?b] => destruct (Z.eqb_spec a b) end;
      destruct (Z.leb_spec 0x7FFFC000 v), (Z.ltb_spec v 0x80000000); cbn [andb]; done || lia.
Qed.
Abbreviation Kernel := (World H AddressSpace * VmState)%type.

Lemma on_vm_ok {A} (m : M VmState rstr A) x w s s' : m s = (Ok x, s') -> on_vm m (w, s) = (Ok x, (w, s')).
Proof. intros Hm. unfold on_vm, zoom. cbn [fst snd]. by rewrite Hm. Qed.

Lemma on_world_ok {A} (m : M (World H AddressSpace) Empty_set A) x w w' (s : VmState) :
  m w = (Ok x, w') -> on_world m (w, s) = (Ok x, (w', s)).
Proof. intros Hm. unfold on_world, map_err, zoom. cbn [fst snd]. by rewrite Hm. Qed.

Lemma create_enqueue mk w t w' : (t ← create mk; enqueue t ;; mret t) w = (Ok t, w') ->
  exists w1, create mk w = (Ok t, w1) /\ enqueue t w1 = (Ok tt, w').
Proof.
  unfold mbind, M_bind. destruct (create mk w) as [[t1| | |] w1]; try done.
  destruct (enqueue t1 w1) as [[[]| | |] w2] eqn:He; try done. intros [= -> ->]. by exists w1.
Qed.

(** [spawn_elf] up to the task. *)
Lemma prepare_run n st d :
  spaces n st rest -> elf_ok d -> (forall v, STACK_LOW <= v < STACK_HIGH -> image d (fun _ => None) v = None) ->
  is_Some (image d (fun _ => None) (containing (entry (ehdr_at d)))) -> 0 <= entry (ehdr_at d) < LOW ->
  4 * total_seg_pages (segments d) + 17 <= n ->
  exists root st1 st2 st3 a, AddressSpace_new st = (Ok (mkAS root), st1)
    /\ load_into d (mkAS root) st1 = (Ok (mkLoaded (entry (ehdr_at d))), st2)
    /\ (e ← VirtAddr_new (page_floor (entry (ehdr_at d))); as_is_mapped (mkAS root) e) st2 = (Ok true, st2)
    /\ map_user_stack (mkAS root) st2 = (Ok tt, st3)
    /\ spaces (n - (4 * total_seg_pages (segments d) + 17)) st3 ((root, with_stack_pages (image d (fun _ => None))) :: rest)
    /\ v_pmm st = Some a /\ 0 <= root /\ ~ taken a root.
Proof.
  intros Hsp Hd Hstk Hent Hlow Hn.
  pose proof (total_seg_pages_pos d _ (eo_segments _ Hd)) as Htp.
  destruct (AddressSpace_new_run n st rest Hsp ltac:(lia)) as (root & st1 & a & Hnew & Hsp1 & Hp & Hr0 & Hrn).
  destruct (load_into_run (n - 1) st1 root _ d Hsp1 Hd ltac:(lia)) as (st2 & Hload & Hsp2).
  destruct (map_user_stack_run _ st2 root _ Hsp2 Hstk ltac:(lia)) as (st3 & Hstack & Hsp3).
  exists root, st1, st2, st3, a. split_and!; try done; [|eapply spaces_le; [exact Hsp3|lia]].
  destruct (containing_spec (entry (ehdr_at d)) ltac:(lia)) as (_ & ? & _).
  rewrite page_floor_containing by (unfold LOW in *; lia). unfold VirtAddr_new. rewrite VirtAddr_low by lia.
  rewrite bind_assoc. cbn [assert_or_panic]. rewrite !bind_ret. rewrite (is_mapped_run _ _ _ _ _ Hsp2) by lia.
  by rewrite bool_decide_true.
Qed.

Lemma spawn_elf_run n w g st d nm tramp base :
  sys_reach w g -> spaces n st rest -> (forall a, v_pmm st = Some a -> taken a 0) ->
  0 <= base -> base + STACK_SIZE < 2 ^ 64 -> w_next_id w + 1 < 2 ^ 64 ->
  (forall s t, w_sched w = Some s -> t ∈ tasks s -> hi g (id t) <= base \/ base + STACK_SIZE <= lo g (id t)) ->
  elf_ok d -> (forall v, STACK_LOW <= v < STACK_HIGH -> image d (fun _ => None) v = None) ->
  is_Some (image d (fun _ => None) (containing (entry (ehdr_at d)))) -> 0 <= entry (ehdr_at d) < LOW ->
  4 * total_seg_pages (segments d) + 17 <= n ->
  exists root t s w' st', spawn_elf nm d tramp base (w, st) = (Ok (w_next_id w), (w', st'))
    /\ spaces (n - (4 * total_seg_pages (segments d) + 17)) st'
         ((root, with_stack_pages (image d (fun _ => None))) :: rest)
    /\ w_sched w = Some s /\ w_sched w' = Some (mkScheduler (tasks s ++ [t]) (current s))
    /\ id t = w_next_id w /\ name t = nm /\ state t = Ready /\ mode t = User /\ cr3 t = root
    /\ address_space t = Some (mkAS root) /\ cwd t = lit "/"
    /\ sys_reach w' (with_stack g (w_next_id w) (new_ctx tramp 0x7FFFFFF8 (entry (ehdr_at d)) base) base).
Proof.
  intros Hreach Hsp H0 Hb Hl Hid Hfree Hd Hstk Hent Hlow Hn.
  destruct (prepare_run n st d Hsp Hd Hstk Hent Hlow Hn)
    as (root & st1 & st2 & st3 & a & Hnew & Hload & Hmap & Hstack & Hsp3 & Hp & Hr0 & Hrn).
  assert (root ≠ 0) as Hroot by (intros ->; by apply Hrn, H0).
  destruct (reach_inv _ _ Hreach) as [(q & cur & Hi) Hid0].
  destruct (spawn_user_inv nm (mkAS root) root (entry (ehdr_at d)) 0x7FFFFFF8 tramp base w q cur g Hi Hb Hl Hid Hid0 Hroot Hfree)
    as (w' & q' & t & Hrun & Ht & _ & _ & s & Hs & Hs').
  pose proof Hrun as (w1 & Hcr & Henq)%create_enqueue.
  assert (id t = w_next_id w /\ name t = nm /\ state t = Ready /\ mode t = User /\ cr3 t = root
    /\ address_space t = Some (mkAS root) /\ cwd t = lit "/") as (Htid & Hfields).
  { rewrite Ht. unfold Task_new_user. by destruct (push_words _ _). }
  set (st4 := add_message (SpawnedTask (id t)) st3). exists root, t, s, w', st4. split; [|split; [|split_and!; try done; try apply Hfields]].
  - unfold spawn_elf. rewrite (bind_ok _ _ _ _ _ (on_vm_ok _ _ w _ _ Hnew)), (bind_ok _ _ _ _ _ (on_vm_ok _ _ w _ _ Hload)).
    cbn [l_entry]. revert Hmap. unfold mbind at 1, M_bind at 1.
    destruct (VirtAddr_new (page_floor (entry (ehdr_at d))) st2) as [[e| | |] st2'] eqn:He; try done. intros Hmap.
    assert (st2' = st2) as ->.
    { revert He. unfold VirtAddr_new. by destruct (VirtAddr_valid _); intros [= _ <-]. }
    rewrite (bind_ok _ _ _ _ _ (on_vm_ok _ _ w _ _ He)), (bind_ok _ _ _ _ _ (on_vm_ok _ _ w _ _ Hmap)). cbn [negb].
    rewrite (bind_ok _ _ _ _ _ (on_vm_ok _ _ w _ _ Hstack)).
    change (user_stack_top_page +w64 4096 -w64 8) with 0x7FFFFFF8. unfold cr3_value. cbn [pml4_phys].
    rewrite (bind_ok _ _ _ _ _ (on_world_ok _ _ _ _ st3 Hcr)).
    assert (info_message (SpawnedTask (id t)) st3 = (Ok tt, st4)) as Hmsg by done.
    rewrite (bind_ok _ _ _ _ _ (on_vm_ok _ _ w1 _ _ Hmsg)), (bind_ok _ _ _ _ _ (on_world_ok _ _ _ _ st4 Henq)).
    by rewrite Htid.
  - destruct Hsp3 as (a3 & h & k & Hsp3). by exists a3, h, k.
  - eapply reach_step; [exact Hreach|]. by eapply step_spawn_user.
Qed.

(** C3: Starting a program.  In every reachable state of the scheduler, with the
    address spaces [rest] in memory and enough free frames, [spawn_elf] of a
    well-formed program whose entry point is in one of its segments and whose segments
    leave the stack's pages free returns the new task's id.  The task is at the end of
    the queue, ready, in user mode, with a new address space that holds the program's
    image and sixteen kilobytes of zeroed stack, and every other space is as it was.
    The scheduler's state is again a reachable one, where the new task is suspended
    about to enter its trampoline with the entry point in [r15] and the stack's top in
    [r14]. *)
Theorem spawn_elf_runs n w g st d nm tramp base :
  sys_reach w g -> spaces n st rest -> (forall a, v_pmm st = Some a -> taken a 0) ->
  0 <= base -> base + STACK_SIZE < 2 ^ 64 -> w_next_id w + 1 < 2 ^ 64 ->
  (forall s t, w_sched w = Some s -> t ∈ tasks s -> hi g (id t) <= base \/ base + STACK_SIZE <= lo g (id t)) ->
  elf_ok d -> (forall v, STACK_LOW <= v < STACK_HIGH -> image d (fun _ => None) v = None) ->
  is_Some (image d (fun _ => None) (containing (entry (ehdr_at d)))) -> 0 <= entry (ehdr_at d) < LOW ->
  4 * total_seg_pages (segments d) + 17 <= n ->
  exists root t s w' st', spawn_elf nm d tramp base (w, st) = (Ok (w_next_id w), (w', st'))
    /\ spaces (n - (4 * total_seg_pages (segments d) + 17)) st'
         ((root, with_stack_pages (image d (fun _ => None))) :: rest)
    /\ w_sched w = Some s /\ w_sched w' = Some (mkScheduler (tasks s ++ [t]) (current s))
    /\ id t = w_next_id w /\ name t = nm /\ state t = Ready /\ mode t = User /\ cr3 t = root
    /\ address_space t = Some (mkAS root) /\ cwd t = lit "/"
    /\ sys_reach w' (with_stack g (w_next_id w) (new_ctx tramp 0x7FFFFFF8 (entry (ehdr_at d)) base) base).
Proof. apply spawn_elf_run. Qed.
End spawn_facts.
