(* ===== verification/Launched.v ===== *)
(** * Launched: a program started

    The theorems on loading and starting programs at a concrete machine: 64 frames of
    memory, the first two in use, the mapper of [VmmDemo.v], a scheduler that has just
    booted, and a program of one segment. *)
From Stdlib Require Import ZArith Lia.
From stdpp Require Import base numbers option list gmap countable.
From S2P Require Import Prelude Memory Pmm Vmm VmmFacts VmmDemo Elf ElfFacts Task Sched Spawn.

(** Entry at 0x400010, where four bytes of the file at offset 120 go; the segment has
    sixteen bytes in memory and may be executed. *)
Definition demo_elf : bytes :=
  mjoin [ELF_MAGIC; [2; 1; 1; 0]; replicate 8 0; to_le 2 2; to_le 2 0x3E; to_le 4 1; to_le 8 0x400010; to_le 8 64;
         to_le 8 0; to_le 4 0; to_le 2 64; to_le 2 56; to_le 2 1; replicate 6 0;
         to_le 4 1; to_le 4 5; to_le 8 120; to_le 8 0x400010; to_le 8 0x400010; to_le 8 4; to_le 8 16; to_le 8 0x1000;
         [0x90; 0x90; 0xEB; 0xFE]].

Definition demo_pmm : BitmapAllocator := mkAllocator (3 :: replicate 7 0) 8 64 64 62.
Definition demo_vm : VmState :=
  mkVm (fun _ => 0) (Some demo_pmm) (Some 0xFFFF800000000000) (Some 0x1000) 0x1000 [].

Lemma demo_pmm_wf : pmm_wf demo_pmm.
Proof. split; vm_compute; done. Qed.

Lemma demo_spaces : spaces 62 demo_vm [].
Proof.
  exists demo_pmm, 0xFFFF800000000000, 0x1000. split_and!; try done.
  split; [|constructor|intros i j s s' Hi; by rewrite lookup_nil in Hi].
  split; [apply demo_pmm_wf|vm_compute; done| |split; [done|lia]| |].
  - split_and!; [done..|]. intros p Hp. unfold PAGE_SIZE in Hp. cbn in Hp |- *. rewrite u64_small by lia.
    apply orb_true_iff. right. apply Z.leb_le. lia.
  - intros f [->|Hf]; [right; reflexivity|by vm_compute in Hf].
  - intros x _. cbn. unfold is_byte. lia.
Qed.

Lemma demo_elf_ok : elf_ok demo_elf.
Proof.
  split; [vm_compute; split; [congruence|reflexivity]|apply (bool_decide_unpack _); vm_compute; exact I|reflexivity..|vm_compute; congruence|vm_compute; congruence|].
  assert (segments demo_elf = [mkPhdr 1 5 120 0x400010 0x400010 4 16 0x1000]) as -> by (vm_compute; reflexivity).
  constructor; [|constructor]. split; vm_compute; (congruence || (split; congruence)).
Qed.

Lemma demo_pages : total_seg_pages (segments demo_elf) = 1.
Proof. vm_compute. reflexivity. Qed.

(** Its segment leaves the pages of the stack alone. *)
Lemma demo_stack_clear v : STACK_LOW <= v < STACK_HIGH -> image demo_elf (fun _ => None) v = None.
Proof.
  intros Hv. unfold image.
  assert (segments demo_elf = [mkPhdr 1 5 120 0x400010 0x400010 4 16 0x1000]) as -> by (vm_compute; reflexivity).
  unfold STACK_LOW, STACK_HIGH in Hv. cbn [foldl]. unfold seg_image, over, with_pages.
  assert (start_page (mkPhdr 1 5 120 0x400010 0x400010 4 16 0x1000) = 0x400000) as -> by (vm_compute; reflexivity).
  assert (end_page (mkPhdr 1 5 120 0x400010 0x400010 4 16 0x1000) = 0x401000) as -> by (vm_compute; reflexivity).
  cbn [vaddr filesz memsz offset]. unfold zlen.
  match goal with |- context [length (slice ?a ?b ?c)] => replace (length (slice a b c)) with 4%nat by (vm_compute; reflexivity) end.
  rewrite length_replicate.
  destruct (Z.leb_spec (0x400010 + 4) v), (Z.ltb_spec v (0x400010 + 4 + Z.of_nat (Z.to_nat (16 - 4)))); cbn [andb]; try lia.
  destruct (Z.leb_spec 0x400010 v), (Z.ltb_spec v (0x400010 + Z.of_nat 4)); cbn [andb]; try lia.
  destruct (Z.leb_spec 0x400000 v), (Z.ltb_spec v 0x401000); cbn [andb]; lia || done.
Qed.

Lemma load_into_maps_witness :
  exists root st1 st2, AddressSpace_new demo_vm = (Ok (mkAS root), st1)
    /\ load_into demo_elf (mkAS root) st1 = (Ok (mkLoaded 0x400010), st2)
    /\ spaces 57 st2 [(root, image demo_elf (fun _ => None))].
Proof.
  destruct (AddressSpace_new_run 62 demo_vm [] demo_spaces) as (root & st1 & a & Hnew & Hsp & _); [lia|].
  destruct (load_into_maps (rest := []) (62 - 1) st1 root (fun _ => None) demo_elf) as (st2 & Hl & Hsp2);
    [exact Hsp|exact demo_elf_ok|rewrite demo_pages; lia|].
  exists root, st1, st2. split; [exact Hnew|split; [exact Hl|]]. rewrite demo_pages in Hsp2. exact Hsp2.
Defined.

(** ** A booted scheduler *)
Definition launch_boot : World unit AddressSpace :=
  mkWorld None 0 (mkMachine (mkRegs 0x9000 1 2 3 4 5 6 0 0x1000) gmap_empty) 0 0.
Definition launch_ghost : Ghost :=
  mkGhost (fun _ => mkCtx 0 0 0 0 0 0 0 0) (fun _ => 0x8000) (fun _ => 0x9000).
Definition launch_world : World unit AddressSpace := (sched_init 0x1000 launch_boot).2.

Lemma launch_reach : sys_reach launch_world launch_ghost.
Proof. apply reach_boot. exists launch_boot, 0x1000. split_and!; try done; vm_compute; done. Qed.

Lemma spawn_elf_runs_witness :
  exists root t s w' st', spawn_elf (lit "sh") demo_elf 0x500000 0x10000 (launch_world, demo_vm) = (Ok 1, (w', st'))
    /\ spaces 41 st' [(root, with_stack_pages (image demo_elf (fun _ => None)))]
    /\ w_sched launch_world = Some s /\ w_sched w' = Some (mkScheduler (tasks s ++ [t]) (current s)) /\ id t = 1.
Proof.
  destruct (spawn_elf_runs (rest := []) 62 launch_world launch_ghost demo_vm demo_elf (lit "sh") 0x500000 0x10000)
    as (root & t & s & w' & st' & Hrun & Hsp & Hs & Hs' & Hid & _).
  - exact launch_reach.
  - exact demo_spaces.
  - intros a [= <-]. right. vm_compute. reflexivity.
  - lia.
  - vm_compute. reflexivity.
  - vm_compute. reflexivity.
  - intros s t _ _. left. vm_compute. congruence.
  - exact demo_elf_ok.
  - exact demo_stack_clear.
  - vm_compute. by eexists.
  - vm_compute. split; congruence.
  - rewrite demo_pages. lia.
  - exists root, t, s, w', st'. rewrite demo_pages in Hsp. split_and!; [exact Hrun|exact Hsp|exact Hs|exact Hs'|exact Hid].
Defined.

(** ** Files the loader does not expect

    The bounds checks add machine words: a table of program headers that starts just
    below the top of the address space, or a segment that does, passes them. *)
Definition elf_with (phoff phentsize vaddr offset : Z) : bytes :=
  mjoin [ELF_MAGIC; [2; 1; 1; 0]; replicate 8 0; to_le 2 2; to_le 2 0x3E; to_le 4 1; to_le 8 0x400010; to_le 8 phoff;
         to_le 8 0; to_le 4 0; to_le 2 64; to_le 2 phentsize; to_le 2 1; replicate 6 0;
         to_le 4 1; to_le 4 5; to_le 8 offset; to_le 8 vaddr; to_le 8 0; to_le 8 4; to_le 8 0; to_le 8 0x1000].

Lemma load_header_wraps a st : (load_into (elf_with (2 ^ 64 - 56) 56 0x400010 0) a st).1 = Panic.
Proof. reflexivity. Qed.

Lemma load_header_short_stride a st : (load_into (elf_with 119 1 0x400010 0) a st).1 = Panic.
Proof. reflexivity. Qed.

Lemma load_segment_wraps a st : (load_into (elf_with 64 56 0x400000 (2 ^ 64 - 2)) a st).1 = Panic.
Proof. reflexivity. Qed.

Lemma load_non_canonical a st : (load_into (elf_with 64 56 0x900000000000 0) a st).1 = Panic.
Proof. reflexivity. Qed.
