(* ===== verification/Utf8.v ===== *)
(** * Utf8: strings as bytes

    The kernel's strings are UTF-8; system calls exchange them with programs as
    bytes ([str::as_bytes], [from_utf8_unchecked]). *)
From Stdlib Require Import ZArith Lia.
From stdpp Require Import base numbers option list.
From S2P Require Import Prelude.

Definition utf8_char (c : Z) : bytes :=
  if c <? 0x80 then [c]
  else if c <? 0x800 then [0xC0 + c / 64; 0x80 + c mod 64]
  else if c <? 0x10000 then [0xE0 + c / 4096; 0x80 + c / 64 mod 64; 0x80 + c mod 64]
  else [0xF0 + c / 262144; 0x80 + c / 4096 mod 64; 0x80 + c / 64 mod 64; 0x80 + c mod 64].

(** [s.as_bytes()]. *)
Definition as_bytes (s : rstr) : bytes := s ≫= utf8_char.

#[export] Instance is_char_dec c : Decision (is_char c).
Proof. unfold is_char. apply _. Defined.

(** One character, and what follows, if [c] is what these bytes encode. *)
Definition accept (c : Z) (bs : bytes) (rest : option rstr) : option rstr :=
  if decide (is_char c /\ utf8_char c = bs) then cons c <$> rest else None.

(** [from_utf8_unchecked]: what the bytes stand for, if they are UTF-8; the code has
    no defined meaning otherwise. *)
Fixpoint from_utf8 (bs : bytes) : option rstr :=
  match bs with
  | [] => Some []
  | b0 :: t0 =>
      if b0 <? 0x80 then accept b0 [b0] (from_utf8 t0)
      else match t0 with
      | [] => None
      | b1 :: t1 =>
          if b0 <? 0xE0 then accept ((b0 - 0xC0) * 64 + (b1 - 0x80)) [b0; b1] (from_utf8 t1)
          else match t1 with
          | [] => None
          | b2 :: t2 =>
              if b0 <? 0xF0
              then accept ((b0 - 0xE0) * 4096 + (b1 - 0x80) * 64 + (b2 - 0x80)) [b0; b1; b2] (from_utf8 t2)
              else match t2 with
              | [] => None
              | b3 :: t3 =>
                  accept ((b0 - 0xF0) * 262144 + (b1 - 0x80) * 4096 + (b2 - 0x80) * 64 + (b3 - 0x80))
                    [b0; b1; b2; b3] (from_utf8 t3)
              end
          end
      end
  end.

Lemma accept_char c bs rest : is_char c -> utf8_char c = bs -> accept c bs rest = cons c <$> rest.
Proof. intros Hc Hb. unfold accept. by rewrite decide_True. Qed.

Lemma utf8_char_cases c : is_char c ->
  (0 <= c < 0x80 /\ utf8_char c = [c])
  \/ (exists b0 b1, 0xC0 <= b0 < 0xE0 /\ is_byte b1 /\ utf8_char c = [b0; b1] /\ c = (b0 - 0xC0) * 64 + (b1 - 0x80))
  \/ (exists b0 b1 b2, 0xE0 <= b0 < 0xF0 /\ is_byte b1 /\ is_byte b2 /\ utf8_char c = [b0; b1; b2]
      /\ c = (b0 - 0xE0) * 4096 + (b1 - 0x80) * 64 + (b2 - 0x80))
  \/ (exists b0 b1 b2 b3, 0xF0 <= b0 < 0x100 /\ is_byte b1 /\ is_byte b2 /\ is_byte b3 /\ utf8_char c = [b0; b1; b2; b3]
      /\ c = (b0 - 0xF0) * 262144 + (b1 - 0x80) * 4096 + (b2 - 0x80) * 64 + (b3 - 0x80)).
Proof.
  intros Hc. unfold utf8_char, is_char, is_byte in *.
  destruct (Z.ltb_spec c 0x80); [left; split; [lia|done]|right].
  destruct (Z.ltb_spec c 0x800); [left|right; destruct (Z.ltb_spec c 0x10000); [left|right]].
  - do 2 eexists. split_and!; [..|reflexivity|]; Z.div_mod_to_equations; lia.
  - do 3 eexists. split_and!; [..|reflexivity|]; Z.div_mod_to_equations; lia.
  - do 4 eexists. split_and!; [..|reflexivity|]; Z.div_mod_to_equations; lia.
Qed.

Lemma from_as_bytes s : Forall is_char s -> from_utf8 (as_bytes s) = Some s.
Proof.
  unfold as_bytes. induction 1 as [|c s Hc Hs IH]; [done|]. rewrite bind_cons.
  destruct (utf8_char_cases c Hc) as [[Hr Hu]|[(b0 & b1 & Hr & _ & Hu & He)|[(b0 & b1 & b2 & Hr & _ & _ & Hu & He)
    |(b0 & b1 & b2 & b3 & Hr & _ & _ & _ & Hu & He)]]]; rewrite Hu; cbn [app from_utf8];
    [destruct (Z.ltb_spec c 0x80); [|lia]|destruct (Z.ltb_spec b0 0x80); [lia|]..].
  - by rewrite accept_char, IH.
  - destruct (Z.ltb_spec b0 0xE0); [|lia]. rewrite <- He. by rewrite accept_char, IH.
  - destruct (Z.ltb_spec b0 0xE0); [lia|]. destruct (Z.ltb_spec b0 0xF0); [|lia].
    rewrite <- He. by rewrite accept_char, IH.
  - destruct (Z.ltb_spec b0 0xE0); [lia|]. destruct (Z.ltb_spec b0 0xF0); [lia|].
    rewrite <- He. by rewrite accept_char, IH.
Qed.

Lemma utf8_char_bytes c : is_char c -> Forall is_byte (utf8_char c).
Proof.
  intros Hc. unfold is_byte in *. destruct (utf8_char_cases c Hc) as
    [[Hr ->]|[(b0 & b1 & Hr & H1 & -> & _)|[(b0 & b1 & b2 & Hr & H1 & H2 & -> & _)|(b0 & b1 & b2 & b3 & Hr & H1 & H2 & H3 & -> & _)]]];
    repeat constructor; unfold is_byte in *; lia.
Qed.

Lemma as_bytes_bytes s : Forall is_char s -> Forall is_byte (as_bytes s).
Proof. intros Hs. unfold as_bytes. apply Forall_bind. eapply Forall_impl; [exact Hs|]. apply utf8_char_bytes. Qed.

Lemma length_as_bytes s : Forall is_char s -> zlen (as_bytes s) = str_len s.
Proof.
  unfold as_bytes, zlen. induction 1 as [|c s Hc Hs IH]; [done|].
  rewrite bind_cons, length_app, Nat2Z.inj_add, IH. cbn [str_len fold_right]. f_equal.
  unfold utf8_char, char_len_utf8. repeat case_bool; done.
Qed.
