(* ===== verification/LiveFs.v ===== *)
(** * LiveFs: the file systems under [/live]

    [vcore/src/vfs/memfs.rs] and [vcore/src/vfs/tasksfs.rs]: read-only files made
    of the state of the page allocator and of the scheduler when they are opened.
    [fmt_u64] and [parse_u64] are Rust's decimal [Display] and [FromStr] of [u64]. *)
From Stdlib Require Import ZArith Lia.
From stdpp Require Import base numbers option list.
From S2P Require Import Prelude VfsTypes Path Pmm Block Task Sched Utf8 Heap.

(** ** Decimal numbers *)
Fixpoint fmt_digits (fuel : nat) (n : Z) : rstr :=
  match fuel with
  | O => []
  | S fuel' => if n <? 10 then [48 + n] else fmt_digits fuel' (n / 10) ++ [48 + n mod 10]
  end.

(** [format!("{}", n)]: a [u64] has at most 20 digits. *)
Definition fmt_u64 (n : Z) : rstr := fmt_digits 20 n.

Definition digit (c : Z) : option Z := if (48 <=? c) && (c <=? 57) then Some (c - 48) else None.

Definition checked_u64 (n : Z) : option Z := if n <? 2 ^ 64 then Some n else None.

Fixpoint parse_digits (acc : Z) (s : rstr) : option Z :=
  match s with
  | [] => Some acc
  | c :: s' =>
      d ← digit c;
      tens ← checked_u64 (acc * 10);
      acc ← checked_u64 (tens + d);
      parse_digits acc s'
  end.

(** [s.parse::<u64>()]: a leading plus sign is accepted. *)
Definition parse_u64 (s : rstr) : option Z :=
  match s with
  | [] => None
  | c :: s' => if c =? 43 then match s' with [] => None | _ => parse_digits 0 s' end else parse_digits 0 s
  end.

(** [path.trim_matches('/')]. *)
Definition trim_matches (s : rstr) : rstr := rev (trim_start_slash (rev (trim_start_slash s))).

(** ** memfs *)
Record MemFileHandle := mkMemHandle { mh_content : bytes; mh_position : Z }.

Section mem_handle.
Context {W : Type}.
Abbreviation HM := (M (MemFileHandle * W) VfsError).

Definition mem_read (buf : bytes) : HM (Z * bytes) :=
  '(h, w) ← get;
  '(n, buf', p) ← lift (cursor_read (mh_content h) (mh_position h) buf);
  put (mkMemHandle (mh_content h) p, w) ;;
  mret (n, buf').

Definition mem_write (_ : bytes) : HM Z := fail PermissionDenied.

Definition mem_seek (pos : SeekFrom) : HM Z :=
  '(h, w) ← get;
  p ← lift (cursor_seek (zlen (mh_content h)) (mh_position h) pos);
  put (mkMemHandle (mh_content h) p, w) ;;
  mret p.

Definition mem_handle_metadata : HM Metadata :=
  '(h, w) ← get;
  mret {| md_file_type := File; md_size := zlen (mh_content h) |}.

#[local] Instance MemFileHandle_handle : FileHandle W MemFileHandle := {
  fh_read := mem_read;
  fh_write := mem_write;
  fh_seek := mem_seek;
  fh_metadata := mem_handle_metadata
}.
End mem_handle.

(** The text of [/live/mem]. *)
Definition mem_content (free_pages total_pages : Z) : rstr :=
  let free_mb := (free_pages *w64 4096) / 1024 / 1024 in
  let total_mb := (total_pages *w64 4096) / 1024 / 1024 in
  let used_mb := total_mb -w64 free_mb in
  let heap_kb := heap_size in
  lit "total:  " ++ fmt_u64 total_mb ++ lit " MB" ++ [10]
  ++ lit "free:   " ++ fmt_u64 free_mb ++ lit " MB" ++ [10]
  ++ lit "used:   " ++ fmt_u64 used_mb ++ lit " MB" ++ [10]
  ++ lit "heap:   " ++ fmt_u64 heap_kb ++ lit " KB" ++ [10]
  ++ lit "pages:  " ++ fmt_u64 free_pages ++ lit " free / " ++ fmt_u64 total_pages ++ lit " total" ++ [10].

Section memfs.
Context {W : Type} (pmm : option BitmapAllocator).
Abbreviation FM := (M W VfsError).

Definition mem_open (path : rstr) (_ : OpenFlags.t) : FM MemFileHandle :=
  if decide (trim_matches path = []) then
    mret (mkMemHandle (as_bytes (mem_content (pmm_free_pages pmm) (pmm_total_pages pmm))) 0)
  else fail NotFound.

Definition mem_mkdir (_ : rstr) : FM unit := fail PermissionDenied.
Definition mem_remove (_ : rstr) : FM unit := fail PermissionDenied.
Definition mem_rmdir (_ : rstr) : FM unit := fail PermissionDenied.

Definition mem_readdir (path : rstr) : FM (list DirEntry) :=
  if decide (trim_matches path = []) then fail NotADirectory else fail NotFound.

Definition mem_metadata (path : rstr) : FM Metadata :=
  if decide (trim_matches path = []) then mret {| md_file_type := File; md_size := 0 |}
  else fail NotFound.

Definition MemFs_filesystem : Filesystem W unit MemFileHandle := {|
  fs_open _ := mem_open;
  fs_mkdir _ := mem_mkdir;
  fs_remove _ := mem_remove;
  fs_rmdir _ := mem_rmdir;
  fs_readdir _ := mem_readdir;
  fs_metadata _ := mem_metadata
|}.
End memfs.

(** ** tasksfs *)
Record TaskFileHandle := mkTaskHandle { kh_content : bytes; kh_position : Z }.

Section task_handle.
Context {W : Type}.
Abbreviation HM := (M (TaskFileHandle * W) VfsError).

Definition task_read (buf : bytes) : HM (Z * bytes) :=
  '(h, w) ← get;
  '(n, buf', p) ← lift (cursor_read (kh_content h) (kh_position h) buf);
  put (mkTaskHandle (kh_content h) p, w) ;;
  mret (n, buf').

Definition task_write (_ : bytes) : HM Z := fail PermissionDenied.

Definition task_seek (pos : SeekFrom) : HM Z :=
  '(h, w) ← get;
  p ← lift (cursor_seek (zlen (kh_content h)) (kh_position h) pos);
  put (mkTaskHandle (kh_content h) p, w) ;;
  mret p.

Definition task_handle_metadata : HM Metadata :=
  '(h, w) ← get;
  mret {| md_file_type := File; md_size := zlen (kh_content h) |}.

#[local] Instance TaskFileHandle_handle : FileHandle W TaskFileHandle := {
  fh_read := task_read;
  fh_write := task_write;
  fh_seek := task_seek;
  fh_metadata := task_handle_metadata
}.
End task_handle.

Definition state_name (st : TaskState) : rstr :=
  match st with
  | Ready => lit "ready" | Running => lit "running" | Sleeping => lit "sleeping" | Dead => lit "dead"
  end.
Definition mode_name (md : TaskMode) : rstr :=
  match md with Kernel => lit "kernel" | User => lit "user" end.

Section tasksfs.
Context {W H AS : Type} (w : World H AS).
Abbreviation FM := (M W VfsError).
Implicit Types (t : Task H AS).

(** The text of [/live/tasks/<pid>/status]. *)
Definition status_text t : rstr :=
  lit "pid: " ++ fmt_u64 (id t) ++ [10] ++ lit "state: " ++ state_name (state t) ++ [10]
  ++ lit "mode: " ++ mode_name (mode t).

(** [parts[0].parse()], the scheduler, and the task with that id. *)
Definition lookup_task (part : rstr) : FM (Task H AS) :=
  pid ← ok_or NotFound (parse_u64 part);
  sched ← ok_or IoError (w_sched w);
  ok_or NotFound (List.find (fun t => id t =? pid) (tasks sched)).

Definition task_open (path : rstr) (_ : OpenFlags.t) : FM TaskFileHandle :=
  match path_parts path with
  | [pid; file] =>
      task ← lookup_task pid;
      content ← (if decide (file = lit "status") then mret (as_bytes (status_text task))
                 else if decide (file = lit "name") then mret (as_bytes (name task))
                 else fail NotFound);
      mret (mkTaskHandle content 0)
  | _ => fail IsADirectory
  end.

Definition task_mkdir (_ : rstr) : FM unit := fail PermissionDenied.
Definition task_remove (_ : rstr) : FM unit := fail PermissionDenied.
Definition task_rmdir (_ : rstr) : FM unit := fail PermissionDenied.

Definition task_readdir (path : rstr) : FM (list DirEntry) :=
  match path_parts path with
  | [] =>
      sched ← ok_or IoError (w_sched w);
      mret ((fun t => {| de_name := fmt_u64 (id t); de_file_type := Directory |})
              <$> filter alive (tasks sched))
  | [pid] =>
      _ ← lookup_task pid;
      mret [{| de_name := lit "status"; de_file_type := File |};
            {| de_name := lit "name"; de_file_type := File |}]
  | _ => fail NotADirectory
  end.

Definition task_metadata (path : rstr) : FM Metadata :=
  match path_parts path with
  | [] => mret {| md_file_type := Directory; md_size := 0 |}
  | [pid] => _ ← lookup_task pid; mret {| md_file_type := Directory; md_size := 0 |}
  | [pid; file] =>
      _ ← lookup_task pid;
      if decide (file = lit "status" \/ file = lit "name")
      then mret {| md_file_type := File; md_size := 0 |}
      else fail NotFound
  | _ => fail NotFound
  end.

Definition TasksFs_filesystem : Filesystem W unit TaskFileHandle := {|
  fs_open _ := task_open;
  fs_mkdir _ := task_mkdir;
  fs_remove _ := task_remove;
  fs_rmdir _ := task_rmdir;
  fs_readdir _ := task_readdir;
  fs_metadata _ := task_metadata
|}.
End tasksfs.

(** ** Decimal numbers round trip *)
Lemma parse_digits_app acc a b : parse_digits acc (a ++ b) = parse_digits acc a ≫= fun acc => parse_digits acc b.
Proof.
  revert acc. induction a as [|c a IH]; intros acc; [done|]. cbn [app parse_digits].
  destruct (digit c) as [d|]; [|done]. simpl. destruct (checked_u64 (acc * 10)) as [tens|]; [|done]. simpl.
  destruct (checked_u64 (tens + d)); [|done]. simpl. apply IH.
Qed.

Lemma parse_digit acc d : 0 <= d < 10 -> 0 <= acc -> acc * 10 + d < 2 ^ 64 ->
  parse_digits acc [48 + d] = Some (acc * 10 + d).
Proof.
  intros Hd Ha Hr. cbn [parse_digits]. unfold digit, checked_u64.
  destruct (Z.leb_spec 48 (48 + d)); [|lia]. destruct (Z.leb_spec (48 + d) 57); [|lia]. simpl.
  destruct (Z.ltb_spec (acc * 10) (2 ^ 64)); [|lia]. simpl.
  replace (acc * 10 + (48 + d - 48)) with (acc * 10 + d) by lia.
  destruct (Z.ltb_spec (acc * 10 + d) (2 ^ 64)); [done|lia].
Qed.

Lemma parse_fmt_digits fuel n : 0 <= n < 2 ^ 64 -> n < 10 ^ Z.of_nat fuel -> parse_digits 0 (fmt_digits fuel n) = Some n.
Proof.
  revert n. induction fuel as [|fuel IH]; intros n Hn Hf; [simpl in Hf; assert (n = 0) as -> by lia; done|].
  cbn [fmt_digits]. destruct (Z.ltb_spec n 10); [rewrite parse_digit by lia; f_equal; lia|].
  rewrite Nat2Z.inj_succ, Z.pow_succ_r in Hf by lia.
  assert (0 <= n / 10 < 2 ^ 64 /\ n / 10 < 10 ^ Z.of_nat fuel) as [H1 H2]
    by (Z.div_mod_to_equations; lia).
  rewrite parse_digits_app, (IH _ H1 H2). cbn [mbind option_bind].
  rewrite parse_digit; [f_equal|..]; Z.div_mod_to_equations; lia.
Qed.

Definition is_digit (c : Z) : Prop := 48 <= c <= 57.

Lemma fmt_digits_chars fuel n : 0 <= n -> Forall is_digit (fmt_digits fuel n).
Proof.
  revert n. induction fuel as [|fuel IH]; intros n Hn; [done|]. cbn [fmt_digits].
  destruct (Z.ltb_spec n 10); [repeat constructor; unfold is_digit; lia|].
  apply Forall_app. split; [apply IH; Z.div_mod_to_equations; lia|].
  repeat constructor; unfold is_digit; Z.div_mod_to_equations; lia.
Qed.

Lemma length_fmt_digits fuel n : (length (fmt_digits fuel n) <= fuel)%nat.
Proof.
  revert n. induction fuel as [|fuel IH]; intros n; [done|]. cbn [fmt_digits].
  destruct (n <? 10); [simpl; lia|]. rewrite length_app. specialize (IH (n / 10)). simpl. lia.
Qed.

Lemma fmt_u64_chars n : 0 <= n -> Forall is_digit (fmt_u64 n).
Proof. apply fmt_digits_chars. Qed.

Lemma fmt_digits_nonempty fuel n : fmt_digits (S fuel) n ≠ [].
Proof. cbn [fmt_digits]. destruct (n <? 10); [done|]. by destruct (fmt_digits fuel _). Qed.

Lemma fmt_u64_nonempty n : fmt_u64 n ≠ [].
Proof. apply fmt_digits_nonempty. Qed.

Lemma parse_fmt_u64 n : 0 <= n < 2 ^ 64 -> parse_u64 (fmt_u64 n) = Some n.
Proof.
  intros Hn. pose proof (fmt_u64_chars n ltac:(lia)) as Hc.
  assert (parse_digits 0 (fmt_u64 n) = Some n) as Hp
    by (apply parse_fmt_digits; [done|]; change (Z.of_nat 20) with 20; lia).
  unfold parse_u64. destruct (fmt_u64 n) as [|c s] eqn:Hf; [by destruct (fmt_u64_nonempty n)|].
  apply Forall_inv in Hc. unfold is_digit in Hc. by destruct (Z.eqb_spec c 43); [lia|].
Qed.

Lemma fmt_u64_inj a b : 0 <= a < 2 ^ 64 -> 0 <= b < 2 ^ 64 -> fmt_u64 a = fmt_u64 b -> a = b.
Proof. intros Ha Hb He. pose proof (parse_fmt_u64 a Ha) as H1. rewrite He, parse_fmt_u64 in H1 by done. congruence. Qed.

Lemma fmt_u64_good n : 0 <= n -> good_name (fmt_u64 n).
Proof.
  intros Hn. pose proof (fmt_u64_chars n Hn) as Hc. pose proof (fmt_u64_nonempty n) as He.
  set (s := fmt_u64 n) in *. clearbody s. unfold good_name.
  assert (forall c : Z, c ∈ s -> c = slash \/ c = dot -> False) as Hno.
  { intros c Hin Hor. rewrite Forall_forall in Hc. specialize (Hc c Hin). unfold is_digit, slash, dot in *. lia. }
  split_and!; [done| | |].
  - intros ->. apply (Hno dot); [apply list_elem_of_here|by right].
  - intros ->. apply (Hno dot); [apply list_elem_of_here|by right].
  - intros Hin. apply (Hno slash); [done|by left].
Qed.

(** ** What [/live/tasks] shows *)
Section tasksfs_facts.
Context {W H AS : Type}.
Implicit Types (w : World H AS) (t : Task H AS).

Definition pid_path t : rstr := path_of [fmt_u64 (id t)].
Definition task_file_path (pid : Z) (file : rstr) : rstr := path_of [fmt_u64 pid; file].

(** Task ids are distinct machine words. *)
Definition ids_ok w sched : Prop :=
  w_sched w = Some sched /\ NoDup (id <$> tasks sched)
  /\ Forall (fun t : Task H AS => 0 <= id t < 2 ^ 64) (tasks sched).

Lemma find_by_id (ts : list (Task H AS)) t :
  NoDup (id <$> ts) -> t ∈ ts -> List.find (fun u => id u =? id t) ts = Some t.
Proof.
  induction ts as [|u ts IH]; intros Hd Hin; [by apply elem_of_nil in Hin|]. cbn [List.find].
  apply NoDup_cons in Hd as [Hn Hd]. apply elem_of_cons in Hin as [->|Hin]; [by rewrite Z.eqb_refl|].
  destruct (Z.eqb_spec (id u) (id t)) as [He|_]; [|by apply IH].
  destruct Hn. rewrite He. by apply list_elem_of_fmap_2.
Qed.

Lemma find_no_id (ts : list (Task H AS)) pid :
  pid ∉ id <$> ts -> List.find (fun u => id u =? pid) ts = None.
Proof.
  induction ts as [|u ts IH]; intros Hn; [done|]. cbn [List.find].
  cbn [fmap list_fmap] in Hn. apply not_elem_of_cons in Hn as [Hne Hn].
  destruct (Z.eqb_spec (id u) pid); [congruence|by apply IH].
Qed.

Lemma lookup_task_found w sched t (s : W) :
  ids_ok w sched -> t ∈ tasks sched -> lookup_task w (fmt_u64 (id t)) s = (Ok t, s).
Proof.
  intros (Hs & Hd & Hr) Hin. pose proof (proj1 (Forall_forall _ _) Hr t Hin) as Ht. cbn beta in Ht. unfold lookup_task.
  rewrite parse_fmt_u64, Hs by done. mred. by rewrite find_by_id.
Qed.

Lemma status_good : good_name (lit "status").
Proof. by_decide. Qed.
Lemma name_good : good_name (lit "name").
Proof. by_decide. Qed.

Lemma task_open_status w sched t (s : W) flags :
  ids_ok w sched -> t ∈ tasks sched ->
  task_open w (task_file_path (id t) (lit "status")) flags s = (Ok (mkTaskHandle (as_bytes (status_text t)) 0), s).
Proof.
  intros Hok Hin. pose proof Hok as (_ & _ & Hr). pose proof (proj1 (Forall_forall _ _) Hr t Hin) as Ht. cbn beta in Ht.
  pose proof (fmt_u64_good (id t) ltac:(lia)) as Hg. unfold task_open, task_file_path.
  rewrite path_parts_path_of by (rewrite !Forall_cons, Forall_nil; auto using status_good).
  by rewrite (bind_ok _ _ _ _ _ (lookup_task_found w sched t s Hok Hin)).
Qed.

(** C27: [/live/tasks] shows exactly the tasks: the root lists one directory for each
    task that is not dead, named by its id in decimal and in queue order; each
    task's directory has [status] and [name], which open on the text made from the
    task (its id parses back from the path); any other id is [NotFound]. *)
Theorem tasksfs_listing w sched (s : W) flags :
  ids_ok w sched ->
  task_readdir w [slash] s
    = (Ok ((fun t => {| de_name := fmt_u64 (id t); de_file_type := Directory |}) <$> filter alive (tasks sched)), s)
  /\ (forall t, t ∈ tasks sched ->
        task_metadata w (pid_path t) s = (Ok {| md_file_type := Directory; md_size := 0 |}, s)
        /\ (exists names, task_readdir w (pid_path t) s = (Ok names, s) /\ de_name <$> names = [lit "status"; lit "name"])
        /\ task_open w (task_file_path (id t) (lit "status")) flags s = (Ok (mkTaskHandle (as_bytes (status_text t)) 0), s)
        /\ task_open w (task_file_path (id t) (lit "name")) flags s = (Ok (mkTaskHandle (as_bytes (name t)) 0), s))
  /\ (forall pid file, 0 <= pid < 2 ^ 64 -> pid ∉ id <$> tasks sched -> good_name file ->
        task_open w (task_file_path pid file) flags s = (Err NotFound, s)).
Proof.
  intros Hok. pose proof Hok as (Hs & Hd & Hr). split; [|split].
  - unfold task_readdir. change (path_parts [slash]) with (@nil rstr). cbv iota. by rewrite Hs.
  - intros t Hin. pose proof (proj1 (Forall_forall _ _) Hr t Hin) as Ht. cbn beta in Ht.
    pose proof (fmt_u64_good (id t) ltac:(lia)) as Hg.
    pose proof (lookup_task_found w sched t s Hok Hin) as Hl.
    assert (path_parts (pid_path t) = [fmt_u64 (id t)]) as Hp by (apply path_parts_path_of; by rewrite Forall_cons, Forall_nil).
    unfold task_metadata, task_readdir, task_open. rewrite Hp. split_and!.
    + by rewrite (bind_ok _ _ _ _ _ Hl).
    + eexists. rewrite (bind_ok _ _ _ _ _ Hl). done.
    + by apply (task_open_status w sched t s flags).
    + unfold task_file_path. rewrite path_parts_path_of by (rewrite !Forall_cons, Forall_nil; auto using name_good).
      by rewrite (bind_ok _ _ _ _ _ Hl).
  - intros pid file Hp Hn Hf. pose proof (fmt_u64_good pid ltac:(lia)) as Hg.
    unfold task_open, task_file_path. rewrite path_parts_path_of by by rewrite !Forall_cons, Forall_nil.
    apply bind_err. unfold lookup_task. rewrite parse_fmt_u64, Hs by done. mred. by rewrite find_no_id.
Qed.
End tasksfs_facts.
