(* ===== verification/Interrupts.v ===== *)
(** * Interrupts: descriptor tables and interrupt handlers

    [vcore/src/cpu/gdt.rs], [idt.rs], [interrupts.rs] and [mod.rs].  The tables are built
    by the [x86_64] crate: [Gdt] is the table [append] fills, a class; the interrupt
    table is a map from vectors to gates.  [World] is the scheduler's, [Hw] the
    devices. *)
From Stdlib Require Import ZArith Lia.
From stdpp Require Import base numbers option list gmap.
From S2P Require Import Prelude Memory Pmm Vmm Hw Apic Keyboard Task Sched LiveFs.

(** ** [gdt.rs] *)
Definition DOUBLE_FAULT_IST_INDEX : Z := 0.

Inductive Descriptor :=
| kernel_code_segment | kernel_data_segment | user_data_segment | user_code_segment | tss_segment.

(** [GlobalDescriptorTable]: [append] returns the selector. *)
Class Gdt (G : Type) := {
  gdt_new : G;
  append : Descriptor -> G -> Z * G
}.

(** The stack fields of the task state segment. *)
Record Tss := mkTss { interrupt_stack_table : list Z; privilege_stack_table : list Z }.
Definition Tss_new : Tss := mkTss (replicate 7 0) (replicate 3 0).

Definition TSS_STACK_SIZE : Z := 4096 * 5.

(** [INIT_TSS], with the addresses of its two static stacks. *)
Definition INIT_TSS (ist_stack rsp0_stack : Z) (t : Tss) : Tss :=
  mkTss (<[Z.to_nat DOUBLE_FAULT_IST_INDEX := ist_stack + TSS_STACK_SIZE]> (interrupt_stack_table t))
    (<[0%nat := rsp0_stack + TSS_STACK_SIZE]> (privilege_stack_table t)).

Record Selectors := mkSelectors { kernel_code : Z; kernel_data : Z; user_code : Z; user_data : Z; tss : Z }.

Definition GDT {G} `{Gdt G} : G * Selectors :=
  let gdt := gdt_new in
  let '(kernel_code, gdt) := append kernel_code_segment gdt in
  let '(kernel_data, gdt) := append kernel_data_segment gdt in
  let '(user_data, gdt) := append user_data_segment gdt in
  let '(user_code, gdt) := append user_code_segment gdt in
  let '(tss, gdt) := append tss_segment gdt in
  (gdt, mkSelectors kernel_code kernel_data user_code user_data tss).

(** The registers [init] loads. *)
Record Segments (G : Type) := mkSegments { gdtr : option G; cs : Z; ds : Z; ss : Z; tr : Z }.
Arguments mkSegments {G}.

Definition gdt_init {G} `{Gdt G} (s : Segments G) : Segments G :=
  mkSegments (Some (GDT (G := G)).1) (kernel_code (GDT (G := G)).2) (kernel_data (GDT (G := G)).2) 0 (tss (GDT (G := G)).2).

Definition selectors {G} `{Gdt G} : Selectors := (GDT (G := G)).2.

Definition set_kernel_stack (stack_top : Z) (t : Tss) : Tss :=
  mkTss (interrupt_stack_table t) (<[0%nat := stack_top]> (privilege_stack_table t)).

(** ** The world of a handler *)
Record Frame := mkFrame { instruction_pointer : Z; code_segment : Z; cpu_flags : Z; stack_pointer : Z; stack_segment : Z }.

Record IntWorld (S H AS : Type) := mkInt {
  iw_world : World H AS;
  iw_keyboard : Keyboard;
  iw_ports : S;
  iw_cr2 : option Z;       (* [Cr2::read().ok()] *)
  iw_lines : list rstr     (* what was printed *)
}.
Arguments mkInt {S H AS}.
Arguments iw_world {S H AS}.
Arguments iw_keyboard {S H AS}.
Arguments iw_ports {S H AS}.
Arguments iw_cr2 {S H AS}.
Arguments iw_lines {S H AS}.

(** [{:0width$x}]. *)
Fixpoint hex_digits (fuel : nat) (v : Z) : rstr :=
  match fuel with
  | O => []
  | Datatypes.S fuel' => (if v <? 16 then [] else hex_digits fuel' (v / 16)) ++ [rd (lit "0123456789abcdef") (Z.to_nat (v mod 16))]
  end.
Definition hex (width : nat) (v : Z) : rstr :=
  let d := hex_digits 16 v in replicate (width - length d) 48 ++ d.

Section handlers.
Context {S H AS : Type} `{Hw S}.
(** [{:?}] of the crate's [PageFaultErrorCode]. *)
Context (debug_error_code : Z -> rstr).
Abbreviation IM := (M (IntWorld S H AS) Empty_set).

Definition on_world {A} (m : M (World H AS) Empty_set A) : IM A :=
  zoom iw_world (fun x w => mkInt x (iw_keyboard w) (iw_ports w) (iw_cr2 w) (iw_lines w)) m.
Definition on_keyboard {A} (m : M Keyboard Empty_set A) : IM A :=
  zoom iw_keyboard (fun x w => mkInt (iw_world w) x (iw_ports w) (iw_cr2 w) (iw_lines w)) m.
Definition on_io {A} (m : M S Empty_set A) : IM A :=
  zoom iw_ports (fun x w => mkInt (iw_world w) (iw_keyboard w) x (iw_cr2 w) (iw_lines w)) m.

Definition println (line : rstr) : IM unit :=
  w ← get; put (mkInt (iw_world w) (iw_keyboard w) (iw_ports w) (iw_cr2 w) (iw_lines w ++ [line])).

(** ** [interrupts.rs] *)
Definition end_of_interrupt : IM unit := on_io (write_volatile (LAPIC_VIRT +w64 LAPIC_EOI) 0).

Definition timer_handler (ret : Z) : IM unit :=
  on_world (w ← get; put (mkWorld (w_sched w) (w_ticks w +w64 1) (w_machine w) (w_rsp0 w) (w_next_id w))) ;;

  end_of_interrupt ;;

  on_world (schedule ret).

Definition keyboard_handler : IM unit :=
  let port := 0x60 in
  scancode ← on_io (inb port);

  on_keyboard (handle_scancode scancode) ;;

  end_of_interrupt.

Definition spurious_handler : IM unit := mret tt.

Definition ticks (w : World H AS) : Z := w_ticks w.

(** [ticks] of [cpu/mod.rs]. *)
Definition cpu_ticks (w : World H AS) : Z := ticks w.

(** ** [idt.rs] *)
Definition print_stack_frame (frame : Frame) : IM unit :=
  println (lit "  RIP: " ++ hex 16 (instruction_pointer frame)) ;;
  println (lit "  RSP: " ++ hex 16 (stack_pointer frame)) ;;
  println (lit "  RFL: " ++ hex 16 (cpu_flags frame)) ;;
  println (lit "  CS:  " ++ hex 4 (code_segment frame)) ;;
  println (lit "  SS:  " ++ hex 4 (stack_segment frame)).

(** [info!] prints a tag before the line. *)
Definition breakpoint_handler (stack_frame : Frame) : IM unit :=
  println (lit "[*] BREAKPOINT") ;;
  print_stack_frame stack_frame.

Definition double_fault_handler (stack_frame : Frame) (_error_code : Z) : IM unit :=
  println (lit "DOUBLE FAULT") ;;
  print_stack_frame stack_frame ;;
  panic.

Definition page_fault_handler (stack_frame : Frame) (error_code : Z) : IM unit :=
  println (lit "PAGE FAULT") ;;
  w ← get;
  cr2 ← unwrap (iw_cr2 w);
  println (lit "  TRIED TO ACCESS 0x" ++ hex 16 cr2) ;;
  println (lit "  ERR: " ++ debug_error_code error_code) ;;
  print_stack_frame stack_frame ;;
  panic.

(** [loop {}] at the end. *)
Definition gpf_handler (stack_frame : Frame) (error_code : Z) : IM unit :=
  println (lit "GENERAL PROTECTION FAULT") ;;
  println (lit " ERR: " ++ fmt_u64 error_code) ;;
  print_stack_frame stack_frame ;;
  hang.

Inductive Handler := Breakpoint | PageFault | DoubleFault | GeneralProtection | Timer | KeyboardIrq | Spurious.
Record Gate := mkGate { handler_fn : Handler; stack_index : option Z }.

(** The vectors of the named exceptions are the processor's. *)
Definition IDT : gmap Z Gate :=
  <[SPURIOUS_VECTOR := mkGate Spurious None]>
  (<[KEYBOARD_VECTOR := mkGate KeyboardIrq None]>
  (<[TIMER_VECTOR := mkGate Timer None]>
  (<[13 := mkGate GeneralProtection None]>
  (<[8 := mkGate DoubleFault (Some DOUBLE_FAULT_IST_INDEX)]>
  (<[14 := mkGate PageFault None]>
  (<[3 := mkGate Breakpoint None]> ∅)))))).

(** An interrupt or exception is delivered: a vector without a gate is a fault of its
    own, which ends in the double fault. *)
Definition run_handler (h : Handler) (frame : Frame) (error_code ret : Z) : IM unit :=
  match h with
  | Breakpoint => breakpoint_handler frame
  | PageFault => page_fault_handler frame error_code
  | DoubleFault => double_fault_handler frame error_code
  | GeneralProtection => gpf_handler frame error_code
  | Timer => timer_handler ret
  | KeyboardIrq => keyboard_handler
  | Spurious => spurious_handler
  end.

Definition deliver (vector : Z) (frame : Frame) (error_code ret : Z) : IM unit :=
  run_handler (match IDT !! vector with Some g => handler_fn g | None => DoubleFault end) frame error_code ret.

(** The stack a handler starts on: that of the gate, else the privilege-0 stack of
    the task state segment when the processor was in user mode, else the current. *)
Definition handler_stack (t : Tss) (user : bool) (vector current_rsp : Z) : option Z :=
  g ← IDT !! vector;
  match stack_index g with
  | Some i => interrupt_stack_table t !! Z.to_nat i
  | None => if user then privilege_stack_table t !! 0%nat else Some current_rsp
  end.
End handlers.
