(* ===== verification/InterruptFacts.v ===== *)
(** * InterruptFacts: from the interrupt controllers to the handlers

    The vectors [apic::init] programs are those of the gates of [idt.rs], the selectors
    of [gdt.rs] are laid out as [syscall] and [sysret] need them, and a handler does
    its work and acknowledges it. *)
From Stdlib Require Import ZArith Lia.
From stdpp Require Import base numbers option list gmap.
From S2P Require Import Prelude Memory Pmm Vmm VmmFacts Heap KernelMap Hw Apic Board ApicFacts Keyboard Task Sched LiveFs Interrupts.

(** ** Segments *)
Definition dpl (d : Descriptor) : Z := match d with user_data_segment | user_code_segment => 3 | _ => 0 end.

(** [append] takes the next entry, or the next two for a system segment, and the
    selector carries the privilege of the descriptor. *)
Class GdtLaws (G : Type) `{Gdt G} := {
  entries : G -> list (option Descriptor);
  gdt_null : entries gdt_new = [None];
  append_spec d g : (append d g).1 = 8 * zlen (entries g) + dpl d
    /\ entries (append d g).2 = entries g ++ (match d with tss_segment => [Some d; None] | _ => [Some d] end)
}.

(** What [Star::write] checks of the selectors it is given. *)
Definition star_ok (s : Selectors) : Prop :=
  user_code s = user_data s + 8 /\ kernel_data s = kernel_code s + 8
  /\ user_data s mod 4 = 3 /\ kernel_data s mod 4 = 0.

(** The descriptor a selector names. *)
Definition names {G} `{GdtLaws G} (g : G) (sel : Z) (d : Descriptor) : Prop :=
  entries g !! Z.to_nat (sel / 8) = Some (Some d) /\ sel mod 4 = dpl d.

Section segments.
Context {G : Type} `{GL : GdtLaws G}.

(** Each selector [gdt::init] keeps names its own descriptor with its privilege, so
    after [init] the kernel runs on the kernel's code and data segments with the task
    state segment loaded; and the user's two segments are in the order [sysret]
    demands, data before code, so [Star::write] accepts them. *)
Lemma gdt_selectors (s0 : Segments G) :
  let '(g, s) := GDT (G := G) in let r := gdt_init s0 in
  names g (kernel_code s) kernel_code_segment /\ names g (kernel_data s) kernel_data_segment
  /\ names g (user_code s) user_code_segment /\ names g (user_data s) user_data_segment /\ names g (tss s) tss_segment
  /\ star_ok s /\ gdtr G r = Some g /\ names g (cs G r) kernel_code_segment /\ names g (ds G r) kernel_data_segment
  /\ ss G r = 0 /\ names g (tr G r) tss_segment.
Proof.
  unfold gdt_init, GDT.
  destruct (append_spec kernel_code_segment gdt_new) as [E1 L1]. destruct (append kernel_code_segment gdt_new) as [s1 g1]. cbn [fst snd] in *.
  destruct (append_spec kernel_data_segment g1) as [E2 L2]. destruct (append kernel_data_segment g1) as [s2 g2]. cbn [fst snd] in *.
  destruct (append_spec user_data_segment g2) as [E3 L3]. destruct (append user_data_segment g2) as [s3 g3]. cbn [fst snd] in *.
  destruct (append_spec user_code_segment g3) as [E4 L4]. destruct (append user_code_segment g3) as [s4 g4]. cbn [fst snd] in *.
  destruct (append_spec tss_segment g4) as [E5 L5]. destruct (append tss_segment g4) as [s5 g5]. cbn [fst snd] in *.
  rewrite gdt_null in *. rewrite L1 in *. rewrite L2 in *. rewrite L3 in *. rewrite L4 in *.
  cbn in E1, E2, E3, E4, E5, L5. unfold zlen in *. cbn in E1, E2, E3, E4, E5. subst. unfold names, star_ok. cbn. rewrite L5. done.
Qed.
End segments.

(** ** Handlers *)
Section handlers.
Context {S H AS : Type} `{BL : BoardLaws S}.
Context (debug_error_code : Z -> rstr).
Abbreviation IM := (M (IntWorld S H AS) Empty_set).
Abbreviation deliver := (deliver debug_error_code).

Definition with_ports (p : S) (w : IntWorld S H AS) : IntWorld S H AS :=
  mkInt (iw_world w) (iw_keyboard w) p (iw_cr2 w) (iw_lines w).
Definition with_keyboard (k : Keyboard) (w : IntWorld S H AS) : IntWorld S H AS :=
  mkInt (iw_world w) k (iw_ports w) (iw_cr2 w) (iw_lines w).
Definition with_world (x : World H AS) (w : IntWorld S H AS) : IntWorld S H AS :=
  mkInt x (iw_keyboard w) (iw_ports w) (iw_cr2 w) (iw_lines w).

(** The board once the interrupt is acknowledged. *)
Definition acknowledged (b : Board) : Board := set_lapic (<[LAPIC_EOI := 0]> (lapic b)) b.

Lemma end_of_interrupt_run (w : IntWorld S H AS) :
  exists s', end_of_interrupt w = (Ok tt, with_ports s' w) /\ board s' = acknowledged (board (iw_ports w)).
Proof.
  exists (mmio_write (LAPIC_VIRT + LAPIC_EOI) 0 (iw_ports w)). split; [done|]. apply lapic_store. by_decide.
Qed.

(** C12: The hardware [apic::init] set up reaches the handlers meant for it.  The vector
    in the keyboard's redirection entry is a gate whose handler takes the byte out of
    the controller, gives it to the keyboard driver and acknowledges; the vector of
    the timer counts a tick, acknowledges, and does what the scheduler's timer handler
    does, to its result; the spurious vector does nothing, and is not acknowledged.  A
    double fault is handled on a stack of its own; any other interrupt on the stack it
    happened on, or, out of user mode, on the kernel stack of the task ([RSP0]). *)
Theorem interrupts_served t (w : IntWorld S H AS) frame code ret :
  let b := board (iw_ports w) in
  apic_ready t b ->
  (forall v c, ioregs b !! (IOAPIC_REDTBL_BASE + 2) = Some v -> kb_output (kbc b) = Some c -> kb_wf (iw_keyboard w) ->
     exists s' kb', deliver v frame code ret w = (Ok tt, with_keyboard kb' (with_ports s' w))
       /\ kb_wf kb' /\ kb_abs kb' = sp_scan c (kb_abs (iw_keyboard w))
       /\ board s' = acknowledged (set_kbc (set_output None (Board.kb_queue (kbc b)) (kbc b)) b))
  /\ (forall l, lapic b !! LAPIC_TIMER_LVT = Some l ->
     exists s', deliver (l mod 256) frame code ret w
         = (let (o, x) := Sched.timer_handler ret (iw_world w) in (o, with_world x (with_ports s' w)))
       /\ board s' = acknowledged b)
  /\ (forall l, lapic b !! LAPIC_SPURIOUS = Some l -> deliver (l mod 256) frame code ret w = (Ok tt, w))
  /\ (forall ts user rsp v, handler_stack ts user v rsp
       = if v =? 8 then interrupt_stack_table ts !! 0%nat
         else _ ← IDT !! v; if user then privilege_stack_table ts !! 0%nat else Some rsp).
Proof.
  intros b [_ Hsp (Hlvt & _) (Hkb & _) _]. split_and!.
  - intros v c Hv Hc Hwf. rewrite Hkb in Hv. injection Hv as <-. pose proof (kbc_read (iw_ports w)) as Hr. fold b in Hr.
    unfold Interrupts.deliver. change (IDT !! KEYBOARD_VECTOR) with (Some (mkGate KeyboardIrq None)). cbn [handler_fn run_handler].
    unfold keyboard_handler. destruct (port_in 8 0x60 (iw_ports w)) as [x s1] eqn:Hp.
    destruct Hr as (k & Hd & Hx & Hs1). assert (k = kbc b) as -> by (destruct Hd as [|(_ & Ho & _)]; congruence).
    rewrite (Hx c Hc) in Hp. destruct (handle_scancode_spec c (iw_keyboard w) Hwf) as (kb' & Hh & Hwf' & Ha).
    destruct (end_of_interrupt_run (with_keyboard kb' (with_ports s1 w))) as (s2 & He & Hs2). exists s2, kb'.
    rewrite (bind_ok _ _ _ c (with_ports s1 w)) by (unfold on_io, zoom, inb; by rewrite Hp).
    rewrite (bind_ok _ _ _ tt (with_keyboard kb' (with_ports s1 w))) by (unfold on_keyboard, zoom; cbn [iw_keyboard with_ports]; by rewrite Hh).
    split_and!; [exact He|done|done|]. rewrite Hs2. cbn [iw_ports with_keyboard with_ports]. by rewrite Hs1.
  - intros l Hl. rewrite Hlvt in Hl. injection Hl as <-. unfold Interrupts.deliver.
    change (IDT !! ((2 ^ 17 + TIMER_VECTOR) mod 256)) with (Some (mkGate Timer None)). cbn [handler_fn run_handler].
    set (x1 := mkWorld (w_sched (iw_world w)) (w_ticks (iw_world w) +w64 1) (w_machine (iw_world w)) (w_rsp0 (iw_world w)) (w_next_id (iw_world w))).
    destruct (end_of_interrupt_run (with_world x1 w)) as (s2 & He & Hs2). exists s2. split; [|exact Hs2].
    unfold timer_handler, Sched.timer_handler. rewrite (bind_ok _ _ _ tt (with_world x1 w)) by done.
    rewrite (bind_ok _ _ _ _ _ He), bind_get, bind_put. fold x1. unfold on_world, zoom. cbn [iw_world with_world with_ports].
    by destruct (schedule ret x1).
  - intros l Hl. rewrite Hsp in Hl. injection Hl as <-. done.
  - intros ts user rsp v. unfold handler_stack, IDT. destruct (Z.eqb_spec v 8) as [->|Hne]; [done|].
    destruct (decide (v = 255)) as [->|]; [done|]. destruct (decide (v = 33)) as [->|]; [done|]. destruct (decide (v = 32)) as [->|]; [done|].
    destruct (decide (v = 13)) as [->|]; [done|]. destruct (decide (v = 14)) as [->|]; [done|]. destruct (decide (v = 3)) as [->|]; [done|].
    by rewrite !lookup_insert_ne, lookup_empty by (unfold SPURIOUS_VECTOR, KEYBOARD_VECTOR, TIMER_VECTOR; congruence).
Qed.
End handlers.
