(* ===== verification/InterruptDemo.v ===== *)
(** * InterruptDemo: interrupts on the board of [ApicDemo.v]

    A descriptor table as a list, and a key typed at the machine [apic::init] left. *)
From Stdlib Require Import ZArith Lia.
From stdpp Require Import base numbers option list gmap.
From S2P Require Import Prelude Memory Pmm Vmm VmmFacts Heap KernelMap VmmDemo Hw Apic Board ApicFacts ApicDemo Keyboard Task Sched LiveFs Interrupts InterruptFacts.

#[export] Instance list_gdt : Gdt (list (option Descriptor)) := {
  gdt_new := [None];
  append d g := (8 * zlen g + dpl d, g ++ (match d with tss_segment => [Some d; None] | _ => [Some d] end))
}.
#[export] Instance list_gdt_laws : GdtLaws (list (option Descriptor)).
Proof. by refine {| entries := fun g => g |}. Defined.

Example selectors : (GDT (G := list (option Descriptor))).2 = mkSelectors 0x08 0x10 0x23 0x1B 0x28.
Proof. reflexivity. Qed.

(** A board set up by [init], with the key [A] in the controller. *)
Definition typed_board : Timed :=
  let m := ap_ports (apic_init 64 0x10 apic_boot).2 in later (set_kbc (mkKbc 0 KNone false 0x21 (Some 0x1C) []) (t_board m)) m.

Definition idle_world : World unit unit := mkWorld None 0 (mkMachine (mkRegs 0 0 0 0 0 0 0 0 0) gmap_empty) 0 0.
Definition typing : IntWorld Timed unit unit := mkInt idle_world Keyboard_new typed_board None [].

Lemma typed_board_ready : apic_ready 3 (board typed_board).
Proof. split; vm_compute; done. Qed.

Lemma Keyboard_new_wf : kb_wf Keyboard_new.
Proof. by split; vm_compute. Qed.

Lemma interrupts_served_witness :
  exists s' kb', deliver (fun _ => []) 33 (mkFrame 0 0 0 0 0) 0 0 typing = (Ok tt, mkInt idle_world kb' s' None [])
    /\ kb_abs kb' = sp_scan 0x1C (kb_abs Keyboard_new).
Proof.
  destruct (interrupts_served (BL := expected_laws) (fun _ => []) 3 typing (mkFrame 0 0 0 0 0) 0 0 typed_board_ready) as [Hk _].
  destruct (Hk 33 0x1C) as (s' & kb' & Hrun & _ & Ha & _); [reflexivity|reflexivity|exact Keyboard_new_wf|].
  exists s', kb'. split; [exact Hrun|exact Ha].
Defined.

(** The driver, set 2 selected, hears the letter. *)
Example typed_letter : (kb_abs (iw_keyboard (deliver (fun _ => []) 33 (mkFrame 0 0 0 0 0) 0 0 typing).2)).(sp_queue) = lit "a".
Proof. vm_compute. reflexivity. Qed.
