(* ===== verification/Syscall.v ===== *)
(** * Syscall: system calls

    [vcore/src/cpu/syscall.rs].  The kernel a system call runs in is the world of
    [Sched.v] (the tasks, with their descriptor tables and directories) and an
    environment: the mount table, what the file systems hold, the keyboard with
    the scan codes still to come, the console, and the memory of the program.
    Path operations may look at the scheduler ([TasksFs] does), so the file system
    interface is indexed by the world; handles may not (the scheduler is locked
    while one is used).  A program's pointers are taken to be mapped. *)
From Stdlib Require Import ZArith Lia.
From stdpp Require Import base numbers option list.
From S2P Require Import Prelude Memory VfsTypes Path Vfs FdTable Keyboard Task Sched Utf8.

(** What reaches the console: characters, and the log lines of the handler. *)
Inductive Output :=
| Char (c : Z)
| LogExit (code : Z)
| LogUnknown (num : Z).

(** Dropping a [Box<dyn FileHandle>]. *)
Class DropHandle (W H : Type) := { drop_handle : H -> M W Empty_set unit }.

Definition SYS_EXIT : Z := 0.
Definition SYS_WRITE : Z := 1.
Definition SYS_READ : Z := 2.
Definition SYS_OPEN : Z := 3.
Definition SYS_CLOSE : Z := 4.
Definition SYS_GETDENTS : Z := 5.
Definition SYS_MKDIR : Z := 6.
Definition SYS_UNLINK : Z := 7.
Definition SYS_RMDIR : Z := 8.
Definition SYS_CHDIR : Z := 9.
Definition SYS_GETCWD : Z := 10.

Definition U64_MAX : Z := 2 ^ 64 - 1.

(** ** Directory entries as [GETDENTS] lays them out *)

Definition type_byte (t : FileType) : Z :=
  match t with File => 1 | Directory => 2 | Device => 3 end.

Definition entry_bytes (e : DirEntry) : bytes :=
  let name_bytes := as_bytes (de_name e) in
  let name_len := u16 (zlen name_bytes) in
  type_byte (de_file_type e) :: Z.land name_len 0xFF :: u8 (Z.shiftr name_len 8) :: name_bytes.

(** The loop over the entries from [*position] on; result: offset and position. *)
Fixpoint getdents_loop (rest : list DirEntry) (buf_ptr buf_len offset position : Z) (m : UMem) : Z * Z * UMem :=
  match rest with
  | [] => (offset, position, m)
  | entry :: rest' =>
      let entry_size := 1 + 2 + zlen (as_bytes (de_name entry)) in
      if buf_len <? offset + entry_size then (offset, position, m)
      else getdents_loop rest' buf_ptr buf_len (offset + entry_size) (position + 1)
             (store m (buf_ptr + offset) (entry_bytes entry))
  end.

Section syscall.
Context {W F H AS : Type} {FS : World H AS -> Filesystem W F H}
  {FH : FileHandle W H} {DH : DropHandle W H}.

Record Env := mkEnv {
  e_vfs : Vfs F;
  e_fs : W;
  e_kb : Keyboard;
  e_irq : list Z;          (* the scan codes the keyboard has yet to deliver *)
  e_out : list Output;
  e_mem : UMem
}.

Definition set_fs (w : W) (e : Env) : Env := mkEnv (e_vfs e) w (e_kb e) (e_irq e) (e_out e) (e_mem e).
Definition set_kb (k : Keyboard) (irq : list Z) (e : Env) : Env :=
  mkEnv (e_vfs e) (e_fs e) k irq (e_out e) (e_mem e).
Definition set_out (o : list Output) (e : Env) : Env :=
  mkEnv (e_vfs e) (e_fs e) (e_kb e) (e_irq e) o (e_mem e).
Definition set_mem (m : UMem) (e : Env) : Env :=
  mkEnv (e_vfs e) (e_fs e) (e_kb e) (e_irq e) (e_out e) m.

Definition Kernel : Type := World H AS * Env.

(** Run a computation on the environment. *)
Definition in_env {S E A} (m : M Env E A) : M (S * Env) E A := zoom snd (fun e s => (s.1, e)) m.

Definition print_bytes {E} (bs : bytes) : M Env E unit :=
  e ← get; put (set_out (e_out e ++ (Char <$> bs)) e).

Definition log {E} (l : Output) : M Env E unit :=
  e ← get; put (set_out (e_out e ++ [l]) e).

(** [table.get_mut(fd)?] on the current task, and what the caller does with it. *)
Definition with_fd {A} (fd : Z) (m : M (FdKind H * Env) VfsError A) : M Kernel VfsError A :=
  with_fd_table (fd_get_mut fd m).

(** [vfs::f(..)]: the global mount table, locked. *)
Definition on_vfs {A} (f : Filesystem W F H -> Vfs F -> M W VfsError A) : M Kernel VfsError A :=
  fun '(w, e) => let (o, fs') := f (FS w) (e_vfs e) (e_fs e) in (o, (w, set_fs fs' e)).

(** A call of a method of an open file. *)
Definition on_handle {A} (m : M (H * W) VfsError A) (h : H) : M (FdKind H * Env) VfsError A :=
  fun '(_, e) => let '(o, (h', fs')) := m (h, e_fs e) in (o, (FdFile h', set_fs fs' e)).

(** ** WRITE *)
Definition write_console {E} (buf len : Z) : M Env E Z :=
  e ← get; print_bytes (load (e_mem e) buf len) ;; mret len.

Definition write_fd (buf len : Z) : M (FdKind H * Env) VfsError Z := fun s =>
  match s.1 with
  | FdFile handle => on_handle (fh_write (load (e_mem s.2) buf len)) handle s
  | Stdout | Stderr => in_env (write_console buf len) s
  | _ => (Err PermissionDenied, s)
  end.

Definition sys_write (fd buf len : Z) : M Kernel Empty_set Z :=
  if (fd =? 1) || (fd =? 2) then in_env (write_console buf len)
  else unwrap_or 0 (with_fd fd (write_fd buf len)).

(** ** READ *)

(** [while !has_input() { hlt }]: each [hlt] ends with an interrupt of the keyboard. *)
Fixpoint wait_input (irq : list Z) : M Keyboard Empty_set (list Z) :=
  kb ← get;
  if has_input kb then mret irq
  else match irq with
       | [] => hang
       | code :: irq' => handle_scancode code ;; wait_input irq'
       end.

(** The loop that drains the keyboard, at most [n] characters, up to a newline. *)
Fixpoint read_chars (n : nat) : M Keyboard Empty_set bytes :=
  match n with
  | O => mret []
  | S n' =>
      c ← read_char;
      match c with
      | Some c => if c =? 10 then mret [c] else rest ← read_chars n'; mret (c :: rest)
      | None => mret []
      end
  end.

Definition read_console {E} (buf len : Z) : M Env E Z := fun e =>
  match (irq ← wait_input (e_irq e); cs ← read_chars (Z.to_nat len); mret (irq, cs)) (e_kb e) with
  | (Ok (irq, cs), kb') => (Ok (zlen cs), set_mem (store (e_mem e) buf cs) (set_kb kb' irq e))
  | (Err v, _) => match v : Empty_set with end
  | (Panic, kb') => (Panic, set_kb kb' [] e)
  | (Hang, kb') => (Hang, set_kb kb' [] e)
  end.

Definition read_fd (buf len : Z) : M (FdKind H * Env) VfsError Z := fun s =>
  match s.1 with
  | FdFile handle =>
      (r ← on_handle (fh_read (load (e_mem s.2) buf len)) handle;
       in_env (e ← get; put (set_mem (store (e_mem e) buf r.2) e)) ;; mret r.1) s
  | Stdin => in_env (read_console buf len) s
  | _ => (Err PermissionDenied, s)
  end.

Definition sys_read (fd buf len : Z) : M Kernel Empty_set Z :=
  if fd =? 0 then in_env (read_console buf len)
  else unwrap_or 0 (with_fd fd (read_fd buf len)).

(** ** Paths *)

(** The path argument, resolved against the directory of the task.  Bytes that are
    not UTF-8 are undefined behaviour ([from_utf8_unchecked]). *)
Definition path_arg {E} (path_ptr path_len : Z) : M Kernel E rstr := fun s =>
  match from_utf8 (load (e_mem s.2) path_ptr path_len) with
  | Some path =>
      let cwd := default (lit "/") (get_cwd s.1) in
      (Ok (resolve_path path cwd), s)
  | None => (Panic, s)
  end.

(** [match r { Ok(()) => 0, Err(_) => u64::MAX }]. *)
Definition ok_or_max {E A} (m : M Kernel VfsError A) : M Kernel E Z :=
  r ← catch m; mret (match r with Some _ => 0 | None => U64_MAX end).

(** [result.map(|fd| fd as u64).unwrap_or(u64::MAX)]. *)
Definition fd_or_max {E} (m : M Kernel VfsError Z) : M Kernel E Z := unwrap_or U64_MAX m.

(** [with_fd_table(|table| table.alloc(kind))]. *)
Definition alloc_fd (kind : FdKind H) : M Kernel VfsError Z :=
  with_fd_table (zoom fst (fun t s => (t, s.2)) (fd_alloc kind)).

(** A value dropped at the end of its scope. *)
Definition drop_in_env (k : FdKind H) : M Kernel Empty_set unit :=
  match k with
  | FdFile h => in_env (zoom e_fs set_fs (drop_handle h))
  | _ => mret tt
  end.

(** ** OPEN *)
Definition sys_open (path_ptr path_len arg3 : Z) : M Kernel Empty_set Z :=
  let flags := u32 arg3 in
  path ← path_arg path_ptr path_len;
  let open_flags := OpenFlags.from_bits flags in
  if OpenFlags.contains open_flags OpenFlags.O_DIRECTORY then
    r ← catch (on_vfs (fun _ v => vfs_readdir v path));
    match r with
    | Some entries => fd_or_max (alloc_fd (FdDirectory path entries 0))
    | None => mret U64_MAX
    end
  else
    r ← catch (on_vfs (fun _ v => vfs_open v path open_flags));
    match r with
    | Some handle =>
        fd ← catch (alloc_fd (FdFile handle));
        match fd with
        | Some fd => mret fd
        | None => drop_in_env (FdFile handle) ;; mret U64_MAX
        end
    | None => mret U64_MAX
    end.

(** ** CLOSE: the descriptor's file is dropped. *)
Definition fd_slot (fd : Z) (w : World H AS) : option (FdKind H) :=
  sched ← w_sched w;
  task ← current_task sched;
  mjoin (FdTable.fds (Task.fds task) !! Z.to_nat fd).

Definition sys_close (fd : Z) : M Kernel Empty_set Z := fun s =>
  (r ← catch (with_fd_table (zoom fst (fun t s => (t, s.2)) (fd_close fd)));
   match r with
   | Some _ => match fd_slot fd s.1 with Some k => drop_in_env k | None => mret tt end ;; mret 0
   | None => mret U64_MAX
   end) s.

(** ** GETDENTS *)
Definition getdents_fd (buf_ptr buf_len : Z) : M (FdKind H * Env) VfsError Z := fun s =>
  match s.1 with
  | FdDirectory path entries position =>
      let '(offset, position', m) :=
        getdents_loop (drop (Z.to_nat position) entries) buf_ptr buf_len 0 position (e_mem s.2) in
      (Ok offset, (FdDirectory path entries position', set_mem m s.2))
  | _ => (Err NotADirectory, s)
  end.

Definition sys_getdents (fd buf_ptr buf_len : Z) : M Kernel Empty_set Z :=
  unwrap_or 0 (with_fd fd (getdents_fd buf_ptr buf_len)).

(** ** The other path operations *)
Definition sys_mkdir (path_ptr path_len : Z) : M Kernel Empty_set Z :=
  path ← path_arg path_ptr path_len; ok_or_max (on_vfs (fun _ v => vfs_mkdir v path)).

Definition sys_unlink (path_ptr path_len : Z) : M Kernel Empty_set Z :=
  path ← path_arg path_ptr path_len; ok_or_max (on_vfs (fun _ v => vfs_remove v path)).

Definition sys_rmdir (path_ptr path_len : Z) : M Kernel Empty_set Z :=
  path ← path_arg path_ptr path_len; ok_or_max (on_vfs (fun _ v => vfs_rmdir v path)).

Definition sys_chdir (path_ptr path_len : Z) : M Kernel Empty_set Z :=
  path ← path_arg path_ptr path_len;
  r ← catch (on_vfs (fun _ v => vfs_metadata v path));
  match r with
  | Some meta =>
      if decide (md_file_type meta = Directory) then
        ok ← catch (zoom fst (fun w s => (w, s.2)) (set_cwd path));
        mret (match ok with Some _ => 0 | None => U64_MAX end)
      else mret U64_MAX
  | None => mret U64_MAX
  end.

Definition sys_getcwd (buf_ptr buf_len : Z) : M Kernel Empty_set Z := fun s =>
  match get_cwd s.1 with
  | Some cwd =>
      let bytes := as_bytes cwd in
      let copy_len := Z.min (zlen bytes) buf_len in
      (Ok copy_len, (s.1, set_mem (store (e_mem s.2) buf_ptr (take (Z.to_nat copy_len) bytes)) s.2))
  | None => (Ok U64_MAX, s)
  end.

(** ** EXIT: [sched::exit] does not come back.  [ret] is where [schedule] would
    return to. *)
Definition sys_exit (ret code : Z) : M Kernel Empty_set Z :=
  in_env (log (LogExit code)) ;;
  zoom fst (fun w s => (w, s.2)) (Sched.exit ret) ;;
  hang.

(** ** Dispatch *)
Definition syscall_handler (ret num arg1 arg2 arg3 : Z) : M Kernel Empty_set Z :=
  if num =? SYS_EXIT then sys_exit ret arg1
  else if num =? SYS_WRITE then sys_write arg1 arg2 arg3
  else if num =? SYS_READ then sys_read arg1 arg2 arg3
  else if num =? SYS_OPEN then sys_open arg1 arg2 arg3
  else if num =? SYS_CLOSE then sys_close arg1
  else if num =? SYS_GETDENTS then sys_getdents arg1 arg2 arg3
  else if num =? SYS_MKDIR then sys_mkdir arg1 arg2
  else if num =? SYS_UNLINK then sys_unlink arg1 arg2
  else if num =? SYS_RMDIR then sys_rmdir arg1 arg2
  else if num =? SYS_CHDIR then sys_chdir arg1 arg2
  else if num =? SYS_GETCWD then sys_getcwd arg1 arg2
  else in_env (log (LogUnknown num)) ;; mret U64_MAX.
End syscall.
Arguments Env : clear implicits.
Arguments Kernel : clear implicits.

(** ** The loop of [GETDENTS] *)
Lemma length_entry_bytes e : zlen (entry_bytes e) = 1 + 2 + zlen (as_bytes (de_name e)).
Proof. unfold entry_bytes, zlen. simpl. lia. Qed.

(** It stores the longest prefix of the entries that fits. *)
Lemma getdents_loop_spec rest buf_ptr buf_len offset position m :
  let '(offset', position', m') := getdents_loop rest buf_ptr buf_len offset position m in
  exists done_, done_ `prefix_of` rest
    /\ position' = position + zlen done_
    /\ offset' = offset + zlen (done_ ≫= entry_bytes)
    /\ (offset <= buf_len -> offset' <= buf_len)
    /\ (forall a, m' a = store m (buf_ptr + offset) (done_ ≫= entry_bytes) a)
    /\ (forall e tl, rest = done_ ++ e :: tl -> buf_len < offset' + zlen (entry_bytes e)).
Proof.
  revert offset position m. induction rest as [|e rest IH]; intros offset position m; cbn [getdents_loop].
  - exists []. simpl. change (zlen (@nil DirEntry)) with 0. change (zlen (@nil Z)) with 0.
    split_and!; [done|lia|lia|lia| |done]. intros a. by rewrite store_out by (change (zlen (@nil Z)) with 0; lia).
  - destruct (Z.ltb_spec buf_len (offset + (1 + 2 + zlen (as_bytes (de_name e))))) as [Hf|Hf].
    + exists []. simpl. change (zlen (@nil DirEntry)) with 0. change (zlen (@nil Z)) with 0.
      split_and!; [apply prefix_nil|lia|lia|lia| |].
      * intros a. by rewrite store_out by (change (zlen (@nil Z)) with 0; lia).
      * intros e' tl [= <- <-]. rewrite length_entry_bytes. lia.
    + specialize (IH (offset + (1 + 2 + zlen (as_bytes (de_name e)))) (position + 1)
        (store m (buf_ptr + offset) (entry_bytes e))).
      destruct (getdents_loop _ _ _ _ _ _) as [[offset' position'] m'].
      destruct IH as (dn & Hpre & Hpos & Hoff & Hle & Hm & Hnext). exists (e :: dn).
      rewrite bind_cons. rewrite <- length_entry_bytes in *.
      assert (zlen (entry_bytes e ++ (dn ≫= entry_bytes)) = zlen (entry_bytes e) + zlen (dn ≫= entry_bytes)) as Hl
        by (unfold zlen; rewrite length_app; lia).
      split_and!; [by apply prefix_cons|unfold zlen in *; simpl; lia|lia|lia| |].
      * intros a. rewrite Hm, Z.add_assoc. apply store_app.
      * intros e' tl [= ->]. by apply (Hnext e' tl).
Qed.
