(* ===== verification/SyscallFacts.v ===== *)
(** * SyscallFacts: what the handlers do to the descriptors of the current task

    Rewriting lemmas that run the handlers of [Syscall.v] from a state whose
    scheduler has a current task. *)
From Stdlib Require Import ZArith Lia.
From stdpp Require Import base numbers option list.
From S2P Require Import Prelude Memory VfsTypes Path Vfs FdTable Keyboard Task Sched Utf8 Syscall.

(** ** The current task of a world *)
Lemma alter_at_id {A} (f : A -> A) (l : list A) i x : l !! i = Some x -> f x = x -> alter f i l = l.
Proof.
  revert i. induction l as [|y l IH]; intros [|i] Hi Hf; simplify_eq/=; [by f_equal|]. f_equal. by apply IH.
Qed.

Section world.
Context {H AS : Type}.
Implicit Types (w : World H AS) (t : FdTable H).

Definition cur_task w : option (Task H AS) := sched ← w_sched w; current_task sched.
Definition cur_fds w : option (FdTable H) := Task.fds <$> cur_task w.

Definition map_cur (f : Task H AS -> Task H AS) w : World H AS :=
  mkWorld ((fun s => mkScheduler (alter f (current s) (tasks s)) (current s)) <$> w_sched w)
    (w_ticks w) (w_machine w) (w_rsp0 w) (w_next_id w).
Definition set_cur_fds t w : World H AS := map_cur (set_fds t) w.
Definition set_cur_cwd (c : rstr) w : World H AS := map_cur (set_task_cwd c) w.

Lemma cur_task_map f w : cur_task (map_cur f w) = f <$> cur_task w.
Proof.
  destruct w as [[[ts c]|] ti ma rsp nid]; [|done]. unfold cur_task, current_task. simpl.
  by rewrite list_lookup_alter_eq.
Qed.

Lemma map_cur_map f g w : map_cur f (map_cur g w) = map_cur (f ∘ g) w.
Proof.
  destruct w as [[[ts c]|] ti ma rsp nid]; [|done]. unfold map_cur. simpl.
  by rewrite list_alter_alter_eq.
Qed.

Lemma map_cur_same f w k : cur_task w = Some k -> f k = k -> map_cur f w = w.
Proof.
  destruct w as [[[ts c]|] ti ma rsp nid]; [|done]. unfold cur_task, current_task, map_cur. simpl.
  intros Hk Hf. by rewrite (alter_at_id _ _ _ _ Hk Hf).
Qed.

Lemma cur_fds_set t w : is_Some (cur_fds w) -> cur_fds (set_cur_fds t w) = Some t.
Proof.
  unfold cur_fds, set_cur_fds. rewrite cur_task_map. destruct (cur_task w); [done|]. by intros [? [=]].
Qed.

Lemma set_cur_fds_twice t1 t2 w : set_cur_fds t2 (set_cur_fds t1 w) = set_cur_fds t2 w.
Proof.
  unfold set_cur_fds. rewrite map_cur_map.
  destruct w as [[[ts c]|] ti ma rsp nid]; [|done]. unfold map_cur. simpl. do 3 f_equal.
Qed.

Lemma set_cur_fds_same t w : cur_fds w = Some t -> set_cur_fds t w = w.
Proof.
  unfold cur_fds. intros (k & Hk & ->)%fmap_Some. apply (map_cur_same _ _ k Hk). by destruct k.
Qed.

Lemma get_cwd_cur w : get_cwd w = cwd <$> cur_task w.
Proof. unfold get_cwd, cur_task, current_task. by destruct (w_sched w) as [s|]; [|done]. Qed.

Lemma get_cwd_set_fds t w : get_cwd (set_cur_fds t w) = get_cwd w.
Proof. rewrite !get_cwd_cur. unfold set_cur_fds. rewrite cur_task_map. by destruct (cur_task w). Qed.

Lemma with_fd_table_run {S A} (f : M (FdTable H * S) VfsError A) w s t :
  cur_fds w = Some t ->
  with_fd_table f (w, s) = (let '(o, (t', s')) := f (t, s) in (o, (set_cur_fds t' w, s'))).
Proof.
  unfold cur_fds, cur_task, with_fd_table. destruct (w_sched w) as [sched|] eqn:Hs; [|done]. simpl.
  destruct (current_task sched) as [task|]; [|done]. intros [= ->].
  destruct (f (t, s)) as [o [t' s']]. unfold set_cur_fds, map_cur. by rewrite Hs.
Qed.

Lemma with_fd_table_none {S A} (f : M (FdTable H * S) VfsError A) w s :
  cur_fds w = None -> with_fd_table f (w, s) = (Err IoError, (w, s)).
Proof.
  unfold cur_fds, cur_task, with_fd_table. destruct (w_sched w) as [sched|] eqn:Hs; [|done]. simpl.
  by destruct (current_task sched).
Qed.
End world.

(** ** Descriptors *)
Section fds.
Context {H : Type}.
Implicit Types (t : FdTable H).

Definition set_slot (i : nat) (o : option (FdKind H)) t : FdTable H := mkFdTable (<[i := o]> (FdTable.fds t)).

Lemma fd_get_slot t fd k :
  fd_wf t -> 0 <= fd -> fd_get t fd = Ok k <-> FdTable.fds t !! Z.to_nat fd = Some (Some k).
Proof.
  intros [Hlen _] Hfd. unfold fd_get. change (Z.of_nat MAX_FDS) with 64. unfold MAX_FDS in Hlen.
  destruct (Z.leb_spec 64 fd).
  - split; [done|]. intros Hl%lookup_lt_Some. lia.
  - destruct (FdTable.fds t !! Z.to_nat fd) as [[k'|]|]; split; intros; simplify_eq; done.
Qed.

Lemma fd_get_mut_run {S A} fd (m : M (FdKind H * S) VfsError A) t s k :
  fd_get t fd = Ok k ->
  fd_get_mut fd m (t, s) = (let '(o, (k', s')) := m (k, s) in (o, (set_slot (Z.to_nat fd) (Some k') t, s'))).
Proof. intros Hg. unfold fd_get_mut. by rewrite Hg. Qed.

(** The descriptor [alloc] hands out. *)
Definition first_free t (i : nat) : Prop :=
  fd_free t i /\ (forall j, (j < i)%nat -> ~ fd_free t j).

Lemma fd_alloc_run t kind i :
  first_free t i -> fd_alloc kind t = (Ok (Z.of_nat i), set_slot i (Some kind) t).
Proof.
  intros [Hf Hlow]. unfold fd_alloc. mred.
  destruct (list_find (fun o : option (FdKind H) => o = None) (FdTable.fds t)) as [[j o]|] eqn:Hl.
  - apply list_find_Some in Hl as (Hj & -> & Hmin).
    destruct (Nat.lt_trichotomy j i) as [Hlt|[->|Hgt]]; [by destruct (Hlow j Hlt)|done|].
    by destruct (Hmin i None Hf Hgt).
  - apply list_find_None in Hl. rewrite Forall_lookup in Hl. by destruct (Hl i None Hf).
Qed.

Lemma first_free_bound t i : fd_wf t -> first_free t i -> (3 <= i < 64)%nat.
Proof.
  intros [Hlen [rest Hr]] [Hf _]. unfold fd_free in Hf. split.
  - rewrite Hr in Hf. destruct i as [|[|[|i]]]; simpl in Hf; [congruence..|lia].
  - apply lookup_lt_Some in Hf. unfold MAX_FDS in Hlen. lia.
Qed.

Lemma fd_close_run t i k :
  fd_wf t -> (3 <= i < 64)%nat -> FdTable.fds t !! i = Some (Some k) ->
  fd_close (Z.of_nat i) t = (Ok tt, set_slot i None t).
Proof.
  intros Hwf Hi Hk. unfold fd_close. mred. change (Z.of_nat MAX_FDS) with 64.
  destruct (Z.leb_spec 64 (Z.of_nat i)); [lia|]. destruct (Z.ltb_spec (Z.of_nat i) 3); [lia|].
  by rewrite Nat2Z.id, Hk.
Qed.

Lemma set_slot_wf t i o : fd_wf t -> (3 <= i)%nat -> fd_wf (set_slot i o t).
Proof. apply fd_insert_wf. Qed.

Lemma set_slot_twice t i o o' : set_slot i o (set_slot i o' t) = set_slot i o t.
Proof. unfold set_slot. simpl. by rewrite list_insert_insert_eq. Qed.

Lemma set_slot_same t i o : FdTable.fds t !! i = Some o -> set_slot i o t = t.
Proof. intros Hi. unfold set_slot. destruct t. simpl in *. by rewrite list_insert_id. Qed.

Lemma set_slot_lookup t i o : fd_wf t -> (i < 64)%nat -> FdTable.fds (set_slot i o t) !! i = Some o.
Proof.
  intros [Hlen _] Hi. unfold set_slot. simpl. apply list_lookup_insert_eq. unfold MAX_FDS in Hlen. lia.
Qed.
End fds.

(** ** What any system call may change *)
Section frame.
Context {W F H AS : Type} {FS : World H AS -> Filesystem W F H}
  {FH : FileHandle W H} {DH : DropHandle W H}.
Implicit Types (w : World H AS) (e : Env W F) (k : Task H AS).

(** Of the task: its descriptors and its directory. *)
Definition task_step k k' : Prop :=
  exists t c, k' = set_task_cwd c (set_fds t k)
    /\ (fd_wf (Task.fds k) -> fd_wf t) /\ (canonical (cwd k) -> canonical c).

(** Of the world: the current task. *)
Definition world_step w w' : Prop :=
  exists g, w' = map_cur g w /\ forall k, cur_task w = Some k -> task_step k (g k).

(** Of the environment: what the file systems hold, the keyboard, more output, and
    [n] bytes of memory from [lo] on; not the mount table. *)
Definition env_step (lo n : Z) e e' : Prop :=
  e_vfs e' = e_vfs e /\ e_out e `prefix_of` e_out e'
  /\ (forall a, a < lo \/ lo + n <= a -> e_mem e' a = e_mem e a).

Definition kernel_step (lo n : Z) (s s' : Kernel W F H AS) : Prop :=
  world_step s.1 s'.1 /\ env_step lo n s.2 s'.2.

(** A use of a descriptor leaves the standard streams what they are. *)
Definition slot_step (lo n : Z) (s s' : FdKind H * Env W F) : Prop :=
  match s.1 with
  | Stdin | Stdout | Stderr => s'.1 = s.1
  | _ => True
  end /\ env_step lo n s.2 s'.2.

#[local] Instance task_step_pre : PreOrder task_step.
Proof.
  split.
  - intros k. exists (Task.fds k), (cwd k). by destruct k.
  - intros k1 k2 k3 (t1 & c1 & -> & Ht1 & Hc1) (t2 & c2 & -> & Ht2 & Hc2).
    exists t2, c2. simpl in *. split_and!; [done|auto..].
Qed.

#[local] Instance world_step_pre : PreOrder world_step.
Proof.
  split.
  - intros w. exists (fun k => k). split; [|done].
    destruct (cur_task w) as [k|] eqn:Hk; [by erewrite map_cur_same|].
    destruct w as [[[ts c]|] ti ma rsp nid]; [|done]. unfold cur_task, current_task, map_cur in *. simpl in *.
    by rewrite list_alter_id.
  - intros w1 w2 w3 (f & -> & Hf) (g & -> & Hg). exists (g ∘ f). split; [apply map_cur_map|].
    intros k Hk. rewrite cur_task_map, Hk in Hg. etrans; [by apply Hf|by apply Hg].
Qed.

#[local] Instance env_step_pre lo n : PreOrder (env_step lo n).
Proof.
  split.
  - by intros e.
  - intros e1 e2 e3 (Hv1 & Ho1 & Hm1) (Hv2 & Ho2 & Hm2).
    split_and!; [congruence|by etrans|]. intros a Ha. rewrite Hm2 by done. auto.
Qed.

#[local] Instance kernel_step_pre lo n : PreOrder (kernel_step lo n).
Proof.
  split; [by intros s|]. intros s1 s2 s3 [Hw1 He1] [Hw2 He2]. split; by etrans.
Qed.

#[local] Instance slot_step_pre lo n : PreOrder (slot_step lo n).
Proof.
  split; [intros [[] ?]; done|]. intros [k1 e1] [k2 e2] [k3 e3] [Hk1 He1] [Hk2 He2].
  split; [|by etrans]. simpl in *. destruct k1; simpl in *; simplify_eq; done.
Qed.

Lemma in_env_keeps {S E A} (R : relation (S * Env W F)) lo n (m : M (Env W F) E A) :
  (forall s e', env_step lo n s.2 e' -> R s (s.1, e')) -> keeps (env_step lo n) m -> keeps R (in_env m).
Proof. intros HR Hm. unfold in_env. eapply keeps_zoom; [|exact Hm]. exact HR. Qed.

Lemma in_env_kernel {E A} lo n (m : M (Env W F) E A) :
  keeps (env_step lo n) m -> keeps (kernel_step lo n) (in_env m : M (Kernel W F H AS) E A).
Proof. apply in_env_keeps. intros [w e] e' He. by split. Qed.

Lemma in_env_slot {E A} lo n (m : M (Env W F) E A) :
  keeps (env_step lo n) m -> keeps (slot_step lo n) (in_env m : M (FdKind H * Env W F) E A).
Proof. apply in_env_keeps. intros [k e] e' He. split; [by destruct k|done]. Qed.

Lemma on_vfs_keeps {A} lo n (f : Filesystem W F H -> Vfs F -> M W VfsError A) :
  keeps (kernel_step lo n) (on_vfs (FS := FS) f).
Proof. intros [w e]. unfold on_vfs. destruct (f _ _ _) as [o fs']. simpl. by split. Qed.

Lemma world_step_fds w t t' :
  cur_fds w = Some t -> (fd_wf t -> fd_wf t') -> world_step w (set_cur_fds t' w).
Proof.
  intros Ht Hwf. exists (set_fds t'). split; [done|]. intros k Hk. exists t', (cwd k).
  unfold cur_fds in Ht. rewrite Hk in Ht. injection Ht as Ht. split_and!; [by destruct k|by rewrite Ht|done].
Qed.

Lemma with_fd_table_keeps {A} lo n (f : M (FdTable H * Env W F) VfsError A) :
  (forall t e, env_step lo n e (f (t, e)).2.2 /\ (fd_wf t -> fd_wf (f (t, e)).2.1)) ->
  keeps (kernel_step lo n) (with_fd_table f : M (Kernel W F H AS) VfsError A).
Proof.
  intros Hf [w e]. destruct (cur_fds w) as [t|] eqn:Ht.
  - rewrite (with_fd_table_run _ _ _ _ Ht). destruct (Hf t e) as [He Hwf].
    destruct (f (t, e)) as [o [t' e']]. simpl in *. split; [by eapply world_step_fds|done].
  - by rewrite with_fd_table_none.
Qed.

Lemma with_fd_keeps {A} lo n fd (m : M (FdKind H * Env W F) VfsError A) :
  0 <= fd -> keeps (slot_step lo n) m -> keeps (kernel_step lo n) (with_fd fd m : M (Kernel W F H AS) VfsError A).
Proof.
  intros Hfd Hm. apply with_fd_table_keeps. intros t e. unfold fd_get_mut.
  destruct (fd_get t fd) as [k|er| |] eqn:Hg; simpl; try done.
  specialize (Hm (k, e)). destruct (m (k, e)) as [o [k' e']]. destruct Hm as [Hk He]. simpl in *.
  split; [done|]. intros Hwf. pose proof (proj1 (fd_get_slot t fd k Hwf Hfd) Hg) as Hs.
  change (fd_wf (set_slot (Z.to_nat fd) (Some k') t)).
  destruct (decide (3 <= Z.to_nat fd)%nat); [by apply set_slot_wf|].
  destruct Hwf as [Hlen [rest Hr]].
  assert (k' = k) as -> by (rewrite Hr in Hs; destruct (Z.to_nat fd) as [|[|[|]]]; simpl in Hs; simplify_eq; done || lia).
  rewrite set_slot_same by done. split; [done|by exists rest].
Qed.

Lemma print_bytes_keeps {E} lo n bs : keeps (env_step lo n) (print_bytes bs : M (Env W F) E unit).
Proof. intros e. split_and!; simpl; [done|by apply prefix_app_r|done]. Qed.

Lemma log_keeps {E} lo n l : keeps (env_step lo n) (log l : M (Env W F) E unit).
Proof. intros e. split_and!; simpl; [done|by apply prefix_app_r|done]. Qed.

Lemma write_console_keeps {E} lo n buf len : keeps (env_step lo n) (write_console buf len : M (Env W F) E Z).
Proof.
  intros e. unfold write_console. rewrite bind_get. apply keeps_bind; [apply _|apply print_bytes_keeps|].
  intros. by apply keeps_ret; try apply _.
Qed.

Lemma store_step lo n (m : UMem) bs a :
  zlen bs <= n -> a < lo \/ lo + n <= a -> store m lo bs a = m a.
Proof. intros Hl Ha. apply store_out. lia. Qed.

Lemma read_chars_length n kb cs kb' : read_chars n kb = (Ok cs, kb') -> (length cs <= n)%nat.
Proof.
  revert kb cs. induction n as [|n IH]; intros kb cs Hr; cbn [read_chars] in Hr; minv Hr; [simpl; lia|].
  destruct a as [c|]; [|minv Hr; simpl; lia]. destruct (c =? 10); minv Hr; simpl; [lia|].
  apply IH in Hr1. lia.
Qed.

Lemma read_console_keeps {E} lo n : 0 <= n -> keeps (env_step lo n) (read_console lo n : M (Env W F) E Z).
Proof.
  intros Hn e. unfold read_console.
  destruct ((irq ← wait_input (e_irq e); cs ← read_chars (Z.to_nat n); mret (irq, cs)) (e_kb e))
    as [[[irq cs]|[]| |] kb'] eqn:Hr; [|done..].
  minv Hr. simplify_eq. apply read_chars_length in Hr1. split_and!; simpl; [done|done|].
  intros a Ha. eapply store_step; [|done]. unfold zlen. lia.
Qed.

Lemma on_handle_keeps {A} lo n (m : M (H * W) VfsError A) h e kd :
  slot_step lo n (FdFile h, e) (on_handle m h (kd, e)).2.
Proof. unfold on_handle. destruct (m (h, e_fs e)) as [o [h' fs']]. by split. Qed.

Lemma write_fd_keeps lo n buf len : keeps (slot_step lo n) (write_fd buf len : M (FdKind H * Env W F) VfsError Z).
Proof.
  intros [k e]. unfold write_fd. cbn [fst snd].
  destruct k; try (by apply in_env_slot, write_console_keeps); [apply on_handle_keeps|done|done].
Qed.

(** Handles return the buffer they were given, of the same length. *)
Definition reads_in_place : Prop :=
  forall buf (s s' : H * W) n buf', fh_read buf s = (Ok (n, buf'), s') -> zlen buf' = zlen buf.

Lemma read_fd_keeps lo n : reads_in_place -> 0 <= n ->
  keeps (slot_step lo n) (read_fd lo n : M (FdKind H * Env W F) VfsError Z).
Proof.
  intros Hrd Hn [k e]. unfold read_fd. cbn [fst snd].
  destruct k as [h|p es pos| | |]; try done; [|by apply in_env_slot, read_console_keeps].
  unfold mbind at 1, M_bind, on_handle.
  destruct (fh_read (load (e_mem e) lo n) (h, e_fs e)) as [[[c buf']|er| |] [h' fs']] eqn:Hr; try done.
  apply Hrd in Hr. rewrite zlen_load in Hr by done. split; [done|]. split_and!; simpl; [done|done|].
  intros a Ha. eapply store_step; [|done]. lia.
Qed.

Lemma getdents_fd_keeps lo n : 0 <= n -> keeps (slot_step lo n) (getdents_fd lo n : M (FdKind H * Env W F) VfsError Z).
Proof.
  intros Hn [k e]. unfold getdents_fd. cbn [fst snd].
  destruct k as [h|p es pos| | |]; try done.
  pose proof (getdents_loop_spec (drop (Z.to_nat pos) es) lo n 0 pos (e_mem e)) as Hs.
  destruct (getdents_loop _ _ _ _ _ _) as [[off pos'] m'].
  destruct Hs as (dn & _ & _ & Ho & Hle & Hm & _). specialize (Hle Hn). split; [done|]. split_and!; simpl; [done|done|].
  intros a Ha. rewrite Hm, Z.add_0_r. eapply store_step; [|done]. lia.
Qed.

Lemma alloc_fd_keeps lo n kind : keeps (kernel_step lo n) (alloc_fd kind : M (Kernel W F H AS) VfsError Z).
Proof.
  apply with_fd_table_keeps. intros t e. unfold zoom. simpl.
  destruct (fd_alloc kind t) as [o t'] eqn:Ha. simpl. split; [done|]. intros Hwf.
  unfold fd_alloc in Ha. rewrite bind_get in Ha.
  destruct (list_find (fun o : option (FdKind H) => o = None) (FdTable.fds t)) as [[i x]|] eqn:Hf.
  - mred. rewrite bind_put in Ha. injection Ha as <- <-. apply (set_slot_wf t i); [done|].
    apply list_find_Some in Hf as (Hi & -> & _). destruct Hwf as [_ [rest Hr]]. rewrite Hr in Hi.
    destruct i as [|[|[|i]]]; simpl in Hi; simplify_eq. lia.
  - injection Ha as <- <-. done.
Qed.

Lemma close_keeps lo n fd :
  0 <= fd -> keeps (kernel_step lo n)
    (with_fd_table (zoom fst (fun t s => (t, s.2)) (fd_close fd)) : M (Kernel W F H AS) VfsError unit).
Proof.
  intros Hfd. apply with_fd_table_keeps. intros t e. unfold zoom, fd_close. simpl. rewrite bind_get.
  destruct (Z.of_nat MAX_FDS <=? fd); [done|]. destruct (Z.ltb_spec fd 3); [done|].
  destruct (FdTable.fds t !! Z.to_nat fd) as [[k|]|]; try done. split; [done|]. simpl.
  intros Hwf. apply (set_slot_wf t (Z.to_nat fd)); [done|lia].
Qed.

Lemma drop_keeps lo n kd : keeps (kernel_step lo n) (drop_in_env kd : M (Kernel W F H AS) Empty_set unit).
Proof.
  destruct kd; simpl; try (apply keeps_ret; apply _). apply in_env_kernel.
  intros e. unfold zoom. destruct (drop_handle handle (e_fs e)) as [o fs']. done.
Qed.

Lemma path_arg_keeps {E} lo n p l : keeps (kernel_step lo n) (path_arg p l : M (Kernel W F H AS) E rstr).
Proof. intros s. unfold path_arg. by destruct (from_utf8 _). Qed.

Lemma path_arg_canonical {E} p l s c s' :
  (path_arg p l : M (Kernel W F H AS) E rstr) s = (Ok c, s') -> canonical c.
Proof.
  unfold path_arg. destruct (from_utf8 _) as [path|]; [|done]. intros [= <- <-]. unfold resolve_path.
  repeat case_match; apply normalize_path_canonical.
Qed.

Lemma set_cwd_keeps lo n c :
  canonical c -> keeps (kernel_step lo n) (zoom fst (fun w s => (w, s.2)) (set_cwd c) : M (Kernel W F H AS) unit unit).
Proof.
  intros Hc [w e]. unfold zoom, set_cwd. simpl. rewrite bind_get.
  destruct (w_sched w) as [sched|] eqn:Hs; [|done]. mred.
  destruct (tasks sched !! current sched) as [k|] eqn:Hk; [|done]. mred. split; [|done]. simpl.
  exists (set_task_cwd c). split; [by unfold map_cur; rewrite Hs|].
  intros k' Hk'. exists (Task.fds k'), c. split_and!; [by destruct k'|done|done].
Qed.

(** The buffer a call may write to: address and length. *)
Definition syscall_buf (num arg1 arg2 arg3 : Z) : Z * Z :=
  if (num =? SYS_READ) || (num =? SYS_GETDENTS) then (arg2, arg3)
  else if num =? SYS_GETCWD then (arg1, arg2)
  else (0, 0).

Lemma sys_open_keeps lo n p l fl : keeps (kernel_step lo n) (sys_open (FS := FS) p l fl).
Proof.
  apply keeps_bind; [apply _|apply path_arg_keeps|]. intros path. cbv zeta.
  destruct (OpenFlags.contains _ _); (apply keeps_bind; [apply _|apply keeps_catch, on_vfs_keeps|]);
    (intros [r|]; [|apply keeps_ret; apply _]).
  - apply keeps_unwrap_or; [apply _|]. apply alloc_fd_keeps.
  - apply keeps_bind; [apply _|apply keeps_catch, alloc_fd_keeps|]. intros [fd|]; [apply keeps_ret; apply _|].
    apply keeps_bind; [apply _|apply drop_keeps|]. intros; apply keeps_ret; apply _.
Qed.

Lemma sys_close_keeps lo n fd : 0 <= fd -> keeps (kernel_step lo n) (sys_close fd : M (Kernel W F H AS) _ _).
Proof.
  intros Hfd s. unfold sys_close. generalize (fd_slot fd s.1). intros old. revert s.
  apply keeps_bind; [apply _|by apply keeps_catch, close_keeps|].
  intros [r|]; [|apply keeps_ret; apply _]. apply keeps_bind; [apply _| |intros; apply keeps_ret; apply _].
  destruct old; [apply drop_keeps|apply keeps_ret; apply _].
Qed.

Lemma ok_or_max_keeps {E A} lo n (m : M (Kernel W F H AS) VfsError A) :
  keeps (kernel_step lo n) m -> keeps (kernel_step lo n) (ok_or_max m : M _ E Z).
Proof.
  intros Hm. apply keeps_bind; [apply _|by apply keeps_catch|]. intros; apply keeps_ret; apply _.
Qed.

(** [mkdir], [unlink], [rmdir]: resolve the path and call the file system. *)
Lemma path_op_keeps {A} lo n p l (f : rstr -> Filesystem W F H -> Vfs F -> M W VfsError A) :
  keeps (kernel_step lo n) (path ← path_arg p l; ok_or_max (on_vfs (FS := FS) (f path)) : M _ Empty_set Z).
Proof.
  apply keeps_bind; [apply _|apply path_arg_keeps|]. intros path. apply ok_or_max_keeps, on_vfs_keeps.
Qed.

Lemma sys_chdir_keeps lo n p l : keeps (kernel_step lo n) (sys_chdir (FS := FS) p l).
Proof.
  intros s. unfold sys_chdir. unfold mbind at 1, M_bind. pose proof (path_arg_keeps (E := Empty_set) lo n p l s) as H0.
  destruct (path_arg p l s) as [[path|er| |] s1] eqn:Hp; simpl in H0 |- *; try done.
  pose proof (path_arg_canonical _ _ _ _ _ Hp) as Hc. etrans; [exact H0|]. clear H0 Hp.
  revert s1. apply keeps_bind; [apply _|apply keeps_catch, on_vfs_keeps|].
  intros [meta|]; [|apply keeps_ret; apply _]. case_decide; [|apply keeps_ret; apply _].
  apply keeps_bind; [apply _|by apply keeps_catch, set_cwd_keeps|]. intros; apply keeps_ret; apply _.
Qed.

Lemma sys_getcwd_keeps lo n : 0 <= n -> keeps (kernel_step lo n) (sys_getcwd lo n : M (Kernel W F H AS) _ _).
Proof.
  intros Hn s. unfold sys_getcwd. destruct (get_cwd s.1) as [c|]; [|done].
  split; [done|]. split_and!; simpl; [done|done|]. intros a Ha. eapply store_step; [|done].
  unfold zlen. rewrite length_take. lia.
Qed.

Ltac num_case c :=
  match goal with |- context [?n =? c] =>
    destruct (Z.eqb_spec n c) as [->|_]; cbn [orb];
    [cbv [SYS_WRITE SYS_READ SYS_OPEN SYS_CLOSE SYS_GETDENTS SYS_MKDIR SYS_UNLINK SYS_RMDIR SYS_CHDIR
          SYS_GETCWD Z.eqb Pos.eqb orb fst snd]|]
  end.

(** Any system call but [EXIT], over any file systems whose handles read in place. *)
Lemma syscall_frame ret num arg1 arg2 arg3 s o s' :
  reads_in_place -> 0 <= arg1 -> 0 <= arg2 -> 0 <= arg3 -> num ≠ SYS_EXIT ->
  syscall_handler (FS := FS) ret num arg1 arg2 arg3 s = (o, s') ->
  kernel_step (syscall_buf num arg1 arg2 arg3).1 (syscall_buf num arg1 arg2 arg3).2 s s'.
Proof.
  intros Hrd H1 H2 H3 Hne Hrun. replace s' with (syscall_handler (FS := FS) ret num arg1 arg2 arg3 s).2 by by rewrite Hrun.
  clear Hrun s' o. revert s. unfold syscall_handler, syscall_buf.
  destruct (Z.eqb_spec num SYS_EXIT) as [|_]; [done|].
  num_case SYS_WRITE. { unfold sys_write. destruct (_ || _); [by apply in_env_kernel, write_console_keeps|].
    apply keeps_unwrap_or; [apply _|]. by apply with_fd_keeps, write_fd_keeps. }
  num_case SYS_READ. { unfold sys_read. destruct (arg1 =? 0); [by apply in_env_kernel, read_console_keeps|].
    apply keeps_unwrap_or; [apply _|]. by apply with_fd_keeps, read_fd_keeps. }
  num_case SYS_OPEN. { apply sys_open_keeps. }
  num_case SYS_CLOSE. { by apply sys_close_keeps. }
  num_case SYS_GETDENTS. { apply keeps_unwrap_or; [apply _|]. by apply with_fd_keeps, getdents_fd_keeps. }
  num_case SYS_MKDIR. { apply (path_op_keeps _ _ _ _ (fun path _ v => vfs_mkdir v path)). }
  num_case SYS_UNLINK. { apply (path_op_keeps _ _ _ _ (fun path _ v => vfs_remove v path)). }
  num_case SYS_RMDIR. { apply (path_op_keeps _ _ _ _ (fun path _ v => vfs_rmdir v path)). }
  num_case SYS_CHDIR. { apply sys_chdir_keeps. }
  num_case SYS_GETCWD. { by apply sys_getcwd_keeps. }
  apply keeps_bind; [apply _|apply in_env_kernel, log_keeps|]. intros; apply keeps_ret; apply _.
Qed.
End frame.
