(* ===== verification/System.v ===== *)
(** * System: the file systems put together

    [setup_fs] and [mount_fat32] of [vcore/src/main.rs]: the values a
    [Box<dyn Filesystem>] and a [Box<dyn FileHandle>] take in this kernel, dispatch
    over them, and the mount table the boot ends with. *)
From Stdlib Require Import ZArith Lia.
From stdpp Require Import base numbers option list.
From S2P Require Import Prelude VfsTypes Path Vfs BTree TmpFs Pmm Block PartTable FatCodec Fat32 Task Sched LiveFs Syscall SyscallFacts.

Section system.
Context {DW D AS : Type} {BD : BlockDevice DW D} {UC : UnicodeCase}.
(** Fuel for the walks along FAT chains. *)
Variable fuel : nat.

Inductive AnyFs :=
| FsTmp
| FsFat (fs : Fat32Inner (Partition D))
| FsTasks
| FsMem
| FsDev.

Inductive AnyHandle :=
| HTmp (h : TmpFileHandle)
| HFat (fs : Fat32Inner (Partition D)) (h : FatFileHandle)
| HTask (h : TaskFileHandle)
| HMem (h : MemFileHandle)
| HDev (h : BlockDeviceHandle).

(** What the file systems hold: the tree of tmpfs, the registered devices, the
    disks, and the page allocator memfs reports on. *)
Record SysWorld := mkSys {
  sw_root : Node;
  sw_devs : list (rstr * D);
  sw_disk : DW;
  sw_pmm : option BitmapAllocator
}.

Definition set_root (n : Node) (w : SysWorld) : SysWorld := mkSys n (sw_devs w) (sw_disk w) (sw_pmm w).
Definition set_disk (d : DW) (w : SysWorld) : SysWorld := mkSys (sw_root w) (sw_devs w) d (sw_pmm w).
Definition dev_view (w : SysWorld) : list (rstr * D) * DW := (sw_devs w, sw_disk w).
Definition set_dev (s : list (rstr * D) * DW) (w : SysWorld) : SysWorld := mkSys (sw_root w) s.1 s.2 (sw_pmm w).
Definition same_world (w : SysWorld) : SysWorld := w.
Definition keep_world (w _ : SysWorld) : SysWorld := w.

Abbreviation SM := (M SysWorld VfsError).

(** ** Dispatch over [Box<dyn Filesystem>] *)
Section dispatch.
Context (w : World AnyHandle AS) {A : Type}.
(** A method, by the file system it is called on. *)
Context (meth : forall W' F' H', Filesystem W' F' H' -> F' -> M W' VfsError A).

Definition dispatch (f : AnyFs) : SM A := fun s =>
  match f with
  | FsTmp => zoom sw_root set_root (meth _ _ _ TmpFs_filesystem tt) s
  | FsFat fs => zoom sw_disk set_disk (meth _ _ _ (Fat32_filesystem fuel) fs) s
  | FsTasks => meth _ _ _ (TasksFs_filesystem (W := SysWorld) w) tt s
  | FsMem => meth _ _ _ (MemFs_filesystem (W := SysWorld) (sw_pmm s)) tt s
  | FsDev => zoom dev_view set_dev (meth _ _ _ DevFs_filesystem tt) s
  end.
End dispatch.

Definition any_open (w : World AnyHandle AS) (f : AnyFs) (path : rstr) (flags : OpenFlags.t) : SM AnyHandle := fun s =>
  match f with
  | FsTmp => zoom sw_root set_root (h ← tmp_open path flags; mret (HTmp h)) s
  | FsFat fs => zoom sw_disk set_disk (h ← fat_open fuel fs path flags; mret (HFat fs h)) s
  | FsTasks => (h ← task_open w path flags; mret (HTask h)) s
  | FsMem => (h ← mem_open (sw_pmm s) path flags; mret (HMem h)) s
  | FsDev => zoom dev_view set_dev (h ← dev_open path flags; mret (HDev h)) s
  end.

Definition any_filesystem (w : World AnyHandle AS) : Filesystem SysWorld AnyFs AnyHandle := {|
  fs_open := any_open w;
  fs_mkdir f path := dispatch w (fun _ _ _ _ f' => fs_mkdir f' path) f;
  fs_remove f path := dispatch w (fun _ _ _ _ f' => fs_remove f' path) f;
  fs_rmdir f path := dispatch w (fun _ _ _ _ f' => fs_rmdir f' path) f;
  fs_readdir f path := dispatch w (fun _ _ _ _ f' => fs_readdir f' path) f;
  fs_metadata f path := dispatch w (fun _ _ _ _ f' => fs_metadata f' path) f
|}.

(** ** Dispatch over [Box<dyn FileHandle>] *)
Definition on_part {W' H' A} (g : SysWorld -> W') (st : W' -> SysWorld -> SysWorld) (wrap : H' -> AnyHandle)
    (h : H') (m : M (H' * W') VfsError A) : M (AnyHandle * SysWorld) VfsError A := fun s =>
  let '(o, (h', w')) := m (h, g s.2) in (o, (wrap h', st w' s.2)).

Definition dispatch_handle {A}
    (meth : forall W' H', FileHandle W' H' -> M (H' * W') VfsError A) : M (AnyHandle * SysWorld) VfsError A := fun s =>
  match s.1 with
  | HTmp h => on_part sw_root set_root HTmp h (meth _ _ TmpFileHandle_handle) s
  | HFat fs h => on_part sw_disk set_disk (HFat fs) h (meth _ _ FatFileHandle_handle) s
  | HTask h => on_part same_world keep_world HTask h (meth _ _ TaskFileHandle_handle) s
  | HMem h => on_part same_world keep_world HMem h (meth _ _ MemFileHandle_handle) s
  | HDev h => on_part dev_view set_dev HDev h (meth _ _ BlockDeviceHandle_handle) s
  end.

#[export] Instance any_handle : FileHandle SysWorld AnyHandle := {
  fh_read buf := dispatch_handle (fun _ _ _ => fh_read buf);
  fh_write buf := dispatch_handle (fun _ _ _ => fh_write buf);
  fh_seek pos := dispatch_handle (fun _ _ _ => fh_seek pos);
  fh_metadata := dispatch_handle (fun _ _ _ => fh_metadata)
}.

(** Only FAT32 handles have a [Drop]. *)
#[export] Instance any_drop : DropHandle SysWorld AnyHandle := {
  drop_handle h := match h with
    | HFat fs h => zoom sw_disk set_disk (fat_drop fuel fs h)
    | _ => mret tt
    end
}.

(** ** Boot *)
Record Boot := mkBoot { b_vfs : Vfs AnyFs; b_world : SysWorld; b_lines : list rstr }.
Definition set_vfs (v : Vfs AnyFs) (b : Boot) : Boot := mkBoot v (b_world b) (b_lines b).
Definition set_world (w : SysWorld) (b : Boot) : Boot := mkBoot (b_vfs b) w (b_lines b).

Abbreviation BM := (M Boot).

(** A line on the console. *)
Definition log {E} (line : rstr) : BM E unit := b ← get; put (mkBoot (b_vfs b) (b_world b) (b_lines b ++ [line])).

(** [match m { Ok(a) => .., Err(e) => .. }]. *)
Definition attempt {T E A} (m : M T E A) : M T Empty_set (E + A) := fun s =>
  match m s with
  | (Ok a, s') => (Ok (inr a), s')
  | (Err e, s') => (Ok (inl e), s')
  | (Panic, s') => (Panic, s')
  | (Hang, s') => (Hang, s')
  end.

(** [expect]: an error panics. *)
Definition expect {S E E' A} (m : M S E A) : M S E' A := fun s =>
  match m s with
  | (Ok a, s') => (Ok a, s')
  | (Err _, s') | (Panic, s') => (Panic, s')
  | (Hang, s') => (Hang, s')
  end.

Definition mount {E} (path : rstr) (f : AnyFs) : BM E unit := zoom b_vfs set_vfs (expect (vfs_mount path f)).

Definition on_disk {A} (m : M DW rstr A) : BM rstr A :=
  zoom (fun b => sw_disk (b_world b)) (fun d b => set_world (set_disk d (b_world b)) b) m.

(** [AtaDisk::new], on the drive [ata]. *)
Definition AtaDisk_new (ata : D) : M DW rstr D := bd_read_sector ata 0 ;; mret ata.

Definition mount_fat32 (ata : D) : BM rstr unit :=
  disk ← on_disk (AtaDisk_new ata);
  part ← on_disk (first_partition disk);
  part_info ← ok_or (lit "no partitions found") part;
  let partition := Partition_new disk (pi_start_lba part_info) (pi_sector_count part_info) in
  fat ← on_disk (Fat32Fs_new partition);
  mount (lit "/") (FsFat fat) ;;
  log (lit "[*] mounted root at /").

(** [let _ = vfs::mkdir(path)], in the world [w]. *)
Definition boot_mkdir (w : World AnyHandle AS) (path : rstr) : BM Empty_set unit :=
  b ← get;
  _ ← catch (zoom b_world set_world (@vfs_mkdir _ _ _ (any_filesystem w) (b_vfs b) path));
  mret tt.

Definition setup_fs (w : World AnyHandle AS) (ata : D) : BM Empty_set unit :=
  r ← attempt (mount_fat32 ata);
  match r with
  | inr _ => mret tt
  | inl e =>
      log (lit "[E] failed to mount fat32, falling back to tmpfs, " ++ e) ;;
      mount (lit "/") FsTmp
  end ;;
  boot_mkdir w (lit "/live") ;;
  boot_mkdir w (lit "/live/tasks") ;;
  boot_mkdir w (lit "/live/mem") ;;
  boot_mkdir w (lit "/dev") ;;
  mount (lit "/live/tasks") FsTasks ;;
  mount (lit "/live/mem") FsMem ;;
  r ← catch (on_disk (AtaDisk_new ata));
  match r with
  | Some d => expect (zoom b_world set_world (zoom dev_view set_dev (register_device (lit "ata0") d)))
  | None => mret tt
  end ;;
  mount (lit "/dev") FsDev.

(** ** The mount table after boot *)
Lemma mount_fresh {E} path f b :
  existsb (fun m => bool_decide (m_path m = normalize_path path)) (mounts (b_vfs b)) = false ->
  (mount path f : BM E unit) b
    = (Ok tt, set_vfs (mkVfs (sort_by_len (mounts (b_vfs b) ++ [mkMount (normalize_path path) f]))) b).
Proof.
  intros Hn. unfold mount, zoom, expect, vfs_mount. rewrite bind_get, Hn. by destruct b.
Qed.

Lemma boot_mkdir_vfs w path b r b' : boot_mkdir w path b = (r, b') -> b_vfs b' = b_vfs b.
Proof.
  unfold boot_mkdir, catch, zoom. rewrite bind_get. unfold mbind, M_bind.
  destruct (vfs_mkdir (b_vfs b) path (b_world b)) as [[] ?]; by intros [= <- <-].
Qed.

Lemma on_disk_vfs {A} (m : M DW rstr A) b r b' : on_disk m b = (r, b') -> b_vfs b' = b_vfs b.
Proof. unfold on_disk, zoom. destruct (m _) as [o d]. by intros [= <- <-]. Qed.

Lemma expect_world_vfs {E E' A} (m : M SysWorld E A) b (a : A) b' :
  (expect (zoom b_world set_world m) : BM E' A) b = (Ok a, b') -> b_vfs b' = b_vfs b.
Proof. unfold expect, zoom. by destruct (m (b_world b)) as [[] ?]; intros [= <- <-]. Qed.

Lemma mount_fat32_vfs ata b r b' :
  b_vfs b = Vfs_new -> mount_fat32 ata b = (r, b') ->
  match r with
  | Ok _ => exists fs, b_vfs b' = mkVfs [mkMount [slash] (FsFat fs)]
  | _ => b_vfs b' = Vfs_new
  end.
Proof.
  intros Hb. unfold mount_fat32. unfold mbind, M_bind.
  destruct (on_disk (AtaDisk_new ata) b) as [[disk|e| |] b1] eqn:H1;
    apply on_disk_vfs in H1; try (intros [= <- <-]; congruence).
  destruct (on_disk (first_partition disk) b1) as [[part|e| |] b2] eqn:H2;
    apply on_disk_vfs in H2; try (intros [= <- <-]; congruence).
  destruct part as [p|]; cbn [ok_or]; [|intros [= <- <-]; congruence]. unfold mret, M_ret.
  destruct (on_disk (Fat32Fs_new _) b2) as [[fat|e| |] b3] eqn:H3;
    apply on_disk_vfs in H3; try (intros [= <- <-]; congruence).
  assert (b_vfs b3 = Vfs_new) as Hv by congruence.
  rewrite mount_fresh by by rewrite Hv. rewrite Hv. intros [= <- <-]. by exists fat.
Qed.

Definition boot_table (root : AnyFs) : list (Mount AnyFs) :=
  [mkMount (lit "/live/tasks") FsTasks; mkMount (lit "/live/mem") FsMem;
   mkMount (lit "/dev") FsDev; mkMount (lit "/") root].

Lemma boot_table_wf root : vfs_wf (mkVfs (boot_table root)).
Proof.
  split; cbn [mounts boot_table].
  - repeat (apply Forall_cons; split; [cbn [m_path]; by_decide|]). done.
  - cbn [fmap list_fmap m_path]. by_decide.
  - repeat constructor; unfold longer; vm_compute; congruence.
Qed.

Lemma setup_fs_table w ata b b' :
  b_vfs b = Vfs_new -> setup_fs w ata b = (Ok tt, b') ->
  exists root, mounts (b_vfs b') = boot_table root /\ vfs_wf (b_vfs b')
    /\ (root = FsTmp \/ exists fs, root = FsFat fs).
Proof.
  intros Hb Hrun. unfold setup_fs in Hrun.
  apply bind_ok_inv in Hrun as (r & b1 & H1 & Hrun). apply bind_ok_inv in Hrun as (u & b2 & H2 & Hrun).
  assert (exists root, b_vfs b2 = mkVfs [mkMount [slash] root] /\ (root = FsTmp \/ exists fs, root = FsFat fs))
    as (root & Hroot & Hkind).
  { unfold attempt in H1. destruct (mount_fat32 ata b) as [o b1'] eqn:Hm. apply mount_fat32_vfs in Hm; [|done].
    destruct o; simplify_eq.
    - injection H2 as _ ->. destruct Hm as [fs Hfs]. exists (FsFat fs). eauto.
    - unfold log in H2. rewrite bind_assoc, bind_get, bind_put in H2. rewrite mount_fresh in H2 by (cbn [b_vfs]; by rewrite Hm).
      injection H2 as _ <-. exists FsTmp. cbn. rewrite Hm. split; [done|by left]. }
  apply bind_ok_inv in Hrun as (? & b3 & H3%boot_mkdir_vfs & Hrun). apply bind_ok_inv in Hrun as (? & b4 & H4%boot_mkdir_vfs & Hrun).
  apply bind_ok_inv in Hrun as (? & b5 & H5%boot_mkdir_vfs & Hrun). apply bind_ok_inv in Hrun as (? & b6 & H6%boot_mkdir_vfs & Hrun).
  assert (b_vfs b6 = mkVfs [mkMount [slash] root]) as Hv by congruence. clear H1 H2 H3 H4 H5 H6 Hroot.
  rewrite (bind_ok _ _ _ _ _ (mount_fresh (lit "/live/tasks") FsTasks b6 ltac:(by rewrite Hv))) in Hrun. rewrite Hv in Hrun.
  set (b7 := set_vfs _ b6) in Hrun.
  rewrite (bind_ok _ _ _ _ _ (mount_fresh (lit "/live/mem") FsMem b7 ltac:(done))) in Hrun.
  set (b8 := set_vfs _ b7) in Hrun.
  apply bind_ok_inv in Hrun as (d & b9 & H9 & Hrun). apply bind_ok_inv in Hrun as (? & b10 & H10 & Hrun).
  assert (b_vfs b10 = b_vfs b8) as Hv10.
  { assert (b_vfs b9 = b_vfs b8) as <-.
    { unfold catch in H9. destruct (on_disk (AtaDisk_new ata) b8) as [o ?] eqn:Ho. apply on_disk_vfs in Ho.
      destruct o; try discriminate; by injection H9 as _ <-. }
    destruct d; [by eapply expect_world_vfs|by apply ret_inv in H10 as [_ <-]]. }
  rewrite (mount_fresh (lit "/dev") FsDev b10) in Hrun by by rewrite Hv10. injection Hrun as <-.
  exists root. cbn [b_vfs set_vfs]. rewrite Hv10. split_and!; [done|apply boot_table_wf|done].
Qed.

(** C28: Whatever the disk holds: a boot that gets through ends with this table. *)
Theorem setup_fs_mounts w ata b b' :
  b_vfs b = Vfs_new -> setup_fs w ata b = (Ok tt, b') ->
  exists root, mounts (b_vfs b') = boot_table root /\ vfs_wf (b_vfs b')
    /\ (root = FsTmp \/ exists fs, root = FsFat fs).
Proof. apply setup_fs_table. Qed.

(** ** System calls on these file systems *)

(** A read copies into the front of the caller's buffer. *)
Lemma splice_front_le (buf src : bytes) k n :
  (n <= length buf)%nat -> zlen (splice buf 0 (slice src k (k + n))) = zlen buf.
Proof.
  intros Hn. unfold zlen. rewrite length_splice; [done|].
  unfold slice. rewrite length_take. lia.
Qed.

Lemma cursor_read_length data pos buf n buf' p :
  cursor_read data pos buf = Ok (n, buf', p) -> zlen buf' = zlen buf.
Proof.
  unfold cursor_read. cbn zeta. repeat case_bool; try discriminate.
  intros [= <- <- <-]. apply splice_front_le. unfold zlen. lia.
Qed.

Lemma any_handle_reads_in_place : reads_in_place (W := SysWorld) (H := AnyHandle).
Proof.
  intros buf [h s] s' n buf'. unfold fh_read, any_handle, dispatch_handle. cbn [fst].
  destruct h as [h|fs h|h|h|h]; unfold on_part; cbn [fst snd fh_read TmpFileHandle_handle FatFileHandle_handle
    TaskFileHandle_handle MemFileHandle_handle BlockDeviceHandle_handle].
  - unfold tmp_read. rewrite bind_get. case_bool; [done|].
    destruct (cursor_read _ _ _) as [[[? ?] ?]|e| |] eqn:Hc; try done.
    apply cursor_read_length in Hc. cbn. by intros [= <- <- <-].
  - unfold fat_read. rewrite bind_get.
    destruct (cursor_read _ _ _) as [[[? ?] ?]|e| |] eqn:Hc; try done.
    apply cursor_read_length in Hc. cbn. by intros [= <- <- <-].
  - unfold task_read. rewrite bind_get.
    destruct (cursor_read _ _ _) as [[[? ?] ?]|e| |] eqn:Hc; try done.
    apply cursor_read_length in Hc. cbn. by intros [= <- <- <-].
  - unfold mem_read. rewrite bind_get.
    destruct (cursor_read _ _ _) as [[[? ?] ?]|e| |] eqn:Hc; try done.
    apply cursor_read_length in Hc. cbn. by intros [= <- <- <-].
  - unfold dev_read. rewrite bind_get. cbn [dev_view].
    destruct (BTree.bt_get _ _) as [dev|]; [|done]. rewrite bind_ok_or_some. cbn zeta.
    unfold mbind, M_bind at 1. destruct (on_device _ _) as [[sector| | |] [h' st]]; try done.
    cbn. destruct st. cbn. intros [= <- <- <-]. apply splice_front_le. unfold zlen, sat_sub. lia.
Qed.

(** C20: In the kernel as it is put together (tmpfs, FAT32, the device, memory and task
    file systems behind one mount table), no system call but [EXIT] - whatever its
    number and arguments, and whether it succeeds, fails or panics - touches more
    than it is allowed to: of the tasks, only the descriptors and the directory of the
    current one change (the descriptor table keeps its shape and its console entries,
    the directory stays canonical); the mount table stays; the console only grows; and
    of the program's memory only the call's own buffer may change. *)
Theorem system_call_frame ret num arg1 arg2 arg3 s o s' :
  0 <= arg1 -> 0 <= arg2 -> 0 <= arg3 -> num ≠ SYS_EXIT ->
  syscall_handler (FS := any_filesystem) ret num arg1 arg2 arg3 s = (o, s') ->
  kernel_step (W := SysWorld) (F := AnyFs) (H := AnyHandle) (AS := AS)
    (syscall_buf num arg1 arg2 arg3).1 (syscall_buf num arg1 arg2 arg3).2 s s'.
Proof. apply syscall_frame, any_handle_reads_in_place. Qed.
End system.
