(* ===== verification/SyscallEntry.v ===== *)
(** * SyscallEntry: the way into and out of the kernel

    The assembly of [vcore/src/cpu/syscall.rs] ([syscall_entry],
    [jump_to_usermode]), the set-up in [init], and the [syscall] blocks of
    [user/vlib/src/syscalls.rs].  A processor has its registers, the two GS bases,
    the privilege level and a memory of 8-byte words; the stub is the list of its
    instructions.  [handler] is the compiled [syscall_handler], of which only the
    calling convention is used. *)
From Stdlib Require Import ZArith Lia.
From stdpp Require Import base numbers option list.
From S2P Require Import Prelude.

Inductive reg :=
| RAX | RBX | RCX | RDX | RSI | RDI | RBP | RSP
| R8 | R9 | R10 | R11 | R12 | R13 | R14 | R15.
#[export] Instance reg_eq_dec : EqDecision reg.
Proof. solve_decision. Defined.

Record Cpu := mkCpu {
  rf : reg -> Z;
  rip : Z;
  rflags : Z;
  gs_base : Z;
  kernel_gs : Z;     (* the MSR [swapgs] exchanges with *)
  user_mode : bool;
  words : Z -> Z;
  lstar : Z;
  sfmask : Z
}.

Definition set_reg (r : reg) (v : Z) (c : Cpu) : Cpu :=
  mkCpu (fun r' => if decide (r' = r) then v else rf c r') (rip c) (rflags c) (gs_base c) (kernel_gs c)
    (user_mode c) (words c) (lstar c) (sfmask c).
Definition set_word (a v : Z) (c : Cpu) : Cpu :=
  mkCpu (rf c) (rip c) (rflags c) (gs_base c) (kernel_gs c) (user_mode c)
    (fun a' => if decide (a' = a) then v else words c a') (lstar c) (sfmask c).

Inductive instr :=
| Swapgs
| MovGsRsp (off : Z)              (* mov gs:[off], rsp *)
| MovRspGs (off : Z)              (* mov rsp, gs:[off] *)
| Push (r : reg)
| PushImm (v : Z)
| Pop (r : reg)
| Mov (dst src : reg)
| MovStack (dst : reg) (off : Z)  (* mov dst, [rsp + off] *)
| AddRsp (n : Z)
| CallHandler
| Sysretq
| Iretq.

(** [sysretq] loads the flags from [r11] under this mask, and sets bit 1. *)
Definition SYSRET_MASK : Z := 0x3C7FD7.

Section exec.
Context (handler : Cpu -> Cpu).

Definition push (v : Z) (c : Cpu) : Cpu :=
  let sp := rf c RSP - 8 in set_word sp v (set_reg RSP sp c).

Definition exec (i : instr) (c : Cpu) : Cpu :=
  match i with
  | Swapgs => mkCpu (rf c) (rip c) (rflags c) (kernel_gs c) (gs_base c) (user_mode c) (words c) (lstar c) (sfmask c)
  | MovGsRsp off => set_word (gs_base c + off) (rf c RSP) c
  | MovRspGs off => set_reg RSP (words c (gs_base c + off)) c
  | Push r => push (rf c r) c
  | PushImm v => push v c
  | Pop r => set_reg r (words c (rf c RSP)) (set_reg RSP (rf c RSP + 8) c)
  | Mov dst src => set_reg dst (rf c src) c
  | MovStack dst off => set_reg dst (words c (rf c RSP + off)) c
  | AddRsp n => set_reg RSP (rf c RSP + n) c
  | CallHandler => handler c
  | Sysretq => mkCpu (rf c) (rf c RCX) (Z.lor (Z.land (rf c R11) SYSRET_MASK) 2) (gs_base c) (kernel_gs c)
                 true (words c) (lstar c) (sfmask c)
  | Iretq =>
      let sp := rf c RSP in
      set_reg RSP (words c (sp + 24))
        (mkCpu (rf c) (words c sp) (words c (sp + 16)) (gs_base c) (kernel_gs c)
           (Z.land (words c (sp + 8)) 3 =? 3) (words c) (lstar c) (sfmask c))
  end.

Fixpoint run (prog : list instr) (c : Cpu) : Cpu :=
  match prog with [] => c | i :: prog' => run prog' (exec i c) end.

(** The [syscall] instruction: [next] is the address after it. *)
Definition syscall_instr (next : Z) (c : Cpu) : Cpu :=
  let c := set_reg RCX next (set_reg R11 (rflags c) c) in
  mkCpu (rf c) (lstar c) (Z.ldiff (rflags c) (sfmask c)) (gs_base c) (kernel_gs c) false (words c) (lstar c) (sfmask c).

(** The registers [syscall_entry] saves, in the order it pushes them. *)
Definition saved_regs : list reg :=
  [RCX; R11; RAX; RDI; RSI; RDX; R10; R8; R9; RBX; RBP; R12; R13; R14; R15].

Definition entry_save : list instr :=
  [Swapgs; MovGsRsp 0; MovRspGs 8;
   Push RCX; Push R11; Push RAX;
   Push RDI; Push RSI; Push RDX; Push R10; Push R8; Push R9; Push RBX; Push RBP;
   Push R12; Push R13; Push R14; Push R15;
   Mov RDI RAX; MovStack RSI (11 * 8); MovStack RDX (10 * 8); MovStack RCX (9 * 8);
   MovStack R8 (8 * 8); MovStack R9 (7 * 8)].

Definition entry_restore : list instr :=
  [Pop R15; Pop R14; Pop R13; Pop R12; Pop RBP; Pop RBX; Pop R9; Pop R8; Pop R10; Pop RDX; Pop RSI; Pop RDI;
   AddRsp 8; Pop R11; Pop RCX;
   MovRspGs 0; Swapgs; Sysretq].

Definition syscall_entry : list instr := entry_save ++ [CallHandler] ++ entry_restore.

(** A [syscall] executed by a program, up to its return. *)
Definition do_syscall (next : Z) (c : Cpu) : Cpu := run syscall_entry (syscall_instr next c).

(** The state in which the stub calls the handler. *)
Definition at_call (next : Z) (c : Cpu) : Cpu := run entry_save (syscall_instr next c).
End exec.

(** [init]: the entry point, an empty flag mask, and [CPU_LOCAL] with the top of
    [SYSCALL_STACK] behind the inactive GS base. *)
Definition SYSCALL_STACK_LEN : Z := 4096 * 4.
Definition syscall_init (entry cpu_local stack : Z) (c : Cpu) : Cpu :=
  set_word (cpu_local + 8) (stack + SYSCALL_STACK_LEN)
    (mkCpu (rf c) (rip c) (rflags c) (gs_base c) cpu_local (user_mode c) (words c) entry 0).

(** [jump_to_usermode]: an interrupt frame and [iretq]. *)
Definition jump_to_usermode (user_cs user_ss entry user_stack : Z) (c : Cpu) : Cpu :=
  run id [PushImm user_ss; PushImm user_stack; PushImm 0x202; PushImm user_cs; PushImm entry; Iretq] c.

(** The [asm!] blocks of [vlib]'s [syscall0] to [syscall5]: registers in, [rax] out. *)
Definition asm_syscall0 (handler : Cpu -> Cpu) (next num : Z) (c : Cpu) : Cpu :=
  do_syscall handler next (set_reg RAX num c).
Definition asm_syscall1 (handler : Cpu -> Cpu) (next num arg1 : Z) (c : Cpu) : Cpu :=
  do_syscall handler next (set_reg RDI arg1 (set_reg RAX num c)).
Definition asm_syscall2 (handler : Cpu -> Cpu) (next num arg1 arg2 : Z) (c : Cpu) : Cpu :=
  do_syscall handler next (set_reg RSI arg2 (set_reg RDI arg1 (set_reg RAX num c))).
Definition asm_syscall3 (handler : Cpu -> Cpu) (next num arg1 arg2 arg3 : Z) (c : Cpu) : Cpu :=
  do_syscall handler next (set_reg RDX arg3 (set_reg RSI arg2 (set_reg RDI arg1 (set_reg RAX num c)))).
Definition asm_syscall4 (handler : Cpu -> Cpu) (next num arg1 arg2 arg3 arg4 : Z) (c : Cpu) : Cpu :=
  do_syscall handler next
    (set_reg R10 arg4 (set_reg RDX arg3 (set_reg RSI arg2 (set_reg RDI arg1 (set_reg RAX num c))))).

Definition asm_syscall5 (handler : Cpu -> Cpu) (next num arg1 arg2 arg3 arg4 arg5 : Z) (c : Cpu) : Cpu :=
  do_syscall handler next
    (set_reg R8 arg5 (set_reg R10 arg4 (set_reg RDX arg3 (set_reg RSI arg2 (set_reg RDI arg1 (set_reg RAX num c)))))).

(** ** Transparency *)

(** What the stub relies on: the calling convention, and that the handler leaves
    alone the frame above its stack pointer and [CPU_LOCAL]. *)
Record abi (handler : Cpu -> Cpu) (cpu_local : Z) : Prop := {
  abi_regs : forall c r, r ∈ [RBX; RBP; RSP; R12; R13; R14; R15] -> rf (handler c) r = rf c r;
  abi_gs : forall c, gs_base (handler c) = gs_base c /\ kernel_gs (handler c) = kernel_gs c;
  abi_msr : forall c, lstar (handler c) = lstar c /\ sfmask (handler c) = sfmask c;
  abi_frame : forall c a, rf c RSP <= a < rf c RSP + 120 -> words (handler c) a = words c a;
  abi_local : forall c a, a = cpu_local \/ a = cpu_local + 8 -> words (handler c) a = words c a
}.

(** A processor running a program: [CPU_LOCAL] is behind the inactive GS base, with
    a kernel stack that does not overlap it. *)
Record user_ready (cpu_local : Z) (c : Cpu) : Prop := {
  ur_gs : kernel_gs c = cpu_local;
  ur_user : user_mode c = true;
  ur_stack : words c (cpu_local + 8) <= cpu_local \/ cpu_local + 16 <= words c (cpu_local + 8) - 120
}.


Lemma set_reg_same r v c : rf (set_reg r v c) r = v.
Proof. simpl. by rewrite decide_True. Qed.
Lemma set_reg_other r r' v c : r' ≠ r -> rf (set_reg r v c) r' = rf c r'.
Proof. intros Hne. simpl. by rewrite decide_False. Qed.

Lemma syscall_instr_rf next c r : r ≠ RCX -> r ≠ R11 -> rf (syscall_instr next c) r = rf c r.
Proof. intros H1 H2. unfold syscall_instr. cbn [rf]. by rewrite !set_reg_other. Qed.

Section run_lemmas.
Context (handler : Cpu -> Cpu).
Implicit Types (c : Cpu).

(** Everything but the general registers and memory. *)
Definition same_mode c c' : Prop :=
  gs_base c' = gs_base c /\ kernel_gs c' = kernel_gs c /\ lstar c' = lstar c /\ sfmask c' = sfmask c
  /\ user_mode c' = user_mode c.

Lemma run_app l1 l2 c : run handler (l1 ++ l2) c = run handler l2 (run handler l1 c).
Proof. revert c. induction l1 as [|i l1 IH]; intros c; [done|]. apply IH. Qed.

Lemma run_pushes rs c : RSP ∉ rs ->
  let k := run handler (Push <$> rs) c in
  same_mode c k
  /\ rf k RSP = rf c RSP - 8 * zlen rs
  /\ (forall r, r ≠ RSP -> rf k r = rf c r)
  /\ (forall i r, rs !! i = Some r -> words k (rf c RSP - 8 - 8 * Z.of_nat i) = rf c r)
  /\ (forall a, a < rf c RSP - 8 * zlen rs \/ rf c RSP <= a -> words k a = words c a).
Proof.
  revert c. induction rs as [|r0 rs IH]; intros c Hn; cbn [fmap list_fmap run].
  { change (zlen (@nil reg)) with 0. split_and!; try done; lia. }
  apply not_elem_of_cons in Hn as [Hr0 Hn]. destruct (IH (exec handler (Push r0) c) Hn) as (Hm & Hs & Hr & Hw & Ho).
  assert (rf (exec handler (Push r0) c) RSP = rf c RSP - 8) as H0 by done.
  assert (forall r, r ≠ RSP -> rf (exec handler (Push r0) c) r = rf c r) as H1
    by (intros r Hne; simpl; by rewrite decide_False).
  assert (zlen (r0 :: rs) = zlen rs + 1) as Hl by (unfold zlen; simpl; lia).
  assert (0 <= zlen rs) by (unfold zlen; lia).
  rewrite H0 in *. split_and!.
  - done.
  - lia.
  - intros r Hne. rewrite Hr by done. auto.
  - intros [|i] r Hi; simplify_eq/=.
    + rewrite Ho by lia. by rewrite decide_True by lia.
    + replace (rf c RSP - 8 - 8 * Z.of_nat (S i)) with (rf c RSP - 8 - 8 - 8 * Z.of_nat i) by lia.
      rewrite (Hw i r Hi). apply H1. intros ->. apply Hn. by eapply list_elem_of_lookup_2.
  - intros a Ha. rewrite Ho by lia. simpl. by rewrite decide_False by lia.
Qed.

Lemma run_pops rs c : NoDup rs -> RSP ∉ rs ->
  let k := run handler (Pop <$> rs) c in
  same_mode c k /\ words k = words c
  /\ rf k RSP = rf c RSP + 8 * zlen rs
  /\ (forall i r, rs !! i = Some r -> rf k r = words c (rf c RSP + 8 * Z.of_nat i))
  /\ (forall r, r ≠ RSP -> r ∉ rs -> rf k r = rf c r).
Proof.
  intros Hd. revert c. induction Hd as [|r0 rs Hin Hd IH]; intros c Hn; cbn [fmap list_fmap run].
  { change (zlen (@nil reg)) with 0. split_and!; try done; lia. }
  apply not_elem_of_cons in Hn as [Hr0 Hn]. destruct (IH (exec handler (Pop r0) c) Hn) as (Hm & Hw & Hs & Hr & Ho).
  assert (rf (exec handler (Pop r0) c) RSP = rf c RSP + 8) as H0 by (simpl; by rewrite decide_False).
  assert (zlen (r0 :: rs) = zlen rs + 1) as Hl by (unfold zlen; simpl; lia).
  rewrite H0 in *. split_and!.
  - done.
  - by rewrite Hw.
  - lia.
  - intros [|i] r Hi; simplify_eq/=.
    + rewrite Ho by done. simpl. rewrite decide_True by done. f_equal. lia.
    + rewrite (Hr i r Hi). f_equal. lia.
  - intros r Hne [Hr' Hrs]%not_elem_of_cons. rewrite Ho by done. simpl. by rewrite !decide_False.
Qed.

Lemma run_loads (ds : list (reg * Z)) c : NoDup ds.*1 -> RSP ∉ ds.*1 ->
  let k := run handler ((fun d => MovStack d.1 d.2) <$> ds) c in
  same_mode c k /\ words k = words c
  /\ (forall d, d ∈ ds -> rf k d.1 = words c (rf c RSP + d.2))
  /\ (forall r, r ∉ ds.*1 -> rf k r = rf c r).
Proof.
  revert c. induction ds as [|[r0 o0] ds IH]; intros c Hd Hn; cbn [fmap list_fmap run] in *.
  { split_and!; try done. intros d Hd'. by apply elem_of_nil in Hd'. }
  apply NoDup_cons in Hd as [Hin Hd]. apply not_elem_of_cons in Hn as [Hr0 Hn].
  destruct (IH (exec handler (MovStack r0 o0) c) Hd Hn) as (Hm & Hw & Hr & Ho). cbn [exec fst snd] in *.
  split_and!; [done|by rewrite Hw| |].
  - intros d [->|Hd']%elem_of_cons.
    + cbn [fst snd]. rewrite Ho by done. apply set_reg_same.
    + rewrite (Hr d Hd'), set_reg_other by done. done.
  - intros r [Hne Hr']%not_elem_of_cons. rewrite Ho by done. by apply set_reg_other.
Qed.
End run_lemmas.

Lemma saved_not_rsp i r : saved_regs !! i = Some r -> r ≠ RSP.
Proof.
  intros Hi%list_elem_of_lookup_2 ->. revert Hi. change (RSP ∉ saved_regs). by_decide.
Qed.

(** The stub as phases: switch stacks, save, load the arguments. *)
Lemma entry_save_phases :
  entry_save = [Swapgs; MovGsRsp 0; MovRspGs 8] ++ (Push <$> saved_regs) ++ [Mov RDI RAX]
    ++ ((fun d => MovStack d.1 d.2) <$> [(RSI, 88); (RDX, 80); (RCX, 72); (R8, 64); (R9, 56)]).
Proof. reflexivity. Qed.

Lemma enter_stack handler next cpu_local c :
  kernel_gs c = cpu_local -> words c (cpu_local + 8) <= cpu_local \/ cpu_local + 16 <= words c (cpu_local + 8) - 120 ->
  let c1 := run handler [Swapgs; MovGsRsp 0; MovRspGs 8] (syscall_instr next c) in
  let top := words c (cpu_local + 8) in
  rf c1 RSP = top /\ gs_base c1 = cpu_local /\ kernel_gs c1 = gs_base c /\ words c1 cpu_local = rf c RSP
  /\ words c1 (cpu_local + 8) = top
  /\ (forall r, r ≠ RSP -> rf c1 r = rf (syscall_instr next c) r).
Proof.
  intros Hgs Hst. cbn [run exec]. split_and!; simpl; rewrite ?Hgs; try done.
  - by rewrite decide_False by lia.
  - by rewrite decide_True by lia.
  - by rewrite decide_False by lia.
  - intros r Hr. by rewrite decide_False.
Qed.

Lemma load_args handler c :
  let k := run handler ([Mov RDI RAX]
    ++ ((fun d => MovStack d.1 d.2) <$> [(RSI, 88); (RDX, 80); (RCX, 72); (R8, 64); (R9, 56)])) c in
  gs_base k = gs_base c /\ kernel_gs k = kernel_gs c /\ words k = words c /\ rf k RDI = rf c RAX
  /\ (rf k RSI, rf k RDX, rf k RCX, rf k R8, rf k R9)
     = (words c (rf c RSP + 88), words c (rf c RSP + 80), words c (rf c RSP + 72),
        words c (rf c RSP + 64), words c (rf c RSP + 56))
  /\ (forall r, (r ∉ [RSI; RDX; RCX; R8; R9]) -> r ≠ RDI -> rf k r = rf c r).
Proof.
  rewrite run_app. cbn [run exec]. set (c3 := set_reg RDI (rf c RAX) c).
  assert (rf c3 RSP = rf c RSP) as Hs by by apply set_reg_other.
  destruct (run_loads handler [(RSI, 88); (RDX, 80); (RCX, 72); (R8, 64); (R9, 56)] c3)
    as ((Hk1 & Hk2 & _) & Hkw & Hkr & Hko); [by_decide..|]. rewrite Hs in Hkr.
  split_and!; [exact Hk1|exact Hk2|exact Hkw| | |].
  - rewrite Hko by by_decide. apply set_reg_same.
  - pose proof (Hkr (RSI, 88) ltac:(by_decide)) as K1. pose proof (Hkr (RDX, 80) ltac:(by_decide)) as K2.
    pose proof (Hkr (RCX, 72) ltac:(by_decide)) as K3. pose proof (Hkr (R8, 64) ltac:(by_decide)) as K4.
    pose proof (Hkr (R9, 56) ltac:(by_decide)) as K5. cbn [fst snd] in K1, K2, K3, K4, K5.
    by rewrite K1, K2, K3, K4, K5.
  - intros r Hn Hd. rewrite Hko by exact Hn. by apply set_reg_other.
Qed.

(** The frame the stub builds below the top of the kernel stack. *)
Lemma at_call_frame handler next cpu_local c :
  user_ready cpu_local c ->
  let k := at_call handler next c in let top := words c (cpu_local + 8) in
  rf k RSP = top - 120
  /\ gs_base k = cpu_local /\ kernel_gs k = gs_base c
  /\ words k cpu_local = rf c RSP /\ words k (cpu_local + 8) = top
  /\ (forall i r, saved_regs !! i = Some r ->
        words k (top - 8 - 8 * Z.of_nat i) = rf (syscall_instr next c) r)
  /\ (rf k RDI, rf k RSI, rf k RDX, rf k RCX, rf k R8, rf k R9)
     = (rf c RAX, rf c RDI, rf c RSI, rf c RDX, rf c R10, rf c R8)
  /\ (forall r, r ∈ [RBX; RBP; R12; R13; R14; R15] -> rf k r = rf c r).
Proof.
  intros [Hgs Hu Hst]. cbv zeta. unfold at_call.
  rewrite entry_save_phases, !run_app.
  destruct (enter_stack handler next cpu_local c Hgs ltac:(lia)) as (H1 & H2 & H3 & H4 & H5 & H6).
  set (c1 := run handler [_; _; _] _) in *. clearbody c1. set (top := words c (cpu_local + 8)) in *.
  destruct (run_pushes handler saved_regs c1) as (Hm & Hs & Hr & Hw & Ho);
    [by_decide|].
  set (c2 := run handler (Push <$> saved_regs) c1) in *. clearbody c2.
  change (zlen saved_regs) with 15 in *. rewrite H1 in *. destruct Hm as (Hm1 & Hm2 & _).
  assert (forall i r off, saved_regs !! i = Some r -> off = 8 * (14 - Z.of_nat i) ->
    words c2 (rf c2 RSP + off) = rf (syscall_instr next c) r) as Hget.
  { intros i r off Hi ->. rewrite Hs. rewrite <- H6, <- (Hw i r Hi); [f_equal; lia|].
    by eapply saved_not_rsp. }
  rewrite <- (run_app handler [Mov RDI RAX]).
  destruct (load_args handler c2) as (Hk1 & Hk2 & Hkw2 & Hkd & Hkr & Hk).
  set (k := run handler _ c2) in *. clearbody k.
  rewrite Hkw2. split_and!.
  - rewrite Hk by (done || by_decide). lia.
  - congruence.
  - congruence.
  - rewrite Ho by lia. done.
  - rewrite Ho by lia. done.
  - intros i r Hi. rewrite (Hw i r Hi). apply H6. by eapply saved_not_rsp.
  - injection Hkr as -> -> -> -> ->. rewrite Hkd, Hr, H6 by done.
    rewrite (Hget 3%nat RDI), (Hget 4%nat RSI), (Hget 5%nat RDX), (Hget 6%nat R10), (Hget 7%nat R8) by (done || lia).
    done.
  - intros r Hin. assert ((r ∉ [RSI; RDX; RCX; R8; R9]) /\ r ≠ RDI /\ r ≠ RSP /\ r ≠ RCX /\ r ≠ R11) as (? & ? & ? & ? & ?).
    { revert r Hin. apply Forall_forall. by_decide. }
    by rewrite Hk, Hr, H6, syscall_instr_rf.
Qed.

Lemma leave_stack handler c :
  let f := run handler [AddRsp 8; Pop R11; Pop RCX; MovRspGs 0; Swapgs; Sysretq] c in
  rf f RSP = words c (gs_base c) /\ rip f = words c (rf c RSP + 16)
  /\ rflags f = Z.lor (Z.land (words c (rf c RSP + 8)) SYSRET_MASK) 2
  /\ gs_base f = kernel_gs c /\ kernel_gs f = gs_base c /\ words f = words c /\ user_mode f = true
  /\ (forall r, (r ∉ [RSP; R11; RCX]) -> rf f r = rf c r).
Proof.
  cbn [run exec]. split_and!; simpl; try done.
  - f_equal. lia.
  - f_equal. lia.
  - intros r Hr. repeat (apply not_elem_of_cons in Hr as [? Hr]). by rewrite !decide_False.
Qed.

(** C21: A system call is transparent to the program that makes it: the handler is
    called with the number and the five arguments of the calling convention of the
    kernel, its result comes back in [rax], every other register but [rcx] and
    [r11] (the stack pointer included) is what it was, execution continues after
    the [syscall] instruction in user mode with the program's flags and GS base,
    and the processor is ready for the next call. *)
Theorem syscall_transparent handler cpu_local next c :
  abi handler cpu_local -> user_ready cpu_local c ->
  let k := at_call handler next c in let f := do_syscall handler next c in
  (rf k RDI, rf k RSI, rf k RDX, rf k RCX, rf k R8, rf k R9)
    = (rf c RAX, rf c RDI, rf c RSI, rf c RDX, rf c R10, rf c R8)
  /\ rf f RAX = rf (handler k) RAX
  /\ (forall r, r ∉ [RAX; RCX; R11] -> rf f r = rf c r)
  /\ rip f = next /\ rflags f = Z.lor (Z.land (rflags c) SYSRET_MASK) 2
  /\ gs_base f = gs_base c /\ user_ready cpu_local f.
Proof.
  intros [Habi Hags Hamsr Hafr Haloc] Hu. cbv zeta.
  destruct (at_call_frame handler next cpu_local c Hu) as (Hs & Hg & Hkg & Hw0 & Hw8 & Hfr & Hargs & Hcallee).
  destruct Hu as [Hgs Hum Hst]. set (top := words c (cpu_local + 8)) in *.
  split; [exact Hargs|]. unfold do_syscall, syscall_entry. rewrite !run_app. fold (at_call handler next c).
  set (k := at_call handler next c) in *. cbn [run exec]. clearbody k.
  destruct (Hags k) as [Hg' Hkg']. pose proof (Habi k RSP ltac:(by_decide)) as Hs'.
  assert (forall i r, saved_regs !! i = Some r ->
    words (handler k) (rf (handler k) RSP + 8 * (14 - Z.of_nat i)) = rf (syscall_instr next c) r) as Hget.
  { intros i r Hi. pose proof (lookup_lt_Some _ _ _ Hi) as Hlt. change (length saved_regs) with 15%nat in Hlt.
    rewrite <- (Hfr i r Hi), Hafr; [f_equal; lia|lia]. }
  pose proof (Haloc k cpu_local ltac:(by left)) as Hl0. pose proof (Haloc k (cpu_local + 8) ltac:(by right)) as Hl8.
  set (h := handler k) in *. clearbody h.
  change entry_restore with ((Pop <$> [R15; R14; R13; R12; RBP; RBX; R9; R8; R10; RDX; RSI; RDI])
    ++ [AddRsp 8; Pop R11; Pop RCX; MovRspGs 0; Swapgs; Sysretq]).
  rewrite run_app. set (rs := [R15; _; _; _; _; _; _; _; _; _; _; _]).
  destruct (run_pops handler rs h) as ((Hm1 & Hm2 & _) & Hpw & Hps & Hpr & Hpo); [by_decide..|].
  set (p := run handler (Pop <$> rs) h) in *. clearbody p. change (8 * zlen rs) with 96 in Hps.
  assert (forall r, r ∈ rs -> rf p r = rf c r) as Hrestored.
  { intros r [j Hj]%list_elem_of_lookup. rewrite (Hpr j r Hj). pose proof (lookup_lt_Some _ _ _ Hj) as Hlt.
    change (length rs) with 12%nat in Hlt.
    assert (saved_regs !! (14 - j)%nat = Some r) as Hsv by (do 12 (destruct j as [|j]; [exact Hj|]); lia).
    replace (8 * Z.of_nat j) with (8 * (14 - Z.of_nat (14 - j))) by lia. rewrite (Hget _ _ Hsv).
    unfold syscall_instr. cbn [rf]. rewrite !set_reg_other; [done| |].
    - intros ->. do 12 (destruct j as [|j]; [discriminate Hj|]). lia.
    - intros ->. do 12 (destruct j as [|j]; [discriminate Hj|]). lia. }
  destruct (leave_stack handler p) as (L1 & L2 & L3 & L4 & L5 & L6 & L7 & L8).
  set (f := run handler [AddRsp 8; Pop R11; Pop RCX; MovRspGs 0; Swapgs; Sysretq] p) in *. clearbody f.
  pose proof (Hget 1%nat R11 eq_refl) as G11. pose proof (Hget 0%nat RCX eq_refl) as G0.
  assert (rf f RSP = rf c RSP) as Hsp by congruence.
  split_and!.
  - rewrite L8 by by_decide. apply Hpo; [done|by_decide].
  - intros r Hr. destruct (decide (r = RSP)) as [->|Hrs]; [done|].
    assert (((r ∉ [RSP; R11; RCX]) /\ (r ∈ rs)) \/ r ∈ [RAX; RCX; R11; RSP]) as [[? ?]|Hx].
    { clear -rs. revert r. destruct r; (right; by_decide) || (left; split; by_decide). }
    + rewrite L8 by done. by apply Hrestored.
    + repeat (apply elem_of_cons in Hx as [->|Hx]; [by try (destruct Hr; by_decide)|]). by apply elem_of_nil in Hx.
  - rewrite L2, Hpw. replace (rf p RSP + 16) with (rf h RSP + 8 * (14 - Z.of_nat 0)) by lia. by rewrite G0.
  - rewrite L3, Hpw. replace (rf p RSP + 8) with (rf h RSP + 8 * (14 - Z.of_nat 1)) by lia. by rewrite G11.
  - congruence.
  - split; [congruence|done|]. rewrite L6, Hpw, Hl8, Hw8. exact Hst.
Qed.

(** The arguments [vlib]'s wrappers put in registers are those of the handler. *)
Lemma asm_syscall5_args handler cpu_local next num arg1 arg2 arg3 arg4 arg5 c :
  user_ready cpu_local c ->
  let c' := set_reg R8 arg5 (set_reg R10 arg4 (set_reg RDX arg3 (set_reg RSI arg2 (set_reg RDI arg1 (set_reg RAX num c))))) in
  asm_syscall5 handler next num arg1 arg2 arg3 arg4 arg5 c = do_syscall handler next c' /\
  let k := at_call handler next c' in
  (rf k RDI, rf k RSI, rf k RDX, rf k RCX, rf k R8, rf k R9) = (num, arg1, arg2, arg3, arg4, arg5).
Proof.
  intros [Hg Hu Hs] c'. split; [done|]. assert (user_ready cpu_local c') as Hr by by split.
  by destruct (at_call_frame handler next cpu_local c' Hr) as (_ & _ & _ & _ & _ & _ & Ha & _).
Qed.

Lemma jump_to_usermode_spec user_cs user_ss entry user_stack c :
  Z.land user_cs 3 = 3 ->
  let f := jump_to_usermode user_cs user_ss entry user_stack c in
  rip f = entry /\ rf f RSP = user_stack /\ rflags f = 0x202 /\ user_mode f = true
  /\ (forall r, r ≠ RSP -> rf f r = rf c r).
Proof.
  intros Hcs. unfold jump_to_usermode.
  change [PushImm user_ss; PushImm user_stack; PushImm 0x202; PushImm user_cs; PushImm entry; Iretq]
    with ([PushImm user_ss; PushImm user_stack; PushImm 0x202] ++ [PushImm user_cs; PushImm entry; Iretq]).
  rewrite run_app. set (c1 := run id _ c).
  assert (rf c1 RSP = rf c RSP - 8 - 8 - 8 /\ words c1 (rf c RSP - 8 - 8 - 8) = 0x202
    /\ words c1 (rf c RSP - 8 - 8) = user_stack /\ forall r, r ≠ RSP -> rf c1 r = rf c r) as (H1 & H2 & H3 & H4).
  { unfold c1. cbn [run exec]. unfold push. split_and!; simpl; try done.
    - by rewrite decide_True.
    - rewrite decide_False by lia. by rewrite decide_True.
    - intros r Hr. by rewrite !decide_False. }
  clearbody c1. cbn [run exec]. unfold push. simpl. rewrite H1. split_and!.
  - by rewrite decide_True.
  - rewrite !decide_False by lia. rewrite <- H3. f_equal. lia.
  - rewrite !decide_False by lia. rewrite <- H2. f_equal. lia.
  - rewrite decide_False, decide_True by lia. by apply Z.eqb_eq.
  - intros r Hr. rewrite !decide_False by done. auto.
Qed.

(** A program that is switched to while another task is inside a call finds the GS
    bases exchanged: its own call takes its kernel stack from its user GS base. *)
Lemma preempted_call_loses_cpu_local handler next cpu_local user_gs c :
  gs_base c = cpu_local -> kernel_gs c = user_gs ->
  let f := run handler [Swapgs; MovGsRsp 0; MovRspGs 8] (syscall_instr next c) in
  words f user_gs = rf c RSP /\ rf f RSP = words c (user_gs + 8).
Proof.
  intros Hg Hk. cbn [run exec]. split; simpl; rewrite ?Hk.
  - rewrite decide_True by lia. done.
  - by rewrite decide_False by lia.
Qed.

(** ** Witness: a handler that doubles the first argument and clobbers what it may *)
Definition doubling_handler (c : Cpu) : Cpu :=
  set_reg R9 0 (set_reg RCX 77 (set_reg RDI 0 (set_reg RAX (2 * rf c RSI) c))).
Definition sample_cpu : Cpu :=
  mkCpu (fun r => match r with RAX => 1 | RDI => 21 | RSP => 5000 | RBX => 7 | R9 => 9 | _ => 3 end)
    100 0x202 0 1000 true (fun a => if decide (a = 1008) then 9000 else 0) 42 0.

Lemma doubling_abi : abi doubling_handler 1000.
Proof.
  split; [|done..]. intros c r Hr. unfold doubling_handler.
  assert (r ≠ R9 /\ r ≠ RCX /\ r ≠ RDI /\ r ≠ RAX) as (? & ? & ? & ?) by (revert r Hr; apply Forall_forall; by_decide).
  by rewrite !set_reg_other.
Qed.

Lemma syscall_transparent_witness :
  let f := do_syscall doubling_handler 102 sample_cpu in
  rf f RAX = 42 /\ rf f RSP = 5000 /\ rf f R9 = 9 /\ rip f = 102 /\ user_ready 1000 f.
Proof.
  assert (user_ready 1000 sample_cpu) as Hu by (split; [done|done|right; vm_compute; congruence]).
  destruct (syscall_transparent doubling_handler 1000 102 sample_cpu doubling_abi Hu)
    as (Hargs & Hrax & Hregs & Hrip & _ & _ & Hready).
  split_and!; [|rewrite Hregs by by_decide; done|rewrite Hregs by by_decide; done|exact Hrip|exact Hready].
  apply (f_equal (fun x => x.1.1.1.1.2)) in Hargs as Hrsi. cbn [fst snd] in Hrsi.
  rewrite Hrax. set (k := at_call _ _ _) in *. unfold doubling_handler.
  rewrite !set_reg_other, set_reg_same by done. rewrite Hrsi. reflexivity.
Defined.
