(* ===== verification/UserEntry.v ===== *)
(** * UserEntry: a new task's first instructions

    The trampolines of [vcore/src/sched/task.rs], on the processor of
    [SyscallEntry.v].  The switch of [Task.v] lands in them with the registers of the
    new task's frame ([lands]); for a user task they end in [iretq]. *)
From Stdlib Require Import ZArith Lia.
From stdpp Require Import base numbers option list gmap.
From S2P Require Import Prelude Memory Pmm Vmm Hw Apic FdTable Keyboard Task Sched LiveFs Interrupts InterruptFacts InterruptDemo SyscallEntry.

(** [interrupts::enable()]. *)
Definition enable (c : Cpu) : Cpu :=
  mkCpu (rf c) (rip c) (Z.lor (rflags c) 0x200) (gs_base c) (kernel_gs c) (user_mode c) (words c) (lstar c) (sfmask c).

Definition user_entry_wrapper (user_cs user_ss : Z) (c : Cpu) : Cpu :=
  jump_to_usermode user_cs user_ss (rf c RDI) (rf c RSI) (enable c).

(** [entry] is the function at an address, [exit] is [sched::exit]. *)
Definition entry_wrapper (entry : Z -> Cpu -> Cpu) (exit : Cpu -> Cpu) (c : Cpu) : Cpu :=
  exit (entry (rf c RDI) (enable c)).

(** [call {wrapper}] pushes the address of the [ud2] behind it. *)
Definition call (wrapper : Cpu -> Cpu) (ud2 : Z) (c : Cpu) : Cpu := wrapper (push ud2 c).

Definition entry_trampoline (entry : Z -> Cpu -> Cpu) (exit : Cpu -> Cpu) (ud2 : Z) (c : Cpu) : Cpu :=
  run (call (entry_wrapper entry exit) ud2) [Mov RDI R15; CallHandler] c.

Definition user_entry_trampoline (user_cs user_ss ud2 : Z) (c : Cpu) : Cpu :=
  run (call (user_entry_wrapper user_cs user_ss) ud2) [Mov RDI R15; Mov RSI R14; CallHandler] c.

(** The processor [c] with the registers and the memory of [m]. *)
Record lands (m : Machine) (c : Cpu) : Prop := {
  la_regs : (rf c RSP, rf c RBP, rf c RBX, rf c R12, rf c R13, rf c R14, rf c R15, rip c)
    = (rsp (regs m), rbp (regs m), rbx (regs m), r12 (regs m), r13 (regs m), r14 (regs m), r15 (regs m), Task.rip (regs m));
  la_words : forall a, words c a = Task.mem_read (Task.mem m) a
}.

Section first_run.
Context {H AS G : Type} `{GL : GdtLaws G}.

(** Outside [lo, hi) the words are those of [c]. *)
Definition words_kept (c c' : Cpu) (lo hi : Z) : Prop := forall a, ~ (lo <= a < hi) -> words c' a = words c a.

Lemma push_kept v c : words_kept c (push v c) (rf c RSP - 8) (rf c RSP) /\ rf (push v c) RSP = rf c RSP - 8
  /\ forall r, r <> RSP -> rf (push v c) r = rf c r.
Proof.
  unfold push. split_and!; [|done|intros r Hr; by apply set_reg_other].
  intros a Ha. simpl. rewrite decide_False; [done|lia].
Qed.

Lemma jump_kept user_cs user_ss entry user_stack c :
  words_kept c (jump_to_usermode user_cs user_ss entry user_stack c) (rf c RSP - 40) (rf c RSP).
Proof.
  intros a Ha. unfold jump_to_usermode. cbn [run exec]. unfold push. cbn. rewrite !decide_False by (simpl; lia). done.
Qed.

Lemma selector_user_code : Z.land (user_code (GDT (G := G)).2) 3 = 3.
Proof using GL.
  pose proof (gdt_selectors (mkSegments None 0 0 0 0)) as Hs. destruct (GDT (G := G)) as [g s]. destruct Hs as (_ & _ & [_ Hc] & _).
  change 3 with (Z.ones 2) at 1. rewrite Z.land_ones by lia. exact Hc.
Qed.

(** C13: A new user task reaches its program.  From the first switch to a task made by
    [Task::new_user], the trampoline calls its wrapper with an aligned stack, and the
    processor ends in user mode at the program's entry point, on the program's stack,
    with interrupts on and the task's page table loaded; on the way only the task's
    own kernel stack is written.  The task switched from is suspended with its own
    registers and return address. *)
Theorem user_task_starts nid nm (a : AS) cr3v entry stack tramp base m (t : Task H AS) m1 ret mc ud2 (c : Cpu) :
  0 <= base -> base + STACK_SIZE < 2 ^ 64 -> cr3v <> 0 ->
  Task_new_user nid nm a cr3v entry stack tramp base m = (t, m1) ->
  Task.mem mc = m1 -> FRAME <= rsp (regs mc) < 2 ^ 64 ->
  rsp (regs mc) <= base \/ base + STACK_SIZE <= rsp (regs mc) - FRAME ->
  let '(mc', old) := switch_context ret (stack_ptr t) (cr3 t) mc in
  lands mc' c ->
  let s := (GDT (G := G)).2 in
  let f := user_entry_trampoline (user_code s) (user_data s) ud2 c in
  rip c = tramp /\ rf c RSP mod 16 = 0
  /\ rip f = entry /\ rf f RSP = stack /\ user_mode f = true /\ rflags f = 0x202 /\ cr3_reg (regs mc') = cr3v
  /\ words_kept c f base (base + STACK_SIZE)
  /\ suspended (Task.mem mc') old (ctx_of (regs mc) ret).
Proof.
  intros Hb Hl Hc Ht Hm Hsp Hd.
  pose proof (Task_new_user_frame _ _ _ _ _ _ _ _ _ _ _ Hb Hl Ht) as (_ & Hlo & Hhi & _ & _ & _ & _ & Hk).
  pose proof (first_switch_to_user nid nm a cr3v entry stack tramp base m t m1 ret mc Hb Hl Hc Ht Hm Hsp Hd) as Hsw.
  destruct (switch_context ret (stack_ptr t) (cr3 t) mc) as [mc' old]. destruct Hsw as (Hrip & H15 & H14 & Hrsp & Hal & Hcr & Hsus).
  intros [[= Lsp _ _ _ _ L14 L15 Lrip] _]. cbv zeta. pose proof (stack_top_range base Hb Hl) as Hst. unfold STACK_SIZE in *.
  unfold user_entry_trampoline. cbn [run exec]. set (c1 := set_reg RSI _ _). unfold call, user_entry_wrapper.
  destruct (push_kept ud2 c1) as (Hw1 & Hs1 & Hr1). set (c2 := push ud2 c1) in *.
  assert (rf c1 RSP = rf c RSP) as Hc1 by done.
  assert (rf c2 RDI = entry) as -> by (rewrite Hr1 by done; unfold c1; simpl; congruence).
  assert (rf c2 RSI = stack) as -> by (rewrite Hr1 by done; unfold c1; simpl; congruence).
  destruct (jump_to_usermode_spec (user_code (GDT (G := G)).2) (user_data (GDT (G := G)).2) entry stack (enable c2) selector_user_code)
    as (Hfr & Hfs & Hff & Hfu & _).
  split_and!; try done; [congruence|congruence|]. intros x Hx.
  rewrite (jump_kept _ _ entry stack (enable c2) x) by (cbn [rf enable]; rewrite Hs1, Hc1, Lsp, Hrsp, Hk; lia).
  cbn [words enable]. rewrite Hw1 by (rewrite Hc1, Lsp, Hrsp, Hk; lia). done.
Qed.
End first_run.

(** The processor after a switch: what the switch does not load is arbitrary. *)
Definition landed (m : Machine) : Cpu :=
  mkCpu (fun r => match r with
    | RSP => rsp (regs m) | RBP => rbp (regs m) | RBX => rbx (regs m) | R12 => r12 (regs m) | R13 => r13 (regs m)
    | R14 => r14 (regs m) | R15 => r15 (regs m) | _ => 77 end)
    (Task.rip (regs m)) 0x6 0 0x8000 false (Task.mem_read (Task.mem m)) 0 0.

Lemma landed_lands m : lands m (landed m).
Proof. done. Qed.

Lemma user_task_starts_witness :
  let '(t, m1) := @Task_new_user unit unit 1 (lit "sh") tt 0x5000 0x400000 0x7FFFFFF8 0xFFFF8000 0x100000 gmap_empty in
  let '(mc', _) := switch_context 0x1234 (stack_ptr t) (cr3 t) (mkMachine (mkRegs 0x90000 1 2 3 4 5 6 0 0x1000) m1) in
  let f := user_entry_trampoline 0x23 0x1B 0xFFFF8010 (landed mc') in
  rip f = 0x400000 /\ rf f RSP = 0x7FFFFFF8 /\ user_mode f = true.
Proof.
  destruct (@Task_new_user unit unit 1 (lit "sh") tt 0x5000 0x400000 0x7FFFFFF8 0xFFFF8000 0x100000 gmap_empty) as [t m1] eqn:Ht.
  pose proof (user_task_starts (G := list (option Descriptor)) 1 (lit "sh") tt 0x5000 0x400000 0x7FFFFFF8 0xFFFF8000 0x100000 gmap_empty t m1
    0x1234 (mkMachine (mkRegs 0x90000 1 2 3 4 5 6 0 0x1000) m1) 0xFFFF8010) as Hf.
  destruct (switch_context 0x1234 (stack_ptr t) (cr3 t) (mkMachine (mkRegs 0x90000 1 2 3 4 5 6 0 0x1000) m1)) as [mc' old].
  destruct (Hf (landed mc') ltac:(lia) ltac:(vm_compute; done) ltac:(lia) Ht eq_refl ltac:(vm_compute; split; done)
    ltac:(left; vm_compute; done) (landed_lands mc')) as (_ & _ & H1 & H2 & H3 & _).
  split; [exact H1|split; [exact H2|exact H3]].
Defined.
