(* ===== verification/Kmain.v ===== *)
(** * Kmain: the boot

    [kmain] of [vcore/src/main.rs] and [cpu::init]: what limine hands over goes through
    every component of the kernel in turn.  [KState] is the whole machine: the lines
    printed, memory, the devices behind [Hw], the files, the scheduler's world and the
    processor.  The addresses of code and statics, the heap allocator and the shell's
    ELF file are arguments. *)
From Stdlib Require Import ZArith Lia.
From stdpp Require Import base numbers option list gmap.
From S2P Require Import Prelude VfsTypes Vfs BTree TmpFs Memory Pmm Vmm VmmFacts Heap Hw Apic Block PartTable FatCodec Fat32 Ata Task Sched Elf Spawn LiveFs Interrupts Syscall System SyscallEntry InterruptFacts.

(** The answers to the requests. *)
Record Limine := mkLimine {
  base_revision_supported : bool;
  hhdm_response : option Z;
  framebuffer_response : option (list (Z * Z * Z * Z));    (* address, width, height, pitch *)
  memory_map_response : option (list Entry)
}.

Abbreviation KHandle := (AnyHandle (D := unit)).
Abbreviation KFs := (AnyFs (D := unit)).

Record KState (S G : Type) := mkK {
  k_lines : list rstr;
  k_framebuffer : option (Z * Z * Z * Z);
  k_vm : VmState;
  k_ticks_per_ms : Z;
  k_ata : option AtaDrive;
  k_ports : S;
  k_vfs : Vfs KFs;
  k_root : Node;
  k_devs : list (rstr * unit);
  k_world : World KHandle AddressSpace;
  k_cpu : Cpu;
  k_segments : Segments G;
  k_tss : Tss;
  k_idt_loaded : bool;
  k_interrupts : bool
}.
Arguments mkK {S G}.
Arguments k_lines {S G}.
Arguments k_framebuffer {S G}.
Arguments k_vm {S G}.
Arguments k_ticks_per_ms {S G}.
Arguments k_ata {S G}.
Arguments k_ports {S G}.
Arguments k_vfs {S G}.
Arguments k_root {S G}.
Arguments k_devs {S G}.
Arguments k_world {S G}.
Arguments k_cpu {S G}.
Arguments k_segments {S G}.
Arguments k_tss {S G}.
Arguments k_idt_loaded {S G}.
Arguments k_interrupts {S G}.

(** The parts a component works on. *)
Section views.
Context {S G : Type}.
Abbreviation K := (KState S G).

Definition put_lines (l : list rstr) (k : K) : K :=
  mkK l (k_framebuffer k) (k_vm k) (k_ticks_per_ms k) (k_ata k) (k_ports k) (k_vfs k) (k_root k) (k_devs k) (k_world k)
    (k_cpu k) (k_segments k) (k_tss k) (k_idt_loaded k) (k_interrupts k).
Definition put_framebuffer (f : option (Z * Z * Z * Z)) (k : K) : K :=
  mkK (k_lines k) f (k_vm k) (k_ticks_per_ms k) (k_ata k) (k_ports k) (k_vfs k) (k_root k) (k_devs k) (k_world k)
    (k_cpu k) (k_segments k) (k_tss k) (k_idt_loaded k) (k_interrupts k).
Definition put_vm (v : VmState) (k : K) : K :=
  mkK (k_lines k) (k_framebuffer k) v (k_ticks_per_ms k) (k_ata k) (k_ports k) (k_vfs k) (k_root k) (k_devs k) (k_world k)
    (k_cpu k) (k_segments k) (k_tss k) (k_idt_loaded k) (k_interrupts k).
Definition apic_view (k : K) : ApicWorld S := mkApic (k_ticks_per_ms k) (k_vm k) (k_ports k).
Definition put_apic (w : ApicWorld S) (k : K) : K :=
  mkK (k_lines k) (k_framebuffer k) (ap_vm w) (TICKS_PER_MS w) (k_ata k) (ap_ports w) (k_vfs k) (k_root k) (k_devs k) (k_world k)
    (k_cpu k) (k_segments k) (k_tss k) (k_idt_loaded k) (k_interrupts k).
Definition ata_view (k : K) : AtaWorld S := mkAtaWorld (k_ata k) (k_ports k).
Definition put_ata (w : AtaWorld S) (k : K) : K :=
  mkK (k_lines k) (k_framebuffer k) (k_vm k) (k_ticks_per_ms k) (ATA w) (aw_ports w) (k_vfs k) (k_root k) (k_devs k) (k_world k)
    (k_cpu k) (k_segments k) (k_tss k) (k_idt_loaded k) (k_interrupts k).
Definition files_view (k : K) : Boot (DW := AtaWorld S) (D := unit) :=
  mkBoot (k_vfs k) (mkSys (k_root k) (k_devs k) (ata_view k) (v_pmm (k_vm k))) (k_lines k).
Definition put_files (b : Boot (DW := AtaWorld S) (D := unit)) (k : K) : K :=
  let w := sw_disk (b_world b) in
  mkK (b_lines b) (k_framebuffer k) (set_pmm (sw_pmm (b_world b)) (k_vm k)) (k_ticks_per_ms k) (ATA w) (aw_ports w)
    (b_vfs b) (sw_root (b_world b)) (sw_devs (b_world b)) (k_world k)
    (k_cpu k) (k_segments k) (k_tss k) (k_idt_loaded k) (k_interrupts k).
Definition sched_view (k : K) : World KHandle AddressSpace * VmState := (k_world k, k_vm k).
Definition put_sched (w : World KHandle AddressSpace * VmState) (k : K) : K :=
  mkK (k_lines k) (k_framebuffer k) w.2 (k_ticks_per_ms k) (k_ata k) (k_ports k) (k_vfs k) (k_root k) (k_devs k) w.1
    (k_cpu k) (k_segments k) (k_tss k) (k_idt_loaded k) (k_interrupts k).
Definition put_cpu (c : Cpu) (s : Segments G) (t : Tss) (idt : bool) (k : K) : K :=
  mkK (k_lines k) (k_framebuffer k) (k_vm k) (k_ticks_per_ms k) (k_ata k) (k_ports k) (k_vfs k) (k_root k) (k_devs k) (k_world k)
    c s t idt (k_interrupts k).
Definition put_interrupts (b : bool) (k : K) : K :=
  mkK (k_lines k) (k_framebuffer k) (k_vm k) (k_ticks_per_ms k) (k_ata k) (k_ports k) (k_vfs k) (k_root k) (k_devs k) (k_world k)
    (k_cpu k) (k_segments k) (k_tss k) (k_idt_loaded k) b.
End views.

Section kmain.
Context {S G : Type} `{Hw S} `{Gdt G} {X : Paging} {UC : UnicodeCase}.
(** [Star::write] of the crate: does it accept the selectors? *)
Context (Star_write : Selectors -> bool).
(** The heap allocator's [init]. *)
Context (allocator_init : Z -> Z -> M VmState rstr unit).
(** Fuel for the polls and for the walks along FAT chains. *)
Context (PATIENCE fuel : nat) (NO_CACHE : Z).
(** Addresses: the statics of [gdt.rs] and [syscall.rs], code, and the first task's stack. *)
Context (ist_stack rsp0_stack cpu_local syscall_stack syscall_entry_at trampoline task_stack : Z).
Context (INIT_ELF : bytes).
Abbreviation KM := (M (KState S G) Empty_set).

(** [println!], and the tags of [info!], [warn!]. *)
Definition say (line : rstr) : KM unit := k ← get; put (put_lines (k_lines k ++ [line]) k).
Definition say_info (line : rstr) : KM unit := say (lit "[*] " ++ line).
Definition say_warn (line : rstr) : KM unit := say (lit "[W] " ++ line).

Definition say_error (line : rstr) : KM unit := say (lit "[E] " ++ line).

(** [Framebuffer::from_limine]. *)
Definition from_limine (r : option (list (Z * Z * Z * Z))) : KM (Z * Z * Z * Z) :=
  match r with
  | Some (f :: _) => mret f
  | _ => panic
  end.

(** [cpu::init]. *)
Definition cpu_init : KM unit :=
  k ← get;
  put (put_cpu (k_cpu k) (gdt_init (k_segments k)) (INIT_TSS ist_stack rsp0_stack (k_tss k)) (k_idt_loaded k) k) ;;
  say_info (lit "GDT loaded") ;;
  k ← get;
  put (put_cpu (k_cpu k) (k_segments k) (k_tss k) true k) ;;
  say_info (lit "IDT loaded") ;;
  assert_or_panic (Star_write (GDT (G := G)).2) ;;
  k ← get;
  put (put_cpu (syscall_init syscall_entry_at cpu_local syscall_stack (k_cpu k)) (k_segments k) (k_tss k) (k_idt_loaded k) k) ;;
  say_info (lit "Syscalls loaded").

(** [hcf], and the panic handler with the message and the place of the panic. *)
Definition hcf : KM unit := hang.
Definition rust_panic (message location : rstr) : KM unit :=
  say_error message ;;
  say_error (lit "at " ++ location) ;;
  hcf.

Definition banner : list rstr :=
  [lit "      _                   .-=-.          .-==-.";
   lit "     { }      __        .' O o '.       /  -<' )";
   lit "     { }    .' O'.     / o .-. O \     /  .--v`";
   lit "     { }   / .-. o\   /O  /   \  o\   /O /";
   lit "      \ `-` /   \ O`-'o  /     \  O`-`o /";
   lit "       `-.-`     '.____.'       `.____.'"; []].

(** [mem::pmm::init] and [mem::vmm::init]. *)
Definition memory_init (mmap : list Entry) (hhdm : Z) : KM unit :=
  a ← lift (pmm_init mmap);
  k ← get;
  put (put_vm (set_pmm (Some a) (k_vm k)) k) ;;
  say_info (lit "PMM " ++ fmt_u64 (free_pages a * 4096 / 1024 / 1024) ++ lit "MB free") ;;
  expect (zoom k_vm put_vm (vmm_init hhdm)) ;;
  say_info (lit "VMM loaded").

(** [kmain] up to the disk driver. *)
Definition boot_hardware (l : Limine) : KM unit :=
  assert_or_panic (base_revision_supported l) ;;
  hhdm ← unwrap (hhdm_response l);
  assert_or_panic (VirtAddr_valid hhdm) ;;

  framebuffer ← from_limine (framebuffer_response l);
  k ← get;
  put (put_framebuffer (Some framebuffer) k) ;;
  for_each banner say ;;

  say_info (lit "Beginning BOOT") ;;
  cpu_init ;;

  mmap ← unwrap (memory_map_response l);
  memory_init mmap hhdm ;;

  expect (zoom k_vm put_vm (heap_init allocator_init)) ;;
  say_info (lit "HEAP " ++ fmt_u64 heap_size ++ lit "KB") ;;

  expect (zoom apic_view put_apic (apic_init PATIENCE NO_CACHE)) ;;
  say_info (lit "APIC loaded") ;;

  r ← attempt (zoom ata_view put_ata ata_init);
  match r with
  | inr _ => say_info (lit "ATA drive detected")
  | inl e => say_warn (lit "ATA init failed: " ++ e)
  end.

Definition boot_files : KM unit :=
  k ← get; zoom files_view put_files (setup_fs fuel (k_world k) tt).

(** The rest, up to the idle loop. *)
Definition boot_tasks : KM unit :=
  k ← get;
  expect (zoom sched_view put_sched (Spawn.on_world (sched_init (v_cr3 (k_vm k))))) ;;

  expect (zoom sched_view put_sched (spawn_elf (lit "shell") INIT_ELF trampoline task_stack)) ;;

  k ← get;
  put (put_interrupts true k).

Definition kmain (l : Limine) : KM unit :=
  boot_hardware l ;;
  boot_files ;;
  boot_tasks.
End kmain.
