(* ===== verification/KmainFacts.v ===== *)
(** * KmainFacts: from the boot loader to the idle loop

    [kmain] with every component's theorem in its place. *)
From Stdlib Require Import ZArith Lia.
From stdpp Require Import base numbers option list gmap.
From S2P Require Import Prelude VfsTypes Path Vfs BTree TmpFs Memory Pmm Vmm VmmFacts Heap KernelMap Hw Apic Board ApicFacts Block PartTable FatCodec Fat32 Ata AtaFacts Task Sched Elf ElfFacts Spawn LiveFs Interrupts InterruptFacts Syscall System SyscallEntry Kmain.

Section facts.
Context {S G : Type} `{BL : BoardLaws S} `{GL : GdtLaws G} {X : Paging} {PL : PagingLaws} {UL : UpperLaws} {UC : UnicodeCase}.
Context (Star_write : Selectors -> bool) (allocator_init : Z -> Z -> M VmState rstr unit).
Context (PATIENCE fuel : nat) (NO_CACHE : Z).
Context (ist_stack rsp0_stack cpu_local syscall_stack syscall_entry_at trampoline task_stack : Z).
Context (INIT_ELF : bytes).
Abbreviation KM := (M (KState S G) Empty_set).
Abbreviation K := (KState S G).
Abbreviation cpu_init := (cpu_init (S := S) Star_write ist_stack rsp0_stack cpu_local syscall_stack syscall_entry_at).
Abbreviation boot_hardware := (boot_hardware (S := S) Star_write allocator_init PATIENCE NO_CACHE ist_stack rsp0_stack cpu_local syscall_stack syscall_entry_at).
Abbreviation boot_files := (boot_files (S := S) (G := G) fuel).
Abbreviation boot_tasks := (boot_tasks (S := S) (G := G) trampoline task_stack INIT_ELF).
Abbreviation kmain := (kmain (S := S) Star_write allocator_init PATIENCE fuel NO_CACHE ist_stack rsp0_stack cpu_local syscall_stack syscall_entry_at trampoline task_stack INIT_ELF).

(** ** Steps *)
Lemma runs_say {A} line (f : unit -> KM A) (k : K) Q :
  runs (f tt) (put_lines (k_lines k ++ [line]) k) Q -> runs (say line ≫= f) k Q.
Proof. done. Qed.

Lemma runs_says {A} lines (f : unit -> KM A) Q : forall k : K,
  (forall l, runs (f tt) (put_lines l k) Q) -> runs (for_each lines say ≫= f) k Q.
Proof.
  induction lines as [|line lines IH]; intros k Hf; cbn [for_each].
  { specialize (Hf (k_lines k)). by destruct k. }
  destruct (IH (put_lines (k_lines k ++ [line]) k)) as (a & k' & Hrun & Hq); [exact Hf|]. exists a, k'. split; [|exact Hq].
  rewrite bind_assoc. exact Hrun.
Qed.

Lemma runs_part {T E A} (v : K -> T) (p : T -> K -> K) (m : M T E A) (k : K) (Q : A -> T -> Prop) :
  runs m (v k) Q -> runs (expect (zoom v p m) : KM A) k (fun a k' => exists x, Q a x /\ k' = p x k).
Proof.
  intros (a & x & Hm & Hq). exists a, (p x k). split; [|by exists x]. unfold expect, zoom. by rewrite Hm.
Qed.

Lemma expect_part {T E A} (v : K -> T) (p : T -> K -> K) (m : M T E A) (k : K) a x :
  m (v k) = (Ok a, x) -> (expect (zoom v p m) : KM A) k = (Ok a, p x k).
Proof. intros Hm. unfold expect, zoom. by rewrite Hm. Qed.

Lemma runs_assert {A} b (f : unit -> KM A) (k : K) Q : b = true -> runs (f tt) k Q -> runs (assert_or_panic b ≫= f) k Q.
Proof. by intros ->. Qed.

Lemma runs_unwrap {A B} (o : option B) x (f : B -> KM A) (k : K) Q : o = Some x -> runs (f x) k Q -> runs (unwrap o ≫= f) k Q.
Proof. by intros ->. Qed.

Lemma runs_ok {T E A B} (m : M T E A) (f : A -> M T E B) (a : A) k k' Q : m k = (Ok a, k') -> runs (f a) k' Q -> runs (m ≫= f) k Q.
Proof. intros Hm (b & k2 & Hf & Hq). exists b, k2. split; [|exact Hq]. by rewrite (bind_ok _ _ _ _ _ Hm). Qed.

(** ** What the boot loader hands over *)

(** No usable region of the memory map has the page at [f]. *)
Definition reserved (mm : list Entry) (f : Z) : Prop := ~ exists e, e ∈ mm /\ e_usable e = true /\ page_inside e (f / PAGE_SIZE).

Record handed_over (l : Limine) (k : K) (h : Z) (mm : list Entry) (need : Z) : Prop := {
  ho_revision : base_revision_supported l = true;
  ho_hhdm : hhdm_response l = Some h;
  ho_framebuffer : exists f fs, framebuffer_response l = Some (f :: fs);
  ho_memmap : memory_map_response l = Some mm;
  ho_memmap_ok : memmap_ok mm;
  ho_bitmap : is_Some (find_bitmap_addr mm (bitmap_size_for mm));
  ho_small : highest_addr mm + (PAGE_SIZE - 1) <= 2 ^ 52;
  ho_free : forall a, pmm_init mm = Ok a -> need <= free_pages a;
  ho_root : v_cr3 (k_vm k) mod PAGE_SIZE = 0 /\ 0 < v_cr3 (k_vm k) < 2 ^ 52;
  ho_direct : VirtAddr_valid h = true /\ VirtAddr_valid (v_cr3 (k_vm k) +w64 h) = true
    /\ forall p, 0 <= p < highest_addr mm + PAGE_SIZE -> VirtAddr_valid (p +w64 h) = true;
  ho_tables : forall f, table (ram (k_vm k)) h (v_cr3 (k_vm k)) f -> reserved mm f;
  ho_page0 : reserved mm 0 /\ ~ table (ram (k_vm k)) h (v_cr3 (k_vm k)) 0;
  ho_bytes : forall x, v_cr3 (k_vm k) + 2048 <= x < v_cr3 (k_vm k) + 4096 -> is_byte (ram (k_vm k) x)
}.

(** The heap allocator touches the heap only. *)
Definition heap_allocator : Prop := forall n st K, kernel_space n st K ->
  exists m', allocator_init HEAP_START HEAP_SIZE st = (Ok tt, set_ram m' st)
    /\ forall x, m' x = ram st x \/ exists v, in_heap v = true /\ K v = Some x.

(** ** Memory *)
Lemma handed_over_space l k h mm need : handed_over l k h mm need ->
  exists a, pmm_init mm = Ok a
    /\ let st := mkVm (ram (k_vm k)) (Some a) (Some h) (Some (containing (v_cr3 (k_vm k)))) (v_cr3 (k_vm k)) (v_log (k_vm k)) in
       kernel_space need st (translate_addr (ram (k_vm k)) h (v_cr3 (k_vm k))) /\ private st 0.
Proof.
  intros [_ _ _ _ Hmm [ba Hba] Hsm Hfree [Hra Hrr0] (Hdh & Hdr & Hdp) Htab [Hr00 Hn0] Hby].
  pose proof (init_cases mm Hmm) as Hi. rewrite Hba in Hi. destruct Hi as (a & Ha & Hwf & _ & Htot & Hused). exists a. split; [done|].
  rewrite (containing_aligned _ Hra). cbv zeta.
  assert (total_pages a * PAGE_SIZE <= highest_addr mm + (PAGE_SIZE - 1)) as Hle
    by (rewrite Htot; unfold PAGE_SIZE; Z.div_mod_to_equations; lia).
  assert (forall f, 0 <= f -> reserved mm f -> taken a f) as Htk.
  { intros f Hf Hr. destruct (Z.lt_ge_cases (f / PAGE_SIZE) (total_pages a)) as [Hlt|]; [|by left]. right.
    destruct (page_used a (f / PAGE_SIZE)) eqn:Hu; [done|]. exfalso. apply Hr.
    apply Hused in Hu as [[e He] _]; [by exists e|]. split; [apply Z.div_pos; unfold PAGE_SIZE; lia|done]. }
  split.
  - exists a, h, (v_cr3 (k_vm k)). cbn [v_pmm HHDM_OFFSET KERNEL_PML4_PHYS v_cr3 ram]. split_and!; try done; [by apply containing_aligned|by apply Hfree|].
    split; try done; [lia| |lia|].
    + split_and!; [done..|]. intros p Hp. apply Hdp. lia.
    + intros f Hf. apply Htk; [|by apply Htab]. apply (table_aligned (ram (k_vm k)) h (v_cr3 (k_vm k)) f Hra ltac:(lia) Hf).
  - exists a, h, (v_cr3 (k_vm k)). split_and!; try done. by apply Htk.
Qed.

(** What the allocator writes is in frames of the heap. *)
Lemma heap_private n st K fs x v : kernel_space n st (heap_map K fs) -> zero_frames st fs ->
  in_heap v = true -> heap_map K fs v = Some x -> exists f, f ∈ fs /\ containing x = f /\ private st f.
Proof.
  intros _ [_ Hz] Hv Hx. unfold heap_map in Hx. rewrite Hv in Hx.
  destruct (fs !! Z.to_nat ((v - HEAP_START) / PAGE_SIZE)) as [f|] eqn:Hf; [|done]. injection Hx as <-.
  apply list_elem_of_lookup_2 in Hf. destruct (Hz f Hf) as [Hp _]. pose proof Hp as (a & h & k & _ & _ & _ & Hf0 & Hfa & _).
  exists f. split_and!; [done| |done]. apply (containing_add f); [done|]. apply Z.mod_pos_bound. unfold PAGE_SIZE. lia.
Qed.

Lemma heap_written n st m' K : kernel_space n st K -> (forall x, m' x = ram st x \/ private st (containing x)) ->
  kernel_space n (set_ram m' st) K /\ forall f, private st f -> private (set_ram m' st) f.
Proof.
  intros (a & h & k & Hp & Hh & Hk & Hcr & Hn & Hok & HK) Hm.
  pose proof Hok as [Hwf Hsm Hd [Hka Hk0] Htk Hkb].
  assert (forall x, table (ram st) h k (containing x) -> m' x = ram st x) as Hsame.
  { intros x Hx. destruct (Hm x) as [|(a0 & h0 & k0 & Hp0 & Hh0 & Hk0' & _ & _ & _ & Hnt)]; [done|].
    by replace h0 with h in Hnt by congruence; replace k0 with k in Hnt by congruence. }
  destruct (kernel_kept h a a (ram st) m' k Hok (pmm_step_refl a Hwf) Hsame) as [Hok' Htb]. split.
  - exists a, h, k. cbn [v_pmm HHDM_OFFSET KERNEL_PML4_PHYS v_cr3 ram set_ram]. split_and!; try done. intros v Hv. rewrite <- HK by done.
    apply translate_high_local; [|done]. intros f x Hf Hx. apply Hsame.
    rewrite (in_frame f x); [done|apply (table_aligned (ram st) h k f Hka ltac:(lia) Hf)|done].
  - intros f (a0 & h0 & k0 & Hp0 & Hh0 & Hk0' & Hf0 & Hfa & Hft & Hfn). exists a0, h0, k0. split_and!; try done.
    cbn [ram set_ram]. replace h0 with h in * by congruence. replace k0 with k in * by congruence. by rewrite Htb.
Qed.

(** The ports of the disk are not those of the interrupt hardware. *)
Definition apart_devices : Prop := forall b : Board, ata_closed (fun s : S => board s = b).

(** The processor's tables are loaded, and system calls enter at [syscall_entry]. *)
Record cpu_ready (k : K) : Prop := {
  cr_gdt : gdtr G (k_segments k) = Some (GDT (G := G)).1 /\ names (GDT (G := G)).1 (cs G (k_segments k)) kernel_code_segment
    /\ names (GDT (G := G)).1 (tr G (k_segments k)) tss_segment;
  cr_idt : k_idt_loaded k = true;
  cr_fault_stack : interrupt_stack_table (k_tss k) !! 0%nat = Some (ist_stack + TSS_STACK_SIZE);
  cr_syscall : lstar (k_cpu k) = syscall_entry_at /\ kernel_gs (k_cpu k) = cpu_local
    /\ words (k_cpu k) (cpu_local + 8) = syscall_stack + SYSCALL_STACK_LEN
}.

Lemma cpu_init_run {A} (f : unit -> KM A) (k : K) Q :
  (forall s, star_ok s -> Star_write s = true) -> length (interrupt_stack_table (k_tss k)) = 7%nat ->
  (forall lines c, cpu_ready (put_lines lines (put_cpu c (gdt_init (k_segments k)) (INIT_TSS ist_stack rsp0_stack (k_tss k)) true k)) ->
     runs (f tt) (put_lines lines (put_cpu c (gdt_init (k_segments k)) (INIT_TSS ist_stack rsp0_stack (k_tss k)) true k)) Q) ->
  runs (cpu_init ≫= f) k Q.
Proof using GL.
  intros Hstar Ht Hf. pose proof (gdt_selectors (k_segments k)) as Hg. destruct (GDT (G := G)) as [g s] eqn:HG.
  destruct Hg as (_ & _ & _ & _ & _ & Hst & Hgd & Hcs & _ & _ & Htr).
  edestruct (Hf) as (a & k' & Hrun & Hq); [|exists a, k'; split; [|exact Hq]].
  2: { unfold Kmain.cpu_init. rewrite !bind_assoc. rewrite HG. cbn [snd]. rewrite (Hstar s Hst). exact Hrun. }
  split; cbn; try done.
  - unfold gdt_init in Hcs, Htr. rewrite HG in *. done.
  - change (<[0%nat := ist_stack + TSS_STACK_SIZE]> (interrupt_stack_table (k_tss k)) !! 0%nat = Some (ist_stack + TSS_STACK_SIZE)).
    apply list_lookup_insert_eq. rewrite Ht. lia.
  - split_and!; [done..|]. by rewrite decide_True.
Qed.

(** ** The hardware *)

(** What stays of the state, and what the hardware is after [boot_hardware]. *)
Record hardware_up (need : Z) (k k' : K) : Prop := {
  hu_memory : exists Kf, kernel_space (need - (4 * heap_pages + 6)) (k_vm k') Kf;
  hu_page0 : private (k_vm k') 0;
  hu_cr3 : v_cr3 (k_vm k') = v_cr3 (k_vm k);
  hu_apic : apic_ready (k_ticks_per_ms k') (board (k_ports k'));
  hu_cpu : cpu_ready k';
  hu_ata : exists s, board s = board (k_ports k') /\ k_ata k' = ATA (ata_init (mkAtaWorld (k_ata k) s)).2;
  hu_rest : (k_vfs k', k_root k', k_devs k', k_world k') = (k_vfs k, k_root k, k_devs k, k_world k)
}.

Definition upper_free (h : Z) (k : K) : Prop := forall v, in_heap v = true \/ v = LAPIC_VIRT \/ v = IOAPIC_VIRT ->
  translate_addr (ram (k_vm k)) h (v_cr3 (k_vm k)) v = None.

(** The heap, and the allocator on it. *)
Lemma heap_up n st K : kernel_space n st K -> private st 0 -> 4 * heap_pages <= n -> (forall v, in_heap v = true -> K v = None) -> heap_allocator ->
  exists st' fs, heap_init allocator_init st = (Ok tt, st') /\ kernel_space (n - 4 * heap_pages) st' (heap_map K fs)
    /\ private st' 0 /\ v_cr3 st' = v_cr3 st.
Proof.
  intros Hks Hp0 Hn HK Halloc.
  destruct (heap_init_run allocator_init n st K Hks Hn HK) as (fs & st1 & Hrun & Hlen & Hz & _ & [Hcr Hkp] & Hks1).
  destruct (Halloc _ _ _ Hks1) as (m' & Hal & Hm).
  destruct (heap_written _ st1 m' _ Hks1) as [Hks2 Hpr].
  { intros x. destruct (Hm x) as [|(v & Hv & Hx)]; [by left|right].
    destruct (heap_private _ st1 K fs x v Hks1 Hz Hv Hx) as (f & _ & Hf & Hp). by rewrite Hf. }
  exists (set_ram m' st1), fs. split_and!; [by rewrite Hrun|exact Hks2| |exact Hcr]. apply Hpr. by apply Hkp.
Qed.

Lemma runs_attempt_ata {A} (f : rstr + unit -> KM A) (k : K) Q : apart_devices ->
  (forall r s, board s = board (k_ports k) -> runs (f r) (put_ata (mkAtaWorld (ATA (ata_init (ata_view k)).2) s) k) Q) ->
  runs (attempt (zoom ata_view put_ata ata_init) ≫= f) k Q.
Proof.
  intros Hap Hf. destruct (ata_init_ends _ (Hap (board (k_ports k))) (ata_view k) eq_refl) as ([a s] & Hs & [[Hrun _]|(e & Hrun & _)]).
  - specialize (Hf (inr tt) s Hs). eapply runs_ok; [|exact Hf]. unfold attempt, zoom. by rewrite Hrun.
  - specialize (Hf (inl e) s Hs). eapply runs_ok; [|exact Hf]. unfold attempt, zoom. by rewrite Hrun.
Qed.

Lemma cpu_ready_ext (k k' : K) : (k_segments k', k_idt_loaded k', k_tss k', k_cpu k') = (k_segments k, k_idt_loaded k, k_tss k, k_cpu k) ->
  cpu_ready k -> cpu_ready k'.
Proof. intros [= Es Ei Et Ec] []. by split; rewrite ?Es, ?Ei, ?Et, ?Ec. Qed.

Lemma boot_hardware_run l k h mm need N :
  handed_over l k h mm need -> 4 * heap_pages + 6 <= need -> upper_free h k -> heap_allocator ->
  (forall s, star_ok s -> Star_write s = true) -> length (interrupt_stack_table (k_tss k)) = 7%nat ->
  kb_at N (board (k_ports k)) (fun _ => True) (k_ports k) -> (latency < PATIENCE)%nat -> (N + 1 < PATIENCE)%nat -> apart_devices ->
  runs (boot_hardware l) k (fun _ k' => hardware_up need k k').
Proof.
  intros Hho Hneed Hup Halloc Hstar Hist Hkb Hpat HN Hap.
  destruct (handed_over_space l k h mm need Hho) as (a & Ha & Hks & Hp0). cbv zeta in Hks, Hp0.
  pose proof Hho as [Hrev Hhh (fb & fbs & Hfb) Hmm _ _ _ _ [Hcra _] (Hdh & _) _ _ _].
  unfold Kmain.boot_hardware. apply runs_assert; [done|]. eapply runs_unwrap; [exact Hhh|]. apply runs_assert; [exact Hdh|].
  eapply runs_ok; [by rewrite Hfb|]. apply runs_get, runs_put, runs_says. intros l1. apply runs_say. apply cpu_init_run; [exact Hstar|exact Hist|].
  intros l2 c Hcpu. eapply runs_unwrap; [exact Hmm|]. unfold memory_init. eapply runs_ok.
  { rewrite Ha. cbn [lift]. reflexivity. }
  set (k2 := put_lines _ _). set (vm2 := mkVm _ _ _ _ _ _) in Hks, Hp0. assert (k_vm k2 = vm2) as Hvm2 by done.
  destruct (heap_up need vm2 _ Hks Hp0 ltac:(lia) ltac:(auto) Halloc) as (st3 & fs & Hheap & Hks3 & Hp3 & Hc3).
  eapply runs_bind; [apply (runs_part _ _ _ _ (fun _ st => st = st3)); rewrite Hvm2; by exists tt, st3|].
  cbn beta. intros _ k3 (st & -> & ->). apply runs_say. set (k4 := put_lines _ _).
  destruct (apic_init_run PATIENCE NO_CACHE N (need - 4 * heap_pages) (apic_view k4)
    (heap_map (translate_addr (ram (k_vm k)) h (v_cr3 (k_vm k))) fs) (board (k_ports k))) as (w5 & Hap5 & Hkp5 & Hks5 & _ & _ & Hr5);
    [exact Hks3|lia| | |exact Hkb|exact Hpat|exact HN|].
  { unfold heap_map. change (in_heap LAPIC_VIRT) with false. cbv iota. apply Hup. auto. }
  { unfold heap_map. change (in_heap IOAPIC_VIRT) with false. cbv iota. apply Hup. auto. }
  eapply runs_bind; [apply (runs_part _ _ _ _ (fun _ w => w = w5)); by exists tt, w5|].
  cbn beta. intros _ k5 (w & -> & ->). apply runs_say. apply runs_attempt_ata; [exact Hap|]. intros r s6 Hs6.
  set (k6 := put_ata _ _).
  assert (forall lines, hardware_up need k (put_lines lines k6)) as Hdone.
  { intros lines. split.
    - eexists. replace (need - (4 * heap_pages + 6)) with (need - 4 * heap_pages - 6) by lia. exact Hks5.
    - destruct Hkp5 as [_ Hkp5]. by apply Hkp5.
    - destruct Hkp5 as [Hc5 _]. transitivity (v_cr3 st3); [exact Hc5|exact Hc3].
    - change (apic_ready (TICKS_PER_MS w5) (board s6)). rewrite Hs6. exact Hr5.
    - eapply cpu_ready_ext; [|exact Hcpu]. done.
    - exists (ap_ports w5). split; [symmetry; exact Hs6|reflexivity].
    - done. }
  destruct r; (eexists _, _; split; [reflexivity|apply Hdone]).
Qed.

(** ** The files *)
Abbreviation Files := (Boot (DW := AtaWorld S) (D := unit)).

(** No part of [setup_fs] touches the page allocator. *)
Definition same_pmm (b b' : Files) : Prop := sw_pmm (b_world b') = sw_pmm (b_world b).

Definition keeps_pmm {E A} (m : M Files E A) : Prop := forall b, same_pmm b (m b).2.

Lemma keeps_pmm_bind {E A B} (m : M Files E A) (f : A -> M Files E B) : keeps_pmm m -> (forall a, keeps_pmm (f a)) -> keeps_pmm (m ≫= f).
Proof.
  intros Hm Hf b. unfold mbind, M_bind. specialize (Hm b). destruct (m b) as [[a|e| |] b']; cbn [snd] in *; try done.
  unfold same_pmm in *. rewrite Hf. exact Hm.
Qed.

Lemma keeps_pmm_ret {E A} (a : A) : keeps_pmm (mret a : M Files E A).
Proof. by intros b. Qed.

Lemma keeps_pmm_catch {E E' A} (m : M Files E A) : keeps_pmm m -> keeps_pmm (catch m : M Files E' (option A)).
Proof. intros Hm b. specialize (Hm b). unfold catch. by destruct (m b) as [[] ?]. Qed.

Lemma keeps_pmm_expect {E E' A} (m : M Files E A) : keeps_pmm m -> keeps_pmm (expect m : M Files E' A).
Proof. intros Hm b. specialize (Hm b). unfold expect. by destruct (m b) as [[] ?]. Qed.

Lemma keeps_pmm_attempt {E A} (m : M Files E A) : keeps_pmm m -> keeps_pmm (attempt m).
Proof. intros Hm b. specialize (Hm b). unfold attempt. by destruct (m b) as [[] ?]. Qed.

Lemma keeps_pmm_log {E} line : keeps_pmm (log line : M Files E unit).
Proof. by intros b. Qed.

Lemma keeps_pmm_mount {E} path f : keeps_pmm (mount path f : M Files E unit).
Proof. intros b. unfold mount, zoom. by destruct (expect _ _) as [o v]. Qed.

Lemma keeps_pmm_disk {A} (m : M (AtaWorld S) rstr A) : keeps_pmm (on_disk (D := unit) m).
Proof. intros b. unfold on_disk, zoom. by destruct (m _) as [o d]. Qed.

Lemma keeps_pmm_mkdir (w : World KHandle AddressSpace) path : keeps_pmm (boot_mkdir fuel w path : M Files Empty_set unit).
Proof.
  unfold boot_mkdir. apply keeps_pmm_bind; [done|]. intros b0. apply keeps_pmm_bind; [|intros; apply keeps_pmm_ret].
  apply keeps_pmm_catch. intros b. unfold zoom, same_pmm. destruct (vfs_mkdir (b_vfs b0) path (b_world b)) as [o w'] eqn:Hm.
  cbn [snd b_world set_world]. revert Hm. unfold vfs_mkdir, mbind, M_bind, lift.
  destruct (vfs_resolve (b_vfs b0) path) as [[f rel]|e| |]; [|by intros [= _ <-]..].
  destruct f; cbn [fs_mkdir any_filesystem dispatch zoom]; unfold zoom.
  - destruct (fs_mkdir _ rel _). by intros [= <- <-].
  - destruct (fs_mkdir _ rel _). by intros [= <- <-].
  - by intros [= <- <-].
  - by intros [= <- <-].
  - destruct (fs_mkdir _ rel _). by intros [= <- <-].
Qed.

Lemma setup_fs_pmm (w : World KHandle AddressSpace) : keeps_pmm (setup_fs fuel w tt : M Files Empty_set unit).
Proof.
  unfold setup_fs. apply keeps_pmm_bind.
  { apply keeps_pmm_attempt. unfold mount_fat32. apply keeps_pmm_bind; [apply keeps_pmm_disk|]. intros d.
    apply keeps_pmm_bind; [apply keeps_pmm_disk|]. intros [p|]; [|by intros b]. apply keeps_pmm_bind; [by intros b|]. intros p'.
    apply keeps_pmm_bind; [apply keeps_pmm_disk|]. intros fat.
    apply keeps_pmm_bind; [apply keeps_pmm_mount|intros _; apply keeps_pmm_log]. }
  intros r. apply keeps_pmm_bind; [destruct r as [e|]; [|apply keeps_pmm_ret]; apply keeps_pmm_bind;
    [apply keeps_pmm_log|intros _; apply keeps_pmm_mount]|]. intros _.
  do 4 (apply keeps_pmm_bind; [apply keeps_pmm_mkdir|intros _]). do 2 (apply keeps_pmm_bind; [apply keeps_pmm_mount|intros _]).
  apply keeps_pmm_bind; [apply keeps_pmm_catch, keeps_pmm_disk|]. intros d.
  apply keeps_pmm_bind; [|intros _; apply keeps_pmm_mount]. destruct d as [d|]; [|apply keeps_pmm_ret].
  apply keeps_pmm_expect. intros b. unfold zoom. destruct (register_device _ _ _) as [o x]. done.
Qed.

(** Without a drive the root is tmpfs, and the boot makes its mount points. *)
Definition diskless_tree : Node :=
  NodeDirectory [(lit "dev", NodeDirectory []);
    (lit "live", NodeDirectory [(lit "mem", NodeDirectory []); (lit "tasks", NodeDirectory [])])].

Lemma setup_fs_diskless (w : World KHandle AddressSpace) s pmm lines :
  setup_fs fuel w tt (mkBoot Vfs_new (mkSys (NodeDirectory []) [] (mkAtaWorld None s) pmm) lines)
    = (Ok tt, mkBoot (mkVfs (boot_table FsTmp)) (mkSys diskless_tree [] (mkAtaWorld None s) pmm)
                (lines ++ [lit "[E] failed to mount fat32, falling back to tmpfs, ATA not initialized"]) : Files).
Proof. reflexivity. Qed.

(** The file systems come up on what [boot_hardware] leaves, and leave the interrupt
    hardware alone: when [ata_init] finds no drive they always do. *)
Definition files_up (need : Z) (k : K) : Prop := forall k1, hardware_up need k k1 ->
  exists k2, boot_files k1 = (Ok tt, k2) /\ board (k_ports k2) = board (k_ports k1).

(** Nothing is mounted yet, and nothing answers where the disk would be. *)
Definition no_drive (k : K) : Prop :=
  k_vfs k = Vfs_new /\ k_root k = NodeDirectory [] /\ k_devs k = [] /\ forall s, ATA (ata_init (mkAtaWorld (k_ata k) s)).2 = None.

Lemma files_up_diskless need k : no_drive k -> files_up need k.
Proof.
  intros (Hv & Hr & Hd & Hno) k1 [_ _ _ _ _ (s & _ & Ha) [= Hv1 Hr1 Hd1 _]]. rewrite Hno in Ha.
  unfold Kmain.boot_files. rewrite bind_get. unfold zoom, files_view, ata_view. rewrite Ha, Hv1, Hr1, Hd1, Hv, Hr, Hd.
  rewrite (setup_fs_diskless (k_world k1) (k_ports k1) (v_pmm (k_vm k1)) (k_lines k1)). by eexists.
Qed.

Lemma boot_files_run k1 k2 : k_vfs k1 = Vfs_new -> boot_files k1 = (Ok tt, k2) ->
  (exists root, mounts (k_vfs k2) = boot_table root /\ vfs_wf (k_vfs k2) /\ (root = FsTmp \/ exists fs, root = FsFat fs))
  /\ k_vm k2 = k_vm k1 /\ k_world k2 = k_world k1 /\ k_ticks_per_ms k2 = k_ticks_per_ms k1 /\ (cpu_ready k1 -> cpu_ready k2).
Proof.
  intros Hv. unfold Kmain.boot_files. rewrite bind_get. unfold zoom.
  pose proof (setup_fs_pmm (k_world k1) (files_view k1)) as Hp. destruct (setup_fs fuel (k_world k1) tt (files_view k1)) as [o b] eqn:Hb.
  intros [= -> <-]. split; [|split_and!; [|done|done|]].
  - by apply (setup_fs_table fuel (k_world k1) tt (files_view k1) b).
  - cbn [snd] in Hp. unfold same_pmm in Hp. cbn [k_vm put_files]. rewrite Hp. cbn. by destruct (k_vm k1).
  - apply cpu_ready_ext. done.
Qed.

(** ** The tasks *)

(** [kmain]'s own stack, and that of the first task. *)
Record stacks_ok (w : World KHandle AddressSpace) (lo hi : Z) : Prop := {
  st_kmain : 0 <= lo /\ hi < 2 ^ 64 /\ lo + FRAME <= rsp (regs (w_machine w)) <= hi;
  st_task : 0 <= task_stack /\ task_stack + STACK_SIZE < 2 ^ 64;
  st_apart : hi <= task_stack \/ task_stack + STACK_SIZE <= lo
}.

(** The shell, before it first runs. *)
Record shell_ready (w : World KHandle AddressSpace) (st : VmState) (n : Z) : Prop := {
  sr_tasks : exists c root t, w_sched w = Some (mkScheduler [kernel_task 0 c; t] 0)
    /\ id t = 1 /\ name t = lit "shell" /\ state t = Ready /\ mode t = User /\ cr3 t = root /\ cwd t = lit "/"
    /\ spaces n st [(root, with_stack_pages (image INIT_ELF (fun _ => None)))];
  sr_reach : exists g, sys_reach w g /\ saved g 1 = new_ctx trampoline 0x7FFFFFF8 (entry (ehdr_at INIT_ELF)) task_stack
}.

(** The ELF file of the shell is one [spawn_elf] can start. *)
Record startable (d : bytes) : Prop := {
  sa_elf : elf_ok d;
  sa_stack : forall v, STACK_LOW <= v < STACK_HIGH -> image d (fun _ => None) v = None;
  sa_entry : is_Some (image d (fun _ => None) (containing (entry (ehdr_at d)))) /\ 0 <= entry (ehdr_at d) < LOW
}.

Definition task_frames : Z := 4 * total_seg_pages (segments INIT_ELF) + 17.

Lemma boot_tasks_run (k : K) n Kf lo hi :
  kernel_space n (k_vm k) Kf -> private (k_vm k) 0 -> v_cr3 (k_vm k) <> 0 ->
  w_next_id (k_world k) = 0 -> cr3_reg (regs (w_machine (k_world k))) = v_cr3 (k_vm k) -> stacks_ok (k_world k) lo hi ->
  startable INIT_ELF -> task_frames <= n ->
  exists w st, boot_tasks k = (Ok tt, put_interrupts true (put_sched (w, st) k)) /\ shell_ready w st (n - task_frames).
Proof.
  intros Hks Hp0 Hc Hid Hcr [(Hlo & Hhi & Hrsp) [Hb Hbl] Hap] [Helf Hstk [Hent Hlow]] Hn.
  set (c := v_cr3 (k_vm k)) in *. set (w0 := k_world k) in *.
  set (w1 := mkWorld (Some (mkScheduler [kernel_task 0 c : Task KHandle AddressSpace] 0)) (w_ticks w0) (w_machine w0) (w_rsp0 w0) 1).
  assert (sched_init c w0 = (Ok tt, w1)) as Hinit.
  { unfold sched_init, next_id. rewrite bind_assoc, bind_get, bind_assoc, bind_put, bind_ret, bind_get. cbn. by rewrite Hid. }
  set (g := mkGhost (fun _ => mkCtx 0 0 0 0 0 0 0 0) (fun _ => lo) (fun _ => hi)).
  assert (sys_reach w1 g) as Hreach by (apply reach_boot; exists w0, c; split_and!; try done; apply Hrsp).
  destruct (spawn_elf_run (rest := []) n w1 g (k_vm k) INIT_ELF (lit "shell") trampoline task_stack)
    as (root & t & s & w' & st' & Hrun & Hsp & Hs & Hs' & Htid & Hnm & Hst & Hmd & Hcr3 & _ & Hcwd & Hreach'); try done.
  - by eapply kernel_space_spaces.
  - intros a Ha. destruct Hp0 as (a' & h & k' & Ha' & _ & _ & _ & _ & Htk & _). by replace a with a' by congruence.
  - exists w', st'. split.
    + unfold Kmain.boot_tasks. rewrite bind_get. fold c.
      rewrite (bind_ok _ _ _ _ _ (expect_part sched_view put_sched _ k _ _ (on_world_ok _ _ _ _ (k_vm k) Hinit))).
      by rewrite (bind_ok _ _ _ _ _ (expect_part sched_view put_sched _ (put_sched (w1, k_vm k) k) _ _ Hrun)).
    + injection Hs as <-. split.
      * exists c, root, t. split_and!; done.
      * eexists. split; [exact Hreach'|]. cbn [saved with_stack]. by rewrite decide_True.
Qed.

(** ** The boot *)

(** The machine as the boot loader leaves it. *)
Record before_boot (k : K) (N : nat) (lo hi : Z) : Prop := {
  bb_keyboard : kb_at N (board (k_ports k)) (fun _ => True) (k_ports k) /\ (N + 1 < PATIENCE)%nat;
  bb_tss : length (interrupt_stack_table (k_tss k)) = 7%nat;
  bb_vfs : k_vfs k = Vfs_new;
  bb_world : w_next_id (k_world k) = 0 /\ cr3_reg (regs (w_machine (k_world k))) = v_cr3 (k_vm k);
  bb_stacks : stacks_ok (k_world k) lo hi
}.

(** What [kmain] ends with. *)
Definition booted (l : Limine) (k : K) (n : Z) : Prop :=
  exists k', kmain l k = (Ok tt, k') /\ k_interrupts k' = true
    /\ cpu_ready k' /\ apic_ready (k_ticks_per_ms k') (board (k_ports k'))
    /\ (exists root, mounts (k_vfs k') = boot_table root /\ vfs_wf (k_vfs k') /\ (root = FsTmp \/ exists fs, root = FsFat fs))
    /\ shell_ready (k_world k') (k_vm k') n.

Lemma boot_steps l k h mm need N lo hi :
  handed_over l k h mm need -> 4 * heap_pages + 6 + task_frames <= need -> 0 <= task_frames -> upper_free h k -> heap_allocator ->
  (forall s, star_ok s -> Star_write s = true) -> (latency < PATIENCE)%nat -> apart_devices ->
  before_boot k N lo hi -> startable INIT_ELF -> files_up need k -> booted l k (need - (4 * heap_pages + 6) - task_frames).
Proof.
  intros Hho Hneed Htf Hup Halloc Hstar Hpat Hap [[Hkb HN] Hist Hv [Hid Hcr] Hstk] Hsh Hfiles.
  destruct (boot_hardware_run l k h mm need N Hho ltac:(lia) Hup Halloc Hstar Hist Hkb Hpat HN Hap)
    as ([] & k1 & H1 & Hup1).
  destruct (Hfiles k1 Hup1) as (k2 & H2 & Hb2). destruct Hup1 as [[Kf Hmem] Hp0 Hc1 Hapic Hcpu _ [= Hv1 _ _ Hw1]].
  destruct (boot_files_run k1 k2 ltac:(congruence) H2) as (Hmt & Hvm2 & Hw2 & Ht2 & Hcpu2).
  destruct Hho as [_ _ _ _ _ _ _ _ [_ Hr0] _ _ _ _].
  destruct (boot_tasks_run k2 (need - (4 * heap_pages + 6)) Kf lo hi) as (w & st & H3 & Hshell); rewrite ?Hvm2, ?Hw2, ?Hc1, ?Hw1; try done; [lia..|].
  eexists. split; [unfold Kmain.kmain; rewrite (bind_ok _ _ _ _ _ H1), (bind_ok _ _ _ _ _ H2); exact H3|].
  split_and!; [done| |by cbn; rewrite Ht2, Hb2|done|done].
  eapply cpu_ready_ext; [|exact (Hcpu2 Hcpu)]. done.
Qed.

(** C4: Booting. From a machine as the boot loader leaves it - a sane memory map, the
    direct map, page tables outside the usable memory, nothing mapped where the heap and
    the interrupt controllers go, and enough memory - [kmain] reaches its idle loop
    without a panic: the processor has the kernel's GDT, TSS and IDT and enters system
    calls at [syscall_entry], the interrupt controllers are programmed, the file systems
    are mounted on the boot mount table, the kernel is task 0 and the shell is task 1,
    ready to run in an address space with the image of its ELF file and its stack,
    and interrupts are on.  So it is on every machine without a disk; with one, if the
    code of [setup_fs] gets through what the disk holds. *)
Theorem kmain_boots l k h mm need N lo hi :
  handed_over l k h mm need -> 4 * heap_pages + 6 + task_frames <= need -> 0 <= task_frames -> upper_free h k -> heap_allocator ->
  (forall s, star_ok s -> Star_write s = true) -> (latency < PATIENCE)%nat -> apart_devices ->
  before_boot k N lo hi -> startable INIT_ELF ->
  let n := need - (4 * heap_pages + 6) - task_frames in
  (no_drive k -> booted l k n) /\ (files_up need k -> booted l k n).
Proof.
  intros. assert (files_up need k -> booted l k n) as Hfiles by (by eapply boot_steps).
  split; [|exact Hfiles]. intros Hno. by apply Hfiles, files_up_diskless.
Qed.
End facts.
