(* ===== verification/KmainDemo.v ===== *)
(** * KmainDemo: a machine that boots

    The board of [ApicDemo.v] with no disk behind its ports, the mapper of [VmmDemo.v],
    eight megabytes of memory and the program of [Launched.v] as the shell. *)
From Stdlib Require Import ZArith Lia.
From stdpp Require Import base numbers option list gmap.
From S2P Require Import Prelude VfsTypes Vfs BTree TmpFs Memory Pmm Vmm VmmFacts Heap KernelMap VmmDemo Hw Apic Board ApicFacts ApicDemo Block Ata AtaFacts Task Sched Elf ElfFacts Spawn Launched FatOps LiveFs Interrupts InterruptFacts InterruptDemo Syscall System SyscallEntry Kmain KmainFacts.

#[local] Existing Instance FatOps.Demo.ascii_case.

Definition boot_map : list Entry := [mkEntry 0 0x100000 false; mkEntry 0x100000 0x700000 true].

Definition limine : Limine :=
  mkLimine true (Some 0xFFFF800000000000) (Some [(0xFFFF8000FD000000, 1024, 768, 4096)]) (Some boot_map).

Abbreviation Slots := (list (option Descriptor)).

Definition switched_on : KState Timed Slots :=
  mkK [] None (mkVm (fun _ => 0) None None None 0x1000 []) 0 None firmware Vfs_new (NodeDirectory []) []
    (mkWorld None 0 (mkMachine (mkRegs 0x9000 1 2 3 4 5 6 0 0x1000) gmap_empty) 0 0)
    (mkCpu (fun _ => 0) 0 0 0 0 false (fun _ => 0) 0 0)
    (mkSegments None 0 0 0 0) Tss_new false false.

Definition any_selectors (s : Selectors) : bool := true.
Abbreviation demo_kmain := (kmain any_selectors (fun _ _ => mret tt) 64 0 0x10 0x600000 0x601000 0x602000 0x603000 0x604000 0x605000 0x10000 demo_elf).

(** The frames between the page tables and the usable memory. *)
Lemma low_reserved f : f < 0x100000 -> reserved boot_map f.
Proof.
  intros Hf (e & He & Hu & Hlo & _). unfold boot_map in He. rewrite !elem_of_cons, elem_of_nil in He.
  destruct He as [->|[->|[]]]; [done|]. cbn in Hlo. unfold PAGE_SIZE in Hlo. Z.div_mod_to_equations. lia.
Qed.

Lemma switched_on_handed_over : handed_over limine switched_on 0xFFFF800000000000 boot_map 1500.
Proof.
  split.
  - reflexivity.
  - reflexivity.
  - by eexists _, _.
  - reflexivity.
  - split; [repeat constructor; simpl; lia|]. intros [|[|i]] [|[|j]] e e' Hij Hi Hj He He'; simplify_eq/=; lia.
  - vm_compute. by eexists.
  - vm_compute. congruence.
  - intros a Ha. vm_compute in Ha. injection Ha as <-. vm_compute. congruence.
  - vm_compute. split; [reflexivity|split; congruence].
  - split; [reflexivity|split; [reflexivity|]]. intros p Hp. change (highest_addr boot_map) with 0x800000 in Hp. unfold PAGE_SIZE in Hp. cbn. rewrite u64_small by lia.
    apply orb_true_iff. right. apply Z.leb_le. lia.
  - intros f [->|Hf]; [by apply low_reserved|by vm_compute in Hf].
  - split; [by apply low_reserved|]. intros [Hf|Hf]; by vm_compute in Hf.
  - intros x _. cbn. unfold is_byte. lia.
Qed.

Lemma demo_startable : startable demo_elf.
Proof.
  split; [exact demo_elf_ok|exact demo_stack_clear|]. split; [vm_compute; by eexists|vm_compute; split; congruence].
Qed.

Lemma no_heap_mapped : upper_free 0xFFFF800000000000 switched_on.
Proof.
  intros v Hv. cbn. unfold cell_translate. rewrite high_cell; [done|].
  destruct Hv as [Hv| [->| ->]]; [|vm_compute; congruence..]. unfold in_heap in Hv. apply andb_true_iff in Hv as [Hv%Z.leb_le _].
  transitivity HEAP_START; [vm_compute; congruence|exact Hv].
Qed.

(** Nothing answers at the disk's ports. *)
Lemma no_disk : apart_devices (S := Timed).
Proof.
  intros b w p v s Hp Hs. assert (forall q, 0x1F0 <= p <= 0x1F7 -> 0x1F7 < q \/ q < 0x1F0 -> (p =? q) = false) as E
    by (intros q Hp' Hq; apply Z.eqb_neq; lia).
  split; cbn [port_out port_in as_expected timed_hw board expected_laws timed_laws]; unfold board_written, board_in, board_out; by rewrite !E by done || lia.
Qed.

Lemma no_drive_found a s : ATA (ata_init (mkAtaWorld a s)).2 = a.
Proof. vm_compute. reflexivity. Qed.

Lemma kmain_boots_witness :
  exists k', demo_kmain limine switched_on = (Ok tt, k') /\ k_interrupts k' = true /\ apic_ready (k_ticks_per_ms k') (board (k_ports k'))
    /\ (exists root, mounts (k_vfs k') = boot_table root)
    /\ exists c root t, w_sched (k_world k') = Some (mkScheduler [kernel_task 0 c; t] 0) /\ name t = lit "shell"
         /\ spaces 449 (k_vm k') [(root, with_stack_pages (image demo_elf (fun _ => None)))].
Proof.
  assert (task_frames demo_elf = 21) as Htf by (unfold task_frames; by rewrite demo_pages).
  destruct (kmain_boots any_selectors (fun _ _ => mret tt) 64 0 0x10 0x600000 0x601000 0x602000 0x603000 0x604000 0x605000 0x10000 demo_elf
    limine switched_on 0xFFFF800000000000 boot_map 1500 2 0x8000 0x9000) as [Hboot _].
  - exact switched_on_handed_over.
  - rewrite Htf. vm_compute. congruence.
  - lia.
  - exact no_heap_mapped.
  - intros n st K _. exists (ram st). split; [by destruct st|by left].
  - done.
  - cbn. lia.
  - exact no_disk.
  - split.
    + split; [|lia]. exists (kbc (t_board firmware)). split; [done|]. split; [split; cbn; lia|done].
    + reflexivity.
    + reflexivity.
    + done.
    + split; [vm_compute; split_and!; congruence|vm_compute; split; congruence|left; vm_compute; congruence].
  - exact demo_startable.
  - destruct Hboot as (k' & Hrun & Hi & _ & Hap & (root & Hm & _) & [Hs _]); [split_and!; [done..|apply no_drive_found]|].
    rewrite Htf in Hs. exists k'. split; [exact Hrun|]. split; [exact Hi|]. split; [exact Hap|]. split; [by exists root|].
    destruct Hs as (c & r & t & Hw & _ & Hn & _ & _ & _ & _ & Hsp). exists c, r, t. split; [exact Hw|]. split; [exact Hn|exact Hsp].
Defined.
