(* ===== verification/UserLib.v ===== *)
(** * UserLib: the user library

    [user/vlib/src/syscalls.rs] and [io.rs]: the system-call wrappers a program
    calls, the iterator over the entries [GETDENTS] returns, and printing.  A
    program is a computation on the kernel; the slice arguments of a wrapper live
    at the address [ubuf] while the call lasts. *)
From Stdlib Require Import ZArith Lia.
From stdpp Require Import base numbers option list.
From S2P Require Import Prelude Memory VfsTypes Path Vfs FdTable Keyboard Task Sched Utf8 Syscall.

Module Vlib.
Section vlib.
Context {W F H AS : Type} {FS : World H AS -> Filesystem W F H}
  {FH : FileHandle W H} {DH : DropHandle W H}.
(** Where the program's buffers live, and where its calls return to in the kernel. *)
Context (ubuf ret : Z).

Abbreviation U := (M (Kernel W F H AS) Empty_set).

Definition syscall1 (num arg1 : Z) : U Z := syscall_handler (FS := FS) ret num arg1 0 0.
Definition syscall2 (num arg1 arg2 : Z) : U Z := syscall_handler (FS := FS) ret num arg1 arg2 0.
Definition syscall3 (num arg1 arg2 arg3 : Z) : U Z := syscall_handler (FS := FS) ret num arg1 arg2 arg3.

Definition SYS_EXIT : Z := 0.
Definition SYS_WRITE : Z := 1.
Definition SYS_READ : Z := 2.
Definition SYS_OPEN : Z := 3.
Definition SYS_CLOSE : Z := 4.
Definition SYS_GETDENTS : Z := 5.
Definition SYS_MKDIR : Z := 6.
Definition SYS_UNLINK : Z := 7.
Definition SYS_RMDIR : Z := 8.
Definition SYS_CHDIR : Z := 9.
Definition SYS_GETCWD : Z := 10.

Definition O_RDONLY : Z := 0.
Definition O_WRONLY : Z := 1.
Definition O_RDWR : Z := 2.
Definition O_CREAT : Z := 64.
Definition O_TRUNC : Z := 512.
Definition O_APPEND : Z := 1024.
Definition O_DIRECTORY : Z := 65536.

(** A slice passed to a call: its address and length are what the call gets. *)
Definition with_slice {A} (buf : bytes) (k : Z -> Z -> U A) : U A :=
  in_env (e ← get; put (set_mem (store (e_mem e) ubuf buf) e)) ;; k ubuf (zlen buf).

(** The slice after the call. *)
Definition slice_back (buf : bytes) : U bytes :=
  s ← get; mret (load (e_mem s.2) ubuf (zlen buf)).

(** [exit] does not return. *)
Definition exit {A} (code : Z) : U A := syscall1 SYS_EXIT code ;; hang.

Definition write (fd : Z) (buf : bytes) : U Z :=
  with_slice buf (fun p n => syscall3 SYS_WRITE fd p n).

Definition read (fd : Z) (buf : bytes) : U (Z * bytes) :=
  n ← with_slice buf (fun p n => syscall3 SYS_READ fd p n); buf' ← slice_back buf; mret (n, buf').

Definition getch : U Z := '(_, buf) ← read 0 [0]; mret (rd buf 0).

Definition neg1_if_max (result : Z) : Z := if result =? U64_MAX then -1 else i64 result.

Definition open (path : bytes) (flags : Z) : U Z :=
  result ← with_slice path (fun p n => syscall3 SYS_OPEN p n flags); mret (neg1_if_max result).

Definition close (fd : Z) : U Z :=
  result ← syscall1 SYS_CLOSE fd; mret (if result =? U64_MAX then -1 else 0).

Definition touch (path : bytes) : U Z :=
  fd ← open path O_CREAT;
  if 0 <=? fd then close (u64 fd) ;; mret 0 else mret (-1).

Definition unlink (path : bytes) : U Z :=
  result ← with_slice path (fun p n => syscall2 SYS_UNLINK p n); mret (i64 result).
Definition mkdir (path : bytes) : U Z :=
  result ← with_slice path (fun p n => syscall2 SYS_MKDIR p n); mret (i64 result).
Definition rmdir (path : bytes) : U Z :=
  result ← with_slice path (fun p n => syscall2 SYS_RMDIR p n); mret (i64 result).

Definition chdir (path : bytes) : U Z :=
  result ← with_slice path (fun p n => syscall2 SYS_CHDIR p n); mret (if result =? U64_MAX then -1 else 0).

Definition getcwd (buf : bytes) : U (Z * bytes) :=
  result ← with_slice buf (fun p n => syscall2 SYS_GETCWD p n); buf' ← slice_back buf;
  mret (neg1_if_max result, buf').

Definition getdents (fd : Z) (buf : bytes) : U (Z * bytes) :=
  result ← with_slice buf (fun p n => syscall3 SYS_GETDENTS fd p n); buf' ← slice_back buf;
  mret (i64 result, buf').

(** [Stdout::write_str] for each piece of the format string, then the newline. *)
Definition print (pieces : list bytes) : U unit := for_each pieces (fun s => write 1 s ;; mret tt).
Definition println (pieces : list bytes) : U unit := print pieces ;; print [[10]].

(** [print_bytes!] and [println_bytes!]. *)
Definition print_bytes (b : bytes) : U unit := write 1 b ;; mret tt.
Definition println_bytes (b : bytes) : U unit := print_bytes b ;; print [[10]].

(** A panic of the program: its handler calls [exit(1)]. *)
Definition user_panic {A} : U A := exit 1.
Definition user_unwrap {A} (o : option A) : U A :=
  match o with Some a => mret a | None => user_panic end.
End vlib.

(** ** Directory entries *)
Record DirEntry := mkDirEntry { file_type : Z; name_len : Z; name : bytes }.

Definition DirEntry_empty : DirEntry := mkDirEntry 0 0 (replicate 256 0).

(** [entry.name()]; the iterator keeps [name_len] within the array. *)
Definition entry_name (e : DirEntry) : bytes := take (Z.to_nat (name_len e)) (name e).
Definition is_dir (e : DirEntry) : bool := file_type e =? 2.
Definition is_file (e : DirEntry) : bool := file_type e =? 1.

Record DirEntryIter := mkIter { it_buf : bytes; it_offset : nat }.

(** [DirEntryIter::new(buf, len)]: [&buf[..len]] panics when [len] is too large. *)
Definition DirEntryIter_new (buf : bytes) (len : Z) : option DirEntryIter :=
  if len <=? zlen buf then Some (mkIter (take (Z.to_nat len) buf) 0) else None.

Definition next (it : DirEntryIter) : option DirEntry * DirEntryIter :=
  let '(mkIter buf offset) := it in
  if (length buf <? offset + 3)%nat then (None, it)
  else
    let file_type := rd buf offset in
    let name_len := Z.lor (rd buf (offset + 1)) (Z.shiftl (rd buf (offset + 2)) 8) in
    let offset := (offset + 3)%nat in
    if (zlen buf <? Z.of_nat offset + name_len) || (256 <? name_len) then (None, mkIter buf offset)
    else
      let n := Z.to_nat name_len in
      (Some (mkDirEntry file_type name_len (splice (name DirEntry_empty) 0 (slice buf offset (offset + n)))),
       mkIter buf (offset + n)).

(** The entries a [for] loop sees; each one takes three bytes or more, so that the
    length of the buffer bounds the number of turns. *)
Fixpoint iterate (fuel : nat) (it : DirEntryIter) : list DirEntry :=
  match fuel with
  | O => []
  | S fuel' => match next it with
               | (Some e, it') => e :: iterate fuel' it'
               | (None, _) => []
               end
  end.
Definition entries (it : DirEntryIter) : list DirEntry := iterate (S (length (it_buf it))) it.
End Vlib.

(** ** Reading back what [GETDENTS] wrote *)

(** The record the iterator builds for an entry of the kernel. *)
Definition user_entry (e : DirEntry) : Vlib.DirEntry :=
  Vlib.mkDirEntry (type_byte (de_file_type e)) (zlen (as_bytes (de_name e)))
    (splice (replicate 256 0) 0 (as_bytes (de_name e))).

(** Names the iterator has room for. *)
Definition short_name_entry (e : DirEntry) : Prop :=
  Forall is_char (de_name e) /\ zlen (as_bytes (de_name e)) <= 256.

Lemma entry_name_user e : short_name_entry e -> Vlib.entry_name (user_entry e) = as_bytes (de_name e).
Proof.
  intros [_ Hl]. unfold Vlib.entry_name, user_entry, splice. cbn [Vlib.name_len Vlib.name].
  rewrite take_0. unfold zlen. rewrite Nat2Z.id, app_nil_l. apply take_app_length.
Qed.

Lemma is_dir_user e : Vlib.is_dir (user_entry e) = bool_decide (de_file_type e = Directory).
Proof. unfold Vlib.is_dir, user_entry. cbn [Vlib.file_type]. by destruct (de_file_type e). Qed.

Lemma name_len_bytes n : 0 <= n < 65536 ->
  Z.lor (Z.land (u16 n) 0xFF) (Z.shiftl (u8 (Z.shiftr (u16 n) 8)) 8) = n.
Proof.
  intros Hn. rewrite u16_small by lia.
  assert (0 <= Z.shiftr n 8 < 256) as Hs.
  { rewrite Z.shiftr_div_pow2 by lia. change (2 ^ 8) with 256. split; [apply Z.div_pos; lia|apply Z.div_lt_upper_bound; lia]. }
  rewrite u8_small by done. change 0xFF with (Z.ones 8).
  apply Z.bits_inj'. intros i Hi. rewrite Z.lor_spec, Z.land_spec, Z.shiftl_spec by lia.
  destruct (Z.ltb_spec i 8).
  - rewrite Z.ones_spec_low by lia. rewrite (Z.testbit_neg_r _ (i - 8)) by lia. by rewrite andb_true_r, orb_false_r.
  - rewrite Z.ones_spec_high by lia. rewrite andb_false_r, Z.shiftr_spec by lia. simpl. f_equal. lia.
Qed.

Lemma rd_middle (pre mid post : bytes) i :
  (i < length mid)%nat -> rd (pre ++ mid ++ post) (length pre + i) = rd mid i.
Proof.
  intros Hi. unfold rd. rewrite app_nth2_plus. by apply app_nth1.
Qed.

Lemma next_entry pre e post :
  short_name_entry e ->
  Vlib.next (Vlib.mkIter (pre ++ entry_bytes e ++ post) (length pre))
    = (Some (user_entry e), Vlib.mkIter (pre ++ entry_bytes e ++ post) (length pre + length (entry_bytes e))).
Proof.
  intros [Hc Hl]. set (nm := as_bytes (de_name e)) in *.
  assert (length (entry_bytes e) = 3 + length nm)%nat as Hlen by done.
  unfold Vlib.next. set (buf := pre ++ entry_bytes e ++ post).
  assert (length buf = length pre + (3 + length nm) + length post)%nat as Hb
    by (unfold buf; rewrite !length_app; lia).
  destruct (Nat.ltb_spec (length buf) (length pre + 3)); [lia|].
  assert (forall i, (i < 3 + length nm)%nat -> rd buf (length pre + i) = rd (entry_bytes e) i) as Hrd
    by (intros i Hi; apply rd_middle; lia).
  pose proof (Hrd 0%nat ltac:(lia)) as H0. rewrite Nat.add_0_r in H0.
  rewrite H0, (Hrd 1%nat), (Hrd 2%nat) by lia. clear Hrd H0.
  change (rd (entry_bytes e) 0) with (type_byte (de_file_type e)).
  change (rd (entry_bytes e) 1) with (Z.land (u16 (zlen nm)) 0xFF).
  change (rd (entry_bytes e) 2) with (u8 (Z.shiftr (u16 (zlen nm)) 8)).
  rewrite name_len_bytes by (unfold zlen in *; lia).
  destruct (Z.ltb_spec (zlen buf) (Z.of_nat (length pre + 3) + zlen nm)) as [Hx|_]; [unfold zlen in *; lia|].
  destruct (Z.ltb_spec 256 (zlen nm)) as [Hx|_]; [lia|]. cbn [orb].
  replace (Z.to_nat (zlen nm)) with (length nm) by (unfold zlen; lia).
  rewrite Hlen. do 2 f_equal; [|lia].
  unfold user_entry. fold nm. do 3 f_equal.
  unfold slice, buf. replace (length pre + 3 + length nm - (length pre + 3))%nat with (length nm) by lia.
  rewrite <- drop_drop, drop_app_length. unfold entry_bytes. fold nm. cbn [app drop].
  apply take_app_length.
Qed.

Lemma next_end buf : Vlib.next (Vlib.mkIter buf (length buf)) = (None, Vlib.mkIter buf (length buf)).
Proof. unfold Vlib.next. by destruct (Nat.ltb_spec (length buf) (length buf + 3)); [|lia]. Qed.

Lemma iterate_entries pre es fuel :
  Forall short_name_entry es -> (length es < fuel)%nat ->
  Vlib.iterate fuel (Vlib.mkIter (pre ++ (es ≫= entry_bytes)) (length pre)) = user_entry <$> es.
Proof.
  intros Hes. revert pre fuel. induction Hes as [|e es He Hes IH]; intros pre fuel Hf;
    (destruct fuel as [|fuel]; [simpl in Hf; lia|]); cbn [Vlib.iterate].
  - change (([] : list DirEntry) ≫= entry_bytes) with (@nil Z). rewrite app_nil_r. by rewrite next_end.
  - rewrite bind_cons, next_entry by done. cbn [fmap list_fmap]. f_equal.
    rewrite app_assoc, <- length_app. apply IH. simpl in Hf. lia.
Qed.

Lemma length_entries_le es : (length es <= length (es ≫= entry_bytes))%nat.
Proof.
  induction es as [|e es IH]; [done|]. rewrite bind_cons, length_app. unfold entry_bytes at 1. simpl in *. lia.
Qed.

Lemma entries_back es buf :
  Forall short_name_entry es ->
  take (Z.to_nat (zlen (es ≫= entry_bytes))) buf = es ≫= entry_bytes ->
  Vlib.entries <$> Vlib.DirEntryIter_new buf (zlen (es ≫= entry_bytes)) = Some (user_entry <$> es).
Proof.
  intros Hes Ht. unfold Vlib.DirEntryIter_new.
  destruct (Z.leb_spec (zlen (es ≫= entry_bytes)) (zlen buf)) as [Hle|Hle].
  - cbn [fmap option_fmap option_map]. rewrite Ht. unfold Vlib.entries. cbn [Vlib.it_buf].
    f_equal. apply (iterate_entries [] es); [done|]. pose proof (length_entries_le es). lia.
  - apply (f_equal length) in Ht. rewrite length_take in Ht. unfold zlen in *. lia.
Qed.

(** An entry whose name is longer than 256 bytes ends the iteration: it and the
    entries after it in the buffer are not seen. *)
Lemma iterate_stops_at_long_name es e rest fuel :
  Forall short_name_entry es -> Forall is_char (de_name e) -> 256 < zlen (as_bytes (de_name e)) < 65536 ->
  Vlib.iterate fuel (Vlib.mkIter ((es ≫= entry_bytes) ++ entry_bytes e ++ rest) 0) = user_entry <$> take fuel es.
Proof.
  intros Hes Hc Hl. change 0%nat with (length (@nil Z)).
  change ((es ≫= entry_bytes) ++ entry_bytes e ++ rest) with ([] ++ (es ≫= entry_bytes) ++ entry_bytes e ++ rest).
  generalize (@nil Z). revert fuel. induction Hes as [|e0 es He0 Hes IH]; intros fuel pre;
    (destruct fuel as [|fuel]; [done|]); cbn [Vlib.iterate].
  - change ((@nil DirEntry) ≫= entry_bytes) with (@nil Z). cbn [app]. rewrite take_nil.
    unfold Vlib.next. set (nm := as_bytes (de_name e)) in *. set (buf := pre ++ entry_bytes e ++ rest).
    assert (length (entry_bytes e) = 3 + length nm)%nat as Hlen by done.
    destruct (length buf <? length pre + 3)%nat; [done|].
    assert (forall i, (i < 3)%nat -> rd buf (length pre + i) = rd (entry_bytes e) i) as Hrd
      by (intros i Hi; apply rd_middle; lia).
    rewrite (Hrd 1%nat), (Hrd 2%nat) by lia.
    change (rd (entry_bytes e) 1) with (Z.land (u16 (zlen nm)) 0xFF).
    change (rd (entry_bytes e) 2) with (u8 (Z.shiftr (u16 (zlen nm)) 8)).
    rewrite name_len_bytes by lia. destruct (Z.ltb_spec 256 (zlen nm)); [|lia]. by rewrite orb_true_r.
  - rewrite bind_cons, <- !app_assoc, next_entry by done. cbn [take fmap list_fmap]. f_equal.
    rewrite app_assoc, <- length_app. rewrite IH. done.
Qed.
