(* ===== verification/Hello.v ===== *)
(** * Hello: the example program

    [user/hello_world/src/main.rs], on the system calls of [Syscall.v]. *)
From Stdlib Require Import ZArith Lia.
From stdpp Require Import base numbers option list.
From S2P Require Import Prelude Memory VfsTypes Path Vfs FdTable Keyboard Task Sched Utf8 Syscall UserLib.

Section hello.
Context {W F H AS : Type} {FS : World H AS -> Filesystem W F H}
  {FH : FileHandle W H} {DH : DropHandle W H}.
Context (ubuf ret : Z).
Abbreviation U := (M (Kernel W F H AS) Empty_set).

Definition hello_start : U unit :=
  Vlib.write (FS := FS) ubuf ret 1 (lit "Hello world!") ;;
  Vlib.exit (FS := FS) ret 0.

(** It prints its line and is over: the task is dead and another one is scheduled;
    the files, the keyboard and the descriptors are as they were. *)
Lemma hello_prints (w : World H AS) (e : Env W F) w' :
  Sched.exit ret w = (Ok tt, w') ->
  exists e', hello_start (w, e) = (Hang, (w', e'))
    /\ e_out e' = e_out e ++ (Char <$> lit "Hello world!") ++ [LogExit 0]
    /\ (e_vfs e', e_fs e', e_kb e', e_irq e') = (e_vfs e, e_fs e, e_kb e, e_irq e).
Proof.
  intros Hexit. set (m := store (e_mem e) ubuf (lit "Hello world!")).
  set (e1 := set_out (e_out e ++ (Char <$> load m ubuf 12)) (set_mem m e)).
  exists (set_out (e_out e1 ++ [LogExit 0]) e1). split; [|split; [|done]].
  - unfold hello_start. rewrite (bind_ok _ _ _ 12 (w, e1)) by done.
    change (Vlib.exit (FS := FS) ret 0) with (sys_exit (W := W) (F := F) (H := H) (AS := AS) ret 0 ;; hang : U unit).
    unfold sys_exit. rewrite !bind_assoc. rewrite (bind_ok _ _ _ tt (w, set_out (e_out e1 ++ [LogExit 0]) e1)) by done.
    rewrite bind_assoc. rewrite (bind_ok _ _ _ tt (w', set_out (e_out e1 ++ [LogExit 0]) e1)); [done|].
    unfold zoom. cbn [fst snd]. by rewrite Hexit.
  - change (e_out (set_out (e_out e1 ++ [LogExit 0]) e1)) with (e_out e1 ++ [LogExit 0]).
    unfold e1. cbn [e_out set_out]. rewrite <- app_assoc. do 3 f_equal. unfold m. apply (load_store (e_mem e) ubuf (lit "Hello world!")).
Qed.
End hello.
