(* ===== verification/Shell.v ===== *)
(** * Shell: the command interpreter

    [user/shell/src]: the line editor and argument splitting of [input.rs], the
    commands, dispatch, and the main loop, over the wrappers of [UserLib.v]. *)
From Stdlib Require Import ZArith Lia.
From stdpp Require Import base numbers option list.
From S2P Require Import Prelude Memory VfsTypes Path Vfs FdTable Keyboard Task Sched Utf8 Syscall UserLib.

Definition space : Z := 32.
Definition newline : Z := 10.

(** [i] moved past the bytes that satisfy [p]. *)
Fixpoint skip_while (p : Z -> bool) (s : bytes) : bytes :=
  match s with
  | c :: s' => if p c then skip_while p s' else s
  | [] => []
  end.
Fixpoint take_while (p : Z -> bool) (s : bytes) : bytes :=
  match s with
  | c :: s' => if p c then c :: take_while p s' else []
  | [] => []
  end.

Definition is_space (c : Z) : bool := c =? space.

(** [parse_args]: [room] is what is left of [argv]; [line] is the rest of the line. *)
Fixpoint parse_args (room : nat) (line : bytes) : list bytes :=
  match room with
  | O => []
  | S room' =>
      let rest := skip_while is_space line in
      match rest with
      | [] => []
      | _ => take_while (negb ∘ is_space) rest
             :: parse_args room' (skip_while (negb ∘ is_space) rest)
      end
  end.

Section shell.
Context {W F H AS : Type} {FS : World H AS -> Filesystem W F H}
  {FH : FileHandle W H} {DH : DropHandle W H}.
Context (ubuf ret : Z).
Abbreviation U := (M (Kernel W F H AS) Empty_set).

Abbreviation write := (Vlib.write (FS := FS) ubuf ret).
Abbreviation print := (Vlib.print (FS := FS) ubuf ret).
Abbreviation println := (Vlib.println (FS := FS) ubuf ret).
Abbreviation open := (Vlib.open (FS := FS) ubuf ret).
Abbreviation close := (Vlib.close (FS := FS) ret).
Abbreviation read := (Vlib.read (FS := FS) ubuf ret).
Abbreviation getdents := (Vlib.getdents (FS := FS) ubuf ret).
Abbreviation user_unwrap := (Vlib.user_unwrap (FS := FS) ret).

(** ** The line editor *)

(** One turn of the loop of [read_line] on the character [c]: the buffer and [pos],
    or the length of the finished line. *)
Definition read_line_step (c : Z) (buf : bytes) (pos : nat) : U (bytes * nat + bytes * nat) :=
  if c =? newline then write 1 [newline] ;; mret (inr (buf, pos))
  else if (c =? 8) || (c =? 127) then
    if (0 <? pos)%nat then write 1 [8; space; 8] ;; mret (inl (buf, pos - 1)%nat)
    else mret (inl (buf, pos))
  else if (32 <=? c) && (c <=? 126) then
    if Z.of_nat pos <? zlen buf -w64 1 then
      _ ← user_unwrap (buf !! pos);
      write 1 [c] ;; mret (inl (<[pos := c]> buf, S pos))
    else mret (inl (buf, pos))
  else mret (inl (buf, pos)).

Definition read_line (fuel : nat) (buf : bytes) : U (bytes * nat) :=
  loop fuel (fun '(buf, pos) => c ← Vlib.getch (FS := FS) ubuf ret; read_line_step c buf pos) (buf, 0%nat).

(** ** Commands *)
Definition usage (text : rstr) : U unit := println [text].

(** [help]. *)
Definition help_lines : list rstr :=
  [lit "commands:";
   lit "  help          - what you're looking at";
   lit "  echo <text>   - echo some text";
   lit "  ls <dir>      - list a directories contents";
   lit "  touch <file>  - create a file";
   lit "  mkdir <dir>   - create a directory";
   lit "  rm <file>     - delete a file";
   lit "  rmdir <dir>   - delete a directory";
   lit "  write <file> <text> - write text to a file";
   lit "  cat <file>    - display a files content";
   lit "  cd <dir>      - change directory";
   lit "  pwd           - display current working directory";
   lit "  ps            - list running tasks in /live/tasks";
   lit "  exit          - say byebye to the shell :c"].
Definition help_run : U unit := for_each help_lines (fun l => println [l]).

Definition echo_run (args : list bytes) : U unit :=
  for_each (zip (seq 0 (length args)) args) (fun '(i, arg) =>
    (if (0 <? i)%nat then print [[space]] else mret tt) ;; print [arg]) ;;
  print [[newline]].

Definition ls_line (e : Vlib.DirEntry) : list bytes :=
  [if Vlib.is_dir e then lit "[DIR]  " else lit "[FILE] "; Vlib.entry_name e].

(** The loop around [getdents]. *)
Definition getdents_loop_user (fuel : nat) (fd : Z) (buf : bytes) (body : Vlib.DirEntry -> U unit) : U unit :=
  loop fuel (fun buf =>
    '(bytes_read, buf) ← getdents fd buf;
    if bytes_read <=? 0 then mret (inr tt)
    else
      it ← user_unwrap (Vlib.DirEntryIter_new buf bytes_read);
      for_each (Vlib.entries it) body ;; mret (inl buf)) buf.

Definition ls_run (fuel : nat) (args : list bytes) : U unit :=
  let path := match args with [] => lit "." | a :: _ => a end in
  fd ← open path (Z.lor Vlib.O_RDONLY Vlib.O_DIRECTORY);
  if fd <? 0 then println [lit "cannot open '"; path; lit "'"]
  else
    let fd := u64 fd in
    getdents_loop_user fuel fd (replicate 1024 0) (fun entry => println (ls_line entry)) ;;
    close fd ;; mret tt.

Definition cat_run (fuel : nat) (args : list bytes) : U unit :=
  match args with
  | [] => usage (lit "usage: cat <file>")
  | path :: _ =>
      fd ← open path Vlib.O_RDONLY;
      if fd <? 0 then println [lit "cat: cannot open '"; path; lit "'"]
      else
        let fd := u64 fd in
        loop fuel (fun buf =>
          '(bytes_read, buf) ← read fd buf;
          if bytes_read =? 0 then mret (inr tt)
          else
            piece ← user_unwrap (if bytes_read <=? zlen buf then Some (take (Z.to_nat bytes_read) buf) else None);
            print [piece] ;; mret (inl buf)) (replicate 512 0) ;;
        print [[newline]] ;;
        close fd ;; mret tt
  end.

(** [buf[i] = b] for each [b], which panics past the end of [buf]. *)
Fixpoint put_bytes (bs : bytes) (buf : bytes) (i : nat) : option (bytes * nat) :=
  match bs with
  | [] => Some (buf, i)
  | b :: bs' => if (i <? length buf)%nat then put_bytes bs' (<[i := b]> buf) (S i) else None
  end.

Definition build_path (buf pid : bytes) : option (bytes * nat) :=
  '(buf, i) ← put_bytes (lit "/live/tasks/") buf 0;
  '(buf, i) ← put_bytes pid buf i;
  put_bytes (lit "/status") buf i.

Definition is_newline (c : Z) : bool := c =? newline.

(** The three fields [print_status] looks for. *)
Definition scan_line (line : bytes) (acc : bytes * bytes * bytes) : bytes * bytes * bytes :=
  let '(pid, state, mode) := acc in
  match strip_prefix (lit "pid: ") line with
  | Some v => (v, state, mode)
  | None =>
      match strip_prefix (lit "state: ") line with
      | Some v => (pid, v, mode)
      | None =>
          match strip_prefix (lit "mode: ") line with
          | Some v => (pid, state, v)
          | None => acc
          end
      end
  end.

(** The outer loop: one line a turn, so the length of the text bounds the turns. *)
Fixpoint scan_status (fuel : nat) (status : bytes) (acc : bytes * bytes * bytes) : bytes * bytes * bytes :=
  match fuel, status with
  | S fuel', _ :: _ =>
      let line := take_while (negb ∘ is_newline) status in
      let rest := skip_while (negb ∘ is_newline) status in
      let rest := match rest with c :: r => if is_newline c then r else rest | [] => [] end in
      scan_status fuel' rest (scan_line line acc)
  | _, _ => acc
  end.

Definition status_fields (status : bytes) : bytes * bytes * bytes :=
  scan_status (length status) status (lit "?", lit "?", lit "?").

Definition print_status (status : bytes) : U unit :=
  let '(pid, state, mode) := status_fields status in
  println [pid; [9]; state; [9; 9]; mode].

Definition ps_entry (entry : Vlib.DirEntry) : U unit :=
  if Vlib.is_dir entry then
    '(path_buf, path_len) ← user_unwrap (build_path (replicate 64 0) (Vlib.entry_name entry));
    status_fd ← open (take path_len path_buf) Vlib.O_RDONLY;
    if 0 <=? status_fd then
      '(n, status_buf) ← read (u64 status_fd) (replicate 256 0);
      (if 0 <? n then
         piece ← user_unwrap (if n <=? zlen status_buf then Some (take (Z.to_nat n) status_buf) else None);
         print_status piece
       else mret tt) ;;
      close (u64 status_fd) ;; mret tt
    else mret tt
  else mret tt.

Definition ps_run (fuel : nat) : U unit :=
  fd ← open (lit "/live/tasks") (Z.lor Vlib.O_RDONLY Vlib.O_DIRECTORY);
  if fd <? 0 then println [lit "ps: failed to open /live/tasks"]
  else
    let fd := u64 fd in
    getdents_loop_user fuel fd (replicate 1024 0) ps_entry ;;
    close fd ;; mret tt.

Definition touch_run (args : list bytes) : U unit :=
  match args with
  | [] => usage (lit "usage: touch <file>")
  | path :: _ => Vlib.touch (FS := FS) ubuf ret path ;; mret tt
  end.
Definition mkdir_run (args : list bytes) : U unit :=
  match args with
  | [] => usage (lit "usage: mkdir <file>")
  | path :: _ => Vlib.mkdir (FS := FS) ubuf ret path ;; mret tt
  end.
Definition rm_run (args : list bytes) : U unit :=
  match args with
  | [] => usage (lit "usage: rm <file>")
  | path :: _ => Vlib.unlink (FS := FS) ubuf ret path ;; mret tt
  end.
Definition rmdir_run (args : list bytes) : U unit :=
  match args with
  | [] => usage (lit "usage: rmdir <directory>")
  | path :: _ => Vlib.rmdir (FS := FS) ubuf ret path ;; mret tt
  end.

Definition write_run (args : list bytes) : U unit :=
  match args with
  | [] => usage (lit "usage: write <file>")
  | path :: words =>
      fd ← open path (Z.lor (Z.lor Vlib.O_WRONLY Vlib.O_APPEND) Vlib.O_CREAT);
      if fd <? 0 then println [lit "write: failed to open or create '"; path; lit "'"]
      else
        let fd := u64 fd in
        for_each (zip (seq 0 (length words)) words) (fun '(i, arg) =>
          (if (0 <? i)%nat then write fd [space] ;; mret tt else mret tt) ;;
          write fd arg ;; mret tt) ;;
        write fd [newline] ;;
        close fd ;; mret tt
  end.

Definition pwd_run : U unit :=
  '(len, buf) ← Vlib.getcwd (FS := FS) ubuf ret (replicate 256 0);
  if len <? 0 then println [lit "pwd: failed to get current directory"]
  else
    piece ← user_unwrap (if len <=? zlen buf then Some (take (Z.to_nat len) buf) else None);
    println [piece].

Definition cd_run (args : list bytes) : U unit :=
  let path := match args with [] => lit "/" | a :: _ => a end in
  r ← Vlib.chdir (FS := FS) ubuf ret path;
  if r <? 0 then println [lit "cd: no such directory '"; path; lit "'"] else mret tt.

(** ** Dispatch *)
Definition execute (fuel : nat) (line : bytes) : U unit :=
  match parse_args 16 line with
  | [] => mret tt
  | cmd :: args =>
      if decide (cmd = lit "help") then help_run
      else if decide (cmd = lit "echo") then echo_run args
      else if decide (cmd = lit "ls") then ls_run fuel args
      else if decide (cmd = lit "cat") then cat_run fuel args
      else if decide (cmd = lit "ps") then ps_run fuel
      else if decide (cmd = lit "touch") then touch_run args
      else if decide (cmd = lit "mkdir") then mkdir_run args
      else if decide (cmd = lit "rm") then rm_run args
      else if decide (cmd = lit "rmdir") then rmdir_run args
      else if decide (cmd = lit "write") then write_run args
      else if decide (cmd = lit "pwd") then pwd_run
      else if decide (cmd = lit "cd") then cd_run args
      else if decide (cmd = lit "exit") then
        println [lit "byebye o7"] ;; Vlib.exit (FS := FS) ret 0
      else println [lit "command '"; cmd; lit "' doesnt exist" ++ [newline]
                      ++ lit "use 'help' for a list of commands."]
  end.

(** One turn of the main loop: prompt, line, command. *)
Definition shell_turn (fuel : nat) (buf : bytes) : U bytes :=
  '(cwd_len, cwd) ← Vlib.getcwd (FS := FS) ubuf ret (replicate 256 0);
  cwd ← user_unwrap (if u64 cwd_len <=? zlen cwd then Some (take (Z.to_nat cwd_len) cwd) else None);
  print [lit "["; cwd; lit "] "] ;;
  '(buf, len) ← read_line fuel buf;
  let line := take len buf in
  (if (len =? 0)%nat then mret tt else execute fuel line) ;;
  mret buf.

(** [_start]: the greeting, then turns for ever; it ends when a command exits. *)
Definition shell_start {B} (fuel : nat) : U B :=
  println [lit "herro, welcome to vshell(vyper shell)"] ;;
  loop fuel (fun buf => buf ← shell_turn fuel buf; mret (inl buf)) (replicate 256 0).
End shell.
