(* ===== verification/ShellFacts.v ===== *)
(** * ShellFacts: programs run to completion

    Runs of the wrappers of [UserLib.v] and of the commands of [Shell.v] against
    the handlers of [Syscall.v]: what is printed, what the kernel is left with,
    and how much fuel is enough. *)
From Stdlib Require Import ZArith Lia.
From stdpp Require Import base numbers option list.
From S2P Require Import Prelude Memory VfsTypes Path Vfs FdTable Keyboard Task Sched Utf8.
From S2P Require Import Syscall SyscallFacts UserLib Shell.

Section runs.
Context {W F H AS : Type} {FS : World H AS -> Filesystem W F H}
  {FH : FileHandle W H} {DH : DropHandle W H}.
Context (ubuf ret : Z).
Abbreviation U := (M (Kernel W F H AS) Empty_set).
Implicit Types (w : World H AS) (e : Env W F).

Abbreviation write := (Vlib.write (FS := FS) ubuf ret).
Abbreviation print := (Vlib.print (FS := FS) ubuf ret).
Abbreviation println := (Vlib.println (FS := FS) ubuf ret).
Abbreviation open := (Vlib.open (FS := FS) ubuf ret).
Abbreviation close := (Vlib.close (FS := FS) ret).
Abbreviation read := (Vlib.read (FS := FS) ubuf ret).
Abbreviation getdents := (Vlib.getdents (FS := FS) ubuf ret).

(** ** Printing *)
Lemma with_slice_run {A} buf (k : Z -> Z -> U A) w e :
  Vlib.with_slice ubuf buf k (w, e) = k ubuf (zlen buf) (w, set_mem (store (e_mem e) ubuf buf) e).
Proof. done. Qed.


(** The environment after [bs] went to the console, with memory [m]. *)
Definition printed (bs : bytes) (m : UMem) e : Env W F := set_mem m (set_out (e_out e ++ (Char <$> bs)) e).

(** [prog] prints [bs] and, memory apart, does nothing else. *)
Definition prints (prog : U unit) (bs : bytes) : Prop :=
  forall w e, exists m, prog (w, e) = (Ok tt, (w, printed bs m e)).

Lemma write_console_run bs w e :
  write 1 bs (w, e) = (Ok (zlen bs), (w, printed bs (store (e_mem e) ubuf bs) e)).
Proof.
  unfold Vlib.write. rewrite with_slice_run.
  change (in_env (write_console ubuf (zlen bs)) (w, set_mem (store (e_mem e) ubuf bs) e)
    = (Ok (zlen bs), (w, printed bs (store (e_mem e) ubuf bs) e)) :> outcome Empty_set Z * _).
  unfold in_env, zoom, write_console. cbn [snd fst]. rewrite bind_get. cbn [e_mem set_mem].
  by rewrite load_store.
Qed.

Lemma printed_nil e : printed [] (e_mem e) e = e.
Proof. unfold printed. destruct e. unfold set_mem, set_out. simpl. by rewrite app_nil_r. Qed.

Lemma printed_app a b m m' e : printed b m' (printed a m e) = printed (a ++ b) m' e.
Proof. unfold printed, set_mem, set_out. simpl. by rewrite fmap_app, app_assoc. Qed.

Lemma prints_ret : prints (mret tt) [].
Proof. intros w e. exists (e_mem e). by rewrite printed_nil. Qed.

Lemma prints_bind (p q : U unit) a b : prints p a -> prints q b -> prints (p ;; q) (a ++ b).
Proof.
  intros Hp Hq w e. destruct (Hp w e) as [m Hm]. rewrite (bind_ok _ _ _ _ _ Hm).
  destruct (Hq w (printed a m e)) as [m' Hm']. exists m'. rewrite Hm'. by rewrite printed_app.
Qed.

Lemma prints_for_each {X} (l : list X) (body : X -> U unit) (f : X -> bytes) :
  (forall x, x ∈ l -> prints (body x) (f x)) -> prints (for_each l body) (l ≫= f).
Proof.
  induction l as [|x l IH]; intros Hb; [apply prints_ret|]. rewrite bind_cons. cbn [for_each].
  apply prints_bind; [apply Hb; left|]. apply IH. intros y Hy. apply Hb. by right.
Qed.

Lemma prints_print pieces : prints (print pieces) (mjoin pieces).
Proof.
  unfold Vlib.print. replace (mjoin pieces) with (pieces ≫= (fun s => s))
    by (induction pieces; [done|]; rewrite bind_cons; simpl; by f_equal).
  apply prints_for_each. intros s _ w e. eexists. by rewrite (bind_ok _ _ _ _ _ (write_console_run s w e)).
Qed.

Lemma prints_println pieces : prints (println pieces) (mjoin pieces ++ [newline]).
Proof. apply prints_bind; [apply prints_print|]. apply (prints_print [[10]]). Qed.

(** ** Directories *)
(** The path a program's argument stands for. *)
Definition abs_path w (p : rstr) : rstr := resolve_path p (default (lit "/") (get_cwd w)).

Lemma path_arg_run {E} path p w e :
  from_utf8 path = Some p ->
  (path_arg ubuf (zlen path) : M (Kernel W F H AS) E rstr) (w, set_mem (store (e_mem e) ubuf path) e)
    = (Ok (abs_path w p), (w, set_mem (store (e_mem e) ubuf path) e)).
Proof. intros Hp. unfold path_arg. cbn [snd fst e_mem set_mem]. by rewrite load_store, Hp. Qed.

Lemma alloc_fd_run kind t i w e :
  cur_fds w = Some t -> first_free t i ->
  alloc_fd kind (w, e) = (Ok (Z.of_nat i), (set_cur_fds (set_slot i (Some kind) t) w, e)).
Proof.
  intros Ht Hi. unfold alloc_fd. rewrite (with_fd_table_run _ _ _ _ Ht). unfold zoom. cbn [fst snd].
  by rewrite (fd_alloc_run _ _ _ Hi).
Qed.

Lemma on_vfs_run {A} (f : Filesystem W F H -> Vfs F -> M W VfsError A) w e a fs' :
  f (FS w) (e_vfs e) (e_fs e) = (Ok a, fs') -> on_vfs f (w, e) = (Ok a, (w, set_fs fs' e)).
Proof. intros Hf. unfold on_vfs. by rewrite Hf. Qed.

Lemma catch_ok {S E E' A} (m : M S E A) s a s' : m s = (Ok a, s') -> (catch m : M S E' _) s = (Ok (Some a), s').
Proof. intros Hm. unfold catch. by rewrite Hm. Qed.
Lemma catch_err {S E E' A} (m : M S E A) s er s' : m s = (Err er, s') -> (catch m : M S E' _) s = (Ok None, s').
Proof. intros Hm. unfold catch. by rewrite Hm. Qed.
Lemma unwrap_or_ok {S E E' A} d (m : M S E A) s a s' : m s = (Ok a, s') -> (unwrap_or d m : M S E' _) s = (Ok a, s').
Proof. intros Hm. unfold unwrap_or. by rewrite (bind_ok _ _ _ _ _ (catch_ok _ _ _ _ Hm)). Qed.

Lemma small_fd i : (3 <= i < 64)%nat -> Vlib.neg1_if_max (Z.of_nat i) = Z.of_nat i /\ u64 (Z.of_nat i) = Z.of_nat i.
Proof.
  intros Hi. unfold Vlib.neg1_if_max, U64_MAX. destruct (Z.eqb_spec (Z.of_nat i) (2 ^ 64 - 1)); [lia|].
  rewrite i64_small, u64_small by lia. done.
Qed.

Lemma open_dir_run path p t i es fs' w e :
  from_utf8 path = Some p -> cur_fds w = Some t -> fd_wf t -> first_free t i ->
  vfs_readdir (Filesystem0 := FS w) (e_vfs e) (abs_path w p) (e_fs e) = (Ok es, fs') ->
  exists m, open path (Z.lor Vlib.O_RDONLY Vlib.O_DIRECTORY) (w, e)
    = (Ok (Z.of_nat i), (set_cur_fds (set_slot i (Some (FdDirectory (abs_path w p) es 0)) t) w, set_fs fs' (set_mem m e))).
Proof.
  intros Hp Ht Hwf Hi Hr. pose proof (first_free_bound t i Hwf Hi) as Hb.
  exists (store (e_mem e) ubuf path). set (e1 := set_mem (store (e_mem e) ubuf path) e).
  assert (sys_open (FS := FS) ubuf (zlen path) (Z.lor Vlib.O_RDONLY Vlib.O_DIRECTORY) (w, e1)
    = (Ok (Z.of_nat i), (set_cur_fds (set_slot i (Some (FdDirectory (abs_path w p) es 0)) t) w, set_fs fs' e1))) as Ho.
  { unfold sys_open. rewrite (bind_ok _ _ _ _ _ (path_arg_run path p w e Hp)). fold e1.
    change (OpenFlags.contains (OpenFlags.from_bits (u32 (Z.lor Vlib.O_RDONLY Vlib.O_DIRECTORY))) OpenFlags.O_DIRECTORY) with true.
    cbv iota zeta.
    erewrite bind_ok; [|apply catch_ok, on_vfs_run; exact Hr].
    apply unwrap_or_ok. by apply alloc_fd_run. }
  unfold Vlib.open. erewrite bind_ok; [|rewrite with_slice_run; exact Ho].
  by rewrite (proj1 (small_fd i Hb)).
Qed.

Lemma with_fd_run {A} i k t (m : M (FdKind H * Env W F) VfsError A) w e :
  cur_fds w = Some t -> fd_wf t -> FdTable.fds t !! i = Some (Some k) ->
  with_fd (Z.of_nat i) m (w, e) =
    (let '(o, (k', e')) := m (k, e) in (o, (set_cur_fds (set_slot i (Some k') t) w, e'))).
Proof.
  intros Ht Hwf Hk. unfold with_fd. rewrite (with_fd_table_run _ _ _ _ Ht).
  erewrite fd_get_mut_run; [|apply fd_get_slot; [done|lia|rewrite Nat2Z.id; exact Hk]].
  rewrite Nat2Z.id. by destruct (m (k, e)) as [o [k' e']].
Qed.

Lemma close_fd_run i k t w e :
  cur_fds w = Some t -> fd_wf t -> (3 <= i < 64)%nat -> FdTable.fds t !! i = Some (Some k) ->
  with_fd_table (zoom fst (fun t s => (t, s.2)) (fd_close (Z.of_nat i))) (w, e)
    = (Ok tt, (set_cur_fds (set_slot i None t) w, e)).
Proof.
  intros Ht Hwf Hb Hk. rewrite (with_fd_table_run _ _ _ _ Ht). unfold zoom; cbn [fst snd].
  by rewrite (fd_close_run _ _ _ Hwf Hb Hk).
Qed.

Lemma fd_slot_cur i k t w :
  cur_fds w = Some t -> FdTable.fds t !! i = Some (Some k) -> fd_slot (Z.of_nat i) w = Some k.
Proof.
  intros Ht Hk. unfold fd_slot. unfold cur_fds, cur_task in Ht. destruct (w_sched w) as [sched|]; [|done]. simpl in *.
  destruct (current_task sched) as [tk|]; [|done]. simpl in *. injection Ht as ->. by rewrite Nat2Z.id, Hk.
Qed.

Lemma close_dir_run i p es pos t w e :
  cur_fds w = Some t -> fd_wf t -> (3 <= i < 64)%nat -> FdTable.fds t !! i = Some (Some (FdDirectory p es pos)) ->
  close (Z.of_nat i) (w, e) = (Ok 0, (set_cur_fds (set_slot i None t) w, e)).
Proof.
  intros Ht Hwf Hb Hk.
  assert (sys_close (Z.of_nat i) (w, e) = (Ok 0, (set_cur_fds (set_slot i None t) w, e))) as Hc.
  { unfold sys_close. erewrite bind_ok; [|apply catch_ok; by apply (close_fd_run _ _ _ _ _ Ht Hwf Hb Hk)].
    cbn [fst]. by rewrite (fd_slot_cur _ _ _ _ Ht Hk). }
  unfold Vlib.close. by erewrite bind_ok; [|exact Hc].
Qed.

(** ** Files *)
Lemma open_file_run path p flags t i h fs' w e :
  from_utf8 path = Some p -> cur_fds w = Some t -> fd_wf t -> first_free t i ->
  OpenFlags.contains (OpenFlags.from_bits (u32 flags)) OpenFlags.O_DIRECTORY = false ->
  vfs_open (Filesystem0 := FS w) (e_vfs e) (abs_path w p) (OpenFlags.from_bits (u32 flags)) (e_fs e) = (Ok h, fs') ->
  exists m, open path flags (w, e)
    = (Ok (Z.of_nat i), (set_cur_fds (set_slot i (Some (FdFile h)) t) w, set_fs fs' (set_mem m e))).
Proof.
  intros Hp Ht Hwf Hi Hfl Hr. pose proof (first_free_bound t i Hwf Hi) as Hb.
  exists (store (e_mem e) ubuf path). set (e1 := set_mem (store (e_mem e) ubuf path) e).
  assert (sys_open (FS := FS) ubuf (zlen path) flags (w, e1)
    = (Ok (Z.of_nat i), (set_cur_fds (set_slot i (Some (FdFile h)) t) w, set_fs fs' e1))) as Ho.
  { unfold sys_open. rewrite (bind_ok _ _ _ _ _ (path_arg_run path p w e Hp)). fold e1. cbv zeta. rewrite Hfl.
    erewrite bind_ok; [|apply catch_ok, on_vfs_run; exact Hr].
    cbv beta iota. erewrite bind_ok; [|apply catch_ok; by apply alloc_fd_run]. done. }
  unfold Vlib.open. erewrite bind_ok; [|rewrite with_slice_run; exact Ho].
  by rewrite (proj1 (small_fd i Hb)).
Qed.

Lemma read_file_run i h t buf n buf' h' fs' w e :
  cur_fds w = Some t -> fd_wf t -> (3 <= i < 64)%nat -> FdTable.fds t !! i = Some (Some (FdFile h)) ->
  fh_read buf (h, e_fs e) = (Ok (n, buf'), (h', fs')) -> zlen buf' = zlen buf ->
  exists m, read (Z.of_nat i) buf (w, e)
    = (Ok (n, buf'), (set_cur_fds (set_slot i (Some (FdFile h')) t) w, set_fs fs' (set_mem m e))).
Proof.
  intros Ht Hwf Hb Hk Hr Hl. set (e1 := set_mem (store (e_mem e) ubuf buf) e).
  exists (store (e_mem e1) ubuf buf'). unfold Vlib.read.
  rewrite (bind_ok _ _ _ n (set_cur_fds (set_slot i (Some (FdFile h')) t) w,
    set_fs fs' (set_mem (store (e_mem e1) ubuf buf') e))).
  - cbn beta. unfold Vlib.slice_back. rewrite bind_assoc, bind_get, bind_ret. cbn [snd e_mem set_fs set_mem].
    rewrite <- Hl at 1. rewrite load_store. done.
  - rewrite with_slice_run. fold e1.
    change (sys_read (Z.of_nat i) ubuf (zlen buf) (w, e1)
      = (Ok n, (set_cur_fds (set_slot i (Some (FdFile h')) t) w, set_fs fs' (set_mem (store (e_mem e1) ubuf buf') e)))
        :> outcome Empty_set Z * _).
    unfold sys_read. destruct (Z.eqb_spec (Z.of_nat i) 0); [lia|]. apply unwrap_or_ok.
    rewrite (with_fd_run i (FdFile h) t) by done. unfold read_fd. cbn [fst snd].
    assert (load (e_mem e1) ubuf (zlen buf) = buf) as -> by apply load_store.
    rewrite (bind_ok _ _ _ (n, buf') (FdFile h', set_fs fs' e1)); [done|].
    unfold on_handle. change (e_fs e1) with (e_fs e). by rewrite Hr.
Qed.

Lemma close_file_run i h t fs' w e :
  cur_fds w = Some t -> fd_wf t -> (3 <= i < 64)%nat -> FdTable.fds t !! i = Some (Some (FdFile h)) ->
  drop_handle h (e_fs e) = (Ok tt, fs') ->
  close (Z.of_nat i) (w, e) = (Ok 0, (set_cur_fds (set_slot i None t) w, set_fs fs' e)).
Proof.
  intros Ht Hwf Hb Hk Hd.
  assert (sys_close (Z.of_nat i) (w, e) = (Ok 0, (set_cur_fds (set_slot i None t) w, set_fs fs' e))) as Hc.
  { unfold sys_close. erewrite bind_ok; [|apply catch_ok; by apply (close_fd_run i (FdFile h) t)].
    cbn [fst]. rewrite (fd_slot_cur _ _ _ _ Ht Hk). cbn [drop_in_env].
    erewrite bind_ok; [|unfold in_env, zoom; cbn [snd fst]; by rewrite Hd]. done. }
  unfold Vlib.close. by erewrite bind_ok; [|exact Hc].
Qed.

(** One call of [GETDENTS] on a directory: the longest run of entries that fits. *)
Lemma getdents_run i p es pos t buf w e :
  cur_fds w = Some t -> fd_wf t -> FdTable.fds t !! i = Some (Some (FdDirectory p es pos)) ->
  0 <= pos -> zlen buf < 2 ^ 63 ->
  exists dn rest buf' m,
    drop (Z.to_nat pos) es = dn ++ rest
    /\ getdents (Z.of_nat i) buf (w, e) = (Ok (zlen (dn ≫= entry_bytes), buf'),
         (set_cur_fds (set_slot i (Some (FdDirectory p es (pos + zlen dn))) t) w, set_mem m e))
    /\ take (Z.to_nat (zlen (dn ≫= entry_bytes))) buf' = dn ≫= entry_bytes
    /\ zlen buf' = zlen buf
    /\ (forall ent tl, rest = ent :: tl -> zlen buf < zlen (dn ≫= entry_bytes) + zlen (entry_bytes ent)).
Proof.
  intros Ht Hwf Hk Hpos Hbuf. set (e1 := set_mem (store (e_mem e) ubuf buf) e).
  pose proof (getdents_loop_spec (drop (Z.to_nat pos) es) ubuf (zlen buf) 0 pos (e_mem e1)) as Hs.
  destruct (getdents_loop (drop (Z.to_nat pos) es) ubuf (zlen buf) 0 pos (e_mem e1)) as [[off pos'] m] eqn:Hl.
  destruct Hs as (dn & [rest Hpre] & Hp' & Ho & Hle & Hm & Hnext). rewrite Z.add_0_l in Ho.
  assert (0 <= zlen buf) by (unfold zlen; lia). specialize (Hle ltac:(lia)). subst off pos'.
  assert (0 <= zlen (dn ≫= entry_bytes)) by (unfold zlen; lia).
  exists dn, rest, (load m ubuf (zlen buf)), m. split_and!; [done| | | |].
  - unfold Vlib.getdents. rewrite (bind_ok _ _ _ (zlen (dn ≫= entry_bytes))
      (set_cur_fds (set_slot i (Some (FdDirectory p es (pos + zlen dn))) t) w, set_mem m e)).
    + cbn beta. unfold Vlib.slice_back. rewrite bind_assoc, bind_get, bind_ret, i64_small by lia. done.
    + rewrite with_slice_run. fold e1.
      change (sys_getdents (Z.of_nat i) ubuf (zlen buf) (w, e1)
        = (Ok (zlen (dn ≫= entry_bytes)), (set_cur_fds (set_slot i (Some (FdDirectory p es (pos + zlen dn))) t) w, set_mem m e))
          :> outcome Empty_set Z * _).
      apply unwrap_or_ok. rewrite (with_fd_run i (FdDirectory p es pos) t) by done.
      unfold getdents_fd. cbn [fst snd]. by rewrite Hl.
  - rewrite take_load by lia.
    rewrite (load_ext m (store (e_mem e1) ubuf (dn ≫= entry_bytes))) by (intros a _; rewrite Hm; by rewrite Z.add_0_r).
    apply load_store.
  - by apply zlen_load.
  - intros ent tl ->. by apply (Hnext ent tl).
Qed.

(** ** The loop around [GETDENTS] *)
Section dents_loop.
Context (i : nat) (p : rstr) (es : list DirEntry) (body : Vlib.DirEntry -> U unit) (f : DirEntry -> bytes).
(** What the body may rely on, and prints; it keeps the world. *)
Context (P : World H AS -> Env W F -> Prop).
Hypothesis P_pos : forall w e t pos, P w e -> cur_fds w = Some t ->
  P (set_cur_fds (set_slot i (Some (FdDirectory p es pos)) t) w) e.
Hypothesis P_printed : forall w e bs m, P w e -> P w (printed bs m e).
Hypothesis body_prints : forall ent w e, ent ∈ es -> P w e ->
  exists m, body (user_entry ent) (w, e) = (Ok tt, (w, printed (f ent) m e)).

Lemma body_for_each l w e : l ⊆ es -> P w e ->
  exists m, for_each (user_entry <$> l) body (w, e) = (Ok tt, (w, printed (l ≫= f) m e)).
Proof.
  revert e. induction l as [|ent l IH]; intros e Hl HP.
  { exists (e_mem e). change (([] : list DirEntry) ≫= f) with (@nil Z). by rewrite printed_nil. }
  rewrite bind_cons. cbn [fmap list_fmap for_each].
  destruct (body_prints ent w e ltac:(apply Hl; left) HP) as [m Hm]. rewrite (bind_ok _ _ _ _ _ Hm).
  destruct (IH (printed (f ent) m e) ltac:(intros x Hx; apply Hl; by right) ltac:(by apply P_printed)) as [m' Hm'].
  exists m'. etrans; [exact Hm'|]. by rewrite printed_app.
Qed.

Lemma getdents_loop_run fuel pos buf t w e :
  Forall short_name_entry es -> (3 <= i < 64)%nat ->
  cur_fds w = Some t -> fd_wf t -> FdTable.fds t !! i = Some (Some (FdDirectory p es pos)) -> P w e ->
  0 <= pos <= zlen es -> (Z.to_nat (zlen es - pos) < fuel)%nat -> 259 <= zlen buf < 2 ^ 63 ->
  exists m, getdents_loop_user (FS := FS) ubuf ret fuel (Z.of_nat i) buf body (w, e)
    = (Ok tt, (set_cur_fds (set_slot i (Some (FdDirectory p es (zlen es))) t) w,
               printed (drop (Z.to_nat pos) es ≫= f) m e)).
Proof.
  intros Hshort Hi. revert pos buf t w e. induction fuel as [|fuel IH]; intros pos buf t w e Ht Hwf Hk HP Hpos Hf Hbuf; [lia|].
  destruct (getdents_run i p es pos t buf w e Ht Hwf Hk ltac:(lia) ltac:(lia))
    as (dn & rest & buf' & m & Hd & Hrun & Htake & Hlen & Hmax).
  unfold getdents_loop_user. cbn [loop]. rewrite bind_assoc, (bind_ok _ _ _ _ _ Hrun).
  assert (Forall short_name_entry (drop (Z.to_nat pos) es)) as Hsd by by apply Forall_drop.
  pose proof Hsd as Hsd'. rewrite Hd in Hsd'. apply Forall_app in Hsd' as [Hsdn Hsrest].
  assert (length (drop (Z.to_nat pos) es) = length dn + length rest)%nat as Hdl by (rewrite Hd, length_app; lia).
  rewrite length_drop in Hdl. unfold zlen in Hpos, Hf.
  destruct dn as [|d0 dn].
  - (* nothing left: an entry would have fitted *)
    destruct rest as [|ent rest].
    + change (zlen (@nil DirEntry ≫= entry_bytes)) with 0 in *. change (zlen (@nil DirEntry)) with 0. cbn [Z.leb Z.compare].
      exists m. rewrite Hd. change ((@nil DirEntry ++ []) ≫= f) with (@nil Z). simpl in Hdl.
      replace (pos + 0) with (zlen es) by (unfold zlen; lia).
      assert (printed [] m e = set_mem m e) as -> by (destruct e; unfold printed, set_mem, set_out; simpl; by rewrite app_nil_r).
      done.
    + exfalso. specialize (Hmax ent rest eq_refl). apply Forall_inv in Hsrest as [_ Hs].
      rewrite length_entry_bytes in Hmax. change (zlen (@nil DirEntry ≫= entry_bytes)) with 0 in Hmax. lia.
  - assert (0 < zlen ((d0 :: dn) ≫= entry_bytes)) as Hpz.
    { rewrite bind_cons. unfold zlen. rewrite length_app. unfold entry_bytes at 1. simpl. lia. }
    destruct (Z.leb_spec (zlen ((d0 :: dn) ≫= entry_bytes)) 0) as [Hx|_]; [lia|].
    pose proof (entries_back (d0 :: dn) buf' Hsdn Htake) as Hback.
    destruct (Vlib.DirEntryIter_new buf' _) as [it|] eqn:Hit; [|done]. simpl in Hback. injection Hback as Hback.
    cbn [Vlib.user_unwrap]. rewrite bind_assoc, bind_ret. change (user_entry <$> d0 :: dn) with (user_entry d0 :: (user_entry <$> dn)) in *.
    rewrite bind_assoc. set (w1 := set_cur_fds _ w). set (e1 := set_mem m e).
    assert (P w1 e1) as HP1.
    { unfold w1, e1. apply P_pos; [|done]. pose proof (P_printed w e [] m HP) as Hx. unfold printed in Hx.
      destruct e. unfold set_mem, set_out in *. simpl in *. by rewrite app_nil_r in Hx. }
    assert ((d0 :: dn) ⊆ es) as Hsub.
    { intros x Hx. rewrite <- (take_drop (Z.to_nat pos) es), Hd. apply elem_of_app. right. apply elem_of_app. by left. }
    destruct (body_for_each (d0 :: dn) w1 e1 Hsub HP1) as [m1 Hm1].
    rewrite Hback. change (user_entry d0 :: (user_entry <$> dn)) with (user_entry <$> d0 :: dn).
    rewrite (bind_ok _ _ _ _ _ Hm1), bind_ret.
    assert (cur_fds w1 = Some (set_slot i (Some (FdDirectory p es (pos + zlen (d0 :: dn)))) t)) as Ht1
      by (apply cur_fds_set; by rewrite Ht).
    destruct (IH (pos + zlen (d0 :: dn)) buf' _ w1 (printed ((d0 :: dn) ≫= f) m1 e1) Ht1) as [m2 Hm2].
    + by apply set_slot_wf; [|lia].
    + by apply set_slot_lookup; [|lia].
    + by apply P_printed.
    + unfold zlen in *. simpl length in *. lia.
    + unfold zlen in *. simpl length in *. lia.
    + lia.
    + exists m2. etrans; [exact Hm2|]. rewrite set_slot_twice. unfold w1. rewrite set_cur_fds_twice.
      rewrite printed_app. assert (forall bs, printed bs m2 e1 = printed bs m2 e) as -> by done.
      do 3 f_equal. rewrite Hd, bind_app. replace (drop (Z.to_nat (pos + zlen (d0 :: dn))) es) with rest.
      * done.
      * replace (Z.to_nat (pos + zlen (d0 :: dn))) with (Z.to_nat pos + length (d0 :: dn))%nat by (unfold zlen; lia).
        rewrite <- drop_drop, Hd. by rewrite drop_app_length.
Qed.
End dents_loop.
(** ** [ls] *)
Definition ls_text (ent : DirEntry) : bytes :=
  (if bool_decide (de_file_type ent = Directory) then lit "[DIR]  " else lit "[FILE] ")
  ++ as_bytes (de_name ent) ++ [newline].

Lemma ls_line_text ent : short_name_entry ent -> mjoin (ls_line (user_entry ent)) ++ [newline] = ls_text ent.
Proof.
  intros Hs. unfold ls_line, ls_text. rewrite is_dir_user, entry_name_user by done. cbn [mjoin list_join].
  rewrite app_nil_r, <- app_assoc. by case_bool_decide.
Qed.

(** Opening a directory, reading it all with [body], and closing it. *)
Lemma directory_run (err : U unit) path p t i es fs' fuel body f (P : World H AS -> Env W F -> Prop) w e :
  from_utf8 path = Some p -> cur_fds w = Some t -> fd_wf t -> first_free t i ->
  vfs_readdir (Filesystem0 := FS w) (e_vfs e) (abs_path w p) (e_fs e) = (Ok es, fs') ->
  Forall short_name_entry es -> (length es < fuel)%nat ->
  (forall pos m, P (set_cur_fds (set_slot i (Some (FdDirectory (abs_path w p) es pos)) t) w) (set_fs fs' (set_mem m e))) ->
  (forall w' e' t' pos, P w' e' -> cur_fds w' = Some t' ->
    P (set_cur_fds (set_slot i (Some (FdDirectory (abs_path w p) es pos)) t') w') e') ->
  (forall w' e' bs m, P w' e' -> P w' (printed bs m e')) ->
  (forall ent w' e', ent ∈ es -> P w' e' -> exists m, body (user_entry ent) (w', e') = (Ok tt, (w', printed (f ent) m e'))) ->
  exists m, (fd ← open path (Z.lor Vlib.O_RDONLY Vlib.O_DIRECTORY);
    if fd <? 0 then err else
      let fd := u64 fd in
      getdents_loop_user (FS := FS) ubuf ret fuel fd (replicate 1024 0) body ;; close fd ;; mret tt) (w, e)
    = (Ok tt, (w, printed (es ≫= f) m (set_fs fs' e))).
Proof.
  intros Hp Ht Hwf Hi Hr Hs Hf HP0 HPpos HPpr Hbody.
  pose proof (first_free_bound t i Hwf Hi) as Hb. destruct (small_fd i Hb) as [_ Hu].
  destruct (open_dir_run path p t i es fs' w e Hp Ht Hwf Hi Hr) as [m Hopen]. rewrite (bind_ok _ _ _ _ _ Hopen).
  destruct (Z.ltb_spec (Z.of_nat i) 0); [lia|]. cbv zeta. rewrite Hu. set (abs := abs_path w p) in *.
  set (t1 := set_slot i (Some (FdDirectory abs es 0)) t) in *. set (w1 := set_cur_fds t1 w) in *.
  assert (cur_fds w1 = Some t1) as Ht1 by (apply cur_fds_set; by rewrite Ht).
  assert (fd_wf t1) as Hwf1 by (apply set_slot_wf; [done|lia]).
  destruct (getdents_loop_run i abs es body f P HPpos HPpr Hbody fuel 0 (replicate 1024 0) t1 w1 (set_fs fs' (set_mem m e)) Hs Hb Ht1 Hwf1)
    as [m2 Hloop]; [by apply set_slot_lookup; [|lia]|apply HP0|unfold zlen; lia|unfold zlen; lia|vm_compute; intuition congruence|].
  rewrite (bind_ok _ _ _ _ _ Hloop). rewrite drop_0.
  set (w2 := set_cur_fds _ w1).
  assert (cur_fds w2 = Some (set_slot i (Some (FdDirectory abs es (zlen es))) t1)) as Ht2 by (apply cur_fds_set; by rewrite Ht1).
  erewrite bind_ok; [|apply (close_dir_run i abs es (zlen es) _ w2 _ Ht2);
    [apply set_slot_wf; [done|lia]|done|by apply set_slot_lookup; [|lia]]].
  exists m2. unfold w2, w1, t1. rewrite !set_cur_fds_twice, !set_slot_twice, set_slot_same by apply Hi.
  by rewrite set_cur_fds_same.
Qed.

(** C19: [ls] lists the directory: run from a task with a free descriptor on a path
    whose [readdir] gives entries with names the user buffer holds, it terminates,
    whatever the number of [GETDENTS] calls its 1024-byte buffer takes, prints one
    line for each entry, in order and each once, marks the directories, and leaves
    the descriptors as they were. *)
Theorem ls_lists args p t i es fs' fuel w e :
  let path := match args with [] => lit "." | a :: _ => a end in
  from_utf8 path = Some p -> cur_fds w = Some t -> fd_wf t -> first_free t i ->
  vfs_readdir (Filesystem0 := FS w) (e_vfs e) (abs_path w p) (e_fs e) = (Ok es, fs') ->
  Forall short_name_entry es -> (length es < fuel)%nat ->
  exists m, ls_run (FS := FS) ubuf ret fuel args (w, e) = (Ok tt, (w, printed (es ≫= ls_text) m (set_fs fs' e))).
Proof.
  intros path Hp Ht Hwf Hi Hr Hs Hf.
  apply (directory_run _ path p t i es fs' fuel (fun ent => println (ls_line ent)) ls_text (fun _ _ => True) w e
    Hp Ht Hwf Hi Hr Hs Hf); [done|done|done|].
  intros ent w' e' Hin _. pose proof (proj1 (Forall_forall _ _) Hs ent Hin) as He.
  rewrite <- (ls_line_text ent He). apply prints_println.
Qed.
(** ** [cd] and [pwd] *)
Lemma set_cwd_run c w e : is_Some (cur_task w) ->
  (zoom fst (fun w s => (w, s.2)) (set_cwd c) : M (Kernel W F H AS) unit unit) (w, e) = (Ok tt, (set_cur_cwd c w, e)).
Proof.
  unfold cur_task. intros [k Hk]. destruct (w_sched w) as [sched|] eqn:Hs; [|done]. simpl in Hk. unfold current_task in Hk.
  unfold zoom, set_cwd. cbn [fst snd]. rewrite bind_get, Hs, bind_ok_or_some, Hk, bind_ok_or_some.
  unfold set_cur_cwd, map_cur. by rewrite Hs.
Qed.

Lemma getcwd_run buf c w e :
  get_cwd w = Some c -> zlen buf < 2 ^ 63 ->
  let n := Z.min (zlen (as_bytes c)) (zlen buf) in
  exists m buf', Vlib.getcwd (FS := FS) ubuf ret buf (w, e) = (Ok (n, buf'), (w, set_mem m e))
    /\ take (Z.to_nat n) buf' = take (Z.to_nat n) (as_bytes c) /\ zlen buf' = zlen buf.
Proof.
  intros Hc Hb n. assert (0 <= zlen buf /\ 0 <= zlen (as_bytes c)) as [H1 H2] by (unfold zlen; lia).
  set (e1 := set_mem (store (e_mem e) ubuf buf) e). set (bs := take (Z.to_nat n) (as_bytes c)).
  set (m := store (e_mem e1) ubuf bs).
  assert (zlen bs = n) as Hbs by (unfold bs, n, zlen in *; rewrite length_take; lia).
  exists m, (load m ubuf (zlen buf)). split_and!.
  - unfold Vlib.getcwd. rewrite (bind_ok _ _ _ n (w, set_mem m e)).
    + cbn beta. unfold Vlib.slice_back. rewrite bind_assoc, bind_get, bind_ret. unfold Vlib.neg1_if_max, U64_MAX.
      destruct (Z.eqb_spec n (2 ^ 64 - 1)); [lia|]. by rewrite i64_small by lia.
    + rewrite with_slice_run. fold e1. change (sys_getcwd ubuf (zlen buf) (w, e1) = (Ok n, (w, set_mem m e)) :> outcome Empty_set Z * _).
      unfold sys_getcwd. cbn [fst snd]. by rewrite Hc.
  - rewrite take_load by lia. rewrite <- Hbs. apply load_store.
  - apply zlen_load. lia.
Qed.

(** C26: [chdir] moves to a directory and [getcwd] says so: the new current
    directory is the normalised absolute path of the argument, which is what a later
    [getcwd] copies out (as much as the buffer holds); for anything but a directory
    [chdir] answers -1 and nothing of the task changes. *)
Theorem chdir_getcwd path p r fs' buf w e :
  from_utf8 path = Some p -> is_Some (cur_task w) -> zlen buf < 2 ^ 63 ->
  vfs_metadata (Filesystem0 := FS w) (e_vfs e) (abs_path w p) (e_fs e) = (r, fs') ->
  match r with
  | Ok meta =>
      if decide (md_file_type meta = Directory) then
        exists m m' buf', let n := Z.min (zlen (as_bytes (abs_path w p))) (zlen buf) in
          Vlib.chdir (FS := FS) ubuf ret path (w, e) = (Ok 0, (set_cur_cwd (abs_path w p) w, set_fs fs' (set_mem m e)))
          /\ Vlib.getcwd (FS := FS) ubuf ret buf (set_cur_cwd (abs_path w p) w, set_fs fs' (set_mem m e))
             = (Ok (n, buf'), (set_cur_cwd (abs_path w p) w, set_fs fs' (set_mem m' e)))
          /\ take (Z.to_nat n) buf' = take (Z.to_nat n) (as_bytes (abs_path w p))
      else exists m, Vlib.chdir (FS := FS) ubuf ret path (w, e) = (Ok (-1), (w, set_fs fs' (set_mem m e)))
  | Err _ => exists m, Vlib.chdir (FS := FS) ubuf ret path (w, e) = (Ok (-1), (w, set_fs fs' (set_mem m e)))
  | _ => True
  end.
Proof.
  intros Hp Ht Hb Hr. set (m0 := store (e_mem e) ubuf path). set (e1 := set_mem m0 e). set (abs := abs_path w p) in *.
  assert (forall res w', sys_chdir (FS := FS) ubuf (zlen path) (w, e1) = (Ok res, (w', set_fs fs' e1)) ->
    Vlib.chdir (FS := FS) ubuf ret path (w, e) = (Ok (if res =? U64_MAX then -1 else 0), (w', set_fs fs' (set_mem m0 e)))) as Hwrap.
  { intros res w' Hs. unfold Vlib.chdir. by erewrite bind_ok; [|rewrite with_slice_run; exact Hs]. }
  unfold sys_chdir in Hwrap. unfold e1 in Hwrap at 1. rewrite (bind_ok _ _ _ _ _ (path_arg_run path p w e Hp)) in Hwrap.
  fold m0 e1 abs in Hwrap.
  assert (on_vfs (FS := FS) (fun _ v => vfs_metadata v abs) (w, e1) = (r, (w, set_fs fs' e1))) as Hm
    by (unfold on_vfs; change (e_vfs e1) with (e_vfs e); change (e_fs e1) with (e_fs e); by rewrite Hr).
  destruct r as [meta|er| |]; [|exists m0; apply (Hwrap U64_MAX); by erewrite bind_ok; [|by apply (catch_err _ _ er)]|done..].
  case_decide as Hd.
  - assert (get_cwd (set_cur_cwd abs w) = Some abs) as Hcwd.
    { rewrite get_cwd_cur. unfold set_cur_cwd. rewrite cur_task_map. destruct Ht as [k ->]. done. }
    destruct (getcwd_run buf abs (set_cur_cwd abs w) (set_fs fs' (set_mem m0 e)) Hcwd Hb) as (m' & buf' & Hg & Htk & _).
    exists m0, m', buf'. split_and!; [|exact Hg|exact Htk].
    apply (Hwrap 0). erewrite bind_ok; [|by apply catch_ok]. cbv beta iota. rewrite decide_True by done.
    by erewrite bind_ok; [|apply catch_ok, set_cwd_run].
  - exists m0. apply (Hwrap U64_MAX). erewrite bind_ok; [|by apply catch_ok]. cbv beta iota. by rewrite decide_False.
Qed.
End runs.
