(* ===== verification/PsFacts.v ===== *)
(** * PsFacts: [ps] through the whole kernel

    The shell's [ps] walks [/live/tasks], opens each task's [status] and parses it.
    Run on the file systems of [System.v], it goes through the wrappers, the system
    calls, the descriptor table, the mount table and [TasksFs]. *)
From Stdlib Require Import ZArith Lia.
From stdpp Require Import base numbers option list.
From S2P Require Import Prelude Memory VfsTypes Path Vfs FdTable Keyboard Task Sched Utf8 Block FatCodec.
From S2P Require Import LiveFs Syscall SyscallFacts System UserLib Shell ShellFacts.

(** ** ASCII text *)
Definition ascii (s : rstr) : Prop := Forall (fun c => 0 <= c < 128) s.
#[export] Instance ascii_dec s : Decision (ascii s).
Proof. unfold ascii. apply _. Defined.

Lemma ascii_chars s : ascii s -> Forall is_char s.
Proof. intros Hs. eapply Forall_impl; [exact Hs|]. intros c. unfold is_char. lia. Qed.

Lemma ascii_bytes s : ascii s -> as_bytes s = s.
Proof.
  unfold as_bytes. induction 1 as [|c s Hc Hs IH]; [done|]. rewrite bind_cons, IH.
  unfold utf8_char. by destruct (Z.ltb_spec c 0x80); [|lia].
Qed.

Lemma ascii_utf8 s : ascii s -> from_utf8 s = Some s.
Proof. intros Hs. rewrite <- (ascii_bytes s Hs) at 1. by apply from_as_bytes, ascii_chars. Qed.

Lemma ascii_app a b : ascii a -> ascii b -> ascii (a ++ b).
Proof. apply Forall_app_2. Qed.

Lemma fmt_u64_ascii n : 0 <= n -> ascii (fmt_u64 n).
Proof. intros Hn. eapply Forall_impl; [by apply fmt_u64_chars|]. unfold is_digit. intros; cbn beta in *; lia. Qed.

(** ** Parsing a status file *)
Section status.
Context {H AS : Type}.
Implicit Types (t : Task H AS).

Lemma take_while_stop p a c s : Forall (fun x => p x = true) a -> p c = false -> take_while p (a ++ c :: s) = a.
Proof. intros Ha Hc. induction Ha as [|x a Hx Ha IH]; simpl; [by rewrite Hc|]. by rewrite Hx, IH. Qed.
Lemma skip_while_stop p a c s : Forall (fun x => p x = true) a -> p c = false -> skip_while p (a ++ c :: s) = c :: s.
Proof. intros Ha Hc. induction Ha as [|x a Hx Ha IH]; simpl; [by rewrite Hc|]. by rewrite Hx, IH. Qed.
Lemma take_while_all p a : Forall (fun x => p x = true) a -> take_while p a = a.
Proof. induction 1 as [|x a Hx Ha IH]; simpl; [done|]. by rewrite Hx, IH. Qed.
Lemma skip_while_all p a : Forall (fun x => p x = true) a -> skip_while p a = [].
Proof. induction 1 as [|x a Hx Ha IH]; simpl; [done|]. by rewrite Hx, IH. Qed.

Definition no_newline (s : bytes) : Prop := Forall (fun c => (negb ∘ is_newline) c = true) s.

Lemma scan_status_line fuel line rest acc :
  no_newline line -> line ≠ [] ->
  scan_status (S fuel) (line ++ newline :: rest) acc = scan_status fuel rest (scan_line line acc).
Proof.
  intros Hl Hne. destruct line as [|c line]; [done|]. cbn [scan_status app].
  change (c :: line ++ newline :: rest) with ((c :: line) ++ newline :: rest).
  by rewrite (take_while_stop _ _ _ _ Hl), (skip_while_stop _ _ _ _ Hl).
Qed.

Lemma scan_status_last fuel line acc :
  no_newline line -> line ≠ [] -> scan_status (S fuel) line acc = scan_line line acc.
Proof.
  intros Hl Hne. destruct line as [|c line]; [done|]. cbn [scan_status].
  rewrite (take_while_all _ _ Hl), (skip_while_all _ _ Hl). by destruct fuel.
Qed.

Lemma strip_prefix_app a b : strip_prefix a (a ++ b) = Some b.
Proof. by apply strip_prefix_Some. Qed.

(** What [ps] finds in the file is what [TasksFs] wrote there. *)
Lemma status_fields_text t : 0 <= id t ->
  status_fields (status_text t) = (fmt_u64 (id t), state_name (state t), mode_name (mode t)).
Proof.
  intros Hid. unfold status_fields.
  assert (no_newline (fmt_u64 (id t))) as Hd.
  { eapply Forall_impl; [by apply fmt_u64_chars|]. intros c Hc. unfold is_digit in Hc. simpl. unfold is_newline, newline.
    by destruct (Z.eqb_spec c 10); [lia|]. }
  set (pid := lit "pid: " ++ fmt_u64 (id t)). set (st := lit "state: " ++ state_name (state t)).
  set (md := lit "mode: " ++ mode_name (mode t)).
  assert (status_text t = pid ++ newline :: st ++ newline :: md) as Ht.
  { unfold status_text, pid, st, md, newline. by rewrite <- !app_assoc. }
  rewrite Ht. assert (exists n, length (pid ++ newline :: st ++ newline :: md) = S (S (S n))) as [n ->].
  { exists (length (pid ++ newline :: st ++ newline :: md) - 3)%nat. unfold pid. rewrite !length_app. simpl. lia. }
  assert (no_newline pid /\ pid ≠ []) as [Hp1 Hp2] by (split; [apply Forall_app_2; [by_decide|done]|done]).
  assert (no_newline st /\ st ≠ []) as [Hs1 Hs2] by (unfold st; split; [by destruct (state t); by_decide|done]).
  assert (no_newline md /\ md ≠ []) as [Hm1 Hm2] by (unfold md; split; [by destruct (mode t); by_decide|done]).
  rewrite scan_status_line, scan_status_line, scan_status_last by done.
  unfold scan_line at 3, pid. rewrite strip_prefix_app.
  unfold scan_line at 2, st. rewrite (strip_prefix_app (lit "state: ")).
  unfold scan_line, md. by rewrite (strip_prefix_app (lit "mode: ")).
Qed.
End status.

(** ** The run *)
Section ps.
Context {DW D AS : Type} {BD : BlockDevice DW D} {UC : UnicodeCase} (fuel_fs : nat).
Context (ubuf ret : Z).
Abbreviation SW := (SysWorld (DW := DW) (D := D)).
Abbreviation SF := (AnyFs (D := D)).
Abbreviation SH := (AnyHandle (D := D)).
Abbreviation FS := (any_filesystem (DW := DW) (D := D) (AS := AS) fuel_fs).
#[local] Existing Instance any_handle.
#[local] Instance drop_inst : DropHandle SW SH := any_drop fuel_fs.
Implicit Types (w : World SH AS) (e : Env SW SF) (k : Task SH AS).

Definition tasks_path (parts : list rstr) : rstr := path_of (lit "live" :: lit "tasks" :: parts).

Lemma tasks_path_eq parts : tasks_path parts = lit "/live/tasks" ++ render parts.
Proof.
  unfold tasks_path. rewrite path_of_cons by done. change (lit "live" :: lit "tasks" :: parts)
    with ([lit "live"; lit "tasks"] ++ parts). by rewrite render_app.
Qed.

Lemma tasks_parts_good parts : Forall good_name parts -> Forall good_name (lit "live" :: lit "tasks" :: parts).
Proof. intros Hg. apply Forall_cons. split; [by_decide|]. apply Forall_cons. split; [by_decide|done]. Qed.

(** Paths under [/live/tasks] go to tasksfs. *)
Lemma resolve_tasks (v : Vfs SF) root parts :
  mounts v = boot_table root -> Forall good_name parts ->
  vfs_resolve v (tasks_path parts) = Ok (FsTasks, path_of parts).
Proof.
  intros Hv Hg. unfold vfs_resolve. rewrite Hv.
  rewrite normalize_canonical_id by (eexists; split; [by apply tasks_parts_good|done]).
  rewrite tasks_path_eq. cbn [resolve_in boot_table m_path m_fs].
  rewrite decide_False by by_decide.
  destruct parts as [|x parts]; [by rewrite app_nil_r|].
  set (r := render (x :: parts)). assert (exists s, r = slash :: s /\ s ≠ []) as (s & Hr & Hs).
  { unfold r. rewrite render_cons. eexists. split; [done|]. apply Forall_inv in Hg as [Hx _]. by destruct x. }
  rewrite decide_False; [|intros Heq%(f_equal length); rewrite length_app, Hr in Heq; simpl in Heq; lia].
  rewrite strip_prefix_app, decide_False by (rewrite Hr; intros [?|[= ?]]; done).
  rewrite Hr. cbn [starts_with_slash]. rewrite Z.eqb_refl. rewrite <- Hr. by rewrite path_of_cons.
Qed.

(** What [ps] prints for a task. *)
Definition ps_text k : bytes :=
  fmt_u64 (id k) ++ [9] ++ state_name (state k) ++ [9; 9] ++ mode_name (mode k) ++ [newline].

Definition pid_entry k : DirEntry := {| de_name := fmt_u64 (id k); de_file_type := Directory |}.

(** The world [w] shows the same tasks as [w0], its current task has [t0] for
    descriptors but for slot [i], which is a directory, and [j] is free. *)
Definition ps_state (sched0 : Scheduler SH AS) (root : SF) (t0 : FdTable SH) (i j : nat) w e : Prop :=
  mounts (e_vfs e) = boot_table root
  /\ (exists sched, ids_ok w sched /\ (fun k => (id k, state k, mode k)) <$> tasks sched
                                   = (fun k => (id k, state k, mode k)) <$> tasks sched0)
  /\ (exists p es pos, cur_fds w = Some (set_slot i (Some (FdDirectory p es pos)) t0))
  /\ fd_wf t0 /\ first_free t0 i
  /\ (forall p es pos, first_free (set_slot i (Some (FdDirectory p es pos)) t0) j).

Lemma put_bytes_run bs b i : (i + length bs <= length b)%nat ->
  put_bytes bs b i = Some (take i b ++ bs ++ drop (i + length bs) b, i + length bs)%nat.
Proof.
  revert b i. induction bs as [|x bs IH]; intros b i Hb; cbn [put_bytes].
  - simpl. by rewrite Nat.add_0_r, take_drop.
  - simpl in Hb. destruct (Nat.ltb_spec i (length b)); [|lia].
    rewrite IH by (rewrite length_insert; lia).
    rewrite (take_S_r _ i x) by (by apply list_lookup_insert_eq). rewrite take_insert_ge, drop_insert_lt by lia.
    rewrite <- app_assoc. cbn [length app]. do 2 f_equal; [|lia]. do 4 f_equal. lia.
Qed.

Lemma status_path_build k buf : 0 <= id k -> length buf = 64%nat ->
  exists buf', let path := tasks_path [fmt_u64 (id k); lit "status"] in
    build_path buf (fmt_u64 (id k)) = Some (buf', length path) /\ take (length path) buf' = path.
Proof.
  intros Hid Hlen. set (d := fmt_u64 (id k)). pose proof (length_fmt_digits 20 (id k)) as Hd. change (fmt_digits 20 (id k)) with d in Hd.
  assert (tasks_path [d; lit "status"] = lit "/live/tasks/" ++ d ++ lit "/status") as ->.
  { rewrite tasks_path_eq, !render_cons. change (lit "/live/tasks/") with (lit "/live/tasks" ++ [slash]).
    change (lit "/status") with (slash :: lit "status"). rewrite <- !app_assoc. done. }
  unfold build_path. set (pre := lit "/live/tasks/") in *. set (suf := lit "/status") in *.
  assert (length pre = 12%nat) as Hp by done. assert (length suf = 7%nat) as Hs by done. clearbody pre suf d.
  rewrite put_bytes_run by lia. cbn [mbind option_bind].
  rewrite put_bytes_run by (rewrite !length_app, length_take, length_drop; lia). cbn [mbind option_bind].
  rewrite put_bytes_run by (rewrite !length_app, !length_take, !length_drop, !length_app, !length_take, !length_drop; lia).
  rewrite take_0, Nat.add_0_l, app_nil_l. rewrite (take_app_length pre).
  rewrite (app_assoc pre d), <- length_app, (take_app_length (pre ++ d)).
  eexists. cbv zeta. rewrite <- !app_assoc, !length_app, Nat.add_assoc. split; [done|].
  rewrite (app_assoc d suf), (app_assoc pre (d ++ suf)). apply take_app_length'. rewrite !length_app. lia.
Qed.
Lemma abs_tasks_path w parts : Forall good_name parts -> abs_path w (tasks_path parts) = tasks_path parts.
Proof.
  intros Hg. assert (normalize_path (tasks_path parts) = tasks_path parts) as Hn
    by (apply normalize_canonical_id; eexists; split; [by apply tasks_parts_good|done]).
  unfold abs_path, resolve_path. rewrite Hn, tasks_path_eq.
  change (lit "/live/tasks" ++ render parts) with (slash :: lit "live/tasks" ++ render parts). done.
Qed.

Lemma status_text_ascii k : 0 <= id k -> ascii (status_text k).
Proof.
  intros Hid. unfold status_text.
  assert (ascii (state_name (state k)) /\ ascii (mode_name (mode k))) as [Hs Hm]
    by (split; [destruct (state k)|destruct (mode k)]; by_decide).
  apply ascii_app; [by_decide|]. apply ascii_app; [by apply fmt_u64_ascii|]. apply ascii_app; [by_decide|].
  apply ascii_app; [by_decide|]. apply ascii_app; [done|]. apply ascii_app; [by_decide|].
  by apply ascii_app; [by_decide|].
Qed.

Lemma status_text_length k : (length (status_text k) <= 54)%nat.
Proof.
  unfold status_text. pose proof (length_fmt_digits 20 (id k)) as Hd. change (fmt_digits 20 (id k)) with (fmt_u64 (id k)) in Hd.
  rewrite !length_app.
  assert (length (state_name (state k)) <= 8)%nat by (destruct (state k); vm_compute; lia).
  assert (length (mode_name (mode k)) <= 6)%nat by (destruct (mode k); vm_compute; lia).
  change (length (lit "pid: ")) with 5%nat. change (length (lit "state: ")) with 7%nat.
  change (length (lit "mode: ")) with 6%nat. change (length [10]) with 1%nat. lia.
Qed.

(** A read that takes the whole file. *)
Lemma task_read_all (content buf : bytes) (s : SW) :
  (length content <= length buf)%nat -> zlen content < 2 ^ 63 ->
  exists buf', fh_read (FileHandle := any_handle) buf (HTask (mkTaskHandle content 0), s)
      = (Ok (zlen content, buf'), (HTask (mkTaskHandle content (zlen content)), s))
    /\ zlen buf' = zlen buf /\ take (length content) buf' = content.
Proof.
  intros Hl Hz. destruct (cursor_read_inside content 0 buf ltac:(unfold zlen; lia) Hz) as (n & Hn & Hc).
  rewrite Z.min_r in Hn by (unfold zlen; lia). rewrite Z.sub_0_r in Hn. subst n.
  assert (slice content (Z.to_nat 0) (Z.to_nat (0 + zlen content)) = content) as Hs.
  { unfold slice, zlen. rewrite drop_0, Z.add_0_l, Nat2Z.id. apply take_ge. simpl. lia. }
  rewrite Hs in Hc. exists (splice buf 0 content). split_and!.
  - cbn [fh_read any_handle]. unfold dispatch_handle, on_part. cbn [fst snd fh_read TaskFileHandle_handle].
    unfold task_read, same_world. rewrite bind_get. cbn beta iota. cbn [kh_content kh_position]. rewrite Hc.
    rewrite bind_lift_ok. cbn beta iota. rewrite bind_put. by rewrite Z.add_0_l.
  - unfold zlen. by rewrite length_splice by lia.
  - unfold splice. rewrite take_0, app_nil_l. apply take_app_length.
Qed.

Lemma prints_status ubuf' k : 0 <= id k ->
  forall w e, exists m, print_status (FS := FS) ubuf' ret (status_text k) (w, e) = (Ok tt, (w, printed (ps_text k) m e)).
Proof.
  intros Hid. unfold print_status. rewrite status_fields_text by done. unfold ps_text.
  replace (fmt_u64 (id k) ++ [9] ++ state_name (state k) ++ [9; 9] ++ mode_name (mode k) ++ [newline])
    with (mjoin [fmt_u64 (id k); [9]; state_name (state k); [9; 9]; mode_name (mode k)] ++ [newline])
    by (cbn [mjoin list_join]; rewrite app_nil_r; by rewrite <- !app_assoc).
  apply prints_println.
Qed.
Lemma same_task_text k k' :
  (id k', state k', mode k') = (id k, state k, mode k) -> status_text k' = status_text k.
Proof. intros [= H1 H2 H3]. unfold status_text. by rewrite H1, H2, H3. Qed.

(** Opening the status file of a task. *)
Lemma open_status_run sched k root t j w e :
  mounts (e_vfs e) = boot_table root -> ids_ok w sched -> k ∈ tasks sched ->
  cur_fds w = Some t -> fd_wf t -> first_free t j ->
  exists m, Vlib.open (FS := FS) ubuf ret (tasks_path [fmt_u64 (id k); lit "status"]) Vlib.O_RDONLY (w, e)
    = (Ok (Z.of_nat j), (set_cur_fds (set_slot j (Some (FdFile (HTask (mkTaskHandle (status_text k) 0) : SH))) t) w,
                         set_fs (e_fs e) (set_mem m e))).
Proof.
  intros Hv Hok Hk Ht Hwf Hj. pose proof Hok as (_ & _ & Hr). pose proof (proj1 (Forall_forall _ _) Hr k Hk) as Hid. cbn beta in Hid.
  set (parts := [fmt_u64 (id k); lit "status"]).
  assert (Forall good_name parts) as Hg
    by (unfold parts; rewrite !Forall_cons, Forall_nil; split_and!; auto using status_good; apply fmt_u64_good; lia).
  assert (ascii (tasks_path parts)) as Hasc.
  { rewrite tasks_path_eq. unfold parts. rewrite !render_cons. apply ascii_app; [by_decide|]. apply (ascii_app [slash]); [by_decide|].
    apply ascii_app; [apply fmt_u64_ascii; lia|by_decide]. }
  apply (open_file_run (FS := FS) ubuf ret (tasks_path parts) (tasks_path parts)); [by apply ascii_utf8|done..|].
  rewrite abs_tasks_path by done. unfold vfs_open. rewrite (resolve_tasks _ root) by done. rewrite bind_lift_ok.
  cbn beta iota. cbn [fs_open any_filesystem any_open].
  erewrite bind_ok; [|by apply (task_open_status w sched k (e_fs e) _ Hok Hk)].
  rewrite ascii_bytes by (apply status_text_ascii; lia). done.
Qed.

(** What [ps] does with the file open at [j]: read, print, close. *)
Definition show_status (fd : Z) : M (Kernel SW SF SH AS) Empty_set unit :=
  '(n, status_buf) ← Vlib.read (FS := FS) ubuf ret fd (replicate 256 0);
  (if 0 <? n then
     piece ← Vlib.user_unwrap (FS := FS) ret (if n <=? zlen status_buf then Some (take (Z.to_nat n) status_buf) else None);
     print_status (FS := FS) ubuf ret piece
   else mret tt) ;;
  Vlib.close (FS := FS) ret fd ;; mret tt.

Lemma show_status_run k t j w e : 0 <= id k ->
  cur_fds w = Some (set_slot j (Some (FdFile (HTask (mkTaskHandle (status_text k) 0) : SH))) t) -> fd_wf t -> (3 <= j < 64)%nat ->
  exists m, show_status (Z.of_nat j) (w, e) = (Ok tt, (set_cur_fds (set_slot j None t) w, printed (ps_text k) m e)).
Proof.
  intros Hid Ht1 Hwf Hb. set (content := status_text k) in *. set (t1 := set_slot j _ t) in *.
  assert (fd_wf t1) as Hwf1 by (apply set_slot_wf; [done|lia]).
  pose proof (status_text_length k) as Hcl. fold content in Hcl.
  assert (0 < zlen content) as Hpos by (unfold content, zlen, status_text; rewrite length_app; simpl; lia).
  destruct (task_read_all content (replicate 256 0) (e_fs e) ltac:(rewrite length_replicate; lia) ltac:(unfold zlen; lia))
    as (buf' & Hread & Hzl & Htk).
  destruct (read_file_run (FS := FS) ubuf ret j _ t1 (replicate 256 0) _ buf' _ _ w e Ht1 Hwf1 Hb
    ltac:(by apply set_slot_lookup; [|lia]) Hread Hzl) as [m2 Hr].
  unfold show_status. rewrite (bind_ok _ _ _ _ _ Hr). cbn beta iota.
  destruct (Z.ltb_spec 0 (zlen content)); [|lia].
  destruct (Z.leb_spec (zlen content) (zlen buf')) as [_|Hx];
    [|rewrite Hzl in Hx; unfold zlen in Hx; rewrite length_replicate in Hx; lia].
  cbn [Vlib.user_unwrap]. rewrite bind_assoc, bind_ret. replace (take (Z.to_nat (zlen content)) buf') with content
    by (unfold zlen; by rewrite Nat2Z.id).
  set (w2 := set_cur_fds _ w) in *. set (e2 := set_fs (e_fs e) (set_mem m2 e)) in *.
  destruct (prints_status ubuf k Hid w2 e2) as [m3 Hpr]. fold content in Hpr. rewrite (bind_ok _ _ _ _ _ Hpr).
  assert (cur_fds w2 = Some (set_slot j (Some (FdFile (HTask (mkTaskHandle content (zlen content)) : SH))) t1)) as Ht2
    by (apply cur_fds_set; by rewrite Ht1).
  erewrite bind_ok; [|eapply (close_file_run (FS := FS) ret j _ _ (e_fs e));
    [exact Ht2|apply set_slot_wf; [done|lia]|done|by apply set_slot_lookup; [|lia]|done]].
  exists m3. unfold w2, t1. rewrite !set_cur_fds_twice, !set_slot_twice. done.
Qed.

(** One entry of the listing. *)
Lemma ps_entry_run sched0 root t0 i j k w e :
  k ∈ tasks sched0 -> ps_state sched0 root t0 i j w e ->
  exists m, ps_entry (FS := FS) ubuf ret (user_entry (pid_entry k)) (w, e) = (Ok tt, (w, printed (ps_text k) m e)).
Proof.
  intros Hk (Hv & (sched & Hok & Hsame) & (p & es & pos & Ht) & Hwf0 & Hi & Hj). specialize (Hj p es pos).
  set (t := set_slot i _ t0) in *. pose proof (first_free_bound t0 i Hwf0 Hi) as Hib.
  assert (fd_wf t) as Hwf by (apply set_slot_wf; [done|lia]). pose proof (first_free_bound t j Hwf Hj) as Hb.
  assert (exists k', k' ∈ tasks sched /\ (id k', state k', mode k') = (id k, state k, mode k)) as (k' & Hk' & Hkk).
  { apply (list_elem_of_fmap_2 (fun k : Task SH AS => (id k, state k, mode k))) in Hk. rewrite <- Hsame in Hk.
    apply list_elem_of_fmap_1 in Hk as (k' & He & Hin). eauto. }
  pose proof (same_task_text k k' Hkk) as Htext. pose proof (f_equal (fun x => x.1.1) Hkk) as Hidk. cbn [fst] in Hidk.
  assert (0 <= id k) as Hid.
  { destruct Hok as (_ & _ & Hr). pose proof (proj1 (Forall_forall _ _) Hr k' Hk'). cbn beta in *. lia. }
  assert (short_name_entry (pid_entry k)) as Hsh.
  { pose proof (fmt_u64_ascii (id k) Hid) as Ha. split; [by apply ascii_chars|]. cbn [de_name pid_entry]. rewrite ascii_bytes by done.
    pose proof (length_fmt_digits 20 (id k)) as Hl. unfold zlen, fmt_u64. lia. }
  destruct (status_path_build k (replicate 64 0) Hid ltac:(done)) as (pb & Hbuild & Htake). cbv zeta in Hbuild, Htake.
  destruct (open_status_run sched k' root t j w e Hv Hok Hk' Ht Hwf Hj) as [m1 Hopen]. rewrite Hidk, Htext in Hopen.
  unfold ps_entry. rewrite is_dir_user, entry_name_user by done. cbn [de_file_type de_name pid_entry].
  rewrite bool_decide_true by done. rewrite ascii_bytes by by apply fmt_u64_ascii. rewrite Hbuild.
  cbn [Vlib.user_unwrap]. rewrite bind_ret. cbn beta iota. rewrite Htake, (bind_ok _ _ _ _ _ Hopen).
  destruct (Z.leb_spec 0 (Z.of_nat j)); [|lia]. rewrite (proj2 (small_fd j Hb)). fold (show_status (Z.of_nat j)).
  set (w1 := set_cur_fds _ w) in *.
  destruct (show_status_run k t j w1 (set_fs (e_fs e) (set_mem m1 e)) Hid) as [m Hm]; [|done|done|].
  { apply cur_fds_set. by rewrite Ht. }
  exists m. rewrite Hm. unfold w1. rewrite !set_cur_fds_twice, set_slot_same by apply Hj.
  by rewrite set_cur_fds_same.
Qed.
(** The two lowest free descriptors. *)
Definition two_free (t : FdTable SH) (i j : nat) : Prop :=
  first_free t i /\ (i < j)%nat /\ fd_free t j /\ (forall l, (i < l < j)%nat -> ~ fd_free t l).

Lemma two_free_next t i j kd : two_free t i j -> first_free (set_slot i (Some kd) t) j.
Proof.
  intros ([Hi Hlow] & Hij & Hj & Hmid). unfold first_free, fd_free, set_slot in *. cbn [FdTable.fds].
  split; [by rewrite list_lookup_insert_ne by lia|].
  intros l Hl Hn. destruct (decide (l = i)) as [->|Hne].
  - rewrite list_lookup_insert_eq in Hn; [done|]. by apply lookup_lt_Some in Hi.
  - rewrite list_lookup_insert_ne in Hn by lia.
    destruct (Nat.lt_ge_cases l i); [by apply (Hlow l)|]. apply (Hmid l); [lia|done].
Qed.

(** The line for a directory entry, through the task it names. *)
Definition ps_line (ts : list (Task SH AS)) (ent : DirEntry) : bytes :=
  default [] (ps_text <$> List.find (fun k => bool_decide (fmt_u64 (id k) = de_name ent)) ts).

Lemma ps_line_entry ts k :
  NoDup (id <$> ts) -> Forall (fun k : Task SH AS => 0 <= id k < 2 ^ 64) ts -> k ∈ ts -> ps_line ts (pid_entry k) = ps_text k.
Proof.
  intros Hd Hr Hk. unfold ps_line. cbn [de_name pid_entry].
  enough (List.find (fun u => bool_decide (fmt_u64 (id u) = fmt_u64 (id k))) ts = Some k) as -> by done.
  rewrite <- (find_by_id ts k Hd Hk). rewrite Forall_forall in Hr. pose proof (Hr k Hk) as Hrk.
  assert (forall l : list (Task SH AS), l ⊆ ts -> List.find (fun u => bool_decide (fmt_u64 (id u) = fmt_u64 (id k))) l
    = List.find (fun u => id u =? id k) l) as Hf; [|by apply Hf].
  induction l as [|u l IH]; intros Hl; [done|]. cbn [List.find].
  pose proof (Hr u ltac:(apply Hl; left)) as Hru. cbn beta in *. rewrite IH by (intros x Hx; apply Hl; by right).
  destruct (Z.eqb_spec (id u) (id k)) as [He|He].
  - rewrite bool_decide_true by by rewrite He. done.
  - rewrite bool_decide_false; [done|]. intros Hx. by apply He, fmt_u64_inj.
Qed.

Lemma bind_fmap_ext (l : list (Task SH AS)) (f : DirEntry -> bytes) :
  (forall k, k ∈ l -> f (pid_entry k) = ps_text k) -> (pid_entry <$> l) ≫= f = l ≫= ps_text.
Proof.
  induction l as [|k l IH]; intros Hf; [done|]. cbn [fmap list_fmap]. rewrite !bind_cons, Hf by left.
  f_equal. apply IH. intros x Hx. apply Hf. by right.
Qed.

(** Changing a descriptor changes no task's id, state or mode. *)
Lemma set_fds_tasks w t sched sched0 :
  ids_ok w sched -> (fun k => (id k, state k, mode k)) <$> tasks sched = (fun k => (id k, state k, mode k)) <$> tasks sched0 ->
  exists sched', ids_ok (set_cur_fds t w) sched'
    /\ (fun k => (id k, state k, mode k)) <$> tasks sched' = (fun k => (id k, state k, mode k)) <$> tasks sched0.
Proof.
  intros (Hs & Hd & Hr) Hsame.
  assert (forall X (g : Task SH AS -> X) (l : list (Task SH AS)) c,
    (forall k, g (set_fds t k) = g k) -> g <$> alter (set_fds t) c l = g <$> l) as Halt.
  { intros X g l c Hg. revert c. induction l as [|k l IH]; intros [|c]; [done..| |].
    - cbn. by rewrite Hg.
    - cbn. f_equal. apply IH. }
  eexists. split; [split; [unfold set_cur_fds, map_cur; rewrite Hs; reflexivity|]|].
  - cbn [tasks]. assert (id <$> alter (set_fds t) (current sched) (tasks sched) = id <$> tasks sched) as Hid by by apply Halt.
    rewrite Hid. split; [done|]. apply (proj1 (Forall_fmap id (fun z => 0 <= z < 2 ^ 64) _)). rewrite Hid.
    by apply (proj2 (Forall_fmap id (fun z => 0 <= z < 2 ^ 64) _)).
  - cbn [tasks]. rewrite <- Hsame. by apply Halt.
Qed.

(** C22: [ps] shows the tasks: run on the booted mount table from a task with two free
    descriptors, it terminates, prints for each task that is not dead, in queue
    order, one line with its id, state and mode, and leaves the descriptors, the
    tasks and the file systems as they were. *)
Theorem ps_lists sched root t i j fuel w e :
  mounts (e_vfs e) = boot_table root -> ids_ok w sched ->
  cur_fds w = Some t -> fd_wf t -> two_free t i j -> (length (tasks sched) < fuel)%nat ->
  exists m, ps_run (FS := FS) ubuf ret fuel (w, e)
    = (Ok tt, (w, printed (filter alive (tasks sched) ≫= ps_text) m e)).
Proof.
  intros Hv Hok Ht Hwf Htwo Hf. pose proof Hok as (Hs & Hd & Hr). pose proof (proj1 Htwo) as Hi.
  set (es := pid_entry <$> filter alive (tasks sched)).
  assert (forall k, k ∈ filter alive (tasks sched) -> k ∈ tasks sched) as Hsub by (intros k Hk; exact (proj2 (proj1 (list_elem_of_filter _ _ _) Hk))).
  assert (vfs_readdir (Filesystem0 := FS w) (e_vfs e) (abs_path w (tasks_path [])) (e_fs e) = (Ok es, e_fs e)) as Hrd.
  { rewrite abs_tasks_path by done. unfold vfs_readdir. rewrite (resolve_tasks _ root) by done. rewrite bind_lift_ok.
    cbn beta iota. cbn [fs_readdir any_filesystem dispatch TasksFs_filesystem]. unfold task_readdir.
    change (path_parts (path_of [])) with (@nil rstr). cbv iota. by rewrite Hs. }
  assert (Forall short_name_entry es) as Hshort.
  { unfold es. apply Forall_fmap, Forall_forall. intros k Hk%Hsub. rewrite Forall_forall in Hr.
    pose proof (Hr k Hk) as Hid. cbn beta in Hid. split; cbn [de_name pid_entry].
    - apply ascii_chars, fmt_u64_ascii. lia.
    - rewrite ascii_bytes by (apply fmt_u64_ascii; lia). pose proof (length_fmt_digits 20 (id k)). unfold zlen, fmt_u64. lia. }
  assert (es ≫= ps_line (tasks sched) = filter alive (tasks sched) ≫= ps_text) as <-.
  { apply bind_fmap_ext. intros k Hk%Hsub. by apply ps_line_entry. }
  pose proof (directory_run (FS := FS) ubuf ret (Vlib.println (FS := FS) ubuf ret [lit "ps: failed to open /live/tasks"])
    (tasks_path []) (tasks_path []) t i es (e_fs e) fuel (ps_entry (FS := FS) ubuf ret) (ps_line (tasks sched))
    (ps_state sched root t i j) w e ltac:(apply ascii_utf8; by_decide) Ht Hwf Hi Hrd Hshort) as Hrun.
  replace (set_fs (e_fs e) e) with e in Hrun by by destruct e. apply Hrun; clear Hrun.
  - unfold es. rewrite length_fmap. pose proof (length_filter alive (tasks sched)). lia.
  - intros pos m. split; [done|]. split; [by eapply set_fds_tasks|]. split.
    { do 3 eexists. apply cur_fds_set. by rewrite Ht. }
    split_and!; [done|done|]. intros. by apply two_free_next.
  - intros w' e' t' pos (H1 & (sched' & H2 & H2') & (p' & es' & pos' & H3) & H4) Ht'.
    split; [done|]. split; [by eapply set_fds_tasks|]. split; [|done].
    rewrite H3 in Ht'. injection Ht' as <-. rewrite set_slot_twice. do 3 eexists. apply cur_fds_set. by rewrite H3.
  - intros w' e' bs m HP. exact HP.
  - intros ent w' e' Hent HP. unfold es in Hent. apply list_elem_of_fmap in Hent as (k & -> & Hk%Hsub).
    rewrite ps_line_entry by done. by eapply ps_entry_run.
Qed.
End ps.
