(* ===== verification/InputFacts.v ===== *)
(** * InputFacts: the shell's input

    The line editor [read_line] against a reference editor on the characters
    typed, from the scan codes on, and [parse_args] against splitting on spaces. *)
From Stdlib Require Import ZArith Lia.
From stdpp Require Import base numbers option list.
From S2P Require Import Prelude Memory VfsTypes Path Vfs FdTable Keyboard Task Sched Utf8.
From S2P Require Import Syscall SyscallFacts UserLib Shell ShellFacts.

(** ** Splitting a line *)

(** [line.split(|c| c == sep)]. *)
Fixpoint split_on (sep : Z) (s : bytes) : list bytes :=
  match s with
  | [] => [[]]
  | c :: s' =>
      if c =? sep then [] :: split_on sep s'
      else match split_on sep s' with
           | p :: ps => (c :: p) :: ps
           | [] => [[c]]
           end
  end.

(** The words of a line. *)
Definition words (line : bytes) : list bytes := filter (fun w => w ≠ []) (split_on space line).

Lemma split_on_nonempty sep s : split_on sep s ≠ [].
Proof. destruct s as [|c s]; [done|]. simpl. destruct (c =? sep); [done|]. by destruct (split_on sep s). Qed.

Lemma words_skip line : words (skip_while is_space line) = words line.
Proof.
  induction line as [|c line IH]; [done|]. cbn [skip_while]. destruct (is_space c) eqn:Hc; [|done].
  rewrite IH. unfold is_space in Hc. unfold words. cbn [split_on]. rewrite Hc. by rewrite filter_cons_False by auto.
Qed.

Lemma skip_while_head p s c s' : skip_while p s = c :: s' -> p c = false.
Proof. induction s as [|x s IH]; simpl; [done|]. destruct (p x) eqn:Hx; [done|]. by intros [= -> ->]. Qed.

Lemma split_on_word s :
  split_on space s = take_while (negb ∘ is_space) s ::
    match skip_while (negb ∘ is_space) s with [] => [] | _ :: t => split_on space t end.
Proof.
  induction s as [|c s IH]; [done|]. cbn [split_on take_while skip_while]. unfold is_space at 1 3, compose at 1 3.
  destruct (Z.eqb_spec c space) as [->|Hc]; cbn [negb]; [done|]. by rewrite IH.
Qed.

Lemma words_word c s : is_space c = false ->
  words (c :: s) = take_while (negb ∘ is_space) (c :: s) :: words (skip_while (negb ∘ is_space) (c :: s)).
Proof.
  intros Hc. unfold words at 1. rewrite split_on_word.
  rewrite filter_cons_True by (cbn [take_while]; unfold compose; by rewrite Hc). f_equal.
  destruct (skip_while (negb ∘ is_space) (c :: s)) as [|x t] eqn:Hs; [done|].
  apply skip_while_head in Hs. unfold compose in Hs. apply negb_false_iff in Hs.
  unfold words. cbn [split_on]. unfold is_space in Hs. rewrite Hs. by rewrite filter_cons_False by auto.
Qed.

(** [parse_args] is splitting on spaces: the arguments it finds are the
    non-empty pieces of the line, in order, as many as [argv] has room for. *)
Theorem parse_args_words room line : parse_args room line = take room (words line).
Proof.
  revert line. induction room as [|room IH]; intros line; [by rewrite take_0|]. cbn [parse_args].
  rewrite <- (words_skip line). destruct (skip_while is_space line) as [|c rest] eqn:Hr; [done|].
  apply skip_while_head in Hr. rewrite words_word by done. cbn [take]. by rewrite IH.
Qed.

(** ** What a program that keeps reading gets *)

(** The pending characters, then those the scan codes to come stand for; the queue
    is empty whenever the reader waits, so nothing is dropped. *)
Fixpoint incoming (s : KbSpec) (irq : list Z) : list Z :=
  sp_queue s ++
  match irq with
  | [] => []
  | code :: irq' => incoming (sp_scan code (mkSpec [] (sp_shift s) (sp_caps s) (sp_release s))) irq'
  end.

Lemma incoming_tail q shift caps rel irq :
  incoming (mkSpec q shift caps rel) irq = q ++ incoming (mkSpec [] shift caps rel) irq.
Proof. by destruct irq. Qed.

Lemma has_input_queue kb : kb_wf kb -> has_input kb = negb (bool_decide (kb_queue kb = [])).
Proof.
  intros Hw. unfold has_input, is_empty. f_equal. pose proof (length_kb_queue kb) as Hl.
  pose proof Hw as [_ Hr Hwp]. unfold kb_count in Hl.
  destruct (Z.eqb_spec (read_pos kb) (write_pos kb)) as [He|He].
  - symmetry. apply bool_decide_true. apply nil_length_inv. rewrite Hl, He, Z.sub_diag. done.
  - symmetry. apply bool_decide_false. intros Hn. rewrite Hn in Hl. simpl in Hl. Z.div_mod_to_equations. lia.
Qed.

Lemma wait_input_run irq kb c rest :
  kb_wf kb -> incoming (kb_abs kb) irq = c :: rest ->
  exists irq' kb', wait_input irq kb = (Ok irq', kb') /\ kb_wf kb'
    /\ head (kb_queue kb') = Some c /\ incoming (kb_abs kb') irq' = c :: rest.
Proof.
  revert kb. induction irq as [|code irq IH]; intros kb Hw Hin; cbn [wait_input]; rewrite bind_get, has_input_queue by done.
  - case_bool_decide as Hq; cbn [negb]; [simpl in Hin; by rewrite Hq in Hin|].
    exists [], kb. split_and!; try done. simpl in Hin. rewrite app_nil_r in Hin. by rewrite Hin.
  - case_bool_decide as Hq; cbn [negb].
    + destruct (handle_scancode_spec code kb Hw) as (kb1 & H1 & Hw1 & Ha1). rewrite (bind_ok _ _ _ _ _ H1).
      assert (kb_abs kb = mkSpec [] (shift_pressed kb) (caps_lock kb) (release_next kb)) as Ha by (unfold kb_abs; by rewrite Hq).
      apply IH; [done|]. rewrite Ha1, Ha. rewrite Ha in Hin. exact Hin.
    + exists (code :: irq), kb. split_and!; try done. unfold kb_abs in Hin. cbn [incoming sp_queue] in Hin.
      destruct (kb_queue kb) as [|x q]; [done|]. by injection Hin as -> _.
Qed.

(** ** The reference editor *)
Definition edit_char (cap : nat) (line : bytes) (c : Z) : bytes :=
  if (c =? 8) || (c =? 127) then take (length line - 1) line
  else if (32 <=? c) && (c <=? 126) then if (length line <? cap)%nat then line ++ [c] else line
  else line.

Definition echo_char (cap : nat) (line : bytes) (c : Z) : bytes :=
  if (c =? 8) || (c =? 127) then if (0 <? length line)%nat then [8; space; 8] else []
  else if (32 <=? c) && (c <=? 126) then if (length line <? cap)%nat then [c] else []
  else [].

Fixpoint echo (cap : nat) (line : bytes) (cs : list Z) : bytes :=
  match cs with
  | [] => [newline]
  | c :: cs' => echo_char cap line c ++ echo cap (edit_char cap line c) cs'
  end.

Definition edit (cap : nat) (cs : list Z) : bytes := foldl (edit_char cap) [] cs.

Section input.
Context {W F H AS : Type} {FS : World H AS -> Filesystem W F H}
  {FH : FileHandle W H} {DH : DropHandle W H}.
Context (ubuf ret : Z).
Implicit Types (w : World H AS) (e : Env W F).
Abbreviation getch := (Vlib.getch (FS := FS) ubuf ret).

(** The environment after reading and printing. *)
Definition typed (bs : bytes) (m : UMem) (kb : Keyboard) (irq : list Z) e : Env W F := printed bs m (set_kb kb irq e).

Lemma typed_printed a b m m1 m2 kb kb2 irq irq2 e :
  typed b m2 kb2 irq2 (printed a m1 (set_mem m (set_kb kb irq e))) = typed (a ++ b) m2 kb2 irq2 e.
Proof.
  unfold typed, printed, set_mem, set_out, set_kb. cbn [e_vfs e_fs e_kb e_irq e_out e_mem].
  by rewrite fmap_app, app_assoc.
Qed.

Lemma getch_run c rest w e :
  kb_wf (e_kb e) -> incoming (kb_abs (e_kb e)) (e_irq e) = c :: rest ->
  exists m kb irq, getch (w, e) = (Ok c, (w, set_mem m (set_kb kb irq e)))
    /\ kb_wf kb /\ incoming (kb_abs kb) irq = rest.
Proof.
  intros Hw Hin. destruct (wait_input_run _ _ _ _ Hw Hin) as (irq & kb & Hwait & Hw1 & Hh & Hin1).
  destruct (pop_spec kb Hw1) as (kb2 & Hpop & Hw2 & Ha2). rewrite Hh in Hpop.
  set (e1 := set_mem (store (e_mem e) ubuf [0]) e).
  assert (read_console (E := Empty_set) ubuf 1 e1 = (Ok 1, set_mem (store (e_mem e1) ubuf [c]) (set_kb kb2 irq e1))) as Hrc.
  { unfold read_console. change (e_kb e1) with (e_kb e). change (e_irq e1) with (e_irq e).
    rewrite (bind_ok _ _ _ _ _ Hwait). change (Z.to_nat 1) with 1%nat. cbn [read_chars].
    rewrite bind_assoc. unfold read_char. rewrite (bind_ok _ _ _ _ _ Hpop). by destruct (c =? 10). }
  exists (store (e_mem e1) ubuf [c]), kb2, irq. split_and!; [|done|].
  - unfold Vlib.getch, Vlib.read. rewrite (bind_ok _ _ _ (1, [c]) (w, set_mem (store (e_mem e1) ubuf [c]) (set_kb kb2 irq e))); [done|].
    rewrite (bind_ok _ _ _ 1 (w, set_mem (store (e_mem e1) ubuf [c]) (set_kb kb2 irq e))).
    + cbn beta. unfold Vlib.slice_back. rewrite bind_assoc, bind_get, bind_ret. cbn [snd e_mem set_mem].
      change (zlen [0]) with (zlen [c]). by rewrite load_store.
    + rewrite with_slice_run. fold e1. change (in_env (read_console ubuf 1) (w, e1)
        = (Ok 1, (w, set_mem (store (e_mem e1) ubuf [c]) (set_kb kb2 irq e))) :> outcome Empty_set Z * _).
      unfold in_env, zoom. cbn [snd fst]. by rewrite Hrc.
  - rewrite Ha2. unfold kb_abs in Hin1. rewrite incoming_tail in Hin1 |- *.
    destruct (kb_queue kb) as [|x q]; [done|]. by injection Hin1.
Qed.

Lemma read_line_step_run c buf line w e :
  c ≠ newline -> (0 < length buf)%nat -> zlen buf < 2 ^ 63 -> take (length line) buf = line -> (length line < length buf)%nat ->
  let cap := (length buf - 1)%nat in
  exists buf' m, read_line_step (FS := FS) ubuf ret c buf (length line) (w, e)
      = (Ok (inl (buf', length (edit_char cap line c))), (w, printed (echo_char cap line c) m e))
    /\ length buf' = length buf /\ take (length (edit_char cap line c)) buf' = edit_char cap line c
    /\ (length (edit_char cap line c) < length buf)%nat.
Proof.
  intros Hn Hb Hz Ht Hl cap. unfold read_line_step, edit_char, echo_char.
  destruct (Z.eqb_spec c newline); [done|].
  destruct ((c =? 8) || (c =? 127)).
  { rewrite length_take. replace (Nat.min (length line - 1) (length line)) with (length line - 1)%nat by lia.
    destruct (Nat.ltb_spec 0 (length line)).
    - do 2 eexists. rewrite (bind_ok _ _ _ _ _ (write_console_run ubuf ret [8; space; 8] w e)). split_and!; [done|done| |lia].
      trans (take (length line - 1) (take (length line) buf)); [rewrite take_take; f_equal; lia|by rewrite Ht].
    - exists buf, (e_mem e). rewrite printed_nil. split_and!; [|done| |lia].
      + by replace (length line - 1)%nat with (length line) by lia.
      + trans (take (length line - 1) (take (length line) buf)); [rewrite take_take; f_equal; lia|by rewrite Ht]. }
  assert (zlen buf -w64 1 = Z.of_nat cap) as -> by (unfold cap, zlen in *; rewrite u64_small; lia).
  destruct ((32 <=? c) && (c <=? 126)).
  - destruct (Nat.ltb_spec (length line) cap); destruct (Z.ltb_spec (Z.of_nat (length line)) (Z.of_nat cap)); try lia.
    + destruct (lookup_lt_is_Some_2 buf (length line) Hl) as [x Hx]. rewrite Hx. cbn [Vlib.user_unwrap]. rewrite bind_ret.
      do 2 eexists. rewrite (bind_ok _ _ _ _ _ (write_console_run ubuf ret [c] w e)).
      rewrite length_app. cbn [length]. rewrite Nat.add_1_r. split_and!; [done|by rewrite length_insert| |lia].
      rewrite (take_S_r _ _ c) by (by apply list_lookup_insert_eq). by rewrite take_insert_ge, Ht by lia.
    + exists buf, (e_mem e). by rewrite printed_nil.
  - exists buf, (e_mem e). by rewrite printed_nil.
Qed.

Lemma read_line_run cs fuel buf line rest w e :
  newline ∉ cs -> (length cs < fuel)%nat -> zlen buf < 2 ^ 63 ->
  take (length line) buf = line -> (length line < length buf)%nat ->
  kb_wf (e_kb e) -> incoming (kb_abs (e_kb e)) (e_irq e) = cs ++ newline :: rest ->
  let cap := (length buf - 1)%nat in
  exists buf' m kb irq,
    loop fuel (fun '(buf, pos) => c ← getch; read_line_step (FS := FS) ubuf ret c buf pos) (buf, length line) (w, e)
      = (Ok (buf', length (foldl (edit_char cap) line cs)), (w, typed (echo cap line cs) m kb irq e))
    /\ length buf' = length buf
    /\ take (length (foldl (edit_char cap) line cs)) buf' = foldl (edit_char cap) line cs
    /\ kb_wf kb /\ incoming (kb_abs kb) irq = rest.
Proof.
  intros Hn. revert fuel buf line e. induction cs as [|c cs IH]; intros fuel buf line e Hf Hz Ht Hl Hw Hin cap;
    (destruct fuel as [|fuel]; [simpl in Hf; lia|]); cbn [loop].
  - destruct (getch_run newline rest w e Hw Hin) as (m & kb & irq & Hg & Hw1 & Hin1).
    rewrite bind_assoc, (bind_ok _ _ _ _ _ Hg). unfold read_line_step. rewrite Z.eqb_refl.
    rewrite bind_assoc, (bind_ok _ _ _ _ _ (write_console_run ubuf ret [newline] w _)).
    do 4 eexists. split_and!; [reflexivity|done|done|done|done].
  - cbn [app] in Hin. destruct (getch_run c (cs ++ newline :: rest) w e Hw Hin) as (m & kb & irq & Hg & Hw1 & Hin1).
    apply not_elem_of_cons in Hn as [Hc Hn].
    rewrite bind_assoc, (bind_ok _ _ _ _ _ Hg).
    destruct (read_line_step_run c buf line w (set_mem m (set_kb kb irq e)) ltac:(congruence) ltac:(lia) Hz Ht Hl)
      as (buf1 & m1 & Hs & Hl1 & Ht1 & Hb1). fold cap in Hs, Ht1, Hb1. rewrite (bind_ok _ _ _ _ _ Hs).
    destruct (IH Hn fuel buf1 (edit_char cap line c) (printed (echo_char cap line c) m1 (set_mem m (set_kb kb irq e))))
      as (buf2 & m2 & kb2 & irq2 & Hr & Hl2 & Ht2 & Hw2 & Hin2); [simpl in Hf; lia|unfold zlen in *; lia|done|lia|done|done|].
    rewrite Hl1 in *. fold cap in Hr, Ht2. exists buf2, m2, kb2, irq2. cbn [foldl]. split_and!; try done.
    etrans; [exact Hr|]. by rewrite typed_printed.
Qed.

(** C23: The line editor is a reference editor on the characters typed: with a line
    and a newline on the way (already queued, or as scan codes still to come),
    [read_line] terminates, returns what inserting printable characters up to the
    size of the buffer and deleting on backspace leaves, echoes accordingly, and
    consumes exactly the line. *)
Theorem read_line_edits cs fuel buf rest w e :
  newline ∉ cs -> (length cs < fuel)%nat -> (0 < length buf)%nat -> zlen buf < 2 ^ 63 ->
  kb_wf (e_kb e) -> incoming (kb_abs (e_kb e)) (e_irq e) = cs ++ newline :: rest ->
  let line := edit (length buf - 1) cs in
  exists buf' m kb irq,
    read_line (FS := FS) ubuf ret fuel buf (w, e)
      = (Ok (buf', length line), (w, typed (echo (length buf - 1) [] cs) m kb irq e))
    /\ length buf' = length buf /\ take (length line) buf' = line
    /\ kb_wf kb /\ incoming (kb_abs kb) irq = rest.
Proof. intros Hn Hf Hb Hz Hw Hin. by apply (read_line_run cs fuel buf []). Qed.
End input.
