(* ===== verification/Terminal.v ===== *)
(** * Terminal: text on the framebuffer

    [vcore/src/fb/mod.rs], [vcore/src/fb/terminal.rs] and [vcore/src/font/mod.rs].
    The framebuffer's memory is its bytes; an access outside it is [Panic] (in the
    kernel: undefined behaviour), and the theorems show there is none. *)
From Stdlib Require Import ZArith Lia.
From stdpp Require Import base numbers option list.
From S2P Require Import Prelude.

Record Framebuffer := mkFb { fb_mem : bytes; width : Z; height : Z; pitch : Z }.

Abbreviation FbM := (M Framebuffer Empty_set).

(** A store of [bs] at byte [off] of the framebuffer. *)
Definition fb_store (off : Z) (bs : bytes) : FbM unit :=
  fb ← get;
  if off + zlen bs <=? zlen (fb_mem fb)
  then put (mkFb (splice (fb_mem fb) (Z.to_nat off) bs) (width fb) (height fb) (pitch fb))
  else panic.

Definition draw_pixel (x y color : Z) : FbM unit :=
  fb ← get;
  if (width fb <=? x) || (height fb <=? y) then mret tt
  else fb_store ((y *w64 pitch fb) +w64 (x *w64 4)) (to_le 4 color).

(** ** Fonts *)
Record Font := mkFont { data : bytes; glyph_width : Z; glyph_height : Z }.

Definition glyph (f : Font) (c : Z) : option bytes :=
  if 128 <=? c then None
  else
    let start := c *w64 glyph_height f in
    let end_ := start +w64 glyph_height f in
    if zlen (data f) <? end_ then None
    else Some (slice (data f) (Z.to_nat start) (Z.to_nat end_)).

(** The colour of column [col] of a glyph row. *)
Definition pixel_color (byte col fg bg : Z) : Z :=
  if Z.land byte (Z.shiftr 0x80 col) =? 0 then bg else fg.

Definition draw_char (f : Font) (c x y fg bg scale : Z) : FbM unit :=
  match glyph f c with
  | None => mret tt
  | Some g =>
      for_each (zip (seqZ 0 (zlen g)) g) (fun '(row, byte) =>
        for_each (seqZ 0 (glyph_width f)) (fun col =>
          let color := pixel_color byte col fg bg in
          for_each (seqZ 0 scale) (fun sy =>
            for_each (seqZ 0 scale) (fun sx =>
              draw_pixel ((x +w64 (col *w64 scale)) +w64 sx) ((y +w64 (row *w64 scale)) +w64 sy) color))))
  end.

(** ** The terminal *)
Record Terminal := mkTerm {
  fb : Framebuffer;
  x : Z;
  y : Z;
  max_x : Z;
  max_y : Z;
  fg : Z;
  bg : Z;
  scale : Z;
  font : Font;
  line_spacing : Z;
  char_width : Z
}.

Definition Terminal_new (fb : Framebuffer) (f : Font) : outcome Empty_set Terminal :=
  let scale := 2 in
  let char_width := (glyph_width f *w64 scale) -w64 2 in
  let line_spacing := 4 in
  let line_height := (glyph_height f *w64 scale) +w64 line_spacing in
  if (glyph_width f *w64 scale =? 0) || (line_height =? 0) then Panic
  else Ok (mkTerm fb 0 0 (width fb / (glyph_width f *w64 scale)) (height fb / line_height)
             0xffffff 0x000000 scale f line_spacing char_width).

Abbreviation TermM := (M Terminal Empty_set).

Definition set_fb (b : Framebuffer) (t : Terminal) : Terminal :=
  mkTerm b (x t) (y t) (max_x t) (max_y t) (fg t) (bg t) (scale t) (font t) (line_spacing t) (char_width t).
Definition set_xy (nx ny : Z) (t : Terminal) : Terminal :=
  mkTerm (fb t) nx ny (max_x t) (max_y t) (fg t) (bg t) (scale t) (font t) (line_spacing t) (char_width t).

Definition set_fg (color : Z) : TermM unit :=
  t ← get; put (mkTerm (fb t) (x t) (y t) (max_x t) (max_y t) color (bg t) (scale t) (font t) (line_spacing t) (char_width t)).
Definition set_bg (color : Z) : TermM unit :=
  t ← get; put (mkTerm (fb t) (x t) (y t) (max_x t) (max_y t) (fg t) color (scale t) (font t) (line_spacing t) (char_width t)).

Definition line_height (t : Terminal) : Z := (glyph_height (font t) *w64 scale t) +w64 line_spacing t.

Definition on_fb {A} (m : FbM A) : TermM A := zoom fb set_fb m.

(** [ptr::copy] within the framebuffer, then [write_bytes]. *)
Definition scroll : TermM unit :=
  t ← get;
  let scroll_bytes := line_height t *w64 pitch (fb t) in
  let total_bytes := height (fb t) *w64 pitch (fb t) in
  let kept := total_bytes -w64 scroll_bytes in
  (if scroll_bytes + kept <=? zlen (fb_mem (fb t)) then mret tt else panic) ;;
  on_fb (fb_store 0 (slice (fb_mem (fb t)) (Z.to_nat scroll_bytes) (Z.to_nat (scroll_bytes + kept)))) ;;
  on_fb (fb_store kept (replicate (Z.to_nat scroll_bytes) 0)).

Definition newline : TermM unit :=
  t ← get;
  put (set_xy 0 (y t) t) ;;
  if (max_y t -w64 1) <=? y t then scroll
  else t ← get; put (set_xy (x t) (y t +w64 1) t).

(** [draw_char] at the cursor. *)
Definition draw_at_cursor (c : Z) : TermM unit :=
  t ← get;
  on_fb (draw_char (font t) c (x t *w64 char_width t) (y t *w64 line_height t) (fg t) (bg t) (scale t)).

Definition put_printable (c : Z) : TermM unit :=
  t ← get;
  (if max_x t <=? x t then newline else mret tt) ;;
  draw_at_cursor c ;;
  t ← get; put (set_xy (x t +w64 1) (y t) t).

Definition put_char (c : Z) : TermM unit :=
  t ← get;
  if c =? 10 then newline
  else if c =? 13 then put (set_xy 0 (y t) t)
  else if c =? 9 then for_each (seqZ 0 4) (fun _ => put_printable 32)
  else if c =? 8 then
    if 0 <? x t then put (set_xy (x t -w64 1) (y t) t) ;; draw_at_cursor 32 else mret tt
  else if 32 <=? c then put_printable c
  else mret tt.

Definition write_str (s : rstr) : TermM unit := for_each s put_char.

(** [clear] writes [width * height] consecutive pixels. *)
Definition clear : TermM unit :=
  t ← get;
  for_each (seqZ 0 (width (fb t) *w64 height (fb t))) (fun i => on_fb (fb_store (i * 4) (to_le 4 (bg t)))) ;;
  t ← get; put (set_xy 0 0 t).

(** ** The kernel's terminal

    [TERMINAL]: nothing is drawn before [init]. *)
Abbreviation GlobalM := (M (option Terminal) Empty_set).

Definition with_terminal (m : TermM unit) : GlobalM unit := fun g =>
  match g with
  | Some t => let (o, t') := m t in (o, Some t')
  | None => (Ok tt, None)
  end.

Definition terminal_init (b : Framebuffer) (f : Font) : GlobalM unit := fun g =>
  match Terminal_new b f with
  | Ok t => (Ok tt, Some t)
  | Err e => (Err e, g)
  | Panic => (Panic, g)
  | Hang => (Hang, g)
  end.

Definition terminal_set_fg (color : Z) : GlobalM unit := with_terminal (set_fg color).
Definition terminal_set_bg (color : Z) : GlobalM unit := with_terminal (set_bg color).

(** [print!] and [println!] of a text already formatted. *)
Definition print (s : rstr) : GlobalM unit := with_terminal (write_str s).
Definition println (s : rstr) : GlobalM unit := print (s ++ [10]).

(** The log macros: a tag in brackets, in its colours, and the message. *)
Definition tagged (tag : rstr) (color : Z) (msg : rstr) : GlobalM unit :=
  terminal_set_fg 0x5555ff ;; print (lit "[") ;;
  terminal_set_fg color ;; print tag ;;
  terminal_set_fg 0x5555ff ;; print (lit "] ") ;;
  terminal_set_fg 0xffffff ;; println msg.
Definition info (msg : rstr) : GlobalM unit := tagged (lit "*") 0x00ff00 msg.
Definition warn (msg : rstr) : GlobalM unit := tagged (lit "W") 0xFFA500 msg.
Definition error (msg : rstr) : GlobalM unit := tagged (lit "E") 0xff0000 msg.

(** ** Pixels *)

(** The geometry of a screen: nothing wraps, and rows do not overlap. *)
Record fb_wf (b : Framebuffer) : Prop := {
  fw_width : 0 <= width b;
  fw_pitch : width b * 4 <= pitch b;
  fw_size : zlen (fb_mem b) = height b * pitch b;
  fw_height : 0 <= height b;
  fw_small : height b * pitch b < 2 ^ 62
}.

Definition same_geometry (a b : Framebuffer) : Prop :=
  width a = width b /\ height a = height b /\ pitch a = pitch b.

Definition on_screen (b : Framebuffer) (px py : Z) : Prop := 0 <= px < width b /\ 0 <= py < height b.

#[global] Instance on_screen_dec b px py : Decision (on_screen b px py).
Proof. unfold on_screen. apply _. Defined.

(** The four bytes of a pixel. *)
Definition pixel (b : Framebuffer) (px py : Z) : bytes :=
  let off := Z.to_nat (py * pitch b + px * 4) in slice (fb_mem b) off (off + 4).

(** Two different pixels of a screen share no byte. *)
Lemma pixel_bytes_apart b px py qx qy :
  fb_wf b -> on_screen b px py -> on_screen b qx qy -> (px, py) <> (qx, qy) ->
  py * pitch b + px * 4 + 4 <= qy * pitch b + qx * 4 \/ qy * pitch b + qx * 4 + 4 <= py * pitch b + px * 4.
Proof.
  intros [? ? ? ? ?] [? ?] [? ?] Hne.
  destruct (Z.lt_trichotomy py qy) as [|[->|]].
  - left. nia.
  - assert (px <> qx) by congruence. lia.
  - right. nia.
Qed.

Lemma pixel_fits b px py : fb_wf b -> on_screen b px py ->
  0 <= py * pitch b + px * 4 /\ py * pitch b + px * 4 + 4 <= zlen (fb_mem b).
Proof. intros [? ? ? ? ?] [? ?]. nia. Qed.

Lemma draw_pixel_off b px py color : 
  0 <= px -> 0 <= py -> ~ on_screen b px py -> draw_pixel px py color b = (Ok tt, b).
Proof.
  intros Hx Hy Hn. unfold draw_pixel. rewrite bind_get. 
  destruct (Z.leb_spec (width b) px); [done|]. destruct (Z.leb_spec (height b) py); [done|].
  destruct Hn. split; lia.
Qed.

Lemma draw_pixel_on b px py color : fb_wf b -> on_screen b px py ->
  exists b', draw_pixel px py color b = (Ok tt, b') /\ fb_wf b' /\ same_geometry b' b /\
    forall qx qy, on_screen b qx qy ->
      pixel b' qx qy = if decide ((qx, qy) = (px, py)) then to_le 4 color else pixel b qx qy.
Proof.
  intros Hw Hon. destruct (pixel_fits b px py Hw Hon) as [H0 H4].
  pose proof (pixel_bytes_apart b) as Hap. destruct Hon as [Hx Hy]. pose proof Hw as [? ? ? ? ?].
  unfold draw_pixel. rewrite bind_get.
  destruct (Z.leb_spec (width b) px); [lia|]. destruct (Z.leb_spec (height b) py); [lia|]. cbn [orb].
  assert (He : (py *w64 pitch b) +w64 (px *w64 4) = py * pitch b + px * 4).
  { rewrite (u64_small (py * pitch b)) by nia. rewrite (u64_small (px * 4)) by nia. apply u64_small. nia. }
  rewrite He. unfold fb_store. rewrite bind_get.
  assert (Hl : zlen (to_le 4 color) = 4) by (unfold zlen; by rewrite length_to_le). rewrite Hl.
  destruct (Z.leb_spec (py * pitch b + px * 4 + 4) (zlen (fb_mem b))); [|lia].
  unfold zlen in *.
  eexists; split; [reflexivity|]. split; [|split; [done|]].
  { constructor; cbn [width height pitch fb_mem]; try lia. rewrite <- fw_size0. unfold zlen.
    rewrite length_splice; [done|lia]. }
  intros qx qy Hq. unfold pixel. cbn [width height pitch fb_mem].
  case_decide as Heq.
  - injection Heq as -> ->.
    pose proof (slice_splice_same (fb_mem b) (Z.to_nat (py * pitch b + px * 4)) (to_le 4 color)) as Hs.
    rewrite length_to_le in *. apply Hs. lia.
  - destruct (pixel_fits b qx qy Hw Hq) as [? ?]. unfold zlen in *.
    apply slice_splice_other; rewrite length_to_le; [lia|].
    destruct (Hap px py qx qy Hw ltac:(by split) Hq ltac:(congruence)); lia.
Qed.

Lemma on_screen_same a b px py : same_geometry a b -> on_screen b px py -> on_screen a px py.
Proof. intros (Hw & Hh & _). unfold on_screen. by rewrite Hw, Hh. Qed.

#[global] Instance same_geometry_preorder : PreOrder same_geometry.
Proof. split; [done|]. intros a b c (? & ? & ?) (? & ? & ?). repeat split; congruence. Qed.

(** Drawing a list of points: a pixel ends with the colour of the points drawn on it. *)
Lemma paint {T} (X Y K : T -> Z) (pts : list T) b :
  fb_wf b -> (forall t, t ∈ pts -> 0 <= X t /\ 0 <= Y t) ->
  exists b', for_each pts (fun t => draw_pixel (X t) (Y t) (K t)) b = (Ok tt, b') /\ fb_wf b' /\ same_geometry b' b /\
    forall qx qy F, on_screen b qx qy -> (forall t, t ∈ pts -> (qx, qy) = (X t, Y t) -> K t = F) ->
      pixel b' qx qy = if decide ((qx, qy) ∈ map (fun t => (X t, Y t)) pts) then to_le 4 F else pixel b qx qy.
Proof.
  revert b. induction pts as [|t pts IH]; intros b Hw Hpos; cbn [for_each map].
  { exists b. do 3 (split; [done|]). intros. rewrite decide_False; [done|]. apply not_elem_of_nil. }
  destruct (Hpos t ltac:(left)) as [Hx Hy].
  assert (Hstep : exists b1, draw_pixel (X t) (Y t) (K t) b = (Ok tt, b1) /\ fb_wf b1 /\ same_geometry b1 b /\
    forall qx qy, on_screen b qx qy ->
      pixel b1 qx qy = if decide ((qx, qy) = (X t, Y t)) then to_le 4 (K t) else pixel b qx qy).
  { destruct (decide (on_screen b (X t) (Y t))) as [Hon|Hoff]; [by apply draw_pixel_on|].
    exists b. rewrite draw_pixel_off by done. split; [done|]. split; [done|]. split; [done|].
    intros qx qy Hq. case_decide as He; [|done]. injection He as -> ->. done. }
  destruct Hstep as (b1 & H1 & Hw1 & Hg1 & Hp1).
  destruct (IH b1 Hw1) as (b2 & H2 & Hw2 & Hg2 & Hp2); [intros u Hu; apply Hpos; by right|].
  exists b2. rewrite (bind_ok _ _ _ _ _ H1). split; [done|]. split; [done|]. split; [by etransitivity|].
  intros qx qy F Hq HF. pose proof (on_screen_same _ _ _ _ Hg1 Hq) as Hq1.
  rewrite (Hp2 qx qy F Hq1) by (intros u Hu; apply HF; by right).
  destruct (decide ((qx, qy) ∈ map (fun t => (X t, Y t)) pts)) as [Hin|Hout].
  - rewrite decide_True by (by right). done.
  - rewrite Hp1 by done. case_decide as He.
    + rewrite decide_True by (rewrite He; left). rewrite (HF t) by (done || left). done.
    + rewrite decide_False; [done|]. intros [|]%elem_of_cons; done.
Qed.

(** ** Characters *)

Record font_wf (f : Font) : Prop := {
  fn_width : 0 < glyph_width f <= 8;
  fn_height : 0 < glyph_height f <= 64
}.

(** The square of the screen a glyph's bit is drawn on. *)
Definition dots (gw gh sc : Z) : list (Z * Z * Z * Z) :=
  flat_map (fun row => flat_map (fun col => flat_map (fun sy => map (fun sx => (row, col, sy, sx))
    (seqZ 0 sc)) (seqZ 0 sc)) (seqZ 0 gw)) (seqZ 0 gh).

Lemma elem_of_flat_map {A B} (f : A -> list B) l y : y ∈ flat_map f l <-> exists x, x ∈ l /\ y ∈ f x.
Proof. rewrite list_elem_of_In, in_flat_map. setoid_rewrite list_elem_of_In. done. Qed.

Lemma elem_of_map {A B} (f : A -> B) l y : y ∈ map f l <-> exists x, x ∈ l /\ y = f x.
Proof. rewrite list_elem_of_In, in_map_iff. setoid_rewrite list_elem_of_In. naive_solver. Qed.

Lemma elem_of_dots gw gh sc row col sy sx :
  (row, col, sy, sx) ∈ dots gw gh sc <->
  0 <= row < gh /\ 0 <= col < gw /\ 0 <= sy < sc /\ 0 <= sx < sc.
Proof.
  unfold dots. rewrite elem_of_flat_map. setoid_rewrite elem_of_flat_map. setoid_rewrite elem_of_flat_map.
  setoid_rewrite elem_of_seqZ. setoid_rewrite elem_of_map. setoid_rewrite elem_of_seqZ. split.
  - intros (r & ? & c & ? & y0 & ? & x0 & ? & [= -> -> -> ->]). lia.
  - intros (? & ? & ? & ?). exists row. split; [lia|]. exists col. split; [lia|].
    exists sy. split; [lia|]. exists sx. split; [lia|done].
Qed.

Lemma glyph_length f c g : font_wf f -> 0 <= c -> glyph f c = Some g -> zlen g = glyph_height f.
Proof.
  intros [? ?] Hc. unfold glyph. destruct (Z.leb_spec 128 c); [done|].
  pose proof (Z.mul_le_mono_nonneg c 128 (glyph_height f) 64 ltac:(lia) ltac:(lia) ltac:(lia) ltac:(lia)).
  pose proof (Z.mul_nonneg_nonneg c (glyph_height f) ltac:(lia) ltac:(lia)).
  rewrite (u64_small (c * _)), u64_small by lia.
  destruct (Z.ltb_spec (zlen (data f)) (c * glyph_height f + glyph_height f)); [done|].
  intros [= <-]. unfold zlen in *. rewrite length_slice by lia. lia.
Qed.

Lemma land_pow2_zero b n : 0 <= n -> (Z.land b (2 ^ n) =? 0) = negb (Z.testbit b n).
Proof.
  intros Hn. destruct (Z.testbit b n) eqn:Hb; cbn [negb].
  - apply Z.eqb_neq. intros H0.
    assert (Ht : Z.testbit (Z.land b (2 ^ n)) n = true) by (rewrite Z.land_spec, Hb, Z.pow2_bits_true by lia; done).
    by rewrite H0, Z.bits_0 in Ht.
  - apply Z.eqb_eq. apply Z.bits_inj'. intros i Hi. rewrite Z.land_spec, Z.bits_0.
    destruct (Z.eq_dec n i) as [<-|]; [by rewrite Hb|]. rewrite Z.pow2_bits_false by done. apply andb_false_r.
Qed.

(** The bits of a row are drawn from the most significant. *)
Lemma pixel_color_bit b col fg bg : 0 <= col < 8 ->
  pixel_color b col fg bg = if Z.testbit b (7 - col) then fg else bg.
Proof.
  intros Hc. unfold pixel_color.
  assert (Z.shiftr 0x80 col = 2 ^ (7 - col)) as ->.
  { assert (Hcol : col ∈ seqZ 0 8) by (apply elem_of_seqZ; lia). cbv in Hcol.
    repeat (apply elem_of_cons in Hcol as [->|Hcol]; [reflexivity|]). by apply elem_of_nil in Hcol. }
  rewrite land_pow2_zero by lia. by destruct (Z.testbit b (7 - col)).
Qed.

(** The nested loops of [draw_char] as one loop over the dots of the glyph. *)
Lemma draw_char_dots f c x0 y0 fg bg sc g b :
  font_wf f -> 0 <= c -> glyph f c = Some g ->
  draw_char f c x0 y0 fg bg sc b =
  for_each (dots (glyph_width f) (glyph_height f) sc) (fun '(row, col, sy, sx) =>
    draw_pixel ((x0 +w64 (col *w64 sc)) +w64 sx) ((y0 +w64 (row *w64 sc)) +w64 sy)
      (pixel_color (rd g (Z.to_nat row)) col fg bg)) b.
Proof.
  intros Hf Hc Hg. unfold draw_char, dots. rewrite Hg, for_each_flat.
  assert (Hz : zip (seqZ 0 (zlen g)) g = map (fun row => (row, rd g (Z.to_nat row))) (seqZ 0 (zlen g))).
  { apply list_eq. intros i. rewrite list_lookup_fmap. destruct (decide (i < length g)%nat) as [Hi|Hi].
    - destruct (lookup_lt_is_Some_2 g i Hi) as [v Hv]. 
      assert (Hs : seqZ 0 (zlen g) !! i = Some (Z.of_nat i)) by (apply lookup_seqZ; unfold zlen; lia).
      rewrite lookup_zip_with, Hs, Hv. cbn. unfold rd. by rewrite Nat2Z.id, (nth_lookup_Some _ _ _ _ Hv).
    - rewrite (lookup_ge_None_2 (zip _ _)) by (rewrite length_zip_with; lia).
      rewrite lookup_ge_None_2; [done|]. rewrite length_seqZ. unfold zlen. lia. }
  rewrite Hz, for_each_fmap, (glyph_length f c g Hf Hc Hg).
  apply for_each_ext. intros row s _. rewrite for_each_flat. cbn beta iota.
  apply for_each_ext. intros col s' _. rewrite for_each_flat. cbn beta iota zeta.
  apply for_each_ext. intros sy s'' _. by rewrite for_each_fmap.
Qed.

(** The area [draw_char] writes, and what it writes there. *)
Definition in_cell (f : Font) (x0 y0 sc qx qy : Z) : Prop :=
  x0 <= qx < x0 + glyph_width f * sc /\ y0 <= qy < y0 + glyph_height f * sc.

#[global] Instance in_cell_dec f x0 y0 sc qx qy : Decision (in_cell f x0 y0 sc qx qy).
Proof. unfold in_cell. apply _. Defined.

Definition glyph_color (g : bytes) (x0 y0 sc fg bg qx qy : Z) : Z :=
  if Z.testbit (rd g (Z.to_nat ((qy - y0) / sc))) (7 - (qx - x0) / sc) then fg else bg.

Lemma cell_coord a0 n sc i s : 0 <= a0 < 2 ^ 62 -> 0 < n <= 64 -> 0 < sc <= 64 -> 0 <= i < n -> 0 <= s < sc ->
  (a0 +w64 (i *w64 sc)) +w64 s = a0 + i * sc + s.
Proof.
  intros. assert (0 <= i * sc <= 64 * 64) by (split; [lia|apply Z.mul_le_mono_nonneg; lia]).
  rewrite (u64_small (i * sc)) by lia. rewrite (u64_small (a0 + _)) by lia. apply u64_small. lia.
Qed.

Lemma cell_div a0 sc i s : 0 < sc -> 0 <= s < sc -> (a0 + i * sc + s - a0) / sc = i.
Proof. intros. replace (a0 + i * sc + s - a0) with (i * sc + s) by lia. rewrite Z.div_add_l by lia. rewrite Z.div_small; lia. Qed.

Lemma draw_char_pixels f c x0 y0 fg bg sc g b :
  fb_wf b -> font_wf f -> 0 <= c -> glyph f c = Some g -> 0 <= x0 < 2 ^ 62 -> 0 <= y0 < 2 ^ 62 -> 0 < sc <= 64 ->
  exists b', draw_char f c x0 y0 fg bg sc b = (Ok tt, b') /\ fb_wf b' /\ same_geometry b' b /\
    forall qx qy, on_screen b qx qy ->
      pixel b' qx qy = if decide (in_cell f x0 y0 sc qx qy) then to_le 4 (glyph_color g x0 y0 sc fg bg qx qy)
                       else pixel b qx qy.
Proof.
  intros Hw Hf Hc Hg Hx Hy Hsc. pose proof Hf as [Hgw Hgh].
  set (X := fun '((row, col, sy, sx) : Z * Z * Z * Z) => x0 + col * sc + sx).
  set (Y := fun '((row, col, sy, sx) : Z * Z * Z * Z) => y0 + row * sc + sy).
  set (K := fun '((row, col, sy, sx) : Z * Z * Z * Z) => if Z.testbit (rd g (Z.to_nat row)) (7 - col) then fg else bg).
  rewrite (draw_char_dots f c x0 y0 fg bg sc g b Hf Hc Hg).
  rewrite (for_each_ext _ _ (fun t : Z * Z * Z * Z => draw_pixel (X t) (Y t) (K t))).
  2:{ intros [[[row col] sy] sx] s Ht%elem_of_dots. destruct Ht as (? & ? & ? & ?). cbn [X Y K].
      rewrite (cell_coord x0 (glyph_width f)), (cell_coord y0 (glyph_height f)), pixel_color_bit by lia. done. }
  destruct (paint X Y K (dots (glyph_width f) (glyph_height f) sc) b Hw) as (b' & He & Hw' & Hg' & Hp).
  { intros [[[row col] sy] sx] Ht%elem_of_dots. destruct Ht as (? & ? & ? & ?). cbn [X Y]. nia. }
  exists b'. split; [done|]. split; [done|]. split; [done|]. intros qx qy Hq.
  rewrite (Hp qx qy (glyph_color g x0 y0 sc fg bg qx qy) Hq).
  2:{ intros [[[row col] sy] sx] Ht%elem_of_dots Heq. destruct Ht as (? & ? & ? & ?). cbn [X Y K] in *.
      injection Heq as -> ->. unfold glyph_color. by rewrite !cell_div by lia. }
  apply decide_ext. rewrite elem_of_map. unfold in_cell. split.
  - intros ([[[row col] sy] sx] & Ht%elem_of_dots & Heq). cbn [X Y] in Heq. injection Heq as -> ->. nia.
  - intros [Hcx Hcy]. exists ((qy - y0) / sc, (qx - x0) / sc, (qy - y0) mod sc, (qx - x0) mod sc).
    pose proof (Z.mod_pos_bound (qy - y0) sc ltac:(lia)). pose proof (Z.mod_pos_bound (qx - x0) sc ltac:(lia)).
    pose proof (Z.div_mod (qy - y0) sc ltac:(lia)). pose proof (Z.div_mod (qx - x0) sc ltac:(lia)).
    split; [|cbn [X Y]; f_equal; lia]. apply elem_of_dots.
    split; [split; [apply Z.div_pos; lia|apply Z.div_lt_upper_bound; lia]|].
    split; [split; [apply Z.div_pos; lia|apply Z.div_lt_upper_bound; lia]|]. lia.
Qed.

(** ** The cursor and scrolling *)

(** The terminal's layout, as [Terminal_new] computes it. *)
Record term_wf (t : Terminal) : Prop := {
  tw_fb : fb_wf (fb t);
  tw_font : font_wf (font t);
  tw_scale : scale t = 2;
  tw_spacing : line_spacing t = 4;
  tw_char : char_width t = glyph_width (font t) * 2 - 2;
  tw_max_x : max_x t = width (fb t) / (glyph_width (font t) * 2);
  tw_max_y : max_y t = height (fb t) / (glyph_height (font t) * 2 + 4);
  tw_room : 0 < max_x t /\ 0 < max_y t;
  tw_x : 0 <= x t <= max_x t;
  tw_y : 0 <= y t < max_y t
}.

(** A well-formed terminal on a screen shaped as [b0], with font [f0]. *)
Definition term_on (b0 : Framebuffer) (f0 : Font) (t : Terminal) : Prop :=
  term_wf t /\ same_geometry (fb t) b0 /\ font t = f0.

Lemma term_line_height t : term_wf t -> line_height t = glyph_height (font t) * 2 + 4.
Proof.
  intros H. destruct (tw_font _ H) as [? ?]. unfold line_height. rewrite (tw_scale _ H), (tw_spacing _ H).
  rewrite (u64_small (_ * _)), u64_small by lia. done.
Qed.

(** A text line fits between the cursor and the bottom. *)
Lemma cursor_fits t : term_wf t ->
  (y t + 1) * line_height t <= height (fb t) /\ x t * char_width t <= width (fb t) /\ 0 <= x t * char_width t.
Proof.
  intros H. pose proof (term_line_height t H) as Hl. destruct (tw_font _ H) as [? ?]. destruct (tw_y _ H), (tw_x _ H).
  pose proof (Z.mul_div_le (height (fb t)) (line_height t) ltac:(lia)) as Hd. rewrite Hl, <- (tw_max_y t H), <- Hl in Hd.
  pose proof (Z.mul_div_le (width (fb t)) (glyph_width (font t) * 2) ltac:(lia)) as Hdx. rewrite <- (tw_max_x t H) in Hdx.
  rewrite (tw_char t H). nia.
Qed.

Lemma text_line_fits t : term_wf t ->
  0 < line_height t <= height (fb t) /\
  0 <= line_height t * pitch (fb t) <= height (fb t) * pitch (fb t).
Proof.
  intros H. destruct (cursor_fits t H) as (Hfit & _). destruct (tw_y _ H).
  pose proof (term_line_height t H) as Hl. destruct (tw_font _ H) as [? ?]. pose proof (tw_fb _ H) as [? ? ? ? ?].
  assert (Hlh : line_height t <= height (fb t)) by nia. split; [lia|]. split; [nia|].
  apply Z.mul_le_mono_nonneg_r; lia.
Qed.

(** Neither side of a screen with room for text comes near the width of [usize]. *)
Lemma screen_small t : term_wf t -> width (fb t) < 2 ^ 62 /\ height (fb t) < 2 ^ 62.
Proof.
  intros H. destruct (tw_room _ H) as [Hx Hy]. pose proof (tw_fb _ H) as [? ? ? ? ?]. destruct (tw_font _ H) as [? ?].
  rewrite (tw_max_x _ H) in Hx. rewrite (tw_max_y _ H) in Hy.
  destruct (Z.lt_ge_cases (width (fb t)) (glyph_width (font t) * 2)); [rewrite Z.div_small in Hx; lia|].
  destruct (Z.lt_ge_cases (height (fb t)) (glyph_height (font t) * 2 + 4)); [rewrite Z.div_small in Hy; lia|]. nia.
Qed.

Lemma set_fb_wf t b : term_wf t -> fb_wf b -> same_geometry b (fb t) -> term_wf (set_fb b t).
Proof. intros H Hb (Hw & Hh & Hp). constructor; cbn; try apply H; try done; [by rewrite Hw; apply H|by rewrite Hh; apply H]. Qed.

Lemma set_xy_wf t nx ny : term_wf t -> 0 <= nx <= max_x t -> 0 <= ny < max_y t -> term_wf (set_xy nx ny t).
Proof. intros H ? ?. constructor; cbn; try apply H; done. Qed.

Lemma term_on_set_fb b0 f0 t b : term_on b0 f0 t -> fb_wf b -> same_geometry b (fb t) -> term_on b0 f0 (set_fb b t).
Proof. intros (H & Hg & Hf) Hb Hs. split; [by apply set_fb_wf|]. split; [by etransitivity|done]. Qed.

Lemma term_on_set_xy b0 f0 t nx ny :
  term_on b0 f0 t -> 0 <= nx <= max_x t -> 0 <= ny < max_y t -> term_on b0 f0 (set_xy nx ny t).
Proof. intros (H & Hg & Hf) ? ?. split; [by apply set_xy_wf|]. done. Qed.

Lemma splice_take_drop {A} (l z : list A) (n : nat) : length z = n -> (n <= length l)%nat ->
  splice (splice l 0 (drop n l)) (length l - n) z = drop n l ++ z.
Proof.
  intros Hz Hn. apply list_eq. intros i.
  assert (Hl : length (splice l 0 (drop n l)) = length l) by (rewrite length_splice; rewrite ?length_drop; lia).
  destruct (decide (i < length l - n)%nat).
  - rewrite splice_lookup_out by lia. rewrite splice_lookup_in by (rewrite length_drop; lia).
    rewrite lookup_app_l by (rewrite length_drop; lia). f_equal. lia.
  - destruct (decide (i < length l)%nat).
    + rewrite splice_lookup_in by lia. rewrite lookup_app_r by (rewrite length_drop; lia). by rewrite length_drop.
    + rewrite !lookup_ge_None_2; [done|rewrite length_app, length_drop; lia|].
      rewrite length_splice; lia.
Qed.

Lemma fb_store_ok off bs b : off + zlen bs <= zlen (fb_mem b) ->
  fb_store off bs b = (Ok tt, mkFb (splice (fb_mem b) (Z.to_nat off) bs) (width b) (height b) (pitch b)).
Proof. intros H. unfold fb_store. rewrite bind_get. by destruct (Z.leb_spec (off + zlen bs) (zlen (fb_mem b))); [|lia]. Qed.

Lemma on_fb_ok {A} (m : FbM A) t (a : A) b' : m (fb t) = (Ok a, b') -> on_fb m t = (Ok a, set_fb b' t).
Proof. intros H. unfold on_fb, zoom. by rewrite H. Qed.

(** One text line up: what is left of the memory, then black. *)
Lemma scroll_run t : term_wf t ->
  scroll t = (Ok tt,
    set_fb (mkFb (drop (Z.to_nat (line_height t * pitch (fb t))) (fb_mem (fb t)) ++
                  replicate (Z.to_nat (line_height t * pitch (fb t))) 0)
                 (width (fb t)) (height (fb t)) (pitch (fb t))) t).
Proof.
  intros H. pose proof (tw_fb _ H) as [? ? Hs ? ?]. destruct (text_line_fits t H) as [Hl Hlp].
  set (sb := line_height t * pitch (fb t)) in *. set (total := height (fb t) * pitch (fb t)) in *.
  unfold scroll. rewrite bind_get. fold sb total. rewrite (u64_small sb), (u64_small total) by lia.
  rewrite (u64_small (total - sb)) by lia. cbn zeta. replace (sb + (total - sb)) with total by lia.
  rewrite Hs, Z.leb_refl. rewrite bind_ret.
  assert (Hlen : length (fb_mem (fb t)) = Z.to_nat total) by (unfold zlen in Hs; lia).
  unfold slice. rewrite take_ge by (rewrite length_drop; lia).
  assert (H1 : 0 + zlen (drop (Z.to_nat sb) (fb_mem (fb t))) <= zlen (fb_mem (fb t)))
    by (unfold zlen; rewrite length_drop; lia).
  rewrite (bind_ok _ _ _ _ _ (on_fb_ok _ _ _ _ (fb_store_ok _ _ _ H1))).
  erewrite on_fb_ok; [|apply fb_store_ok; cbn [fb set_fb fb_mem]; unfold zlen;
    rewrite length_replicate, length_splice by (rewrite length_drop; lia); lia].
  cbn [fb set_fb fb_mem width height pitch]. change (Z.to_nat 0) with 0%nat.
  replace (Z.to_nat (total - sb)) with (length (fb_mem (fb t)) - Z.to_nat sb)%nat by lia.
  rewrite splice_take_drop by (rewrite ?length_replicate; lia). done.
Qed.

Lemma scrolled_fb_wf t : term_wf t -> fb_wf (fb (scroll t).2).
Proof.
  intros H. rewrite (scroll_run t H). pose proof (tw_fb _ H) as [? ? Hs ? ?]. destruct (text_line_fits t H) as [Hl Hlp].
  constructor; cbn [fst snd fb set_fb fb_mem width height pitch]; try done.
  rewrite <- Hs. unfold zlen in *. rewrite length_app, length_drop, length_replicate. lia.
Qed.

Lemma newline_run t : term_wf t ->
  newline t = if max_y t - 1 <=? y t then scroll (set_xy 0 (y t) t) else (Ok tt, set_xy 0 (y t + 1) t).
Proof.
  intros H. destruct (tw_room _ H), (tw_y _ H). pose proof (tw_fb _ H) as [? ? ? ? ?].
  assert (max_y t <= height (fb t)).
  { rewrite (tw_max_y _ H). destruct (tw_font _ H). apply Z.div_le_upper_bound; nia. }
  pose proof (screen_small t H).
  unfold newline. rewrite bind_get, bind_put. rewrite (u64_small (max_y t - 1)) by lia.
  destruct (max_y t - 1 <=? y t); [done|]. rewrite bind_get. cbn. by rewrite u64_small by lia.
Qed.

Lemma newline_runs b0 f0 : stays (term_on b0 f0) newline.
Proof.
  intros t Hon. pose proof Hon as (H & Hg & Hf). rewrite (newline_run t H).
  destruct (tw_y _ H) as [? ?]. destruct (tw_x _ H) as [? ?]. destruct (tw_room _ H) as [? ?].
  destruct (Z.leb_spec (max_y t - 1) (y t)).
  - assert (Hz : term_on b0 f0 (set_xy 0 (y t) t)) by (apply term_on_set_xy; [done|lia|lia]).
    pose proof (scrolled_fb_wf _ (proj1 Hz)) as Hsw. rewrite (scroll_run _ (proj1 Hz)) in Hsw |- *.
    eexists _, _. split; [done|]. apply term_on_set_fb; done.
  - eexists _, _. split; [done|]. apply term_on_set_xy; [done|lia|lia].
Qed.

(** ** Characters on the terminal *)

(** A character drawn at the cursor, glyph or not, leaves the terminal in place. *)
Lemma draw_at_cursor_run c t : term_wf t -> 0 <= c ->
  exists b', draw_at_cursor c t = (Ok tt, set_fb b' t) /\ fb_wf b' /\ same_geometry b' (fb t) /\
    forall g, glyph (font t) c = Some g -> forall qx qy, on_screen (fb t) qx qy ->
      let x0 := x t * char_width t in
      let y0 := y t * line_height t in
      pixel b' qx qy = if decide (in_cell (font t) x0 y0 2 qx qy)
                       then to_le 4 (glyph_color g x0 y0 2 (fg t) (bg t) qx qy) else pixel (fb t) qx qy.
Proof.
  intros H Hc. destruct (cursor_fits t H) as (Hfit & Hx1 & Hx0). destruct (screen_small t H) as [? ?].
  destruct (tw_y _ H). destruct (text_line_fits t H) as [? _].
  assert (Hy0 : 0 <= y t * line_height t < height (fb t)) by nia.
  unfold draw_at_cursor. rewrite bind_get. rewrite (u64_small (x t * _)), (u64_small (y t * _)) by lia.
  rewrite (tw_scale t H). unfold on_fb, zoom.
  destruct (glyph (font t) c) as [g|] eqn:Hg.
  - destruct (draw_char_pixels (font t) c (x t * char_width t) (y t * line_height t) (fg t) (bg t) 2 g (fb t))
      as (b' & He & Hb & Hs & Hp); try lia; [apply H|apply H|done|].
    exists b'. rewrite He. do 3 (split; [done|]). intros g' [= <-]. apply Hp.
  - exists (fb t). unfold draw_char. rewrite Hg. split; [by destruct t|]. split; [apply H|]. split; [done|]. done.
Qed.

Lemma draw_at_cursor_runs b0 f0 c : 0 <= c -> stays (term_on b0 f0) (draw_at_cursor c).
Proof.
  intros Hc t Hon. destruct (draw_at_cursor_run c t (proj1 Hon) Hc) as (b' & -> & ? & ? & _).
  eexists _, _. split; [done|]. by apply term_on_set_fb.
Qed.

(** [put_printable] after the line break it may need: the glyph at the cursor, and the
    cursor one column on. *)
Lemma put_printable_at c t t1 : term_wf t1 -> x t1 < max_x t1 -> 0 <= c ->
  (if max_x t <=? x t then newline else mret tt) t = (Ok tt, t1) ->
  exists b', put_printable c t = (Ok tt, set_xy (x t1 + 1) (y t1) (set_fb b' t1)) /\ fb_wf b' /\ same_geometry b' (fb t1) /\
    forall g, glyph (font t1) c = Some g -> forall qx qy, on_screen (fb t1) qx qy ->
      let x0 := x t1 * char_width t1 in
      let y0 := y t1 * line_height t1 in
      pixel b' qx qy = if decide (in_cell (font t1) x0 y0 2 qx qy)
                       then to_le 4 (glyph_color g x0 y0 2 (fg t1) (bg t1) qx qy) else pixel (fb t1) qx qy.
Proof.
  intros H Hx Hc Hn. destruct (draw_at_cursor_run c t1 H Hc) as (b' & Hd & Hb & Hs & Hp).
  exists b'. split; [|done]. unfold put_printable. rewrite bind_get, (bind_ok _ _ _ _ _ Hn), (bind_ok _ _ _ _ _ Hd), bind_get.
  destruct (tw_x _ H). destruct (screen_small t1 H). pose proof (tw_fb _ H) as [? ? ? ? ?].
  assert (max_x t1 <= width (fb t1)).
  { rewrite (tw_max_x _ H). destruct (tw_font _ H). apply Z.div_le_upper_bound; nia. }
  cbn. by rewrite u64_small by lia.
Qed.

(** The line break [put_printable] makes first leaves room for the character. *)
Lemma wrap_run b0 f0 t : term_on b0 f0 t ->
  exists t1, (if max_x t <=? x t then newline else mret tt) t = (Ok tt, t1) /\ term_on b0 f0 t1 /\ x t1 < max_x t1.
Proof.
  intros Hon. destruct (Z.leb_spec (max_x t) (x t)) as [Hge|Hlt]; [|by exists t].
  destruct (newline_runs b0 f0 t Hon) as ([] & t1 & Hn & Hon1). exists t1. split; [done|]. split; [done|].
  pose proof Hon as (H & _). destruct (tw_room _ (proj1 Hon1)). 
  rewrite (newline_run t H) in Hn. destruct (max_y t - 1 <=? y t).
  - assert (Hz : term_wf (set_xy 0 (y t) t)) by (destruct (tw_room _ H); apply set_xy_wf; [done|lia|by apply (tw_y _ H)]).
    rewrite (scroll_run _ Hz) in Hn. by injection Hn as <-.
  - by injection Hn as <-.
Qed.

Lemma put_printable_runs b0 f0 c : 0 <= c -> stays (term_on b0 f0) (put_printable c).
Proof.
  intros Hc t Hon. destruct (wrap_run b0 f0 t Hon) as (t1 & Hn & Hon1 & Hx).
  pose proof Hon1 as (H1 & _). destruct (tw_x _ H1), (tw_y _ H1).
  destruct (put_printable_at c t t1 H1 Hx Hc Hn) as (b' & -> & Hb & Hs & _).
  eexists _, _. split; [done|]. apply term_on_set_xy; [by apply term_on_set_fb|cbn; lia|cbn; lia].
Qed.

Lemma put_char_runs b0 f0 c : 0 <= c -> stays (term_on b0 f0) (put_char c).
Proof.
  intros Hc. unfold put_char. apply stays_get. intros t Hon. pose proof Hon as (H & _).
  destruct (tw_x _ H), (tw_y _ H), (screen_small t H).
  case_bool; [by apply newline_runs|]. case_bool.
  { eexists _, _. split; [done|]. apply term_on_set_xy; [done|lia|lia]. }
  case_bool; [apply stays_for_each; [|done]; intros _ _; by apply put_printable_runs|]. case_bool.
  - destruct (Z.ltb_spec 0 (x t)); [|by eexists _, _]. rewrite bind_put.
    assert (max_x t <= width (fb t)).
    { rewrite (tw_max_x _ H). destruct (tw_font _ H). pose proof (tw_fb _ H) as [? ? ? ? ?]. apply Z.div_le_upper_bound; nia. }
    apply draw_at_cursor_runs; [lia|]. rewrite u64_small by lia. apply term_on_set_xy; [done|lia|lia].
  - case_bool; [by apply put_printable_runs|by eexists _, _].
Qed.

(** ** What the terminal promises *)

Lemma Terminal_new_wf b f : fb_wf b -> font_wf f ->
  glyph_width f * 2 <= width b -> glyph_height f * 2 + 4 <= height b ->
  exists t, Terminal_new b f = Ok t /\ term_on b f t.
Proof.
  intros Hb Hf Hw Hh. destruct Hf as [Hgw Hgh]. unfold Terminal_new.
  rewrite (u64_small (glyph_width f * 2)), (u64_small (glyph_height f * 2)) by lia.
  rewrite (u64_small (_ + 4)), (u64_small (_ - 2)) by lia.
  destruct (Z.eqb_spec (glyph_width f * 2) 0); [lia|]. destruct (Z.eqb_spec (glyph_height f * 2 + 4) 0); [lia|].
  assert (0 < width b / (glyph_width f * 2)) by (apply Z.div_str_pos; lia).
  assert (0 < height b / (glyph_height f * 2 + 4)) by (apply Z.div_str_pos; lia).
  eexists. split; [reflexivity|]. split; [|done]. by constructor; cbn; try lia.
Qed.

Lemma write_str_runs b0 f0 s : Forall is_char s -> stays (term_on b0 f0) (write_str s).
Proof.
  intros Hs. apply stays_for_each. intros c Hc. apply put_char_runs.
  pose proof (proj1 (Forall_forall _ _) Hs c Hc) as Hch. unfold is_char in Hch. lia.
Qed.

(** ** The kernel's console *)

(** Not yet there, or well-formed on the screen [b0]. *)
Definition console_on (b0 : Framebuffer) (f0 : Font) (g : option Terminal) : Prop :=
  match g with Some t => term_on b0 f0 t | None => True end.

Lemma with_terminal_runs b0 f0 m : stays (term_on b0 f0) m -> stays (console_on b0 f0) (with_terminal m).
Proof.
  intros Hm [t|] Hg; [|by exists tt, None]. destruct (Hm t Hg) as ([] & t' & He & Ht').
  exists tt, (Some t'). unfold with_terminal. by rewrite He.
Qed.

Lemma set_fg_runs b0 f0 color : stays (term_on b0 f0) (set_fg color).
Proof. intros t ([] & Hg & Hf). eexists _, _. split; [reflexivity|]. split; [by constructor|done]. Qed.

Lemma print_runs b0 f0 s : Forall is_char s -> stays (console_on b0 f0) (print s).
Proof. intros Hs. by apply with_terminal_runs, write_str_runs. Qed.

Lemma tagged_runs b0 f0 tag color msg :
  Forall is_char tag -> Forall is_char msg -> stays (console_on b0 f0) (tagged tag color msg).
Proof.
  intros Ht Hm. unfold tagged, terminal_set_fg, println.
  assert (Hlog : Forall is_char (lit "[") /\ Forall is_char (lit "] ") /\ Forall is_char (msg ++ [10])).
  { split_and!; [by_decide|by_decide|]. apply Forall_app. split; [done|by_decide]. }
  destruct Hlog as (? & ? & ?).
  repeat (apply stays_bind; [first [by apply with_terminal_runs, set_fg_runs|by apply print_runs]|intros _]).
  by apply print_runs.
Qed.

(** C24: Whatever text is written to a terminal just made on a screen with room for a
    character, no write leaves the framebuffer (the framebuffer model panics on one that
    does), the screen keeps its size, and the cursor stays on a line of text that is
    wholly on the screen. *)
Theorem write_str_bounds b f s :
  fb_wf b -> font_wf f -> glyph_width f * 2 <= width b -> glyph_height f * 2 + 4 <= height b -> Forall is_char s ->
  exists t t', Terminal_new b f = Ok t /\ write_str s t = (Ok tt, t') /\
    same_geometry (fb t') b /\ zlen (fb_mem (fb t')) = zlen (fb_mem b) /\
    0 <= x t' <= max_x t' /\ 0 <= y t' < max_y t' /\ (y t' + 1) * line_height t' <= height b.
Proof.
  intros Hb Hf Hw Hh Hs. destruct (Terminal_new_wf b f Hb Hf Hw Hh) as (t & Ht & Hon).
  destruct (write_str_runs b f s Hs t Hon) as ([] & t' & Hr & Hon').
  exists t, t'. do 2 (split; [done|]). destruct Hon' as (H' & Hg & _). split; [done|].
  split; [|split; [apply H'|split; [apply H'|]]].
  - rewrite (fw_size _ (tw_fb _ H')), (fw_size _ Hb). destruct Hg as (_ & -> & ->). done.
  - destruct (cursor_fits t' H') as (Hfit & _). by destruct Hg as (_ & <- & _).
Qed.

(** C25: A printable character that has a glyph is drawn where the cursor is after the
    line break it may need: each pixel of its cell gets the foreground or the background
    colour by the bit of the glyph it lies on (each bit a 2 by 2 square, the most
    significant bit leftmost), every other pixel of the screen keeps its colour, and the
    cursor moves one column on. *)
Theorem put_char_draws c t g :
  term_wf t -> 32 <= c -> glyph (font t) c = Some g ->
  exists t1 t', (if max_x t <=? x t then newline else mret tt) t = (Ok tt, t1) /\
    put_char c t = (Ok tt, t') /\ x t' = x t1 + 1 /\ y t' = y t1 /\ same_geometry (fb t') (fb t) /\
    forall qx qy, on_screen (fb t) qx qy ->
      let x0 := x t1 * char_width t1 in
      let y0 := y t1 * line_height t1 in
      pixel (fb t') qx qy =
        if decide (in_cell (font t) x0 y0 2 qx qy)
        then to_le 4 (if Z.testbit (rd g (Z.to_nat ((qy - y0) / 2))) (7 - (qx - x0) / 2) then fg t1 else bg t1)
        else pixel (fb t1) qx qy.
Proof.
  intros H Hc Hg. destruct (wrap_run (fb t) (font t) t) as (t1 & Hn & Hon1 & Hx); [done|].
  destruct Hon1 as (H1 & Hs1 & Hf1).
  destruct (put_printable_at c t t1 H1 Hx ltac:(lia) Hn) as (b' & Hp & Hb & Hs & Hpix).
  eexists t1, _. split; [done|]. split.
  { unfold put_char. rewrite bind_get. destruct (Z.eqb_spec c 10); [lia|]. destruct (Z.eqb_spec c 13); [lia|].
    destruct (Z.eqb_spec c 9); [lia|]. destruct (Z.eqb_spec c 8); [lia|]. destruct (Z.leb_spec 32 c); [exact Hp|lia]. }
  do 2 (split; [done|]). split; [by etransitivity|]. intros qx qy Hq. rewrite <- Hf1.
  apply Hpix; [by rewrite Hf1|]. by apply (on_screen_same _ (fb t)).
Qed.

(** ** A small screen *)
Definition small_fb : Framebuffer := mkFb (replicate 400 7) 8 10 40.
Definition small_font : Font := mkFont (replicate 65 0 ++ [0xA0]) 2 1.
Definition small_term : Terminal := mkTerm small_fb 0 0 2 1 0xffffff 0 2 small_font 4 2.

Lemma small_fb_wf : fb_wf small_fb.
Proof. constructor; cbn; try lia. done. Qed.
Lemma small_font_wf : font_wf small_font.
Proof. constructor; cbn; lia. Qed.
Lemma small_term_wf : term_wf small_term.
Proof. constructor; cbn; try lia; try done. Qed.

Lemma write_str_bounds_witness :
  exists t t', Terminal_new small_fb small_font = Ok t /\ write_str (lit "AAA" ++ [10; 9; 8; 65]) t = (Ok tt, t') /\
    same_geometry (fb t') small_fb /\ zlen (fb_mem (fb t')) = zlen (fb_mem small_fb) /\
    0 <= x t' <= max_x t' /\ 0 <= y t' < max_y t' /\ (y t' + 1) * line_height t' <= height small_fb.
Proof.
  apply (write_str_bounds small_fb small_font (lit "AAA" ++ [10; 9; 8; 65])).
  - apply small_fb_wf.
  - apply small_font_wf.
  - vm_compute. discriminate.
  - vm_compute. discriminate.
  - apply (bool_decide_unpack _). vm_compute. exact I.
Defined.

Lemma put_char_draws_witness :
  exists t1 t', (if max_x small_term <=? x small_term then newline else mret tt) small_term = (Ok tt, t1) /\
    put_char 65 small_term = (Ok tt, t') /\ x t' = x t1 + 1 /\ y t' = y t1 /\ same_geometry (fb t') small_fb /\
    forall qx qy, on_screen small_fb qx qy ->
      let x0 := x t1 * char_width t1 in
      let y0 := y t1 * line_height t1 in
      pixel (fb t') qx qy =
        if decide (in_cell small_font x0 y0 2 qx qy)
        then to_le 4 (if Z.testbit (rd [0xA0] (Z.to_nat ((qy - y0) / 2))) (7 - (qx - x0) / 2) then fg t1 else bg t1)
        else pixel (fb t1) qx qy.
Proof.
  apply (put_char_draws 65 small_term [0xA0]).
  - apply small_term_wf.
  - vm_compute. discriminate.
  - vm_compute. reflexivity.
Defined.

(** [clear] fills [width * height] consecutive pixels: on a screen whose rows are padded
    it does not reach the last rows. *)
Lemma clear_ignores_pitch :
  let t := mkTerm small_fb 0 0 2 1 0xffffff 0 2 small_font 4 2 in
  pixel (fb (clear t).2) 7 9 = pixel small_fb 7 9 /\ pixel small_fb 7 9 <> to_le 4 (bg t).
Proof. split; [vm_compute; reflexivity|vm_compute; discriminate]. Qed.
