(* ===== verification/FontData.v ===== *)
(** * FontData: the built-in font

    [vcore/src/font/glyphs.rs] and [FONT] of [vcore/src/font/mod.rs]: eight rows of
    eight bits for each of the 128 ASCII characters. *)
From Stdlib Require Import ZArith Lia.
From stdpp Require Import base numbers option list.
From S2P Require Import Prelude Terminal.

Definition FONT_GLYPH_WIDTH : Z := 8.
Definition FONT_GLYPH_HEIGHT : Z := 8.

(** One list for each character, in the order of their codes. *)
Definition FONT_DATA : bytes := mjoin [
    [0x00; 0x00; 0x00; 0x00; 0x00; 0x00; 0x00; 0x00];
    [0x00; 0x00; 0x00; 0x00; 0x00; 0x00; 0x00; 0x00];
    [0x00; 0x00; 0x00; 0x00; 0x00; 0x00; 0x00; 0x00];
    [0x00; 0x00; 0x00; 0x00; 0x00; 0x00; 0x00; 0x00];
    [0x00; 0x00; 0x00; 0x00; 0x00; 0x00; 0x00; 0x00];
    [0x00; 0x00; 0x00; 0x00; 0x00; 0x00; 0x00; 0x00];
    [0x00; 0x00; 0x00; 0x00; 0x00; 0x00; 0x00; 0x00];
    [0x00; 0x00; 0x00; 0x00; 0x00; 0x00; 0x00; 0x00];
    [0x00; 0x00; 0x00; 0x00; 0x00; 0x00; 0x00; 0x00];
    [0x00; 0x00; 0x00; 0x00; 0x00; 0x00; 0x00; 0x00];
    [0x00; 0x00; 0x00; 0x00; 0x00; 0x00; 0x00; 0x00];
    [0x00; 0x00; 0x00; 0x00; 0x00; 0x00; 0x00; 0x00];
    [0x00; 0x00; 0x00; 0x00; 0x00; 0x00; 0x00; 0x00];
    [0x00; 0x00; 0x00; 0x00; 0x00; 0x00; 0x00; 0x00];
    [0x00; 0x00; 0x00; 0x00; 0x00; 0x00; 0x00; 0x00];
    [0x00; 0x00; 0x00; 0x00; 0x00; 0x00; 0x00; 0x00];
    [0x00; 0x00; 0x00; 0x00; 0x00; 0x00; 0x00; 0x00];
    [0x00; 0x00; 0x00; 0x00; 0x00; 0x00; 0x00; 0x00];
    [0x00; 0x00; 0x00; 0x00; 0x00; 0x00; 0x00; 0x00];
    [0x00; 0x00; 0x00; 0x00; 0x00; 0x00; 0x00; 0x00];
    [0x00; 0x00; 0x00; 0x00; 0x00; 0x00; 0x00; 0x00];
    [0x00; 0x00; 0x00; 0x00; 0x00; 0x00; 0x00; 0x00];
    [0x00; 0x00; 0x00; 0x00; 0x00; 0x00; 0x00; 0x00];
    [0x00; 0x00; 0x00; 0x00; 0x00; 0x00; 0x00; 0x00];
    [0x00; 0x00; 0x00; 0x00; 0x00; 0x00; 0x00; 0x00];
    [0x00; 0x00; 0x00; 0x00; 0x00; 0x00; 0x00; 0x00];
    [0x00; 0x00; 0x00; 0x00; 0x00; 0x00; 0x00; 0x00];
    [0x00; 0x00; 0x00; 0x00; 0x00; 0x00; 0x00; 0x00];
    [0x00; 0x00; 0x00; 0x00; 0x00; 0x00; 0x00; 0x00];
    [0x00; 0x00; 0x00; 0x00; 0x00; 0x00; 0x00; 0x00];
    [0x00; 0x00; 0x00; 0x00; 0x00; 0x00; 0x00; 0x00];
    [0x00; 0x00; 0x00; 0x00; 0x00; 0x00; 0x00; 0x00];
    [0x00; 0x00; 0x00; 0x00; 0x00; 0x00; 0x00; 0x00];
    [0x10; 0x10; 0x10; 0x10; 0x10; 0x00; 0x10; 0x00];
    [0x24; 0x24; 0x24; 0x00; 0x00; 0x00; 0x00; 0x00];
    [0x28; 0x28; 0x7c; 0x28; 0x7c; 0x28; 0x28; 0x00];
    [0x08; 0x3e; 0x48; 0x3c; 0x12; 0x7c; 0x10; 0x00];
    [0x20; 0x52; 0x54; 0x28; 0x14; 0x2a; 0x4a; 0x04];
    [0x30; 0x48; 0x48; 0x30; 0x4a; 0x44; 0x3a; 0x00];
    [0x08; 0x08; 0x08; 0x00; 0x00; 0x00; 0x00; 0x00];
    [0x08; 0x10; 0x20; 0x20; 0x20; 0x10; 0x08; 0x00];
    [0x20; 0x10; 0x08; 0x08; 0x08; 0x10; 0x20; 0x00];
    [0x00; 0x10; 0x54; 0x28; 0x54; 0x10; 0x00; 0x00];
    [0x00; 0x00; 0x10; 0x10; 0x7c; 0x10; 0x10; 0x00];
    [0x00; 0x00; 0x00; 0x00; 0x00; 0x18; 0x08; 0x10];
    [0x00; 0x00; 0x00; 0x00; 0x7c; 0x00; 0x00; 0x00];
    [0x00; 0x00; 0x00; 0x00; 0x00; 0x18; 0x18; 0x00];
    [0x00; 0x04; 0x08; 0x10; 0x20; 0x40; 0x00; 0x00];
    [0x18; 0x24; 0x24; 0x24; 0x24; 0x24; 0x18; 0x00];
    [0x08; 0x18; 0x28; 0x08; 0x08; 0x08; 0x08; 0x00];
    [0x3c; 0x42; 0x04; 0x08; 0x10; 0x20; 0x7e; 0x00];
    [0x7e; 0x04; 0x08; 0x1c; 0x02; 0x42; 0x3c; 0x00];
    [0x0c; 0x14; 0x24; 0x44; 0x7e; 0x04; 0x04; 0x00];
    [0x7e; 0x40; 0x78; 0x04; 0x02; 0x44; 0x38; 0x00];
    [0x20; 0x40; 0x40; 0x5c; 0x62; 0x42; 0x3c; 0x00];
    [0x7e; 0x02; 0x04; 0x08; 0x10; 0x20; 0x20; 0x00];
    [0x18; 0x24; 0x24; 0x3c; 0x42; 0x42; 0x3c; 0x00];
    [0x3c; 0x42; 0x46; 0x3a; 0x02; 0x02; 0x04; 0x00];
    [0x00; 0x00; 0x18; 0x18; 0x00; 0x18; 0x18; 0x00];
    [0x00; 0x00; 0x18; 0x18; 0x00; 0x18; 0x08; 0x10];
    [0x08; 0x10; 0x20; 0x40; 0x20; 0x10; 0x08; 0x00];
    [0x00; 0x00; 0x7c; 0x00; 0x7c; 0x00; 0x00; 0x00];
    [0x40; 0x20; 0x10; 0x08; 0x10; 0x20; 0x40; 0x00];
    [0x38; 0x44; 0x08; 0x10; 0x10; 0x00; 0x10; 0x00];
    [0x3c; 0x42; 0x5a; 0x6a; 0x5c; 0x40; 0x3c; 0x00];
    [0x18; 0x24; 0x42; 0x42; 0x7e; 0x42; 0x42; 0x00];
    [0x7c; 0x22; 0x22; 0x3c; 0x22; 0x22; 0x7c; 0x00];
    [0x1c; 0x22; 0x40; 0x40; 0x40; 0x22; 0x1c; 0x00];
    [0x78; 0x24; 0x22; 0x22; 0x22; 0x24; 0x78; 0x00];
    [0x7e; 0x40; 0x40; 0x7c; 0x40; 0x40; 0x7e; 0x00];
    [0x7e; 0x40; 0x40; 0x7c; 0x40; 0x40; 0x40; 0x00];
    [0x18; 0x24; 0x40; 0x4e; 0x44; 0x24; 0x18; 0x00];
    [0x42; 0x42; 0x42; 0x7e; 0x42; 0x42; 0x42; 0x00];
    [0x38; 0x10; 0x10; 0x10; 0x10; 0x10; 0x38; 0x00];
    [0x0e; 0x04; 0x04; 0x04; 0x44; 0x44; 0x38; 0x00];
    [0x42; 0x44; 0x48; 0x50; 0x68; 0x44; 0x42; 0x00];
    [0x40; 0x40; 0x40; 0x40; 0x40; 0x40; 0x7e; 0x00];
    [0x82; 0xc6; 0xaa; 0x92; 0x92; 0x82; 0x82; 0x00];
    [0x42; 0x62; 0x52; 0x4a; 0x46; 0x42; 0x42; 0x00];
    [0x3c; 0x42; 0x42; 0x42; 0x42; 0x42; 0x3c; 0x00];
    [0x7c; 0x42; 0x42; 0x7c; 0x40; 0x40; 0x40; 0x00];
    [0x18; 0x24; 0x42; 0x42; 0x4a; 0x24; 0x1a; 0x02];
    [0x7c; 0x42; 0x42; 0x7c; 0x48; 0x44; 0x42; 0x00];
    [0x3c; 0x42; 0x20; 0x18; 0x04; 0x42; 0x3c; 0x00];
    [0xfe; 0x10; 0x10; 0x10; 0x10; 0x10; 0x10; 0x00];
    [0x42; 0x42; 0x42; 0x42; 0x42; 0x42; 0x3c; 0x00];
    [0x42; 0x42; 0x42; 0x24; 0x24; 0x18; 0x18; 0x00];
    [0x82; 0x82; 0x82; 0x92; 0x92; 0xaa; 0x44; 0x00];
    [0x42; 0x42; 0x24; 0x18; 0x24; 0x42; 0x42; 0x00];
    [0x44; 0x28; 0x10; 0x10; 0x10; 0x10; 0x10; 0x00];
    [0x7e; 0x04; 0x08; 0x10; 0x20; 0x40; 0x7e; 0x00];
    [0x38; 0x20; 0x20; 0x20; 0x20; 0x20; 0x20; 0x38];
    [0x00; 0x40; 0x20; 0x10; 0x08; 0x04; 0x00; 0x00];
    [0x38; 0x08; 0x08; 0x08; 0x08; 0x08; 0x08; 0x38];
    [0x10; 0x28; 0x44; 0x00; 0x00; 0x00; 0x00; 0x00];
    [0x00; 0x00; 0x00; 0x00; 0x00; 0x00; 0x00; 0x7e];
    [0x08; 0x08; 0x08; 0x00; 0x00; 0x00; 0x00; 0x00];
    [0x00; 0x00; 0x38; 0x04; 0x3c; 0x44; 0x3e; 0x00];
    [0x40; 0x40; 0x78; 0x44; 0x42; 0x44; 0x78; 0x00];
    [0x00; 0x00; 0x1c; 0x20; 0x40; 0x20; 0x1c; 0x00];
    [0x02; 0x02; 0x1e; 0x22; 0x42; 0x22; 0x1e; 0x00];
    [0x00; 0x00; 0x38; 0x44; 0x7c; 0x40; 0x3c; 0x00];
    [0x0c; 0x10; 0x10; 0x7c; 0x10; 0x10; 0x10; 0x00];
    [0x00; 0x00; 0x38; 0x44; 0x44; 0x3c; 0x04; 0x38];
    [0x40; 0x40; 0x58; 0x64; 0x44; 0x44; 0x44; 0x00];
    [0x10; 0x00; 0x10; 0x10; 0x10; 0x10; 0x10; 0x00];
    [0x04; 0x00; 0x04; 0x04; 0x04; 0x04; 0x24; 0x18];
    [0x40; 0x40; 0x44; 0x48; 0x70; 0x48; 0x44; 0x00];
    [0x10; 0x10; 0x10; 0x10; 0x10; 0x10; 0x08; 0x00];
    [0x00; 0x00; 0xec; 0x92; 0x92; 0x92; 0x92; 0x00];
    [0x00; 0x00; 0xf8; 0x44; 0x44; 0x44; 0x44; 0x00];
    [0x00; 0x00; 0x38; 0x44; 0x44; 0x44; 0x38; 0x00];
    [0x00; 0x00; 0x78; 0x44; 0x42; 0x64; 0x58; 0x40];
    [0x00; 0x00; 0x3c; 0x44; 0x84; 0x4c; 0x34; 0x06];
    [0x00; 0x00; 0x98; 0x64; 0x40; 0x40; 0x40; 0x00];
    [0x00; 0x00; 0x38; 0x64; 0x10; 0x4c; 0x38; 0x00];
    [0x10; 0x10; 0x7c; 0x10; 0x10; 0x10; 0x18; 0x00];
    [0x00; 0x00; 0x44; 0x44; 0x44; 0x44; 0x3e; 0x00];
    [0x00; 0x00; 0x44; 0x44; 0x44; 0x28; 0x10; 0x00];
    [0x00; 0x00; 0x82; 0x82; 0x92; 0xaa; 0x44; 0x00];
    [0x00; 0x00; 0x42; 0x24; 0x18; 0x24; 0x42; 0x00];
    [0x00; 0x00; 0x42; 0x22; 0x14; 0x08; 0x10; 0x20];
    [0x00; 0x00; 0x7c; 0x08; 0x10; 0x20; 0x7c; 0x00];
    [0x0c; 0x10; 0x10; 0x20; 0x10; 0x10; 0x0c; 0x00];
    [0x10; 0x10; 0x10; 0x10; 0x10; 0x10; 0x10; 0x10];
    [0x30; 0x08; 0x08; 0x04; 0x08; 0x08; 0x30; 0x00];
    [0x20; 0x54; 0x08; 0x00; 0x00; 0x00; 0x00; 0x00];
    [0x3c; 0x42; 0x5a; 0x52; 0x5a; 0x42; 0x3c; 0x00]].

Definition Font_new (data : bytes) (glyph_width glyph_height : Z) : Font := mkFont data glyph_width glyph_height.

Definition FONT : Font := Font_new FONT_DATA FONT_GLYPH_WIDTH FONT_GLYPH_HEIGHT.

Lemma FONT_wf : font_wf FONT.
Proof. split; vm_compute; split; congruence. Qed.

(** Every ASCII character has a glyph, of eight rows. *)
Lemma FONT_glyph c : 0 <= c < 128 -> exists g, glyph FONT c = Some g /\ length g = 8%nat.
Proof.
  intros Hc. assert (zlen FONT_DATA = 1024) as Hl by (vm_compute; reflexivity).
  unfold glyph. cbn [FONT Font_new data glyph_height]. change FONT_GLYPH_HEIGHT with 8.
  destruct (Z.leb_spec 128 c); [lia|]. rewrite (u64_small (c * 8)), u64_small by lia. rewrite Hl.
  destruct (Z.ltb_spec 1024 (c * 8 + 8)); [lia|]. eexists. split; [reflexivity|].
  unfold zlen in Hl. rewrite length_slice by lia. lia.
Qed.
