(* ===== verification/Booted.v ===== *)
(** * Booted: a running kernel

    A kernel the boot code of [System.v] sets up on a blank disk (so the root is
    tmpfs), with the scheduler's task and a user task that has just started.  The
    theorems about system calls, the shell's commands and the live file systems are
    applied to it. *)
From Stdlib Require Import ZArith Lia.
From stdpp Require Import base numbers option list gmap.
From S2P Require Import Prelude Memory VfsTypes Path Vfs FdTable Keyboard Task Sched Utf8 Block FatCodec FatOps.
From S2P Require Import TmpFs LiveFs Syscall SyscallFacts System UserLib Shell ShellFacts PsFacts InputFacts.

#[local] Existing Instance FatOps.Demo.ascii_case.

Abbreviation DemoHandle := (AnyHandle (D := unit)).
Abbreviation DemoFs := (AnyFs (D := unit)).
Abbreviation DemoSys := (SysWorld (DW := RamDisk) (D := unit)).
Abbreviation DemoTask := (Task DemoHandle unit).

Definition user_task : DemoTask :=
  mkTask 1 (lit "shell") Running User 0 0x2000 0 None 0x400000 0x500000 FdTable_new (lit "/") None 0.

Definition demo_sched : @Scheduler DemoHandle unit :=
  mkScheduler [set_state Ready (kernel_task 0 0x1000); user_task] 1.

Definition demo_world : World DemoHandle unit :=
  mkWorld (Some demo_sched) 7 (mkMachine (mkRegs 0x9000 1 2 3 4 5 6 0 0x2000) gmap_empty) 0 2.

Definition blank_disk : RamDisk := replicate 4 (replicate 512 0).

(** A tree that already holds a file, to be found by [ls]. *)
Definition demo_root : Node := NodeDirectory [(lit "notes", NodeFile (lit "hi"))].

Definition demo_boot : Boot (DW := RamDisk) (D := unit) :=
  mkBoot Vfs_new (mkSys demo_root [] blank_disk None) [].

Definition demo_booted : Boot (DW := RamDisk) (D := unit) := (setup_fs 10 demo_world tt demo_boot).2.

(** The keys [l], [s], backspace and enter on their way. *)
Definition demo_env : Env DemoSys DemoFs :=
  mkEnv (b_vfs demo_booted) (b_world demo_booted) Keyboard_new [0x4B; 0x1B; 0x66; 0x5A] [] (fun _ => 0).

#[local] Existing Instance any_handle.
#[local] Instance demo_drop : DropHandle DemoSys DemoHandle := any_drop 10.
Abbreviation demo_fs := (any_filesystem (DW := RamDisk) (D := unit) (AS := unit) 10).

Lemma demo_ids : ids_ok demo_world demo_sched.
Proof. split; [reflexivity|]. split; [by_decide|]. by_decide. Qed.

Lemma setup_fs_mounts_witness :
  exists root, mounts (b_vfs demo_booted) = boot_table root /\ vfs_wf (b_vfs demo_booted)
    /\ (root = FsTmp \/ exists fs, root = FsFat fs).
Proof.
  apply (setup_fs_mounts (DW := RamDisk) (D := unit) (AS := unit) 10 demo_world tt demo_boot demo_booted).
  - reflexivity.
  - vm_compute. reflexivity.
Defined.

Lemma tasksfs_listing_witness :
  task_readdir demo_world [slash] tt
    = (Ok [{| de_name := lit "0"; de_file_type := Directory |}; {| de_name := lit "1"; de_file_type := Directory |}], tt)
  /\ task_open demo_world (lit "/1/name") (OpenFlags.from_bits 0) tt = (Ok (mkTaskHandle (lit "shell") 0), tt).
Proof.
  destruct (tasksfs_listing demo_world demo_sched tt (OpenFlags.from_bits 0) demo_ids) as (Hr & Ht & _). split.
  - rewrite Hr. vm_compute. reflexivity.
  - exact (proj2 (proj2 (proj2 (Ht user_task ltac:(vm_compute; right; left))))).
Defined.

(** [open("/notes", O_RDONLY)] from memory where the path lies. *)
Definition demo_call : Kernel DemoSys DemoFs DemoHandle unit :=
  (demo_world, set_mem (Memory.store (fun _ => 0) 0x600000 (lit "/notes")) demo_env).

Lemma system_call_frame_witness :
  kernel_step 0 0 demo_call (syscall_handler (FS := demo_fs) 0 SYS_OPEN 0x600000 6 0 demo_call).2.
Proof.
  apply (system_call_frame 10 0 SYS_OPEN 0x600000 6 0 demo_call
    (syscall_handler (FS := demo_fs) 0 SYS_OPEN 0x600000 6 0 demo_call).1).
  - vm_compute. discriminate.
  - vm_compute. discriminate.
  - vm_compute. discriminate.
  - vm_compute. discriminate.
  - apply surjective_pairing.
Defined.

Lemma new_first_free : first_free (H := DemoHandle) FdTable_new 3.
Proof. split; [vm_compute; reflexivity|]. intros [|[|[|j]]] Hj H; vm_compute in H; try discriminate. lia. Qed.

(** [ls] in the root: the boot's own directories, and the file. *)
Lemma ls_lists_witness :
  exists es m, ls_run (FS := demo_fs) 0x600000 0 6 [] (demo_world, demo_env)
    = (Ok tt, (demo_world, printed (es ≫= ls_text) m (set_fs (b_world demo_booted) demo_env)))
  /\ es ≫= ls_text = lit "[DIR]  dev" ++ [newline] ++ lit "[DIR]  live" ++ [newline] ++ lit "[FILE] notes" ++ [newline].
Proof.
  exists [{| de_name := lit "dev"; de_file_type := Directory |}; {| de_name := lit "live"; de_file_type := Directory |};
     {| de_name := lit "notes"; de_file_type := File |}].
  destruct (ls_lists (FS := demo_fs) 0x600000 0 [] (lit ".") FdTable_new 3
    [{| de_name := lit "dev"; de_file_type := Directory |}; {| de_name := lit "live"; de_file_type := Directory |};
     {| de_name := lit "notes"; de_file_type := File |}]
    (b_world demo_booted) 6 demo_world demo_env) as [m Hm].
  - vm_compute. reflexivity.
  - vm_compute. reflexivity.
  - apply fd_new_wf.
  - apply new_first_free.
  - vm_compute. reflexivity.
  - by_decide.
  - vm_compute. lia.
  - exists m. split; [exact Hm|]. vm_compute. reflexivity.
Defined.

Lemma ps_lists_witness :
  exists m, ps_run (FS := demo_fs) 0x600000 0 6 (demo_world, demo_env)
    = (Ok tt, (demo_world, printed (lit "0" ++ [9] ++ lit "ready" ++ [9; 9] ++ lit "kernel" ++ [newline] ++
                                   lit "1" ++ [9] ++ lit "running" ++ [9; 9] ++ lit "user" ++ [newline]) m demo_env)).
Proof.
  destruct (ps_lists 10 0x600000 0 demo_sched FsTmp FdTable_new 3 4 6 demo_world demo_env) as [m Hm].
  - vm_compute. reflexivity.
  - apply demo_ids.
  - vm_compute. reflexivity.
  - apply fd_new_wf.
  - split; [apply new_first_free|]. split; [lia|]. split; [vm_compute; reflexivity|]. intros l Hl. lia.
  - vm_compute. lia.
  - exists m. exact Hm.
Defined.

(** [cd live], then [getcwd]. *)
Lemma chdir_getcwd_witness :
  exists e1 e2 buf', let w' := set_cur_cwd (lit "/live") demo_world in
    Vlib.chdir (FS := demo_fs) 0x600000 0 (lit "live") (demo_world, demo_env) = (Ok 0, (w', e1))
    /\ Vlib.getcwd (FS := demo_fs) 0x600000 0 (replicate 256 0) (w', e1) = (Ok (5, buf'), (w', e2))
    /\ take 5 buf' = lit "/live".
Proof.
  destruct (chdir_getcwd (FS := demo_fs) 0x600000 0 (lit "live") (lit "live")
    (Ok {| md_file_type := Directory; md_size := 2 |}) (b_world demo_booted) (replicate 256 0) demo_world demo_env)
    as (m & m' & buf' & H).
  - vm_compute. reflexivity.
  - vm_compute. eexists. reflexivity.
  - vm_compute. reflexivity.
  - vm_compute. reflexivity.
  - eexists _, _, buf'. exact H.
Defined.

(** The keys [l], [s] and backspace, then enter: the line is [l]. *)
Lemma read_line_edits_witness :
  exists buf' e',
    read_line (FS := demo_fs) 0x600000 0 5 (replicate 64 0) (demo_world, demo_env)
      = (Ok (buf', 1%nat), (demo_world, e'))
    /\ take 1 buf' = lit "l"
    /\ e_out e' = Char <$> lit "ls" ++ [8; 32; 8; newline].
Proof.
  destruct (read_line_edits (FS := demo_fs) 0x600000 0 [108; 115; 8] 5 (replicate 64 0) [] demo_world demo_env)
    as (buf' & m & kb & irq & Hr & _ & Ht & _ & _).
  - by_decide.
  - vm_compute. lia.
  - vm_compute. lia.
  - vm_compute. reflexivity.
  - apply kb_new_wf.
  - vm_compute. reflexivity.
  - eexists buf', _. split; [exact Hr|]. split; [exact Ht|]. vm_compute. reflexivity.
Defined.
